(* ===== verification/_CoqProject ===== *)
-Q . S2P
Prelude.v
Io.v
Spinlock.v
Crc.v
Pmm.v
Heap.v
Vmm.v
Kheap.v
Block.v
Limine.v
Gpt.v
Keyboard.v
KbdCtl.v
Scheduler.v
Smp.v
Entry.v
Graphics.v
Terminal.v
Klog.v
Ext4Layout.v
Ext4.v
Ext4Inode.v
Ext4Alloc.v
Ext4Extent.v
Ext4Dir.v
Ext4File.v
Ext4Write.v
Ext4Lookup.v
UserMem.v
Dma.v
Ahci.v
AhciHw.v
AhciCmd.v
AhciXfer.v
AhciDisk.v
AhciInit.v
AhciRam.v
Pci.v
AhciSample.v
Apic.v
Descriptors.v
Segments.v
Fs.v
Boot.v
Kernel.v
Shell.v
User.v
Syscall.v
Trap.v
Exceptions.v
Kmain.v
