(* ===== verification/Prelude.v ===== *)
(** * A verification of the PINX kernel

    PINX is a small x86-64 kernel in Rust. It boots with Limine, manages physical
    and virtual memory, finds the AHCI disks on the PCI bus, schedules ring-3
    programs over several processors, reads them from an ext4 volume on a GPT disk,
    and serves them system calls. This
    development translates its components into Rocq functions, file by file, and
    proves what makes each of them correct.

    ** How code is modelled

    The Makefile builds the [dev] profile, so arithmetic that leaves its width
    panics ([chk]) and only [as] casts and explicit wrapping operations wrap
    ([wrap]). A run has an [outcome]: it returns, it stops the machine ([Panic]:
    a [kpanic!], a Rust panic, a failed bounds check, a page fault of the kernel),
    or a loop of the model has used up its fuel ([OutOfFuel]). Stateful code is in
    the monad [M S]; [?] is [qbind]. Integers are [Z] within the bounds of their
    type, byte buffers are lists of [Z], memory that is read and written through
    raw pointers is a finite map. Every loop that is not bounded by a range takes
    fuel, and the theorems about it show that the fuel given is enough, so "it
    returns" is always part of the statement; the one loop of the source that
    need not end ([map_block]) is shown to diverge for every fuel on a cyclic
    tree and to return on every well-formed one.

    ** The files

    - [Prelude]: outcomes, the monads and their notation, checked and wrapping
      arithmetic, buffers, loops, and the lemmas, tactics and hint databases for
      them.
    - [Io], [Spinlock], [Smp]: the interrupt flag ([io.rs]), the spin lock as a
      machine of processors and interrupts ([spinlock.rs]), the numbering of
      processors ([smp.rs]).
    - [Pmm], [Vmm], [Heap], [Kheap]: the frame bitmap, the page tables in a word
      memory, the free-list heap and its construction ([mm.rs]). [FrameAllocator]
      is what the page tables ask of the bitmap; [pmm_ok], [vmm_ok] and the
      tiling of the heap are the invariants.
    - [Graphics], [Terminal], [Klog]: drawing with the font ([graphics.rs],
      [font.rs]), the cursor ([terminal.rs]) and the levels of the log ([klog.rs]);
      [Console] is the promise to the rest.
    - [Keyboard], [KbdCtl]: scan codes, modifiers and the ring buffer
      ([keyboard.rs]), refined to a bounded queue of keys, and the handshake with
      the 8042.
    - [Scheduler]: tasks, per-processor state, every operation under the run queue
      lock ([scheduler.rs], parts of [gdt.rs]); [sched_step] is the machine.
    - [Crc], [Block], [Gpt]: checksums ([crc.rs]), the block device trait with its
      contract [BlockLaws] and the contract [Disks] of the disk driver
      ([block.rs]), partition tables and partitions as devices ([gpt.rs]).
    - [Ext4Layout], [Ext4], [Ext4Inode], [Ext4Alloc], [Ext4Extent], [Ext4Dir],
      [Ext4File]: the ext4 driver ([ext4.rs]) over any device with [BlockLaws]:
      record layouts; mounting, blocks and group descriptors; inodes; bitmaps;
      extent trees; directories; reading, writing and creating files.
      [Ext4Write] and [Ext4Lookup] hold the theorems about writing a file and
      about searching and extending a directory.
    - [Dma], [Ahci], [AhciHw], [AhciCmd], [AhciXfer], [AhciDisk], [AhciInit],
      [AhciRam], [AhciSample]: the disk driver ([ahci.rs]): memory shared with a
      device through the page tables; every operation of the driver; the contract
      [HbaLaws] of a host bus adapter; commands, transfers, disks, bring-up; an
      adapter in memory that keeps the contract, and a machine with one drive.
    - [Pci], [Fs]: the walk over the bus ([pci.rs]) and the mount at boot
      ([fs.rs]), the latter over the whole stack from the bus to ext4.
    - [Apic], [Descriptors]: interrupt controllers, timer and delay ([apic.rs],
      [delay.rs]); the bytes of the descriptor tables and how a processor reads them
      ([gdt.rs], [idt.rs]).
    - [Kernel]: the components side by side, and the accessors of [fs.rs].
    - [UserMem], [User], [Syscall]: pages for programs, the program loader
      ([user.rs]), the system calls and the common interrupt handler ([syscall.rs],
      [interrupts.rs]).
    - [Limine]: the structures shared with the bootloader as C lays them out, the
      requests between their markers, and their accessors ([limine.rs]).
    - [Boot], [Kmain]: what a released processor does ([ap_entry] of [smp.rs]), and
      the boot sequence up to the release of the processors ([main.rs]).
    - [Entry], [Trap]: the stubs of [asm.rs] as programs of a small machine, and the
      two together: what an interrupt does to the program it interrupts.
    - [Exceptions]: the exception stubs and handlers, to the halt they end in
      ([exceptions.rs], [asm.rs], the end of [terminal.rs]).
    - [Segments]: the machine of [Entry] with data segment registers, and on it the
      reload of the segments and the way to ring 3 ([gdt_flush] and [enter_user] of
      [asm.rs]).
    - [Shell]: the fallback shell ([shell.rs]).

    ** What is shown

    - Memory: the allocator hands out each free frame once and misses none;
      mapping and unmapping change exactly one translation and grant ring 3
      exactly what was asked; the heap stays tiled, allocation is first fit,
      freeing undoes it.
    - Concurrency: the spin lock excludes, cannot deadlock with a handler of the
      same processor, and lets a waiting processor in; a task is on at most one
      processor as long as no wake-up meets a task that has not left its
      processor, and on two when one does.
    - Storage: the checksums are the bit-serial ones; a partition isolates its
      writes; mounting accepts what it should; inodes, extents, directory entries
      and files read back as written, with checksums; writing a range of a file
      changes exactly those bytes and nothing outside its blocks and the block of its
      inode, and the search of a directory finds exactly the names that are in it, one
      just added among them; bitmap allocation takes one clear, non-metadata bit.
    - Disks: the adapter fetches just the command the driver means; after the bus
      walk every disk found keeps the contract [Disks] of the block layer over the
      contents of its drive, and what is mounted from it is a partition of a checked
      table.
    - The processor: the selectors and gates mean what the kernel takes them for;
      the delay ends after its milliseconds; the keyboard controller is set up; a
      tick of the timer resumes exactly the registers saved for the task chosen,
      devices cannot be noticed, and a call changes [rax] alone.
    - Booting: each accessor finds the response to its own request, in whatever order
      the linker places them; interrupts are turned on only when all they lead to is
      in place; a processor is released only when the scheduler is ready for it, and
      then comes up. An exception prints its report and stops its processor for good.
    - Programs: a user pointer is accepted exactly when it is mapped user memory;
      anonymous memory is zeroed and fresh; a segment reads as the file; writing
      to the console never faults; the shell holds the line its keys make.
    - Flaws of the code that the proofs met are theorems too ([..._panics],
      [..._diverges], [..._overwrites_kernel], [..._unmaps], [..._double_run],
      [..._starves_third_task], [..._refused]).

    ** Parameters

    Below ext4 a device is known by [BlockLaws], below GPT a disk driver by [Disks],
    below the disk driver an adapter by [HbaLaws], below the keyboard its controller
    by [Ps2Laws], and below the boot protocol a bootloader by [Loader]. Each contract says what the documentation of that part says, and
    has an instance in memory on which the witnesses run; [Disks] is discharged by
    the disk driver itself. The answers of configuration space, of model-specific
    registers and of [cpuid], and the values the linker, the bootloader and the
    processor supply (addresses, [cr3], scan codes, what a handler leaves in the
    registers a call may clobber) are arguments. The instructions of the stubs and
    the delivery of an interrupt follow the manual of the processor.

    ** Not modelled

    Of [kmain], the last steps (mounting the disk, starting [/init] or the shell):
    each is modelled and proved in its own file, over the interface of the disk below
    it, but they are not composed with the sequence before them, whose machine holds
    the page tables the disk driver uses. The build script, and the user programs,
    which are calls to a library that is not part of the repository. The 32-bit port
    instructions, which are behind the parameter for configuration space. Log
    messages inside modelled functions are left out, except those of [kmain], as are cache flushes, fences
    and the end-of-interrupt message. A system call is one step: its lock sections
    are not interleaved with other processors, except in [Spinlock] and in the
    step relation of [Scheduler]. The TLB is not interpreted; flushes are
    recorded. Stores to misaligned user addresses go byte by byte. A key pressed
    during the handshake with the keyboard controller is not considered, nor are
    interrupts between the steps of [kmain]. *)

From stdpp Require Export base gmap list numbers tactics option.
#[local] Set Default Proof Using "Type".
#[global] Open Scope Z_scope.

(** [lia] also decides goals with [/] and [mod] by a literal. *)
Ltac Zify.zify_post_hook ::= Z.to_euclidean_division_equations.

(** ** Outcomes

    A run of kernel code either returns, stops the machine ([Panic]: a
    [kpanic!], a Rust panic such as an index out of bounds, or an arithmetic
    overflow, which the [dev] profile the Makefile builds turns into a panic),
    or has not finished within the fuel given to a loop of the model. *)
Inductive outcome (A : Type) : Type :=
| Ret (a : A)
| Panic
| OutOfFuel.
Arguments Ret {A} a.
Arguments Panic {A}.
Arguments OutOfFuel {A}.

(** Rust's [Result]. *)
Inductive result (E A : Type) : Type :=
| Ok (a : A)
| Err (e : E).
Arguments Ok {E A} a.
Arguments Err {E A} e.

Definition obind {A B : Type} (m : outcome A) (k : A -> outcome B) : outcome B :=
  match m with
  | Ret a => k a
  | Panic => Panic
  | OutOfFuel => OutOfFuel
  end.

(** Code that reads and writes a state [S] and may panic. *)
Definition M (S A : Type) : Type := S -> outcome (A * S).

Definition sret {S A : Type} (a : A) : M S A := fun s => Ret (a, s).

Definition sbind {S A B : Type} (m : M S A) (k : A -> M S B) : M S B :=
  fun s => match m s with
           | Ret (a, s') => k a s'
           | Panic => Panic
           | OutOfFuel => OutOfFuel
           end.

(** The [?] operator: an [Err] leaves the function, the state written so far
    stays written. *)
Definition qbind {S E A B : Type} (m : M S (result E A))
    (k : A -> M S (result E B)) : M S (result E B) :=
  sbind m (fun r => match r with
                    | Ok a => k a
                    | Err e => sret (Err e)
                    end).

Definition slift {S A : Type} (m : outcome A) : M S A :=
  fun s => match m with
           | Ret a => Ret (a, s)
           | Panic => Panic
           | OutOfFuel => OutOfFuel
           end.

Definition sget {S : Type} : M S S := fun s => Ret (s, s).
Definition sput {S : Type} (s : S) : M S unit := fun _ => Ret (tt, s).
Definition smodify {S : Type} (f : S -> S) : M S unit := fun s => Ret (tt, f s).
Definition spanic {S A : Type} : M S A := fun _ => Panic.

Declare Scope kernel_scope.
Delimit Scope kernel_scope with kernel.
Notation "'let!' x := m 'in' k" := (obind m (fun x => k))
  (at level 10, x binder, m at level 99, k at level 200, only parsing) : kernel_scope.
Notation "x <- m ;; k" := (sbind m (fun x => k))
  (at level 20, m at level 99, k at level 200, only parsing) : kernel_scope.
Notation "' p <- m ;; k" := (sbind m (fun p => k))
  (at level 20, p pattern, m at level 99, k at level 200, only parsing) : kernel_scope.
Notation "x <-? m ;; k" := (qbind m (fun x => k))
  (at level 20, m at level 99, k at level 200, only parsing) : kernel_scope.
Notation "' p <-? m ;; k" := (qbind m (fun p => k))
  (at level 20, p pattern, m at level 99, k at level 200, only parsing) : kernel_scope.
Notation "x <-! m ;; k" := (sbind (slift m) (fun x => k))
  (at level 20, m at level 99, k at level 200, only parsing) : kernel_scope.
Notation "' p <-! m ;; k" := (sbind (slift m) (fun p => k))
  (at level 20, p pattern, m at level 99, k at level 200, only parsing) : kernel_scope.
#[global] Open Scope kernel_scope.

(** ** Loops

    A loop body either goes on with the next value of the loop variables or
    leaves with the value of an enclosing [return] or [break]. *)
Inductive flow (A R : Type) : Type :=
| Next (a : A)
| Exit (r : R).
Arguments Next {A R} a.
Arguments Exit {A R} r.

(** [for i in i0..i0 + n { body }] in state-passing code. *)
Fixpoint for_loop {S A R : Type} (n : nat) (i : Z)
    (body : Z -> A -> M S (flow A R)) (a : A) : M S (flow A R) :=
  match n with
  | O => sret (Next a)
  | S n' =>
      r <- body i a ;;
      match r with
      | Next a' => for_loop n' (i + 1) body a'
      | Exit x => sret (Exit x)
      end
  end.

(** [while] and [loop] in state-passing code; the body performs the test. *)
Fixpoint while_loop {S A R : Type} (fuel : nat)
    (body : A -> M S (flow A R)) (a : A) : M S R :=
  match fuel with
  | O => fun _ => OutOfFuel
  | S fuel' =>
      r <- body a ;;
      match r with
      | Next a' => while_loop fuel' body a'
      | Exit x => sret x
      end
  end.

(** The same two loops in code without state. *)
Fixpoint ofor {A R : Type} (n : nat) (i : Z)
    (body : Z -> A -> outcome (flow A R)) (a : A) : outcome (flow A R) :=
  match n with
  | O => Ret (Next a)
  | S n' =>
      let! r := body i a in
      match r with
      | Next a' => ofor n' (i + 1) body a'
      | Exit x => Ret (Exit x)
      end
  end.

Fixpoint owhile {A R : Type} (fuel : nat)
    (body : A -> outcome (flow A R)) (a : A) : outcome R :=
  match fuel with
  | O => OutOfFuel
  | S fuel' =>
      let! r := body a in
      match r with
      | Next a' => owhile fuel' body a'
      | Exit x => Ret x
      end
  end.

(** ** Machine integers

    A [uN] value is a [Z] between 0 and [2^N]. Plain arithmetic is checked
    ([chk]), [as uN] casts and the [wrapping_] operations reduce modulo [2^N]
    ([wrap]). *)
Definition in_u (w x : Z) : bool := (0 <=? x) && (x <? 2 ^ w).

Definition chk (w x : Z) : outcome Z := if in_u w x then Ret x else Panic.

Definition wrap (w x : Z) : Z := x mod 2 ^ w.

(** Bitwise [!x] at width [w]. *)
Definition unot (w x : Z) : Z := Z.ldiff (Z.ones w) x.

Definition u64_max : Z := 2 ^ 64 - 1.
Definition u32_max : Z := 2 ^ 32 - 1.

(** [i64] arithmetic, checked as well. *)
Definition chk_i64 (x : Z) : outcome Z :=
  if (- 2 ^ 63 <=? x) && (x <? 2 ^ 63) then Ret x else Panic.

(** [x as i64] of a [u64]. *)
Definition as_i64 (x : Z) : Z := if x <? 2 ^ 63 then x else x - 2 ^ 64.

(** ** Byte buffers

    A [u8] slice or array is the list of its bytes. *)
Definition blen (b : list Z) : Z := Z.of_nat (length b).

Definition bytes_ok (b : list Z) : Prop := Forall (fun x => 0 <= x < 256) b.

(** [[0u8; n]] *)
Definition zeros (n : Z) : list Z := replicate (Z.to_nat n) 0.

(** [b[i]] *)
Definition get8 (b : list Z) (i : Z) : outcome Z :=
  if i <? 0 then Panic else
  match b !! Z.to_nat i with
  | Some v => Ret v
  | None => Panic
  end.

(** [&b[lo..hi]] *)
Definition slice (b : list Z) (lo hi : Z) : outcome (list Z) :=
  if (0 <=? lo) && (lo <=? hi) && (hi <=? blen b)
  then Ret (take (Z.to_nat (hi - lo)) (drop (Z.to_nat lo) b))
  else Panic.

(** [b[lo..lo + src.len()].copy_from_slice(src)] *)
Definition splice (b : list Z) (lo : Z) (src : list Z) : outcome (list Z) :=
  if (0 <=? lo) && (lo + blen src <=? blen b)
  then Ret (take (Z.to_nat lo) b ++ src ++ drop (Z.to_nat lo + length src) b)
  else Panic.

(** [b[i] = v] *)
Definition put8 (b : list Z) (i v : Z) : outcome (list Z) := splice b i [v].

(** [uN::from_le_bytes] and [to_le_bytes], for a list of bytes. *)
Fixpoint from_le (bs : list Z) : Z :=
  match bs with
  | [] => 0
  | b :: bs' => b + 256 * from_le bs'
  end.

Fixpoint to_le (n : nat) (v : Z) : list Z :=
  match n with
  | O => []
  | S n' => v mod 256 :: to_le n' (v / 256)
  end.

(** ** Reasoning about runs *)

Lemma obind_Ret_inv {A B} (m : outcome A) (k : A -> outcome B) b :
  obind m k = Ret b -> exists a, m = Ret a /\ k a = Ret b.
Proof. destruct m; simpl; naive_solver. Qed.

Lemma sbind_Ret_inv {S A B} (m : M S A) (k : A -> M S B) s b s' :
  sbind m k s = Ret (b, s') ->
  exists a s1, m s = Ret (a, s1) /\ k a s1 = Ret (b, s').
Proof. unfold sbind. destruct (m s) as [[a s1]| |]; naive_solver. Qed.

Lemma sbind_Ret {S A B} (m : M S A) (k : A -> M S B) s a s1 :
  m s = Ret (a, s1) -> sbind m k s = k a s1.
Proof. unfold sbind. by intros ->. Qed.

Lemma qbind_Ok {S E A B} (m : M S (result E A)) (k : A -> M S (result E B)) s a s1 :
  m s = Ret (Ok a, s1) -> qbind m k s = k a s1.
Proof. unfold qbind, sbind. by intros ->. Qed.

Lemma qbind_Err {S E A B} (m : M S (result E A)) (k : A -> M S (result E B)) s e s1 :
  m s = Ret (Err e, s1) -> qbind m k s = Ret (Err e, s1).
Proof. unfold qbind, sbind. by intros ->. Qed.

Lemma qbind_Ok_inv {S E A B} (m : M S (result E A)) (k : A -> M S (result E B)) s b s' :
  qbind m k s = Ret (Ok b, s') ->
  exists a s1, m s = Ret (Ok a, s1) /\ k a s1 = Ret (Ok b, s').
Proof.
  unfold qbind. intros (r & s1 & Hm & Hk)%sbind_Ret_inv.
  destruct r; [eauto|]. unfold sret in Hk. naive_solver.
Qed.

Lemma qbind_Ret_inv {S E A B} (m : M S (result E A)) (k : A -> M S (result E B)) s r s' :
  qbind m k s = Ret (r, s') ->
  (exists e, m s = Ret (Err e, s') /\ r = Err e) \/
  (exists a s1, m s = Ret (Ok a, s1) /\ k a s1 = Ret (r, s')).
Proof.
  unfold qbind. intros (r0 & s1 & Hm & Hk)%sbind_Ret_inv.
  destruct r0; [eauto|]. unfold sret in Hk. left. naive_solver.
Qed.

Lemma slift_Ret_inv {S A} (m : outcome A) (s : S) a s' :
  slift m s = Ret (a, s') -> m = Ret a /\ s' = s.
Proof. unfold slift. destruct m; naive_solver. Qed.

(** Split a hypothesis that a composed run returned into its steps. *)
Ltac inv_run :=
  repeat match goal with
  | H : obind _ _ = Ret _ |- _ =>
      let a := fresh "a" in let H1 := fresh "Hrun" in
      apply obind_Ret_inv in H; destruct H as (a & H1 & H)
  | H : sbind _ _ _ = Ret (_, _) |- _ =>
      let a := fresh "a" in let s := fresh "s" in let H1 := fresh "Hrun" in
      apply sbind_Ret_inv in H; destruct H as (a & s & H1 & H)
  | H : qbind _ _ _ = Ret (Ok _, _) |- _ =>
      let a := fresh "a" in let s := fresh "s" in let H1 := fresh "Hrun" in
      apply qbind_Ok_inv in H; destruct H as (a & s & H1 & H)
  | H : slift _ _ = Ret (_, _) |- _ =>
      apply slift_Ret_inv in H; destruct H as [H ?]; subst
  | H : sret _ _ = Ret (_, _) |- _ => unfold sret in H; simplify_eq
  | H : sget _ = Ret (_, _) |- _ => unfold sget in H; simplify_eq
  | H : sput _ _ = Ret (_, _) |- _ => unfold sput in H; simplify_eq
  | H : smodify _ _ = Ret (_, _) |- _ => unfold smodify in H; simplify_eq
  | H : spanic _ = Ret _ |- _ => discriminate H
  | H : Ret _ = Ret _ |- _ => injection H as H; simplify_eq
  end.

(** Turn boolean tests in hypotheses and goals into propositions. *)
Ltac zify_bool :=
  repeat match goal with
  | H : _ && _ = true |- _ => apply andb_true_iff in H; destruct H
  | H : _ || _ = false |- _ => apply orb_false_iff in H; destruct H
  | H : negb _ = true |- _ => apply negb_true_iff in H
  | H : negb _ = false |- _ => apply negb_false_iff in H
  | H : (_ =? _) = true |- _ => apply Z.eqb_eq in H
  | H : (_ =? _) = false |- _ => apply Z.eqb_neq in H
  | H : (_ <? _) = true |- _ => apply Z.ltb_lt in H
  | H : (_ <? _) = false |- _ => apply Z.ltb_ge in H
  | H : (_ <=? _) = true |- _ => apply Z.leb_le in H
  | H : (_ <=? _) = false |- _ => apply Z.leb_gt in H
  end.

(** Case analysis on the test of the first [if] in the goal. *)
Ltac case_test :=
  match goal with
  | |- context [if ?b then _ else _] =>
      match type of b with bool => destruct b eqn:? end
  end; zify_bool.

Ltac case_test_in H :=
  match type of H with
  | context [if ?b then _ else _] =>
      match type of b with bool => destruct b eqn:? end
  end; zify_bool.

(** ** Machine integers: lemmas *)

Lemma chk_Ret w x : 0 <= x < 2 ^ w -> chk w x = Ret x.
Proof. intros [??]. unfold chk, in_u. case_test; [done|lia]. Qed.

Lemma chk_Panic w x : ~ (0 <= x < 2 ^ w) -> chk w x = Panic.
Proof. intros Hx. unfold chk, in_u. case_test; [|done]. zify_bool. lia. Qed.

Lemma chk_inv w x y : chk w x = Ret y -> y = x /\ 0 <= x < 2 ^ w.
Proof.
  unfold chk, in_u. case_test; [|done]. intros [= <-]. zify_bool. lia.
Qed.

Lemma wrap_small w x : 0 <= x < 2 ^ w -> wrap w x = x.
Proof. apply Z.mod_small. Qed.

Lemma wrap_range w x : 0 <= w -> 0 <= wrap w x < 2 ^ w.
Proof. intros. apply Z.mod_pos_bound, Z.pow_pos_nonneg; lia. Qed.

(** *** Bits *)

Lemma testbit_above w x i : 0 <= x < 2 ^ w -> w <= i -> Z.testbit x i = false.
Proof.
  intros Hx Hi. destruct (decide (0 <= w)) as [Hw|Hw].
  - rewrite <-(Z.mod_small x (2 ^ w)) by lia. by apply Z.mod_pow2_bits_high.
  - rewrite Z.pow_neg_r in Hx by lia. lia.
Qed.

Lemma bits_bound w x :
  0 <= w -> 0 <= x -> (forall i, w <= i -> Z.testbit x i = false) -> x < 2 ^ w.
Proof.
  intros Hw Hx Hbits.
  enough (x = x mod 2 ^ w) as ->.
  { apply Z.mod_pos_bound, Z.pow_pos_nonneg; lia. }
  apply Z.bits_inj'. intros i Hi. destruct (decide (i < w)).
  - by rewrite Z.mod_pow2_bits_low by lia.
  - rewrite Z.mod_pow2_bits_high by lia. apply Hbits. lia.
Qed.

Lemma testbit_one b i : 0 <= b -> Z.testbit (Z.shiftl 1 b) i = (i =? b).
Proof.
  intros Hb. rewrite Z.shiftl_1_l. destruct (Z.eqb_spec i b) as [->|Hne].
  - by apply Z.pow2_bits_true.
  - by apply Z.pow2_bits_false.
Qed.

Lemma testbit_unot w x i :
  0 <= w -> 0 <= i -> Z.testbit (unot w x) i = (i <? w) && negb (Z.testbit x i).
Proof.
  intros Hw Hi. unfold unot. rewrite Z.ldiff_spec. f_equal.
  destruct (Z.ltb_spec i w); [apply Z.ones_spec_low|apply Z.ones_spec_high]; lia.
Qed.

Lemma unot_range w x : 0 <= w -> 0 <= unot w x < 2 ^ w.
Proof.
  intros Hw.
  assert (0 <= unot w x).
  { unfold unot. apply Z.ldiff_nonneg. left. rewrite Z.ones_equiv.
    enough (0 < 2 ^ w) by lia. apply Z.pow_pos_nonneg; lia. }
  split; [done|]. apply bits_bound; [done..|]. intros i Hi.
  rewrite testbit_unot by lia. destruct (Z.ltb_spec i w); [lia|done].
Qed.

Lemma lor_range w a b :
  0 <= w -> 0 <= a < 2 ^ w -> 0 <= b < 2 ^ w -> 0 <= Z.lor a b < 2 ^ w.
Proof.
  intros. split; [apply Z.lor_nonneg; lia|].
  apply bits_bound; [done|apply Z.lor_nonneg; lia|].
  intros. rewrite Z.lor_spec, !(testbit_above w) by lia. done.
Qed.

Lemma lxor_range w a b :
  0 <= w -> 0 <= a < 2 ^ w -> 0 <= b < 2 ^ w -> 0 <= Z.lxor a b < 2 ^ w.
Proof.
  intros. assert (0 <= Z.lxor a b) by (apply Z.lxor_nonneg; lia).
  split; [done|]. apply bits_bound; [done..|].
  intros. rewrite Z.lxor_spec, !(testbit_above w) by lia. done.
Qed.

Lemma land_range w a b : 0 <= w -> 0 <= a < 2 ^ w -> 0 <= Z.land a b < 2 ^ w.
Proof.
  intros. assert (0 <= Z.land a b) by (apply Z.land_nonneg; lia).
  split; [done|]. apply bits_bound; [done..|].
  intros. rewrite Z.land_spec, (testbit_above w a) by lia. done.
Qed.

Lemma shiftr_range w a n :
  0 <= w -> 0 <= n -> 0 <= a < 2 ^ w -> 0 <= Z.shiftr a n < 2 ^ w.
Proof.
  intros. assert (0 <= Z.shiftr a n) by (apply Z.shiftr_nonneg; lia).
  split; [done|]. apply bits_bound; [done..|].
  intros. rewrite Z.shiftr_spec, (testbit_above w) by lia. done.
Qed.

Lemma one_range w b : 0 <= b < w -> 0 <= Z.shiftl 1 b < 2 ^ w.
Proof.
  intros. rewrite Z.shiftl_1_l. split; [apply Z.pow_nonneg; lia|].
  apply Z.pow_lt_mono_r; lia.
Qed.

(** The all-ones word is the only word without a clear bit. *)
Lemma all_ones w x :
  0 <= w -> 0 <= x < 2 ^ w ->
  x = 2 ^ w - 1 <-> (forall i, 0 <= i < w -> Z.testbit x i = true).
Proof.
  intros Hw Hx. replace (2 ^ w - 1) with (Z.ones w) by (rewrite Z.ones_equiv; lia).
  split.
  - intros -> i Hi. apply Z.ones_spec_low; lia.
  - intros Hall. apply Z.bits_inj'. intros i Hi. destruct (decide (i < w)).
    + rewrite Hall, Z.ones_spec_low by lia. done.
    + rewrite (testbit_above w), Z.ones_spec_high by lia. done.
Qed.

Create Rewrite HintDb zbits.
#[export] Hint Rewrite Z.lor_spec Z.land_spec Z.lxor_spec Z.ldiff_spec : zbits.
#[export] Hint Rewrite Z.shiftr_spec Z.shiftl_spec Z.lnot_spec using lia : zbits.
#[export] Hint Rewrite testbit_one testbit_unot using lia : zbits.
#[export] Hint Rewrite Z.bits_0 Z.testbit_ones_nonneg using lia : zbits.

(** Prove an equation between words bit by bit. *)
Ltac zbits i :=
  apply Z.bits_inj'; intros i ?; autorewrite with zbits.

(** Fields that do not meet are put together by addition. *)
Lemma lor_shift a b k : 0 <= k -> 0 <= b < 2 ^ k -> Z.lor (Z.shiftl a k) b = a * 2 ^ k + b.
Proof.
  intros Hk Hb. rewrite <- Z.shiftl_mul_pow2 by done. rewrite <- Z.lxor_lor, <- Z.add_nocarry_lxor; [done| |].
  all: zbits i; destruct (Z.lt_ge_cases i k); [by rewrite Z.testbit_neg_r by lia|].
  all: rewrite (testbit_above k b) by lia; by rewrite andb_false_r.
Qed.

(** [w & (1 << b) == 0] tests bit [b]. *)
Lemma land_bit_zero w b :
  0 <= b -> (Z.land w (Z.shiftl 1 b) =? 0) = negb (Z.testbit w b).
Proof.
  intros Hb. destruct (Z.eqb_spec (Z.land w (Z.shiftl 1 b)) 0) as [H0|H0].
  - apply (f_equal (fun z => Z.testbit z b)) in H0.
    autorewrite with zbits in H0. rewrite Z.eqb_refl, andb_true_r in H0. by rewrite H0.
  - destruct (Z.testbit w b) eqn:E; [done|]. destruct H0.
    zbits i. destruct (Z.eqb_spec i b) as [->|]; [by rewrite E|apply andb_false_r].
Qed.

(** [x & !(2^k - 1)] rounds down to a multiple of [2^k]. *)
Lemma land_align w k x :
  0 <= k <= w -> 0 <= x < 2 ^ w ->
  Z.land x (unot w (Z.ones k)) = x / 2 ^ k * 2 ^ k.
Proof.
  intros Hk Hx. rewrite <-Z.shiftr_div_pow2, <-Z.shiftl_mul_pow2 by lia.
  zbits i. destruct (Z.ltb_spec i k) as [Hik|Hik].
  - rewrite (Z.testbit_neg_r (Z.shiftr x k)) by lia. simpl.
    by rewrite !andb_false_r.
  - rewrite Z.shiftr_spec by lia. replace (i - k + k) with i by lia.
    destruct (Z.ltb_spec i w); simpl; rewrite ?andb_true_r; [done|].
    by rewrite (testbit_above w x) by lia.
Qed.

(** ** Buffers: lemmas *)

Lemma blen_nonneg b : 0 <= blen b.
Proof. unfold blen. lia. Qed.

Lemma blen_app a b : blen (a ++ b) = blen a + blen b.
Proof. unfold blen. rewrite length_app. lia. Qed.

Lemma blen_zeros n : 0 <= n -> blen (zeros n) = n.
Proof. intros. unfold blen, zeros. rewrite length_replicate. lia. Qed.

Lemma slice_Ret b lo hi :
  0 <= lo <= hi -> hi <= blen b ->
  slice b lo hi = Ret (take (Z.to_nat (hi - lo)) (drop (Z.to_nat lo) b)).
Proof. intros [??] ?. unfold slice. case_test; [done|]. zify_bool. lia. Qed.

Lemma slice_inv b lo hi s :
  slice b lo hi = Ret s ->
  0 <= lo <= hi /\ hi <= blen b /\
  s = take (Z.to_nat (hi - lo)) (drop (Z.to_nat lo) b).
Proof. unfold slice. case_test; [|done]. intros [= <-]. zify_bool. split_and!; (done || lia). Qed.

Lemma slice_len b lo hi s : slice b lo hi = Ret s -> blen s = hi - lo.
Proof.
  intros (?&?&->)%slice_inv. unfold blen in *.
  rewrite length_take, length_drop. lia.
Qed.

Lemma slice_lookup b lo hi s k :
  slice b lo hi = Ret s -> (k < Z.to_nat (hi - lo))%nat ->
  s !! k = b !! (Z.to_nat lo + k)%nat.
Proof.
  intros (?&?&->)%slice_inv Hk. rewrite lookup_take_lt by lia. apply lookup_drop.
Qed.

Lemma slice_bytes b lo hi s : slice b lo hi = Ret s -> bytes_ok b -> bytes_ok s.
Proof. intros (?&?&->)%slice_inv Hb. by apply Forall_take, Forall_drop. Qed.

Lemma slice_total b : slice b 0 (blen b) = Ret b.
Proof.
  rewrite slice_Ret by (pose proof (blen_nonneg b); lia).
  f_equal. rewrite Z.sub_0_r. change (Z.to_nat 0) with 0%nat. rewrite drop_0.
  apply take_ge. unfold blen. lia.
Qed.

Lemma splice_Ret b lo src :
  0 <= lo -> lo + blen src <= blen b ->
  splice b lo src =
  Ret (take (Z.to_nat lo) b ++ src ++ drop (Z.to_nat lo + length src) b).
Proof. intros. unfold splice. case_test; [done|]. zify_bool. lia. Qed.

Lemma splice_inv b lo src b' :
  splice b lo src = Ret b' ->
  0 <= lo /\ lo + blen src <= blen b /\
  b' = take (Z.to_nat lo) b ++ src ++ drop (Z.to_nat lo + length src) b.
Proof. unfold splice. case_test; [|done]. intros [= <-]. zify_bool. split_and!; (done || lia). Qed.

Lemma splice_len b lo src b' : splice b lo src = Ret b' -> length b' = length b.
Proof.
  intros (?&?&->)%splice_inv. unfold blen in *.
  rewrite !length_app, length_take, length_drop. lia.
Qed.

Lemma splice_blen b lo src b' : splice b lo src = Ret b' -> blen b' = blen b.
Proof. unfold blen. by intros ->%splice_len. Qed.

Lemma splice_bytes b lo src b' :
  splice b lo src = Ret b' -> bytes_ok b -> bytes_ok src -> bytes_ok b'.
Proof.
  intros (?&?&->)%splice_inv Hb Hs.
  apply Forall_app; split; [by apply Forall_take|].
  apply Forall_app; split; [done|by apply Forall_drop].
Qed.

Lemma splice_lookup_in b lo src b' k :
  splice b lo src = Ret b' -> (k < length src)%nat ->
  b' !! (Z.to_nat lo + k)%nat = src !! k.
Proof.
  intros (?&?&->)%splice_inv Hk. unfold blen in *.
  rewrite lookup_app_r by (rewrite length_take; lia).
  rewrite length_take, Nat.min_l by lia.
  replace (Z.to_nat lo + k - Z.to_nat lo)%nat with k by lia.
  by apply lookup_app_l.
Qed.

Lemma splice_lookup_out b lo src b' k :
  splice b lo src = Ret b' ->
  (k < Z.to_nat lo \/ Z.to_nat lo + length src <= k)%nat ->
  b' !! k = b !! k.
Proof.
  intros (?&?&->)%splice_inv Hk. unfold blen in *.
  destruct (decide (k < Z.to_nat lo)%nat).
  - rewrite lookup_app_l by (rewrite length_take; lia). apply lookup_take_lt. lia.
  - rewrite lookup_app_r by (rewrite length_take; lia).
    rewrite length_take, Nat.min_l by lia.
    rewrite lookup_app_r by lia. rewrite lookup_drop. f_equal. lia.
Qed.

(** Reading a range a write does not meet. *)
Lemma slice_splice_disjoint b lo src b' l h :
  splice b lo src = Ret b' -> h <= lo \/ lo + blen src <= l ->
  slice b' l h = slice b l h.
Proof.
  intros Hs Hd. unfold slice. rewrite (splice_blen _ _ _ _ Hs).
  case_test; [|done]. f_equal. apply list_eq. intros k.
  destruct (decide (k < Z.to_nat (h - l))%nat).
  - rewrite !lookup_take_lt, !lookup_drop by lia.
    eapply splice_lookup_out; [done|].
    apply splice_inv in Hs as (?&?&_). unfold blen in *. lia.
  - rewrite !lookup_take_ge by lia. done.
Qed.

(** Reading back exactly what was written. *)
Lemma slice_splice_same b lo src b' :
  splice b lo src = Ret b' -> slice b' lo (lo + blen src) = Ret src.
Proof.
  intros Hs. pose proof (splice_inv _ _ _ _ Hs) as (?&?&_).
  pose proof (splice_blen _ _ _ _ Hs) as Hl. pose proof (blen_nonneg src).
  rewrite slice_Ret by lia. f_equal. apply list_eq. intros k.
  destruct (decide (k < length src)%nat).
  - rewrite lookup_take_lt, lookup_drop by (unfold blen; lia).
    by eapply splice_lookup_in.
  - rewrite lookup_take_ge by (unfold blen; lia).
    symmetry. apply lookup_ge_None. lia.
Qed.

Lemma to_le_length n v : length (to_le n v) = n.
Proof. revert v. induction n; intros v; simpl; [done|]. by rewrite IHn. Qed.

Lemma to_le_bytes n v : bytes_ok (to_le n v).
Proof.
  revert v. induction n; intros v; simpl; constructor.
  - apply Z.mod_pos_bound. lia.
  - apply IHn.
Qed.

Lemma from_le_to_le n v : from_le (to_le n v) = v mod 256 ^ Z.of_nat n.
Proof.
  revert v. induction n as [|n IH]; intros v.
  - simpl. by rewrite Z.mod_1_r.
  - cbn [to_le from_le]. rewrite IH.
    rewrite Nat2Z.inj_succ, Z.pow_succ_r by lia.
    rewrite Z.rem_mul_r; [done|lia|]. apply Z.pow_pos_nonneg; lia.
Qed.

Lemma from_le_range bs :
  bytes_ok bs -> 0 <= from_le bs < 256 ^ Z.of_nat (length bs).
Proof.
  induction 1 as [|b bs Hb _ IH]; cbn [from_le length]; [lia|].
  rewrite Nat2Z.inj_succ, Z.pow_succ_r by lia. lia.
Qed.

Lemma to_le_from_le bs : bytes_ok bs -> to_le (length bs) (from_le bs) = bs.
Proof.
  induction 1 as [|b bs Hb _ IH]; [done|]. cbn [from_le to_le length].
  rewrite (Z.mul_comm 256), Z.mod_add, Z.mod_small, Z.div_add, Z.div_small by lia.
  rewrite Z.add_0_l, IH. done.
Qed.

Lemma zeros_bytes n : bytes_ok (zeros n).
Proof. apply Forall_replicate. lia. Qed.

Create HintDb kernel.
#[export] Hint Resolve to_le_bytes zeros_bytes blen_nonneg : kernel.

(** ** Loops: lemmas *)

(** A search loop: every turn either goes on unchanged or leaves. It leaves at
    the first turn that asks to, and runs to the end when none does. *)
Lemma ofor_find {A R} n i (body : Z -> A -> outcome (flow A R)) a :
  (forall j, i <= j < i + Z.of_nat n ->
     body j a = Ret (Next a) \/ exists r, body j a = Ret (Exit r)) ->
  (exists j r, i <= j < i + Z.of_nat n /\ body j a = Ret (Exit r) /\
     (forall k, i <= k < j -> body k a = Ret (Next a)) /\
     ofor n i body a = Ret (Exit r)) \/
  (ofor n i body a = Ret (Next a) /\
   forall j, i <= j < i + Z.of_nat n -> body j a = Ret (Next a)).
Proof.
  revert i. induction n as [|n IH]; intros i Hbody.
  { right. split; [done|]. intros. lia. }
  destruct (Hbody i ltac:(lia)) as [Hi|[r Hi]].
  - destruct (IH (i + 1)) as [(j & r & Hj & Hex & Hlt & Hfor)|[Hfor Hall]].
    { intros j Hj. apply Hbody. lia. }
    + left. exists j, r. split_and!; [lia|lia|done| |].
      * intros k Hk. destruct (decide (k = i)) as [->|]; [done|]. apply Hlt. lia.
      * simpl. by rewrite Hi.
    + right. split; [simpl; by rewrite Hi|].
      intros j Hj. destruct (decide (j = i)) as [->|]; [done|]. apply Hall. lia.
  - left. exists i, r. split_and!; [lia|lia|done|intros; lia|]. simpl. by rewrite Hi.
Qed.

(** A loop that carries an invariant and never leaves early. *)
Lemma ofor_inv {A R} (I : Z -> A -> Prop) n i (body : Z -> A -> outcome (flow A R)) a :
  I i a ->
  (forall j b, i <= j < i + Z.of_nat n -> I j b ->
     exists b', body j b = Ret (Next b') /\ I (j + 1) b') ->
  exists a', ofor n i body a = Ret (Next a') /\ I (i + Z.of_nat n) a'.
Proof.
  revert i a. induction n as [|n IH]; intros i a HI Hbody.
  - exists a. split; [done|]. by rewrite Z.add_0_r.
  - destruct (Hbody i a ltac:(lia) HI) as (b & Hb & HIb).
    destruct (IH (i + 1) b HIb) as (a' & Ha & HIa).
    { intros. apply Hbody; [lia|done]. }
    exists a'. split; [simpl; by rewrite Hb|].
    by replace (i + Z.of_nat (S n)) with (i + 1 + Z.of_nat n) by lia.
Qed.

(** The same for loops in state-passing code; the invariant may mention the
    state. *)
Lemma for_loop_inv {S A R} (I : Z -> A -> S -> Prop) n i
    (body : Z -> A -> M S (flow A R)) a s :
  I i a s ->
  (forall j b t, i <= j < i + Z.of_nat n -> I j b t ->
     exists b' t', body j b t = Ret (Next b', t') /\ I (j + 1) b' t') ->
  exists a' s', for_loop n i body a s = Ret (Next a', s') /\ I (i + Z.of_nat n) a' s'.
Proof.
  revert i a s. induction n as [|n IH]; intros i a s HI Hbody.
  - exists a, s. split; [done|]. by rewrite Z.add_0_r.
  - destruct (Hbody i a s ltac:(lia) HI) as (b & t & Hb & HIb).
    destruct (IH (i + 1) b t HIb) as (a' & s' & Ha & HIa).
    { intros. apply Hbody; [lia|done]. }
    exists a', s'. split; [simpl; unfold sbind; by rewrite Hb|].
    by replace (i + Z.of_nat (Datatypes.S n)) with (i + 1 + Z.of_nat n) by lia.
Qed.

(** A word array read and written through a raw pointer: an index outside the
    array is a stray access. *)
Definition word_at (b : list Z) (i : Z) : outcome Z :=
  if i <? 0 then Panic else
  match b !! Z.to_nat i with
  | Some v => Ret v
  | None => Panic
  end.

Definition set_word (b : list Z) (i v : Z) : outcome (list Z) :=
  if (0 <=? i) && (i <? Z.of_nat (length b))
  then Ret (<[Z.to_nat i := v]> b) else Panic.

Lemma word_at_Ret b i :
  0 <= i < Z.of_nat (length b) -> word_at b i = Ret (b !!! Z.to_nat i).
Proof.
  intros Hi. unfold word_at. case_test; [lia|].
  destruct (lookup_lt_is_Some_2 b (Z.to_nat i)) as [v Hv]; [lia|].
  rewrite Hv. by rewrite (list_lookup_total_correct _ _ _ Hv).
Qed.

Lemma set_word_Ret b i v :
  0 <= i < Z.of_nat (length b) -> set_word b i v = Ret (<[Z.to_nat i := v]> b).
Proof. intros. unfold set_word. case_test; [done|lia]. Qed.

Lemma set_word_total_eq (b : list Z) i v :
  0 <= i < Z.of_nat (length b) -> <[Z.to_nat i := v]> b !!! Z.to_nat i = v.
Proof. intros. apply list_lookup_total_insert_eq. lia. Qed.

Lemma set_word_total_ne (b : list Z) i j v :
  0 <= i -> 0 <= j -> i <> j ->
  <[Z.to_nat i := v]> b !!! Z.to_nat j = b !!! Z.to_nat j.
Proof. intros. apply list_lookup_total_insert_ne. lia. Qed.

(** The same when the body may also leave; [E] is what holds then. *)
Lemma for_loop_cases {S A R} (I : Z -> A -> S -> Prop) (E : R -> S -> Prop) n i
    (body : Z -> A -> M S (flow A R)) a s :
  I i a s ->
  (forall j b t, i <= j < i + Z.of_nat n -> I j b t ->
     exists f t', body j b t = Ret (f, t') /\
       match f with Next b' => I (j + 1) b' t' | Exit r => E r t' end) ->
  exists f s', for_loop n i body a s = Ret (f, s') /\
    match f with Next a' => I (i + Z.of_nat n) a' s' | Exit r => E r s' end.
Proof.
  revert i a s. induction n as [|n IH]; intros i a s HI Hbody.
  - exists (Next a), s. split; [done|]. by rewrite Z.add_0_r.
  - destruct (Hbody i a s ltac:(lia) HI) as (f & t & Hb & Hf). cbn [for_loop]. unfold sbind.
    rewrite Hb. destruct f as [b|r]; [|by exists (Exit r), t].
    destruct (IH (i + 1) b t Hf) as (f' & s' & -> & Hf').
    { intros. apply Hbody; [lia|done]. }
    exists f', s'. split; [done|]. destruct f'; [|done].
    by replace (i + Z.of_nat (Datatypes.S n)) with (i + 1 + Z.of_nat n) by lia.
Qed.

Lemma ofor_cases {A R} (I : Z -> A -> Prop) (E : R -> Prop) n i
    (body : Z -> A -> outcome (flow A R)) a :
  I i a ->
  (forall j b, i <= j < i + Z.of_nat n -> I j b ->
     exists f, body j b = Ret f /\ match f with Next b' => I (j + 1) b' | Exit r => E r end) ->
  exists f, ofor n i body a = Ret f /\
    match f with Next a' => I (i + Z.of_nat n) a' | Exit r => E r end.
Proof.
  revert i a. induction n as [|n IH]; intros i a HI Hbody.
  - exists (Next a). split; [done|]. by rewrite Z.add_0_r.
  - destruct (Hbody i a ltac:(lia) HI) as (f & Hb & Hf). cbn [ofor]. rewrite Hb. cbn [obind].
    destruct f as [b|r]; [|by exists (Exit r)].
    destruct (IH (i + 1) b Hf) as (f' & -> & Hf').
    { intros. apply Hbody; [lia|done]. }
    exists f'. split; [done|]. destruct f'; [|done].
    by replace (i + Z.of_nat (S n)) with (i + 1 + Z.of_nat n) by lia.
Qed.

(** Adjacent slices, and a slice of a slice. *)
Lemma slice_app b lo mid hi x y :
  slice b lo mid = Ret x -> slice b mid hi = Ret y -> slice b lo hi = Ret (x ++ y).
Proof.
  intros Hx Hy. pose proof (slice_len _ _ _ _ Hx) as Hxl.
  pose proof (slice_inv _ _ _ _ Hx) as (?&?&_). pose proof (slice_inv _ _ _ _ Hy) as (?&?&_).
  rewrite slice_Ret by lia. f_equal. apply list_eq. intros k. unfold blen in Hxl.
  destruct (decide (k < length x)%nat).
  - rewrite lookup_take_lt, lookup_drop, lookup_app_l by lia.
    symmetry. apply (slice_lookup _ _ _ _ _ Hx). lia.
  - rewrite lookup_app_r by lia. destruct (decide (k < Z.to_nat (hi - lo))%nat).
    + rewrite lookup_take_lt, lookup_drop by lia.
      rewrite (slice_lookup _ _ _ _ _ Hy) by lia. f_equal. lia.
    + rewrite lookup_take_ge by lia. symmetry. apply lookup_ge_None.
      pose proof (slice_len _ _ _ _ Hy). unfold blen in *. lia.
Qed.

Lemma slice_slice b lo hi s l h t :
  slice b lo hi = Ret s -> slice s l h = Ret t -> slice b (lo + l) (lo + h) = Ret t.
Proof.
  intros Hs Ht. pose proof (slice_len _ _ _ _ Hs) as Hl.
  pose proof (slice_inv _ _ _ _ Hs) as (?&?&_). pose proof (slice_inv _ _ _ _ Ht) as (?&?&_).
  pose proof (slice_len _ _ _ _ Ht) as Htl. unfold blen in *.
  rewrite slice_Ret by (unfold blen; lia). f_equal. apply list_eq. intros k.
  destruct (decide (k < Z.to_nat (h - l))%nat).
  - rewrite lookup_take_lt, lookup_drop, (slice_lookup _ _ _ _ _ Ht), (slice_lookup _ _ _ _ _ Hs) by lia.
    f_equal. lia.
  - rewrite lookup_take_ge by lia. symmetry. apply lookup_ge_None. lia.
Qed.
