(* ===== verification/Io.v ===== *)
(** * The interrupt flag ([src/src/io.rs])

    [irq_save] and [irq_restore] bracket every critical section of the
    uniprocessor code; here they act on the [RFLAGS] word. *)

From S2P Require Import Prelude.

Definition X86_FLAG_IF : Z := 0x200.

(** [cli] and [sti]. *)
Definition irq_disable (rflags : Z) : Z := Z.land rflags (unot 64 X86_FLAG_IF).
Definition irq_enable (rflags : Z) : Z := Z.lor rflags X86_FLAG_IF.

(** Returns the saved flags and the new [RFLAGS]. *)
Definition irq_save (rflags : Z) : Z * Z := (rflags, irq_disable rflags).

Definition irq_restore (flags rflags : Z) : Z :=
  if Z.land flags X86_FLAG_IF =? 0 then rflags else irq_enable rflags.

(** Saving and restoring puts a 64-bit [RFLAGS] back exactly, whichever way
    the interrupt flag stood. *)
Lemma irq_save_restore rflags :
  0 <= rflags < 2 ^ 64 ->
  irq_restore (irq_save rflags).1 (irq_save rflags).2 = rflags.
Proof.
  intros Hr. unfold irq_restore, irq_save, irq_enable, irq_disable. simpl.
  change X86_FLAG_IF with (Z.shiftl 1 9).
  rewrite land_bit_zero by lia. destruct (Z.testbit rflags 9) eqn:E; cbn [negb]; zbits i;
    (destruct (Z.ltb_spec i 64); [|rewrite (testbit_above 64) by lia]);
    destruct (Z.eqb_spec i 9) as [->|]; rewrite ?E; cbn [negb andb orb];
    rewrite ?andb_true_r, ?andb_false_r, ?orb_false_r; done.
Qed.
