(* ===== verification/Crc.v ===== *)
(** * CRC32 and CRC32C ([src/src/crc.rs])

    The table builder, the table-driven update and the two public functions,
    and their correctness: the update equals the bit-serial CRC, splits over
    concatenation, stays within 32 bits, and notices every change confined to
    one byte. *)

From S2P Require Import Prelude.

Definition POLY_CRC32 : Z := 0xEDB88320.
Definition POLY_CRC32C : Z := 0x82F63B78.

(** One turn of the inner [while bit < 8] loop of [build_table]. *)
Definition crc_bit (poly crc : Z) : Z :=
  if Z.land crc 1 =? 0 then Z.shiftr crc 1 else Z.lxor (Z.shiftr crc 1) poly.

Definition build_table (poly : Z) : list Z :=
  (fun i => Nat.iter 8 (crc_bit poly) (Z.of_nat i)) <$> seq 0 256.

Definition TABLE_CRC32 : list Z := Eval vm_compute in build_table POLY_CRC32.
Definition TABLE_CRC32C : list Z := Eval vm_compute in build_table POLY_CRC32C.

(** One turn of the byte loop of [update]; the index is masked to eight bits,
    so it never leaves the 256-entry table. *)
Definition crc_byte (table : list Z) (crc byte : Z) : Z :=
  Z.lxor (Z.shiftr crc 8) (table !!! Z.to_nat (Z.land (Z.lxor crc byte) 0xFF)).

Definition update (table : list Z) (crc : Z) (data : list Z) : Z :=
  foldl (crc_byte table) crc data.

Definition crc32 (crc : Z) (data : list Z) : Z := update TABLE_CRC32 crc data.
Definition crc32c (crc : Z) (data : list Z) : Z := update TABLE_CRC32C crc data.

(** ** Reference: the CRC register clocked one bit at a time *)

Definition ref_byte (poly crc byte : Z) : Z :=
  Nat.iter 8 (crc_bit poly) (Z.lxor crc byte).

Definition ref_crc (poly crc : Z) (data : list Z) : Z :=
  foldl (ref_byte poly) crc data.

(** ** The bit step is linear over exclusive or *)

Lemma land_one x : Z.land x 1 = Z.b2z (Z.testbit x 0).
Proof.
  change 1 with (Z.ones 1) at 1. rewrite Z.land_ones, Z.bit0_mod by lia. done.
Qed.

Lemma crc_bit_testbit poly x :
  crc_bit poly x =
  Z.lxor (Z.shiftr x 1) (if Z.testbit x 0 then poly else 0).
Proof.
  unfold crc_bit. rewrite land_one.
  destruct (Z.testbit x 0); simpl; [done|by rewrite Z.lxor_0_r].
Qed.

Lemma crc_bit_lxor poly x y :
  crc_bit poly (Z.lxor x y) = Z.lxor (crc_bit poly x) (crc_bit poly y).
Proof.
  rewrite !crc_bit_testbit, Z.lxor_spec. zbits i.
  destruct (Z.testbit x 0), (Z.testbit y 0); simpl;
    autorewrite with zbits; destruct (Z.testbit x _), (Z.testbit y _); simpl;
    try done; by destruct (Z.testbit poly i).
Qed.

Lemma iter_crc_bit_lxor poly n x y :
  Nat.iter n (crc_bit poly) (Z.lxor x y) =
  Z.lxor (Nat.iter n (crc_bit poly) x) (Nat.iter n (crc_bit poly) y).
Proof.
  induction n as [|n IH]; [done|]. rewrite !Nat.iter_succ, IH. apply crc_bit_lxor.
Qed.

(** Clocking a register whose low [n] bits are clear [n] times only shifts it. *)
Lemma iter_crc_bit_shift poly n x :
  (forall i, 0 <= i < Z.of_nat n -> Z.testbit x i = false) ->
  Nat.iter n (crc_bit poly) x = Z.shiftr x (Z.of_nat n).
Proof.
  induction n as [|n IH]; intros Hlow; [by rewrite Z.shiftr_0_r|].
  rewrite Nat.iter_succ, IH by (intros; apply Hlow; lia).
  rewrite crc_bit_testbit, Z.shiftr_spec, Hlow by lia.
  rewrite Z.lxor_0_r, Z.shiftr_shiftr by lia. f_equal. lia.
Qed.

Lemma build_table_lookup poly i :
  0 <= i < 256 ->
  build_table poly !!! Z.to_nat i = Nat.iter 8 (crc_bit poly) i.
Proof.
  intros Hi. apply list_lookup_total_correct. unfold build_table.
  rewrite list_lookup_fmap, lookup_seq_lt by lia.
  cbn -[Nat.iter]. do 3 f_equal. lia.
Qed.

Lemma mask8 x : 0 <= Z.land x 0xFF < 256.
Proof.
  change 0xFF with (Z.ones 8). rewrite Z.land_ones by lia.
  apply Z.mod_pos_bound. lia.
Qed.

(** One table step does the work of eight register clocks. *)
Lemma crc_byte_ref poly crc byte :
  0 <= byte < 256 ->
  crc_byte (build_table poly) crc byte = ref_byte poly crc byte.
Proof.
  intros Hb. unfold crc_byte, ref_byte.
  rewrite build_table_lookup by apply mask8.
  set (x := Z.lxor crc byte).
  assert (Hx : x = Z.lxor (Z.shiftl (Z.shiftr x 8) 8) (Z.land x 0xFF)).
  { change 0xFF with (Z.ones 8). zbits i. destruct (decide (i < 8)).
    - rewrite (Z.testbit_neg_r (Z.shiftr x 8)) by lia.
      by rewrite (proj2 (Z.ltb_lt _ _)), andb_true_r, xorb_false_l by lia.
    - rewrite Z.shiftr_spec by lia.
      rewrite (proj2 (Z.ltb_ge _ _)), andb_false_r, xorb_false_r by lia.
      f_equal. lia. }
  rewrite Hx at 2. rewrite iter_crc_bit_lxor. f_equal.
  rewrite iter_crc_bit_shift.
  - zbits i. subst x. rewrite Z.lxor_spec, (testbit_above 8 byte) by lia.
    rewrite xorb_false_r. f_equal. lia.
  - intros i Hi. rewrite Z.shiftl_spec_low by lia. done.
Qed.

Lemma update_ref poly crc data :
  bytes_ok data -> update (build_table poly) crc data = ref_crc poly crc data.
Proof.
  intros Hd. revert crc. induction Hd as [|b data Hb _ IH]; intros crc; [done|].
  unfold update, ref_crc in *. simpl. by rewrite crc_byte_ref, IH.
Qed.

Lemma TABLE_CRC32_built : TABLE_CRC32 = build_table POLY_CRC32.
Proof. vm_compute. reflexivity. Qed.

Lemma TABLE_CRC32C_built : TABLE_CRC32C = build_table POLY_CRC32C.
Proof. vm_compute. reflexivity. Qed.

(** ** Range, concatenation and error detection

    [good_table] is what the remaining proofs use of a table: 32-bit entries
    whose top bytes are pairwise distinct. Both tables have it. *)
Definition good_table (table : list Z) : Prop :=
  length table = 256%nat /\
  Forall (fun v => 0 <= v < 2 ^ 32) table /\
  NoDup ((fun v => Z.shiftr v 24) <$> table).

#[export] Instance good_table_dec table : Decision (good_table table).
Proof. unfold good_table. apply _. Defined.

Lemma TABLE_CRC32_good : good_table TABLE_CRC32.
Proof. apply (bool_decide_unpack _). by vm_compute. Qed.

Lemma TABLE_CRC32C_good : good_table TABLE_CRC32C.
Proof. apply (bool_decide_unpack _). by vm_compute. Qed.

Lemma update_app table crc a b :
  update table crc (a ++ b) = update table (update table crc a) b.
Proof. apply foldl_app. Qed.

Lemma lxor_cancel_r a b c : Z.lxor a c = Z.lxor b c -> a = b.
Proof.
  intros Heq. apply (f_equal (fun z => Z.lxor z c)) in Heq.
  by rewrite !Z.lxor_assoc, !Z.lxor_nilpotent, !Z.lxor_0_r in Heq.
Qed.

Section GoodTable.
Context (table : list Z) (Hgood : good_table table).

Lemma good_entry i :
    0 <= i < 256 -> exists v, table !! Z.to_nat i = Some v /\
                              table !!! Z.to_nat i = v /\ 0 <= v < 2 ^ 32.
  Proof using Hgood.
    intros Hi. destruct Hgood as (Hlen & Hall & _).
    destruct (lookup_lt_is_Some_2 table (Z.to_nat i)) as [v Hv]; [lia|].
    exists v. split_and!; [done|by apply list_lookup_total_correct|..];
      eapply Forall_lookup_1 in Hall; try done; lia.
  Qed.

Lemma good_entry_inj i j :
    0 <= i < 256 -> 0 <= j < 256 ->
    Z.shiftr (table !!! Z.to_nat i) 24 = Z.shiftr (table !!! Z.to_nat j) 24 ->
    i = j.
  Proof using Hgood.
    intros Hi Hj Heq.
    destruct (good_entry i Hi) as (v & Hv & Ev & _), (good_entry j Hj) as (w & Hw & Ew & _).
    rewrite Ev, Ew in Heq. destruct Hgood as (_ & _ & Hnd).
    enough (Z.to_nat i = Z.to_nat j) by lia.
    eapply NoDup_lookup; [exact Hnd|..].
    - rewrite list_lookup_fmap, Hv. done.
    - rewrite list_lookup_fmap, Hw. simpl. by rewrite Heq.
  Qed.

Lemma crc_byte_range crc byte :
    0 <= crc < 2 ^ 32 -> 0 <= crc_byte table crc byte < 2 ^ 32.
  Proof using Hgood.
    intros Hc. unfold crc_byte. apply lxor_range; [lia|apply shiftr_range; lia|].
    by destruct (good_entry _ (mask8 (Z.lxor crc byte))) as (v & _ & -> & Hv).
  Qed.

Lemma update_range crc data :
    0 <= crc < 2 ^ 32 -> 0 <= update table crc data < 2 ^ 32.
  Proof using Hgood.
    revert crc. induction data as [|b data IH]; intros crc Hc; [done|].
    simpl. apply IH. by apply crc_byte_range.
  Qed.

  (** The top byte of the new register is the table entry's. *)
Lemma crc_byte_top crc byte :
    0 <= crc < 2 ^ 32 ->
    Z.shiftr (crc_byte table crc byte) 24 =
    Z.shiftr (table !!! Z.to_nat (Z.land (Z.lxor crc byte) 0xFF)) 24.
  Proof using Type.
    intros Hc. unfold crc_byte. zbits i.
    rewrite (testbit_above 32 crc) by lia. by rewrite xorb_false_l.
  Qed.

Lemma crc_byte_index crc crc' b b' :
    0 <= crc < 2 ^ 32 -> 0 <= crc' < 2 ^ 32 ->
    crc_byte table crc b = crc_byte table crc' b' ->
    Z.land (Z.lxor crc b) 0xFF = Z.land (Z.lxor crc' b') 0xFF /\
    Z.shiftr crc 8 = Z.shiftr crc' 8.
  Proof using Hgood.
    intros Hc Hc' Heq.
    assert (Hi : Z.land (Z.lxor crc b) 0xFF = Z.land (Z.lxor crc' b') 0xFF).
    { apply good_entry_inj; [apply mask8..|].
      rewrite <- !crc_byte_top by done. by rewrite Heq. }
    split; [done|]. unfold crc_byte in Heq. rewrite Hi in Heq.
    by apply lxor_cancel_r in Heq.
  Qed.

  (** A different byte at the same place gives a different register ... *)
Lemma crc_byte_inj_byte crc b b' :
    0 <= crc < 2 ^ 32 -> 0 <= b < 256 -> 0 <= b' < 256 ->
    crc_byte table crc b = crc_byte table crc b' -> b = b'.
  Proof using Hgood.
    intros Hc Hb Hb' Heq. apply crc_byte_index in Heq as [Hi _]; [|done..].
    zbits i. destruct (decide (i < 8)).
    - apply (f_equal (fun z => Z.testbit z i)) in Hi.
      change 0xFF with (Z.ones 8) in Hi. autorewrite with zbits in Hi.
      rewrite (proj2 (Z.ltb_lt i 8)), !andb_true_r in Hi by lia.
      by destruct (Z.testbit crc i), (Z.testbit b i), (Z.testbit b' i).
    - rewrite !(testbit_above 8) by lia. done.
  Qed.

  (** ... and later equal bytes never make two different registers equal. *)
Lemma crc_byte_inj_crc crc crc' b :
    0 <= crc < 2 ^ 32 -> 0 <= crc' < 2 ^ 32 ->
    crc_byte table crc b = crc_byte table crc' b -> crc = crc'.
  Proof using Hgood.
    intros Hc Hc' Heq. apply crc_byte_index in Heq as [Hi Hs]; [|done..].
    zbits i. destruct (decide (i < 8)).
    - apply (f_equal (fun z => Z.testbit z i)) in Hi.
      change 0xFF with (Z.ones 8) in Hi. autorewrite with zbits in Hi.
      rewrite (proj2 (Z.ltb_lt i 8)), !andb_true_r in Hi by lia.
      by destruct (Z.testbit crc i), (Z.testbit b i), (Z.testbit crc' i).
    - apply (f_equal (fun z => Z.testbit z (i - 8))) in Hs.
      rewrite !Z.shiftr_spec in Hs by lia.
      by replace (i - 8 + 8) with i in Hs by lia.
  Qed.

Lemma update_inj_crc crc crc' data :
    0 <= crc < 2 ^ 32 -> 0 <= crc' < 2 ^ 32 ->
    update table crc data = update table crc' data -> crc = crc'.
  Proof using Hgood.
    revert crc crc'. induction data as [|b data IH]; intros crc crc' Hc Hc' Heq; [done|].
    simpl in Heq. apply IH in Heq; [|by apply crc_byte_range..].
    by eapply crc_byte_inj_crc.
  Qed.

Lemma update_one_byte crc a x y b :
    0 <= crc < 2 ^ 32 -> 0 <= x < 256 -> 0 <= y < 256 ->
    update table crc (a ++ x :: b) = update table crc (a ++ y :: b) -> x = y.
  Proof using Hgood.
    intros Hc Hx Hy. rewrite !update_app. simpl. intros Heq.
    pose proof (update_range crc a Hc).
    apply update_inj_crc in Heq; [|by apply crc_byte_range..].
    by eapply crc_byte_inj_byte.
  Qed.
End GoodTable.

(** ** Properties *)

(** C39: the table-driven [crc32] and [crc32c] compute exactly the bit-serial
    CRC register for their polynomial, on every byte string and start value. *)
Theorem crc_is_bit_serial (crc : Z) (data : list Z) (Hdata : bytes_ok data) :
  crc32 crc data = ref_crc POLY_CRC32 crc data /\
  crc32c crc data = ref_crc POLY_CRC32C crc data.
Proof.
  unfold crc32, crc32c. rewrite TABLE_CRC32_built, TABLE_CRC32C_built.
  by rewrite !update_ref.
Qed.

(** The check string of the CRC catalogue, with the usual final inversion. *)
Definition check_string : list Z := [49; 50; 51; 52; 53; 54; 55; 56; 57].

Lemma crc_is_bit_serial_witness :
  bytes_ok check_string /\
  crc32 0xFFFFFFFF check_string = ref_crc POLY_CRC32 0xFFFFFFFF check_string /\
  Z.lxor (crc32 0xFFFFFFFF check_string) 0xFFFFFFFF = 0xCBF43926 /\
  Z.lxor (crc32c 0xFFFFFFFF check_string) 0xFFFFFFFF = 0xE3069283.
Proof.
  assert (H : bytes_ok check_string) by (repeat constructor; lia).
  split; [exact H|].
  split; [exact (proj1 (crc_is_bit_serial 0xFFFFFFFF check_string H))|].
  split; vm_compute; reflexivity.
Defined.

(** a change confined to a single byte is always detected: two messages
    that differ in exactly one byte never have the same CRC32 or CRC32C. *)
Theorem crc_detects_byte_change (crc : Z) (a b : list Z) (x y : Z)
    (Hcrc : 0 <= crc < 2 ^ 32) (Hx : 0 <= x < 256) (Hy : 0 <= y < 256)
    (Hne : x <> y) :
  crc32 crc (a ++ x :: b) <> crc32 crc (a ++ y :: b) /\
  crc32c crc (a ++ x :: b) <> crc32c crc (a ++ y :: b).
Proof.
  split; intros Heq; apply Hne.
  - by eapply (update_one_byte _ TABLE_CRC32_good crc a x y b).
  - by eapply (update_one_byte _ TABLE_CRC32C_good crc a x y b).
Qed.

Lemma crc_detects_byte_change_witness :
  crc32 0xFFFFFFFF ([1; 2] ++ 3 :: [4]) <> crc32 0xFFFFFFFF ([1; 2] ++ 7 :: [4]) /\
  crc32c 0xFFFFFFFF ([1; 2] ++ 3 :: [4]) <> crc32c 0xFFFFFFFF ([1; 2] ++ 7 :: [4]).
Proof.
  apply (crc_detects_byte_change 0xFFFFFFFF [1; 2] [4] 3 7); lia.
Defined.

Lemma crc32_range crc data : 0 <= crc < 2 ^ 32 -> 0 <= crc32 crc data < 2 ^ 32.
Proof. apply update_range, TABLE_CRC32_good. Qed.

Lemma crc32c_range crc data : 0 <= crc < 2 ^ 32 -> 0 <= crc32c crc data < 2 ^ 32.
Proof. apply update_range, TABLE_CRC32C_good. Qed.

Lemma crc32_app crc a b : crc32 crc (a ++ b) = crc32 (crc32 crc a) b.
Proof. apply update_app. Qed.

Lemma crc32c_app crc a b : crc32c crc (a ++ b) = crc32c (crc32c crc a) b.
Proof. apply update_app. Qed.
