(* ===== verification/Pmm.v ===== *)
(** * Physical frames ([src/src/mm.rs], lines 14 to 248)

    The frame bitmap: building it from the boot loader's memory map, handing
    out a frame and taking one back. The abstract view is the set of free
    frame numbers ([frame_free]); each operation is shown to act on that set
    and on nothing else. *)

From S2P Require Import Prelude Io.

Definition PAGE_SIZE : Z := 4096.
Definition PMM_NO_PAGE : Z := u64_max.
Definition MEMMAP_USABLE : Z := 0.

Record LimineMemmapEntry := {
  base : Z;
  length_ : Z;
  type_ : Z;
}.

(** The statics [BITMAP], [BITMAP_ENTRIES] and [ALLOC_HINT]; [words] is the
    array [BITMAP] points at and [rflags] the processor's flag register. *)
Record Pmm := mkPmm {
  bitmap_ptr : Z;
  words : list Z;
  bitmap_entries : Z;
  alloc_hint : Z;
  rflags : Z;
}.

(** [!(PAGE_SIZE - 1)] *)
Definition PAGE_MASK : Z := unot 64 (PAGE_SIZE - 1).

(** [*bitmap.add(page / 64) &= !(1 << (page % 64))] and its counterpart. *)
Definition clear_page (b : list Z) (page : Z) : outcome (list Z) :=
  let! w := word_at b (page / 64) in
  set_word b (page / 64) (Z.land w (unot 64 (Z.shiftl 1 (page mod 64)))).

Definition mark_page (b : list Z) (page : Z) : outcome (list Z) :=
  let! w := word_at b (page / 64) in
  set_word b (page / 64) (Z.lor w (Z.shiftl 1 (page mod 64))).

(** The first pass of [pmm_init] over the memory map: the highest usable
    address and the largest usable region, as (highest, base, length). Null
    entries and entries of another type are skipped. *)
Definition scan_entry (acc : Z * Z * Z) (e : LimineMemmapEntry) : outcome (Z * Z * Z) :=
  let '(highest, lbase, llen) := acc in
  let '(lbase, llen) :=
    if llen <? length_ e then (base e, length_ e) else (lbase, llen) in
  let! end_ := chk 64 (base e + length_ e) in
  Ret (if highest <? end_ then end_ else highest, lbase, llen).

Definition usable (e : option LimineMemmapEntry) : option LimineMemmapEntry :=
  match e with
  | Some e => if type_ e =? MEMMAP_USABLE then Some e else None
  | None => None
  end.

Fixpoint scan_memmap (entries : list (option LimineMemmapEntry)) (acc : Z * Z * Z)
    : outcome (Z * Z * Z) :=
  match entries with
  | [] => Ret acc
  | e :: entries' =>
      match usable e with
      | Some e => let! acc := scan_entry acc e in scan_memmap entries' acc
      | None => scan_memmap entries' acc
      end
  end.

(** [for page in 0..n { clear/mark start + page }] *)
Definition each_page (op : list Z -> Z -> outcome (list Z)) (start n : Z)
    (b : list Z) : outcome (list Z) :=
  let! r := ofor (Z.to_nat n) 0
    (fun page b => let! b := op b (start + page) in Ret (@Next _ Empty_set b)) b in
  match r with Next b => Ret b | Exit x => match x with end end.

(** The second pass: every page of every usable entry becomes free. *)
Fixpoint free_memmap (entries : list (option LimineMemmapEntry)) (b : list Z)
    : outcome (list Z) :=
  match entries with
  | [] => Ret b
  | e :: entries' =>
      match usable e with
      | Some e =>
          let! b := each_page clear_page (base e / PAGE_SIZE) (length_ e / PAGE_SIZE) b in
          free_memmap entries' b
      | None => free_memmap entries' b
      end
  end.

(** [memmap] and [hhdm] are the boot loader's responses, [None] when null. *)
Definition pmm_init (memmap : option (list (option LimineMemmapEntry)))
    (hhdm : option Z) (rflags : Z) : outcome Pmm :=
  match memmap, hhdm with
  | Some entries, Some hhdm =>
      let! '(highest_address, largest_base, largest_len) := scan_memmap entries (0, 0, 0) in
      if largest_len =? 0 then Panic else
      let total_pages := highest_address / PAGE_SIZE in
      let bitmap_entries := (total_pages + 63) / 64 in
      let bitmap_size := bitmap_entries * 8 in
      let bitmap_pages := (bitmap_size + PAGE_SIZE - 1) / PAGE_SIZE in
      if largest_len / PAGE_SIZE <? bitmap_pages then Panic else
      let bitmap_physical :=
        Z.land (largest_base + largest_len - bitmap_pages * PAGE_SIZE) PAGE_MASK in
      let! bitmap := chk 64 (bitmap_physical + hhdm) in
      let! b := free_memmap entries (replicate (Z.to_nat bitmap_entries) u64_max) in
      let! b := each_page mark_page (bitmap_physical / PAGE_SIZE) bitmap_pages b in
      Ret (mkPmm bitmap b bitmap_entries 0 rflags)
  | _, _ => Panic
  end.

(** The bit loop of [pmm_alloc_page] on the word at [index]. *)
Definition alloc_bit_body (p : Pmm) (index word bit : Z) (_ : unit)
    : outcome (flow unit (Z * Pmm)) :=
  if Z.land word (Z.shiftl 1 bit) =? 0 then
    let! b := set_word (words p) index (Z.lor word (Z.shiftl 1 bit)) in
    let! frame := chk 64 ((index * 64 + bit) * PAGE_SIZE) in
    Ret (Exit (frame, mkPmm (bitmap_ptr p) b (bitmap_entries p)
                ((index * 64 + bit + 1) mod bitmap_entries p) (rflags p)))
  else Ret (Next tt).

(** One word of the scan of [pmm_alloc_page]: leaves with the frame address
    and the updated allocator when the word has a clear bit. *)
Definition alloc_word (p : Pmm) (scanned : Z) (_ : unit)
    : outcome (flow unit (Z * Pmm)) :=
  let! at_ := chk 64 (alloc_hint p + scanned) in
  let index := at_ mod bitmap_entries p in
  let! word := word_at (words p) index in
  if word =? u64_max then Ret (Next tt) else
  ofor 64 0 (alloc_bit_body p index word) tt.

Definition pmm_alloc_page : M Pmm Z := fun p =>
  let (flags, rf) := irq_save (rflags p) in
  let p := mkPmm (bitmap_ptr p) (words p) (bitmap_entries p) (alloc_hint p) rf in
  let! '(result, p) :=
    if bitmap_entries p =? 0 then Ret (PMM_NO_PAGE, p) else
    let! r := ofor (Z.to_nat (bitmap_entries p)) 0 (alloc_word p) tt in
    match r with
    | Exit (frame, p') => Ret (frame, p')
    | Next _ => Ret (PMM_NO_PAGE, p)
    end in
  Ret (result, mkPmm (bitmap_ptr p) (words p) (bitmap_entries p) (alloc_hint p)
                 (irq_restore flags (rflags p))).

Definition pmm_free_page (page : Z) : M Pmm unit := fun p =>
  if negb (page mod PAGE_SIZE =? 0) then Panic else
  let page_number := page / PAGE_SIZE in
  if bitmap_entries p <=? page_number / 64 then Panic else
  let (flags, rf) := irq_save (rflags p) in
  let! b := clear_page (words p) page_number in
  let hint := if page_number / 64 <? alloc_hint p then page_number / 64 else alloc_hint p in
  Ret (tt, mkPmm (bitmap_ptr p) b (bitmap_entries p) hint (irq_restore flags rf)).

(** ** The bitmap as a set of frames *)

Definition words_ok (b : list Z) : Prop := Forall (fun w => 0 <= w < 2 ^ 64) b.

(** The bit of frame [f]: set when the frame is taken. *)
Definition frame_bit (b : list Z) (f : Z) : bool :=
  Z.testbit (b !!! Z.to_nat (f / 64)) (f mod 64).

Definition frame_free (p : Pmm) (f : Z) : Prop :=
  0 <= f < 64 * bitmap_entries p /\ frame_bit (words p) f = false.

(** What every operation keeps: the array has [BITMAP_ENTRIES] words, few
    enough for every frame address to be a [u64], and the cursor is a word
    index. *)
Record pmm_ok (p : Pmm) : Prop := {
  ok_len : Z.of_nat (length (words p)) = bitmap_entries p;
  ok_max : bitmap_entries p <= 2 ^ 46;
  ok_words : words_ok (words p);
  ok_hint : 0 <= alloc_hint p <= bitmap_entries p;
  ok_rflags : 0 <= rflags p < 2 ^ 64;
}.

Lemma words_ok_total b n : words_ok b -> 0 <= b !!! n < 2 ^ 64.
Proof.
  intros Hb. destruct (b !! n) as [v|] eqn:E.
  - rewrite (list_lookup_total_correct _ _ _ E).
    by apply (Forall_lookup_1 _ _ _ _ Hb E).
  - rewrite list_lookup_total_alt, E. simpl. lia.
Qed.

(** Rewriting one word of the array with a word that differs in one bit. *)
Lemma frame_bit_insert b page w f (op : bool) :
  0 <= page < 64 * Z.of_nat (length b) -> 0 <= f ->
  (forall i, 0 <= i < 64 ->
     Z.testbit w i = if i =? page mod 64 then op
                     else Z.testbit (b !!! Z.to_nat (page / 64)) i) ->
  frame_bit (<[Z.to_nat (page / 64) := w]> b) f =
  if f =? page then op else frame_bit b f.
Proof.
  intros Hp Hf Hw. unfold frame_bit.
  assert (0 <= f mod 64 < 64) by (apply Z.mod_pos_bound; lia).
  destruct (decide (f / 64 = page / 64)) as [E|E].
  - rewrite E, set_word_total_eq, Hw by lia.
    destruct (Z.eqb_spec (f mod 64) (page mod 64)), (Z.eqb_spec f page); try done; lia.
  - rewrite set_word_total_ne by lia.
    destruct (Z.eqb_spec f page) as [->|]; [lia|done].
Qed.

Lemma clear_page_spec b page :
  words_ok b -> 0 <= page < 64 * Z.of_nat (length b) ->
  exists b', clear_page b page = Ret b' /\ words_ok b' /\ length b' = length b /\
    forall f, 0 <= f -> frame_bit b' f = if f =? page then false else frame_bit b f.
Proof.
  intros Hb Hp. unfold clear_page.
  rewrite word_at_Ret by lia. simpl. rewrite set_word_Ret by lia.
  pose proof (words_ok_total b (Z.to_nat (page / 64)) Hb).
  eexists. split_and!; [done| |by rewrite length_insert|].
  - apply Forall_insert; [done|]. by apply land_range.
  - intros f Hf. apply frame_bit_insert; [done..|]. intros i Hi.
    autorewrite with zbits.
    rewrite (proj2 (Z.ltb_lt i 64)) by lia.
    destruct (i =? page mod 64); [apply andb_false_r|apply andb_true_r].
Qed.

Lemma mark_page_spec b page :
  words_ok b -> 0 <= page < 64 * Z.of_nat (length b) ->
  exists b', mark_page b page = Ret b' /\ words_ok b' /\ length b' = length b /\
    forall f, 0 <= f -> frame_bit b' f = if f =? page then true else frame_bit b f.
Proof.
  intros Hb Hp. unfold mark_page.
  rewrite word_at_Ret by lia. simpl. rewrite set_word_Ret by lia.
  pose proof (words_ok_total b (Z.to_nat (page / 64)) Hb).
  eexists. split_and!; [done| |by rewrite length_insert|].
  - apply Forall_insert; [done|]. apply lor_range; [lia|done|].
    apply one_range, Z.mod_pos_bound. lia.
  - intros f Hf. apply frame_bit_insert; [done..|]. intros i Hi.
    autorewrite with zbits.
    destruct (i =? page mod 64); [apply orb_true_r|apply orb_false_r].
Qed.

(** A run of [clear_page] or [mark_page] over consecutive frames. *)
Lemma each_page_spec op v b start n :
  (forall b page, words_ok b -> 0 <= page < 64 * Z.of_nat (length b) ->
    exists b', op b page = Ret b' /\ words_ok b' /\ length b' = length b /\
      forall f, 0 <= f -> frame_bit b' f = if f =? page then v else frame_bit b f) ->
  words_ok b -> 0 <= start -> 0 <= n -> start + n <= 64 * Z.of_nat (length b) ->
  exists b', each_page op start n b = Ret b' /\ words_ok b' /\ length b' = length b /\
    forall f, 0 <= f ->
      frame_bit b' f = if (start <=? f) && (f <? start + n) then v else frame_bit b f.
Proof.
  intros Hop Hb Hs Hn Hlen. unfold each_page.
  destruct (ofor_inv (fun j b' => words_ok b' /\ length b' = length b /\
      forall f, 0 <= f ->
        frame_bit b' f = if (start <=? f) && (f <? start + j) then v else frame_bit b f)
    (Z.to_nat n) 0
    (fun page b => let! b := op b (start + page) in Ret (@Next _ Empty_set b)) b)
    as (b' & -> & Hok & Hl & Hf).
  - split_and!; [done..|]. intros f Hf. case_test; [lia|done].
  - intros j b1 Hj (Hok & Hl & Hf).
    destruct (Hop b1 (start + j)) as (b2 & -> & Hok2 & Hl2 & Hf2); [done|lia|].
    exists b2. simpl. split_and!; [done|done|lia|]. intros f Hf0.
    rewrite Hf2, Hf by done.
    destruct (Z.eqb_spec f (start + j)); repeat case_test; try done; lia.
  - simpl. exists b'. split_and!; [done..|]. intros f Hf0.
    rewrite Hf by done. by rewrite Z.add_0_l, Z2Nat.id by lia.
Qed.

Lemma clear_pages_spec b start n :
  words_ok b -> 0 <= start -> 0 <= n -> start + n <= 64 * Z.of_nat (length b) ->
  exists b', each_page clear_page start n b = Ret b' /\ words_ok b' /\
    length b' = length b /\
    forall f, 0 <= f ->
      frame_bit b' f = if (start <=? f) && (f <? start + n) then false else frame_bit b f.
Proof. intros. apply each_page_spec; try done. apply clear_page_spec. Qed.

Lemma mark_pages_spec b start n :
  words_ok b -> 0 <= start -> 0 <= n -> start + n <= 64 * Z.of_nat (length b) ->
  exists b', each_page mark_page start n b = Ret b' /\ words_ok b' /\
    length b' = length b /\
    forall f, 0 <= f ->
      frame_bit b' f = if (start <=? f) && (f <? start + n) then true else frame_bit b f.
Proof. intros. apply each_page_spec; try done. apply mark_page_spec. Qed.

(** ** Allocation *)

(** [p'] is [p] with frame [f] taken. *)
Definition frame_taken (p : Pmm) (f : Z) (p' : Pmm) : Prop :=
  pmm_ok p' /\ bitmap_ptr p' = bitmap_ptr p /\ rflags p' = rflags p /\
  bitmap_entries p' = bitmap_entries p /\
  forall g, frame_free p' g <-> frame_free p g /\ g <> f.

(** Setting the clear bit of frame [f], wherever the cursor moves. *)
Lemma take_frame_spec p f w hint :
  pmm_ok p -> frame_free p f -> 0 <= hint <= bitmap_entries p ->
  w = words p !!! Z.to_nat (f / 64) ->
  frame_taken p f
    (mkPmm (bitmap_ptr p)
       (<[Z.to_nat (f / 64) := Z.lor w (Z.shiftl 1 (f mod 64))]> (words p))
       (bitmap_entries p) hint (rflags p)).
Proof.
  intros [Hlen Hmax Hw Hh Hr] [Hf Hfree] Hhint ->. split_and!; try done.
  - constructor; simpl; try done; [by rewrite length_insert|].
    apply Forall_insert; [done|].
    apply lor_range; [lia|by apply words_ok_total|apply one_range; lia].
  - intros g. unfold frame_free. simpl.
    assert (0 <= g -> frame_bit (<[Z.to_nat (f / 64) :=
        Z.lor (words p !!! Z.to_nat (f / 64)) (Z.shiftl 1 (f mod 64))]> (words p)) g
      = if g =? f then true else frame_bit (words p) g) as Hg.
    { intros Hg. apply frame_bit_insert; [lia|done|]. intros i Hi.
      autorewrite with zbits. destruct (i =? f mod 64); [apply orb_true_r|apply orb_false_r]. }
    split.
    + intros [Hr' Hb]. rewrite Hg in Hb by lia. case_test_in Hb; [done|]. by split.
    + intros [[Hr' Hb] Hne]. rewrite Hg by lia. case_test; [lia|done].
Qed.

Lemma alloc_bit_body_eq p index word bit :
  pmm_ok p -> 0 <= index < bitmap_entries p -> 0 <= bit < 64 ->
  alloc_bit_body p index word bit tt =
  if Z.testbit word bit then Ret (Next tt) else
  Ret (Exit ((index * 64 + bit) * PAGE_SIZE,
    mkPmm (bitmap_ptr p) (<[Z.to_nat index := Z.lor word (Z.shiftl 1 bit)]> (words p))
      (bitmap_entries p) ((index * 64 + bit + 1) mod bitmap_entries p) (rflags p))).
Proof.
  intros [Hlen Hmax _ _ _] Hi Hb. unfold alloc_bit_body.
  rewrite land_bit_zero by lia. destruct (Z.testbit word bit); [done|]. cbn [negb].
  rewrite set_word_Ret by lia. cbn [obind].
  rewrite chk_Ret by (unfold PAGE_SIZE; lia). done.
Qed.

Lemma alloc_word_spec p scanned :
  pmm_ok p -> 0 <= scanned < bitmap_entries p ->
  let index := (alloc_hint p + scanned) mod bitmap_entries p in
  (alloc_word p scanned tt = Ret (Next tt) /\
   forall f, f / 64 = index -> ~ frame_free p f) \/
  (exists f p', alloc_word p scanned tt = Ret (Exit (f * PAGE_SIZE, p')) /\
     f / 64 = index /\ frame_free p f /\ frame_taken p f p').
Proof.
  intros Hok Hs index. pose proof Hok as [Hlen Hmax Hw Hh Hr].
  assert (Hi : 0 <= index < bitmap_entries p) by (apply Z.mod_pos_bound; lia).
  unfold alloc_word. rewrite chk_Ret by lia. cbn [obind]. fold index.
  rewrite word_at_Ret by lia. cbn [obind].
  set (w := words p !!! Z.to_nat index).
  assert (Hwr : 0 <= w < 2 ^ 64) by by apply words_ok_total.
  destruct (Z.eqb_spec w u64_max) as [Hones|Hones].
  { left. split; [done|]. intros f Hf [_ Hfree]. unfold frame_bit in Hfree.
    rewrite Hf in Hfree. fold w in Hfree.
    rewrite (proj1 (all_ones 64 w ltac:(lia) Hwr)) in Hfree; [done|done|lia]. }
  destruct (ofor_find 64 0 (alloc_bit_body p index w) tt)
    as [(bit & r & Hbit & Hex & _ & Hfor)|[_ Hall]].
  - intros j Hj. rewrite alloc_bit_body_eq by (done || lia).
    destruct (Z.testbit w j); eauto.
  - right. rewrite Hfor, alloc_bit_body_eq in * by (done || lia).
    destruct (Z.testbit w bit) eqn:Hclear; [done|]. injection Hex as <-.
    set (f := index * 64 + bit).
    assert (f / 64 = index /\ f mod 64 = bit) as [Hf1 Hf2] by lia.
    assert (frame_free p f).
    { split; [lia|]. unfold frame_bit. by rewrite Hf1, Hf2. }
    exists f. eexists. split_and!; [done..|].
    rewrite <-Hf1 at 1. rewrite <-Hf2 at 1. apply take_frame_spec; [done..| |by rewrite Hf1].
    pose proof (Z.mod_pos_bound (f + 1) (bitmap_entries p)). lia.
  - exfalso. apply Hones, (all_ones 64); [lia|done|]. intros i Hi'.
    specialize (Hall i ltac:(lia)). rewrite alloc_bit_body_eq in Hall by (done || lia).
    by destruct (Z.testbit w i).
Qed.

Lemma scan_hits_word p f :
  pmm_ok p -> frame_free p f ->
  exists scanned, 0 <= scanned < bitmap_entries p /\
    (alloc_hint p + scanned) mod bitmap_entries p = f / 64.
Proof.
  intros [Hlen Hmax _ Hh _] [Hf _].
  exists ((f / 64 - alloc_hint p) mod bitmap_entries p).
  split; [apply Z.mod_pos_bound; lia|].
  rewrite Z.add_mod_idemp_r by lia.
  replace (alloc_hint p + (f / 64 - alloc_hint p)) with (f / 64) by lia.
  apply Z.mod_small. lia.
Qed.

(** The whole scan, from the cursor once around the bitmap. *)
Lemma alloc_scan_spec p :
  pmm_ok p ->
  let r := ofor (Z.to_nat (bitmap_entries p)) 0 (alloc_word p) tt in
  (exists f p', r = Ret (Exit (f * PAGE_SIZE, p')) /\ frame_free p f /\ frame_taken p f p') \/
  (r = Ret (Next tt) /\ forall f, ~ frame_free p f).
Proof.
  intros Hok r. pose proof (ok_len p Hok).
  destruct (ofor_find (Z.to_nat (bitmap_entries p)) 0 (alloc_word p) tt)
    as [(j & x & Hj & Hx & _ & Hfor)|[Hfor Hall]].
  - intros j Hj. destruct (alloc_word_spec p j) as [[-> _]|(f & p' & -> & _)];
      [done|lia|by left|by eauto].
  - left. destruct (alloc_word_spec p j) as [[Hw _]|(f & p' & Hw & _ & Hf & Ht)];
      [done|lia|congruence|].
    exists f, p'. split_and!; [|done..]. unfold r. rewrite Hfor. congruence.
  - right. split; [done|]. intros f Hf.
    destruct (scan_hits_word p f Hok Hf) as (j & Hj & Hidx).
    destruct (alloc_word_spec p j) as [[_ Hno]|(g & p' & Hw & _)]; [done|lia| |].
    + by apply (Hno f).
    + rewrite Hall in Hw by lia. done.
Qed.

Definition with_rflags (p : Pmm) (rf : Z) : Pmm :=
  mkPmm (bitmap_ptr p) (words p) (bitmap_entries p) (alloc_hint p) rf.

Lemma pmm_ok_rflags p rf : pmm_ok p -> 0 <= rf < 2 ^ 64 -> pmm_ok (with_rflags p rf).
Proof. intros [] ?. by constructor. Qed.

Lemma irq_disable_range rf : 0 <= rf < 2 ^ 64 -> 0 <= irq_disable rf < 2 ^ 64.
Proof. intros. by apply land_range. Qed.

Lemma pmm_alloc_spec p :
  pmm_ok p ->
  (exists f p', pmm_alloc_page p = Ret (f * PAGE_SIZE, p') /\
     frame_free p f /\ frame_taken p f p') \/
  (pmm_alloc_page p = Ret (PMM_NO_PAGE, p) /\ forall f, ~ frame_free p f).
Proof.
  intros Hok. pose proof (ok_len p Hok). pose proof (ok_rflags p Hok) as Hrf.
  pose proof (irq_save_restore _ Hrf) as Hback. simpl in Hback.
  unfold pmm_alloc_page. cbn [irq_save].
  fold (with_rflags p (irq_disable (rflags p))).
  set (q := with_rflags p (irq_disable (rflags p))).
  assert (Hq : pmm_ok q) by by apply pmm_ok_rflags, irq_disable_range.
  assert (Hp : mkPmm (bitmap_ptr q) (words q) (bitmap_entries q) (alloc_hint q)
                 (irq_restore (rflags p) (rflags q)) = p).
  { simpl. rewrite Hback. by destruct p. }
  destruct (Z.eqb_spec (bitmap_entries q) 0) as [He|He].
  { right. cbn [obind]. rewrite Hp. split; [done|]. intros f [Hf _]. simpl in He. lia. }
  destruct (alloc_scan_spec q Hq) as [(f & p' & -> & Hf & Ht)|[-> Hno]]; cbn [obind].
  - left. exists f. eexists. split_and!; [done|apply Hf..|].
    destruct Ht as (Hok' & Hptr & Hr' & He' & Hfree).
    rewrite Hr'. cbn [rflags q with_rflags]. rewrite Hback.
    split_and!; try done. by apply pmm_ok_rflags.
  - right. rewrite Hp. by split.
Qed.

(** ** Release *)

Lemma pmm_free_spec p f :
  pmm_ok p -> 0 <= f < 64 * bitmap_entries p ->
  exists p', pmm_free_page (f * PAGE_SIZE) p = Ret (tt, p') /\ pmm_ok p' /\
    bitmap_ptr p' = bitmap_ptr p /\ rflags p' = rflags p /\
    bitmap_entries p' = bitmap_entries p /\
    (forall g, frame_free p' g <-> frame_free p g \/ g = f).
Proof.
  intros [Hlen Hmax Hw Hh Hr] Hf. unfold pmm_free_page.
  rewrite Z.mod_mul, Z.div_mul by done. cbn [Z.eqb negb].
  rewrite (proj2 (Z.leb_gt _ _)) by lia. cbn [irq_save].
  destruct (clear_page_spec (words p) f) as (b & -> & Hb & Hl & Hbits); [done|lia|].
  cbn [obind]. pose proof (irq_save_restore _ Hr) as Hback. simpl in Hback.
  eexists. split_and!; [done| | |simpl; done|done|].
  - constructor; simpl; try done; [lia|case_test; lia|by rewrite Hback].
  - done.
  - intros g. unfold frame_free. simpl. split.
    + intros [Hg Hbit]. rewrite Hbits in Hbit by lia.
      destruct (Z.eqb_spec g f); [by right|by left].
    + intros [[Hg Hbit]| ->]; (split; [lia|]); rewrite Hbits by lia;
        [by destruct (g =? f)|by rewrite Z.eqb_refl].
Qed.

(** ** Boot: the bitmap describes the usable memory *)

(** The boot protocol: a usable entry is page aligned in base and length and
    does not wrap around the address space. *)
Definition entry_ok (e : LimineMemmapEntry) : Prop :=
  0 <= base e /\ 0 <= length_ e /\ base e + length_ e < 2 ^ 64 /\
  base e mod PAGE_SIZE = 0 /\ length_ e mod PAGE_SIZE = 0.

Definition memmap_ok (es : list (option LimineMemmapEntry)) : Prop :=
  forall oe e, oe ∈ es -> usable oe = Some e -> entry_ok e.

Definition in_entry (e : LimineMemmapEntry) (f : Z) : bool :=
  (base e / PAGE_SIZE <=? f) && (f <? base e / PAGE_SIZE + length_ e / PAGE_SIZE).

(** Frame [f] lies in an entry the memory map calls usable. *)
Definition usable_frame (es : list (option LimineMemmapEntry)) (f : Z) : bool :=
  existsb (fun oe => match usable oe with Some e => in_entry e f | None => false end) es.

Lemma memmap_ok_cons oe es :
  memmap_ok (oe :: es) -> memmap_ok es /\ forall e, usable oe = Some e -> entry_ok e.
Proof.
  intros H. split.
  - intros oe' e Hin. apply H. by right.
  - intros e He. apply (H oe); [by left|done].
Qed.

Lemma scan_entry_spec h lb ll e :
  entry_ok e ->
  exists h1 lb1 ll1, scan_entry (h, lb, ll) e = Ret (h1, lb1, ll1) /\
    h <= h1 /\ ll <= ll1 /\ base e + length_ e <= h1 /\ length_ e <= ll1 /\
    (h1 = h \/ h1 = base e + length_ e) /\
    ((lb1, ll1) = (lb, ll) \/ (lb1, ll1) = (base e, length_ e)).
Proof.
  intros (?&?&?&_). unfold scan_entry.
  destruct (Z.ltb_spec ll (length_ e)); rewrite chk_Ret by lia;
    cbn [obind]; destruct (Z.ltb_spec h (base e + length_ e));
    do 3 eexists; (split; [done|]); split_and!; auto; lia.
Qed.

(** [v] was already there, or is [g e] for a usable entry [e] of [es]. *)
Definition from_entry {A} (es : list (option LimineMemmapEntry))
    (g : LimineMemmapEntry -> A) (v0 v : A) : Prop :=
  v = v0 \/ exists oe e, oe ∈ es /\ usable oe = Some e /\ v = g e.

Lemma from_entry_skip {A} oe es (g : LimineMemmapEntry -> A) v0 v :
  from_entry es g v0 v -> from_entry (oe :: es) g v0 v.
Proof.
  intros [->|(o & e & ? & ?)]; [by left|right]. exists o, e. split; [by right|done].
Qed.

Lemma from_entry_here {A} oe e es (g : LimineMemmapEntry -> A) v0 v1 v :
  usable oe = Some e -> v1 = v0 \/ v1 = g e ->
  from_entry es g v1 v -> from_entry (oe :: es) g v0 v.
Proof.
  intros He H1 [->|(o & e' & ? & ?)].
  - destruct H1 as [->| ->]; [by left|right]. exists oe, e. split; [by left|done].
  - right. exists o, e'. split; [by right|done].
Qed.

Lemma scan_memmap_spec es h lb ll :
  memmap_ok es ->
  exists h' lb' ll', scan_memmap es (h, lb, ll) = Ret (h', lb', ll') /\
    h <= h' /\ ll <= ll' /\
    from_entry es (fun e => base e + length_ e) h h' /\
    from_entry es (fun e => (base e, length_ e)) (lb, ll) (lb', ll') /\
    (forall oe e, oe ∈ es -> usable oe = Some e ->
       base e + length_ e <= h' /\ length_ e <= ll').
Proof.
  revert h lb ll. induction es as [|oe es IH]; intros h lb ll Hok.
  { exists h, lb, ll. split_and!; try done; [by left..|].
    intros ?? Hin. by apply not_elem_of_nil in Hin. }
  apply memmap_ok_cons in Hok as [Hok Hoe]. cbn [scan_memmap].
  destruct (usable oe) as [e|] eqn:He.
  - destruct (scan_entry_spec h lb ll e) as (h1 & lb1 & ll1 & -> & ?&?&?&?&Hh&Hl);
      [by apply Hoe|]. cbn [obind].
    destruct (IH h1 lb1 ll1 Hok) as (h' & lb' & ll' & -> & ? & ? & Hh' & Hl' & Hall).
    exists h', lb', ll'. split_and!; [done|lia|lia|by eapply from_entry_here..|].
    intros o' e' Hin He'. apply elem_of_cons in Hin as [->|Hin]; [|by eapply Hall].
    simplify_eq. lia.
  - destruct (IH h lb ll Hok) as (h' & lb' & ll' & -> & ? & ? & Hh' & Hl' & Hall).
    exists h', lb', ll'. split_and!; [done..|by apply from_entry_skip|by apply from_entry_skip|].
    intros o' e' Hin He'. apply elem_of_cons in Hin as [->|Hin]; [congruence|by eapply Hall].
Qed.

Lemma free_memmap_spec es b :
  memmap_ok es -> words_ok b ->
  (forall oe e, oe ∈ es -> usable oe = Some e ->
     base e + length_ e <= 64 * PAGE_SIZE * Z.of_nat (length b)) ->
  exists b', free_memmap es b = Ret b' /\ words_ok b' /\ length b' = length b /\
    forall f, 0 <= f ->
      frame_bit b' f = if usable_frame es f then false else frame_bit b f.
Proof.
  revert b. induction es as [|oe es IH]; intros b Hok Hb Hfit; [by exists b|].
  apply memmap_ok_cons in Hok as [Hok Hoe]. simpl. destruct (usable oe) as [e|] eqn:He.
  - destruct (Hoe e eq_refl) as (?&?&?&?&?).
    pose proof (Hfit oe e ltac:(by left) He). unfold PAGE_SIZE in *.
    destruct (clear_pages_spec b (base e / 4096) (length_ e / 4096))
      as (b1 & -> & Hb1 & Hl1 & Hf1); [done|lia|lia|lia|]. cbn [obind].
    destruct (IH b1) as (b' & -> & Hb' & Hl' & Hf'); [done|done| |].
    { intros. rewrite Hl1. eapply Hfit; [by right|done]. }
    exists b'. split_and!; [done|done|lia|]. intros f Hf.
    rewrite Hf', Hf1 by done. unfold in_entry, PAGE_SIZE.
    destruct ((_ <=? f) && _), (usable_frame es f); done.
  - apply IH; [done..|]. intros. eapply Hfit; [by right|done].
Qed.

Lemma usable_frame_spec es f :
  usable_frame es f = true <->
  exists oe e, oe ∈ es /\ usable oe = Some e /\ in_entry e f = true.
Proof.
  unfold usable_frame. rewrite existsb_exists. split.
  - intros (oe & Hin & H). destruct (usable oe) as [e|] eqn:He; [|done].
    exists oe, e. by rewrite list_elem_of_In.
  - intros (oe & e & Hin & He & H). exists oe. rewrite He.
    by rewrite list_elem_of_In in Hin.
Qed.

Lemma page_mask_aligned x :
  0 <= x < 2 ^ 64 -> x mod PAGE_SIZE = 0 -> Z.land x PAGE_MASK = x.
Proof.
  intros Hx Hm. unfold PAGE_MASK, PAGE_SIZE in *.
  change (4096 - 1) with (Z.ones 12). rewrite land_align by lia. lia.
Qed.

Lemma full_bitmap n f : 0 <= f < 64 * n ->
  frame_bit (replicate (Z.to_nat n) u64_max) f = true.
Proof.
  intros Hf. unfold frame_bit. rewrite lookup_total_replicate_2 by lia.
  apply (all_ones 64); unfold u64_max; lia.
Qed.

(** What [pmm_init] needs of the memory map: [top] bounds the usable
    addresses, and [big] can hold the bitmap for that much memory. *)
Record memmap_fits (es : list (option LimineMemmapEntry)) (top hhdm : Z)
    (big : LimineMemmapEntry) : Prop := {
  mf_ok : memmap_ok es;
  mf_top : forall oe e, oe ∈ es -> usable oe = Some e -> base e + length_ e <= top;
  mf_hhdm : 0 <= hhdm /\ 0 <= top /\ top + hhdm < 2 ^ 64;
  mf_big : Some big ∈ es /\ usable (Some big) = Some big /\ 0 < length_ big;
  mf_room : ((top / PAGE_SIZE + 63) / 64 * 8 + PAGE_SIZE - 1) / PAGE_SIZE
            <= length_ big / PAGE_SIZE;
}.

Lemma pmm_init_returns es top hhdm big rf :
  memmap_fits es top hhdm big -> 0 <= rf < 2 ^ 64 ->
  exists p lo n, pmm_init (Some es) (Some hhdm) rf = Ret p /\
    pmm_ok p /\ rflags p = rf /\
    bitmap_ptr p = lo * PAGE_SIZE + hhdm /\ 8 * bitmap_entries p <= n * PAGE_SIZE /\
    0 <= n <= ((top / PAGE_SIZE + 63) / 64 * 8 + PAGE_SIZE - 1) / PAGE_SIZE /\
    (forall f, lo <= f < lo + n -> usable_frame es f = true) /\
    (forall f, frame_free p f <->
       0 <= f /\ usable_frame es f = true /\ ~ (lo <= f < lo + n)).
Proof.
  intros [Hok Htop (Hh1 & Hh2 & Hh3) (Hin & Hus & Hpos) Hroom] Hrf. unfold pmm_init.
  destruct (scan_memmap_spec es 0 0 0 Hok)
    as (h & lb & ll & -> & Hh0 & Hl0 & Hh & Hl & Hall). cbn [obind].
  destruct (Hall _ _ Hin Hus) as [_ Hbig]. rewrite (proj2 (Z.eqb_neq _ _)) by lia.
  assert (h <= top) by (destruct Hh as [->|(?&?&?&?&->)]; [lia|by eapply Htop]).
  destruct Hl as [[= -> ->]|(oe & e & Hine & Huse & [= -> ->])]; [lia|].
  pose proof (Hok _ _ Hine Huse) as (?&?&?&?&?).
  pose proof (Htop _ _ Hine Huse). destruct (Hall _ _ Hine Huse).
  set (m := (h / PAGE_SIZE + 63) / 64). set (n := (m * 8 + PAGE_SIZE - 1) / PAGE_SIZE).
  unfold PAGE_SIZE in *.
  assert (n <= length_ e / 4096) by (unfold n, m; lia).
  rewrite (proj2 (Z.ltb_ge _ _)) by lia.
  set (lo := base e / 4096 + length_ e / 4096 - n).
  assert (0 <= n /\ 0 <= m /\ base e + length_ e - n * 4096 = lo * 4096) as (Hn & Hm & Hlo)
    by (unfold lo; lia).
  rewrite Hlo, page_mask_aligned by (unfold PAGE_SIZE; lia). unfold PAGE_SIZE.
  rewrite chk_Ret, Z.div_mul by lia. cbn [obind].
  destruct (free_memmap_spec es (replicate (Z.to_nat m) u64_max))
    as (b1 & -> & Hb1 & Hl1 & Hf1); [done|apply Forall_replicate; unfold u64_max; lia| |].
  { intros o' e' Ho' He'. rewrite length_replicate.
    pose proof (proj1 (Hall _ _ Ho' He')). destruct (Hok _ _ Ho' He') as (?&?&?&?&?).
    unfold m, PAGE_SIZE in *. lia. }
  rewrite length_replicate in Hl1. cbn [obind].
  destruct (mark_pages_spec b1 lo n) as (b2 & -> & Hb2 & Hl2 & Hf2);
    [done|unfold lo; lia|lia|unfold lo, m in *; lia|]. cbn [obind].
  eexists. exists lo, n. split_and!; [done| |done|done|simpl; unfold n; lia|lia|unfold n, m; lia|..].
  - constructor; simpl; try done; try lia.
  - intros f Hf. apply usable_frame_spec. exists oe, e. split_and!; [done..|].
    unfold in_entry, PAGE_SIZE. lia.
  - intros f. unfold frame_free. simpl. split.
    + intros [Hf Hbit]. rewrite Hf2, Hf1, full_bitmap in Hbit by lia.
      repeat case_test_in Hbit; try done; lia.
    + intros (Hf & Huf & Hno).
      pose proof Huf as (o' & e' & Ho' & He' & Hie)%usable_frame_spec.
      unfold in_entry, PAGE_SIZE in Hie. zify_bool.
      destruct (Hall _ _ Ho' He'). destruct (Hok _ _ Ho' He') as (?&?&?&?&?).
      unfold PAGE_SIZE in *. split; [unfold m; lia|].
      rewrite Hf2, Hf1, Huf by lia. case_test; [lia|done].
Qed.

(** ** The interface other components allocate frames through *)

Class FrameAllocator (S : Type) := {
  fa_alloc : M S Z;
  fa_ok : S -> Prop;
  fa_free : S -> Z -> Prop;
  fa_range : forall s f, fa_ok s -> fa_free s f -> 0 <= f < 2 ^ 52;
  fa_alloc_spec : forall s, fa_ok s ->
    (exists f s', fa_alloc s = Ret (f * PAGE_SIZE, s') /\ fa_free s f /\ fa_ok s' /\
       (forall g, fa_free s' g <-> fa_free s g /\ g <> f)) \/
    (fa_alloc s = Ret (PMM_NO_PAGE, s) /\ forall f, ~ fa_free s f);
}.

Lemma frame_free_range p f : pmm_ok p -> frame_free p f -> 0 <= f < 2 ^ 52.
Proof. intros [? Hmax _ _ _] [? _]. lia. Qed.

Lemma pmm_alloc_frames p :
  pmm_ok p ->
  (exists f p', pmm_alloc_page p = Ret (f * PAGE_SIZE, p') /\ frame_free p f /\ pmm_ok p' /\
     (forall g, frame_free p' g <-> frame_free p g /\ g <> f)) \/
  (pmm_alloc_page p = Ret (PMM_NO_PAGE, p) /\ forall f, ~ frame_free p f).
Proof.
  intros Hp. destruct (pmm_alloc_spec p Hp) as [(f & p' & ? & ? & ?&?&?&?&?)|?];
    [left|by right]. by exists f, p'.
Qed.

#[export] Instance Pmm_frames : FrameAllocator Pmm := {
  fa_alloc := pmm_alloc_page;
  fa_ok := pmm_ok;
  fa_free := frame_free;
  fa_range := frame_free_range;
  fa_alloc_spec := pmm_alloc_frames;
}.

(** A frame address is never mistaken for the out-of-memory value. *)
Lemma frame_not_no_page f : f * PAGE_SIZE <> PMM_NO_PAGE.
Proof. unfold PAGE_SIZE, PMM_NO_PAGE, u64_max. lia. Qed.

(** ** Properties *)

(** A two-word bitmap with the frames 3 and 70 free, used as a concrete
    allocator by the witnesses. *)
Definition sample_pmm : Pmm :=
  mkPmm 0xFFFF800000001000 [u64_max - 8; u64_max - 64] 2 1 0x202.

Lemma sample_pmm_ok : pmm_ok sample_pmm.
Proof. constructor; simpl; try lia. unfold u64_max. repeat constructor; lia. Qed.

(** C6: [pmm_alloc_page] always returns. When some frame is free it hands out
    a free one, page aligned and distinct from [PMM_NO_PAGE], marks exactly
    that frame and leaves the interrupt flag as it was; it answers
    [PMM_NO_PAGE], changing nothing, exactly when no frame is free. *)
Theorem pmm_alloc_page_correct (p : Pmm) (Hok : pmm_ok p) :
  (exists f p', pmm_alloc_page p = Ret (f * PAGE_SIZE, p') /\
     f * PAGE_SIZE <> PMM_NO_PAGE /\ frame_free p f /\ pmm_ok p' /\
     rflags p' = rflags p /\
     forall g, frame_free p' g <-> frame_free p g /\ g <> f) \/
  (pmm_alloc_page p = Ret (PMM_NO_PAGE, p) /\ forall f, ~ frame_free p f).
Proof.
  destruct (pmm_alloc_spec p Hok) as [(f & p' & ? & ? & ?&?&?&?&?)|?]; [left|by right].
  exists f, p'. split_and!; try done. apply frame_not_no_page.
Qed.

Lemma pmm_alloc_page_correct_witness :
  exists f p', pmm_alloc_page sample_pmm = Ret (f * PAGE_SIZE, p') /\ f = 70 /\
    forall g, frame_free p' g <-> frame_free sample_pmm g /\ g <> f.
Proof.
  assert (Hval : match pmm_alloc_page sample_pmm with
                 | Ret (a, _) => a =? 70 * 4096 | _ => false end = true)
    by (vm_compute; reflexivity).
  destruct (pmm_alloc_page_correct sample_pmm sample_pmm_ok)
    as [(f & p' & Hrun & _ & _ & _ & _ & H)|[Hrun _]]; rewrite Hrun in Hval.
  - exists f, p'. split; [exact Hrun|]. split; [|exact H].
    unfold PAGE_SIZE in Hval. lia.
  - vm_compute in Hval. discriminate Hval.
Defined.

(** [pmm_free_page] of an aligned frame inside the bitmap makes exactly
    that frame free again, keeps the allocator well formed and restores the
    interrupt flag; a misaligned address or a frame outside the bitmap stops
    the kernel instead of touching the bitmap. *)
Theorem pmm_free_page_correct (p : Pmm) (page : Z) (Hok : pmm_ok p) (Hpage : 0 <= page) :
  if (page mod PAGE_SIZE =? 0) && (page / PAGE_SIZE <? 64 * bitmap_entries p)
  then exists p', pmm_free_page page p = Ret (tt, p') /\ pmm_ok p' /\
         rflags p' = rflags p /\
         forall g, frame_free p' g <-> frame_free p g \/ g = page / PAGE_SIZE
  else pmm_free_page page p = Panic.
Proof.
  unfold PAGE_SIZE. case_test.
  - destruct (pmm_free_spec p (page / 4096) Hok) as (p' & Hrun & ? & _ & ? & _ & ?); [lia|].
    unfold PAGE_SIZE in Hrun. replace (page / 4096 * 4096) with page in Hrun by lia.
    by exists p'.
  - unfold pmm_free_page, PAGE_SIZE. case_test; [done|].
    rewrite (proj2 (Z.leb_le _ _)); [done|]. lia.
Qed.

Lemma pmm_free_page_correct_witness :
  exists p', pmm_free_page (5 * PAGE_SIZE) sample_pmm = Ret (tt, p') /\
    frame_free p' 5 /\ ~ frame_free sample_pmm 5.
Proof.
  destruct (pmm_free_page_correct sample_pmm (5 * PAGE_SIZE) sample_pmm_ok ltac:(done))
    as (p' & Hrun & _ & _ & H).
  exists p'. split; [exact Hrun|]. split; [apply H; by right|]. by intros [_ ?].
Defined.

(** On a memory map whose usable entries are page aligned, [pmm_init]
    returns (given room for the bitmap) with an allocator in which a frame is
    free exactly when it lies in a usable entry and does not hold the bitmap
    itself; the bitmap lies inside usable memory and is large enough. *)
Theorem pmm_init_correct (es : list (option LimineMemmapEntry)) (top hhdm rf : Z)
    (big : LimineMemmapEntry) (Hfits : memmap_fits es top hhdm big)
    (Hrf : 0 <= rf < 2 ^ 64) :
  exists p lo n, pmm_init (Some es) (Some hhdm) rf = Ret p /\
    pmm_ok p /\ bitmap_ptr p = lo * PAGE_SIZE + hhdm /\
    8 * bitmap_entries p <= n * PAGE_SIZE /\
    (forall f, lo <= f < lo + n -> usable_frame es f = true) /\
    (forall f, frame_free p f <->
       0 <= f /\ usable_frame es f = true /\ ~ (lo <= f < lo + n)).
Proof.
  destruct (pmm_init_returns es top hhdm big rf Hfits Hrf)
    as (p & lo & n & ?&?&_&?&?&_&?&?). by exists p, lo, n.
Qed.

Definition sample_region : LimineMemmapEntry := {| base := 0x3000; length_ := 0x5000; type_ := 0 |}.

Definition sample_memmap : list (option LimineMemmapEntry) :=
  [None; Some {| base := 0; length_ := 0x1000; type_ := 0 |};
   Some {| base := 0x1000; length_ := 0x2000; type_ := 1 |};
   Some sample_region].

Lemma pmm_init_correct_witness :
  exists p, pmm_init (Some sample_memmap) (Some 0xFFFF800000000000) 0x202 = Ret p /\
    pmm_ok p /\ frame_free p 0 /\ ~ frame_free p 1 /\ frame_free p 6 /\ ~ frame_free p 7.
Proof.
  assert (Hall : Forall (fun oe => match usable oe with
            | Some e => entry_ok e /\ base e + length_ e <= 0x8000 | None => True end)
            sample_memmap).
  { repeat constructor; try done; vm_compute; try done; lia. }
  assert (Hf : memmap_fits sample_memmap 0x8000 0xFFFF800000000000 sample_region).
  { constructor.
    - intros oe e Hin He. rewrite list_elem_of_In in Hin. rewrite List.Forall_forall in Hall. specialize (Hall oe Hin).
      rewrite He in Hall. apply Hall.
    - intros oe e Hin He. rewrite list_elem_of_In in Hin. rewrite List.Forall_forall in Hall. specialize (Hall oe Hin).
      rewrite He in Hall. apply Hall.
    - lia.
    - split; [|done]. unfold sample_memmap. do 3 right. left.
    - vm_compute. discriminate. }
  destruct (pmm_init_correct sample_memmap 0x8000 0xFFFF800000000000 0x202 sample_region Hf
              ltac:(lia)) as (p & lo & n & Hrun & Hok & _).
  exists p. split; [exact Hrun|]. split; [exact Hok|].
  vm_compute in Hrun. injection Hrun as <-.
  split_and!; try (split; [vm_compute; split; [discriminate|reflexivity]|vm_compute; reflexivity]);
    intros [_ Hbit]; vm_compute in Hbit; discriminate Hbit.
Defined.

(** *** Runs of the allocator

    [live] is the set of frames handed out and not yet given back. *)
Inductive pmm_step : Pmm * gset Z -> Pmm * gset Z -> Prop :=
| step_alloc p f p' live :
    pmm_alloc_page p = Ret (f * PAGE_SIZE, p') ->
    pmm_step (p, live) (p', {[f]} ∪ live)
| step_oom p p' live :
    pmm_alloc_page p = Ret (PMM_NO_PAGE, p') ->
    pmm_step (p, live) (p', live)
| step_free p f p' live :
    f ∈ live ->
    pmm_free_page (f * PAGE_SIZE) p = Ret (tt, p') ->
    pmm_step (p, live) (p', live ∖ {[f]}).

Definition live_ok (c : Pmm * gset Z) : Prop :=
  pmm_ok c.1 /\
  forall f, f ∈ c.2 -> 0 <= f < 64 * bitmap_entries c.1 /\ ~ frame_free c.1 f.

Lemma pmm_step_ok c c' : pmm_step c c' -> live_ok c -> live_ok c'.
Proof.
  intros Hstep [Hok Hlive]. destruct Hstep as [p f p' live Hrun|p p' live Hrun|p f p' live Hin Hrun];
    simpl in *.
  - destruct (pmm_alloc_spec p Hok) as [(g & q & Hrun' & Hg & Hok' & _ & _ & He & Hfree)|[Hrun' _]];
      rewrite Hrun in Hrun'; [|injection Hrun'; intros; by apply frame_not_no_page in H0].
    injection Hrun' as Hfg ->. assert (f = g) as -> by (unfold PAGE_SIZE in Hfg; lia).
    split; [done|]. simpl. intros h Hh. rewrite He, Hfree.
    apply elem_of_union in Hh as [->%elem_of_singleton|Hh].
    + split; [apply Hg|]. by intros [_ ?].
    + destruct (Hlive h Hh) as [Hr Hn]. split; [done|]. by intros [? _].
  - destruct (pmm_alloc_spec p Hok) as [(g & q & Hrun' & _)|[Hrun' _]];
      rewrite Hrun in Hrun'; [|injection Hrun' as ->; done].
    injection Hrun' as Hbad _. symmetry in Hbad. by apply frame_not_no_page in Hbad.
  - destruct (Hlive f Hin) as [Hr _].
    destruct (pmm_free_spec p f Hok Hr) as (q & Hrun' & Hok' & _ & _ & He & Hfree).
    rewrite Hrun in Hrun'. injection Hrun' as ->. split; [done|]. simpl.
    intros h Hh. rewrite He, Hfree. apply elem_of_difference in Hh as [Hh Hne].
    destruct (Hlive h Hh) as [? Hn]. split; [done|].
    intros [?| ->]; [done|by apply Hne, elem_of_singleton].
Qed.

Lemma pmm_run_ok c c' : rtc pmm_step c c' -> live_ok c -> live_ok c'.
Proof. induction 1; eauto using pmm_step_ok. Qed.

(** C38: in any sequence of allocations and releases of held frames, the
    allocator never hands out a frame that is still held. *)
Theorem pmm_no_double_allocation (p0 p p' : Pmm) (live : gset Z) (f : Z)
    (Hok : pmm_ok p0) (Hrun : rtc pmm_step (p0, ∅) (p, live))
    (Halloc : pmm_alloc_page p = Ret (f * PAGE_SIZE, p')) :
  f ∉ live.
Proof.
  destruct (pmm_run_ok _ _ Hrun) as [Hp Hlive]; [split; [done|set_solver]|]. simpl in *.
  destruct (pmm_alloc_spec p Hp) as [(g & q & Hg & Hfree & _)|[Hg _]]; rewrite Halloc in Hg.
  - injection Hg as Hfg _. assert (f = g) as -> by (unfold PAGE_SIZE in Hfg; lia).
    intros Hin. by apply (Hlive g).
  - injection Hg as Hbad _. by apply frame_not_no_page in Hbad.
Qed.

Lemma pmm_no_double_allocation_witness :
  exists p f p', pmm_step (sample_pmm, ∅) (p, {[70]} ∪ ∅) /\
    pmm_alloc_page p = Ret (f * PAGE_SIZE, p') /\ f ∉ ({[70]} ∪ ∅ : gset Z).
Proof.
  set (p := mkPmm 0xFFFF800000001000 [u64_max - 8; u64_max] 2 1 0x202).
  set (p' := mkPmm 0xFFFF800000001000 [u64_max; u64_max] 2 0 0x202).
  assert (H1 : pmm_step (sample_pmm, ∅) (p, {[70]} ∪ ∅)).
  { apply step_alloc. vm_compute. reflexivity. }
  assert (H2 : pmm_alloc_page p = Ret (3 * PAGE_SIZE, p')) by (vm_compute; reflexivity).
  exists p, 3, p'. split; [exact H1|]. split; [exact H2|].
  exact (pmm_no_double_allocation sample_pmm p p' ({[70]} ∪ ∅) 3 sample_pmm_ok
           (rtc_once _ _ H1) H2).
Defined.
