(* ===== verification/Heap.v ===== *)
(** * The kernel heap ([src/src/mm.rs], lines 50 to 64 and 498 to 642)

    First-fit allocation from a singly linked list of blocks, each headed by
    a 32-byte [HeapBlock]. Memory is the map from addresses to the headers
    written there, so a header left behind by a merge stays readable. The
    abstract view is the list of (payload size, free) pairs that tile the heap
    ([tiled]); [kmalloc], [coalesce] and [kfree] are shown to implement the
    list operations [first_fit] and [merge]. *)

From S2P Require Import Prelude Io.

Record HeapBlock := mkBlock {
  size : Z;
  next : Z;
  free : Z;
  reserved : Z;
}.

Definition HEAP_BLOCK_SIZE : Z := 32.
Definition HEAP_ALIGN : Z := 16.

(** The static [HEAP_HEAD], the memory the headers live in and [RFLAGS]. A
    null pointer is 0. *)
Record Heap := mkHeap {
  blocks : gmap Z HeapBlock;
  heap_head : Z;
  rflags : Z;
}.

Definition set_blocks (h : Heap) (m : gmap Z HeapBlock) : Heap :=
  mkHeap m (heap_head h) (rflags h).

Definition set_rflags (h : Heap) (rf : Z) : Heap :=
  mkHeap (blocks h) (heap_head h) rf.

(** [*block] for a pointer to a header. *)
Definition deref (a : Z) : M Heap HeapBlock := fun h =>
  match blocks h !! a with
  | Some b => Ret (b, h)
  | None => Panic
  end.

Definition store (a : Z) (b : HeapBlock) : M Heap unit :=
  smodify (fun h => set_blocks h (<[a := b]> (blocks h))).

Definition save_flags : M Heap Z := fun h =>
  Ret ((irq_save (rflags h)).1, set_rflags h (irq_save (rflags h)).2).

Definition restore_flags (flags : Z) : M Heap unit :=
  smodify (fun h => set_rflags h (irq_restore flags (rflags h))).

(** One turn of the search loop of [kmalloc] at [current]: leaves with the
    payload address, or with null at the end of the list. *)
Definition kmalloc_body (size_ : Z) (current : Z) : M Heap (flow Z Z) :=
  if current =? 0 then sret (Exit 0) else
  b <- deref current ;;
  if negb (free b =? 0) && (size_ <=? size b) then
    limit <-! chk 64 (size_ + HEAP_BLOCK_SIZE) ;;
    _ <- (if limit <? size b then
            let split := current + HEAP_BLOCK_SIZE + size_ in
            _ <- store split (mkBlock (size b - size_ - HEAP_BLOCK_SIZE) (next b) 1 0) ;;
            store current (mkBlock size_ split (free b) (reserved b))
          else sret tt) ;;
    b <- deref current ;;
    _ <- store current (mkBlock (size b) (next b) 0 (reserved b)) ;;
    sret (Exit (current + HEAP_BLOCK_SIZE))
  else sret (Next (next b)).

(** The list never has more blocks than headers were written, which bounds
    the loops below. *)
Definition heap_fuel (h : Heap) : nat := S (S (base.size (blocks h))).

Definition kmalloc (size_ : Z) : M Heap Z :=
  if (size_ =? 0) || (u64_max - (HEAP_ALIGN - 1) <? size_) then sret 0 else
  h <- sget ;;
  if heap_head h =? 0 then spanic else
  let size_ := Z.land (size_ + (HEAP_ALIGN - 1)) (unot 64 (HEAP_ALIGN - 1)) in
  flags <- save_flags ;;
  result <- while_loop (heap_fuel h) (kmalloc_body size_) (heap_head h) ;;
  _ <- restore_flags flags ;;
  sret result.

(** One turn of the loop of [coalesce]. *)
Definition coalesce_body (current : Z) : M Heap (flow Z unit) :=
  if current =? 0 then sret (Exit tt) else
  b <- deref current ;;
  if next b =? 0 then sret (Exit tt) else
  n <- (if free b =? 0 then sret b else deref (next b)) ;;
  if negb (free b =? 0) && negb (free n =? 0)
     && (current + HEAP_BLOCK_SIZE + size b =? next b)
  then
    grown <-! chk 64 (HEAP_BLOCK_SIZE + size n) ;;
    total <-! chk 64 (size b + grown) ;;
    _ <- store current (mkBlock total (next n) (free b) (reserved b)) ;;
    sret (Next current)
  else sret (Next (next b)).

Definition coalesce : M Heap unit :=
  h <- sget ;;
  while_loop (heap_fuel h) coalesce_body (heap_head h).

Definition kfree (ptr : Z) : M Heap unit :=
  if ptr =? 0 then sret tt else
  flags <- save_flags ;;
  block <-! chk 64 (ptr - HEAP_BLOCK_SIZE) ;;
  b <- deref block ;;
  if negb (free b =? 0) then restore_flags flags else
  _ <- store block (mkBlock (size b) (next b) 1 (reserved b)) ;;
  _ <- coalesce ;;
  restore_flags flags.

(** ** The heap as a list of blocks *)

(** From address [a] to [e] the heap is tiled by blocks with the payload sizes
    and free flags of [l], each linked to the next and the last to null. *)
Fixpoint tiled (m : gmap Z HeapBlock) (a : Z) (l : list (Z * bool)) (e : Z) : Prop :=
  match l with
  | [] => a = e
  | (s, f) :: l' =>
      (exists r, m !! a =
         Some (mkBlock s (match l' with [] => 0 | _ => a + 32 + s end) (Z.b2z f) r)) /\
      0 <= s /\ s mod 16 = 0 /\ tiled m (a + 32 + s) l' e
  end.

(** The bytes the blocks of [l] take, headers included. *)
Definition span (l : list (Z * bool)) : Z :=
  foldr (fun b acc => 32 + b.1 + acc) 0 l.

(** First fit: the offset of the chosen block and the list after the
    allocation, the block being split when what is left can hold a header and
    a payload. *)
Fixpoint first_fit (n : Z) (l : list (Z * bool)) : option (Z * list (Z * bool)) :=
  match l with
  | [] => None
  | (s, f) :: l' =>
      if f && (n <=? s) then
        Some (0, if n + 32 <? s then (n, false) :: (s - n - 32, true) :: l'
                 else (s, false) :: l')
      else
        match first_fit n l' with
        | Some (off, r) => Some (32 + s + off, (s, f) :: r)
        | None => None
        end
  end.

(** Merging neighbouring free blocks. *)
Definition merge_cons (b : Z * bool) (r : list (Z * bool)) : list (Z * bool) :=
  match b, r with
  | (s, true), (s', true) :: r' => (s + 32 + s', true) :: r'
  | _, _ => b :: r
  end.

Definition merge (l : list (Z * bool)) : list (Z * bool) := foldr merge_cons [] l.

(** No two neighbouring blocks are both free. *)
Fixpoint merged (l : list (Z * bool)) : Prop :=
  match l with
  | [] => True
  | (_, f) :: l' =>
      match l' with [] => True | (_, f') :: _ => f && f' = false end /\ merged l'
  end.

Definition heap_start (l : list (Z * bool)) (a : Z) : Z :=
  match l with [] => 0 | _ => a end.

(** The heap holds the block list [l] and ends at [e]. *)
Record heap_ok (h : Heap) (l : list (Z * bool)) (e : Z) : Prop := {
  hk_tiled : tiled (blocks h) (heap_head h) l e;
  hk_nonempty : l <> [];
  hk_head : 0 < heap_head h /\ heap_head h mod 16 = 0;
  hk_end : e < 2 ^ 64;
  hk_rflags : 0 <= rflags h < 2 ^ 64;
}.

Lemma tiled_span m a l e : tiled m a l e -> e = a + span l /\ 0 <= span l.
Proof.
  revert a. induction l as [|[s f] l IH]; intros a; simpl; [lia|].
  intros (_ & Hs & _ & [-> ?]%IH). lia.
Qed.

Lemma tiled_agree m m' a l e :
  tiled m a l e -> (forall x, a <= x < e -> m' !! x = m !! x) -> tiled m' a l e.
Proof.
  revert a. induction l as [|[s f] l IH]; intros a; simpl; [done|].
  intros ([r Hr] & Hs & Hm & Ht) Hx. pose proof (tiled_span _ _ _ _ Ht) as [-> ?].
  split_and!; [|done..|].
  - exists r. rewrite Hx; [done|]. lia.
  - apply IH; [done|]. intros x ?. apply Hx. lia.
Qed.

(** Changing what lies beyond the first block keeps the first block. *)
Lemma tiled_cons m m' a s f l l' e :
  tiled m a ((s, f) :: l) e -> (l = [] <-> l' = []) ->
  (forall x, x < a + 32 + s -> m' !! x = m !! x) ->
  tiled m' (a + 32 + s) l' e -> tiled m' a ((s, f) :: l') e.
Proof.
  intros ([r Hr] & Hs & Hm & Ht) Hnil Hx Ht'. simpl. split_and!; [|done..].
  exists r. rewrite Hx by lia. rewrite Hr. destruct l, l'; try done; by destruct Hnil as [H1 H2]; (discriminate H1 || discriminate H2).
Qed.

Fixpoint addrs (a : Z) (l : list (Z * bool)) : list Z :=
  match l with
  | [] => []
  | (s, _) :: l' => a :: addrs (a + 32 + s) l'
  end.

Lemma addrs_ge m a l e x : tiled m a l e -> x ∈ addrs a l -> a <= x.
Proof.
  revert a. induction l as [|[s f] l IH]; intros a; simpl.
  { intros _ Hx. by apply not_elem_of_nil in Hx. }
  intros (_ & Hs & _ & Ht) [->|Hx]%elem_of_cons; [lia|]. specialize (IH _ Ht Hx). lia.
Qed.

Lemma addrs_NoDup m a l e : tiled m a l e -> NoDup (addrs a l).
Proof.
  revert a. induction l as [|[s f] l IH]; intros a; simpl; [constructor|].
  intros (_ & Hs & _ & Ht). constructor; [|by apply IH].
  intros Hx. pose proof (addrs_ge _ _ _ _ _ Ht Hx). lia.
Qed.

Lemma addrs_dom m a l e : tiled m a l e -> list_to_set (addrs a l) ⊆ dom m.
Proof.
  revert a. induction l as [|[s f] l IH]; intros a; simpl; [set_solver|].
  intros ([r Hr] & _ & _ & Ht). apply union_subseteq. split; [|by apply IH].
  apply singleton_subseteq_l, elem_of_dom. by rewrite Hr.
Qed.

Lemma tiled_size m a l e : tiled m a l e -> (length l <= base.size m)%nat.
Proof.
  intros Ht. rewrite <-size_dom.
  pose proof (subseteq_size _ _ (addrs_dom _ _ _ _ Ht)) as Hle.
  rewrite size_list_to_set in Hle by by eapply addrs_NoDup.
  enough (length (addrs a l) = length l) by lia.
  clear. revert a. induction l as [|[s f] l IH]; intros a; simpl; [done|]. by rewrite IH.
Qed.

(** [h'] differs from [h] only in headers between [a] and [e]. *)
Definition same_outside (h h' : Heap) (a e : Z) : Prop :=
  heap_head h' = heap_head h /\ rflags h' = rflags h /\
  forall x, x < a \/ e <= x -> blocks h' !! x = blocks h !! x.

Lemma heap_same_refl h a e : same_outside h h a e.
Proof. by split_and!. Qed.

Lemma same_outside_weaken h h' a a' e :
  same_outside h h' a e -> a' <= a -> same_outside h h' a' e.
Proof. intros (?&?&Hx) ?. split_and!; try done. intros. apply Hx. lia. Qed.

Lemma same_outside_trans h h1 h' a e :
  same_outside h h1 a e -> same_outside h1 h' a e -> same_outside h h' a e.
Proof.
  intros (?&?&Hx) (?&?&Hy). split_and!; [congruence..|].
  intros x Hxe. by rewrite Hy, Hx.
Qed.

Lemma deref_Ret a h b : blocks h !! a = Some b -> deref a h = Ret (b, h).
Proof. intros Hb. unfold deref. by rewrite Hb. Qed.

Lemma b2z_zero f : (Z.b2z f =? 0) = negb f.
Proof. by destruct f. Qed.

(** The block [kmalloc] takes when it fits. *)
Lemma kmalloc_take n a s l e h :
  tiled (blocks h) a ((s, true) :: l) e -> 0 <= n <= s -> n mod 16 = 0 ->
  0 < a -> e < 2 ^ 64 ->
  exists h', kmalloc_body n a h = Ret (Exit (a + 32), h') /\ same_outside h h' a e /\
    tiled (blocks h') a
      (if n + 32 <? s then (n, false) :: (s - n - 32, true) :: l else (s, false) :: l) e.
Proof.
  intros ([r Hr] & Hs & Hm & Ht) Hn Hn16 Ha He.
  pose proof (tiled_span _ _ _ _ Ht) as [Hend ?].
  unfold kmalloc_body, HEAP_BLOCK_SIZE. rewrite (proj2 (Z.eqb_neq _ _)) by lia.
  rewrite (sbind_Ret _ _ _ _ _ (deref_Ret _ _ _ Hr)). cbn [free size Z.b2z].
  rewrite (proj2 (Z.leb_le n s)) by lia. cbn [negb andb Z.eqb].
  unfold slift. unfold sbind at 1. rewrite chk_Ret by lia.
  destruct (Z.ltb_spec (n + 32) s) as [Hsplit|Hsplit].
  - set (sp := a + 32 + n).
    unfold store, smodify, set_blocks, deref, sbind, sret. cbn [blocks heap_head rflags next].
    rewrite lookup_insert_eq. cbn [size next free reserved].
    eexists. split; [done|]. split.
    + split_and!; try done. intros x Hx. cbn [blocks].
      rewrite !lookup_insert_ne by lia. done.
    + cbn [tiled blocks]. split_and!; try (unfold sp in *; lia).
      * exists r. by rewrite lookup_insert_eq.
      * exists 0. rewrite !lookup_insert_ne, lookup_insert_eq by lia.
        destruct l; [done|]. do 2 f_equal. unfold sp. lia.
      * replace (a + 32 + n + 32 + (s - n - 32)) with (a + 32 + s) by lia.
        eapply tiled_agree; [done|]. intros x Hx. rewrite !lookup_insert_ne by lia. done.
  - unfold sret at 1, sbind at 1. rewrite (sbind_Ret _ _ _ _ _ (deref_Ret _ _ _ Hr)).
    eexists. split; [done|]. split.
    + split_and!; try done. intros x Hx. simpl.
      rewrite !lookup_insert_ne by lia. done.
    + cbn [tiled]. split_and!; [|done..|].
      * exists r. simpl. by rewrite lookup_insert_eq.
      * eapply tiled_agree; [done|]. intros x Hx. simpl.
        rewrite !lookup_insert_ne by lia. done.
Qed.

Lemma kmalloc_skip n a s f l e h :
  tiled (blocks h) a ((s, f) :: l) e -> f && (n <=? s) = false -> 0 < a ->
  kmalloc_body n a h = Ret (Next (heap_start l (a + 32 + s)), h).
Proof.
  intros ([r Hr] & _) Hno Ha. unfold kmalloc_body.
  rewrite (proj2 (Z.eqb_neq _ _)) by lia.
  rewrite (sbind_Ret _ _ _ _ _ (deref_Ret _ _ _ Hr)). cbn [free size next].
  rewrite b2z_zero, negb_involutive, Hno. by destruct l.
Qed.

Lemma first_fit_nil n l off r : first_fit n l = Some (off, r) -> l <> [] /\ r <> [].
Proof.
  destruct l as [|[s f] l]; [done|]. simpl. case_test.
  - intros [= _ <-]. split; [done|]. by case_test.
  - destruct (first_fit n l) as [[off' r']|]; [|done]. by intros [= _ <-].
Qed.

(** The search loop computes [first_fit], changing nothing when it fails. *)
Lemma kmalloc_loop n l : forall fuel a e h,
  (length l < fuel)%nat -> tiled (blocks h) a l e -> 0 <= n -> n mod 16 = 0 ->
  0 < a -> e < 2 ^ 64 ->
  match first_fit n l with
  | Some (off, r) =>
      exists h', while_loop fuel (kmalloc_body n) (heap_start l a) h = Ret (a + off + 32, h') /\
        same_outside h h' a e /\ tiled (blocks h') a r e
  | None => while_loop fuel (kmalloc_body n) (heap_start l a) h = Ret (0, h)
  end.
Proof.
  induction l as [|[s f] l IH]; intros [|fuel] a e h Hf Ht Hn Hn16 Ha He;
    try (simpl in Hf; lia); [done|].
  cbn [first_fit heap_start while_loop]. destruct (f && (n <=? s)) eqn:Hfit.
  - apply andb_true_iff in Hfit as [-> Hfit]. zify_bool.
    destruct (kmalloc_take n a s l e h) as (h' & Hrun & Hsame & Ht'); [done..|].
    exists h'. rewrite (sbind_Ret _ _ _ _ _ Hrun), Z.add_0_r. done.
  - rewrite (sbind_Ret _ _ _ _ _ (kmalloc_skip n a s f l e h Ht Hfit Ha)).
    pose proof Ht as (_ & Hs & _ & Ht2). simpl in Hf.
    specialize (IH fuel (a + 32 + s) e h ltac:(lia) Ht2 Hn Hn16 ltac:(lia) He).
    destruct (first_fit n l) as [[off r]|] eqn:Hff; [|done].
    destruct IH as (h' & -> & Hsame & Ht'). exists h'.
    split; [do 2 f_equal; lia|].
    split; [eapply same_outside_weaken; [done|lia]|].
    apply first_fit_nil in Hff as [? ?].
    eapply tiled_cons; [exact Ht|done| |done]. intros x Hx. apply Hsame. lia.
Qed.

(** ** Coalescing *)

Lemma merge_cons_free s s' l :
  merge ((s, true) :: (s', true) :: l) = merge ((s + 32 + s', true) :: l).
Proof.
  unfold merge. simpl. destruct (foldr merge_cons [] l) as [|[s2 [|]] r]; simpl; try done.
  do 2 f_equal. lia.
Qed.

Lemma merge_cons_used s f s' f' l :
  f && f' = false -> merge ((s, f) :: (s', f') :: l) = (s, f) :: merge ((s', f') :: l).
Proof.
  intros Hff. unfold merge. simpl. destruct f; [|done].
  destruct f'; [done|]. done.
Qed.

Lemma merge_nil l : l = [] <-> merge l = [].
Proof.
  destruct l as [|[s f] l]; [done|]. unfold merge. simpl.
  destruct f, (foldr merge_cons [] l) as [|[? []] ?]; done.
Qed.

(** Merging is idempotent in effect: its result has no free neighbours. *)
Lemma merge_cons_merged b r : merged r -> merged (merge_cons b r).
Proof.
  by destruct b as [s []], r as [|[s' []] r].
Qed.

Lemma merge_merged l : merged (merge l).
Proof. induction l; [done|]. by apply merge_cons_merged. Qed.

Lemma merged_merge l : merged l -> merge l = l.
Proof.
  induction l as [|[s f] l IH]; [done|]. intros [Hf Hm].
  unfold merge in *. simpl. rewrite (IH Hm). by destruct l as [|[s' []] l], f.
Qed.

Lemma coalesce_join a s s' l e h :
  tiled (blocks h) a ((s, true) :: (s', true) :: l) e -> 0 < a -> e < 2 ^ 64 ->
  exists h', coalesce_body a h = Ret (Next a, h') /\ same_outside h h' a e /\
    tiled (blocks h') a ((s + 32 + s', true) :: l) e.
Proof.
  intros ([r Hr] & Hs & Hm & ([r' Hr'] & Hs' & Hm' & Ht)) Ha He.
  pose proof (tiled_span _ _ _ _ Ht) as [Hend ?].
  unfold coalesce_body, HEAP_BLOCK_SIZE. rewrite (proj2 (Z.eqb_neq _ _)) by lia.
  rewrite (sbind_Ret _ _ _ _ _ (deref_Ret _ _ _ Hr)). cbn [free size next Z.b2z Z.eqb].
  rewrite (proj2 (Z.eqb_neq _ _)) by lia.
  rewrite (sbind_Ret _ _ _ _ _ (deref_Ret _ _ _ Hr')). cbn [free size next Z.b2z Z.eqb negb andb].
  rewrite Z.eqb_refl. unfold slift, sbind. rewrite !chk_Ret by lia.
  eexists. split; [done|]. split.
  - split_and!; try done. intros x Hx. simpl. rewrite lookup_insert_ne by lia. done.
  - cbn [tiled]. split_and!; [|lia|lia|].
    + exists r. simpl. rewrite lookup_insert_eq. do 2 f_equal; [lia|].
      destruct l; [done|lia].
    + replace (a + 32 + (s + 32 + s')) with (a + 32 + s + 32 + s') by lia.
      eapply tiled_agree; [done|]. intros x Hx. simpl. rewrite lookup_insert_ne by lia. done.
Qed.

Lemma coalesce_skip a s f s' f' l e h :
  tiled (blocks h) a ((s, f) :: (s', f') :: l) e -> f && f' = false -> 0 < a ->
  coalesce_body a h = Ret (Next (a + 32 + s), h).
Proof.
  intros ([r Hr] & Hs & Hm & ([r' Hr'] & Hs' & _)) Hff Ha.
  unfold coalesce_body. rewrite (proj2 (Z.eqb_neq _ _)) by lia.
  rewrite (sbind_Ret _ _ _ _ _ (deref_Ret _ _ _ Hr)). cbn [free size next].
  rewrite (proj2 (Z.eqb_neq _ _)) by lia. rewrite b2z_zero. destruct f; cbn [negb].
  - rewrite (sbind_Ret _ _ _ _ _ (deref_Ret _ _ _ Hr')). cbn [free].
    simpl in Hff. by rewrite Hff.
  - done.
Qed.

(** The loop computes [merge]; it ends because every turn either drops a
    block from the list or moves past one. *)
Lemma coalesce_loop k : forall l fuel a e h,
  (length l <= k)%nat -> (length l < fuel)%nat -> l <> [] -> tiled (blocks h) a l e ->
  0 < a -> e < 2 ^ 64 ->
  exists h', while_loop fuel coalesce_body a h = Ret (tt, h') /\
    same_outside h h' a e /\ tiled (blocks h') a (merge l) e.
Proof.
  induction k as [|k IH]; intros l [|fuel] a e h Hk Hf Hne Ht Ha He; try lia.
  { by destruct l; [|simpl in Hk; lia]. }
  destruct l as [|[s f] [|[s' f'] l]]; [done| |]; cbn [while_loop].
  - exists h. pose proof Ht as ([r Hr] & _). split; [|by split; [apply heap_same_refl|destruct f]].
    unfold coalesce_body. rewrite (proj2 (Z.eqb_neq _ _)) by lia.
    unfold sbind. rewrite (deref_Ret _ _ _ Hr). done.
  - simpl in Hk, Hf. destruct (f && f') eqn:Hff.
    + apply andb_true_iff in Hff as [-> ->].
      destruct (coalesce_join a s s' l e h Ht Ha He) as (h1 & Hrun & Hsame & Ht1).
      rewrite (sbind_Ret _ _ _ _ _ Hrun), merge_cons_free.
      destruct (IH ((s + 32 + s', true) :: l) fuel a e h1) as (h' & -> & ? & ?);
        simpl; [lia|lia|done..|].
      exists h'. split; [done|]. split; [by eapply same_outside_trans|done].
    + rewrite (sbind_Ret _ _ _ _ _ (coalesce_skip a s f s' f' l e h Ht Hff Ha)).
      rewrite merge_cons_used by done. pose proof Ht as (_ & Hs & _ & Ht2).
      destruct (IH ((s', f') :: l) fuel (a + 32 + s) e h) as (h' & -> & Hsame & ?);
        simpl; [lia|lia|done|done|lia|done|].
      exists h'. split; [done|]. split; [eapply same_outside_weaken; [done|lia]|].
      eapply tiled_cons; [exact Ht|apply merge_nil| |done]. intros x Hx. apply Hsame. lia.
Qed.

(** ** The three operations on the block list *)

Definition round16 (n : Z) : Z := (n + 15) / 16 * 16.

Lemma round16_eq n :
  0 < n <= u64_max - 15 ->
  Z.land (n + (HEAP_ALIGN - 1)) (unot 64 (HEAP_ALIGN - 1)) = round16 n.
Proof.
  intros Hn. unfold HEAP_ALIGN, u64_max in *. change (16 - 1) with (Z.ones 4).
  rewrite land_align by (change (Z.ones 4) with 15; lia). done.
Qed.

Lemma flags_bracket h :
  0 <= rflags h < 2 ^ 64 ->
  irq_restore (rflags h) (irq_disable (rflags h)) = rflags h.
Proof. apply irq_save_restore. Qed.

Lemma heap_fuel_enough h l a e : tiled (blocks h) a l e -> (length l < heap_fuel h)%nat.
Proof. intros Ht%tiled_size. unfold heap_fuel. lia. Qed.

Lemma kmalloc_spec h l e n :
  heap_ok h l e -> 0 < n <= u64_max - 15 ->
  match first_fit (round16 n) l with
  | Some (off, r) => exists h', kmalloc n h = Ret (heap_head h + off + 32, h') /\
      heap_ok h' r e /\ heap_head h' = heap_head h
  | None => kmalloc n h = Ret (0, h)
  end.
Proof.
  intros [Ht Hne [Hh Hh16] He Hrf] Hn.
  set (h0 := set_rflags h (irq_disable (rflags h))).
  assert (kmalloc n h = sbind (while_loop (heap_fuel h) (kmalloc_body (round16 n))
      (heap_start l (heap_head h)))
    (fun result => sbind (restore_flags (rflags h)) (fun _ => sret result)) h0) as ->.
  { unfold kmalloc.
    rewrite (proj2 (Z.eqb_neq n 0)), (proj2 (Z.ltb_ge _ _)) by (unfold HEAP_ALIGN; lia).
    unfold sbind at 1, sget at 1. cbn [orb]. rewrite (proj2 (Z.eqb_neq _ _)) by lia.
    rewrite round16_eq by done. by destruct l. }
  pose proof (kmalloc_loop (round16 n) l (heap_fuel h) (heap_head h) e h0
    (heap_fuel_enough _ _ _ _ Ht) Ht ltac:(unfold round16; lia) ltac:(unfold round16; lia) Hh He)
    as Hloop.
  destruct (first_fit (round16 n) l) as [[off r]|] eqn:Hff.
  - destruct Hloop as (h' & Hrun & (Hhd & Hr' & _) & Ht').
    rewrite (sbind_Ret _ _ _ _ _ Hrun). eexists. split; [done|].
    apply first_fit_nil in Hff as [_ ?].
    split; [|done]. constructor; simpl; rewrite ?Hhd, ?Hr'; try done.
    simpl. by rewrite flags_bracket.
  - rewrite (sbind_Ret _ _ _ _ _ Hloop).
    unfold restore_flags, smodify, sbind, sret, set_rflags. simpl.
    rewrite flags_bracket by done. by destruct h.
Qed.

Lemma span_app l l' : span (l ++ l') = span l + span l'.
Proof. induction l as [|[s f] l IH]; simpl; [done|]. rewrite IH. lia. Qed.

Lemma tiled_sizes m a l e :
  tiled m a l e -> Forall (fun b => 0 <= b.1 /\ b.1 mod 16 = 0) l.
Proof.
  revert a. induction l as [|[s f] l IH]; intros a; constructor; simpl in *; [lia|].
  destruct H as (_&_&_&Ht). by eapply IH.
Qed.

Lemma span_sizes l :
  Forall (fun b => 0 <= b.1 /\ b.1 mod 16 = 0) l -> 0 <= span l /\ span l mod 16 = 0.
Proof.
  induction 1 as [|[s f] l [? ?] _ IH]; simpl in *; [done|]. fold (span l). lia.
Qed.

(** Where one block of the list lies. *)
Lemma tiled_at m a pre s f post e :
  tiled m a (pre ++ (s, f) :: post) e ->
  0 <= s /\ s mod 16 = 0 /\ 0 <= span pre /\ span pre mod 16 = 0 /\
  a + span pre + 32 + s + span post = e /\ 0 <= span post.
Proof.
  intros Ht. pose proof (tiled_span _ _ _ _ Ht) as [-> _].
  pose proof (tiled_sizes _ _ _ _ Ht) as [Hpre Hpost]%Forall_app.
  inversion Hpost; simplify_eq. pose proof (span_sizes _ Hpre).
  pose proof (span_sizes post ltac:(done)). rewrite span_app. simpl in *.
  fold (span post). lia.
Qed.

(** Looking at and rewriting the flag of one block of the list. *)
Lemma tiled_mid m a pre s f post e f' :
  tiled m a (pre ++ (s, f) :: post) e ->
  exists nx r, m !! (a + span pre) = Some (mkBlock s nx (Z.b2z f) r) /\
    tiled (<[a + span pre := mkBlock s nx (Z.b2z f') r]> m) a (pre ++ (s, f') :: post) e.
Proof.
  revert a. induction pre as [|[s0 f0] pre IH]; intros a Ht; cbn [app span foldr] in *.
  - destruct Ht as ([r Hr] & Hs & Hm & Ht). rewrite Z.add_0_r. do 2 eexists.
    split; [done|]. cbn [tiled]. split_and!; [by eexists; rewrite lookup_insert_eq|done..|].
    eapply tiled_agree; [done|]. intros x Hx. rewrite lookup_insert_ne by lia. done.
  - pose proof Ht as (_ & Hs & _ & Ht2). destruct (IH _ Ht2) as (nx & r & Hr & Ht3).
    pose proof (tiled_at _ _ _ _ _ _ _ Ht2) as (_ & _ & ? & _).
    exists nx, r. fold (span pre). cbn [fst].
    replace (a + (32 + s0 + span pre)) with (a + 32 + s0 + span pre) by lia.
    split; [done|]. eapply tiled_cons; [exact Ht|split; intros E; by destruct pre| |done].
    intros x Hx. rewrite lookup_insert_ne by lia. done.
Qed.

Lemma kfree_spec h pre s post e :
  heap_ok h (pre ++ (s, false) :: post) e ->
  exists h', kfree (heap_head h + span pre + 32) h = Ret (tt, h') /\
    heap_ok h' (merge (pre ++ (s, true) :: post)) e /\ heap_head h' = heap_head h.
Proof.
  intros [Ht Hne [Hh Hh16] He Hrf]. unfold kfree, HEAP_BLOCK_SIZE.
  destruct (tiled_mid _ _ _ _ _ _ _ true Ht) as (nx & r & Hr & Ht').
  pose proof (tiled_at _ _ _ _ _ _ _ Ht) as (?&?&?&?&?&?).
  rewrite (proj2 (Z.eqb_neq _ _)) by lia.
  set (h0 := set_rflags h (irq_disable (rflags h))).
  assert (Hsave : save_flags h = Ret (rflags h, h0)) by done.
  rewrite (sbind_Ret _ _ _ _ _ Hsave).
  unfold sbind at 1, slift. rewrite chk_Ret by lia.
  replace (heap_head h + span pre + 32 - 32) with (heap_head h + span pre) by lia.
  rewrite (sbind_Ret _ _ _ _ _ (deref_Ret _ h0 _ Hr)). cbn [free Z.b2z Z.eqb negb].
  unfold sbind at 1, store, smodify. cbn [size next reserved].
  set (h1 := set_blocks h0 _).
  change (tiled (blocks h1) (heap_head h) (pre ++ (s, true) :: post) e) in Ht'.
  destruct (coalesce_loop (length (pre ++ (s, true) :: post)) _ (heap_fuel h1) _ e h1
    (Nat.le_refl _) (heap_fuel_enough _ _ _ _ Ht') ltac:(by destruct pre) Ht' Hh He)
    as (h' & Hrun & (Hhd & Hr' & _) & Hm).
  assert (Hco : coalesce h1 = Ret (tt, h')) by exact Hrun.
  rewrite (sbind_Ret _ _ _ _ _ Hco). eexists. split; [done|]. split; [|done].
  constructor; simpl; rewrite ?Hhd, ?Hr'; try done.
  - intros Hnil%merge_nil. by destruct pre.
  - simpl. by rewrite flags_bracket.
Qed.

(** ** Payloads in use *)

(** The payloads (address, size) of the blocks that are not free. *)
Fixpoint used (a : Z) (l : list (Z * bool)) : list (Z * Z) :=
  match l with
  | [] => []
  | (s, f) :: l' =>
      (if f then [] else [(a + 32, s)]) ++ used (a + 32 + s) l'
  end.

Lemma used_app a l l' : used a (l ++ l') = used a l ++ used (a + span l) l'.
Proof.
  revert a. induction l as [|[s f] l IH]; intros a; simpl.
  - by rewrite Z.add_0_r.
  - rewrite IH, app_assoc. do 2 f_equal. fold (span l). lia.
Qed.

Lemma used_merge_cons a b r : used a (merge_cons b r) = used a (b :: r).
Proof.
  destruct b as [s []], r as [|[s' []] r]; simpl; try done. f_equal. lia.
Qed.

Lemma used_merge a l : used a (merge l) = used a l.
Proof.
  revert a. induction l as [|[s f] l IH]; intros a; [done|].
  change (merge ((s, f) :: l)) with (merge_cons (s, f) (merge l)).
  rewrite used_merge_cons. simpl. by rewrite IH.
Qed.

(** A payload in use belongs to a block of the list. *)
Lemma used_split a l p s :
  (p, s) ∈ used a l ->
  exists pre post, l = pre ++ (s, false) :: post /\ p = a + span pre + 32.
Proof.
  revert a. induction l as [|[s0 f0] l IH]; intros a; simpl.
  { intros Hx. by apply not_elem_of_nil in Hx. }
  rewrite elem_of_app. intros [Hx|Hx].
  - destruct f0; [by apply not_elem_of_nil in Hx|].
    apply list_elem_of_singleton in Hx as [= -> ->]. exists [], l. split; [done|]. simpl. lia.
  - destruct (IH _ Hx) as (pre & post & -> & ->). exists ((s0, f0) :: pre), post.
    split; [done|]. simpl. fold (span pre). lia.
Qed.

Lemma first_fit_split n l off r :
  first_fit n l = Some (off, r) ->
  exists pre s post, l = pre ++ (s, true) :: post /\ off = span pre /\ n <= s /\
    r = pre ++ (if n + 32 <? s then (n, false) :: (s - n - 32, true) :: post
                else (s, false) :: post).
Proof.
  revert off r. induction l as [|[s f] l IH]; intros off r; [done|]. simpl.
  destruct (f && (n <=? s)) eqn:Hfit.
  - apply andb_true_iff in Hfit as [-> Hfit]. zify_bool. intros [= <- <-].
    by exists [], s, l.
  - destruct (first_fit n l) as [[off' r']|]; [|done]. intros [= <- <-].
    destruct (IH _ _ eq_refl) as (pre & s' & post & -> & -> & ? & ->).
    exists ((s, f) :: pre), s', post. done.
Qed.

Lemma first_fit_none n l s : first_fit n l = None -> (s, true) ∈ l -> s < n.
Proof.
  induction l as [|[s0 f0] l IH]; [intros _ Hx; by apply not_elem_of_nil in Hx|].
  simpl. destruct (f0 && (n <=? s0)) eqn:Hfit; [done|].
  destruct (first_fit n l) as [[]|]; [done|]. intros _ [[= -> <-]|Hx]%elem_of_cons.
  - simpl in Hfit. zify_bool. lia.
  - by apply IH.
Qed.

(** Two blocks of the list are the same block or lie apart. *)
Lemma blocks_apart pre s f post pre' s' f' post' :
  pre ++ (s, f) :: post = pre' ++ (s', f') :: post' ->
  Forall (fun b => 0 <= b.1 /\ b.1 mod 16 = 0) (pre ++ (s, f) :: post) ->
  span pre + 32 + s <= span pre' \/ span pre' + 32 + s' <= span pre \/
  (pre = pre' /\ s = s' /\ f = f').
Proof.
  revert pre'. induction pre as [|[s0 f0] pre IH]; intros [|[s1 f1] pre'] Heq Hall;
    simpl in *; simplify_eq.
  - auto.
  - left. inversion Hall as [|? ? [? ?] Hrest]; simplify_eq. apply Forall_app in Hrest as [Hp _].
    apply span_sizes in Hp. simpl in *. fold (span pre'). lia.
  - right; left. inversion Hall as [|? ? [? ?] Hrest]; simplify_eq.
    apply Forall_app in Hrest as [Hp _]. apply span_sizes in Hp. simpl in *. fold (span pre). lia.
  - inversion Hall; simplify_eq. fold (span pre) (span pre').
    destruct (IH pre' ltac:(done) ltac:(done)) as [?|[?|(->&->&->)]]; [lia|lia|auto].
Qed.

(** The pointer [kmalloc] hands out, in terms of the payloads in use. *)
Lemma kmalloc_run (h : Heap) (l : list (Z * bool)) (e n : Z)
    (Hok : heap_ok h l e) (Hn : 0 < n <= u64_max - 15) :
  (exists ptr n' h' r, kmalloc n h = Ret (ptr, h') /\ heap_ok h' r e /\
     ptr mod 16 = 0 /\ n <= n' /\ heap_head h + 32 <= ptr /\ ptr + n' <= e /\
     used (heap_head h) r ≡ₚ (ptr, n') :: used (heap_head h) l /\
     forall q t, (q, t) ∈ used (heap_head h) l -> q + t + 32 <= ptr \/ ptr + n' + 32 <= q) \/
  (kmalloc n h = Ret (0, h) /\ forall s, (s, true) ∈ l -> s < round16 n).
Proof.
  pose proof (kmalloc_spec h l e n Hok Hn) as Hspec. destruct Hok as [Ht _ [Hh Hh16] He _].
  destruct (first_fit (round16 n) l) as [[off r]|] eqn:Hff.
  2:{ right. split; [done|]. intros s. by apply first_fit_none. }
  left. destruct Hspec as (h' & Hrun & Hok' & Hhd).
  pose proof (first_fit_split _ _ _ _ Hff) as (pre & s & post & -> & -> & Hs & Hr).
  pose proof (tiled_at _ _ _ _ _ _ _ Ht) as (?&?&?&?&?&?).
  set (n' := if round16 n + 32 <? s then round16 n else s).
  set (ptr := heap_head h + span pre + 32).
  assert (Hused : used (heap_head h) r ≡ₚ (ptr, n') :: used (heap_head h) (pre ++ (s, true) :: post)).
  { rewrite Hr, !used_app, Permutation_middle. f_equiv. unfold n'.
    case_test; simpl; fold ptr; [|done]. f_equiv. replace (ptr + round16 n + 32 + (s - round16 n - 32)) with (ptr + s) by lia. done. }
  exists ptr, n', h', r. split_and!; [done|done| | | | |done|].
  1-4: unfold ptr, n', round16 in *; try case_test; lia.
  intros q t (pre' & post' & Heq & ->)%used_split.
  destruct (blocks_apart _ _ _ _ _ _ _ _ Heq (tiled_sizes _ _ _ _ Ht)) as [?|[?|(_&_&?)]];
    [right|left|done]; unfold ptr, n'; try case_test; lia.
Qed.

(** ** Properties *)

(** A heap of one 4064-byte block, as [kheap_init] leaves it for one page. *)
Definition sample_heap : Heap :=
  mkHeap {[0xFFFF900000000000 := mkBlock 4064 0 1 0]} 0xFFFF900000000000 0x202.

Lemma sample_heap_ok : heap_ok sample_heap [(4064, true)] 0xFFFF900000001000.
Proof. constructor; simpl; try lia; [|done]. split_and!; try done. by exists 0. Qed.



(** [kfree] of a payload in use always returns; afterwards that payload
    and no other has left the payloads in use, the heap is still well formed
    and no two neighbouring blocks are both free. *)
Theorem kfree_correct (h : Heap) (l : list (Z * bool)) (e ptr s : Z)
    (Hok : heap_ok h l e) (Hptr : (ptr, s) ∈ used (heap_head h) l) :
  exists h' r, kfree ptr h = Ret (tt, h') /\ heap_ok h' r e /\ merged r /\
    heap_head h' = heap_head h /\
    used (heap_head h) l ≡ₚ (ptr, s) :: used (heap_head h) r.
Proof.
  apply used_split in Hptr as (pre & post & -> & ->).
  destruct (kfree_spec h pre s post e Hok) as (h' & ? & ? & ?).
  exists h', (merge (pre ++ (s, true) :: post)). split_and!; [done..|apply merge_merged|done|].
  rewrite used_merge, !used_app, Permutation_middle. done.
Qed.

Lemma kfree_correct_witness :
  exists h h' r, kmalloc 100 sample_heap = Ret (0xFFFF900000000020, h) /\
    kfree 0xFFFF900000000020 h = Ret (tt, h') /\ heap_ok h' r 0xFFFF900000001000 /\ merged r.
Proof.
  pose proof (kmalloc_spec sample_heap _ _ 100 sample_heap_ok ltac:(unfold u64_max; lia)) as Hs.
  simpl in Hs. destruct Hs as (h & Hrun & Hok & Hhd).
  destruct (kfree_correct h [(112, false); (3920, true)] 0xFFFF900000001000
    0xFFFF900000000020 112 Hok) as (h' & r & Hf & Hok' & Hm & _).
  { rewrite Hhd. simpl. left. }
  exists h, h', r. split; [exact Hrun|]. split; [exact Hf|]. split; [exact Hok'|exact Hm].
Defined.

(** On a heap without free neighbours, freeing what [kmalloc] just handed
    out puts the block list back exactly as it was, whether or not the
    allocation split a block. *)
Theorem kmalloc_kfree_roundtrip (h h1 : Heap) (l : list (Z * bool)) (e n ptr : Z)
    (Hok : heap_ok h l e) (Hm : merged l) (Hn : 0 < n <= u64_max - 15)
    (Hrun : kmalloc n h = Ret (ptr, h1)) (Hptr : ptr <> 0) :
  exists h2, kfree ptr h1 = Ret (tt, h2) /\ heap_ok h2 l e /\ heap_head h2 = heap_head h.
Proof.
  pose proof (kmalloc_spec h l e n Hok Hn) as Hspec.
  destruct (first_fit (round16 n) l) as [[off r]|] eqn:Hff; [|rewrite Hspec in Hrun; by simplify_eq].
  destruct Hspec as (h' & Hrun' & Hok' & Hhd). rewrite Hrun in Hrun'. simplify_eq.
  apply first_fit_split in Hff as (pre & s & post & -> & -> & Hs & ->).
  rewrite <-Hhd. case_test_in Hok'.
  - destruct (kfree_spec h' pre (round16 n) _ e Hok') as (h2 & ? & Hok2 & ?).
    exists h2. split_and!; [done| |done]. revert Hok2.
    replace (merge (pre ++ (round16 n, true) :: (s - round16 n - 32, true) :: post))
      with (pre ++ (s, true) :: post); [done|].
    rewrite <-(merged_merge _ Hm) at 1. unfold merge. rewrite !foldr_app. f_equal.
    fold (merge ((s, true) :: post)).
    fold (merge ((round16 n, true) :: (s - round16 n - 32, true) :: post)).
    rewrite merge_cons_free. do 3 f_equal. lia.
  - destruct (kfree_spec h' pre s post e Hok') as (h2 & ? & Hok2 & ?).
    rewrite merged_merge in Hok2 by done. by exists h2.
Qed.

Lemma kmalloc_kfree_roundtrip_witness :
  exists h1 h2, kmalloc 100 sample_heap = Ret (0xFFFF900000000020, h1) /\
    kfree 0xFFFF900000000020 h1 = Ret (tt, h2) /\
    heap_ok h2 [(4064, true)] 0xFFFF900000001000.
Proof.
  pose proof (kmalloc_spec sample_heap _ _ 100 sample_heap_ok ltac:(unfold u64_max; lia)) as Hs.
  simpl in Hs. destruct Hs as (h1 & Hrun & _). exists h1.
  destruct (kmalloc_kfree_roundtrip sample_heap h1 _ _ 100 0xFFFF900000000020 sample_heap_ok
    ltac:(done) ltac:(unfold u64_max; lia) Hrun ltac:(done)) as (h2 & Hf & Hok & _).
  exists h2. split; [exact Hrun|]. split; [exact Hf|exact Hok].
Defined.
