(* ===== verification/Vmm.v ===== *)
(** * Page tables ([src/src/mm.rs], lines 18 to 99 and 250 to 496)

    The four-level tables are reached through the higher-half direct map: a
    physical address becomes a pointer by adding the HHDM offset. Memory is
    the map from addresses to the 64-bit words stored there; the translations
    it holds are read off by [vmm_virt_to_phys]. The frame allocator is used
    through the interface [FrameAllocator] only.

    The theorems describe mapping and unmapping as updates of that
    translation: one page changes, every other address keeps its
    translation. *)

From S2P Require Import Prelude Pmm.

Definition VMM_NO_PHYS : Z := u64_max.

Definition PTE_PRESENT : Z := Z.shiftl 1 0.
Definition PTE_WRITABLE : Z := Z.shiftl 1 1.
Definition PTE_USER : Z := Z.shiftl 1 2.
Definition PTE_PWT : Z := Z.shiftl 1 3.
Definition PTE_PCD : Z := Z.shiftl 1 4.
Definition PTE_HUGE : Z := Z.shiftl 1 7.
Definition PTE_ADDR_MASK : Z := 0x000FFFFFFFFFF000.
Definition PTE_ADDR_MASK_1G : Z := 0x000FFFFFC0000000.
Definition PTE_ADDR_MASK_2M : Z := 0x000FFFFFFFE00000.

(** [flags & bit != 0] *)
Definition has (e bit : Z) : bool := negb (Z.land e bit =? 0).

Section PageTables.
Context {PA : Type} `{FA : FrameAllocator PA}.

(** The allocator, memory, the HHDM response ([None] when null), the static
    [PML4] (0 when null) and the addresses [invlpg] was run on, latest first. *)
Record Vmm := mkVmm {
  frames : PA;
  mem : gmap Z Z;
  hhdm : option Z;
  pml4 : Z;
  flushed : list Z;
}.

Definition set_mem (s : Vmm) (m : gmap Z Z) : Vmm :=
  mkVmm (frames s) m (hhdm s) (pml4 s) (flushed s).

Definition rd (m : gmap Z Z) (a : Z) : Z := default 0 (m !! a).

(** [*table.add(index)] *)
Definition load (table index : Z) : M Vmm Z := fun s =>
  Ret (rd (mem s) (table + 8 * index), s).

Definition store (table index v : Z) : M Vmm unit :=
  smodify (fun s => set_mem s (<[table + 8 * index := v]> (mem s))).

Definition hhdm_base : M Vmm Z := fun s =>
  match hhdm s with
  | Some o => Ret (o, s)
  | None => Panic
  end.

Definition phys_to_ptr (physical : Z) : M Vmm Z :=
  o <- hhdm_base ;;
  slift (chk 64 (physical + o)).

(** [phys_to_virt] is the same sum, [hhdm_offset] the offset itself. *)
Definition phys_to_virt (physical : Z) : M Vmm Z := phys_to_ptr physical.

Definition hhdm_offset : M Vmm Z := hhdm_base.

Definition pmm_alloc : M Vmm Z := fun s =>
  match fa_alloc (frames s) with
  | Ret (page, p) => Ret (page, mkVmm p (mem s) (hhdm s) (pml4 s) (flushed s))
  | Panic => Panic
  | OutOfFuel => OutOfFuel
  end.

(** [write_bytes(table, 0, 512)] on a [*mut u64]: 512 words. *)
Definition zero_words (t : Z) (m : gmap Z Z) : gmap Z Z :=
  foldr (fun i m => <[t + 8 * Z.of_nat i := 0]> m) m (seq 0 512).

Definition zero_table (t : Z) : M Vmm unit :=
  smodify (fun s => set_mem s (zero_words t (mem s))).

Definition tlb_flush (va : Z) : M Vmm unit :=
  smodify (fun s => mkVmm (frames s) (mem s) (hhdm s) (pml4 s) (va :: flushed s)).

Definition vmm_init (cr3 : Z) : M Vmm unit :=
  if cr3 =? 0 then spanic else
  let pml4_physical := Z.land cr3 (unot 64 0xFFF) in
  p <- phys_to_ptr pml4_physical ;;
  smodify (fun s => mkVmm (frames s) (mem s) (hhdm s) p (flushed s)).

Definition alloc_table : M Vmm Z :=
  page <- pmm_alloc ;;
  if page =? PMM_NO_PAGE then spanic else
  table <- phys_to_ptr page ;;
  _ <- zero_table table ;;
  sret table.

Definition pml4_index (va : Z) : Z := Z.land (Z.shiftr va 39) 0x1FF.
Definition pdpt_index (va : Z) : Z := Z.land (Z.shiftr va 30) 0x1FF.
Definition pd_index (va : Z) : Z := Z.land (Z.shiftr va 21) 0x1FF.
Definition pt_index (va : Z) : Z := Z.land (Z.shiftr va 12) 0x1FF.

(** One of the three upper levels of [vmm_map_page_flags], the same code at
    each: make sure [table[index]] names a table, granting ring 3 passage when
    the leaf is a user page, and return that table. *)
Definition next_table (table index table_flags : Z) (user : bool) : M Vmm Z :=
  entry <- load table index ;;
  _ <- (if has entry PTE_PRESENT then
          if has entry PTE_HUGE then spanic else
          if user then store table index (Z.lor entry PTE_USER) else sret tt
        else
          new_page <- pmm_alloc ;;
          if new_page =? PMM_NO_PAGE then spanic else
          _ <- store table index (Z.lor new_page table_flags) ;;
          t <- phys_to_ptr new_page ;;
          zero_table t) ;;
  entry <- load table index ;;
  phys_to_ptr (Z.land entry PTE_ADDR_MASK).

Definition vmm_map_page_flags (va physical flags : Z) : M Vmm unit :=
  s <- sget ;;
  if pml4 s =? 0 then spanic else
  if negb (Z.land va (PAGE_SIZE - 1) =? 0) || negb (Z.land physical (PAGE_SIZE - 1) =? 0)
  then spanic else
  let table_flags := Z.lor (Z.lor PTE_PRESENT PTE_WRITABLE) (Z.land flags PTE_USER) in
  let user := has flags PTE_USER in
  pdpt <- next_table (pml4 s) (pml4_index va) table_flags user ;;
  pd <- next_table pdpt (pdpt_index va) table_flags user ;;
  pt <- next_table pd (pd_index va) table_flags user ;;
  _ <- store pt (pt_index va)
         (Z.lor (Z.lor (Z.land physical PTE_ADDR_MASK) PTE_PRESENT) flags) ;;
  tlb_flush va.

Definition vmm_map_page (va physical : Z) : M Vmm unit :=
  vmm_map_page_flags va physical (Z.lor PTE_PRESENT PTE_WRITABLE).

Definition vmm_map_user_page (va physical : Z) : M Vmm unit :=
  vmm_map_page_flags va physical (Z.lor (Z.lor PTE_PRESENT PTE_WRITABLE) PTE_USER).

Definition vmm_map_user_page_flags (va physical flags : Z) : M Vmm unit :=
  vmm_map_page_flags va physical (Z.lor flags PTE_USER).

Definition vmm_map_user_mmio (va physical : Z) : M Vmm unit :=
  vmm_map_page_flags va physical
    (Z.lor (Z.lor (Z.lor (Z.lor PTE_PRESENT PTE_WRITABLE) PTE_PWT) PTE_PCD) PTE_USER).

Definition vmm_map_mmio (va physical : Z) : M Vmm unit :=
  vmm_map_page_flags va physical
    (Z.lor (Z.lor (Z.lor PTE_PRESENT PTE_WRITABLE) PTE_PWT) PTE_PCD).

(** One level of the walk of [vmm_unmap_page]: [None] when there is nothing
    mapped below. *)
Definition unmap_level (table index : Z) : M Vmm (option Z) :=
  entry <- load table index ;;
  if negb (has entry PTE_PRESENT) then sret None else
  if has entry PTE_HUGE then spanic else
  t <- phys_to_ptr (Z.land entry PTE_ADDR_MASK) ;;
  sret (Some t).

Definition vmm_unmap_page (va : Z) : M Vmm unit :=
  s <- sget ;;
  if pml4 s =? 0 then spanic else
  pdpt <- unmap_level (pml4 s) (pml4_index va) ;;
  match pdpt with None => sret tt | Some pdpt =>
  pd <- unmap_level pdpt (pdpt_index va) ;;
  match pd with None => sret tt | Some pd =>
  pt <- unmap_level pd (pd_index va) ;;
  match pt with None => sret tt | Some pt =>
  entry <- load pt (pt_index va) ;;
  if negb (has entry PTE_PRESENT) then sret tt else
  _ <- store pt (pt_index va) 0 ;;
  tlb_flush va
  end end end.

Definition vmm_virt_to_phys (va : Z) : M Vmm Z :=
  s <- sget ;;
  if pml4 s =? 0 then sret VMM_NO_PHYS else
  let offset := Z.land va (PAGE_SIZE - 1) in
  let addr := Z.land va (unot 64 0xFFF) in
  entry <- load (pml4 s) (pml4_index addr) ;;
  if negb (has entry PTE_PRESENT) || has entry PTE_HUGE then sret VMM_NO_PHYS else
  pdpt <- phys_to_ptr (Z.land entry PTE_ADDR_MASK) ;;
  entry <- load pdpt (pdpt_index addr) ;;
  if negb (has entry PTE_PRESENT) then sret VMM_NO_PHYS else
  if has entry PTE_HUGE then
    sret (Z.lor (Z.lor (Z.land entry PTE_ADDR_MASK_1G) (Z.land addr 0x3FFFFFFF)) offset) else
  pd <- phys_to_ptr (Z.land entry PTE_ADDR_MASK) ;;
  entry <- load pd (pd_index addr) ;;
  if negb (has entry PTE_PRESENT) then sret VMM_NO_PHYS else
  if has entry PTE_HUGE then
    sret (Z.lor (Z.lor (Z.land entry PTE_ADDR_MASK_2M) (Z.land addr 0x1FFFFF)) offset) else
  pt <- phys_to_ptr (Z.land entry PTE_ADDR_MASK) ;;
  entry <- load pt (pt_index addr) ;;
  if negb (has entry PTE_PRESENT) then sret VMM_NO_PHYS else
  sret (Z.lor (Z.land entry PTE_ADDR_MASK) offset).

(** ** The tables as a tree

    A path is a list of table indices from the root. [walk] is the table a
    path leads to, [trail] the entries it meets, up to the one where the walk
    stops. *)
Definition present (e : Z) : bool := has e PTE_PRESENT.
Definition huge (e : Z) : bool := has e PTE_HUGE.
Definition nav (e : Z) : bool := present e && negb (huge e).
Definition child (h e : Z) : Z := Z.land e PTE_ADDR_MASK + h.

Fixpoint walk (m : gmap Z Z) (h t : Z) (p : list Z) : option Z :=
  match p with
  | [] => Some t
  | i :: p' =>
      let e := rd m (t + 8 * i) in
      if nav e then walk m h (child h e) p' else None
  end.

Fixpoint trail (m : gmap Z Z) (h t : Z) (p : list Z) : list Z :=
  match p with
  | [] => []
  | i :: p' =>
      let e := rd m (t + 8 * i) in
      e :: (if nav e then trail m h (child h e) p' else [])
  end.

Definition path (va : Z) : list Z :=
  [pml4_index va; pdpt_index va; pd_index va; pt_index va].

(** The physical address the entries met on the way to [va] stand for. *)
Definition decode (es : list Z) (va : Z) : Z :=
  let offset := Z.land va (PAGE_SIZE - 1) in
  let addr := Z.land va (unot 64 0xFFF) in
  match es with
  | [_; e] =>
      if present e
      then Z.lor (Z.lor (Z.land e PTE_ADDR_MASK_1G) (Z.land addr 0x3FFFFFFF)) offset
      else VMM_NO_PHYS
  | [_; _; e] =>
      if present e
      then Z.lor (Z.lor (Z.land e PTE_ADDR_MASK_2M) (Z.land addr 0x1FFFFF)) offset
      else VMM_NO_PHYS
  | [_; _; _; e] =>
      if present e then Z.lor (Z.land e PTE_ADDR_MASK) offset else VMM_NO_PHYS
  | _ => VMM_NO_PHYS
  end.

(** Ring 3 reaches an address when every entry on its way grants it. *)
Definition user_access (es : list Z) : bool :=
  forallb (fun e => present e && has e PTE_USER) es.

Definition path_ok (p : list Z) : Prop := Forall (fun i => 0 <= i < 512) p.

(** A frame a table can live in: its address fits the address field of an
    entry, its HHDM alias fits 64 bits. *)
Definition frame_ok (h f : Z) : Prop :=
  0 <= f < 2 ^ 40 /\ (f + 1) * PAGE_SIZE + h <= 2 ^ 64.

(** The invariant: every table is a frame the allocator has handed out, and no
    two paths share a table. *)
Record vmm_ok (s : Vmm) (h : Z) : Prop := {
  ok_hhdm : hhdm s = Some h;
  ok_h : 0 <= h;
  ok_pml4 : pml4 s <> 0;
  ok_frames : fa_ok (frames s);
  ok_small : forall f, fa_free (frames s) f -> frame_ok h f;
  ok_table : forall p t, path_ok p -> (length p <= 3)%nat ->
    walk (mem s) h (pml4 s) p = Some t ->
    exists f, t = f * PAGE_SIZE + h /\ frame_ok h f /\ ~ fa_free (frames s) f;
  ok_inj : forall p q t, path_ok p -> path_ok q ->
    (length p <= 3)%nat -> (length q <= 3)%nat ->
    walk (mem s) h (pml4 s) p = Some t ->
    walk (mem s) h (pml4 s) q = Some t -> p = q;
}.

(** *** Trails and walks *)

Lemma walk_app m h t p q :
  walk m h t (p ++ q) =
  match walk m h t p with Some t' => walk m h t' q | None => None end.
Proof. revert t. induction p as [|i p IH]; intros t; simpl; [done|]. by case_test. Qed.

Lemma trail_app m h t p t' q :
  walk m h t p = Some t' -> trail m h t (p ++ q) = trail m h t p ++ trail m h t' q.
Proof.
  revert t. induction p as [|i p IH]; intros t; simpl; [by intros [= ->]|].
  case_test; [|done]. intros. f_equal. auto.
Qed.

Lemma trail_length m h t p t' : walk m h t p = Some t' -> length (trail m h t p) = length p.
Proof.
  revert t. induction p as [|i p IH]; intros t; simpl; [done|].
  case_test; [|done]. intros. f_equal. auto.
Qed.

(** [m'] differs from [m] at most at index [i] of the table [p] leads to, as
    far as tables reachable from [r] go. *)
Definition agree (m m' : gmap Z Z) (h r : Z) (p : list Z) (i : Z) : Prop :=
  forall q t j, path_ok q -> (length q <= 3)%nat -> 0 <= j < 512 ->
    walk m h r q = Some t -> q <> p \/ j <> i ->
    rd m' (t + 8 * j) = rd m (t + 8 * j).

Lemma agree_from m m' h r p i q1 q2 t :
  agree m m' h r p i -> path_ok (q1 ++ q2) -> (length (q1 ++ q2) <= 4)%nat ->
  walk m h r q1 = Some t ->
  (forall q3 j q4, q2 = q3 ++ j :: q4 -> q1 ++ q3 <> p \/ j <> i) ->
  trail m' h t q2 = trail m h t q2 /\ walk m' h t q2 = walk m h t q2.
Proof.
  intros Hag. revert q1 t. induction q2 as [|j q2 IH]; intros q1 t Hok Hlen Hw Hex; [done|].
  pose proof Hok as [Hok1 [Hj Hok2]%Forall_cons_1]%Forall_app.
  rewrite length_app in Hlen. simpl in Hlen.
  assert (rd m' (t + 8 * j) = rd m (t + 8 * j)) as He.
  { apply (Hag q1); [done|lia|lia|done|].
    destruct (Hex [] j q2 eq_refl) as [H|H]; rewrite ?app_nil_r in *; auto. }
  simpl. rewrite He. destruct (nav (rd m (t + 8 * j))) eqn:Hn; [|done].
  destruct (IH (q1 ++ [j]) (child h (rd m (t + 8 * j)))) as [-> ->]; [..|done].
  - by rewrite <- app_assoc.
  - rewrite !length_app. simpl. lia.
  - rewrite walk_app, Hw. simpl. by rewrite Hn.
  - intros q3 k q4 ->. rewrite <- app_assoc. by apply (Hex ([j] ++ q3) k q4).
Qed.

(** A path that does not pass through the changed entry. *)
Lemma agree_other m m' h r p i q :
  agree m m' h r p i -> path_ok q -> (length q <= 4)%nat ->
  ~ (p ++ [i]) `prefix_of` q ->
  trail m' h r q = trail m h r q /\ walk m' h r q = walk m h r q.
Proof.
  intros Hag Hok Hlen Hpre. apply (agree_from m m' h r p i [] q); try done.
  intros q3 j q4 ->. destruct (decide (q3 = p)) as [->|]; [|by left].
  right. intros ->. apply Hpre. exists q4. by rewrite <- app_assoc.
Qed.

Lemma agree_to m m' h r p i t :
  agree m m' h r p i -> path_ok p -> (length p <= 3)%nat ->
  walk m h r p = Some t ->
  trail m' h r p = trail m h r p /\ walk m' h r p = Some t.
Proof.
  intros Hag Hok Hlen Hw. rewrite <- Hw. apply (agree_other m m' h r p i); [done..|lia|].
  intros [q Hq]. apply (f_equal length) in Hq. rewrite !length_app in Hq. simpl in Hq. lia.
Qed.

(** *** Reading *)

Lemma phys_to_ptr_hhdm s h x :
  hhdm s = Some h -> 0 <= x + h < 2 ^ 64 -> phys_to_ptr x s = Ret (x + h, s).
Proof.
  intros Hh Hx. unfold phys_to_ptr, hhdm_base, sbind. rewrite Hh.
  unfold slift. by rewrite chk_Ret by lia.
Qed.

(** Following an entry that leads to a table. *)
Lemma phys_to_ptr_table s h q e :
  vmm_ok s h -> path_ok q -> (length q <= 3)%nat ->
  walk (mem s) h (pml4 s) q = Some (child h e) ->
  phys_to_ptr (Z.land e PTE_ADDR_MASK) s = Ret (child h e, s).
Proof.
  intros Hs Hq Hql Hw. destruct (ok_table _ _ Hs _ _ Hq Hql Hw) as (f & Hf & [? ?] & _).
  pose proof (ok_h _ _ Hs). unfold child in *.
  apply phys_to_ptr_hhdm; [apply (ok_hhdm _ _ Hs)|]. unfold PAGE_SIZE in *. lia.
Qed.

Lemma path_ok_l p q : path_ok (p ++ q) -> path_ok p.
Proof. by intros [? _]%Forall_app. Qed.

Lemma index_range va k : 0 <= Z.land (Z.shiftr va k) 0x1FF < 512.
Proof. change 0x1FF with (Z.ones 9). rewrite Z.land_ones by lia. apply Z.mod_pos_bound. lia. Qed.

Lemma path_path_ok va : path_ok (path va).
Proof. repeat constructor; apply index_range. Qed.

(** The trail of [va] with the indices taken from the page address. *)
Lemma index_page va k :
  12 <= k -> 0 <= va < 2 ^ 64 ->
  Z.land (Z.shiftr (Z.land va (unot 64 0xFFF)) k) 0x1FF = Z.land (Z.shiftr va k) 0x1FF.
Proof.
  intros Hk Hva. change 0xFFF with (Z.ones 12). zbits i.
  destruct (Z.ltb_spec (i + k) 64), (Z.ltb_spec (i + k) 12); simpl; try lia;
    rewrite ?andb_true_r, ?andb_false_r; try done.
  by rewrite (testbit_above 64 va) by lia.
Qed.

Lemma virt_to_phys_run s h va :
  vmm_ok s h -> 0 <= va < 2 ^ 64 ->
  vmm_virt_to_phys va s = Ret (decode (trail (mem s) h (pml4 s) (path va)) va, s).
Proof.
  intros Hs Hva. unfold vmm_virt_to_phys, sget, sbind, sret.
  destruct (Z.eqb_spec (pml4 s) 0) as [H0|_]; [by destruct (ok_pml4 _ _ Hs)|].
  pose proof (path_path_ok va) as Hok. revert Hok. unfold path, load, decode.
  unfold pml4_index, pdpt_index, pd_index, pt_index. rewrite !index_page by lia.
  set (i4 := Z.land (Z.shiftr va 39) 0x1FF). set (i3 := Z.land (Z.shiftr va 30) 0x1FF).
  set (i2 := Z.land (Z.shiftr va 21) 0x1FF). set (i1 := Z.land (Z.shiftr va 12) 0x1FF).
  intros Hok. cbn [trail]. unfold nav, present, huge. set (e4 := rd (mem s) (pml4 s + 8 * i4)).
  destruct (has e4 PTE_PRESENT) eqn:P4, (has e4 PTE_HUGE) eqn:H4; cbn [negb orb andb]; try done.
  assert (nav e4 = true) as N4 by (unfold nav, present, huge; by rewrite P4, H4).
  rewrite (phys_to_ptr_table s h [i4] e4 Hs (path_ok_l [i4] _ Hok) ltac:(simpl; lia))
    by (cbn [walk]; fold e4; by rewrite N4).
  set (e3 := rd (mem s) (child h e4 + 8 * i3)).
  destruct (has e3 PTE_PRESENT) eqn:P3, (has e3 PTE_HUGE) eqn:H3; cbn [negb orb andb];
    rewrite ?P3, ?H3; try done.
  assert (nav e3 = true) as N3 by (unfold nav, present, huge; by rewrite P3, H3).
  rewrite (phys_to_ptr_table s h [i4; i3] e3 Hs (path_ok_l [i4; i3] _ Hok) ltac:(simpl; lia))
    by (cbn [walk]; fold e4; rewrite N4; fold e3; by rewrite N3).
  set (e2 := rd (mem s) (child h e3 + 8 * i2)).
  destruct (has e2 PTE_PRESENT) eqn:P2, (has e2 PTE_HUGE) eqn:H2; cbn [negb orb andb];
    rewrite ?P2, ?H2; try done.
  assert (nav e2 = true) as N2 by (unfold nav, present, huge; by rewrite P2, H2).
  rewrite (phys_to_ptr_table s h [i4; i3; i2] e2 Hs (path_ok_l [i4; i3; i2] _ Hok) ltac:(simpl; lia))
    by (cbn [walk]; fold e4; rewrite N4; fold e3; rewrite N3; fold e2; by rewrite N2).
  set (e1 := rd (mem s) (child h e2 + 8 * i1)).
  destruct (has e1 PTE_PRESENT) eqn:P1, (has e1 PTE_HUGE) eqn:H1; cbn [negb orb andb];
    rewrite ?P1; done.
Qed.

(** *** Entries *)

Lemma has_bit e b : 0 <= b -> has e (Z.shiftl 1 b) = Z.testbit e b.
Proof. intros. unfold has. rewrite land_bit_zero by done. apply negb_involutive. Qed.

Lemma mask_bit i :
  0 <= i -> Z.testbit PTE_ADDR_MASK i = (12 <=? i) && (i <? 52).
Proof.
  intros Hi. change PTE_ADDR_MASK with (Z.shiftl (Z.ones 40) 12).
  rewrite Z.shiftl_spec by lia. destruct (Z.leb_spec 12 i).
  - rewrite Z.testbit_ones_nonneg by lia. simpl.
    destruct (Z.ltb_spec (i - 12) 40), (Z.ltb_spec i 52); lia.
  - by rewrite Z.testbit_neg_r by lia.
Qed.

Lemma frame_addr_bit f i : 0 <= i -> Z.testbit (f * PAGE_SIZE) i = Z.testbit f (i - 12).
Proof.
  intros. change PAGE_SIZE with (2 ^ 12). rewrite <- Z.shiftl_mul_pow2 by lia.
  by apply Z.shiftl_spec.
Qed.

Ltac entry_bits :=
  unfold nav, present, huge, PTE_PRESENT, PTE_USER, PTE_HUGE, PTE_WRITABLE in *;
  rewrite ?has_bit in * by lia; autorewrite with zbits in *;
  rewrite ?frame_addr_bit in * by lia.

Lemma table_entry_spec f flags :
  0 <= f < 2 ^ 40 ->
  let e := Z.lor (f * PAGE_SIZE)
             (Z.lor (Z.lor PTE_PRESENT PTE_WRITABLE) (Z.land flags PTE_USER)) in
  nav e = true /\ (forall h, child h e = f * PAGE_SIZE + h) /\ has e PTE_USER = has flags PTE_USER.
Proof.
  intros Hf e. subst e. split_and!.
  - entry_bits. rewrite !(Z.testbit_neg_r f) by lia. simpl.
    by rewrite andb_false_r.
  - intros h. unfold child. f_equal. unfold PTE_PRESENT, PTE_WRITABLE, PTE_USER.
    zbits i. rewrite frame_addr_bit, mask_bit by lia.
    destruct (Z.leb_spec 12 i); simpl.
    + replace (i =? 0) with false by lia. replace (i =? 1) with false by lia.
      replace (i =? 2) with false by lia. rewrite andb_false_r, !orb_false_r.
      destruct (Z.ltb_spec i 52); [apply andb_true_r|].
      by rewrite (testbit_above 40) by lia.
    + rewrite andb_false_r. by rewrite Z.testbit_neg_r by lia.
  - entry_bits. rewrite (Z.testbit_neg_r f) by lia. simpl. by rewrite andb_true_r.
Qed.

Lemma user_entry_spec e :
  present (Z.lor e PTE_USER) = present e /\ huge (Z.lor e PTE_USER) = huge e /\
  (forall h, child h (Z.lor e PTE_USER) = child h e) /\ has (Z.lor e PTE_USER) PTE_USER = true.
Proof.
  split_and!.
  - entry_bits. by rewrite orb_false_r.
  - entry_bits. by rewrite orb_false_r.
  - intros h. unfold child, PTE_USER. f_equal. zbits i. rewrite mask_bit by lia.
    destruct (Z.eqb_spec i 2) as [->|]; simpl; rewrite ?orb_false_r, ?andb_false_r; done.
  - entry_bits. by rewrite orb_true_r.
Qed.

(** The page address a leaf entry carries: [flags] has no bit in common with
    the address field. *)
Lemma leaf_entry_spec pa flags :
  0 <= pa < 2 ^ 52 -> Z.land pa (PAGE_SIZE - 1) = 0 -> Z.land flags PTE_ADDR_MASK = 0 ->
  let e := Z.lor (Z.lor (Z.land pa PTE_ADDR_MASK) PTE_PRESENT) flags in
  present e = true /\ Z.land e PTE_ADDR_MASK = pa /\ has e PTE_USER = has flags PTE_USER.
Proof.
  intros Hpa Hal Hfl e. subst e.
  assert (forall i, 0 <= i -> Z.testbit pa i && (i <? 12) = false) as Hlow.
  { intros i Hi. apply (f_equal (fun z => Z.testbit z i)) in Hal.
    change (PAGE_SIZE - 1) with (Z.ones 12) in Hal. autorewrite with zbits in Hal.
    done. }
  assert (forall i, 0 <= i -> Z.testbit flags i && ((12 <=? i) && (i <? 52)) = false) as Hfb.
  { intros i Hi. apply (f_equal (fun z => Z.testbit z i)) in Hfl.
    autorewrite with zbits in Hfl. by rewrite mask_bit in Hfl. }
  split_and!.
  - entry_bits. simpl. by rewrite orb_true_r.
  - unfold PTE_PRESENT. zbits i. rewrite !mask_bit by lia.
    specialize (Hlow i ltac:(lia)). specialize (Hfb i ltac:(lia)).
    destruct (Z.leb_spec 12 i), (Z.ltb_spec i 52); simpl in *;
      rewrite ?andb_true_r, ?andb_false_r, ?orb_false_r in *.
    + rewrite Hfb. replace (i =? 0) with false by lia. by rewrite !orb_false_r.
    + by rewrite (testbit_above 52) by lia.
    + replace (i <? 12) with true in Hlow by lia. by rewrite andb_true_r in Hlow.
    + lia.
  - entry_bits. rewrite mask_bit by lia. simpl. by rewrite andb_false_r.
Qed.

(** *** Memory *)

Lemma rd_insert_eq m a v : rd (<[a := v]> m) a = v.
Proof. unfold rd. by rewrite lookup_insert_eq. Qed.

Lemma rd_insert_ne m a b v : a <> b -> rd (<[a := v]> m) b = rd m b.
Proof. intros. unfold rd. by rewrite lookup_insert_ne. Qed.

Lemma rd_zero_out t m a :
  (forall i, 0 <= i < 512 -> a <> t + 8 * i) -> rd (zero_words t m) a = rd m a.
Proof.
  intros Ha. unfold zero_words.
  assert (forall k, (k ∈ seq 0 512) -> a <> t + 8 * Z.of_nat k) as Hk.
  { intros k [_ ?]%elem_of_seq. apply Ha. lia. }
  induction (seq 0 512) as [|k l IH]; [done|]. simpl.
  rewrite rd_insert_ne by (intros <-; eapply Hk; [constructor|done]).
  apply IH. intros. apply Hk. by constructor.
Qed.

Lemma rd_zero_in t m i : 0 <= i < 512 -> rd (zero_words t m) (t + 8 * i) = 0.
Proof.
  intros Hi. unfold zero_words.
  assert (Z.to_nat i ∈ seq 0 512) as Hk by (apply elem_of_seq; lia).
  induction (seq 0 512) as [|k l IH]; [by apply not_elem_of_nil in Hk|]. simpl.
  destruct (decide (Z.of_nat k = i)) as [<-|Hne].
  - apply rd_insert_eq.
  - rewrite rd_insert_ne by lia. apply IH.
    apply elem_of_cons in Hk as [?|?]; [lia|done].
Qed.

(** The words of two tables are the same only at the same index of the same
    table. *)
Lemma table_words f g h i j :
  0 <= i < 512 -> 0 <= j < 512 ->
  f * PAGE_SIZE + h + 8 * i = g * PAGE_SIZE + h + 8 * j -> f = g /\ i = j.
Proof. unfold PAGE_SIZE. lia. Qed.

(** Writing one entry of a table, and clearing a frame that is no table yet. *)
Lemma agree_store s h p t i v :
  vmm_ok s h -> path_ok p -> (length p <= 3)%nat -> 0 <= i < 512 ->
  walk (mem s) h (pml4 s) p = Some t ->
  agree (mem s) (<[t + 8 * i := v]> (mem s)) h (pml4 s) p i.
Proof.
  intros Hs Hp Hlen Hi Hw q u j Hq Hql Hj Hu Hne.
  apply rd_insert_ne. intros Heq.
  destruct (ok_table _ _ Hs p t) as (f & -> & _); [done..|].
  destruct (ok_table _ _ Hs q u) as (g & -> & _); [done..|].
  apply table_words in Heq as [-> ->]; [|done..].
  destruct Hne as [Hne|]; [|done]. apply Hne. by eapply (ok_inj _ _ Hs).
Qed.

Lemma agree_zero s h m' p i f :
  vmm_ok s h -> fa_free (frames s) f -> agree (mem s) m' h (pml4 s) p i ->
  agree (mem s) (zero_words (f * PAGE_SIZE + h) m') h (pml4 s) p i.
Proof.
  intros Hs Hf Hag q u j Hq Hql Hj Hu Hne.
  rewrite rd_zero_out; [by apply (Hag q)|]. intros k Hk Heq.
  destruct (ok_table _ _ Hs q u) as (g & -> & _ & Hg); [done..|].
  apply table_words in Heq as [-> _]; done.
Qed.

(** *** Pages that hold data *)

(** A frame in use that holds no table. *)
Record data_page (s : Vmm) (h g : Z) : Prop := {
  dp_used : ~ fa_free (frames s) g;
  dp_table : forall p t, path_ok p -> (length p <= 3)%nat ->
    walk (mem s) h (pml4 s) p = Some t -> t <> g * PAGE_SIZE + h;
}.

Definition in_page (h g a : Z) : Prop := g * PAGE_SIZE + h <= a < (g + 1) * PAGE_SIZE + h.

(** The step from [s] to [s'] leaves such frames as they are. *)
Definition keeps_data (s s' : Vmm) (h : Z) : Prop := forall g, data_page s h g ->
  data_page s' h g /\ forall a, in_page h g a -> rd (mem s') a = rd (mem s) a.

Lemma keeps_data_refl s h : keeps_data s s h.
Proof. by intros g Hg. Qed.

Lemma keeps_data_trans s1 s2 s3 h : keeps_data s1 s2 h -> keeps_data s2 s3 h -> keeps_data s1 s3 h.
Proof.
  intros H12 H23 g Hg. destruct (H12 g Hg) as [Hg2 E12]. destruct (H23 g Hg2) as [Hg3 E23].
  split; [done|]. intros a Ha. by rewrite E23, E12.
Qed.

(** A word of a table lies outside of a data page. *)
Lemma data_page_word s h g p t i a :
  vmm_ok s h -> data_page s h g -> path_ok p -> (length p <= 3)%nat -> 0 <= i < 512 ->
  walk (mem s) h (pml4 s) p = Some t -> in_page h g a -> t + 8 * i <> a.
Proof.
  intros Hs Hg Hp Hl Hi Hw Ha. destruct (ok_table _ _ Hs p t) as (f & -> & _); [done..|].
  pose proof (dp_table _ _ _ Hg p _ Hp Hl Hw). unfold in_page, PAGE_SIZE in *.
  assert (f <> g) by (intros ->; lia). lia.
Qed.

(** Another frame than a cleared one. *)
Lemma in_page_other h f g a : f <> g -> in_page h g a -> forall i, 0 <= i < 512 -> a <> f * PAGE_SIZE + h + 8 * i.
Proof. unfold in_page, PAGE_SIZE. lia. Qed.

(** *** How a step changes the trails *)

(** The entry a trail ends at, when it is present. *)
Definition terminal (es : list Z) : option Z :=
  match list.last es with
  | Some e => if present e then Some e else None
  | None => None
  end.

(** No large page among the entries of the three upper levels. *)
Definition no_huge (es : list Z) : Prop :=
  Forall (fun e => present e = true -> huge e = false) (take 3 es).

(** What preparing the upper levels of a mapping preserves. *)
Definition evolves (es es' : list Z) : Prop :=
  (forall va, decode es' va = decode es va) /\ terminal es' = terminal es /\
  (user_access es = true -> user_access es' = true) /\ (no_huge es -> no_huge es').

Lemma evolves_refl es : evolves es es.
Proof. by split_and!. Qed.

Lemma evolves_trans es1 es2 es3 : evolves es1 es2 -> evolves es2 es3 -> evolves es1 es3.
Proof.
  intros (D1&T1&U1&N1) (D2&T2&U2&N2).
  split; [by intros; rewrite D2|]. split; [by rewrite T2|]. split; auto.
Qed.

Lemma decode_same es es' va :
  length es = length es' -> list.last es = list.last es' -> decode es va = decode es' va.
Proof.
  intros Hl He.
  destruct es as [|a [|b [|c [|d [|]]]]], es' as [|a' [|b' [|c' [|d' [|]]]]];
    simplify_eq/=; done.
Qed.

Lemma decode_absent es e va :
  list.last es = Some e -> present e = false -> decode es va = VMM_NO_PHYS.
Proof.
  intros He Hp.
  destruct es as [|a [|b [|c [|d [|]]]]]; simplify_eq/=; rewrite ?Hp; done.
Qed.

(** An interior entry gains the user bit. *)
Lemma evolves_user l e l' :
  l' <> [] -> evolves (l ++ e :: l') (l ++ Z.lor e PTE_USER :: l').
Proof.
  intros Hl'. destruct (user_entry_spec e) as (Hp & Hh & _ & Hu).
  assert (list.last (l ++ Z.lor e PTE_USER :: l') = list.last (l ++ e :: l')) as Hlast.
  { rewrite !last_app_cons, !last_cons. by destruct (list.last l') eqn:E;
      [|apply last_None in E]. }
  split_and!.
  - intros va. apply decode_same; [by rewrite !length_app|done].
  - unfold terminal. by rewrite Hlast.
  - unfold user_access. rewrite !forallb_app. cbn [forallb]. rewrite Hp, Hu.
    intros. zify_bool. repeat (apply andb_true_intro; split); done.
  - unfold no_huge. rewrite !take_app, !Forall_app. intros [? H]. split; [done|].
    destruct (3 - length l)%nat; [done|]. simpl in *.
    apply Forall_cons_1 in H as [? ?]. constructor; [by rewrite Hp, Hh|done].
Qed.

(** A missing entry now names an empty table. *)
Lemma evolves_table l e e' :
  present e = false -> nav e' = true -> evolves (l ++ [e]) (l ++ [e'; 0]).
Proof.
  intros He He'.
  assert (list.last (l ++ [e]) = Some e) as L1 by apply last_snoc.
  assert (list.last (l ++ [e'; 0]) = Some 0) as L2 by (by rewrite last_app_cons).
  split_and!.
  - intros va. by rewrite (decode_absent _ _ _ L1), (decode_absent _ _ _ L2).
  - unfold terminal. rewrite L1, L2, He. done.
  - unfold user_access. rewrite forallb_app. simpl. rewrite He, andb_false_r. done.
  - unfold no_huge. rewrite !take_app, !Forall_app. intros [? _]. split; [done|].
    apply Forall_take. unfold nav in He'. zify_bool.
    by apply Forall_cons_2; [|apply Forall_cons_2; [|apply Forall_nil_2]].
Qed.

(** *** Room for page tables *)

(** The allocator has [n] free frames. *)
Definition room (p : PA) (n : nat) : Prop :=
  exists l, length l = n /\ NoDup l /\ Forall (fa_free p) l.

Lemma room_alloc p p' f n :
  (forall g, fa_free p' g <-> fa_free p g /\ g <> f) -> room p (S n) -> room p' n.
Proof.
  intros Hfree (l & Hl & Hnd & Hall).
  assert (exists l', (n <= length l')%nat /\ NoDup l' /\ Forall (fa_free p') l') as (l' & ? & ? & ?).
  { exists (filter (fun g => g <> f) l). split_and!.
    - enough (length l <= S (length (filter (fun g => g <> f) l)))%nat by lia.
      clear -Hnd. induction Hnd as [|g l Hg Hnd IH]; [simpl; lia|].
      rewrite filter_cons. case_decide as Hgf; [simpl in *; lia|].
      subst g. simpl. apply le_n_S. clear IH Hnd.
      induction l as [|g l IH]; [done|]. apply not_elem_of_cons in Hg as [? ?].
      rewrite filter_cons_True by done. simpl. auto with lia.
    - by apply list.NoDup_filter.
    - apply list.Forall_forall. intros g [? Hin]%list_elem_of_filter. apply Hfree.
      split; [|done]. rewrite list.Forall_forall in Hall. auto. }
  exists (take n l'). split_and!.
  - rewrite length_take. lia.
  - by eapply sublist_NoDup, sublist_take.
  - by apply Forall_take.
Qed.

Lemma room_le p n k : (k <= n)%nat -> room p n -> room p k.
Proof.
  intros Hk (l & <- & Hnd & Hall). exists (take k l). split_and!.
  - rewrite length_take. lia.
  - by eapply sublist_NoDup, sublist_take.
  - by apply Forall_take.
Qed.

Lemma pmm_alloc_run s h n :
  vmm_ok s h -> room (frames s) (S n) ->
  exists f p', pmm_alloc s =
    Ret (f * PAGE_SIZE, mkVmm p' (mem s) (hhdm s) (pml4 s) (flushed s)) /\
    fa_free (frames s) f /\ frame_ok h f /\ fa_ok p' /\ room p' n /\
    (forall g, fa_free p' g <-> fa_free (frames s) g /\ g <> f).
Proof.
  intros Hs Hroom. unfold pmm_alloc.
  destruct (fa_alloc_spec _ (ok_frames _ _ Hs)) as [(f & p' & -> & Hf & Hok & Hfree)|[_ Hno]].
  - exists f, p'. split; [done|]. split; [done|]. split; [|split; [done|split; [|done]]].
    + by apply (ok_small _ _ Hs).
    + by eapply room_alloc.
  - destruct Hroom as ([|g l] & Hl & _ & Hall); [done|].
    apply Forall_cons_1 in Hall as [? _]. by destruct (Hno g).
Qed.

(** *** One level of a mapping *)

(** The state a level leaves: the next table is in place, nothing that was
    mapped moved, and the table's entry grants ring 3 what the leaf will. *)
Record level_done (s s' : Vmm) (h : Z) (p : list Z) (user : bool) : Prop := {
  ld_ok : vmm_ok s' h;
  ld_pml4 : pml4 s' = pml4 s;
  ld_flushed : flushed s' = flushed s;
  ld_evolves : forall q, path_ok q -> length q = 4%nat ->
    evolves (trail (mem s) h (pml4 s) q) (trail (mem s') h (pml4 s) q);
  ld_user : user = true ->
    user_access (trail (mem s) h (pml4 s) (removelast p)) = true ->
    user_access (trail (mem s') h (pml4 s) p) = true;
  ld_free : forall f, fa_free (frames s') f -> fa_free (frames s) f;
  ld_data : keeps_data s s' h;
}.

Lemma split_path (p : list Z) (i : Z) (q : list Z) :
  (p ++ [i]) `prefix_of` q \/ ~ (p ++ [i]) `prefix_of` q.
Proof. destruct (decide ((p ++ [i]) `prefix_of` q)); auto. Qed.

(** Granting ring 3 passage through an entry that is already there. *)
Lemma level_user s h p t i :
  vmm_ok s h -> path_ok p -> (length p <= 2)%nat -> 0 <= i < 512 ->
  walk (mem s) h (pml4 s) p = Some t -> nav (rd (mem s) (t + 8 * i)) = true ->
  let e := rd (mem s) (t + 8 * i) in
  let s' := set_mem s (<[t + 8 * i := Z.lor e PTE_USER]> (mem s)) in
  level_done s s' h (p ++ [i]) true /\
  walk (mem s') h (pml4 s) (p ++ [i]) = Some (child h e).
Proof.
  intros Hs Hp Hlen Hi Hw Hn e s'. fold e in Hn.
  destruct (user_entry_spec e) as (Upres & Uhuge & Uchild & Uuser).
  assert (agree (mem s) (mem s') h (pml4 s) p i) as Hag by (apply agree_store; auto with lia).
  destruct (agree_to _ _ _ _ _ _ t Hag) as [Htp Hwp]; [done|lia|done|].
  assert (rd (mem s') (t + 8 * i) = Z.lor e PTE_USER) as Hrd by apply rd_insert_eq.
  assert (forall q, path_ok (p ++ [i] ++ q) -> (length (p ++ [i] ++ q) <= 4)%nat ->
    trail (mem s') h (pml4 s) (p ++ [i] ++ q) =
      trail (mem s) h (pml4 s) p ++ Z.lor e PTE_USER :: trail (mem s) h (child h e) q /\
    walk (mem s') h (pml4 s) (p ++ [i] ++ q) = walk (mem s) h (pml4 s) (p ++ [i] ++ q)) as Hext.
  { intros q Hq Hql.
    destruct (agree_from _ _ _ _ _ _ (p ++ [i]) q (child h e) Hag) as [Ht2 Hw2].
    - by rewrite <- app_assoc.
    - by rewrite <- app_assoc.
    - rewrite walk_app, Hw. simpl. fold e. by rewrite Hn.
    - intros q3 j q4 _. left. intros Heq. apply (f_equal length) in Heq.
      rewrite !length_app in Heq. simpl in Heq. lia.
    - rewrite (trail_app _ _ _ _ _ _ Hwp), Htp, !walk_app, Hw, Hwp. cbn [trail walk app].
      rewrite Hrd. fold e. unfold nav. rewrite Upres, Uhuge. fold (nav e).
      rewrite Hn, Uchild, Ht2. split; [done|apply Hw2]. }
  assert (forall q, path_ok q -> (length q <= 4)%nat ->
    walk (mem s') h (pml4 s) q = walk (mem s) h (pml4 s) q) as Hwalk.
  { intros q Hq Hql. destruct (split_path p i q) as [[q' ->]|Hnp].
    - rewrite <- app_assoc in *. by apply Hext.
    - by eapply agree_other. }
  split.
  - constructor; try done.
    + destruct Hs as [? ? ? ? ? Htab Hinj].
      constructor; try done; change (pml4 s') with (pml4 s).
      * intros q u Hq Hql. rewrite Hwalk by (done || lia). by apply Htab.
      * intros q q' u Hq Hq' Hql Hql'. rewrite !Hwalk by (done || lia). by apply Hinj.
    + intros q Hq Hql. destruct (split_path p i q) as [[q' ->]|Hnp].
      * rewrite <- app_assoc in *. destruct (Hext q') as [-> _]; [done|lia|].
        rewrite (trail_app _ _ _ _ _ _ Hw). cbn [trail app]. fold e. rewrite Hn.
        apply evolves_user. rewrite !length_app in Hql. simpl in Hql.
        destruct q' as [|j q']; simpl in *; [lia|done].
      * destruct (agree_other _ _ _ _ _ _ q Hag) as [-> _]; [done|lia|done|].
        apply evolves_refl.
    + intros _. rewrite removelast_last. intros Hu.
      destruct (Hext []) as [Hex _].
      { apply Forall_app; split; [done|]. by apply Forall_singleton. }
      { rewrite length_app. simpl. lia. }
      rewrite app_nil_r in Hex. rewrite Hex. unfold user_access in *.
      rewrite forallb_app, Hu. cbn [forallb trail andb]. rewrite Upres, Uuser.
      unfold nav in Hn. by apply andb_true_iff in Hn as [-> _].
    + intros g Hg. split.
      * split; [apply Hg|]. intros q u Hq Hql. change (pml4 s') with (pml4 s).
        rewrite Hwalk by (done || lia). by apply Hg.
      * intros a Ha. apply rd_insert_ne. eapply data_page_word; try done; lia.
  - rewrite Hwalk.
    + rewrite walk_app, Hw. simpl. fold e. by rewrite Hn.
    + apply Forall_app; split; [done|]. by apply Forall_singleton.
    + rewrite length_app. simpl. lia.
Qed.

(** A missing entry: a cleared frame becomes the table. *)
Section NewTable.
Context (s : Vmm) (h : Z) (p : list Z) (t i f e' : Z) (p' : PA).
Context (Hs : vmm_ok s h) (Hp : path_ok p) (Hlen : (length p <= 2)%nat)
  (Hi : 0 <= i < 512) (Hw : walk (mem s) h (pml4 s) p = Some t)
  (Habs : present (rd (mem s) (t + 8 * i)) = false)
  (Hf : fa_free (frames s) f) (Hf40 : frame_ok h f)
  (Hok' : fa_ok p') (Hfree : forall g, fa_free p' g <-> fa_free (frames s) g /\ g <> f)
  (Hnav : nav e' = true) (Hchild : child h e' = f * PAGE_SIZE + h).

Let T : Z := f * PAGE_SIZE + h.
Let m' : gmap Z Z := zero_words T (<[t + 8 * i := e']> (mem s)).

Lemma new_agree : agree (mem s) m' h (pml4 s) p i.
Proof. apply agree_zero; [done..|]. apply agree_store; auto with lia. Qed.

Lemma new_entry : rd m' (t + 8 * i) = e'.
Proof.
  destruct (ok_table _ _ Hs p t) as (g & Ht & _ & Hg); [done|lia|done|].
  unfold m', T. rewrite rd_zero_out; [apply rd_insert_eq|]. intros k Hk Heq.
  rewrite Ht in Heq. apply table_words in Heq as [-> _]; done.
Qed.

Lemma new_through q :
  path_ok (p ++ [i] ++ q) ->
  trail m' h (pml4 s) (p ++ [i] ++ q) =
    trail (mem s) h (pml4 s) p ++ e' :: (if q is [] then [] else [0]) /\
  walk m' h (pml4 s) (p ++ [i] ++ q) = (if q is [] then Some T else None) /\
  trail (mem s) h (pml4 s) (p ++ [i] ++ q) =
    trail (mem s) h (pml4 s) p ++ [rd (mem s) (t + 8 * i)] /\
  walk (mem s) h (pml4 s) (p ++ [i] ++ q) = None.
Proof.
  intros Hq. destruct (agree_to _ _ _ _ _ _ t new_agree) as [Htp Hwp]; [done|lia|done|].
  rewrite !(trail_app _ _ _ _ _ _ Hwp), !(trail_app _ _ _ _ _ _ Hw), Htp, !walk_app, Hw, Hwp.
  cbn [trail walk app]. rewrite new_entry, Hnav, Hchild. fold T.
  replace (nav (rd (mem s) (t + 8 * i))) with false by (unfold nav; by rewrite Habs).
  destruct q as [|j q]; [done|].
  apply Forall_app in Hq as [_ Hq]. apply Forall_cons_1 in Hq as [_ Hq].
  apply Forall_cons_1 in Hq as [Hj _].
  cbn [trail walk]. replace (rd m' (T + 8 * j)) with 0; [done|].
  symmetry. by apply rd_zero_in.
Qed.

Lemma new_walk q u :
  path_ok q -> (length q <= 3)%nat -> walk m' h (pml4 s) q = Some u ->
  walk (mem s) h (pml4 s) q = Some u \/ (q = p ++ [i] /\ u = T).
Proof.
  intros Hq Hql Hu. destruct (split_path p i q) as [[q' ->]|Hnp].
  - rewrite <- app_assoc in *. destruct (new_through q' Hq) as (_ & H & _).
    rewrite H in Hu. destruct q'; [|done]. right. rewrite app_nil_r. split; [done|congruence].
  - left. rewrite <- Hu. symmetry. eapply agree_other; [apply new_agree|done|lia|done].
Qed.

Lemma level_new user :
  (user = true -> has e' PTE_USER = true) ->
  let s' := mkVmm p' m' (hhdm s) (pml4 s) (flushed s) in
  level_done s s' h (p ++ [i]) user /\
  walk m' h (pml4 s) (p ++ [i]) = Some T.
Proof.
  intros Huser s'.
  assert (path_ok (p ++ [i])) as Hpi.
  { apply Forall_app; split; [done|]. by apply Forall_singleton. }
  assert (path_ok (p ++ [i] ++ [])) as Hpi' by by rewrite app_nil_r.
  destruct (new_through [] Hpi') as (Ht & HwT & _). rewrite app_nil_r in *.
  split; [constructor|done]; try done.
  - pose proof (ok_table _ _ Hs) as Htab. pose proof (ok_inj _ _ Hs) as Hinj.
    assert (forall q, path_ok q -> (length q <= 3)%nat ->
      walk (mem s) h (pml4 s) q <> Some T) as HT.
    { intros q Hq Hql Hu. destruct (Htab q T Hq Hql Hu) as (g & Hg & _ & Hn).
      apply Hn. replace g with f by (unfold T, PAGE_SIZE in Hg; lia). done. }
    destruct Hs. constructor; try done; cbn [frames mem pml4 s'].
    + intros g [? _]%Hfree. auto.
    + intros q u Hq Hql [Hu|[-> ->]]%new_walk; [| |done..].
      * destruct (Htab q u Hq Hql Hu) as (g & ? & ? & Hg). exists g.
        split; [done|]. split; [done|]. by intros [? _]%Hfree.
      * exists f. split; [done|]. split; [done|]. by intros [_ ?]%Hfree.
    + intros q1 q2 u Hq1 Hq2 Hl1 Hl2 Hu1 Hu2.
      apply new_walk in Hu1 as [Hu1|[-> ->]]; [| |done..];
        apply new_walk in Hu2 as [Hu2|[-> E]]; try done.
      * by eapply Hinj.
      * subst u. by destruct (HT q1).
      * by destruct (HT q2).
  - intros q Hq Hql. change (mem s') with m'.
    destruct (split_path p i q) as [[q' ->]|Hnp].
    + rewrite <- app_assoc in *. destruct (new_through q' Hq) as (-> & _ & -> & _).
      rewrite !length_app in Hql. destruct q'; [simpl in Hql; lia|].
      by apply evolves_table.
    + destruct (agree_other _ _ _ _ _ _ q new_agree) as [-> _]; [done|lia|done|].
      apply evolves_refl.
  - intros ->. rewrite removelast_last. intros Hu. cbn [mem s']. rewrite Ht.
    unfold user_access in *. rewrite forallb_app, Hu. cbn [forallb andb].
    rewrite Huser by done. unfold nav in Hnav. by apply andb_true_iff in Hnav as [-> _].
  - intros g [? _]%Hfree. done.
  - intros g Hg. assert (f <> g) as Hfg by (intros ->; by apply (dp_used _ _ _ Hg)). split.
    + split; [intros [? _]%Hfree; by apply (dp_used _ _ _ Hg)|].
      intros q u Hq Hql [Hu|[_ ->]]%new_walk; [by apply (dp_table _ _ _ Hg q)| |done..].
      unfold T, PAGE_SIZE. lia.
    + intros a Ha. change (mem s') with m'. unfold m', T.
      rewrite rd_zero_out by (by eapply in_page_other). apply rd_insert_ne.
      apply (data_page_word s h g p t i a); (done || lia).
Qed.
End NewTable.

Lemma next_table_spec s h p t i flags n :
  vmm_ok s h -> path_ok p -> (length p <= 2)%nat -> 0 <= i < 512 ->
  walk (mem s) h (pml4 s) p = Some t -> room (frames s) (S n) ->
  (present (rd (mem s) (t + 8 * i)) = true -> huge (rd (mem s) (t + 8 * i)) = false) ->
  exists t' s',
    next_table t i (Z.lor (Z.lor PTE_PRESENT PTE_WRITABLE) (Z.land flags PTE_USER))
      (has flags PTE_USER) s = Ret (t', s') /\
    level_done s s' h (p ++ [i]) (has flags PTE_USER) /\
    walk (mem s') h (pml4 s) (p ++ [i]) = Some t' /\ room (frames s') n.
Proof.
  intros Hs Hp Hlen Hi Hw Hroom Hnh.
  assert (path_ok (p ++ [i])) as Hpi.
  { apply Forall_app; split; [done|]. by apply Forall_singleton. }
  set (e := rd (mem s) (t + 8 * i)) in *.
  unfold next_table, load, sbind. fold e. change (has e PTE_PRESENT) with (present e).
  change (has e PTE_HUGE) with (huge e). destruct (present e) eqn:He.
  - assert (nav e = true) as Hn by (unfold nav; by rewrite He, Hnh).
    rewrite Hnh by done. destruct (has flags PTE_USER).
    + destruct (level_user s h p t i) as [Hd Hw']; try done.
      eexists _, _. cbn [store smodify set_mem mem]. rewrite rd_insert_eq.
      destruct (user_entry_spec e) as (_ & _ & Uchild & _).
      rewrite (phys_to_ptr_table _ h (p ++ [i]));
        [|apply Hd|done|rewrite length_app; simpl; lia|rewrite Uchild; apply Hw'].
      rewrite Uchild.
      split_and!; [done|apply Hd|apply Hw'|by eapply room_le; [|apply Hroom]; lia].
    + assert (walk (mem s) h (pml4 s) (p ++ [i]) = Some (child h e)) as Hw'
        by (rewrite walk_app, Hw; simpl; fold e; by rewrite Hn).
      exists (child h e), s. unfold sret.
      rewrite (phys_to_ptr_table _ h (p ++ [i])) by (done || rewrite length_app; simpl; lia).
      split_and!; [done| |exact Hw'|by eapply room_le; [|apply Hroom]; lia].
      constructor; done || (by intros; apply evolves_refl) || apply keeps_data_refl.
  - destruct (pmm_alloc_run s h n Hs Hroom) as (f & p' & -> & Hf & Hf40 & Hok' & Hroom' & Hfree).
    replace (f * PAGE_SIZE =? PMM_NO_PAGE) with false
      by (symmetry; apply Z.eqb_neq, frame_not_no_page).
    set (e' := Z.lor (f * PAGE_SIZE) _).
    destruct (table_entry_spec f flags (proj1 Hf40)) as (Hnav & Hchild & Huser). fold e' in Hnav, Hchild, Huser.
    destruct (level_new s h p t i f e' p') with (user := has flags PTE_USER) as [Hd Hw'];
      try done; [by rewrite Huser|].
    pose proof (ok_h _ _ Hs). unfold zero_table, store, smodify, set_mem.
    rewrite (phys_to_ptr_hhdm _ h)
      by (apply (ok_hhdm _ _ Hs) || destruct Hf40; unfold PAGE_SIZE in *; lia).
    cbn [mem frames hhdm pml4 flushed].
    rewrite (new_entry s h p t i f e') by (done || lia).
    rewrite (phys_to_ptr_table _ h (p ++ [i]));
      [|apply Hd|done|rewrite length_app; simpl; lia|rewrite Hchild; apply Hw'].
    rewrite Hchild.
    eexists _, _. split_and!; [done|apply Hd|apply Hw'|done].
Qed.

(** *** Pages *)

(** The page an address lies in: bits 12 to 47, all the hardware walks. *)
Definition vpn (va : Z) : Z := Z.land (Z.shiftr va 12) (Z.ones 36).

Lemma index_testbit va k i :
  0 <= k -> 0 <= i < 9 ->
  Z.testbit (Z.land (Z.shiftr va k) 0x1FF) i = Z.testbit va (i + k).
Proof.
  intros. change 0x1FF with (Z.ones 9). autorewrite with zbits.
  replace (i <? 9) with true by lia. by rewrite andb_true_r.
Qed.

Lemma vpn_testbit va i : 0 <= i -> Z.testbit (vpn va) i = Z.testbit va (i + 12) && (i <? 36).
Proof. intros. unfold vpn. by autorewrite with zbits. Qed.

Lemma path_vpn va va' : path va = path va' <-> vpn va = vpn va'.
Proof.
  split.
  - intros [= H4 H3 H2 H1]. apply Z.bits_inj'. intros i Hi. rewrite !vpn_testbit by done.
    destruct (Z.ltb_spec i 36); [|by rewrite !andb_false_r]. f_equal.
    assert (forall k j, 0 <= k -> 0 <= j < 9 ->
      Z.land (Z.shiftr va k) 0x1FF = Z.land (Z.shiftr va' k) 0x1FF ->
      Z.testbit va (j + k) = Z.testbit va' (j + k)) as Hbit.
    { intros k j Hk Hj E. by rewrite <- !index_testbit, E by lia. }
    destruct (decide (i < 9)); [by apply (Hbit 12 i)|].
    destruct (decide (i < 18)); [specialize (Hbit 21 (i - 9)); by replace (i + 12) with (i - 9 + 21) by lia; apply Hbit; try lia|].
    destruct (decide (i < 27)); [specialize (Hbit 30 (i - 18)); by replace (i + 12) with (i - 18 + 30) by lia; apply Hbit; try lia|].
    specialize (Hbit 39 (i - 27)). replace (i + 12) with (i - 27 + 39) by lia. by apply Hbit; try lia.
  - intros Hv.
    assert (forall k, 12 <= k <= 39 ->
      Z.land (Z.shiftr va k) 0x1FF = Z.land (Z.shiftr va' k) 0x1FF) as Hidx.
    { intros k Hk. apply Z.bits_inj'. intros i Hi.
      destruct (decide (i < 9)).
      - rewrite !index_testbit by lia. apply (f_equal (fun z => Z.testbit z (i + k - 12))) in Hv.
        rewrite !vpn_testbit in Hv by lia. replace (i + k - 12 <? 36) with true in Hv by lia.
        rewrite !andb_true_r in Hv. by replace (i + k) with (i + k - 12 + 12) by lia.
      - change 0x1FF with (Z.ones 9). autorewrite with zbits.
        replace (i <? 9) with false by lia. by rewrite !andb_false_r. }
    unfold path, pml4_index, pdpt_index, pd_index, pt_index. by rewrite !Hidx by lia.
Qed.

Lemma no_huge_entry m h r p t i q :
  walk m h r p = Some t -> (length p <= 2)%nat -> no_huge (trail m h r (p ++ i :: q)) ->
  present (rd m (t + 8 * i)) = true -> huge (rd m (t + 8 * i)) = false.
Proof.
  intros Hw Hlen Hnh. rewrite (trail_app _ _ _ _ _ _ Hw) in Hnh. unfold no_huge in Hnh.
  rewrite take_app in Hnh. apply Forall_app in Hnh as [_ Hnh].
  rewrite (trail_length _ _ _ _ _ Hw) in Hnh.
  destruct (3 - length p)%nat eqn:E; [lia|]. simpl in Hnh.
  by apply Forall_cons_1 in Hnh as [? _].
Qed.

(** A write to a leaf table leaves the tables themselves alone. *)
Lemma leaf_store s h p t i v :
  vmm_ok s h -> path_ok p -> length p = 3%nat -> 0 <= i < 512 ->
  walk (mem s) h (pml4 s) p = Some t ->
  let s' := set_mem s (<[t + 8 * i := v]> (mem s)) in
  vmm_ok s' h /\
  trail (mem s') h (pml4 s) (p ++ [i]) = trail (mem s) h (pml4 s) p ++ [v] /\
  (forall q, path_ok q -> length q = 4%nat -> q <> p ++ [i] ->
     trail (mem s') h (pml4 s) q = trail (mem s) h (pml4 s) q).
Proof.
  intros Hs Hp Hlen Hi Hw s'.
  assert (agree (mem s) (mem s') h (pml4 s) p i) as Hag by (apply agree_store; auto with lia).
  destruct (agree_to _ _ _ _ _ _ t Hag) as [Htp Hwp]; [done|lia|done|].
  assert (forall q, path_ok q -> (length q <= 4)%nat -> q <> p ++ [i] ->
    trail (mem s') h (pml4 s) q = trail (mem s) h (pml4 s) q /\
    walk (mem s') h (pml4 s) q = walk (mem s) h (pml4 s) q) as Hother.
  { intros q Hq Hql Hne. apply (agree_other _ _ _ _ p i); try done.
    intros [r ->]. rewrite !length_app in Hql. simpl in Hql.
    destruct r; [by rewrite app_nil_r in Hne|simpl in Hql; lia]. }
  assert (forall q, path_ok q -> (length q <= 3)%nat ->
    walk (mem s') h (pml4 s) q = walk (mem s) h (pml4 s) q) as Hwalk.
  { intros q Hq Hql. apply Hother; [done|lia|]. intros ->.
    rewrite length_app in Hql. simpl in Hql. lia. }
  split_and!.
  - destruct Hs as [? ? ? ? ? Htab Hinj].
    constructor; try done; change (pml4 s') with (pml4 s).
    + intros q u Hq Hql. rewrite Hwalk by done. by apply Htab.
    + intros q q' u Hq Hq' Hql Hql'. rewrite !Hwalk by done. by apply Hinj.
  - rewrite (trail_app _ _ _ _ _ _ Hwp), Htp. f_equal. cbn [trail].
    replace (rd (mem s') (t + 8 * i)) with v by (symmetry; apply rd_insert_eq). by case_test.
  - intros q Hq Hql Hne. apply Hother; [done|lia|done].
Qed.

Lemma leaf_store_data s h p t i v :
  vmm_ok s h -> path_ok p -> length p = 3%nat -> 0 <= i < 512 ->
  walk (mem s) h (pml4 s) p = Some t ->
  keeps_data s (set_mem s (<[t + 8 * i := v]> (mem s))) h.
Proof.
  intros Hs Hp Hlen Hi Hw g Hg.
  assert (agree (mem s) (<[t + 8 * i := v]> (mem s)) h (pml4 s) p i) as Hag by (apply agree_store; auto with lia).
  split.
  - split; [apply Hg|]. cbn [mem set_mem pml4]. intros q u Hq Hql Hu. apply (dp_table _ _ _ Hg q); [done..|].
    rewrite <- Hu. symmetry. apply (agree_other _ _ _ _ p i); try done; [lia|].
    intros Hpre%prefix_length. rewrite length_app in Hpre. simpl in Hpre. lia.
  - intros a Ha. cbn [mem set_mem]. apply rd_insert_ne. eapply data_page_word; try done; lia.
Qed.

Lemma trail_nav m h r p t : walk m h r p = Some t -> Forall (fun e => nav e = true) (trail m h r p).
Proof.
  revert r. induction p as [|i p IH]; intros r; simpl; [constructor|].
  case_test; [|done]. constructor; auto.
Qed.

Lemma no_huge_nav es l :
  length es = 3%nat -> Forall (fun e => nav e = true) es -> no_huge (es ++ l).
Proof.
  intros Hl Hall. unfold no_huge. rewrite take_app_le, take_ge by lia.
  eapply Forall_impl; [|exact Hall]. unfold nav. intros e He _. by zify_bool.
Qed.

(** *** Mapping a page *)

(** The state [vmm_map_page_flags] leaves: the leaf entry is written below
    three tables, every other trail only evolved. *)
Record mapped (s s' : Vmm) (h va leaf : Z) (user : bool) : Prop := {
  md_ok : vmm_ok s' h;
  md_pml4 : pml4 s' = pml4 s;
  md_flushed : flushed s' = va :: flushed s;
  md_page : exists es, trail (mem s') h (pml4 s) (path va) = es ++ [leaf] /\ length es = 3%nat /\
    Forall (fun e => nav e = true) es /\ (user = true -> user_access es = true);
  md_other : forall q, path_ok q -> length q = 4%nat -> q <> path va ->
    evolves (trail (mem s) h (pml4 s) q) (trail (mem s') h (pml4 s) q);
  md_free : forall f, fa_free (frames s') f -> fa_free (frames s) f;
  md_data : keeps_data s s' h;
}.

Lemma map_spec s h va pa flags n :
  vmm_ok s h -> Z.land va (PAGE_SIZE - 1) = 0 -> Z.land pa (PAGE_SIZE - 1) = 0 ->
  room (frames s) (S (S (S n))) -> no_huge (trail (mem s) h (pml4 s) (path va)) ->
  exists s', vmm_map_page_flags va pa flags s = Ret (tt, s') /\
    mapped s s' h va (Z.lor (Z.lor (Z.land pa PTE_ADDR_MASK) PTE_PRESENT) flags)
      (has flags PTE_USER) /\ room (frames s') n.
Proof.
  intros Hs Hva Hpa Hroom Hnh. unfold vmm_map_page_flags, sget, sbind.
  destruct (Z.eqb_spec (pml4 s) 0) as [E|_]; [by destruct (ok_pml4 _ _ Hs)|].
  rewrite Hva, Hpa. cbn [Z.eqb negb orb].
  pose proof (path_path_ok va) as Hok. unfold path in *.
  set (i4 := pml4_index va) in *. set (i3 := pdpt_index va) in *.
  set (i2 := pd_index va) in *. set (i1 := pt_index va) in *.
  assert (Hok4 := Hok). apply Forall_cons_1 in Hok4 as [H4 Hok3].
  apply Forall_cons_1 in Hok3 as [H3 Hok2]. apply Forall_cons_1 in Hok2 as [H2 Hok1].
  apply Forall_cons_1 in Hok1 as [H1 _].
  (* the three upper levels *)
  destruct (next_table_spec s h [] (pml4 s) i4 flags (S (S n)) Hs)
    as (t3 & s3 & -> & D3 & W3 & R3);
    [constructor|simpl; lia|done|done|exact Hroom|exact (no_huge_entry _ _ _ [] _ _ [i3; i2; i1] eq_refl ltac:(simpl; lia) Hnh)|].
  destruct (ld_evolves _ _ _ _ _ D3 _ Hok eq_refl) as (_&_&_&N3). specialize (N3 Hnh).
  rewrite <- (ld_pml4 _ _ _ _ _ D3) in W3, N3.
  destruct (next_table_spec s3 h [i4] t3 i3 flags (S n) (ld_ok _ _ _ _ _ D3))
    as (t2 & s2 & -> & D2 & W2 & R2);
    [exact (path_ok_l [i4] _ Hok)|simpl; lia|done|done|exact R3|exact (no_huge_entry _ _ _ [i4] _ _ [i2; i1] W3 ltac:(simpl; lia) N3)|].
  destruct (ld_evolves _ _ _ _ _ D2 _ Hok eq_refl) as (_&_&_&N2). specialize (N2 N3).
  rewrite <- (ld_pml4 _ _ _ _ _ D2) in W2, N2.
  destruct (next_table_spec s2 h [i4; i3] t2 i2 flags n (ld_ok _ _ _ _ _ D2))
    as (t1 & s1 & -> & D1 & W1 & R1);
    [exact (path_ok_l [i4; i3] _ Hok)|simpl; lia|done|done|exact R2
    |exact (no_huge_entry _ _ _ [i4; i3] _ _ [i1] W2 ltac:(simpl; lia) N2)|].
  (* the leaf *)
  pose proof (ld_pml4 _ _ _ _ _ D3) as P3. pose proof (ld_pml4 _ _ _ _ _ D2) as P2.
  pose proof (ld_pml4 _ _ _ _ _ D1) as P1. rewrite <- P1 in W1.
  set (leaf := Z.lor (Z.lor (Z.land pa PTE_ADDR_MASK) PTE_PRESENT) flags).
  destruct (leaf_store s1 h [i4; i3; i2] t1 i1 leaf (ld_ok _ _ _ _ _ D1)) as (Kok & Kpage & Kother);
    [exact (path_ok_l [i4; i3; i2] _ Hok)|done|done|done|].
  cbn [store smodify tlb_flush set_mem mem]. eexists. split; [done|]. split; [|done].
  rewrite P1, P2, P3 in Kpage, Kother, W1. constructor; cbn [set_mem mem pml4 flushed frames].
  - destruct Kok. by constructor.
  - by rewrite P1, P2, P3.
  - by rewrite (ld_flushed _ _ _ _ _ D1), (ld_flushed _ _ _ _ _ D2), (ld_flushed _ _ _ _ _ D3).
  - eexists. split_and!; [exact Kpage|exact (trail_length _ _ _ _ _ W1)|exact (trail_nav _ _ _ _ _ W1)|].
    intros Hu. pose proof (ld_user _ _ _ _ _ D1 Hu) as U1. pose proof (ld_user _ _ _ _ _ D2 Hu) as U2.
    pose proof (ld_user _ _ _ _ _ D3 Hu) as U3. rewrite P2, P3 in U1. rewrite P3 in U2. auto.
  - intros q Hq Hql Hne. rewrite Kother by done.
    eapply evolves_trans; [by apply (ld_evolves _ _ _ _ _ D3)|].
    pose proof (ld_evolves _ _ _ _ _ D2 q Hq Hql) as E2. rewrite P3 in E2.
    pose proof (ld_evolves _ _ _ _ _ D1 q Hq Hql) as E1. rewrite P2, P3 in E1.
    by eapply evolves_trans.
  - intros f Hf. by apply (ld_free _ _ _ _ _ D3), (ld_free _ _ _ _ _ D2), (ld_free _ _ _ _ _ D1).
  - eapply keeps_data_trans; [apply D3|]. eapply keeps_data_trans; [apply D2|].
    eapply keeps_data_trans; [apply D1|].
    intros g Hg. destruct (leaf_store_data s1 h [i4; i3; i2] t1 i1 leaf (ld_ok _ _ _ _ _ D1)) with g
      as [[U T] E]; [exact (path_ok_l [i4; i3; i2] _ Hok)|done|done|by rewrite P1, P2, P3|done|].
    by split; [split|].
Qed.

Lemma mapped_translation s s' h va pa flags :
  vmm_ok s h -> 0 <= pa < 2 ^ 52 -> Z.land pa (PAGE_SIZE - 1) = 0 ->
  Z.land flags PTE_ADDR_MASK = 0 ->
  mapped s s' h va (Z.lor (Z.lor (Z.land pa PTE_ADDR_MASK) PTE_PRESENT) flags)
    (has flags PTE_USER) ->
  forall va', 0 <= va' < 2 ^ 64 -> exists old,
    vmm_virt_to_phys va' s = Ret (old, s) /\
    vmm_virt_to_phys va' s' =
      Ret (if vpn va' =? vpn va then Z.lor pa (Z.land va' (PAGE_SIZE - 1)) else old, s').
Proof.
  intros Hs Hpa Hal Hfl Hm va' Hva'. eexists. split; [by apply virt_to_phys_run|].
  rewrite (virt_to_phys_run s' h) by (done || apply Hm). rewrite (md_pml4 _ _ _ _ _ _ Hm).
  destruct (Z.eqb_spec (vpn va') (vpn va)) as [Hv|Hv].
  - apply path_vpn in Hv. rewrite Hv.
    destruct (md_page _ _ _ _ _ _ Hm) as (es & -> & Hlen & _).
    destruct (leaf_entry_spec pa flags) as (Hp & Hmask & _); [done..|].
    destruct es as [|a [|b [|c [|]]]]; try done. cbn [app decode]. by rewrite Hp, Hmask.
  - destruct (md_other _ _ _ _ _ _ Hm (path va')) as (-> & _); [|done| |done].
    + apply path_path_ok.
    + by rewrite path_vpn.
Qed.

(** *** Frames for data *)

Lemma alloc_keeps_ok (s : Vmm) h p' f :
  vmm_ok s h -> fa_ok p' -> (forall g, fa_free p' g <-> fa_free (frames s) g /\ g <> f) ->
  vmm_ok (mkVmm p' (mem s) (hhdm s) (pml4 s) (flushed s)) h.
Proof.
  intros [? ? ? ? Hsmall Htab ?] Hok Hfree. constructor; try done; cbn [frames mem pml4].
  - intros g [? _]%Hfree. auto.
  - intros p t Hp Hl Hw. destruct (Htab p t Hp Hl Hw) as (g & ? & ? & Hg). exists g.
    split; [done|]. split; [done|]. by intros [? _]%Hfree.
Qed.

Lemma lor_offset f off :
  0 <= off < PAGE_SIZE -> Z.lor (f * PAGE_SIZE) off = f * PAGE_SIZE + off.
Proof.
  intros Hoff. rewrite Z.add_nocarry_lxor, Z.lxor_lor; try done.
  all: zbits i; rewrite frame_addr_bit by lia; destruct (decide (i < 12));
    [by rewrite Z.testbit_neg_r by lia|];
    rewrite (testbit_above 12 off) by (unfold PAGE_SIZE in *; lia); by rewrite andb_false_r.
Qed.

(** Writing to a data page changes no table. *)
Lemma data_write s h g m' :
  vmm_ok s h -> data_page s h g -> (forall a, ~ in_page h g a -> rd m' a = rd (mem s) a) ->
  vmm_ok (set_mem s m') h /\
  (forall q, path_ok q -> (length q <= 4)%nat -> trail m' h (pml4 s) q = trail (mem s) h (pml4 s) q) /\
  (forall k, data_page s h k -> data_page (set_mem s m') h k).
Proof.
  intros Hs Hg Hm. assert (agree (mem s) m' h (pml4 s) [] (-1)) as Hag.
  { intros q t j Hq Hql Hj Hw _. apply Hm. intros Ha. by eapply (data_page_word s h g q t j). }
  assert (forall q, path_ok q -> (length q <= 4)%nat ->
    trail m' h (pml4 s) q = trail (mem s) h (pml4 s) q /\ walk m' h (pml4 s) q = walk (mem s) h (pml4 s) q) as Hsame.
  { intros q Hq Hql. apply (agree_other _ _ _ _ [] (-1)); try done. intros [r ->]. cbn in Hq.
    apply Forall_cons_1 in Hq as [? _]. lia. }
  split; [|split; [intros; by apply Hsame|]].
  - destruct Hs as [? ? ? ? ? Htab Hinj]. constructor; try done; cbn [mem set_mem pml4 frames].
    + intros q u Hq Hql. rewrite (proj2 (Hsame q Hq ltac:(lia))). by apply Htab.
    + intros q q' u Hq Hq' Hl Hl'. rewrite (proj2 (Hsame q Hq ltac:(lia))), (proj2 (Hsame q' Hq' ltac:(lia))).
      by apply Hinj.
  - intros k Hk. split; [apply Hk|]. cbn [mem set_mem pml4]. intros q u Hq Hql.
    rewrite (proj2 (Hsame q Hq ltac:(lia))). by apply Hk.
Qed.

(** A frame just taken from the allocator is such a page. *)
Lemma alloc_data_page s h p' f :
  vmm_ok s h -> fa_free (frames s) f -> (forall g, fa_free p' g <-> fa_free (frames s) g /\ g <> f) ->
  data_page (mkVmm p' (mem s) (hhdm s) (pml4 s) (flushed s)) h f.
Proof.
  intros Hs Hf Hfree. split; cbn [frames mem pml4]; [by intros [_ ?]%Hfree|].
  intros p t Hp Hl Hw Ht. destruct (ok_table _ _ Hs p t Hp Hl Hw) as (g & Hg & _ & Hn).
  apply Hn. replace g with f by (unfold PAGE_SIZE in *; lia). done.
Qed.

(** *** Unmapping *)

Lemma unmap_level_run s h p t i :
  vmm_ok s h -> path_ok (p ++ [i]) -> (length p <= 2)%nat -> walk (mem s) h (pml4 s) p = Some t ->
  (present (rd (mem s) (t + 8 * i)) = true -> huge (rd (mem s) (t + 8 * i)) = false) ->
  unmap_level t i s =
  Ret (if present (rd (mem s) (t + 8 * i))
       then Some (child h (rd (mem s) (t + 8 * i))) else None, s).
Proof.
  intros Hs Hp Hlen Hw Hnh. unfold unmap_level, load, sbind. set (e := rd _ _) in *.
  change (has e PTE_PRESENT) with (present e). change (has e PTE_HUGE) with (huge e).
  destruct (present e) eqn:He; [|done]. cbn [negb]. rewrite Hnh by done.
  rewrite (phys_to_ptr_table _ h (p ++ [i])); [done..|rewrite length_app; simpl; lia|].
  rewrite walk_app, Hw. simpl. fold e. unfold nav. by rewrite He, Hnh.
Qed.

(** The walk of [vmm_unmap_page] reaches the leaf table or shows that nothing
    is mapped. *)
Definition unmap_leaf (s : Vmm) (va pt : Z) : outcome (unit * Vmm) :=
  if present (rd (mem s) (pt + 8 * pt_index va))
  then Ret (tt, mkVmm (frames s) (<[pt + 8 * pt_index va := 0]> (mem s))
                  (hhdm s) (pml4 s) (va :: flushed s))
  else Ret (tt, s).

Lemma unmap_walk s h va :
  vmm_ok s h -> no_huge (trail (mem s) h (pml4 s) (path va)) ->
  (exists pt, walk (mem s) h (pml4 s) (take 3 (path va)) = Some pt /\
     vmm_unmap_page va s = unmap_leaf s va pt) \/
  (vmm_unmap_page va s = Ret (tt, s) /\
   exists e, list.last (trail (mem s) h (pml4 s) (path va)) = Some e /\ present e = false).
Proof.
  intros Hs Hnh. unfold vmm_unmap_page, sget, sbind, unmap_leaf.
  destruct (Z.eqb_spec (pml4 s) 0) as [E|_]; [by destruct (ok_pml4 _ _ Hs)|].
  pose proof (path_path_ok va) as Hok. unfold path in *. cbn [take walk].
  assert (forall e, (present e = true -> huge e = false) -> nav e = present e) as Hnav.
  { intros e H. unfold nav. destruct (present _); [by rewrite H|done]. }
  pose proof (no_huge_entry _ _ _ [] _ _ [_; _; _] eq_refl ltac:(simpl; lia) Hnh) as N4.
  rewrite (unmap_level_run s h [] _ _ Hs (path_ok_l [_] _ Hok) ltac:(simpl; lia) eq_refl N4). cbn [trail]. rewrite (Hnav _ N4).
  set (e4 := rd (mem s) (pml4 s + 8 * pml4_index va)) in *.
  destruct (present e4) eqn:P4; [|right; eauto].
  assert (walk (mem s) h (pml4 s) [pml4_index va] = Some (child h e4)) as W4
    by (cbn [walk]; fold e4; by rewrite (Hnav e4), P4 by auto).
  pose proof (no_huge_entry _ _ _ [_] _ _ [_; _] W4 ltac:(simpl; lia) Hnh) as N3.
  rewrite (unmap_level_run s h [_] _ _ Hs (path_ok_l [_; _] _ Hok) ltac:(simpl; lia) W4 N3), (Hnav _ N3).
  set (e3 := rd (mem s) (child h e4 + 8 * pdpt_index va)) in *.
  destruct (present e3) eqn:P3; [|right; rewrite last_cons_cons; eauto].
  assert (walk (mem s) h (pml4 s) [pml4_index va; pdpt_index va] = Some (child h e3)) as W3
    by (cbn [walk]; fold e4; rewrite (Hnav e4), P4 by auto; fold e3; by rewrite (Hnav e3), P3 by auto).
  pose proof (no_huge_entry _ _ _ [_; _] _ _ [_] W3 ltac:(simpl; lia) Hnh) as N2.
  rewrite (unmap_level_run s h [_; _] _ _ Hs (path_ok_l [_; _; _] _ Hok) ltac:(simpl; lia) W3 N2), (Hnav _ N2).
  set (e2 := rd (mem s) (child h e3 + 8 * pd_index va)) in *.
  destruct (present e2) eqn:P2; [|right; rewrite !last_cons_cons; eauto].
  left. eexists. split; [done|]. unfold load, present. by destruct (has _ _).
Qed.

Lemma unmap_spec s h va :
  vmm_ok s h -> 0 <= va < 2 ^ 64 -> no_huge (trail (mem s) h (pml4 s) (path va)) ->
  exists s', vmm_unmap_page va s = Ret (tt, s') /\ vmm_ok s' h /\ frames s' = frames s /\
    (forall va', 0 <= va' < 2 ^ 64 -> exists old,
       vmm_virt_to_phys va' s = Ret (old, s) /\
       vmm_virt_to_phys va' s' =
         Ret (if vpn va' =? vpn va then VMM_NO_PHYS else old, s')) /\
    (s' = s \/ flushed s' = va :: flushed s).
Proof.
  intros Hs Hva Hnh.
  assert (forall e, list.last (trail (mem s) h (pml4 s) (path va)) = Some e -> present e = false ->
    forall va', 0 <= va' < 2 ^ 64 -> exists old,
       vmm_virt_to_phys va' s = Ret (old, s) /\
       vmm_virt_to_phys va' s = Ret (if vpn va' =? vpn va then VMM_NO_PHYS else old, s)) as Hsame.
  { intros e Hl He va' Hva'. rewrite (virt_to_phys_run s h) by done. eexists. split; [done|].
    destruct (Z.eqb_spec (vpn va') (vpn va)) as [->%path_vpn|]; [|done].
    by rewrite (decode_absent _ e). }
  destruct (unmap_walk s h va Hs Hnh) as [(pt & Hw & Hrun)|(Hrun & e & Hl & He)].
  2: { exists s. split_and!; try done; [by eapply Hsame|by left]. }
  rewrite Hrun. unfold unmap_leaf.
  assert (path_ok (take 3 (path va))) as Hok by apply Forall_take, path_path_ok.
  assert (path va = take 3 (path va) ++ [pt_index va]) as Hpath by done.
  destruct (present (rd (mem s) (pt + 8 * pt_index va))) eqn:Hp; eexists; (split; [done|]).
  - destruct (leaf_store s h (take 3 (path va)) pt (pt_index va) 0) as (Kok & Kpage & Kother);
      try done; [apply index_range|]. cbn [frames flushed set_mem mem] in *.
    assert (vmm_ok (mkVmm (frames s) (<[pt + 8 * pt_index va:=0]> (mem s)) (hhdm s) (pml4 s)
      (va :: flushed s)) h) as Hok' by (destruct Kok; by constructor).
    split_and!; try done; [|by right]. intros va' Hva'.
    rewrite !(virt_to_phys_run _ h) by done. eexists. split; [done|]. cbn [mem pml4].
    destruct (Z.eqb_spec (vpn va') (vpn va)) as [->%path_vpn|Hv].
    + rewrite Hpath. rewrite Kpage. by erewrite decode_absent; [|apply last_snoc|].
    + rewrite Kother; [done|apply path_path_ok|done|]. rewrite <- Hpath. by rewrite path_vpn.
  - split_and!; try done; [|by left]. eapply Hsame; [|exact Hp].
    rewrite Hpath, (trail_app _ _ _ _ _ _ Hw). cbn [trail]. unfold nav. rewrite Hp. apply last_snoc.
Qed.

(** ** Properties *)

(** C1: Mapping a page. With page-aligned addresses, flags that stay out of
    the address field, room for up to three new tables and no large page in
    the way, [vmm_map_page_flags] returns; [vmm_virt_to_phys] then sends every
    address of that page to [physical] plus its offset and answers as before
    on every other address; the tables stay a tree of allocated frames and the
    page's TLB entry is flushed. *)
Theorem vmm_map_page_flags_correct (s : Vmm) (h va physical flags : Z)
    (Hs : vmm_ok s h) (Hva : Z.land va (PAGE_SIZE - 1) = 0)
    (Hpa : 0 <= physical < 2 ^ 52) (Hal : Z.land physical (PAGE_SIZE - 1) = 0)
    (Hfl : Z.land flags PTE_ADDR_MASK = 0) (Hroom : room (frames s) 3)
    (Hnh : no_huge (trail (mem s) h (pml4 s) (path va))) :
  exists s', vmm_map_page_flags va physical flags s = Ret (tt, s') /\
    vmm_ok s' h /\ flushed s' = va :: flushed s /\
    forall va', 0 <= va' < 2 ^ 64 -> exists old,
      vmm_virt_to_phys va' s = Ret (old, s) /\
      vmm_virt_to_phys va' s' =
        Ret (if vpn va' =? vpn va then Z.lor physical (Z.land va' (PAGE_SIZE - 1)) else old, s').
Proof.
  destruct (map_spec s h va physical flags 0 Hs Hva Hal Hroom Hnh) as (s' & Hrun & Hm & _).
  exists s'. split; [done|]. split; [apply Hm|]. split; [apply Hm|].
  by eapply mapped_translation.
Qed.


(** Unmapping a page. With no large page in the way [vmm_unmap_page]
    returns, the page translates to [VMM_NO_PHYS] afterwards and every other
    address as before; when anything was unmapped the TLB entry is flushed,
    otherwise nothing changes. No frame goes back to the allocator. *)
Theorem vmm_unmap_page_correct (s : Vmm) (h va : Z)
    (Hs : vmm_ok s h) (Hva : 0 <= va < 2 ^ 64)
    (Hnh : no_huge (trail (mem s) h (pml4 s) (path va))) :
  exists s', vmm_unmap_page va s = Ret (tt, s') /\ vmm_ok s' h /\ frames s' = frames s /\
    (forall va', 0 <= va' < 2 ^ 64 -> exists old,
       vmm_virt_to_phys va' s = Ret (old, s) /\
       vmm_virt_to_phys va' s' =
         Ret (if vpn va' =? vpn va then VMM_NO_PHYS else old, s')) /\
    (s' = s \/ flushed s' = va :: flushed s).
Proof. by apply unmap_spec. Qed.
End PageTables.

Arguments Vmm : clear implicits.

(** Four free frames and a root table without entries. *)
Definition sample_frames : Pmm :=
  mkPmm 0xFFFF800000001000 [u64_max - 120] 1 0 0x202.

Definition sample_vmm : Vmm Pmm :=
  mkVmm sample_frames ∅ (Some 0xFFFF800000000000) 0xFFFF800000001000 [].

Lemma sample_frames_ok : pmm_ok sample_frames.
Proof. constructor; simpl; try lia. unfold u64_max. repeat constructor; lia. Qed.

Lemma sample_frames_free f : frame_free sample_frames f -> 3 <= f <= 6.
Proof.
  intros [Hf Hbit]. simpl in Hf. unfold frame_bit in Hbit.
  replace (f / 64) with 0 in Hbit by lia. replace (f mod 64) with f in Hbit by lia.
  assert (forallb (fun k => Z.testbit (u64_max - 120) k || ((3 <=? k) && (k <=? 6)))
    (Z.of_nat <$> seq 0 64) = true) as Hall by reflexivity.
  rewrite forallb_forall in Hall. specialize (Hall f).
  change (words sample_frames !!! Z.to_nat 0) with (u64_max - 120) in Hbit. rewrite Hbit in Hall.
  cbn [orb] in Hall. assert ((3 <=? f) && (f <=? 6) = true); [|zify_bool; lia].
  apply Hall, list_elem_of_In, list_elem_of_fmap. exists (Z.to_nat f).
  split; [lia|]. apply elem_of_seq. lia.
Qed.

Lemma sample_room : room sample_frames 4.
Proof.
  exists [3; 4; 5; 6]. split; [done|]. split; [|by repeat constructor].
  apply (bool_decide_unpack _). reflexivity.
Qed.

Lemma sample_vmm_ok : vmm_ok sample_vmm 0xFFFF800000000000.
Proof.
  assert (forall p t, walk (mem sample_vmm) 0xFFFF800000000000 (pml4 sample_vmm) p = Some t ->
    p = [] /\ t = 0xFFFF800000001000) as Hw by (intros [|i p] t; [by intros [= <-]|done]).
  constructor; try done.
  - apply sample_frames_ok.
  - intros f Hf%sample_frames_free. unfold frame_ok, PAGE_SIZE. lia.
  - intros p t _ _ [_ ->]%Hw. exists 1. split; [done|]. split; [unfold frame_ok, PAGE_SIZE; lia|].
    intros Hf%sample_frames_free. lia.
  - intros p q t _ _ _ _ [-> _]%Hw [-> _]%Hw. done.
Qed.

Lemma sample_no_huge va :
  no_huge (trail (mem sample_vmm) 0xFFFF800000000000 (pml4 sample_vmm) (path va)).
Proof. by repeat constructor. Qed.

Lemma vmm_map_page_flags_correct_witness :
  exists s', vmm_map_page 0x400000 0x5000 sample_vmm = Ret (tt, s') /\
    vmm_virt_to_phys 0x400123 s' = Ret (0x5123, s').
Proof.
  destruct (vmm_map_page_flags_correct sample_vmm 0xFFFF800000000000 0x400000 0x5000
    (Z.lor PTE_PRESENT PTE_WRITABLE) sample_vmm_ok eq_refl ltac:(lia) eq_refl eq_refl
    (room_le _ 4 3 ltac:(lia) sample_room) (sample_no_huge _)) as (s' & Hrun & _ & _ & Htr).
  exists s'. split; [exact Hrun|].
  destruct (Htr 0x400123 ltac:(lia)) as (old & _ & ->). reflexivity.
Defined.


Lemma vmm_unmap_page_correct_witness :
  exists s1 s2, vmm_map_page 0x400000 0x5000 sample_vmm = Ret (tt, s1) /\
    vmm_unmap_page 0x400000 s1 = Ret (tt, s2) /\
    vmm_virt_to_phys 0x400123 s1 = Ret (0x5123, s1) /\
    vmm_virt_to_phys 0x400123 s2 = Ret (VMM_NO_PHYS, s2).
Proof.
  destruct (map_spec sample_vmm 0xFFFF800000000000 0x400000 0x5000
    (Z.lor PTE_PRESENT PTE_WRITABLE) 0 sample_vmm_ok eq_refl eq_refl
    (room_le _ 4 3 ltac:(lia) sample_room) (sample_no_huge _)) as (s1 & Hrun & Hm & _).
  destruct (md_page _ _ _ _ _ _ Hm) as (es & Htrail & Hlen & Hnav & _).
  destruct (vmm_unmap_page_correct s1 0xFFFF800000000000 0x400000) as (s2 & Hun & _ & _ & Htr & _).
  - apply Hm.
  - lia.
  - rewrite (md_pml4 _ _ _ _ _ _ Hm), Htrail. by apply no_huge_nav.
  - exists s1, s2. split; [exact Hrun|]. split; [exact Hun|].
    destruct (mapped_translation sample_vmm s1 _ 0x400000 0x5000
      (Z.lor PTE_PRESENT PTE_WRITABLE) sample_vmm_ok ltac:(lia)
      eq_refl eq_refl Hm 0x400123 ltac:(lia)) as (? & _ & ->). split; [reflexivity|].
    destruct (Htr 0x400123 ltac:(lia)) as (? & _ & ->). reflexivity.
Defined.
