(* ===== verification/Kheap.v ===== *)
(** * Setting up the kernel heap ([src/src/mm.rs], lines 25, 26 and 498 to 548)

    [kheap_init] backs the start of the heap window with frames of the
    allocator, one mapping per page, and writes the first block header. It is
    the point where the three memory managers meet: the state is the page
    tables (with the allocator below them) next to the heap. *)

From S2P Require Import Prelude Io Pmm Vmm.
From S2P Require Heap.

Definition KHEAP_START : Z := 0xFFFF900000000000.
Definition heap_pages : Z := 2048.

Section Kheap.
Context {PA : Type} `{FA : FrameAllocator PA}.

Record Kheap := mkKheap {
  vm : Vmm PA;
  heap : Heap.Heap;
}.

Definition on_vm {A} (m : M (Vmm PA) A) : M Kheap A := fun s =>
  match m (vm s) with
  | Ret (a, v) => Ret (a, mkKheap v (heap s))
  | Panic => Panic
  | OutOfFuel => OutOfFuel
  end.

(** Writing the four fields of the header at [KHEAP_START]. *)
Definition write_header (b : Heap.HeapBlock) : M Kheap unit :=
  smodify (fun s => mkKheap (vm s)
    (Heap.mkHeap (<[KHEAP_START := b]> (Heap.blocks (heap s))) KHEAP_START (Heap.rflags (heap s)))).

(** One turn of the loop that maps the remaining pages; it stops with the
    number of pages mapped so far when the allocator is empty. *)
Definition kheap_grow (i mapped : Z) : M Kheap (flow Z Z) :=
  page <- on_vm pmm_alloc ;;
  if page =? PMM_NO_PAGE then sret (Exit mapped) else
  _ <- on_vm (vmm_map_page (KHEAP_START + i * PAGE_SIZE) page) ;;
  sret (Next (mapped + 1)).

Definition kheap_init : M Kheap unit :=
  page <- on_vm pmm_alloc ;;
  if page =? PMM_NO_PAGE then spanic else
  _ <- on_vm (vmm_map_page KHEAP_START page) ;;
  _ <- write_header (Heap.mkBlock 0 0 0 0) ;;
  r <- for_loop (Z.to_nat (heap_pages - 1)) 1 kheap_grow 1 ;;
  let mapped := match r with Next m => m | Exit m => m end in
  size <-! chk 64 (mapped * PAGE_SIZE - Heap.HEAP_BLOCK_SIZE) ;;
  write_header (Heap.mkBlock size 0 1 0).

(** ** Lemmas *)

(** The state after [n] pages of the window are backed by the frames [fs]. *)
Record backed (s0 s : Kheap) (h : Z) (n : Z) (fs : list Z) : Prop := {
  bk_ok : vmm_ok (vm s) h;
  bk_pml4 : pml4 (vm s) = pml4 (vm s0);
  bk_len : Z.of_nat (length fs) = n;
  bk_nodup : NoDup fs;
  bk_free : Forall (fun f => fa_free (frames (vm s0)) f /\ ~ fa_free (frames (vm s)) f) fs;
  bk_mono : forall f, fa_free (frames (vm s)) f -> fa_free (frames (vm s0)) f;
  bk_evolves : forall va, (forall k, 0 <= k < n -> vpn va <> vpn (KHEAP_START + k * PAGE_SIZE)) ->
    evolves (trail (mem (vm s0)) h (pml4 (vm s0)) (path va))
      (trail (mem (vm s)) h (pml4 (vm s0)) (path va));
  bk_page : forall k f off, fs !! k = Some f -> 0 <= off < PAGE_SIZE ->
    vmm_virt_to_phys (KHEAP_START + Z.of_nat k * PAGE_SIZE + off) (vm s) =
      Ret (f * PAGE_SIZE + off, vm s);
}.

(** The window: its pages are aligned and distinct. *)
Lemma window_aligned k : Z.land (KHEAP_START + k * PAGE_SIZE) (PAGE_SIZE - 1) = 0.
Proof.
  change (PAGE_SIZE - 1) with (Z.ones 12). rewrite Z.land_ones by lia.
  unfold KHEAP_START, PAGE_SIZE. lia.
Qed.

Lemma window_vpn k off :
  0 <= k < heap_pages -> 0 <= off < PAGE_SIZE ->
  vpn (KHEAP_START + k * PAGE_SIZE + off) = 0x900000000 + k.
Proof.
  intros Hk Hoff. unfold vpn. rewrite Z.land_ones, Z.shiftr_div_pow2 by lia.
  unfold KHEAP_START, PAGE_SIZE, heap_pages in *. lia.
Qed.

Lemma window_vpn_page k :
  0 <= k < heap_pages -> vpn (KHEAP_START + k * PAGE_SIZE) = 0x900000000 + k.
Proof.
  intros. rewrite <- (window_vpn k 0) by (unfold PAGE_SIZE; lia). f_equal. lia.
Qed.

Lemma offset_bits k off :
  0 <= off < PAGE_SIZE -> Z.land (KHEAP_START + k * PAGE_SIZE + off) (PAGE_SIZE - 1) = off.
Proof.
  intros. change (PAGE_SIZE - 1) with (Z.ones 12). rewrite Z.land_ones by lia.
  unfold KHEAP_START, PAGE_SIZE in *. lia.
Qed.

(** Backing one more page. *)
Lemma back_page s0 s h n fs r :
  backed s0 s h n fs -> 0 <= n < heap_pages -> room (frames (vm s)) (4 + r) ->
  (forall k, 0 <= k < heap_pages ->
     no_huge (trail (mem (vm s0)) h (pml4 (vm s0)) (path (KHEAP_START + k * PAGE_SIZE)))) ->
  exists f v1 v2, pmm_alloc (vm s) = Ret (f * PAGE_SIZE, v1) /\
    vmm_map_page (KHEAP_START + n * PAGE_SIZE) (f * PAGE_SIZE) v1 = Ret (tt, v2) /\
    backed s0 (mkKheap v2 (heap s)) h (n + 1) (fs ++ [f]) /\ room (frames v2) r.
Proof.
  intros B Hn Hroom Hnh.
  destruct (pmm_alloc_run _ h (3 + r) (bk_ok _ _ _ _ _ B) Hroom)
    as (f & p' & Ha & Hf & [Hf40 Hf64] & Hok' & Hroom' & Hfree).
  set (v1 := mkVmm p' (mem (vm s)) (hhdm (vm s)) (pml4 (vm s)) (flushed (vm s))) in *.
  assert (vmm_ok v1 h) as Hv1 by (by eapply alloc_keeps_ok; [apply B|..]).
  assert (Z.land (f * PAGE_SIZE) (PAGE_SIZE - 1) = 0) as Hal.
  { change (PAGE_SIZE - 1) with (Z.ones 12). rewrite Z.land_ones by lia. unfold PAGE_SIZE. lia. }
  assert (no_huge (trail (mem v1) h (pml4 v1) (path (KHEAP_START + n * PAGE_SIZE)))) as Hnh1.
  { change (mem v1) with (mem (vm s)). change (pml4 v1) with (pml4 (vm s)).
    rewrite (bk_pml4 _ _ _ _ _ B).
    eapply (bk_evolves _ _ _ _ _ B); [|by apply Hnh].
    intros k Hk. rewrite !window_vpn_page by lia. lia. }
  destruct (map_spec v1 h (KHEAP_START + n * PAGE_SIZE) (f * PAGE_SIZE)
    (Z.lor PTE_PRESENT PTE_WRITABLE) r Hv1 (window_aligned n) Hal Hroom' Hnh1)
    as (v2 & Hrun & Hm & Hr).
  exists f, v1, v2. split; [done|]. split; [exact Hrun|]. split; [|done].
  assert (0 <= f * PAGE_SIZE < 2 ^ 52) as Hpa by (unfold PAGE_SIZE; lia).
  pose proof (mapped_translation v1 v2 h _ _ (Z.lor PTE_PRESENT PTE_WRITABLE) Hv1 Hpa Hal eq_refl Hm) as Htr.
  assert (forall q, path_ok q -> trail (mem v1) h (pml4 v1) q = trail (mem (vm s)) h (pml4 (vm s)) q)
    as Hsame by done.
  constructor; cbn [vm].
  - apply Hm.
  - rewrite (md_pml4 _ _ _ _ _ _ Hm). apply B.
  - rewrite length_app. pose proof (bk_len _ _ _ _ _ B). simpl. lia.
  - apply list.NoDup_app. split_and!; [apply B| |apply NoDup_singleton].
    intros g Hg ->%list_elem_of_singleton.
    pose proof (bk_free _ _ _ _ _ B) as HB. rewrite list.Forall_forall in HB. by apply HB in Hg as [_ []].
  - apply Forall_app; split.
    + eapply Forall_impl; [|apply B]. intros g [? Hg]. split; [done|].
      intros [? _]%(md_free _ _ _ _ _ _ Hm)%Hfree. done.
    + apply Forall_singleton. split; [by apply (bk_mono _ _ _ _ _ B)|].
      intros [_ ?]%(md_free _ _ _ _ _ _ Hm)%Hfree. done.
  - intros g [? _]%(md_free _ _ _ _ _ _ Hm)%Hfree. by apply (bk_mono _ _ _ _ _ B).
  - intros va Hva. eapply evolves_trans; [apply (bk_evolves _ _ _ _ _ B); intros; apply Hva; lia|].
    rewrite <- (bk_pml4 _ _ _ _ _ B). apply (md_other _ _ _ _ _ _ Hm); [apply path_path_ok|done|].
    rewrite path_vpn. apply Hva. lia.
  - intros k g off Hg Hoff. pose proof (bk_len _ _ _ _ _ B) as Hlen.
    assert (k < length (fs ++ [f]))%nat as Hk by by eapply lookup_lt_Some.
    rewrite length_app in Hk. simpl in Hk.
    destruct (Htr (KHEAP_START + Z.of_nat k * PAGE_SIZE + off)) as (old & Hold & ->).
    { unfold KHEAP_START, PAGE_SIZE, heap_pages in *. lia. }
    rewrite window_vpn, window_vpn_page, offset_bits by lia.
    destruct (Z.eqb_spec (0x900000000 + Z.of_nat k) (0x900000000 + n)) as [E|E].
    + assert (k = length fs) as -> by lia. rewrite list_lookup_middle in Hg by done.
      simplify_eq. by rewrite lor_offset.
    + rewrite lookup_app_l in Hg by lia.
      pose proof (bk_page _ _ _ _ _ B k g off Hg Hoff) as Hp.
      rewrite (virt_to_phys_run v1 h) in Hold; [|done|unfold KHEAP_START, PAGE_SIZE, heap_pages in *; lia].
      rewrite (virt_to_phys_run (vm s) h) in Hp; [|apply B|unfold KHEAP_START, PAGE_SIZE, heap_pages in *; lia].
      injection Hold as <-. injection Hp as Hp.
      change (mem v1) with (mem (vm s)). change (pml4 v1) with (pml4 (vm s)). by rewrite Hp.
Qed.

Lemma on_vm_run {A} (m : M (Vmm PA) A) s a v :
  m (vm s) = Ret (a, v) -> on_vm m s = Ret (a, mkKheap v (heap s)).
Proof. unfold on_vm. by intros ->. Qed.

Lemma grow_run s0 s h n fs r mapped :
  backed s0 s h n fs -> 0 <= n < heap_pages -> room (frames (vm s)) (4 + r) ->
  (forall k, 0 <= k < heap_pages ->
     no_huge (trail (mem (vm s0)) h (pml4 (vm s0)) (path (KHEAP_START + k * PAGE_SIZE)))) ->
  exists f s', kheap_grow n mapped s = Ret (Next (mapped + 1), s') /\
    heap s' = heap s /\ backed s0 s' h (n + 1) (fs ++ [f]) /\ room (frames (vm s')) r.
Proof.
  intros B Hn Hroom Hnh.
  destruct (back_page s0 s h n fs r B Hn Hroom Hnh) as (f & v1 & v2 & Ha & Hmap & B' & Hr).
  exists f, (mkKheap v2 (heap s)). split; [|done]. unfold kheap_grow.
  rewrite (sbind_Ret _ _ _ _ _ (on_vm_run _ _ _ _ Ha)).
  rewrite (proj2 (Z.eqb_neq _ _)) by apply frame_not_no_page.
  by rewrite (sbind_Ret _ _ _ _ _ (on_vm_run (vmm_map_page _ _) (mkKheap v1 (heap s)) _ _ Hmap)).
Qed.

Lemma backed_nil s h : vmm_ok (vm s) h -> backed s s h 0 [].
Proof. intros Hs. constructor; try done. constructor. Qed.

Lemma kheap_init_spec s h r :
  vmm_ok (vm s) h -> 0 <= Heap.rflags (heap s) < 2 ^ 64 -> room (frames (vm s)) (4 * Z.to_nat heap_pages + r) ->
  (forall k, 0 <= k < heap_pages ->
     no_huge (trail (mem (vm s)) h (pml4 (vm s)) (path (KHEAP_START + k * PAGE_SIZE)))) ->
  exists s' fs, kheap_init s = Ret (tt, s') /\ backed s s' h heap_pages fs /\ room (frames (vm s')) r /\
    Heap.heap_head (heap s') = KHEAP_START /\
    Heap.heap_ok (heap s') [(heap_pages * PAGE_SIZE - 32, true)]
      (KHEAP_START + heap_pages * PAGE_SIZE).
Proof.
  intros Hs Hrf Hroom Hnh. unfold kheap_init.
  replace (4 * Z.to_nat heap_pages + r)%nat with (4 + (4 * Z.to_nat (heap_pages - 1) + r))%nat in Hroom
    by (unfold heap_pages; lia).
  destruct (back_page s s h 0 [] _ (backed_nil s h Hs) ltac:(unfold heap_pages; lia) Hroom Hnh)
    as (f & v1 & v2 & Ha & Hmap & B & Hr).
  rewrite (sbind_Ret _ _ _ _ _ (on_vm_run _ _ _ _ Ha)).
  rewrite (proj2 (Z.eqb_neq _ _)) by apply frame_not_no_page.
  replace (KHEAP_START + 0 * PAGE_SIZE) with KHEAP_START in Hmap by (unfold KHEAP_START; lia).
  rewrite (sbind_Ret _ _ _ _ _ (on_vm_run (vmm_map_page _ _) (mkKheap v1 (heap s)) _ _ Hmap)).
  cbn [heap]. unfold write_header, smodify. unfold sbind at 1. cbn [vm heap].
  set (s1 := mkKheap v2 _).
  destruct (for_loop_inv (R := Z) (fun i m t => m = i /\ heap t = heap s1 /\
      (exists fs, backed s t h i fs) /\ room (frames (vm t)) (4 * Z.to_nat (heap_pages - i) + r))
      (Z.to_nat (heap_pages - 1)) 1 kheap_grow 1 s1) as (m & t & Hloop & -> & Hheap & (fs & B') & Hleft).
  - split; [done|]. split; [done|]. split; [|exact Hr]. exists ([] ++ [f]). destruct B. by constructor.
  - intros j b t Hj (-> & Hh & (fs & Bt) & Hrt).
    destruct (grow_run s t h j fs (4 * Z.to_nat (heap_pages - (j + 1)) + r) j Bt) as (g & t' & -> & Hh' & Bt' & Hr').
    + unfold heap_pages in *. lia.
    + replace (4 + (4 * Z.to_nat (heap_pages - (j + 1)) + r))%nat
        with (4 * Z.to_nat (heap_pages - j) + r)%nat by (unfold heap_pages in *; lia). done.
    + done.
    + eexists _, _. split; [done|]. split; [done|]. split; [congruence|]. split; [eauto|done].
  - unfold sbind at 1. rewrite Hloop.
    replace (1 + Z.of_nat (Z.to_nat (heap_pages - 1))) with heap_pages in * by (unfold heap_pages; lia).
    replace (4 * Z.to_nat (heap_pages - heap_pages) + r)%nat with r in Hleft by lia.
    unfold sbind, slift. rewrite chk_Ret
      by (unfold heap_pages, PAGE_SIZE, Heap.HEAP_BLOCK_SIZE; lia).
    eexists _, fs. split; [done|]. split; [destruct B'; by constructor|]. split; [exact Hleft|]. cbn [heap]. rewrite Hheap.
    split; [done|]. constructor; cbn.
    + split; [exists 0; by rewrite lookup_insert_eq|]. split; [unfold heap_pages, PAGE_SIZE; lia|]. split; done.
    + done.
    + done.
    + done.
    + done.
Qed.
End Kheap.

Arguments Kheap : clear implicits.

(** ** Properties *)

(** Given enough free frames and no large page in the way, [kheap_init]
    returns a well-formed heap of one free block covering the 2048 pages of
    the window; every page of the window translates to a frame of its own,
    each of which was free before and is not free any more, and every address
    outside the window keeps its translation. *)
Theorem kheap_init_correct {PA} `{FA : FrameAllocator PA} (s : Kheap PA) (h : Z)
    (Hs : vmm_ok (vm s) h) (Hrf : 0 <= Heap.rflags (heap s) < 2 ^ 64)
    (Hroom : room (frames (vm s)) (4 * Z.to_nat heap_pages))
    (Hnh : forall k, 0 <= k < heap_pages ->
       no_huge (trail (mem (vm s)) h (pml4 (vm s)) (path (KHEAP_START + k * PAGE_SIZE)))) :
  exists s' fs, kheap_init s = Ret (tt, s') /\ vmm_ok (vm s') h /\
    Heap.heap_ok (heap s') [(heap_pages * PAGE_SIZE - 32, true)]
      (KHEAP_START + heap_pages * PAGE_SIZE) /\
    Z.of_nat (length fs) = heap_pages /\ NoDup fs /\
    (forall k f off, fs !! k = Some f -> 0 <= off < PAGE_SIZE ->
       fa_free (frames (vm s)) f /\ ~ fa_free (frames (vm s')) f /\
       vmm_virt_to_phys (KHEAP_START + Z.of_nat k * PAGE_SIZE + off) (vm s') =
         Ret (f * PAGE_SIZE + off, vm s')) /\
    (forall va, 0 <= va < 2 ^ 64 ->
       (forall k, 0 <= k < heap_pages -> vpn va <> vpn (KHEAP_START + k * PAGE_SIZE)) ->
       exists a, vmm_virt_to_phys va (vm s) = Ret (a, vm s) /\
                 vmm_virt_to_phys va (vm s') = Ret (a, vm s')).
Proof.
  rewrite <- (Nat.add_0_r (4 * _)) in Hroom. destruct (kheap_init_spec s h 0 Hs Hrf Hroom Hnh) as (s' & fs & Hrun & B & _ & _ & Hheap).
  exists s', fs. split; [done|]. split; [apply B|]. split; [done|]. split; [apply B|]. split; [apply B|].
  split.
  - intros k f off Hk Hoff. pose proof (bk_free _ _ _ _ _ B) as HB.
    destruct (proj1 (Forall_lookup _ _) HB k f Hk). split; [done|]. split; [done|].
    by apply (bk_page _ _ _ _ _ B).
  - intros va Hva Hout. eexists. split; [by apply virt_to_phys_run|].
    rewrite (virt_to_phys_run _ h); [|apply B|done]. rewrite (bk_pml4 _ _ _ _ _ B).
    by destruct (bk_evolves _ _ _ _ _ B va Hout) as [-> _].
Qed.

(** 16384 free frames above a reserved word. *)
Definition big_frames : Pmm :=
  mkPmm 0xFFFF800000001000 (u64_max :: replicate 256 0) 257 0 0x202.

Definition sample_kheap : Kheap Pmm :=
  mkKheap (mkVmm big_frames ∅ (Some 0xFFFF800000000000) 0xFFFF800000001000 [])
    (Heap.mkHeap ∅ 0 0x202).

Lemma big_frames_free f : frame_free big_frames f <-> 64 <= f < 64 * 257.
Proof.
  unfold frame_free, frame_bit. cbn [words bitmap_entries big_frames].
  assert (forall f, 64 <= f < 64 * 257 ->
    (u64_max :: replicate 256 0) !!! Z.to_nat (f / 64) = 0) as Hz.
  { intros g Hg. replace (Z.to_nat (g / 64)) with (S (Z.to_nat (g / 64 - 1))) by lia.
    cbn [lookup_total list_lookup_total].
    apply (lookup_total_replicate_2 256 0). lia. }
  split; [|intros; rewrite Hz by lia; split; [lia|apply Z.bits_0]].
  intros [Hf Hb]. destruct (decide (64 <= f)); [lia|].
  replace (f / 64) with 0 in Hb by lia. replace (f mod 64) with f in Hb by lia.
  change ((u64_max :: replicate 256 0) !!! Z.to_nat 0) with (Z.ones 64) in Hb.
  rewrite Z.ones_spec_low in Hb by lia. done.
Qed.

Lemma sample_kheap_ok : vmm_ok (vm sample_kheap) 0xFFFF800000000000.
Proof.
  assert (forall p t, walk ∅ 0xFFFF800000000000 0xFFFF800000001000 p = Some t ->
    p = [] /\ t = 0xFFFF800000001000) as Hw by (intros [|i p] t; [by intros [= <-]|done]).
  constructor; try done; cbn [vm frames mem pml4 sample_kheap].
  - constructor; cbn [words bitmap_entries alloc_hint rflags big_frames]; try lia; try done. constructor; [unfold u64_max; lia|]. apply Forall_replicate. lia.
  - intros f Hf%big_frames_free. unfold frame_ok, PAGE_SIZE. lia.
  - intros p t _ _ [_ ->]%Hw. exists 1. split; [done|].
    split; [unfold frame_ok, PAGE_SIZE; lia|]. intros Hf%big_frames_free. lia.
  - intros p q t _ _ _ _ [-> _]%Hw [-> _]%Hw. done.
Qed.

Lemma kheap_init_correct_witness :
  exists s' (fs : list Z), kheap_init sample_kheap = Ret (tt, s') /\
    Heap.heap_ok (heap s') [(8388576, true)] 0xFFFF900000800000 /\ NoDup fs /\
    Z.of_nat (length fs) = 2048.
Proof.
  destruct (kheap_init_correct sample_kheap 0xFFFF800000000000) as (s' & fs & Hrun & _ & Hh & Hl & Hnd & _).
  - exact sample_kheap_ok.
  - cbn. lia.
  - exists (Z.of_nat <$> seq 64 (4 * Z.to_nat heap_pages)).
    split; [by rewrite length_fmap, length_seq|]. split.
    + apply (NoDup_fmap_2 Z.of_nat), NoDup_seq.
    + apply list.Forall_forall. intros f (k & -> & Hk)%list_elem_of_fmap.
      apply elem_of_seq in Hk. apply big_frames_free. unfold heap_pages in Hk. lia.
  - intros k _. by repeat constructor.
  - exists s', fs. split; [exact Hrun|]. split; [exact Hh|]. split; [exact Hnd|exact Hl].
Defined.
