(* ===== verification/Block.v ===== *)
(** * Block devices ([src/src/block.rs])

    The trait [BlockDevice] as a class, its two provided methods, and the
    contract the filesystem relies on ([BlockLaws]): a device is an image of
    512-byte sectors that reads return and writes update. [Disks] states the
    same promise for the disks of the AHCI driver, addressed by an index. *)

From S2P Require Import Prelude.

Inductive BlockError := Io | NoSpace | NotFound | Corrupt | Unsupported.

#[export] Instance BlockError_eq_dec : EqDecision BlockError.
Proof. solve_decision. Defined.

Abbreviation res A := (result BlockError A).

(** A device is part of the state; [read_blocks lba n] fills a buffer of [n]
    bytes, which is the value it returns. *)
Class BlockDevice (D : Type) := {
  block_count : D -> outcome Z;
  block_size : D -> Z;
  read_blocks : Z -> Z -> M D (res (list Z));
  write_blocks : Z -> list Z -> M D (res unit);
  flush : M D (res unit);
}.

Section Provided.
Context {D : Type} `{BD : BlockDevice D}.

(** [read_block] reads one block into the front of a buffer [buf]. *)
Definition read_block (lba : Z) (buf : list Z) : M D (res (list Z)) :=
  d <- sget ;;
  let size := block_size d in
  if blen buf <? size then sret (Err Io) else
  bytes <-? read_blocks lba size ;;
  buf' <-! splice buf 0 bytes ;;
  sret (Ok buf').

Definition write_block (lba : Z) (buf : list Z) : M D (res unit) :=
  d <- sget ;;
  let size := block_size d in
  if blen buf <? size then sret (Err Io) else
  bytes <-! slice buf 0 size ;;
  write_blocks lba bytes.
End Provided.

(** ** The contract *)

(** [img'] is [img] except inside [[lo, hi)]. *)
Definition same_outside (img img' : list Z) (lo hi : Z) : Prop :=
  length img' = length img /\
  forall k : nat, Z.of_nat k < lo \/ hi <= Z.of_nat k -> img' !! k = img !! k.

Class BlockLaws (D : Type) `{BD : BlockDevice D} := {
  bd_ok : D -> Prop;
  bd_image : D -> list Z;
  bd_bytes : forall d, bd_ok d -> bytes_ok (bd_image d);
  bd_read : forall d lba n, bd_ok d -> 0 <= lba -> 0 <= n < 2 ^ 64 ->
    lba + n / 512 < 2 ^ 64 ->
    exists r d', read_blocks lba n d = Ret (r, d') /\ bd_ok d' /\ bd_image d' = bd_image d /\
      match r with
      | Ok b => slice (bd_image d) (512 * lba) (512 * lba + n) = Ret b
      | Err _ => True
      end;
  bd_write : forall d lba b, bd_ok d -> 0 <= lba -> blen b < 2 ^ 64 ->
    lba + blen b / 512 < 2 ^ 64 -> bytes_ok b ->
    exists r d', write_blocks lba b d = Ret (r, d') /\ bd_ok d' /\
      match r with
      | Ok _ => splice (bd_image d) (512 * lba) b = Ret (bd_image d')
      | Err _ => same_outside (bd_image d) (bd_image d') (512 * lba) (512 * lba + blen b)
      end;
  bd_flush : forall d, bd_ok d ->
    exists r d', flush d = Ret (r, d') /\ bd_ok d' /\ bd_image d' = bd_image d;
}.

(** The disks of a host: [disk_read disk lba n] answers [None] where the driver
    answers [false]. *)
Class Disks (S : Type) := {
  disk_read : Z -> Z -> Z -> M S (option (list Z));
  disk_write : Z -> Z -> list Z -> M S bool;
  disk_flush : Z -> M S bool;
  dk_ok : S -> Prop;
  dk_image : S -> Z -> list Z;
  dk_bytes : forall s k, dk_ok s -> bytes_ok (dk_image s k);
  dk_read : forall s k lba n, dk_ok s -> 0 <= k -> 0 <= lba < 2 ^ 64 -> 0 <= n < 2 ^ 64 ->
    exists r s', disk_read k lba n s = Ret (r, s') /\ dk_ok s' /\
      (forall j, dk_image s' j = dk_image s j) /\
      match r with
      | Some b => slice (dk_image s k) (512 * lba) (512 * lba + n) = Ret b
      | None => True
      end;
  dk_write : forall s k lba b, dk_ok s -> 0 <= k -> 0 <= lba < 2 ^ 64 -> blen b < 2 ^ 64 -> bytes_ok b ->
    exists r s', disk_write k lba b s = Ret (r, s') /\ dk_ok s' /\
      (forall j, j <> k -> dk_image s' j = dk_image s j) /\
      (if r : bool then splice (dk_image s k) (512 * lba) b = Ret (dk_image s' k)
       else same_outside (dk_image s k) (dk_image s' k) (512 * lba) (512 * lba + blen b));
  dk_flush : forall s k, dk_ok s -> 0 <= k ->
    exists r s', disk_flush k s = Ret (r, s') /\ dk_ok s' /\ forall j, dk_image s' j = dk_image s j;
}.

(** ** Lemmas *)

Lemma same_outside_refl img lo hi : same_outside img img lo hi.
Proof. by split. Qed.

Lemma splice_same_outside img lo b img' :
  splice img lo b = Ret img' -> same_outside img img' lo (lo + blen b).
Proof.
  intros Hs. split; [by eapply splice_len|]. intros k Hk.
  apply splice_inv in Hs as H. destruct H as (Hlo & _).
  eapply splice_lookup_out; [done|]. unfold blen in Hk. lia.
Qed.

Section Lemmas.
Context {D : Type} `{BL : BlockLaws D}.

Lemma read_block_spec (d : D) lba buf :
  bd_ok d -> 0 <= lba -> 0 <= block_size d < 2 ^ 64 -> lba + block_size d / 512 < 2 ^ 64 ->
  exists r d', read_block lba buf d = Ret (r, d') /\ bd_ok d' /\ bd_image d' = bd_image d /\
    match r with
    | Ok b => exists bytes, slice (bd_image d) (512 * lba) (512 * lba + block_size d) = Ret bytes /\
                splice buf 0 bytes = Ret b
    | Err _ => True
    end.
Proof.
  intros Hd Hlba Hsz Hov. unfold read_block. rewrite (sbind_Ret _ _ d d d) by done. cbv zeta.
  destruct (Z.ltb_spec (blen buf) (block_size d)); [by exists (Err Io), d|].
  destruct (bd_read d lba (block_size d) Hd Hlba Hsz Hov) as (r & d' & Hrun & Hd' & Himg & Hr).
  destruct r as [b|e].
  - rewrite (qbind_Ok _ _ _ _ _ Hrun). pose proof (slice_len _ _ _ _ Hr) as Hl.
    destruct (splice buf 0 b) as [buf'| |] eqn:Hs.
    + exists (Ok buf'), d'. split; [done|]. split_and!; try done. by exists b.
    + rewrite splice_Ret in Hs by lia. done.
    + rewrite splice_Ret in Hs by lia. done.
  - rewrite (qbind_Err _ _ _ _ _ Hrun). by exists (Err e), d'.
Qed.
End Lemmas.

(** A host with disks in memory, every disk a byte image: it refuses accesses
    outside an image, and nothing else. *)
Abbreviation RamDisks := (gmap Z (list Z)).

Definition ram_read (k lba n : Z) : M RamDisks (option (list Z)) := fun s =>
  match slice (default [] (s !! k)) (512 * lba) (512 * lba + n) with
  | Ret b => Ret (Some b, s)
  | _ => Ret (None, s)
  end.

Definition ram_write (k lba : Z) (b : list Z) : M RamDisks bool := fun s =>
  match splice (default [] (s !! k)) (512 * lba) b with
  | Ret img => Ret (true, <[k := img]> s)
  | _ => Ret (false, s)
  end.

Lemma ram_bytes (s : RamDisks) (k : Z) :
  map_Forall (fun _ => bytes_ok) s -> bytes_ok (default [] (s !! k)).
Proof. intros Hs. destruct (s !! k) as [b|] eqn:E; [exact (Hs _ _ E)|constructor]. Qed.

#[export, refine] Instance Ram_disks : Disks RamDisks := {
  disk_read := ram_read;
  disk_write := ram_write;
  disk_flush := fun _ => sret true;
  dk_ok := map_Forall (fun _ => bytes_ok);
  dk_image := fun s k => default [] (s !! k);
}.
Proof.
  - intros s k Hs. by apply ram_bytes.
  - intros s k lba n Hs _ _ _. unfold ram_read.
    destruct (slice (default [] (s !! k)) _ _) as [b| |] eqn:E.
    + by exists (Some b), s.
    + by exists None, s.
    + by exists None, s.
  - intros s k lba b Hs _ _ _ Hb. unfold ram_write.
    destruct (splice (default [] (s !! k)) (512 * lba) b) as [img| |] eqn:E.
    + exists true, (<[k := img]> s). split; [done|]. split.
      * apply map_Forall_insert_2; [|done]. eapply splice_bytes; [done| |done]. by apply ram_bytes.
      * split; [intros j Hj; by rewrite lookup_insert_ne|]. by rewrite lookup_insert_eq.
    + exists false, s. by split_and!.
    + exists false, s. by split_and!.
  - intros s k Hs _. by exists true, s.
Defined.

(** One such disk as a device of its own. *)
Record RamDisk := mkRam { ram_image : list Z }.

#[export] Instance Ram_device : BlockDevice RamDisk := {
  block_count := fun d => Ret (blen (ram_image d) / 512);
  block_size := fun _ => 512;
  read_blocks := fun lba n d =>
    match slice (ram_image d) (512 * lba) (512 * lba + n) with
    | Ret b => Ret (Ok b, d)
    | _ => Ret (Err Io, d)
    end;
  write_blocks := fun lba b d =>
    match splice (ram_image d) (512 * lba) b with
    | Ret img => Ret (Ok tt, mkRam img)
    | _ => Ret (Err Io, d)
    end;
  flush := sret (Ok tt);
}.

#[export, refine] Instance Ram_laws : BlockLaws RamDisk := {
  bd_ok := fun d => bytes_ok (ram_image d);
  bd_image := ram_image;
}.
Proof.
  - done.
  - intros d lba n Hd _ _ _. cbn. destruct (slice (ram_image d) _ _) as [b| |] eqn:E.
    + by exists (Ok b), d.
    + by exists (Err Io), d.
    + by exists (Err Io), d.
  - intros d lba b Hd _ _ _ Hb. cbn. destruct (splice (ram_image d) (512 * lba) b) as [img| |] eqn:E.
    + exists (Ok tt), (mkRam img). split; [done|]. split; [by eapply splice_bytes|done].
    + exists (Err Io), d. by split_and!.
    + exists (Err Io), d. by split_and!.
  - intros d Hd. by exists (Ok tt), d.
Defined.

Definition bytes_okb (b : list Z) : bool := forallb (fun x => (0 <=? x) && (x <? 256)) b.

Lemma bytes_okb_ok b : bytes_okb b = true -> bytes_ok b.
Proof.
  unfold bytes_okb. rewrite forallb_forall. intros H. apply Forall_forall. intros x Hx.
  specialize (H x Hx). lia.
Qed.

(** ** Little-endian fields

    [uN::from_le_bytes] of the [n] bytes at [off], and the converse write. *)
Definition get_le (n : Z) (b : list Z) (off : Z) : outcome Z :=
  let! s := slice b off (off + n) in Ret (from_le s).

Definition put_le (n : nat) (b : list Z) (off v : Z) : outcome (list Z) :=
  splice b off (to_le n v).

Lemma get_le_Ret n b off :
  0 <= n -> 0 <= off -> off + n <= blen b ->
  exists v, get_le n b off = Ret v /\ (bytes_ok b -> 0 <= v < 256 ^ n).
Proof.
  intros Hn Hoff Hlen. unfold get_le. rewrite slice_Ret by lia. cbn [obind]. eexists. split; [done|].
  intros Hb. set (l := take _ _).
  assert (length l = Z.to_nat n) as Hl.
  { unfold l. rewrite length_take, length_drop. unfold blen in Hlen. lia. }
  replace (256 ^ n) with (256 ^ Z.of_nat (length l)) by (f_equal; lia).
  apply from_le_range. by apply Forall_take, Forall_drop.
Qed.

Lemma get_le_inv n b off v :
  get_le n b off = Ret v -> exists s, slice b off (off + n) = Ret s /\ v = from_le s.
Proof. unfold get_le. intros (s & ? & [= <-])%obind_Ret_inv. eauto. Qed.

Lemma get_le_range n b off v :
  get_le n b off = Ret v -> 0 <= n -> bytes_ok b -> 0 <= v < 256 ^ n.
Proof.
  intros (s & Hs & ->)%get_le_inv Hn Hb.
  replace (256 ^ n) with (256 ^ Z.of_nat (length s)).
  - apply from_le_range. by eapply slice_bytes.
  - f_equal. apply slice_len in Hs. unfold blen in Hs. lia.
Qed.

(** Reading back a field just written, and one elsewhere. *)
Lemma get_put_same n b off v b' :
  put_le n b off v = Ret b' -> 0 <= v < 256 ^ Z.of_nat n -> get_le (Z.of_nat n) b' off = Ret v.
Proof.
  intros Hp Hv. unfold get_le. pose proof (slice_splice_same _ _ _ _ Hp) as Hs.
  unfold blen in Hs. rewrite to_le_length in Hs. rewrite Hs. cbn [obind].
  by rewrite from_le_to_le, Z.mod_small.
Qed.

Lemma get_put_other n m b off off' v b' :
  put_le n b off v = Ret b' -> off' + m <= off \/ off + Z.of_nat n <= off' ->
  get_le m b' off' = get_le m b off'.
Proof.
  intros Hp Hd. unfold get_le. erewrite slice_splice_disjoint; [done|exact Hp|].
  unfold blen. by rewrite to_le_length.
Qed.
