(* ===== verification/Limine.v ===== *)
(** * The boot protocol ([src/src/limine.rs])

    The structures the kernel shares with the bootloader, as C lays them out, and the
    request statics between their markers. The bootloader is not part of the program: it
    is known by what its protocol documents, the class [Loader]. *)

From S2P Require Import Prelude Block.
From stdpp Require Import list strings.
#[local] Open Scope Z_scope.

(** ** [#[repr(C)]] *)

(** The types the fields have; a pointer or a function pointer has eight bytes. *)
Inductive cty := U8 | U16 | U32 | U64 | Ptr | Arr (t : cty) (n : nat).

Fixpoint csize (t : cty) : nat :=
  match t with
  | U8 => 1 | U16 => 2 | U32 => 4 | U64 => 8 | Ptr => 8
  | Arr t n => n * csize t
  end.

Fixpoint calign (t : cty) : nat :=
  match t with
  | U8 => 1 | U16 => 2 | U32 => 4 | U64 => 8 | Ptr => 8
  | Arr t _ => calign t
  end.

Definition struct := list (string * cty).

(** The padding in front of a field at offset [o]. *)
Definition padding (o : nat) (t : cty) : nat := (calign t - o mod calign t) mod calign t.

Fixpoint offsets (fs : struct) (o : nat) : list (string * nat) :=
  match fs with
  | [] => []
  | (name, t) :: fs => let o := (o + padding o t)%nat in (name, o) :: offsets fs (o + csize t)%nat
  end.

(** The bytes of a value of the structure; each field is given as the number its bytes
    stand for. *)
Fixpoint encode (fs : struct) (vs : list Z) (o : nat) : list Z :=
  match fs, vs with
  | (_, t) :: fs, v :: vs =>
      replicate (padding o t) 0 ++ to_le (csize t) v ++ encode fs vs (o + padding o t + csize t)%nat
  | _, _ => []
  end.

(** ** The structures *)

Section Structs.
#[local] Open Scope string_scope.

Definition LimineUuid : struct := [("a", U32); ("b", U16); ("c", U16); ("d", Arr U8 8)].

Definition LimineVideoMode : struct :=
  [("pitch", U64); ("width", U64); ("height", U64); ("bpp", U16); ("memory_model", U8); ("red_mask_size", U8); ("red_mask_shift", U8);
   ("green_mask_size", U8); ("green_mask_shift", U8); ("blue_mask_size", U8); ("blue_mask_shift", U8)].

Definition Framebuffer_fields : struct :=
  [("address", Ptr); ("width", U64); ("height", U64); ("pitch", U64); ("bpp", U16); ("memory_model", U8); ("red_mask_size", U8);
   ("red_mask_shift", U8); ("green_mask_size", U8); ("green_mask_shift", U8); ("blue_mask_size", U8); ("blue_mask_shift", U8);
   ("unused", Arr U8 7); ("edid_size", U64); ("edid", Ptr); ("mode_count", U64); ("modes", Ptr)].

Definition LimineFramebufferResponse : struct := [("revision", U64); ("framebuffer_count", U64); ("framebuffers", Ptr)].
Definition LimineFramebufferRequest : struct := [("id", Arr U64 4); ("revision", U64); ("response", Ptr)].

Definition MemmapEntry_fields : struct := [("base", U64); ("length", U64); ("type_", U64)].
Definition LimineMemmapResponse : struct := [("revision", U64); ("entry_count", U64); ("entries", Ptr)].
Definition LimineMemmapRequest : struct := [("id", Arr U64 4); ("revision", U64); ("response", Ptr)].

Definition LimineHhdmResponse : struct := [("revision", U64); ("offset", U64)].
Definition LimineHhdmRequest : struct := [("id", Arr U64 4); ("revision", U64); ("response", Ptr)].

Definition LimineTscFrequencyResponse : struct := [("revision", U64); ("frequency", U64)].
Definition LimineTscFrequencyRequest : struct := [("id", Arr U64 4); ("revision", U64); ("response", Ptr)].

Definition SmpInfo_fields : struct :=
  [("processor_id", U32); ("lapic_id", U32); ("reserved", U64); ("goto_address", Ptr); ("extra_argument", U64)].
Definition SmpResponse_fields : struct := [("revision", U64); ("flags", U32); ("bsp_lapic_id", U32); ("cpu_count", U64); ("cpus", Ptr)].
Definition LimineSmpRequest : struct := [("id", Arr U64 4); ("revision", U64); ("response", Ptr); ("flags", U64)].
End Structs.

(** ** Requests *)

Definition BASE_REVISION : Z := 6.
Definition COMMON_MAGIC : list Z := [0xc7b1dd30df4c8b88; 0x0a82e883a194f07b].
Definition LIMINE_SMP_X2APIC : Z := Z.shiftl 1 0.

(** The statics as the 64-bit words of their sections. *)
Definition LIMINE_REQUESTS_START_MARKER : list Z :=
  [0xf6b8f4b39de7d1ae; 0xfab91a6940fcb9cf; 0x785c6ed015d3e316; 0x181e920a7852b9d9].
Definition LIMINE_BASE_REVISION : list Z := [0xf9562b2d5c95a6c8; 0x6a7b384944536bdc; BASE_REVISION].
Definition FRAMEBUFFER_REQUEST : list Z := COMMON_MAGIC ++ [0x9d5827dcd881dd75; 0xa3148604f6fab11b] ++ [0; 0].
Definition MEMMAP_REQUEST : list Z := COMMON_MAGIC ++ [0x67cf3d9d378a806f; 0xe304acdfc50c3c62] ++ [0; 0].
Definition HHDM_REQUEST : list Z := COMMON_MAGIC ++ [0x48dcf1cb8ad2b852; 0x63984e959a98244b] ++ [0; 0].
Definition TSC_FREQUENCY_REQUEST : list Z := COMMON_MAGIC ++ [0x10f2ee1d87d195e4; 0xf747a2b78f6ddb31] ++ [0; 0].
Definition SMP_REQUEST : list Z := COMMON_MAGIC ++ [0x95a67b819a1b857e; 0xa0b61b723b6a73e0] ++ [0; 0; LIMINE_SMP_X2APIC].
Definition LIMINE_REQUESTS_END_MARKER : list Z := [0xadc0e0531bb10d03; 0x9572709f31764c62].

Definition REQUESTS : list (list Z) := [FRAMEBUFFER_REQUEST; MEMMAP_REQUEST; HHDM_REQUEST; TSC_FREQUENCY_REQUEST; SMP_REQUEST].

(** Word [5] of a request is its [response]. *)
Definition RESPONSE_WORD : nat := 5.

(** The accessors read the field [response] of a static at word [at_] of the image. *)
Definition response_field (image : list Z) (at_ : nat) : Z := default 0 (image !! (at_ + RESPONSE_WORD)%nat).

Record Statics := mkStatics {
  framebuffer_at : nat;
  memmap_at : nat;
  hhdm_at : nat;
  tsc_frequency_at : nat;
  smp_at : nat;
}.

Definition framebuffer_response (image : list Z) (st : Statics) : Z := response_field image (framebuffer_at st).
Definition memmap_response (image : list Z) (st : Statics) : Z := response_field image (memmap_at st).
Definition hhdm_response (image : list Z) (st : Statics) : Z := response_field image (hhdm_at st).
Definition tsc_frequency_response (image : list Z) (st : Statics) : Z := response_field image (tsc_frequency_at st).
Definition smp_response (image : list Z) (st : Statics) : Z := response_field image (smp_at st).

(** ** What the protocol promises *)

(** The words at [i] are the tag of a request. *)
Definition tagged (image : list Z) (i : nat) (tag : list Z) : Prop := take 4 (drop i image) = tag /\ take 2 tag = COMMON_MAGIC.

(** [answer] maps the tags of the features the bootloader has to the addresses of its
    responses. It looks between the markers, stores each address in the sixth word of a
    tagged request, may count the base revision down, and touches nothing else. *)
Class Loader := {
  answer : list Z -> option Z;
  load : list Z -> list Z;
  load_length : forall w, length (load w) = length w;
  load_answered : forall w i tag a, tagged w i tag -> answer tag = Some a -> (i + RESPONSE_WORD < length w)%nat ->
    load w !! (i + RESPONSE_WORD)%nat = Some a;
  load_other : forall w j,
    (forall i tag, tagged w i tag -> is_Some (answer tag) -> j <> (i + RESPONSE_WORD)%nat) ->
    (forall i, take 2 (drop i w) = take 2 LIMINE_BASE_REVISION -> j <> (i + 2)%nat) ->
    load w !! j = w !! j;
}.

(** ** Layout *)

Lemma padding_aligned o t : ((o + padding o t) mod calign t = 0)%nat.
Proof.
  assert (0 < calign t)%nat as Ha by (induction t; cbn; lia). unfold padding.
  pose proof (Nat.mod_upper_bound o (calign t) ltac:(lia)) as Hm. rewrite Nat.Div0.add_mod_idemp_r.
  rewrite (Nat.div_mod o (calign t)) at 1 by lia.
  replace (calign t * (o / calign t) + o mod calign t + (calign t - o mod calign t))%nat with ((o / calign t + 1) * calign t)%nat by nia.
  apply Nat.Div0.mod_mul.
Qed.

(** What the protocol's header says about the structures the kernel reads: where their
    fields are, and that C puts no padding in front of any of them. *)
Lemma limine_offsets :
  (snd <$> offsets Framebuffer_fields 0) = [0; 8; 16; 24; 32; 34; 35; 36; 37; 38; 39; 40; 41; 48; 56; 64; 72]%nat /\
  (snd <$> offsets LimineFramebufferResponse 0) = [0; 8; 16]%nat /\ (snd <$> offsets LimineFramebufferRequest 0) = [0; 32; 40]%nat /\
  (snd <$> offsets MemmapEntry_fields 0) = [0; 8; 16]%nat /\ (snd <$> offsets LimineMemmapResponse 0) = [0; 8; 16]%nat /\
  (snd <$> offsets LimineHhdmResponse 0) = [0; 8]%nat /\ (snd <$> offsets LimineTscFrequencyResponse 0) = [0; 8]%nat /\
  (snd <$> offsets SmpInfo_fields 0) = [0; 4; 8; 16; 24]%nat /\ (snd <$> offsets SmpResponse_fields 0) = [0; 8; 12; 16; 24]%nat /\
  (snd <$> offsets LimineSmpRequest 0) = [0; 32; 40; 48]%nat.
Proof. done. Qed.

(** A field reads as it was written. *)
Lemma struct_roundtrip fs : forall vs o pre k name t off v, length pre = o ->
  fs !! k = Some (name, t) -> offsets fs o !! k = Some (name, off) -> vs !! k = Some v -> 0 <= v < 256 ^ Z.of_nat (csize t) ->
  get_le (Z.of_nat (csize t)) (pre ++ encode fs vs o) (Z.of_nat off) = Ret v.
Proof.
  induction fs as [|[n0 t0] fs IH]; intros vs o pre k name t off v Hpre Hk Hoff Hv Hr; [done|].
  destruct vs as [|v0 vs]; [done|]. cbn [encode offsets] in *. rewrite app_assoc.
  assert (length (pre ++ replicate (padding o t0) 0%Z) = o + padding o t0)%nat as Hp by (rewrite length_app, length_replicate; lia).
  destruct k as [|k]; simplify_eq/=.
  - unfold get_le. rewrite slice_Ret by (unfold blen; rewrite ?length_app, ?to_le_length, ?length_replicate; lia). cbn [obind]. f_equal.
    replace (Z.to_nat (Z.of_nat (length pre + padding (length pre) t) + Z.of_nat (csize t) - Z.of_nat (length pre + padding (length pre) t)))
      with (csize t) by lia. rewrite Nat2Z.id, <- Hp, drop_app_length, take_app_length' by (by rewrite to_le_length).
    rewrite from_le_to_le. by apply Z.mod_small.
  - rewrite app_assoc. apply (IH vs _ _ k name t off v); try done. rewrite length_app, to_le_length, Hp. done.
Qed.

(** ** Each accessor reads the answer to its own request *)

(** The words that start requests and the base revision; they occur nowhere else. *)
Definition CM0 : Z := 0xc7b1dd30df4c8b88.
Definition BR0 : Z := 0xf9562b2d5c95a6c8.

Lemma magic_starts (m : Z) (bs : list (list Z)) : Forall (fun b => (m ∉ drop 1 b)) bs -> forall i, mjoin bs !! i = Some m ->
  exists bs1 b bs2, bs = bs1 ++ b :: bs2 /\ head b = Some m /\ i = length (mjoin bs1).
Proof.
  induction 1 as [|b bs Hb Hbs IH]; intros i Hi; [done|]. change (mjoin (b :: bs)) with (b ++ mjoin bs) in Hi.
  apply lookup_app_Some in Hi as [Hi|[Hge Hi]].
  - exists [], b, bs. split; [done|]. destruct i as [|i].
    + destruct b; [done|]. by simplify_eq/=.
    + exfalso. apply Hb. apply list_elem_of_lookup. exists i. by rewrite lookup_drop.
  - destruct (IH _ Hi) as (bs1 & b' & bs2 & -> & Hh & Hidx). exists (b :: bs1), b', bs2. split; [done|]. split; [done|].
    change (mjoin (b :: bs1)) with (b ++ mjoin bs1). rewrite length_app. lia.
Qed.

(** The section between the markers, its statics in the order the linker put them. *)
Definition section (blocks : list (list Z)) : list Z :=
  LIMINE_REQUESTS_START_MARKER ++ mjoin blocks ++ LIMINE_REQUESTS_END_MARKER.

Definition offset_of (bs1 : list (list Z)) : nat := length (LIMINE_REQUESTS_START_MARKER ++ mjoin bs1).

Definition placed (blocks : list (list Z)) (q : list Z) (at_ : nat) : Prop :=
  exists bs1 bs2, blocks = bs1 ++ q :: bs2 /\ at_ = offset_of bs1.

Definition STATICS : list (list Z) := LIMINE_BASE_REVISION :: REQUESTS.

Ltac each_static Hb := repeat (apply elem_of_cons in Hb as [->|Hb]; [first [exact I | done | cbn; lia]|]); by apply elem_of_nil in Hb.

Lemma section_drop blocks q at_ : placed blocks q at_ -> exists rest, drop at_ (section blocks) = q ++ rest.
Proof.
  intros (bs1 & bs2 & -> & ->). unfold section, offset_of. exists (mjoin bs2 ++ LIMINE_REQUESTS_END_MARKER).
  rewrite join_app. change (mjoin (q :: bs2)) with (q ++ mjoin bs2). rewrite !app_assoc. rewrite <- (app_assoc _ q), <- (app_assoc _ (q ++ _)).
  rewrite drop_app_length. by rewrite <- !app_assoc.
Qed.

(** A word of the section that starts a static, outside of the markers. *)
Lemma start_placed m blocks i : blocks ≡ₚ STATICS -> m = CM0 \/ m = BR0 -> section blocks !! i = Some m ->
  exists q, q ∈ STATICS /\ placed blocks q i /\ head q = Some m.
Proof.
  intros Hperm Hm Hi. assert ((Forall (fun b => (m ∉ drop 1 b)) blocks) /\ (m ∉ LIMINE_REQUESTS_START_MARKER) /\ (m ∉ LIMINE_REQUESTS_END_MARKER)) as (Hg & Hs & He).
  { rewrite Hperm. destruct Hm as [->| ->]; (split; [|split; eapply bool_decide_unpack; exact I]); apply Forall_forall; intros b Hb;
      [apply (bool_decide_unpack (CM0 ∉ drop 1 b))|apply (bool_decide_unpack (BR0 ∉ drop 1 b))]; each_static Hb. }
  unfold section in Hi. apply lookup_app_Some in Hi as [Hi|[Hge Hi]]; [by apply list_elem_of_lookup_2 in Hi|].
  apply lookup_app_Some in Hi as [Hi|[_ Hi]]; [|by apply list_elem_of_lookup_2 in Hi].
  destruct (magic_starts _ _ Hg _ Hi) as (bs1 & q & bs2 & Hbs & Hh & Hidx). exists q.
  split; [rewrite <- Hperm, Hbs; apply elem_of_app; right; apply list_elem_of_here|]. split; [|done]. exists bs1, bs2. split; [done|]. unfold offset_of. rewrite length_app. lia.
Qed.

Lemma head_lookup (w : list Z) i n l a : take (S n) (drop i w) = a :: l -> w !! i = Some a.
Proof.
  intros H. assert (drop i w !! 0%nat = Some a) as H0 by (destruct (drop i w); [done|]; cbn [take] in H; by injection H as -> _).
  by rewrite lookup_drop, Nat.add_0_r in H0.
Qed.

(** The tags in the section are those of the requests, where they are. *)
Lemma tagged_placed blocks i tag : blocks ≡ₚ STATICS -> tagged (section blocks) i tag ->
  exists q, q ∈ REQUESTS /\ placed blocks q i /\ tag = take 4 q.
Proof.
  intros Hperm [Htag Hmagic]. destruct tag as [|a tag]; [done|]. assert (a = CM0) as ->.
  { destruct tag as [|b tag]; [done|]. unfold COMMON_MAGIC in Hmagic. cbn [take] in Hmagic. injection Hmagic as -> _. done. }
  destruct (start_placed CM0 blocks i Hperm (or_introl eq_refl) (head_lookup _ _ _ _ _ Htag)) as (q & Hq & Hpl & Hh).
  apply elem_of_cons in Hq as [->|Hq]; [done|]. exists q. split; [done|]. split; [done|].
  destruct (section_drop _ _ _ Hpl) as [rest Hd]. rewrite Hd in Htag. rewrite <- Htag. rewrite take_app_le; [done|].
  clear - Hq. each_static Hq.
Qed.

Lemma base_placed blocks i : blocks ≡ₚ STATICS -> take 2 (drop i (section blocks)) = take 2 LIMINE_BASE_REVISION ->
  placed blocks LIMINE_BASE_REVISION i.
Proof.
  intros Hperm Hb. destruct (start_placed BR0 blocks i Hperm (or_intror eq_refl) (head_lookup _ _ _ _ _ Hb)) as (q & Hq & Hpl & Hh).
  apply elem_of_cons in Hq as [->|Hq]; [done|]. exfalso. clear - Hq Hh. each_static Hq.
Qed.

(** Statics do not overlap. *)
Lemma placed_apart blocks p q i j k l : placed blocks p i -> placed blocks q j -> (k < length p)%nat -> (l < length q)%nat ->
  (i + k = j + l)%nat -> p = q.
Proof.
  intros (a1 & a2 & Ea & ->) (b1 & b2 & Eb & ->) Hk Hl Heq. unfold offset_of in Heq. rewrite !length_app in Heq.
  assert (forall x1 (x : list Z) x2 y1 y y2, x1 ++ x :: x2 = y1 ++ y :: y2 -> (length x1 < length y1)%nat ->
    (length (mjoin x1) + length x <= length (mjoin y1))%nat) as Hlt.
  { clear. induction x1 as [|c x1 IH]; intros x x2 y1 y y2 E Hl; destruct y1 as [|d y1]; cbn [length] in Hl; try lia; cbn [app] in E; injection E as -> E.
    - change (mjoin (d :: y1)) with (d ++ mjoin y1). rewrite length_app. cbn. lia.
    - change (mjoin (d :: x1)) with (d ++ mjoin x1). change (mjoin (d :: y1)) with (d ++ mjoin y1). rewrite !length_app.
      pose proof (IH _ _ _ _ _ E ltac:(lia)). lia. }
  rewrite Ea in Eb. destruct (Nat.lt_total (length a1) (length b1)) as [H|[H|H]].
  - pose proof (Hlt _ _ _ _ _ _ Eb H). lia.
  - by apply app_inj_1 in Eb as [_ [= -> _]].
  - pose proof (Hlt _ _ _ _ _ _ (eq_sym Eb) H). lia.
Qed.

Lemma response_routed {L : Loader} blocks q i : blocks ≡ₚ STATICS -> q ∈ REQUESTS -> placed blocks q i ->
  response_field (load (section blocks)) i = default 0 (answer (take 4 q)).
Proof.
  intros Hperm Hq Hpl. destruct (section_drop _ _ _ Hpl) as [rest Hd].
  assert ((6 <= length q)%nat /\ q !! RESPONSE_WORD = Some 0 /\ take 2 q = COMMON_MAGIC) as (Hlen & H5 & Hcm).
  { clear - Hq. repeat (apply elem_of_cons in Hq as [->|Hq]; [split; [cbn; lia|done]|]). by apply elem_of_nil in Hq. }
  assert (section blocks !! (i + RESPONSE_WORD)%nat = Some 0) as Hw.
  { rewrite <- lookup_drop, Hd. by apply lookup_app_l_Some. }
  unfold response_field. destruct (answer (take 4 q)) as [a|] eqn:Ha.
  - erewrite load_answered; [reflexivity| |exact Ha|by eapply lookup_lt_Some].
    split; [by rewrite Hd, take_app_le by lia|]. rewrite take_take. exact Hcm.
  - rewrite load_other, Hw; [done| |].
    + intros j tag Htag Hs Heq. destruct (tagged_placed _ _ _ Hperm Htag) as (q' & _ & Hpl' & ->). assert (j = i) as -> by lia.
      destruct (section_drop _ _ _ Hpl') as [rest' Hd']. destruct Htag as [Htag _]. rewrite Hd, take_app_le in Htag by lia.
      rewrite <- Htag, Ha in Hs. by destruct Hs.
    + intros j Hb Heq. pose proof (base_placed _ _ Hperm Hb) as Hpb.
      assert (q = LIMINE_BASE_REVISION) as -> by (apply (placed_apart blocks q LIMINE_BASE_REVISION i j RESPONSE_WORD 2 Hpl Hpb); [unfold RESPONSE_WORD; lia|cbn; lia|lia]).
      clear - Hlen. cbn in Hlen. lia.
Qed.

(** Where the statics are. *)
Record placed_statics (blocks : list (list Z)) (st : Statics) : Prop := {
  ps_framebuffer : placed blocks FRAMEBUFFER_REQUEST (framebuffer_at st);
  ps_memmap : placed blocks MEMMAP_REQUEST (memmap_at st);
  ps_hhdm : placed blocks HHDM_REQUEST (hhdm_at st);
  ps_tsc : placed blocks TSC_FREQUENCY_REQUEST (tsc_frequency_at st);
  ps_smp : placed blocks SMP_REQUEST (smp_at st);
}.

(** C21: Every answer reaches the accessor that asks for it. In whatever order the linker puts
    the requests and the base revision between the markers, a bootloader that keeps the
    protocol finds exactly the five requests: after it has run each accessor returns the
    address of the response to its own request, or null when the bootloader does not have
    the feature, and the five requests ask for different features. *)
Theorem requests_answered {L : Loader} (blocks : list (list Z)) (st : Statics)
    (Hperm : blocks ≡ₚ STATICS) (Hst : placed_statics blocks st) :
  let image := load (section blocks) in
  framebuffer_response image st = default 0 (answer (take 4 FRAMEBUFFER_REQUEST)) /\
  memmap_response image st = default 0 (answer (take 4 MEMMAP_REQUEST)) /\
  hhdm_response image st = default 0 (answer (take 4 HHDM_REQUEST)) /\
  tsc_frequency_response image st = default 0 (answer (take 4 TSC_FREQUENCY_REQUEST)) /\
  smp_response image st = default 0 (answer (take 4 SMP_REQUEST)) /\
  NoDup (take 4 <$> REQUESTS).
Proof.
  destruct Hst. split_and!; [..|apply (bool_decide_unpack (NoDup (take 4 <$> REQUESTS))); exact I];
    apply (response_routed blocks); try done; apply (bool_decide_unpack (_ ∈ REQUESTS)); exact I.
Qed.

(** ** Witness *)

(** A bootloader that has every feature but the frequency of the counter. *)
Definition sample_answer (tag : list Z) : option Z :=
  if bool_decide (tag = take 4 FRAMEBUFFER_REQUEST) then Some 0x1000
  else if bool_decide (tag = take 4 MEMMAP_REQUEST) then Some 0x2000
  else if bool_decide (tag = take 4 HHDM_REQUEST) then Some 0x3000
  else if bool_decide (tag = take 4 SMP_REQUEST) then Some 0x4000
  else None.

Definition sample_word (w : list Z) (j : nat) (x : Z) : Z :=
  if bool_decide (RESPONSE_WORD <= j)%nat then default x (sample_answer (take 4 (drop (j - RESPONSE_WORD) w))) else x.

Definition sample_load (w : list Z) : list Z := imap (sample_word w) w.

Lemma sample_answer_magic tag a : sample_answer tag = Some a -> take 2 tag = COMMON_MAGIC.
Proof. unfold sample_answer. do 4 (case_bool_decide as E; [intros _; rewrite E; reflexivity|clear E]). discriminate. Qed.

Definition sample_loader : Loader.
Proof.
  refine {| answer := sample_answer; load := sample_load |}.
  - intros w. apply length_imap.
  - intros w i tag a [Ht _] Ha Hl. unfold sample_load. rewrite list_lookup_imap.
    destruct (lookup_lt_is_Some_2 w _ Hl) as [x Hx]. rewrite Hx. cbn. f_equal. unfold sample_word. rewrite bool_decide_true by (unfold RESPONSE_WORD; lia).
    replace (i + RESPONSE_WORD - RESPONSE_WORD)%nat with i by lia. by rewrite Ht, Ha.
  - intros w j Hj _. unfold sample_load. rewrite list_lookup_imap. destruct (w !! j) as [x|]; [|done]. cbn. f_equal. unfold sample_word.
    case_bool_decide as Hge; [|done]. destruct (sample_answer (take 4 (drop (j - RESPONSE_WORD) w))) as [a|] eqn:Ha; [|done]. exfalso.
    refine (Hj (j - RESPONSE_WORD)%nat _ (conj eq_refl _) _ _); [by eapply sample_answer_magic|by rewrite Ha|lia].
Defined.

(** The linker puts the base revision in the middle. *)
Definition sample_blocks : list (list Z) :=
  [SMP_REQUEST; HHDM_REQUEST; LIMINE_BASE_REVISION; FRAMEBUFFER_REQUEST; TSC_FREQUENCY_REQUEST; MEMMAP_REQUEST].
Definition sample_statics : Statics := mkStatics 20 32 11 26 4.

Lemma requests_answered_witness :
  let image := @load sample_loader (section sample_blocks) in
  framebuffer_response image sample_statics = 0x1000 /\ tsc_frequency_response image sample_statics = 0.
Proof.
  destruct (@requests_answered sample_loader sample_blocks sample_statics) as (Hf & _ & _ & Ht & _).
  - apply (bool_decide_unpack (sample_blocks ≡ₚ STATICS)). vm_compute. exact I.
  - split; [exists (take 3 sample_blocks), (drop 4 sample_blocks)|exists (take 5 sample_blocks), (drop 6 sample_blocks)
           |exists (take 1 sample_blocks), (drop 2 sample_blocks)|exists (take 4 sample_blocks), (drop 5 sample_blocks)
           |exists (take 0 sample_blocks), (drop 1 sample_blocks)]; split; reflexivity.
  - split; [exact Hf|exact Ht].
Defined.
