(* ===== verification/Gpt.v ===== *)
(** * GUID partition tables ([src/src/gpt.rs])

    [detect] parses the table of a disk and caches it; a cached entry is a
    window over its disk and a [BlockDevice] of its own. The disks are used
    through the interface [Disks]. *)

From S2P Require Import Prelude Block Crc.
From stdpp Require Import list.
#[local] Open Scope Z_scope.

Definition SECTOR_SIZE : Z := 512.
Definition GPT_SIGNATURE : list Z := [0x45; 0x46; 0x49; 0x20; 0x50; 0x41; 0x52; 0x54].
Definition MAX_PARTITIONS : Z := 16.

Record GptPartition := mkPart {
  disk : Z;
  start_lba : Z;
  last_lba : Z;
  type_guid : list Z;
  guid : list Z;
  name : list Z;
}.

Definition LINUX_TYPE : list Z :=
  [0xAF; 0x3D; 0xC6; 0x0F; 0x83; 0x84; 0x72; 0x47; 0x8E; 0x79; 0x3D; 0x69; 0xD8; 0x47; 0x7D; 0xE4].

Definition type_is_linux (p : GptPartition) : bool := bool_decide (type_guid p = LINUX_TYPE).

Record GptDisk := mkGptDisk {
  parsed : bool;
  part_count : Z;
  entries_lba : Z;
  num_entries : Z;
  entry_size : Z;
  parts : list GptPartition;
}.

Definition EMPTY (d : Z) : GptPartition := mkPart d 0 0 (zeros 16) (zeros 16) (zeros 72).
Definition EMPTY_DISK : GptDisk := mkGptDisk false 0 0 0 0 (replicate 16 (EMPTY 0)).

Definition gpt_crc (data : list Z) : Z := Z.lxor (crc32 0xFFFFFFFF data) 0xFFFFFFFF.

Definition u32le (b : list Z) (off : Z) : outcome Z := get_le 4 b off.
Definition u64le (b : list Z) (off : Z) : outcome Z := get_le 8 b off.

Section Gpt.
Context {S : Type} `{DS : Disks S}.

(** The disks and the static [GPT_DISKS]. *)
Record Gpt := mkGpt {
  host : S;
  gpt_disks : list GptDisk;
}.

(** [ahci::read] and the like: [false] is [None]. *)
Definition on_host {A} (m : M S A) : M Gpt A := fun s =>
  match m (host s) with
  | Ret (a, h) => Ret (a, mkGpt h (gpt_disks s))
  | Panic => Panic
  | OutOfFuel => OutOfFuel
  end.

(** The loop variables: the partitions found, their number, the entries seen. *)
Definition scan : Type := list GptPartition * Z * Z.

(** A used entry, written to the next free element of [parts]. *)
Definition record_entry (d size : Z) (e : list Z) (acc : scan) : outcome scan :=
  let '(ps, count, index) := acc in
  let! g := slice e 0 16 in
  if forallb (fun b => b =? 0) g then Ret acc else
  let! start := u64le e 32 in
  let! last := u64le e 40 in
  if (start =? 0) || (last <? start) || (MAX_PARTITIONS <=? count) then Ret acc else
  let! u := slice e 16 32 in
  let name_len := Z.min (Z.max 0 (size - 56)) 72 in
  let! n := (if 0 <? name_len then slice e 56 (56 + name_len) else Ret []) in
  let! nm := splice (zeros 72) 0 n in
  Ret (<[Z.to_nat count := mkPart d start last g u nm]> ps, count + 1, index).

(** One slot of a sector of entries; leaves the loop after the last entry. *)
Definition parse_slot (d total size : Z) (esec : list Z) (slot : Z) (acc : scan)
    : outcome (flow scan scan) :=
  let '(ps, count, index) := acc in
  if total <=? index then Ret (Exit acc) else
  let off := slot * size in
  let! e := slice esec off (off + size) in
  let! acc := record_entry d size e (ps, count, index + 1) in
  Ret (Next acc).

Definition parse_sector (d total size : Z) (esec : list Z) (acc : scan) : outcome scan :=
  let! r := ofor (Z.to_nat (512 / size)) 0 (parse_slot d total size esec) acc in
  match r with
  | Next acc => Ret acc
  | Exit acc => Ret acc
  end.

(** One sector of the entry array: read it, hash it, parse it. A failed read
    leaves [detect] with [false]. *)
Definition scan_sector (d lba total size bytes : Z) (s : Z) (acc : Z * scan)
    : M Gpt (flow (Z * scan) unit) :=
  let '(crc_acc, sc) := acc in
  at_ <-! chk 64 (lba + s) ;;
  r <- on_host (disk_read d at_ 512) ;;
  match r with
  | None => sret (Exit tt)
  | Some esec =>
      remaining <-! chk 64 (bytes - s * 512) ;;
      data <-! slice esec 0 (Z.min remaining 512) ;;
      sc <-! parse_sector d total size esec sc ;;
      sret (Next (crc32 crc_acc data, sc))
  end.

Definition detect (d : Z) : M Gpt bool :=
  if 8 <=? d then sret false else
  r <- on_host (disk_read d 1 512) ;;
  match r with
  | None => sret false
  | Some sector =>
  sig <-! slice sector 0 8 ;;
  if negb (bool_decide (sig = GPT_SIGNATURE)) then sret false else
  header_size <-! u32le sector 12 ;;
  header_crc <-! u32le sector 16 ;;
  lba <-! u64le sector 72 ;;
  total <-! u32le sector 80 ;;
  size <-! u32le sector 84 ;;
  if (header_size <? 92) || (total =? 0) || (size <? 128) then sret false else
  crc_buf <-! splice sector 16 (zeros 4) ;;
  header <-! slice crc_buf 0 header_size ;;
  if negb (gpt_crc header =? header_crc) then sret false else
  if (size =? 0) || (512 <? size) || negb (512 mod size =? 0) then sret false else
  bytes <-! chk 64 (total * size) ;;
  let sectors := (bytes + 511) / 512 in
  entry_crc <-! u32le sector 88 ;;
  r <- for_loop (Z.to_nat sectors) 0 (scan_sector d lba total size bytes)
         (0xFFFFFFFF, (replicate 16 (EMPTY d), 0, 0)) ;;
  match r with
  | Exit _ => sret false
  | Next (crc_acc, (ps, count, _)) =>
      if negb (Z.lxor crc_acc 0xFFFFFFFF =? entry_crc) then sret false else
      _ <- smodify (fun s => mkGpt (host s)
             (<[Z.to_nat d := mkGptDisk true count lba total size ps]> (gpt_disks s))) ;;
      sret true
  end
  end.

Definition partition_count (d : Z) (s : Gpt) : outcome Z :=
  if 8 <=? d then Ret 0 else
  match gpt_disks s !! Z.to_nat d with
  | None => Panic
  | Some g => Ret (if parsed g then part_count g else 0)
  end.

Definition partition (d index : Z) (s : Gpt) : outcome (option GptPartition) :=
  if 8 <=? d then Ret None else
  match gpt_disks s !! Z.to_nat d with
  | None => Panic
  | Some g =>
      if negb (parsed g) || (part_count g <=? index) then Ret None else
      match parts g !! Z.to_nat index with
      | Some p => Ret (Some p)
      | None => Panic
      end
  end.

(** ** A partition as a block device: the entry and the disks below it. *)
Record Window := mkWindow {
  part : GptPartition;
  below : S;
}.

Definition gp_block_count (w : Window) : outcome Z :=
  let! span := chk 64 (last_lba (part w) - start_lba (part w)) in chk 64 (span + 1).

Definition gp_block_size (w : Window) : Z := SECTOR_SIZE.

(** The range check common to reads and writes; the absolute sector. *)
Definition gp_locate (w : Window) (lba n : Z) : outcome (res Z) :=
  if negb (n mod 512 =? 0) then Ret (Err Io) else
  let sectors := n / 512 in
  let! fin := chk 64 (lba + sectors) in
  let! count := gp_block_count w in
  if count <? fin then Ret (Err Io) else
  let! at_ := chk 64 (start_lba (part w) + lba) in
  Ret (Ok at_).

Definition on_below {A} (m : M S A) : M Window A := fun w =>
  match m (below w) with
  | Ret (a, h) => Ret (a, mkWindow (part w) h)
  | Panic => Panic
  | OutOfFuel => OutOfFuel
  end.

Definition gp_read_blocks (lba n : Z) : M Window (res (list Z)) :=
  w <- sget ;;
  at_ <-? slift (gp_locate w lba n) ;;
  r <- on_below (disk_read (disk (part w)) at_ n) ;;
  sret (match r with Some b => Ok b | None => Err Io end).

Definition gp_write_blocks (lba : Z) (buf : list Z) : M Window (res unit) :=
  w <- sget ;;
  at_ <-? slift (gp_locate w lba (blen buf)) ;;
  r <- on_below (disk_write (disk (part w)) at_ buf) ;;
  sret (if r : bool then Ok tt else Err Io).

Definition gp_flush : M Window (res unit) :=
  w <- sget ;;
  r <- on_below (disk_flush (disk (part w))) ;;
  sret (if r : bool then Ok tt else Err Io).

#[export] Instance Gpt_device : BlockDevice Window := {
  block_count := gp_block_count;
  block_size := gp_block_size;
  read_blocks := gp_read_blocks;
  write_blocks := gp_write_blocks;
  flush := gp_flush;
}.

(** ** Windows *)

(** What [detect] guarantees of an entry (see [detect_correct]). *)
Definition part_ok (p : GptPartition) : Prop :=
  0 <= disk p /\ 1 <= start_lba p <= last_lba p /\ last_lba p + 1 < 2 ^ 64.

(** The sectors of the window. *)
Definition sectors_of (p : GptPartition) : Z := last_lba p - start_lba p + 1.

Definition window (p : GptPartition) (img : list Z) : list Z :=
  take (Z.to_nat (512 * sectors_of p)) (drop (Z.to_nat (512 * start_lba p)) img).

Lemma window_lookup p img k :
  part_ok p -> (Z.of_nat k < 512 * sectors_of p) ->
  window p img !! k = img !! (Z.to_nat (512 * start_lba p) + k)%nat.
Proof. intros Hp Hk. unfold window. rewrite lookup_take_lt by lia. apply lookup_drop. Qed.

Lemma window_length p img :
  part_ok p -> blen (window p img) =
    Z.min (512 * sectors_of p) (Z.max 0 (blen img - 512 * start_lba p)).
Proof.
  intros (?&?&?). unfold window, blen, sectors_of. rewrite length_take, length_drop. lia.
Qed.

Lemma window_slice p img lba n b :
  part_ok p -> 0 <= lba -> 0 <= n -> 512 * lba + n <= 512 * sectors_of p ->
  slice img (512 * (start_lba p + lba)) (512 * (start_lba p + lba) + n) = Ret b ->
  slice (window p img) (512 * lba) (512 * lba + n) = Ret b.
Proof.
  intros Hp Hlba Hn Hin Hs. pose proof (slice_inv _ _ _ _ Hs) as (?&?&->).
  rewrite slice_Ret; [|lia|rewrite window_length by done; lia].
  f_equal. apply list_eq. intros k. destruct Hp as (?&?&?).
  destruct (decide (Z.of_nat k < n)).
  - rewrite !lookup_take_lt, !lookup_drop by lia. rewrite window_lookup by (done || lia).
    f_equal. lia.
  - rewrite !lookup_take_ge by lia. done.
Qed.

Lemma window_splice p img lba b img' :
  part_ok p -> 0 <= lba -> 512 * lba + blen b <= 512 * sectors_of p ->
  splice img (512 * (start_lba p + lba)) b = Ret img' ->
  splice (window p img) (512 * lba) b = Ret (window p img').
Proof.
  intros Hp Hlba Hin Hs. pose proof (splice_inv _ _ _ _ Hs) as (Hlo&Hhi&_).
  pose proof (splice_blen _ _ _ _ Hs) as Hlen.
  destruct (splice (window p img) (512 * lba) b) as [w| |] eqn:Hw.
  2,3: rewrite splice_Ret in Hw; [done|lia|rewrite window_length by done; lia].
  f_equal. apply list_eq. intros k. pose proof (splice_len _ _ _ _ Hw) as Hwl.
  assert (length (window p img') = length w) as Hl.
  { pose proof (window_length p img Hp). pose proof (window_length p img' Hp).
    unfold blen in *. lia. }
  assert (0 <= 512 * sectors_of p) by (destruct Hp as (?&?&?); unfold sectors_of; lia).
  destruct (decide (Z.of_nat k < 512 * sectors_of p)).
  2: { rewrite !lookup_ge_None_2; [done|..].
    - pose proof (window_length p img' Hp). unfold blen in *. lia.
    - pose proof (window_length p img Hp). unfold blen in *. lia. }
  rewrite window_lookup by done. destruct Hp as (?&?&?).
  destruct (decide (512 * lba <= Z.of_nat k < 512 * lba + blen b)) as [Hk|Hk].
  - replace k with (Z.to_nat (512 * lba) + (k - Z.to_nat (512 * lba)))%nat by lia.
    rewrite (splice_lookup_in _ _ _ _ _ Hw) by (unfold blen in *; lia).
    replace (Z.to_nat (512 * start_lba p) + (Z.to_nat (512 * lba) + (k - Z.to_nat (512 * lba))))%nat
      with (Z.to_nat (512 * (start_lba p + lba)) + (k - Z.to_nat (512 * lba)))%nat by lia.
    symmetry. apply (splice_lookup_in _ _ _ _ _ Hs). unfold blen in *. lia.
  - rewrite (splice_lookup_out _ _ _ _ _ Hw) by (unfold blen in *; lia).
    rewrite (splice_lookup_out _ _ _ _ _ Hs) by (unfold blen in *; lia).
    apply window_lookup; [done|lia].
Qed.

Lemma window_outside p img img' lba n :
  part_ok p -> 0 <= lba -> 0 <= n -> 512 * lba + n <= 512 * sectors_of p ->
  same_outside img img' (512 * (start_lba p + lba)) (512 * (start_lba p + lba) + n) ->
  same_outside (window p img) (window p img') (512 * lba) (512 * lba + n).
Proof.
  intros Hp Hlba Hn Hin [Hlen Hout]. split.
  - pose proof (window_length p img Hp). pose proof (window_length p img' Hp).
    unfold blen in *. rewrite Hlen in *. lia.
  - intros k Hk. destruct (decide (Z.of_nat k < 512 * sectors_of p)).
    + rewrite !window_lookup by done. apply Hout. destruct Hp as (?&?&?). lia.
    + unfold window. rewrite !lookup_take_ge by lia. done.
Qed.

(** The range check admits exactly the ranges inside the window. *)
Lemma gp_locate_spec w lba n :
  part_ok (part w) -> 0 <= lba -> 0 <= n -> lba + n / 512 < 2 ^ 64 ->
  gp_locate w lba n =
  Ret (if (n mod 512 =? 0) && (lba + n / 512 <=? sectors_of (part w))
       then Ok (start_lba (part w) + lba) else Err Io).
Proof.
  intros (?&?&?) Hlba Hn Hov. unfold gp_locate, gp_block_count, sectors_of.
  destruct (n mod 512 =? 0) eqn:E; cbn [negb andb]; [|done].
  rewrite chk_Ret by lia. cbn [obind]. rewrite chk_Ret by lia. cbn [obind].
  rewrite chk_Ret by lia. cbn [obind].
  destruct (Z.ltb_spec (last_lba (part w) - start_lba (part w) + 1) (lba + n / 512)).
  - by rewrite (proj2 (Z.leb_gt _ _)) by lia.
  - rewrite (proj2 (Z.leb_le _ _)) by lia. by rewrite chk_Ret by lia.
Qed.

#[export, refine] Instance Gpt_laws : BlockLaws Window := {
  bd_ok := fun w => dk_ok (below w) /\ part_ok (part w);
  bd_image := fun w => window (part w) (dk_image (below w) (disk (part w)));
}.
Proof.
  - intros w [Hw _]. apply Forall_take, Forall_drop, dk_bytes, Hw.
  - intros w lba n [Hw Hp] Hlba [Hn Hn64] Hov. unfold read_blocks, Gpt_device, gp_read_blocks.
    rewrite (sbind_Ret _ _ w w w) by done.
    rewrite gp_locate_spec by done. unfold slift, qbind. rewrite (sbind_Ret _ _ w _ w eq_refl).
    destruct (n mod 512 =? 0) eqn:E1; cbn [andb]; [|by exists (Err Io), w].
    destruct (Z.leb_spec (lba + n / 512) (sectors_of (part w))) as [Hle|]; [|by exists (Err Io), w].
    assert (512 * lba + n <= 512 * sectors_of (part w)) as Hin by (zify_bool; lia).
    pose proof Hp as (?&?&?). unfold on_below, sbind.
    destruct (dk_read (below w) (disk (part w)) (start_lba (part w) + lba) n) as (r & s' & -> & Hs' & Himg & Hr);
      [done..|unfold sectors_of in *; lia|lia|].
    eexists _, _. split; [reflexivity|]. cbn [part below]. rewrite Himg. split_and!; try done.
    destruct r; [|done]. by apply window_slice.
  - intros w lba b [Hw Hp] Hlba Hb64 Hov Hb. unfold write_blocks, Gpt_device, gp_write_blocks.
    pose proof (blen_nonneg b) as Hn.
    rewrite (sbind_Ret _ _ w w w) by done.
    rewrite gp_locate_spec by done. unfold slift, qbind. rewrite (sbind_Ret _ _ w _ w eq_refl).
    destruct (blen b mod 512 =? 0) eqn:E1; cbn [andb];
      [|exists (Err Io), w; split_and!; try done; apply same_outside_refl].
    destruct (Z.leb_spec (lba + blen b / 512) (sectors_of (part w))) as [Hle|];
      [|exists (Err Io), w; split_and!; try done; apply same_outside_refl].
    assert (512 * lba + blen b <= 512 * sectors_of (part w)) as Hin by (zify_bool; lia).
    pose proof Hp as (?&?&?). unfold on_below, sbind.
    destruct (dk_write (below w) (disk (part w)) (start_lba (part w) + lba) b) as (r & s' & -> & Hs' & Hother & Hr);
      [done..|unfold sectors_of in *; lia|done|done|].
    eexists _, _. split; [reflexivity|]. cbn [part below]. split; [done|].
    destruct r; [by apply window_splice|by apply window_outside].
  - intros w [Hw Hp]. unfold flush, Gpt_device, gp_flush. rewrite (sbind_Ret _ _ w w w) by done.
    destruct (dk_flush (below w) (disk (part w)) Hw) as (r & s' & Hrun & Hs' & Himg); [apply Hp|].
    unfold on_below, sbind. rewrite Hrun. eexists _, _. split; [reflexivity|]. cbn [part below].
    by rewrite Himg.
Defined.

(** ** Parsing *)

(** The partitions recorded so far. *)
Definition scan_ok (d : Z) (acc : scan) : Prop :=
  let '(ps, count, index) := acc in
  length ps = 16%nat /\ 0 <= count <= 16 /\ 0 <= index /\
  forall j p, Z.of_nat j < count -> ps !! j = Some p ->
    disk p = d /\ 1 <= start_lba p <= last_lba p /\ last_lba p < 2 ^ 64.

Lemma record_entry_spec d size e acc :
  128 <= size -> blen e = size -> bytes_ok e -> scan_ok d acc ->
  exists acc', record_entry d size e acc = Ret acc' /\ scan_ok d acc'.
Proof.
  intros Hsz Hlen He Hacc. destruct acc as [[ps count] index].
  destruct Hacc as (Hps & Hcount & Hindex & Hparts). unfold record_entry.
  rewrite slice_Ret by lia. cbn [obind]. case_test; [by eexists|].
  destruct (get_le_Ret 8 e 32) as (start & Hst & Hstr); [lia..|].
  destruct (get_le_Ret 8 e 40) as (last & Hla & Hlar); [lia..|].
  unfold u64le. rewrite Hst, Hla. cbn [obind]. specialize (Hstr He). specialize (Hlar He).
  case_test; [by eexists|]. unfold MAX_PARTITIONS in *.
  rewrite slice_Ret by lia. cbn [obind].
  rewrite (proj2 (Z.ltb_lt 0 _)) by lia. rewrite slice_Ret by lia. cbn [obind].
  rewrite splice_Ret; [|lia|].
  2: { rewrite blen_zeros by lia. unfold blen at 1. rewrite length_take, length_drop. unfold blen in Hlen. lia. }
  cbn [obind]. eexists. split; [done|]. split_and!; [by rewrite length_insert|lia|lia|lia|].
  intros j p Hj Hp. apply list_lookup_insert_Some in Hp as [(<- & <- & _)|[Hne Hp]].
  - cbn. zify_bool. lia.
  - apply (Hparts j p); [lia|done].
Qed.

Lemma parse_sector_spec d total size esec acc :
  128 <= size <= 512 -> 512 mod size = 0 -> blen esec = 512 -> bytes_ok esec -> scan_ok d acc ->
  exists acc', parse_sector d total size esec acc = Ret acc' /\ scan_ok d acc'.
Proof.
  intros Hsz Hdiv Hlen Hb Hacc. unfold parse_sector.
  destruct (ofor_cases (fun _ => scan_ok d) (scan_ok d) (Z.to_nat (512 / size)) 0
    (parse_slot d total size esec) acc Hacc) as (f & -> & Hf).
  - intros j [[ps count] index] Hj Hok. unfold parse_slot.
    destruct (total <=? index); [by eexists|].
    assert (j * size + size <= 512) as Hin by nia.
    destruct (slice esec (j * size) (j * size + size)) as [e| |] eqn:He.
    2,3: by rewrite slice_Ret in He by nia.
    cbn [obind].
    destruct (record_entry_spec d size e (ps, count, index + 1)) as (acc' & -> & Hacc').
    + lia.
    + apply slice_len in He. lia.
    + by eapply slice_bytes.
    + destruct Hok as (?&?&?&?). split_and!; try done; lia.
    + by eexists.
  - cbn [obind]. destruct f; by eexists.
Qed.

(** ** Detecting a table *)

Lemma on_host_read s d lba n :
  dk_ok (host s) -> 0 <= d -> 0 <= lba < 2 ^ 64 -> 0 <= n < 2 ^ 64 ->
  exists r s', on_host (disk_read d lba n) s = Ret (r, s') /\ dk_ok (host s') /\
    (forall j, dk_image (host s') j = dk_image (host s) j) /\ gpt_disks s' = gpt_disks s /\
    match r with
    | Some b => slice (dk_image (host s) d) (512 * lba) (512 * lba + n) = Ret b
    | None => True
    end.
Proof.
  intros Hs Hd Hlba Hn. unfold on_host.
  destruct (dk_read (host s) d lba n Hs Hd Hlba Hn) as (r & h & -> & Hh & Himg & Hr).
  exists r, (mkGpt h (gpt_disks s)). by split_and!.
Qed.

(** The disk contents stay as they are, and so does the cache. *)
Definition undisturbed (s t : Gpt) : Prop :=
  dk_ok (host t) /\ (forall j, dk_image (host t) j = dk_image (host s) j) /\ gpt_disks t = gpt_disks s.

Lemma scan_spec s d lba total size :
  dk_ok (host s) -> 0 <= d -> 0 <= lba < 2 ^ 63 -> 0 < total < 2 ^ 32 -> 128 <= size <= 512 ->
  512 mod size = 0 ->
  let bytes := total * size in
  exists f s', for_loop (Z.to_nat ((bytes + 511) / 512)) 0 (scan_sector d lba total size bytes)
      (0xFFFFFFFF, (replicate 16 (EMPTY d), 0, 0)) s = Ret (f, s') /\ undisturbed s s' /\
    match f with
    | Next (crc_acc, sc) => scan_ok d sc /\ exists entries,
        slice (dk_image (host s) d) (512 * lba) (512 * lba + bytes) = Ret entries /\
        crc_acc = crc32 0xFFFFFFFF entries
    | Exit _ => True
    end.
Proof.
  intros Hs Hd Hlba Htot Hsz Hdiv bytes. assert (0 < bytes <= 2 ^ 41) as Hbytes by (unfold bytes; nia).
  destruct (for_loop_cases (fun j acc t => undisturbed s t /\ scan_ok d acc.2 /\ exists es,
      acc.1 = crc32 0xFFFFFFFF es /\ ((j = 0 /\ es = []) \/
      slice (dk_image (host s) d) (512 * lba) (512 * lba + Z.min (512 * j) bytes) = Ret es))
    (fun _ t => undisturbed s t)
    (Z.to_nat ((bytes + 511) / 512)) 0 (scan_sector d lba total size bytes)
    (0xFFFFFFFF, (replicate 16 (EMPTY d), 0, 0)) s) as (f & s' & Hrun & Hf).
  - split; [by split_and!|]. split; [|exists []; auto]. split_and!; try done; lia.
  - intros j [crc_acc sc] t Hj ((Ht & Himg & Hgpt) & Hsc & es & Hcrc & Hes). unfold scan_sector.
    unfold sbind at 1, slift. rewrite chk_Ret by lia.
    destruct (on_host_read t d (lba + j) 512 Ht Hd ltac:(lia) ltac:(lia))
      as (r & t' & Hr & Ht' & Himg' & Hgpt' & Hrd).
    rewrite (sbind_Ret _ _ _ _ _ Hr).
    assert (undisturbed s t') as Hund by (split_and!; [done|intros; by rewrite Himg'|congruence]).
    destruct r as [esec|]; [|by exists (Exit tt), t'].
    unfold sbind at 1. rewrite chk_Ret by lia.
    pose proof (slice_len _ _ _ _ Hrd) as Hlen.
    destruct (slice esec 0 (Z.min (bytes - j * 512) 512)) as [data| |] eqn:Hdata.
    2,3: by rewrite slice_Ret in Hdata by lia.
    unfold sbind at 1.
    destruct (parse_sector_spec d total size esec sc) as (sc' & Hps & Hsc'); [done..|lia| |done|].
    { eapply slice_bytes; [exact Hrd|]. by apply dk_bytes. }
    unfold sbind. rewrite Hps. eexists _, t'. split; [done|]. split; [done|]. split; [done|].
    exists (es ++ data). split; [by rewrite crc32_app, <- Hcrc|]. right.
    rewrite Himg in Hrd. pose proof (slice_slice _ _ _ _ _ _ _ Hrd Hdata) as Hd2.
    destruct Hes as [[-> ->]|Hes].
    + cbn [app]. rewrite <- Hd2. f_equal; lia.
    + eapply slice_app; [exact Hes|]. rewrite <- Hd2. f_equal; lia.
  - exists f, s'. split; [done|]. destruct f as [[crc_acc sc]|[]]; [|by split].
    destruct Hf as (Hund & Hsc & es & Hcrc & Hes). split; [done|]. split; [done|].
    exists es. split; [|done]. destruct Hes as [[? _]|Hes]; [lia|]. rewrite <- Hes. f_equal. lia.
Qed.

(** What a header must satisfy for [detect] not to stop the kernel: its size
    stays within the sector read, and the entry array within the address
    space. *)
Definition header_sane (sector : list Z) : Prop :=
  (forall n, u32le sector 12 = Ret n -> n <= 512) /\ (forall n, u64le sector 72 = Ret n -> n < 2 ^ 63).

(** What [detect] establishes about the table it caches. *)
Definition table_valid (img : list Z) (d : Z) (g : GptDisk) : Prop :=
  parsed g = true /\ scan_ok d (parts g, part_count g, 0) /\
  exists sector header entries,
    slice img 512 1024 = Ret sector /\ slice sector 0 8 = Ret GPT_SIGNATURE /\
    (exists n z, u32le sector 12 = Ret n /\ splice sector 16 (zeros 4) = Ret z /\
       slice z 0 n = Ret header /\ u32le sector 16 = Ret (gpt_crc header)) /\
    slice img (512 * entries_lba g) (512 * entries_lba g + num_entries g * entry_size g) = Ret entries /\
    u32le sector 88 = Ret (gpt_crc entries).

Lemma detect_spec s d :
  dk_ok (host s) -> 0 <= d ->
  (forall sector, slice (dk_image (host s) d) 512 1024 = Ret sector -> header_sane sector) ->
  exists r s', detect d s = Ret (r, s') /\ dk_ok (host s') /\
    (forall j, dk_image (host s') j = dk_image (host s) j) /\
    if r : bool
    then exists g, gpt_disks s' = <[Z.to_nat d := g]> (gpt_disks s) /\ table_valid (dk_image (host s) d) d g
    else gpt_disks s' = gpt_disks s.
Proof.
  intros Hs Hd Hsane. unfold detect. destruct (8 <=? d); [by exists false, s|].
  destruct (on_host_read s d 1 512 Hs Hd ltac:(lia) ltac:(lia)) as (r & t & Hr & Ht & Himg & Hgpt & Hrd).
  rewrite (sbind_Ret _ _ _ _ _ Hr). destruct r as [sector|]; [|by exists false, t].
  pose proof (slice_len _ _ _ _ Hrd) as Hlen.
  assert (bytes_ok sector) as Hb by (eapply slice_bytes; [exact Hrd|by apply dk_bytes]).
  destruct (Hsane sector Hrd) as [Hs1 Hs2].
  destruct (slice sector 0 8) as [sig| |] eqn:Hsig; [|by rewrite slice_Ret in Hsig by lia..].
  unfold sbind at 1, slift at 1. case_bool_decide as E; cbn [negb]; [subst sig|by exists false, t].
  destruct (get_le_Ret 4 sector 12) as (hs & E1 & R1); [lia..|].
  destruct (get_le_Ret 4 sector 16) as (hc & E2 & R2); [lia..|].
  destruct (get_le_Ret 8 sector 72) as (lba & E3 & R3); [lia..|].
  destruct (get_le_Ret 4 sector 80) as (total & E4 & R4); [lia..|].
  destruct (get_le_Ret 4 sector 84) as (size & E5 & R5); [lia..|].
  destruct (get_le_Ret 4 sector 88) as (ec & E6 & R6); [lia..|].
  specialize (R1 Hb). specialize (R3 Hb). specialize (R4 Hb). specialize (R5 Hb).
  specialize (Hs1 hs E1). specialize (Hs2 lba E3).
  unfold u32le, u64le. rewrite E1, E2, E3, E4, E5, E6.
  do 5 (unfold sbind at 1, slift at 1).
  case_test; [by exists false, t|].
  rewrite splice_Ret by (rewrite ?blen_zeros; lia).
  unfold sbind at 1, slift at 1. set (z := take _ _ ++ _).
  assert (splice sector 16 (zeros 4) = Ret z) as Hz by (rewrite splice_Ret by (rewrite ?blen_zeros; lia); done).
  pose proof (splice_blen _ _ _ _ Hz) as Hzl.
  destruct (slice z 0 hs) as [header| |] eqn:Hh; [|by rewrite slice_Ret in Hh by lia..].
  unfold sbind at 1, slift at 1. case_test; [by exists false, t|].
  case_test; [by exists false, t|]. zify_bool.
  unfold sbind at 1, slift at 1. rewrite chk_Ret by nia.
  unfold sbind at 1, slift at 1.
  destruct (scan_spec t d lba total size Ht Hd ltac:(lia) ltac:(lia) ltac:(lia) ltac:(lia))
    as (f & t' & Hloop & (Ht' & Himg' & Hgpt') & Hf).
  rewrite (sbind_Ret _ _ _ _ _ Hloop).
  assert (forall j, dk_image (host t') j = dk_image (host s) j) as Himg2 by (intros; by rewrite Himg').
  destruct f as [[crc_acc [[ps count] index]]|[]]; [|exists false, t'; split_and!; try done; congruence].
  destruct Hf as (Hsc & entries & Hes & ->). rewrite Himg in Hes.
  case_test; [exists false, t'; split_and!; try done; congruence|]. zify_bool.
  exists true. eexists. split; [done|]. cbn [host]. split; [done|]. split; [done|].
  eexists. cbn [gpt_disks]. split; [by rewrite Hgpt', Hgpt|].
  split; [done|]. split.
  { destruct Hsc as (?&?&?&?). unfold scan_ok. cbn [parts part_count]. auto with lia. }
  exists sector, header, entries. split; [done|]. split; [done|]. split; [|split; [done|]].
  - exists hs, z. split; [done|]. split; [done|]. split; [done|]. unfold u32le. rewrite E2. f_equal. by symmetry.
  - unfold u32le, gpt_crc. by rewrite E6; f_equal.
Qed.
End Gpt.

(** ** Properties *)

(** [detect] parses a table only after checking it. As long as the header
    does not claim more than the sector read, it returns, leaves every disk as
    it was, and answers [true] only when the signature is right and both
    checksums match the bytes on the disk; the cached table then has at most
    16 partitions, each with [1 <= start <= last]. When it answers [false] the
    cache is untouched. *)
Theorem detect_correct {S} `{DS : Disks S} (s : Gpt (S := S)) (d : Z)
    (Hs : dk_ok (host s)) (Hd : 0 <= d)
    (Hsane : forall sector, slice (dk_image (host s) d) 512 1024 = Ret sector -> header_sane sector) :
  exists r s', detect d s = Ret (r, s') /\ (forall j, dk_image (host s') j = dk_image (host s) j) /\
    if r : bool
    then exists g, gpt_disks s' = <[Z.to_nat d := g]> (gpt_disks s) /\
           table_valid (dk_image (host s) d) d g
    else gpt_disks s' = gpt_disks s.
Proof.
  destruct (detect_spec s d Hs Hd Hsane) as (r & s' & ? & _ & ? & ?). by exists r, s'.
Qed.

(** A disk with one partition, sectors 8 to 15, and a table of four entries. *)
Definition sample_entry : list Z :=
  LINUX_TYPE ++ replicate 16 1 ++ to_le 8 8 ++ to_le 8 15 ++ replicate 80 0.
Definition sample_array : list Z := sample_entry ++ replicate 384 0.
Definition sample_header (hcrc : Z) : list Z :=
  GPT_SIGNATURE ++ to_le 4 0x10000 ++ to_le 4 92 ++ to_le 4 hcrc ++ replicate 52 0 ++
  to_le 8 2 ++ to_le 4 4 ++ to_le 4 128 ++ to_le 4 (gpt_crc sample_array).
Definition sample_table : list Z :=
  sample_header (gpt_crc (sample_header 0)) ++ replicate 420 0.
Definition sample_host : RamDisks :=
  {[0 := replicate 512 0 ++ sample_table ++ sample_array ++ zeros 8192]}.
Definition sample_gpt : Gpt := mkGpt sample_host (replicate 8 EMPTY_DISK).

Lemma sample_host_ok : dk_ok sample_host.
Proof.
  apply map_Forall_singleton. apply (bool_decide_unpack _). vm_compute. exact I.
Qed.

Lemma detect_correct_witness :
  exists s' g, detect 0 sample_gpt = Ret (true, s') /\ gpt_disks s' !! 0%nat = Some g /\
    part_count g = 1 /\ table_valid (dk_image sample_host 0) 0 g.
Proof.
  assert (Hval : match detect 0 sample_gpt with
    | Ret (r, s') => r && bool_decide ((part_count <$> (gpt_disks s' !! 0%nat)) = Some 1)
    | _ => false end = true) by (vm_compute; reflexivity).
  assert (Hsec : slice (dk_image sample_host 0) 512 1024 = Ret sample_table) by (vm_compute; reflexivity).
  destruct (detect_correct sample_gpt 0 sample_host_ok ltac:(lia)) as (r & s' & Hrun & _ & Hr).
  { intros sector Hs. change (host sample_gpt) with sample_host in Hs. rewrite Hsec in Hs. injection Hs as <-. split; intros n Hn.
    - vm_compute in Hn. injection Hn as <-. lia.
    - vm_compute in Hn. injection Hn as <-. lia. }
  rewrite Hrun in Hval. apply andb_true_iff in Hval as [-> Hc]. destruct Hr as (g & Hg & Hv).
  exists s', g. split; [exact Hrun|].
  assert (gpt_disks s' !! 0%nat = Some g) as Hl by (rewrite Hg; reflexivity).
  split; [exact Hl|]. split; [|exact Hv]. apply bool_decide_eq_true in Hc. rewrite Hl in Hc.
  by injection Hc.
Defined.

(** C34: Partitions are isolated. Writing through a partition, whatever the
    block number and whether or not the write succeeds, changes no byte
    outside the partition's own sectors and no other disk. *)
Theorem partition_write_isolated {S} `{DS : Disks S} (w : Window (S := S)) (lba : Z) (buf : list Z)
    (Hw : dk_ok (below w)) (Hp : part_ok (part w)) (Hlba : 0 <= lba) (Hlen : blen buf < 2 ^ 64)
    (Hov : lba + blen buf / 512 < 2 ^ 64) (Hbuf : bytes_ok buf) :
  exists r w', gp_write_blocks lba buf w = Ret (r, w') /\ part w' = part w /\
    (forall j, j <> disk (part w) -> dk_image (below w') j = dk_image (below w) j) /\
    same_outside (dk_image (below w) (disk (part w))) (dk_image (below w') (disk (part w)))
      (512 * start_lba (part w)) (512 * (last_lba (part w) + 1)).
Proof.
  pose proof (blen_nonneg buf) as Hn. unfold gp_write_blocks. rewrite (sbind_Ret _ _ w w w) by done.
  rewrite gp_locate_spec by done. unfold slift, qbind. rewrite (sbind_Ret _ _ w _ w eq_refl).
  destruct (blen buf mod 512 =? 0) eqn:E1; cbn [andb];
    [|exists (Err Io), w; split_and!; try done; apply same_outside_refl].
  destruct (Z.leb_spec (lba + blen buf / 512) (sectors_of (part w))) as [Hle|];
    [|exists (Err Io), w; split_and!; try done; apply same_outside_refl].
  pose proof Hp as (?&?&?). unfold on_below, sbind.
  destruct (dk_write (below w) (disk (part w)) (start_lba (part w) + lba) buf)
    as (r & s' & -> & Hs' & Hother & Hr); [done..|unfold sectors_of in *; lia|done|done|].
  eexists _, _. split; [reflexivity|]. cbn [part below]. split; [done|]. split; [done|].
  assert (same_outside (dk_image (below w) (disk (part w))) (dk_image s' (disk (part w)))
    (512 * (start_lba (part w) + lba)) (512 * (start_lba (part w) + lba) + blen buf)) as [Hl Hout]
    by (destruct r; [by apply splice_same_outside|done]).
  split; [done|]. intros k Hk. apply Hout. unfold sectors_of in *. zify_bool. lia.
Qed.

Definition sample_part : GptPartition := mkPart 0 8 15 LINUX_TYPE (replicate 16 1) (zeros 72).

Lemma partition_write_isolated_witness :
  exists w', gp_write_blocks 3 (replicate 512 7) (mkWindow sample_part sample_host) = Ret (Ok tt, w') /\
    same_outside (dk_image sample_host 0) (dk_image (below w') 0) 4096 8192.
Proof.
  destruct (partition_write_isolated (mkWindow sample_part sample_host) 3 (replicate 512 7))
    as (r & w' & Hrun & _ & _ & Hout).
  - exact sample_host_ok.
  - split_and!; cbn; lia.
  - lia.
  - vm_compute. reflexivity.
  - vm_compute. reflexivity.
  - apply Forall_replicate. lia.
  - assert (Hval : match gp_write_blocks 3 (replicate 512 7) (mkWindow sample_part sample_host) with
      | Ret (Ok _, _) => true | _ => false end = true) by (vm_compute; reflexivity).
    rewrite Hrun in Hval. destruct r as [[]|]; [|discriminate Hval].
    exists w'. split; [exact Hrun|exact Hout].
Defined.

(** A header that claims 513 bytes. *)
Definition oversized_header : list Z :=
  GPT_SIGNATURE ++ to_le 4 0x10000 ++ to_le 4 513 ++ replicate 56 0 ++
  to_le 8 2 ++ to_le 4 4 ++ to_le 4 128 ++ replicate 424 0.
Definition hostile_gpt : Gpt :=
  mkGpt ({[0 := replicate 512 0 ++ oversized_header ++ replicate 1024 0]} : RamDisks) (replicate 8 EMPTY_DISK).

(** A table whose header claims to be longer than a sector stops the
    kernel: [detect] slices the 512-byte buffer with the unchecked size. *)
Theorem detect_oversized_header_panics : detect 0 hostile_gpt = Panic.
Proof. vm_compute. reflexivity. Qed.
