(* ===== verification/Keyboard.v ===== *)
(** * The keyboard driver ([src/src/keyboard.rs])

    Scancode set 1 is decoded by the interrupt handler [irq] into key codes,
    which a 256-byte ring buffer holds until [input] drains it. The abstract
    view is a bounded queue of at most 255 keys and the modifier state
    ([Kbd_abs]); the handler and the reader refine it. The byte the handler
    reads from the data port is its argument; the controller handshake of
    [init] is in [KbdCtl]. *)

From S2P Require Import Prelude.
From Stdlib Require Import Ascii.
From stdpp Require Import list.
#[local] Open Scope Z_scope.

Definition ch (a : ascii) : Z := Z.of_N (N_of_ascii a).
#[local] Open Scope char_scope.
#[local] Open Scope Z_scope.
Arguments ch a%_char_scope.

Definition KEYBOARD_VECTOR : Z := 33.
Definition BUFFER_SIZE : Z := 256.

Definition KEY_NONE : Z := 0x00.
Definition KEY_BACKSPACE : Z := 0x08.
Definition KEY_TAB : Z := 0x09.
Definition KEY_ENTER : Z := 0x0A.
Definition KEY_ESC : Z := 0x1B.
Definition KEY_SPACE : Z := 0x20.
Definition KEY_EXT_UP : Z := 0x80.
Definition KEY_EXT_DOWN : Z := 0x81.
Definition KEY_EXT_LEFT : Z := 0x82.
Definition KEY_EXT_RIGHT : Z := 0x83.
Definition KEY_EXT_HOME : Z := 0x84.
Definition KEY_EXT_END : Z := 0x85.
Definition KEY_EXT_PGUP : Z := 0x86.
Definition KEY_EXT_PGDN : Z := 0x87.
Definition KEY_EXT_INSERT : Z := 0x88.
Definition KEY_EXT_DELETE : Z := 0x89.
Definition KEY_EXT_F1 : Z := 0x8A.
Definition KEY_EXT_F2 : Z := 0x8B.
Definition KEY_EXT_F3 : Z := 0x8C.
Definition KEY_EXT_F4 : Z := 0x8D.
Definition KEY_EXT_F5 : Z := 0x8E.
Definition KEY_EXT_F6 : Z := 0x8F.
Definition KEY_EXT_F7 : Z := 0x90.
Definition KEY_EXT_F8 : Z := 0x91.
Definition KEY_EXT_F9 : Z := 0x92.
Definition KEY_EXT_F10 : Z := 0x93.
Definition KEY_EXT_F11 : Z := 0x94.
Definition KEY_EXT_F12 : Z := 0x95.

(** A 128-entry table from (scancode, value) pairs, zero where none is given. *)
Definition table (entries : list (Z * Z)) : list Z :=
  foldl (fun out e => <[Z.to_nat e.1 := e.2]> out) (replicate 128 KEY_NONE) entries.

Definition SCANCODE_TO_ASCII : list Z := table
  [(0x01, KEY_ESC); (0x02, ch "1"); (0x03, ch "2"); (0x04, ch "3"); (0x05, ch "4");
   (0x06, ch "5"); (0x07, ch "6"); (0x08, ch "7"); (0x09, ch "8"); (0x0A, ch "9");
   (0x0B, ch "0"); (0x0C, ch "-"); (0x0D, ch "="); (0x0E, KEY_BACKSPACE);
   (0x0F, KEY_TAB); (0x10, ch "q"); (0x11, ch "w"); (0x12, ch "e"); (0x13, ch "r");
   (0x14, ch "t"); (0x15, ch "y"); (0x16, ch "u"); (0x17, ch "i"); (0x18, ch "o");
   (0x19, ch "p"); (0x1A, ch "["); (0x1B, ch "]"); (0x1C, KEY_ENTER); (0x1E, ch "a");
   (0x1F, ch "s"); (0x20, ch "d"); (0x21, ch "f"); (0x22, ch "g"); (0x23, ch "h");
   (0x24, ch "j"); (0x25, ch "k"); (0x26, ch "l"); (0x27, ch ";"); (0x28, ch "'");
   (0x29, ch "`"); (0x2B, ch "\"); (0x2C, ch "z"); (0x2D, ch "x"); (0x2E, ch "c");
   (0x2F, ch "v"); (0x30, ch "b"); (0x31, ch "n"); (0x32, ch "m"); (0x33, ch ",");
   (0x34, ch "."); (0x35, ch "/"); (0x37, ch "*"); (0x39, KEY_SPACE); (0x47, ch "7");
   (0x48, ch "8"); (0x49, ch "9"); (0x4A, ch "-"); (0x4B, ch "4"); (0x4C, ch "5");
   (0x4D, ch "6"); (0x4E, ch "+"); (0x4F, ch "1"); (0x50, ch "2"); (0x51, ch "3");
   (0x52, ch "0"); (0x53, ch ".")].

Definition SCANCODE_TO_ASCII_SHIFT : list Z := table
  [(0x01, KEY_ESC); (0x02, ch "!"); (0x03, ch "@"); (0x04, ch "#"); (0x05, ch "$");
   (0x06, ch "%"); (0x07, ch "^"); (0x08, ch "&"); (0x09, ch "*"); (0x0A, ch "(");
   (0x0B, ch ")"); (0x0C, ch "_"); (0x0D, ch "+"); (0x0E, KEY_BACKSPACE);
   (0x0F, KEY_TAB); (0x10, ch "Q"); (0x11, ch "W"); (0x12, ch "E"); (0x13, ch "R");
   (0x14, ch "T"); (0x15, ch "Y"); (0x16, ch "U"); (0x17, ch "I"); (0x18, ch "O");
   (0x19, ch "P"); (0x1A, ch "{"); (0x1B, ch "}"); (0x1C, KEY_ENTER); (0x1E, ch "A");
   (0x1F, ch "S"); (0x20, ch "D"); (0x21, ch "F"); (0x22, ch "G"); (0x23, ch "H");
   (0x24, ch "J"); (0x25, ch "K"); (0x26, ch "L"); (0x27, ch ":"); (0x28, 34);
   (0x29, ch "~"); (0x2B, ch "|"); (0x2C, ch "Z"); (0x2D, ch "X"); (0x2E, ch "C");
   (0x2F, ch "V"); (0x30, ch "B"); (0x31, ch "N"); (0x32, ch "M"); (0x33, ch "<");
   (0x34, ch ">"); (0x35, ch "?"); (0x37, ch "*"); (0x39, KEY_SPACE); (0x47, ch "7");
   (0x48, ch "8"); (0x49, ch "9"); (0x4A, ch "-"); (0x4B, ch "4"); (0x4C, ch "5");
   (0x4D, ch "6"); (0x4E, ch "+"); (0x4F, ch "1"); (0x50, ch "2"); (0x51, ch "3");
   (0x52, ch "0"); (0x53, ch ".")].

Definition EXTENDED_TO_KEY : list Z := table
  [(0x48, KEY_EXT_UP); (0x50, KEY_EXT_DOWN); (0x4B, KEY_EXT_LEFT);
   (0x4D, KEY_EXT_RIGHT); (0x47, KEY_EXT_HOME); (0x4F, KEY_EXT_END);
   (0x49, KEY_EXT_PGUP); (0x51, KEY_EXT_PGDN); (0x52, KEY_EXT_INSERT);
   (0x53, KEY_EXT_DELETE); (0x3B, KEY_EXT_F1); (0x3C, KEY_EXT_F2); (0x3D, KEY_EXT_F3);
   (0x3E, KEY_EXT_F4); (0x3F, KEY_EXT_F5); (0x40, KEY_EXT_F6); (0x41, KEY_EXT_F7);
   (0x42, KEY_EXT_F8); (0x43, KEY_EXT_F9); (0x44, KEY_EXT_F10); (0x57, KEY_EXT_F11);
   (0x5D, KEY_EXT_F12); (0x1D, KEY_NONE); (0x38, KEY_NONE); (0x5B, KEY_NONE)].

Record Keyboard := mkKb {
  kb_buffer : list Z;
  kb_head : Z;
  kb_tail : Z;
  shift_held : Z;
  ctrl_held : Z;
  alt_held : Z;
  caps_lock : Z;
  extended_prefix : Z;
}.

Definition set_ring (k : Keyboard) (b : list Z) (h t : Z) : Keyboard :=
  mkKb b h t (shift_held k) (ctrl_held k) (alt_held k) (caps_lock k) (extended_prefix k).
Definition set_shift (v : Z) (k : Keyboard) : Keyboard :=
  mkKb (kb_buffer k) (kb_head k) (kb_tail k) v (ctrl_held k) (alt_held k) (caps_lock k) (extended_prefix k).
Definition set_ctrl (v : Z) (k : Keyboard) : Keyboard :=
  mkKb (kb_buffer k) (kb_head k) (kb_tail k) (shift_held k) v (alt_held k) (caps_lock k) (extended_prefix k).
Definition set_alt (v : Z) (k : Keyboard) : Keyboard :=
  mkKb (kb_buffer k) (kb_head k) (kb_tail k) (shift_held k) (ctrl_held k) v (caps_lock k) (extended_prefix k).
Definition set_caps (v : Z) (k : Keyboard) : Keyboard :=
  mkKb (kb_buffer k) (kb_head k) (kb_tail k) (shift_held k) (ctrl_held k) (alt_held k) v (extended_prefix k).
Definition set_ext (v : Z) (k : Keyboard) : Keyboard :=
  mkKb (kb_buffer k) (kb_head k) (kb_tail k) (shift_held k) (ctrl_held k) (alt_held k) (caps_lock k) v.

Definition buffer_push (key : Z) (k : Keyboard) : outcome Keyboard :=
  let! h := chk 32 (kb_head k + 1) in
  let next := h mod BUFFER_SIZE in
  if negb (next =? kb_tail k) then
    let! b := put8 (kb_buffer k) (kb_head k) key in
    Ret (set_ring k b next (kb_tail k))
  else Ret k.

Definition is_ascii_lowercase (c : Z) : bool := (ch "a" <=? c) && (c <=? ch "z").
Definition is_ascii_uppercase (c : Z) : bool := (ch "A" <=? c) && (c <=? ch "Z").

Definition apply_caps_lock (k : Keyboard) (c : Z) (is_alpha : bool) : outcome Z :=
  if (caps_lock k =? 0) || negb is_alpha then Ret c else
  if is_ascii_lowercase c then chk 8 (c - 32)
  else if is_ascii_uppercase c then chk 8 (c + 32)
  else Ret c.

(** The statics as [init] leaves them; the buffer is not cleared. *)
Definition init_state (k : Keyboard) : Keyboard := mkKb (kb_buffer k) 0 0 0 0 0 0 0.

Definition is_alpha_code (scancode : Z) : bool :=
  ((0x10 <=? scancode) && (scancode <=? 0x19))
  || ((0x1E <=? scancode) && (scancode <=? 0x26))
  || ((0x2C <=? scancode) && (scancode <=? 0x32)).

Definition irq (scancode : Z) (k : Keyboard) : outcome Keyboard :=
  if scancode =? 0xE0 then Ret (set_ext 1 k) else
  if negb (extended_prefix k =? 0) then
    let k := set_ext 0 k in
    if (scancode =? 0x2A) || (scancode =? 0x36) then Ret (set_shift 0 k) else
    if negb (Z.land scancode 0x80 =? 0) then Ret k else
    let! key := get8 EXTENDED_TO_KEY scancode in
    if negb (key =? KEY_NONE) then buffer_push key k else Ret k
  else
  if (scancode =? 0x2A) || (scancode =? 0x36) then Ret (set_shift 1 k) else
  if scancode =? 0x1D then Ret (set_ctrl 1 k) else
  if scancode =? 0x38 then Ret (set_alt 1 k) else
  if scancode =? 0x3A then Ret (set_caps (Z.lxor (caps_lock k) 1) k) else
  if negb (Z.land scancode 0x80 =? 0) then
    let released := Z.land scancode 0x7F in
    Ret (if (released =? 0x2A) || (released =? 0x36) then set_shift 0 k
         else if released =? 0x1D then set_ctrl 0 k
         else if released =? 0x38 then set_alt 0 k else k)
  else
  if 128 <=? scancode then Ret k else
  let is_shift := negb (shift_held k =? 0) in
  let is_alpha := is_alpha_code scancode in
  let! c := (if is_shift then get8 SCANCODE_TO_ASCII_SHIFT scancode
             else get8 SCANCODE_TO_ASCII scancode) in
  if c =? KEY_NONE then Ret k else
  let! c := (if is_alpha then apply_caps_lock k c true
             else if negb (caps_lock k =? 0) && is_shift then apply_caps_lock k c false
             else Ret c) in
  let! c := (if negb (ctrl_held k =? 0) then
               if is_ascii_lowercase c then let! d := chk 8 (c - ch "a") in chk 8 (d + 1)
               else if is_ascii_uppercase c then let! d := chk 8 (c - ch "A") in chk 8 (d + 1)
               else Ret c
             else Ret c) in
  buffer_push c k.

Definition input (k : Keyboard) : outcome (Z * Keyboard) :=
  if kb_head k =? kb_tail k then Ret (KEY_NONE, k) else
  let! key := get8 (kb_buffer k) (kb_tail k) in
  let! t := chk 32 (kb_tail k + 1) in
  Ret (key, set_ring k (kb_buffer k) (kb_head k) (t mod BUFFER_SIZE)).

Definition has_input (k : Keyboard) : bool := negb (kb_head k =? kb_tail k).

(** ** The abstract keyboard *)

Record Mods := mkMods { m_shift : bool; m_ctrl : bool; m_caps : bool; m_ext : bool }.

(** What a scancode does to the modifiers. *)
Definition next_mods (m : Mods) (sc : Z) : Mods :=
  if sc =? 0xE0 then mkMods (m_shift m) (m_ctrl m) (m_caps m) true else
  if m_ext m then
    mkMods (m_shift m && negb ((sc =? 0x2A) || (sc =? 0x36))) (m_ctrl m) (m_caps m) false else
  mkMods
    (((sc =? 0x2A) || (sc =? 0x36)) || (m_shift m && negb ((sc =? 0xAA) || (sc =? 0xB6))))
    ((sc =? 0x1D) || (m_ctrl m && negb (sc =? 0x9D)))
    (xorb (m_caps m) (sc =? 0x3A)) false.

(** The key a scancode stands for. Caps lock flips bit 5 of a letter, control
    keeps its low five bits. *)
Definition key_of (m : Mods) (sc : Z) : option Z :=
  if (128 <=? sc) then None else
  let base := if m_ext m then EXTENDED_TO_KEY !!! Z.to_nat sc
              else if m_shift m then SCANCODE_TO_ASCII_SHIFT !!! Z.to_nat sc
              else SCANCODE_TO_ASCII !!! Z.to_nat sc in
  if base =? 0 then None else
  if negb (m_ext m) && is_alpha_code sc then
    let c := if m_caps m then Z.lxor base 32 else base in
    Some (if m_ctrl m then Z.land c 31 else c)
  else Some base.

Definition mods (k : Keyboard) : Mods :=
  mkMods (negb (shift_held k =? 0)) (negb (ctrl_held k =? 0)) (negb (caps_lock k =? 0))
    (negb (extended_prefix k =? 0)).

(** The keys in the ring, oldest first. *)
Definition pending (k : Keyboard) : Z := (kb_head k - kb_tail k) mod 256.

Definition queue (k : Keyboard) : list Z :=
  (fun i => kb_buffer k !!! Z.to_nat ((kb_tail k + Z.of_nat i) mod 256)) <$> seq 0 (Z.to_nat (pending k)).

Record kb_ok (k : Keyboard) : Prop := {
  kb_len : length (kb_buffer k) = Z.to_nat 256;
  kb_head_range : 0 <= kb_head k < 256;
  kb_tail_range : 0 <= kb_tail k < 256;
  kb_caps : caps_lock k = 0 \/ caps_lock k = 1;
}.

(** A bounded queue: the newest key is dropped when 255 are pending. *)
Definition enqueue (q : list Z) (o : option Z) : list Z :=
  match o with
  | Some key => if (length q <? 255)%nat then q ++ [key] else q
  | None => q
  end.

Lemma queue_length k : length (queue k) = Z.to_nat (pending k).
Proof. unfold queue. by rewrite length_fmap, length_seq. Qed.

Lemma buffer_push_spec k key :
  kb_ok k ->
  exists k', buffer_push key k = Ret k' /\ kb_ok k' /\ mods k' = mods k /\
    queue k' = enqueue (queue k) (Some key).
Proof.
  intros [Hlen Hh Ht Hc]. unfold buffer_push, BUFFER_SIZE.
  rewrite chk_Ret by lia. cbn [obind]. unfold enqueue. rewrite queue_length.
  destruct (Z.eqb_spec ((kb_head k + 1) mod 256) (kb_tail k)) as [E|E]; cbn [negb].
  - exists k. split_and!; try done.
    rewrite (proj2 (Nat.ltb_ge _ _)); [done|]. unfold pending. lia.
  - unfold put8. rewrite splice_Ret by (unfold blen; rewrite ?Hlen; cbn [length]; lia).
    cbn [obind]. eexists. split; [done|]. cbn [app length].
    assert (take (Z.to_nat (kb_head k)) (kb_buffer k) ++
            key :: drop (Z.to_nat (kb_head k) + 1) (kb_buffer k) =
            <[Z.to_nat (kb_head k) := key]> (kb_buffer k)) as ->.
    { rewrite insert_take_drop by lia. do 3 f_equal. lia. }
    split_and!; try done.
    + constructor; cbn; [by rewrite length_insert|lia|lia|done].
    + rewrite (proj2 (Nat.ltb_lt _ _)) by (unfold pending; lia).
      unfold queue, pending. cbn.
      replace (Z.to_nat (((kb_head k + 1) mod 256 - kb_tail k) mod 256))
        with (S (Z.to_nat ((kb_head k - kb_tail k) mod 256))) by lia.
      rewrite seq_S, fmap_app. f_equal.
      * apply list_fmap_ext. intros i x [-> Hi]%lookup_seq.
        rewrite list_lookup_total_insert_ne by lia. done.
      * cbn. f_equal.
        replace (Z.to_nat ((kb_tail k + Z.of_nat (Z.to_nat ((kb_head k - kb_tail k) mod 256))) mod 256))
          with (Z.to_nat (kb_head k)) by lia.
        apply list_lookup_total_insert_eq. lia.
Qed.

Lemma input_spec k :
  kb_ok k ->
  match queue k with
  | [] => input k = Ret (KEY_NONE, k)
  | key :: q => exists k', input k = Ret (key, k') /\ kb_ok k' /\ mods k' = mods k /\ queue k' = q
  end.
Proof.
  intros [Hlen Hh Ht Hc]. unfold queue, input, BUFFER_SIZE.
  destruct (Z.eqb_spec (kb_head k) (kb_tail k)) as [E|E].
  { unfold pending. rewrite E, Z.sub_diag. done. }
  replace (Z.to_nat (pending k)) with (S (Z.to_nat (pending k - 1))) by (unfold pending; lia).
  cbn [seq fmap list_fmap]. unfold get8. destruct (Z.ltb_spec (kb_tail k) 0); [lia|].
  destruct (lookup_lt_is_Some_2 (kb_buffer k) (Z.to_nat (kb_tail k))) as [v Hv]; [lia|].
  rewrite Hv. cbn [obind]. rewrite chk_Ret by lia. cbn [obind].
  replace ((kb_tail k + Z.of_nat 0) mod 256) with (kb_tail k) by lia.
  rewrite (list_lookup_total_correct _ _ _ Hv).
  eexists. split; [done|]. split_and!; [|done|].
  - constructor; cbn; try done. lia.
  - unfold queue, pending. cbn.
    replace (Z.to_nat ((kb_head k - (kb_tail k + 1) mod 256) mod 256))
      with (Z.to_nat ((kb_head k - kb_tail k) mod 256 - 1)) by lia.
    rewrite <- fmap_S_seq, <- list_fmap_compose. apply list_fmap_ext. intros i x _. cbn.
    f_equal. lia.
Qed.

(** *** Facts about the tables, by computation over the 128 scancodes *)

Lemma codes_forall (P : Z -> bool) (n : nat) :
  forallb P (Z.of_nat <$> seq 0 n) = true -> forall sc, 0 <= sc < Z.of_nat n -> P sc = true.
Proof.
  intros Hall sc Hsc. rewrite forallb_forall in Hall. apply Hall, list_elem_of_In, list_elem_of_fmap.
  exists (Z.to_nat sc). split; [lia|]. apply elem_of_seq. lia.
Qed.

Definition base_of (shift : bool) (sc : Z) : Z :=
  if shift then SCANCODE_TO_ASCII_SHIFT !!! Z.to_nat sc else SCANCODE_TO_ASCII !!! Z.to_nat sc.

Lemma letters sc :
  0 <= sc < 128 ->
  (is_alpha_code sc = true -> is_ascii_lowercase (base_of false sc) = true /\
                              is_ascii_uppercase (base_of true sc) = true) /\
  (is_alpha_code sc = false -> forall b, is_ascii_lowercase (base_of b sc) = false /\
                                         is_ascii_uppercase (base_of b sc) = false).
Proof.
  intros Hsc.
  pose proof (codes_forall (fun sc =>
    if is_alpha_code sc then is_ascii_lowercase (base_of false sc) && is_ascii_uppercase (base_of true sc)
    else negb (is_ascii_lowercase (base_of false sc) || is_ascii_uppercase (base_of false sc)
            || is_ascii_lowercase (base_of true sc) || is_ascii_uppercase (base_of true sc))) 128
    ltac:(vm_compute; reflexivity) sc Hsc) as H. cbv beta in H.
  destruct (is_alpha_code sc); split; intros; try done.
  - by apply andb_true_iff in H.
  - apply negb_true_iff in H. repeat apply orb_false_iff in H as [H ?]. by destruct b.
Qed.

Lemma modifier_codes sc :
  (sc = 0x2A \/ sc = 0x36 \/ sc = 0x1D \/ sc = 0x38 \/ sc = 0x3A) -> forall b, base_of b sc = 0.
Proof. intros H b. destruct b; repeat destruct H as [->|H]; subst; reflexivity. Qed.

Lemma lower_ops c :
  is_ascii_lowercase c = true ->
  Z.lxor c 32 = c - 32 /\ Z.land c 31 = c - 96 /\ is_ascii_uppercase (c - 32) = true /\
  is_ascii_uppercase c = false.
Proof.
  intros Hc.
  pose proof (codes_forall (fun c => implb (is_ascii_lowercase c)
    ((Z.lxor c 32 =? c - 32) && (Z.land c 31 =? c - 96) && is_ascii_uppercase (c - 32)
     && negb (is_ascii_uppercase c))) 128 ltac:(vm_compute; reflexivity) c) as H. cbv beta in H.
  rewrite Hc in H. cbn [implb] in H. unfold is_ascii_lowercase in Hc. cbv [ch] in Hc. simpl in Hc.
  zify_bool. specialize (H ltac:(lia)). zify_bool. done.
Qed.

Lemma upper_ops c :
  is_ascii_uppercase c = true ->
  Z.lxor c 32 = c + 32 /\ Z.land c 31 = c - 64 /\ is_ascii_lowercase (c + 32) = true /\
  is_ascii_lowercase c = false.
Proof.
  intros Hc.
  pose proof (codes_forall (fun c => implb (is_ascii_uppercase c)
    ((Z.lxor c 32 =? c + 32) && (Z.land c 31 =? c - 64) && is_ascii_lowercase (c + 32)
     && negb (is_ascii_lowercase c))) 128 ltac:(vm_compute; reflexivity) c) as H. cbv beta in H.
  rewrite Hc in H. cbn [implb] in H. unfold is_ascii_uppercase in Hc. cbv [ch] in Hc. simpl in Hc.
  zify_bool. specialize (H ltac:(lia)). zify_bool. done.
Qed.

Lemma get8_table T sc :
  length T = 128%nat -> 0 <= sc < 128 -> get8 T sc = Ret (T !!! Z.to_nat sc).
Proof. intros Hl Hsc. apply (word_at_Ret T sc). lia. Qed.

Lemma high_bit sc : 0 <= sc < 256 -> (Z.land sc 0x80 =? 0) = (sc <? 128).
Proof.
  intros Hsc. pose proof (codes_forall (fun sc => Bool.eqb (Z.land sc 0x80 =? 0) (sc <? 128)) 256
    ltac:(vm_compute; reflexivity) sc Hsc) as H. by apply eqb_prop in H.
Qed.

Lemma low_bits sc : 128 <= sc < 256 -> Z.land sc 0x7F = sc - 128.
Proof. intros. change 0x7F with (Z.ones 7). rewrite Z.land_ones by lia. lia. Qed.

(** *** The interrupt handler *)

(** A letter after caps lock and control. *)
Lemma letter_case k c (caps ctrl : bool) :
  is_ascii_lowercase c = true \/ is_ascii_uppercase c = true ->
  caps = negb (caps_lock k =? 0) -> ctrl = negb (ctrl_held k =? 0) ->
  (let! c := apply_caps_lock k c true in
   let! c := (if negb (ctrl_held k =? 0) then
               if is_ascii_lowercase c then let! d := chk 8 (c - ch "a") in chk 8 (d + 1)
               else if is_ascii_uppercase c then let! d := chk 8 (c - ch "A") in chk 8 (d + 1)
               else Ret c
             else Ret c) in
   buffer_push c k) =
  buffer_push (let d := if caps then Z.lxor c 32 else c in if ctrl then Z.land d 31 else d) k.
Proof.
  assert (forall c, is_ascii_lowercase c = true -> 97 <= c <= 122) as Hlow.
  { intros d Hd. unfold is_ascii_lowercase in Hd. cbv [ch] in Hd. simpl in Hd. zify_bool. lia. }
  assert (forall c, is_ascii_uppercase c = true -> 65 <= c <= 90) as Hup.
  { intros d Hd. unfold is_ascii_uppercase in Hd. cbv [ch] in Hd. simpl in Hd. zify_bool. lia. }
  change (ch "a") with 97. change (ch "A") with 65.
  assert (forall c, is_ascii_lowercase c = true \/ is_ascii_uppercase c = true ->
    (let! c := (if ctrl then
               if is_ascii_lowercase c then let! d := chk 8 (c - 97) in chk 8 (d + 1)
               else if is_ascii_uppercase c then let! d := chk 8 (c - 65) in chk 8 (d + 1)
               else Ret c
             else Ret c) in buffer_push c k) = buffer_push (if ctrl then Z.land c 31 else c) k) as Hctrl.
  { intros d Hd. destruct ctrl; [|done]. destruct Hd as [Hd|Hd].
    - destruct (lower_ops d Hd) as (_ & -> & _ & _). rewrite Hd. pose proof (Hlow d Hd).
      rewrite chk_Ret by lia. cbn [obind]. rewrite chk_Ret by lia. cbn [obind]. f_equal. lia.
    - destruct (upper_ops d Hd) as (_ & -> & _ & Hn). rewrite Hn, Hd. pose proof (Hup d Hd).
      rewrite chk_Ret by lia. cbn [obind]. rewrite chk_Ret by lia. cbn [obind]. f_equal. lia. }
  intros Hc -> Hct. rewrite <- Hct. unfold apply_caps_lock.
  destruct (caps_lock k =? 0); cbn [orb negb]; [by apply Hctrl|]. destruct Hc as [Hc|Hc].
  - destruct (lower_ops c Hc) as (-> & _ & Hu & _). rewrite Hc. pose proof (Hlow c Hc).
    rewrite chk_Ret by lia. cbn [obind]. apply Hctrl. by right.
  - destruct (upper_ops c Hc) as (-> & _ & Hl & Hn). rewrite Hn, Hc. pose proof (Hup c Hc).
    rewrite chk_Ret by lia. cbn [obind]. apply Hctrl. by left.
Qed.

(** What the handler does to the statics and the queue. *)
Definition handled (k k' : Keyboard) (sc : Z) : Prop :=
  kb_ok k' /\ mods k' = next_mods (mods k) sc /\ queue k' = enqueue (queue k) (key_of (mods k) sc).

Lemma handled_push k k1 sc key :
  kb_ok k1 -> mods k1 = next_mods (mods k) sc -> queue k1 = queue k ->
  key_of (mods k) sc = Some key ->
  exists k', buffer_push key k1 = Ret k' /\ handled k k' sc.
Proof.
  intros Hk Hm Hq Hkey. destruct (buffer_push_spec k1 key Hk) as (k' & Hrun & Hok & Hm' & Hq').
  exists k'. split; [done|]. split; [done|]. split; [congruence|]. by rewrite Hq', Hq, Hkey.
Qed.

Lemma handled_quiet k k1 sc :
  kb_ok k1 -> mods k1 = next_mods (mods k) sc -> queue k1 = queue k ->
  key_of (mods k) sc = None -> exists k', Ret k1 = Ret k' /\ handled k k' sc.
Proof. intros ? ? ? Hkey. exists k1. split; [done|]. split_and!; [done..|]. by rewrite Hkey. Qed.

Lemma irq_extended k sc :
  kb_ok k -> 0 <= sc < 256 -> sc <> 0xE0 -> extended_prefix k <> 0 ->
  exists k', irq sc k = Ret k' /\ handled k k' sc.
Proof.
  intros Hk Hsc Hne Hext. unfold irq.
  rewrite (proj2 (Z.eqb_neq sc _)) by done. rewrite (proj2 (Z.eqb_neq (extended_prefix k) 0)) by done.
  cbn [negb].
  assert (kb_ok (set_ext 0 k)) as Hk0 by (destruct Hk; by constructor).
  assert (m_ext (mods k) = true) as Hm by (cbn; by rewrite (proj2 (Z.eqb_neq _ _))).
  assert (next_mods (mods k) sc =
    mkMods (m_shift (mods k) && negb ((sc =? 0x2A) || (sc =? 0x36))) (m_ctrl (mods k)) (m_caps (mods k)) false)
    as Hnext by (unfold next_mods; rewrite (proj2 (Z.eqb_neq sc _)), Hm by done; done).
  destruct ((sc =? 0x2A) || (sc =? 0x36)) eqn:Hsh.
  { apply handled_quiet; [destruct Hk; by constructor| |done|].
    - rewrite Hnext. cbn. by rewrite andb_false_r.
    - unfold key_of. rewrite Hm. apply orb_true_iff in Hsh as [->%Z.eqb_eq| ->%Z.eqb_eq]; reflexivity. }
  rewrite high_bit by done. destruct (Z.ltb_spec sc 128); cbn [negb].
  2: { apply handled_quiet; [done| |done|].
    - rewrite Hnext. cbn. by rewrite andb_true_r.
    - unfold key_of. by rewrite (proj2 (Z.leb_le _ _)). }
  rewrite get8_table by (done || lia). cbn [obind]. unfold KEY_NONE.
  assert (key_of (mods k) sc = if EXTENDED_TO_KEY !!! Z.to_nat sc =? 0 then None
    else Some (EXTENDED_TO_KEY !!! Z.to_nat sc)) as Hkey.
  { unfold key_of. rewrite (proj2 (Z.leb_gt _ _)) by lia. rewrite Hm. by case_test. }
  assert (mods (set_ext 0 k) = next_mods (mods k) sc) as Hmods
    by (rewrite Hnext; cbn; by rewrite andb_true_r).
  destruct (EXTENDED_TO_KEY !!! Z.to_nat sc =? 0); cbn [negb].
  - by apply handled_quiet.
  - by apply handled_push.
Qed.

Lemma irq_plain k sc :
  kb_ok k -> 0 <= sc < 256 -> sc <> 0xE0 -> extended_prefix k = 0 ->
  exists k', irq sc k = Ret k' /\ handled k k' sc.
Proof.
  intros Hk Hsc Hne Hext. unfold irq.
  rewrite (proj2 (Z.eqb_neq sc _)) by done. rewrite Hext. cbn [negb Z.eqb].
  assert (m_ext (mods k) = false) as Hm by (cbn; by rewrite Hext).
  assert (next_mods (mods k) sc = mkMods
    (((sc =? 0x2A) || (sc =? 0x36)) || (m_shift (mods k) && negb ((sc =? 0xAA) || (sc =? 0xB6))))
    ((sc =? 0x1D) || (m_ctrl (mods k) && negb (sc =? 0x9D)))
    (xorb (m_caps (mods k)) (sc =? 0x3A)) false)
    as Hnext by (unfold next_mods; rewrite (proj2 (Z.eqb_neq sc _)), Hm by done; done).
  assert (forall f, (kb_ok (f k)) -> mods (f k) = next_mods (mods k) sc -> queue (f k) = queue k ->
    base_of (m_shift (mods k)) sc = 0 \/ 128 <= sc ->
    exists k', Ret (f k) = Ret k' /\ handled k k' sc) as Hquiet.
  { intros f ? ? ? Hb. apply handled_quiet; [done..|]. unfold key_of. rewrite Hm.
    destruct (Z.leb_spec 128 sc); [done|]. destruct Hb as [Hb|]; [|lia].
    unfold base_of in Hb. by rewrite Hb. }
  assert (mods k = mkMods (m_shift (mods k)) (m_ctrl (mods k)) (m_caps (mods k)) false) as Hmk
    by (rewrite <- Hm; by destruct (mods k)).
  destruct ((sc =? 0x2A) || (sc =? 0x36)) eqn:H1.
  { apply (Hquiet (set_shift 1)); [destruct Hk; by constructor| |done|left; apply modifier_codes; zify_bool; lia].
    rewrite Hnext. apply orb_true_iff in H1 as [->%Z.eqb_eq| ->%Z.eqb_eq]; unfold mods; cbn;
      by rewrite ?xorb_false_r, ?andb_true_r, ?Hext. }
  destruct (Z.eqb_spec sc 0x1D) as [->|H2].
  { apply (Hquiet (set_ctrl 1)); [destruct Hk; by constructor| |done|left; apply modifier_codes; lia].
    rewrite Hnext. unfold mods. cbn. by rewrite ?xorb_false_r, ?andb_true_r, ?Hext. }
  destruct (Z.eqb_spec sc 0x38) as [->|H3].
  { apply (Hquiet (set_alt 1)); [destruct Hk; by constructor| |done|left; apply modifier_codes; lia].
    rewrite Hnext. unfold mods. cbn. by rewrite ?xorb_false_r, ?andb_true_r, ?Hext. }
  destruct (Z.eqb_spec sc 0x3A) as [->|H4].
  { apply (Hquiet (set_caps _)); [| |done|left; apply modifier_codes; lia].
    - destruct Hk as [? ? ? [E|E]]; constructor; cbn; rewrite ?E; auto.
    - rewrite Hnext. unfold mods. cbn. rewrite ?andb_true_r, ?Hext. f_equal.
      by destruct (kb_caps _ Hk) as [->| ->]. }
  rewrite high_bit by done. destruct (Z.ltb_spec sc 128) as [Hlt|Hge]; cbn [negb].
  2: { rewrite low_bits by lia.
    assert (forall n m, m = n + 128 -> (sc - 128 =? n) = (sc =? m)) as Hrel
      by (intros n m ->; destruct (Z.eqb_spec (sc - 128) n), (Z.eqb_spec sc (n + 128)); lia || done).
    rewrite (Hrel 42 170), (Hrel 54 182), (Hrel 29 157), (Hrel 56 184) by done.
    destruct ((sc =? 170) || (sc =? 182)) eqn:R1; [|destruct (Z.eqb_spec sc 157); [|destruct (Z.eqb_spec sc 184)]].
    - apply (Hquiet (set_shift 0)); [destruct Hk; by constructor| |done|by right].
      replace (sc =? 157) with false in Hnext by (apply orb_true_iff in R1; lia).
      rewrite Hnext. unfold mods. cbn. by rewrite ?xorb_false_r, ?andb_true_r, ?andb_false_r, ?Hext.
    - apply (Hquiet (set_ctrl 0)); [destruct Hk; by constructor| |done|by right].
      rewrite Hnext. unfold mods. cbn. by rewrite ?xorb_false_r, ?andb_true_r, ?andb_false_r, ?Hext.
    - apply (Hquiet (set_alt 0)); [destruct Hk; by constructor| |done|by right].
      rewrite Hnext. unfold mods. cbn. by rewrite ?xorb_false_r, ?andb_true_r, ?Hext.
    - apply (Hquiet (fun k => k)); [done| |done|by right].
      rewrite Hnext. rewrite Hmk at 1. cbn. by rewrite ?xorb_false_r, ?andb_true_r. }
  rewrite (proj2 (Z.leb_gt _ _)) by lia.
  assert (mods k = next_mods (mods k) sc) as Hsame.
  { rewrite Hnext. rewrite Hmk at 1. cbn [orb].
    replace ((sc =? 170) || (sc =? 182)) with false by (symmetry; apply orb_false_iff; lia).
    replace (sc =? 157) with false by lia. cbn [orb negb]. by rewrite xorb_false_r, !andb_true_r. }
  assert ((if negb (shift_held k =? 0) then get8 SCANCODE_TO_ASCII_SHIFT sc else get8 SCANCODE_TO_ASCII sc)
    = Ret (base_of (m_shift (mods k)) sc)) as ->.
  { cbn. unfold base_of. destruct (shift_held k =? 0); (apply get8_table; [done|lia]). }
  cbn [obind]. unfold KEY_NONE. destruct (Z.eqb_spec (base_of (m_shift (mods k)) sc) 0) as [Hz|Hnz].
  { apply (Hquiet (fun k => k)); auto. }
  destruct (letters sc ltac:(lia)) as [La Ln].
  assert (key_of (mods k) sc = Some (if is_alpha_code sc
    then let c := if m_caps (mods k) then Z.lxor (base_of (m_shift (mods k)) sc) 32
                  else base_of (m_shift (mods k)) sc in if m_ctrl (mods k) then Z.land c 31 else c
    else base_of (m_shift (mods k)) sc)) as Hkey.
  { unfold key_of. rewrite (proj2 (Z.leb_gt _ _)), Hm by lia. cbn [negb andb].
    fold (base_of (m_shift (mods k)) sc). rewrite (proj2 (Z.eqb_neq _ _)) by done.
    by destruct (is_alpha_code sc). }
  destruct (is_alpha_code sc).
  - rewrite (letter_case k _ (m_caps (mods k)) (m_ctrl (mods k))); [|destruct (La eq_refl), (m_shift (mods k)); auto|done..].
    by apply handled_push.
  - assert ((if negb (caps_lock k =? 0) && negb (shift_held k =? 0)
       then apply_caps_lock k (base_of (m_shift (mods k)) sc) false
       else Ret (base_of (m_shift (mods k)) sc)) = Ret (base_of (m_shift (mods k)) sc)) as ->.
    { unfold apply_caps_lock. cbn [negb]. rewrite orb_true_r. by case_test. }
    cbn [obind]. destruct (Ln eq_refl (m_shift (mods k))) as [-> ->].
    destruct (ctrl_held k =? 0); cbn [negb obind]; by apply handled_push.
Qed.

Lemma irq_spec k sc :
  kb_ok k -> 0 <= sc < 256 -> exists k', irq sc k = Ret k' /\ handled k k' sc.
Proof.
  intros Hk Hsc. destruct (decide (sc = 0xE0)) as [->|Hne].
  - unfold irq. rewrite Z.eqb_refl. by apply handled_quiet; [destruct Hk; constructor| | |].
  - destruct (decide (extended_prefix k = 0)); [by apply irq_plain|by apply irq_extended].
Qed.

Lemma letter_nonzero c (caps ctrl : bool) :
  is_ascii_lowercase c = true \/ is_ascii_uppercase c = true ->
  (let d := if caps then Z.lxor c 32 else c in if ctrl then Z.land d 31 else d) <> 0.
Proof.
  intros Hc.
  pose proof (codes_forall (fun c => implb (is_ascii_lowercase c || is_ascii_uppercase c)
    (forallb (fun p : bool * bool => negb ((let d := if p.1 then Z.lxor c 32 else c in
       if p.2 then Z.land d 31 else d) =? 0)) [(false, false); (false, true); (true, false); (true, true)]))
    128 ltac:(vm_compute; reflexivity) c) as H. cbv beta in H.
  rewrite (proj2 (orb_true_iff _ _) Hc) in H. cbn [implb forallb] in H.
  assert (0 <= c < 128) as Hr.
  { unfold is_ascii_lowercase, is_ascii_uppercase in Hc. cbv [ch] in Hc. simpl in Hc.
    destruct Hc; zify_bool; lia. }
  specialize (H Hr). repeat apply andb_true_iff in H as [? H].
  destruct caps, ctrl; cbn in *; zify_bool; done.
Qed.

(** A scancode never stands for [KEY_NONE]. *)
Lemma key_of_nonzero m sc key : 0 <= sc -> key_of m sc = Some key -> key <> 0.
Proof.
  intros Hsc. unfold key_of. destruct (Z.leb_spec 128 sc); [done|].
  destruct (m_ext m) eqn:Hm; cbn [negb andb].
  - case_test; [done|]. by intros [= <-].
  - fold (base_of (m_shift m) sc). destruct (letters sc ltac:(lia)) as [La _].
    case_test; [done|]. destruct (is_alpha_code sc); [|by intros [= <-]]. intros [= <-].
    apply letter_nonzero. destruct (La eq_refl), (m_shift m); auto.
Qed.

(** ** Properties *)

(** Interrupts and reads in the order they happen. *)
Inductive kb_event := Scan (sc : Z) | Read.

Fixpoint kb_run (evs : list kb_event) (k : Keyboard) : outcome (list Z * Keyboard) :=
  match evs with
  | [] => Ret ([], k)
  | Scan sc :: evs' => let! k := irq sc k in kb_run evs' k
  | Read :: evs' =>
      let! r := input k in
      let! rest := kb_run evs' r.2 in
      Ret (r.1 :: rest.1, rest.2)
  end.

(** The same history on the abstract keyboard. *)
Fixpoint abs_run (evs : list kb_event) (m : Mods) (q : list Z) : list Z * (Mods * list Z) :=
  match evs with
  | [] => ([], (m, q))
  | Scan sc :: evs' => abs_run evs' (next_mods m sc) (enqueue q (key_of m sc))
  | Read :: evs' =>
      let '(outs, final) := abs_run evs' m (tail q) in
      (match q with [] => KEY_NONE | key :: _ => key end :: outs, final)
  end.

Definition events_ok (evs : list kb_event) : Prop :=
  Forall (fun e => match e with Scan sc => 0 <= sc < 256 | Read => True end) evs.

(** C36: The driver implements a bounded queue of decoded keys: along every
    history of interrupts and reads it never panics, each read returns the
    oldest key not yet read ([KEY_NONE] when there is none), keys come out in
    the order they were typed, and only a key arriving while 255 are pending
    is dropped. *)
Theorem keyboard_refines_queue (evs : list kb_event) (k : Keyboard)
    (Hk : kb_ok k) (Hevs : events_ok evs) :
  exists outs k', kb_run evs k = Ret (outs, k') /\ kb_ok k' /\
    abs_run evs (mods k) (queue k) = (outs, (mods k', queue k')).
Proof.
  revert k Hk. induction Hevs as [|e evs He _ IH]; intros k Hk; cbn [kb_run abs_run].
  - by exists [], k.
  - destruct e as [sc|].
    + destruct (irq_spec k sc Hk He) as (k1 & -> & Hk1 & Hm & Hq). cbn [obind].
      rewrite <- Hm, <- Hq. by apply IH.
    + pose proof (input_spec k Hk) as Hin. destruct (queue k) as [|key q] eqn:Hq.
      * rewrite Hin. cbn [obind fst snd]. destruct (IH k Hk) as (outs & k' & -> & Hk' & Habs).
        rewrite Hq in Habs. cbn [obind tail]. rewrite Habs. by eexists _, _.
      * destruct Hin as (k1 & -> & Hk1 & Hm & Hq1). cbn [obind fst snd].
        destruct (IH k1 Hk1) as (outs & k' & -> & Hk' & Habs).
        rewrite Hm, Hq1 in Habs. cbn [obind tail]. rewrite Habs. by eexists _, _.
Qed.

Definition sample_kb : Keyboard := mkKb (zeros 256) 255 255 0 0 0 0 0.

Lemma sample_kb_ok : kb_ok sample_kb.
Proof. constructor; cbn [sample_kb kb_buffer kb_head kb_tail caps_lock]; [reflexivity|lia|lia|auto]. Qed.

(** Shift and [a], release, caps lock and [a], then three reads, across the end
    of the ring. *)
Lemma keyboard_refines_queue_witness :
  exists outs k',
    kb_run [Scan 0x2A; Scan 0x1E; Scan 0xAA; Scan 0x1E; Scan 0x3A; Scan 0x1E; Read; Read; Read; Read]
      sample_kb = Ret (outs, k') /\ outs = [65; 97; 65; 0].
Proof.
  destruct (keyboard_refines_queue
    [Scan 0x2A; Scan 0x1E; Scan 0xAA; Scan 0x1E; Scan 0x3A; Scan 0x1E; Read; Read; Read; Read]
    sample_kb sample_kb_ok) as (outs & k' & Hrun & _ & Habs).
  - repeat constructor; lia.
  - exists outs, k'. split; [exact Hrun|]. apply (f_equal fst) in Habs. cbn [fst] in Habs.
    rewrite <- Habs. vm_compute. reflexivity.
Defined.

(** A key code in the queue is never [KEY_NONE], so a reader that gets
    [KEY_NONE] knows that no key was pending: if the queue held no zero, it
    still holds none after an interrupt, and then [input] answers [KEY_NONE]
    exactly when [has_input] was false. *)
Theorem keyboard_none_means_empty (k k' : Keyboard) (sc : Z)
    (Hk : kb_ok k) (Hsc : 0 <= sc < 256) (Hq : Forall (fun key => key <> 0) (queue k))
    (Hirq : irq sc k = Ret k') :
  Forall (fun key => key <> 0) (queue k') /\
  exists key k2, input k' = Ret (key, k2) /\ (key = KEY_NONE <-> has_input k' = false).
Proof.
  destruct (irq_spec k sc Hk Hsc) as (k1 & Hrun & Hk1 & _ & Hq1). rewrite Hirq in Hrun.
  injection Hrun as <-.
  assert (Forall (fun key => key <> 0) (queue k')) as Hall.
  { rewrite Hq1. unfold enqueue. destruct (key_of (mods k) sc) as [key|] eqn:Hkey; [|done].
    case_match; [|done]. apply Forall_app; split; [done|]. apply Forall_singleton.
    by eapply key_of_nonzero; [|exact Hkey]; lia. }
  split; [done|].
  assert (has_input k' = false <-> queue k' = []) as Hhas.
  { rewrite <- length_zero_iff_nil, queue_length. unfold has_input, pending.
    destruct Hk1 as [_ ? ? _]. destruct (Z.eqb_spec (kb_head k') (kb_tail k')); cbn [negb]; split; lia || done. }
  pose proof (input_spec k' Hk1) as Hin. destruct (queue k') as [|key q].
  - exists KEY_NONE, k'. rewrite Hin, Hhas. done.
  - destruct Hin as (k2 & -> & _). exists key, k2. rewrite Hhas. split; [done|].
    apply Forall_cons_1 in Hall as [? _]. done.
Qed.

Lemma keyboard_none_means_empty_witness :
  exists k' key k2, irq 0x1E sample_kb = Ret k' /\ input k' = Ret (key, k2) /\
    (key = KEY_NONE <-> has_input k' = false).
Proof.
  destruct (irq_spec sample_kb 0x1E sample_kb_ok ltac:(lia)) as (k' & Hrun & _).
  destruct (keyboard_none_means_empty sample_kb k' 0x1E sample_kb_ok ltac:(lia)
    ltac:(constructor) Hrun) as (_ & key & k2 & Hin & Hiff).
  exists k', key, k2. split; [exact Hrun|]. split; [exact Hin|exact Hiff].
Defined.
