(* ===== verification/KbdCtl.v ===== *)
(** * The keyboard controller ([src/src/keyboard.rs], [kbd_cmd] to [init])

    The handshake of [init] with the 8042: every byte sent waits until the input
    buffer is free, every answer until the output buffer is full, at most a thousand
    looks at the status port each. The controller is known by its two ports ([Ps2])
    and, for the theorem, by what its data sheet says they do ([Ps2Laws]). *)

From S2P Require Import Prelude Keyboard.
From stdpp Require Import list.
#[local] Open Scope Z_scope.

Definition DATA_PORT : Z := 0x60.
Definition CMD_PORT : Z := 0x64.

(** The port space: [inb] and [outb] of [io.rs]. *)
Class Ps2 (H : Type) := {
  port_in : Z -> H -> Z * H;
  port_out : Z -> Z -> H -> H;
}.

Section Handshake.
Context {H : Type} `{PS : Ps2 H}.

Definition inb (port : Z) : M H Z := fun h => Ret (port_in port h).
Definition outb (port val : Z) : M H unit := smodify (port_out port val).
Definition io_wait : M H unit := outb 0x80 0.

(** A byte to one of the two ports, once the input buffer is free; after a thousand
    looks it is dropped. *)
Definition send_turn (port val : Z) (_ : Z) (_ : unit) : M H (flow unit unit) :=
  status <- inb CMD_PORT ;;
  if Z.land status 0x02 =? 0 then _ <- outb port val ;; sret (Exit tt)
  else _ <- io_wait ;; sret (Next tt).

Definition kbd_cmd (cmd : Z) : M H unit := _ <- for_loop 1000 0 (send_turn CMD_PORT cmd) tt ;; sret tt.
Definition kbd_write (val : Z) : M H unit := _ <- for_loop 1000 0 (send_turn DATA_PORT val) tt ;; sret tt.

Definition answer_turn (_ : Z) (_ : unit) : M H (flow unit Z) :=
  status <- inb CMD_PORT ;;
  if negb (Z.land status 0x01 =? 0) then v <- inb DATA_PORT ;; sret (Exit v)
  else _ <- io_wait ;; sret (Next tt).

Definition kbd_read : M H Z :=
  r <- for_loop 1000 0 answer_turn tt ;;
  sret (match r with Exit v => v | Next _ => 0 end).

Definition kbd_flush (fuel : nat) : M H unit :=
  while_loop fuel (fun _ =>
    status <- inb CMD_PORT ;;
    if negb (Z.land status 0x01 =? 0) then _ <- inb DATA_PORT ;; _ <- io_wait ;; sret (Next tt) else sret (Exit tt)) tt.

(** The part of [init] that talks to the controller. *)
Definition handshake (fuel : nat) : M H unit :=
  _ <- kbd_cmd 0xAD ;;
  _ <- kbd_flush fuel ;;
  _ <- kbd_cmd 0x20 ;;
  config <- kbd_read ;;
  let config := Z.lor config 0x01 in
  let config := Z.lor config 0x40 in
  let config := Z.land config (unot 8 0x10) in
  _ <- kbd_cmd 0x60 ;;
  _ <- kbd_write config ;;
  _ <- kbd_cmd 0xAE ;;
  _ <- kbd_write 0xF4 ;;
  _ <- kbd_read ;;
  sret tt.

Definition init (fuel : nat) : M (H * Keyboard) unit := fun '(h, k) =>
  match handshake fuel h with
  | Ret (_, h') => Ret (tt, (h', init_state k))
  | Panic => Panic
  | OutOfFuel => OutOfFuel
  end.
End Handshake.

(** ** The 8042 *)

(** Bytes for the processor, oldest first; the configuration byte; whether the next
    byte on the data port is a new configuration; whether the keyboard reports keys;
    and for how many more looks at the status port the input buffer stays full, and
    the output buffer looks empty. *)
Record View := mkView {
  pending : list Z;
  config : Z;
  expects : bool;
  scanning : bool;
  wait_in : nat;
  wait_out : nat;
}.

Definition tick (v : View) : View := mkView (pending v) (config v) (expects v) (scanning v) (pred (wait_in v)) (pred (wait_out v)).

(** The commands the driver uses; a busy time [wi] follows each, and an answer shows
    after [wo]. *)
Definition commanded (c : Z) (v : View) (wi wo : nat) : option View :=
  if c =? 0xAD then Some (mkView (pending v) (Z.lor (config v) 0x10) (expects v) (scanning v) wi (wait_out v))
  else if c =? 0xAE then Some (mkView (pending v) (Z.land (config v) (unot 8 0x10)) (expects v) (scanning v) wi (wait_out v))
  else if c =? 0x20 then Some (mkView (pending v ++ [config v]) (config v) (expects v) (scanning v) wi wo)
  else if c =? 0x60 then Some (mkView (pending v) (config v) true (scanning v) wi (wait_out v))
  else None.

(** A byte on the data port: a configuration, or [0xF4] for the keyboard, which
    acknowledges it. *)
Definition sent (b : Z) (v : View) (wi wo : nat) : option View :=
  if expects v then Some (mkView (pending v) b false (scanning v) wi (wait_out v))
  else if b =? 0xF4 then Some (mkView (pending v ++ [0xFA]) (config v) false true wi wo)
  else None.

(** A controller that is never busy for a thousand looks, while no key is pressed. *)
Class Ps2Laws (H : Type) `{PS : Ps2 H} := {
  ps_view : H -> View;
  ps_status : forall h, exists st h', port_in CMD_PORT h = (st, h') /\ ps_view h' = tick (ps_view h) /\
    (Z.land st 0x01 =? 0) = negb (bool_decide (pending (ps_view h) <> [] /\ wait_out (ps_view h) = 0%nat)) /\
    (Z.land st 0x02 =? 0) = bool_decide (wait_in (ps_view h) = 0%nat);
  ps_data : forall h b q, pending (ps_view h) = b :: q -> wait_out (ps_view h) = 0%nat ->
    exists h', port_in DATA_PORT h = (b, h') /\
      ps_view h' = mkView q (config (ps_view h)) (expects (ps_view h)) (scanning (ps_view h)) (wait_in (ps_view h)) 0;
  ps_wait : forall h, ps_view (port_out 0x80 0 h) = ps_view h;
  ps_cmd : forall h c, wait_in (ps_view h) = 0%nat -> exists wi wo, (wi < 1000)%nat /\ (wo < 1000)%nat /\
    forall v', commanded c (ps_view h) wi wo = Some v' -> ps_view (port_out CMD_PORT c h) = v';
  ps_sent : forall h b, wait_in (ps_view h) = 0%nat -> exists wi wo, (wi < 1000)%nat /\ (wo < 1000)%nat /\
    forall v', sent b (ps_view h) wi wo = Some v' -> ps_view (port_out DATA_PORT b h) = v';
}.

Section Handshakes.
Context {H : Type} `{PL : Ps2Laws H}.

(** The view after waiting for the input buffer. *)
Definition rested (v v' : View) : Prop :=
  pending v' = pending v /\ config v' = config v /\ expects v' = expects v /\ scanning v' = scanning v /\
  wait_in v' = 0%nat /\ (wait_out v' <= wait_out v)%nat.

Lemma send_run port val n : forall i h, (wait_in (ps_view h) < n)%nat ->
  exists h1, for_loop n i (send_turn port val) tt h = Ret (Exit tt, port_out port val h1) /\ rested (ps_view h) (ps_view h1).
Proof.
  induction n as [|n IH]; intros i h Hn; [lia|]. cbn [for_loop]. unfold send_turn at 1.
  destruct (ps_status h) as (st & h' & Hst & Hv & _ & Hfree). unfold inb, sbind at 1, sbind at 1. rewrite Hst, Hfree.
  case_bool_decide as Hw.
  - exists h'. split; [reflexivity|]. rewrite Hv. unfold rested. cbn. rewrite Hw. repeat split; lia.
  - cbn. destruct (IH (i + 1) (port_out 0x80 0 h')) as (h1 & Hrun & Hr); [rewrite ps_wait, Hv; cbn; lia|].
    exists h1. split; [exact Hrun|]. rewrite ps_wait, Hv in Hr. destruct Hr as (? & ? & ? & ? & ? & Hwo). cbn in *. repeat split; try done. lia.
Qed.

(** What is known of a controller between two steps; an answer shows within [wo]. *)
Record stands (v : View) (P : list Z) (c : Z) (e s : bool) (wo : nat) : Prop := {
  st_pending : pending v = P;
  st_config : config v = c;
  st_expects : expects v = e;
  st_scanning : scanning v = s;
  st_in : (wait_in v < 1000)%nat;
  st_out : (wait_out v <= wo)%nat;
}.

Lemma rested_stands v v1 P c e s wo wi : stands v P c e s wo -> rested v v1 -> (wi < 1000)%nat ->
  stands (mkView (pending v1) (config v1) (expects v1) (scanning v1) wi (wait_out v1)) P c e s wo.
Proof. intros [] (? & ? & ? & ? & ? & ?) ?. constructor; cbn; try congruence; lia. Qed.

Lemma sent_run port b h P c e s wo : stands (ps_view h) P c e s wo -> exists h1,
  (_ <- for_loop 1000 0 (send_turn port b) tt ;; sret tt) h = Ret (tt, port_out port b h1) /\
  wait_in (ps_view h1) = 0%nat /\ stands (ps_view h1) P c e s wo.
Proof.
  intros Hs. destruct (send_run port b 1000 0 h ltac:(apply Hs)) as (h1 & Hrun & Hr). exists h1.
  split; [by rewrite (sbind_Ret _ _ _ _ _ Hrun)|]. split; [apply Hr|].
  pose proof (rested_stands _ _ _ _ _ _ _ 0 Hs Hr ltac:(lia)) as [? ? ? ? _ ?]. destruct Hr as (_ & _ & _ & _ & E & _).
  constructor; try done. rewrite E. lia.
Qed.

(** One command, one byte for the data port. *)
Lemma cmd_run cmd h P c e s wo : stands (ps_view h) P c e s wo ->
  match commanded cmd (mkView P c e s 0 wo) 0 999 with
  | None => True
  | Some v => exists h', kbd_cmd cmd h = Ret (tt, h') /\ stands (ps_view h') (pending v) (config v) (expects v) (scanning v) (wait_out v)
  end.
Proof.
  intros Hs. destruct (sent_run CMD_PORT cmd h _ _ _ _ _ Hs) as (h1 & Hrun & Hw & [<- <- <- <- _ Ho]).
  destruct (ps_cmd h1 cmd Hw) as (wi & wo' & Hwi & Hwo & Hc). revert Hc. unfold commanded. cbn [pending config expects scanning wait_out].
  repeat (destruct (_ =? _); [intros Hc; eexists; split; [exact Hrun|]; rewrite (Hc _ eq_refl); constructor; cbn; try done; lia|]). done.
Qed.

Lemma byte_run b h P c e s wo : stands (ps_view h) P c e s wo ->
  match sent b (mkView P c e s 0 wo) 0 999 with
  | None => True
  | Some v => exists h', kbd_write b h = Ret (tt, h') /\ stands (ps_view h') (pending v) (config v) (expects v) (scanning v) (wait_out v)
  end.
Proof.
  intros Hs. destruct (sent_run DATA_PORT b h _ _ _ _ _ Hs) as (h1 & Hrun & Hw & [<- <- <- <- _ Ho]).
  destruct (ps_sent h1 b Hw) as (wi & wo' & Hwi & Hwo & Hc). revert Hc. unfold sent. cbn [pending config expects scanning wait_out].
  repeat (match goal with |- context [if ?x then _ else _] => destruct x end;
    [intros Hc; eexists; split; [exact Hrun|]; rewrite (Hc _ eq_refl); constructor; cbn; try done; lia|]). done.
Qed.

Lemma status_stands h P c e s wo : stands (ps_view h) P c e s wo -> exists st h', port_in CMD_PORT h = (st, h') /\
  stands (ps_view h') P c e s (pred wo) /\ (P = [] -> (Z.land st 0x01 =? 0) = true) /\
  (P <> [] -> wait_out (ps_view h) = 0%nat -> (Z.land st 0x01 =? 0) = false /\ wait_out (ps_view h') = 0%nat).
Proof.
  intros [HP ? ? ? ? ?]. destruct (ps_status h) as (st & h' & E & Hv & Hst & _). exists st, h'. split; [done|].
  rewrite Hv, Hst, HP. split; [constructor; cbn; try done; lia|]. split.
  - intros ->. by rewrite bool_decide_false by (by intros []).
  - intros HP' Hw. rewrite bool_decide_true by done. cbn. by rewrite Hw.
Qed.

(** An answer is read once it shows. *)
Lemma answer_run n b : forall i h c e s, stands (ps_view h) [b] c e s (pred n) -> (0 < n)%nat ->
  exists h', for_loop n i answer_turn tt h = Ret (Exit b, h') /\ stands (ps_view h') [] c e s 0.
Proof.
  induction n as [|n IH]; intros i h c e s Hs Hn; [lia|]. cbn [for_loop pred] in *. unfold answer_turn at 1.
  destruct (ps_status h) as (st & h1 & Est & Hv & Hbit & _). destruct Hs as [HP Hc He Hsc Hi Ho].
  assert ((Z.land st 0x01 =? 0) = negb (bool_decide (wait_out (ps_view h) = 0%nat))) as Hb1.
  { rewrite Hbit. f_equal. apply bool_decide_ext. rewrite HP. split; [by intros []|by split]. }
  unfold inb at 1, sbind at 1, sbind at 1. rewrite Est, Hb1. case_bool_decide as Hw; cbn [negb].
  - destruct (ps_data h1 b []) as (h' & Ed & Hv'); [by rewrite Hv|by rewrite Hv; cbn; rewrite Hw|].
    unfold inb, sbind, sret. rewrite Ed. exists h'. split; [done|]. rewrite Hv', Hv. constructor; cbn; try done. lia.
  - cbn. apply IH; [|lia]. rewrite ps_wait, Hv. constructor; cbn; try done; lia.
Qed.

(** Bytes that show are all drained. *)
Lemma drain_run P : forall fuel h c e s, stands (ps_view h) P c e s 0 -> (length P < fuel)%nat ->
  exists h', kbd_flush fuel h = Ret (tt, h') /\ stands (ps_view h') [] c e s 0.
Proof.
  induction P as [|b P IH]; intros [|fuel] h c e s Hs Hf; cbn [length] in Hf; try lia;
    destruct (status_stands _ _ _ _ _ _ Hs) as (st & h1 & Est & Hs1 & Hnil & Hcons); unfold kbd_flush; cbn [while_loop];
    unfold inb at 1, sbind at 1, sbind at 1; rewrite Est.
  - rewrite (Hnil eq_refl). by exists h1.
  - destruct (Hcons ltac:(done)) as [-> Hw1]; [pose proof (st_out _ _ _ _ _ _ Hs); lia|]. cbn [negb].
    destruct (ps_data h1 b P) as (h2 & Ed & Hv2); [apply Hs1|done|]. unfold inb at 1, sbind at 1. rewrite Ed.
    apply (IH fuel (port_out 0x80 0 h2) c e s); [|lia]. rewrite ps_wait, Hv2. destruct Hs1. by constructor.
Qed.
End Handshakes.

(** On a controller that is never busy for a thousand looks, and while no key is
    pressed, [init] returns whatever stale bytes it finds: the keyboard reports keys,
    its interrupt and the translation to scan code set 1 are on, its port is enabled,
    every other bit of the configuration is as it was, no byte is left to be taken
    for a scan code, and the ring buffer and the modifiers are reset. *)
Theorem keyboard_init_correct {H} `{PL : Ps2Laws H} (h : H) (k : Keyboard) (fuel : nat)
    (Hcfg : 0 <= config (ps_view h) < 256) (Hexp : expects (ps_view h) = false)
    (Hin : (wait_in (ps_view h) < 1000)%nat) (Hout : wait_out (ps_view h) = 0%nat) (Hfuel : (length (pending (ps_view h)) < fuel)%nat) :
  exists h', init fuel (h, k) = Ret (tt, (h', init_state k)) /\ pending (ps_view h') = [] /\ scanning (ps_view h') = true /\
    forall i, 0 <= i < 8 -> Z.testbit (config (ps_view h')) i =
      if bool_decide (i = 0 \/ i = 6) then true else if bool_decide (i = 4) then false else Z.testbit (config (ps_view h)) i.
Proof.
  set (v := ps_view h) in *. assert (stands (ps_view h) (pending v) (config v) false (scanning v) 0) as S0 by (constructor; try done; unfold v in *; lia).
  set (c1 := Z.lor (config v) 0x10).
  destruct (cmd_run 0xAD _ _ _ _ _ _ S0) as (h1 & R1 & S1). cbn in S1. fold c1 in S1.
  destruct (drain_run _ fuel _ _ _ _ S1 Hfuel) as (h2 & R2 & S2).
  destruct (cmd_run 0x20 _ _ _ _ _ _ S2) as (h3 & R3 & S3). cbn in S3.
  destruct (answer_run 1000 _ 0 _ _ _ _ S3 ltac:(lia)) as (h4 & R4 & S4).
  destruct (cmd_run 0x60 _ _ _ _ _ _ S4) as (h5 & R5 & S5). cbn in S5.
  set (c2 := Z.land (Z.lor (Z.lor c1 0x01) 0x40) (unot 8 0x10)).
  destruct (byte_run c2 _ _ _ _ _ _ S5) as (h6 & R6 & S6). cbn in S6.
  destruct (cmd_run 0xAE _ _ _ _ _ _ S6) as (h7 & R7 & S7). cbn [commanded Z.eqb Pos.eqb pending config expects scanning wait_out] in S7.
  destruct (byte_run 0xF4 _ _ _ _ _ _ S7) as (h8 & R8 & S8). cbn [sent Z.eqb Pos.eqb pending config expects scanning wait_out app] in S8.
  destruct (answer_run 1000 _ 0 _ _ _ _ S8 ltac:(lia)) as (h9 & R9 & S9).
  exists h9. split; [|split; [apply S9|split; [apply S9|]]].
  - unfold init, handshake. rewrite (sbind_Ret _ _ _ _ _ R1), (sbind_Ret _ _ _ _ _ R2), (sbind_Ret _ _ _ _ _ R3).
    assert (kbd_read h3 = Ret (c1, h4)) as R4' by (unfold kbd_read; by rewrite (sbind_Ret _ _ _ _ _ R4)). rewrite (sbind_Ret _ _ _ _ _ R4').
    rewrite (sbind_Ret _ _ _ _ _ R5), (sbind_Ret _ _ _ _ _ R6), (sbind_Ret _ _ _ _ _ R7), (sbind_Ret _ _ _ _ _ R8).
    assert (kbd_read h8 = Ret (0xFA, h9)) as R9' by (unfold kbd_read; by rewrite (sbind_Ret _ _ _ _ _ R9)). by rewrite (sbind_Ret _ _ _ _ _ R9').
  - intros i Hi. rewrite (st_config _ _ _ _ _ _ S9). unfold c2, c1. rewrite !Z.land_spec, !Z.lor_spec.
    assert (i = 0 \/ i = 1 \/ i = 2 \/ i = 3 \/ i = 4 \/ i = 5 \/ i = 6 \/ i = 7) as Hcase by lia.
    destruct Hcase as [-> | [-> | [-> | [-> | [-> | [-> | [-> | ->]]]]]]]; by destruct (Z.testbit (config v) _).
Qed.

(** A controller that is busy for three looks after each byte and answers after two,
    with a stale byte in its output buffer. *)
#[local] Instance slow_ps2 : Ps2 View := {|
  port_in p v :=
    if p =? CMD_PORT then
      ((if bool_decide (pending v <> [] /\ wait_out v = 0%nat) then 1 else 0) + (if bool_decide (wait_in v = 0%nat) then 0 else 2), tick v)
    else match pending v with
         | [] => (0, v)
         | b :: q => (b, mkView q (config v) (expects v) (scanning v) (wait_in v) 0)
         end;
  port_out p b v :=
    if p =? CMD_PORT then default v (commanded b v 3 2) else if p =? DATA_PORT then default v (sent b v 3 2) else v;
|}.

#[local] Instance slow_laws : Ps2Laws View.
Proof.
  refine {| ps_view v := v |}.
  - intros v. eexists _, _. split; [reflexivity|]. split; [reflexivity|]. by repeat case_bool_decide.
  - intros v b q HP Hw. cbn. rewrite HP. by eexists.
  - done.
  - intros v c _. exists 3%nat, 2%nat. split; [lia|]. split; [lia|]. by intros v' E; cbn; rewrite E.
  - intros v b _. exists 3%nat, 2%nat. split; [lia|]. split; [lia|]. by intros v' E; cbn; rewrite E.
Defined.

Lemma keyboard_init_correct_witness : exists h', init 2 (mkView [0x1C] 0x24 false false 5 0, sample_kb) = Ret (tt, (h', init_state sample_kb)) /\
  pending h' = [] /\ scanning h' = true /\ Z.testbit (config h') 0 = true.
Proof.
  destruct (keyboard_init_correct (mkView [0x1C] 0x24 false false 5 0) sample_kb 2) as (h' & Hrun & Hp & Hs & Hc).
  - cbn. lia.
  - reflexivity.
  - cbn. lia.
  - reflexivity.
  - cbn. lia.
  - exists h'. split; [exact Hrun|]. split; [exact Hp|]. split; [exact Hs|]. exact (Hc 0 ltac:(lia)).
Defined.
