(* ===== verification/Scheduler.v ===== *)
(** * The scheduler ([src/src/scheduler.rs])

    One table of 64 ring-3 tasks, one idle task per CPU and a per-CPU pair of
    pointers (current, deferred). Every operation runs under the lock [RUNQ]
    with interrupts off (see [Spinlock.v]), so it is one step of the system;
    the argument [cpu] is the value [smp::cpu_index()] has on the CPU that
    executes it (see [Smp.v]). The interleavings of several CPUs are sequences
    of such steps ([sched_step]). *)

From S2P Require Import Prelude Io.
From S2P Require Heap.
From stdpp Require Import list relations.
#[local] Open Scope Z_scope.

Definition MAX_TASKS : nat := 64.
Definition MAX_CPUS : nat := 32.
Definition KERNEL_STACK_SIZE : Z := 64 * 1024.
Definition FRAME_WORDS : Z := 22.

Definition SYSCALL_VECTOR : Z := 0x80.
Definition TIMER_VECTOR : Z := 32.
Definition KERNEL_CODE_SELECTOR : Z := 0x08.
Definition KERNEL_DATA_SELECTOR : Z := 0x10.
Definition USER_CODE_SELECTOR : Z := Z.lor 0x18 3.
Definition USER_DATA_SELECTOR : Z := Z.lor 0x20 3.

Inductive TaskState := Unused | Ready | Running | Blocked | Dead.
Inductive TaskKind := User | Idle.

#[export] Instance TaskState_eq_dec : EqDecision TaskState.
Proof. solve_decision. Defined.
#[export] Instance TaskKind_eq_dec : EqDecision TaskKind.
Proof. solve_decision. Defined.

Record Task := mkTask {
  state : TaskState;
  kind : TaskKind;
  cpu_ : nat;
  frame : Z;
  kstack : Z;
  wake_tick : Z;
  wait_input : bool;
}.

Definition EMPTY_TASK : Task := mkTask Unused Idle 0 0 0 0 false.

(** A pointer to a task: an element of [TASKS] or of [IDLE]. *)
Inductive tref := Tsk (i : nat) | Idl (c : nat).

#[export] Instance tref_eq_dec : EqDecision tref.
Proof. solve_decision. Defined.

Record PerCpu := mkPerCpu {
  current : option tref;
  deferred : option tref;
}.

#[export] Instance PerCpu_eq_dec : EqDecision PerCpu.
Proof. solve_decision. Defined.

Definition EMPTY_PERCPU : PerCpu := mkPerCpu None None.

(** The statics of the module, the [rsp0] fields of the TSS table, the memory
    that holds the kernel stacks (by word address) and the heap they come
    from. [ring0_base] is the address of [RING0_STACKS], [idle_entry] the
    address of [idle_loop]; the linker chooses both. *)
Record Sched := mkSched {
  initialized : bool;
  tasks : list Task;
  idle : list Task;
  percpu : list PerCpu;
  rsp0 : list Z;
  stacks : gmap Z Z;
  kheap : Heap.Heap;
  cpu_count : nat;
  ring0_base : Z;
  idle_entry : Z;
}.

Definition set_tasks (s : Sched) (ts : list Task) : Sched :=
  mkSched (initialized s) ts (idle s) (percpu s) (rsp0 s) (stacks s) (kheap s)
    (cpu_count s) (ring0_base s) (idle_entry s).
Definition set_idle (s : Sched) (ts : list Task) : Sched :=
  mkSched (initialized s) (tasks s) ts (percpu s) (rsp0 s) (stacks s) (kheap s)
    (cpu_count s) (ring0_base s) (idle_entry s).
Definition set_percpu (s : Sched) (ps : list PerCpu) : Sched :=
  mkSched (initialized s) (tasks s) (idle s) ps (rsp0 s) (stacks s) (kheap s)
    (cpu_count s) (ring0_base s) (idle_entry s).
Definition set_rsp0 (s : Sched) (r : list Z) : Sched :=
  mkSched (initialized s) (tasks s) (idle s) (percpu s) r (stacks s) (kheap s)
    (cpu_count s) (ring0_base s) (idle_entry s).
Definition set_stacks (s : Sched) (m : gmap Z Z) : Sched :=
  mkSched (initialized s) (tasks s) (idle s) (percpu s) (rsp0 s) m (kheap s)
    (cpu_count s) (ring0_base s) (idle_entry s).
Definition set_kheap (s : Sched) (h : Heap.Heap) : Sched :=
  mkSched (initialized s) (tasks s) (idle s) (percpu s) (rsp0 s) (stacks s) h
    (cpu_count s) (ring0_base s) (idle_entry s).

(** Reading and writing through a task pointer; indices are bounds-checked. *)
Definition find_task (s : Sched) (r : tref) : option Task :=
  match r with
  | Tsk i => tasks s !! i
  | Idl c => idle s !! c
  end.

Definition put_task (s : Sched) (r : tref) (t : Task) : Sched :=
  match r with
  | Tsk i => set_tasks s (<[i := t]> (tasks s))
  | Idl c => set_idle s (<[c := t]> (idle s))
  end.

Definition get_task (r : tref) : M Sched Task := fun s =>
  match find_task s r with Some t => Ret (t, s) | None => Panic end.

Definition upd_task (r : tref) (f : Task -> Task) : M Sched unit := fun s =>
  match find_task s r with Some t => Ret (tt, put_task s r (f t)) | None => Panic end.

Definition per_cpu (c : nat) : M Sched PerCpu := fun s =>
  match percpu s !! c with Some p => Ret (p, s) | None => Panic end.

Definition set_per_cpu (c : nat) (p : PerCpu) : M Sched unit := fun s =>
  if (c <? length (percpu s))%nat then Ret (tt, set_percpu s (<[c := p]> (percpu s))) else Panic.

(** [gdt::set_kernel_stack] and [gdt::kstack_top] *)
Definition set_kernel_stack (c : nat) (top : Z) : M Sched unit := fun s =>
  if (c <? length (rsp0 s))%nat then Ret (tt, set_rsp0 s (<[c := top]> (rsp0 s))) else Panic.

Definition RING0_STACK_SIZE : Z := 16 * 1024.

Definition kstack_top (c : nat) : M Sched Z := fun s =>
  if (c <? MAX_CPUS)%nat then
    let base := ring0_base s + Z.of_nat c * RING0_STACK_SIZE in
    match chk 64 (base + RING0_STACK_SIZE) with
    | Ret t => Ret (Z.land t (unot 64 0xF), s)
    | Panic => Panic
    | OutOfFuel => OutOfFuel
    end
  else Panic.

Definition with_state (st : TaskState) (t : Task) : Task :=
  mkTask st (kind t) (cpu_ t) (frame t) (kstack t) (wake_tick t) (wait_input t).
Definition with_frame (f : Z) (t : Task) : Task :=
  mkTask (state t) (kind t) (cpu_ t) f (kstack t) (wake_tick t) (wait_input t).
Definition with_cpu (c : nat) (t : Task) : Task :=
  mkTask (state t) (kind t) c (frame t) (kstack t) (wake_tick t) (wait_input t).
Definition with_wait (tick : Z) (inp : bool) (t : Task) : Task :=
  mkTask (state t) (kind t) (cpu_ t) (frame t) (kstack t) tick inp.

(** ** Frames *)

Definition frame_at (kstack_top : Z) : outcome Z := chk 64 (kstack_top - FRAME_WORDS * 8).

(** The words of a fresh frame from its address up: 15 zero registers, the
    vector, an error code of 0 and the [iretq] frame. *)
Definition frame_image (vector rip cs rsp ss : Z) : list Z :=
  replicate 15 0 ++ [vector; 0; rip; cs; 0x202; rsp; ss].

Fixpoint write_words (m : gmap Z Z) (a : Z) (ws : list Z) : gmap Z Z :=
  match ws with
  | [] => m
  | w :: ws' => write_words (<[a := w]> m) (a + 8) ws'
  end.

Definition build_user_frame (kstack_top entry stack : Z) : M Sched Z :=
  f <-! frame_at kstack_top ;;
  _ <- smodify (fun s => set_stacks s (write_words (stacks s) f
         (frame_image SYSCALL_VECTOR entry USER_CODE_SELECTOR stack USER_DATA_SELECTOR))) ;;
  sret f.

Definition build_idle_frame (kstack_top : Z) : M Sched Z :=
  f <-! frame_at kstack_top ;;
  _ <- smodify (fun s => set_stacks s (write_words (stacks s) f
         (frame_image TIMER_VECTOR (idle_entry s) KERNEL_CODE_SELECTOR kstack_top
            KERNEL_DATA_SELECTOR))) ;;
  sret f.

(** ** Operations *)

(** The first [Ready] task of the table other than [cur]. *)
Fixpoint pick_from (cur : option tref) (i : nat) (ts : list Task) : option nat :=
  match ts with
  | [] => None
  | t :: ts' =>
      if bool_decide (state t = Ready) && negb (bool_decide (cur = Some (Tsk i)))
      then Some i
      else pick_from cur (S i) ts'
  end.

Definition pick (cur : option tref) : M Sched (option tref) := fun s =>
  Ret (Tsk <$> pick_from cur 0 (tasks s), s).

Definition init_idle (c : Z) (_ : unit) : M Sched (flow unit unit) :=
  let c := Z.to_nat c in
  top <- kstack_top c ;;
  f <- build_idle_frame top ;;
  _ <- upd_task (Idl c) (fun t => mkTask Unused Idle c f top (wake_tick t) (wait_input t)) ;;
  sret (Next tt).

Definition init_global : M Sched unit :=
  _ <- smodify (fun s => set_tasks s (replicate MAX_TASKS EMPTY_TASK)) ;;
  s <- sget ;;
  _ <- for_loop (cpu_count s) 0 init_idle tt ;;
  smodify (fun s => mkSched true (tasks s) (idle s) (percpu s) (rsp0 s) (stacks s) (kheap s)
    (cpu_count s) (ring0_base s) (idle_entry s)).

Definition init_cpu (cpu : nat) : M Sched unit :=
  _ <- upd_task (Idl cpu) (with_state Running) ;;
  _ <- set_per_cpu cpu (mkPerCpu (Some (Idl cpu)) None) ;;
  t <- get_task (Idl cpu) ;;
  set_kernel_stack cpu (kstack t).

(** The first [Unused] slot. *)
Fixpoint unused_from (i : nat) (ts : list Task) : option nat :=
  match ts with
  | [] => None
  | t :: ts' => if bool_decide (state t = Unused) then Some i else unused_from (S i) ts'
  end.

Definition kmalloc (size : Z) : M Sched Z := fun s =>
  match Heap.kmalloc size (kheap s) with
  | Ret (p, h) => Ret (p, set_kheap s h)
  | Panic => Panic
  | OutOfFuel => OutOfFuel
  end.

Definition spawn_user (entry user_stack : Z) : M Sched (option nat) :=
  stack <- kmalloc KERNEL_STACK_SIZE ;;
  if stack =? 0 then sret None else
  sum <-! chk 64 (stack + KERNEL_STACK_SIZE) ;;
  let top := Z.land sum (unot 64 0xF) in
  s <- sget ;;
  match unused_from 0 (tasks s) with
  | None => sret None
  | Some i =>
      f <- build_user_frame top entry user_stack ;;
      _ <- upd_task (Tsk i) (fun _ => mkTask Ready User 0 f top 0 false) ;;
      sret (Some i)
  end.

(** The three ways the current task stops being runnable: [f] is what happens
    to it. *)
Definition on_current (cpu : nat) (f : Task -> Task) : M Sched unit :=
  p <- per_cpu cpu ;;
  match current p with
  | Some cur => upd_task cur f
  | None => sret tt
  end.

Definition mark_current_dead (cpu : nat) : M Sched unit := on_current cpu (with_state Dead).

Definition block_current_until (cpu : nat) (tick : Z) : M Sched unit :=
  on_current cpu (fun t => with_wait tick false (with_state Blocked t)).

Definition block_current_input (cpu : nat) : M Sched unit :=
  on_current cpu (fun t => with_wait 0 true (with_state Blocked t)).

Definition wake_sleeper (now : Z) (t : Task) : Task :=
  if bool_decide (state t = Blocked) && negb (wait_input t)
     && negb (wake_tick t =? 0) && (wake_tick t <=? now)
  then with_wait 0 (wait_input t) (with_state Ready t) else t.

Definition wake_sleepers (now : Z) : M Sched unit :=
  smodify (fun s => set_tasks s (wake_sleeper now <$> tasks s)).

Definition wake_waiter (t : Task) : Task :=
  if bool_decide (state t = Blocked) && wait_input t
  then with_wait (wake_tick t) false (with_state Ready t) else t.

Definition wake_input_waiters : M Sched unit :=
  smodify (fun s => set_tasks s (wake_waiter <$> tasks s)).

(** [schedule], in the order of the code: publish the deferred task, save the
    interrupted frame, choose, switch. *)
Definition publish (cpu : nat) : M Sched unit :=
  p <- per_cpu cpu ;;
  match deferred p with
  | Some d =>
      _ <- upd_task d (with_state Ready) ;;
      set_per_cpu cpu (mkPerCpu (current p) None)
  | None => sret tt
  end.

Definition save_frame (cur : option tref) (fr : Z) : M Sched unit :=
  match cur with
  | Some r => upd_task r (with_frame fr)
  | None => sret tt
  end.

(** What to run: [None] is the early return that resumes the interrupted
    context. *)
Definition choose (cpu : nat) (cur : option tref) : M Sched (option tref) :=
  next <- pick cur ;;
  match next with
  | Some n => sret (Some n)
  | None =>
      match cur with
      | None => sret (Some (Idl cpu))
      | Some c =>
          t <- get_task c ;;
          if bool_decide (kind t = User) && bool_decide (state t = Running) then sret (Some c)
          else if bool_decide (kind t = Idle) then sret None
          else sret (Some (Idl cpu))
      end
  end.

(** The deferred pointer after a switch away from [cur]: a task still running
    is put aside until the next pass. *)
Definition defer (cur d : option tref) : M Sched (option tref) :=
  match cur with
  | Some c =>
      t <- get_task c ;;
      sret (if bool_decide (kind t = User) && bool_decide (state t = Running)
            then Some c else d)
  | None => sret d
  end.

Definition switch (cpu : nat) (cur : option tref) (next : tref) : M Sched unit :=
  if bool_decide (cur = Some next) then sret tt else
  p <- per_cpu cpu ;;
  d <- defer cur (deferred p) ;;
  _ <- set_per_cpu cpu (mkPerCpu (Some next) d) ;;
  t <- get_task next ;;
  set_kernel_stack cpu (kstack t).

Definition schedule (cpu : nat) (fr : Z) : M Sched Z :=
  s <- sget ;;
  if negb (initialized s) then sret fr else
  _ <- publish cpu ;;
  p <- per_cpu cpu ;;
  let cur := current p in
  _ <- save_frame cur fr ;;
  next <- choose cpu cur ;;
  match next with
  | None => sret fr
  | Some n =>
      _ <- switch cpu cur n ;;
      _ <- upd_task n (fun t => with_cpu cpu (with_state Running t)) ;;
      t <- get_task n ;;
      sret (frame t)
  end.

(** ** Who runs what

    [own] is the ownership discipline between the task states and the per-CPU
    pointers: a task is current on, or being left by, at most one CPU. *)
Definition holds (p : PerCpu) (i : nat) : Prop :=
  current p = Some (Tsk i) \/ deferred p = Some (Tsk i).

Record own (st : list TaskState) (ps : list PerCpu) : Prop := {
  own_current : forall c p i, ps !! c = Some p -> current p = Some (Tsk i) ->
    st !! i = Some Running \/ st !! i = Some Blocked \/ st !! i = Some Dead;
  own_deferred : forall c p i, ps !! c = Some p -> deferred p = Some (Tsk i) ->
    st !! i = Some Running /\ current p <> Some (Tsk i);
  own_idle : forall c p c', ps !! c = Some p -> current p = Some (Idl c') -> c' = c;
  own_no_idle : forall c p c', ps !! c = Some p -> deferred p <> Some (Idl c');
  own_unique : forall c c' p p' i, ps !! c = Some p -> ps !! c' = Some p' ->
    holds p i -> holds p' i -> c = c';
  own_running : forall i, st !! i = Some Running -> exists c p, ps !! c = Some p /\ holds p i;
}.

Lemma own_ready st ps c p i :
  own st ps -> ps !! c = Some p -> holds p i -> st !! i <> Some Ready /\ st !! i <> Some Unused.
Proof.
  intros Ho Hc [Hh|Hh].
  - destruct (own_current _ _ Ho _ _ _ Hc Hh) as [->|[->| ->]]; done.
  - destruct (own_deferred _ _ Ho _ _ _ Hc Hh) as [-> _]. done.
Qed.

(** Split every lookup in an updated table into the updated entry and the
    others. *)
Ltac split_inserts :=
  repeat match goal with
  | H : <[_ := _]> _ !! _ = Some _ |- _ =>
      apply list_lookup_insert_Some in H as [(? & ? & ?)|[? H]]; simplify_eq/=
  end.

(** A state changes without its task being held before or after. *)
Lemma own_set_state st ps i x :
  own st ps -> x <> Running -> (forall c p, ps !! c = Some p -> ~ holds p i) ->
  own (<[i := x]> st) ps.
Proof.
  intros Ho Hx Hfree.
  assert (forall c p j, ps !! c = Some p -> holds p j -> <[i := x]> st !! j = st !! j) as Hsame.
  { intros c p j Hc Hj. apply list_lookup_insert_ne. intros ->. by eapply Hfree. }
  constructor.
  - intros c p j Hc Hj. rewrite (Hsame c p) by (done || by left). by eapply own_current.
  - intros c p j Hc Hj. rewrite (Hsame c p) by (done || by right). by eapply own_deferred.
  - apply Ho.
  - apply Ho.
  - apply Ho.
  - intros j Hj. split_inserts. by apply (own_running _ _ Ho).
Qed.

(** CPU [c] changes what it holds: anything it newly holds was held by nobody,
    and only states of tasks it held or holds change. *)
Lemma own_cpu st st' ps c p p' :
  own st ps -> ps !! c = Some p ->
  (forall i, holds p' i -> holds p i \/ (st !! i = Some Ready)) ->
  (forall i, ~ holds p i -> ~ holds p' i -> st' !! i = st !! i) ->
  (forall i, current p' = Some (Tsk i) ->
     st' !! i = Some Running \/ st' !! i = Some Blocked \/ st' !! i = Some Dead) ->
  (forall i, deferred p' = Some (Tsk i) -> st' !! i = Some Running /\ current p' <> Some (Tsk i)) ->
  (forall c', current p' = Some (Idl c') -> c' = c) ->
  (forall c', deferred p' <> Some (Idl c')) ->
  (forall i, holds p i -> st' !! i = Some Running -> holds p' i) ->
  own st' (<[c := p']> ps).
Proof.
  intros Ho Hc Hnew Hst H1 H2 H3 H4 Hrun.
  assert (forall c0 p0 i, ps !! c0 = Some p0 -> c <> c0 -> holds p0 i ->
    ~ holds p i /\ ~ holds p' i /\ st' !! i = st !! i) as Hother.
  { intros c0 p0 i Hc0 Hne Hi.
    assert (~ holds p i) as N1 by (intros ?; apply Hne; by eapply (own_unique _ _ Ho c c0 p p0 i)).
    assert (~ holds p' i) as N2.
    { intros [?|Hr]%Hnew; [done|]. by destruct (own_ready _ _ _ _ _ Ho Hc0 Hi). }
    split; [done|]. split; [done|]. by apply Hst. }
  constructor.
  - intros c0 p0 i Hc0 Hi. split_inserts; [by apply H1|].
    destruct (Hother c0 p0 i) as (_ & _ & ->); [done..|by left|]. by eapply own_current.
  - intros c0 p0 i Hc0 Hi. split_inserts; [by apply H2|].
    destruct (Hother c0 p0 i) as (_ & _ & ->); [done..|by right|]. by eapply own_deferred.
  - intros c0 p0 i Hc0 Hi. split_inserts; [by apply H3|]. by eapply own_idle.
  - intros c0 p0 i Hc0. split_inserts; [by apply H4|]. by eapply own_no_idle.
  - intros c1 c2 p1 p2 i Hc1 Hc2 Hh1 Hh2.
    apply list_lookup_insert_Some in Hc1 as [(<- & <- & _)|[N1 Hc1]];
      apply list_lookup_insert_Some in Hc2 as [(<- & <- & _)|[N2 Hc2]].
    + done.
    + by destruct (Hother c2 p2 i) as (_ & ? & _).
    + by destruct (Hother c1 p1 i) as (_ & ? & _).
    + by eapply (own_unique _ _ Ho).
  - intros i Hi.
    assert (<[c := p']> ps !! c = Some p') as Hc'
      by (apply list_lookup_insert_eq; by eapply lookup_lt_Some).
    destruct (decide (current p' = Some (Tsk i))); [by exists c, p'; split; [|left]|].
    destruct (decide (deferred p' = Some (Tsk i))); [by exists c, p'; split; [|right]|].
    assert (~ holds p' i) as N' by by intros [?|?].
    assert (~ holds p i) as N by (intros ?; by apply N', Hrun).
    rewrite Hst in Hi by done. destruct (own_running _ _ Ho _ Hi) as (c0 & p0 & Hc0 & Hh).
    exists c0, p0. split; [|done]. rewrite list_lookup_insert_ne; [done|]. intros ->. by simplify_eq.
Qed.

Lemma own_publish st ps c p d :
  own st ps -> ps !! c = Some p -> deferred p = Some (Tsk d) ->
  own (<[d := Ready]> st) (<[c := mkPerCpu (current p) None]> ps).
Proof.
  intros Ho Hc Hd. destruct (own_deferred _ _ Ho _ _ _ Hc Hd) as [Hrun Hcur].
  eapply own_cpu; [done..| | | | | | |]; simpl; try done.
  - intros i [?|?]; [left; by left|done].
  - intros i Hn _. apply list_lookup_insert_ne. intros ->. apply Hn. by right.
  - intros i Hi. rewrite list_lookup_insert_ne by congruence. by eapply own_current.
  - intros c' Hi. by eapply own_idle.
  - intros i Hh Hi. split_inserts. destruct Hh; [by left|congruence].
Qed.

(** Taking a [Ready] task, putting a still running one aside. *)
Lemma own_take st ps c p i d :
  own st ps -> ps !! c = Some p -> deferred p = None -> st !! i = Some Ready ->
  d = match current p with
      | Some (Tsk j) => if bool_decide (st !! j = Some Running) then Some (Tsk j) else None
      | _ => None
      end ->
  own (<[i := Running]> st) (<[c := mkPerCpu (Some (Tsk i)) d]> ps).
Proof.
  intros Ho Hc Hd Hi ->.
  assert (~ holds p i) as Hni by (intros H; by destruct (own_ready _ _ _ _ _ Ho Hc H)).
  assert (i < length st)%nat as Hlt by by eapply lookup_lt_Some.
  eapply own_cpu; [done..| | | | | | |]; simpl.
  - intros j [[= <-]|Hj]; [by right|]. left. left. simpl in Hj.
    destruct (current p) as [[k|]|]; try done. by case_bool_decide; simplify_eq.
  - intros j _ Hn. apply list_lookup_insert_ne. intros ->. apply Hn. by left.
  - intros j [= <-]. left. by apply list_lookup_insert_eq.
  - intros j Hj. destruct (current p) as [[k|]|] eqn:E; try done. case_bool_decide; simplify_eq.
    assert (i <> j) by (intros ->; apply Hni; by left).
    rewrite list_lookup_insert_ne by done. split; [done|congruence].
  - done.
  - intros c'. destruct (current p) as [[k|]|]; try done. by case_bool_decide.
  - intros j [Hj|Hj] Hr; [|congruence]. right. simpl. rewrite Hj.
    assert (i <> j) by (intros ->; apply Hni; by left).
    rewrite list_lookup_insert_ne in Hr by done. by rewrite bool_decide_true.
Qed.

(** Falling back to the idle task of the CPU. *)
Lemma own_to_idle st ps c p :
  own st ps -> ps !! c = Some p -> deferred p = None ->
  (forall j, current p = Some (Tsk j) -> st !! j <> Some Running) ->
  own st (<[c := mkPerCpu (Some (Idl c)) None]> ps).
Proof.
  intros Ho Hc Hd Hcur. eapply own_cpu; [done..| | | | | | |]; simpl; try done.
  - intros i [?|?]; done.
  - congruence.
  - intros i [Hi|Hi] Hr; [by destruct (Hcur i)|congruence].
Qed.

(** The current task stops being runnable. *)
Lemma own_stop st ps c p i x :
  own st ps -> ps !! c = Some p -> current p = Some (Tsk i) -> x = Blocked \/ x = Dead ->
  own (<[i := x]> st) ps.
Proof.
  intros Ho Hc Hi Hx. rewrite <- (list_insert_id ps c p) by done.
  assert (i < length st)%nat as Hlt.
  { destruct (own_current _ _ Ho _ _ _ Hc Hi) as [H|[H|H]]; by eapply lookup_lt_Some. }
  eapply own_cpu; [done..| | | | | | |].
  - auto.
  - intros j Hn _. apply list_lookup_insert_ne. intros ->. apply Hn. by left.
  - intros j Hj. simplify_eq. rewrite list_lookup_insert_eq by done. destruct Hx; subst; auto.
  - intros j Hj. destruct (own_deferred _ _ Ho _ _ _ Hc Hj).
    rewrite list_lookup_insert_ne by congruence. done.
  - intros c'. by apply (own_idle _ _ Ho).
  - intros c'. by eapply own_no_idle.
  - auto.
Qed.

(** Waking blocked tasks none of which is current anywhere. *)
Lemma own_wake st ps (f : nat -> TaskState -> TaskState) :
  own st ps ->
  (forall i x, st !! i = Some x -> f i x = x \/ (x = Blocked /\ f i x = Ready)) ->
  (forall c p i, ps !! c = Some p -> current p = Some (Tsk i) -> st !! i <> Some Blocked) ->
  own (imap f st) ps.
Proof.
  intros Ho Hf Hcur.
  assert (forall i x, st !! i = Some x -> x <> Blocked -> imap f st !! i = Some x) as Hsame.
  { intros i x Hi Hx. rewrite list_lookup_imap, Hi. simpl. f_equal.
    destruct (Hf i x Hi) as [|[? _]]; done. }
  constructor; try apply Ho.
  - intros c p i Hc Hi. destruct (own_current _ _ Ho _ _ _ Hc Hi) as [H|[H|H]].
    + left. by apply Hsame.
    + by destruct (Hcur c p i).
    + right. right. by apply Hsame.
  - intros c p i Hc Hi. destruct (own_deferred _ _ Ho _ _ _ Hc Hi) as [H ?].
    split; [by apply Hsame|done].
  - intros i Hi. apply (own_running _ _ Ho). rewrite list_lookup_imap in Hi.
    destruct (st !! i) as [x|] eqn:E; [|done]. simpl in Hi. injection Hi as Hi.
    destruct (Hf i x E) as [|[_ ?]]; congruence.
Qed.

(** ** The invariant of the module *)
Record sched_ok (s : Sched) : Prop := {
  so_tasks : length (tasks s) = MAX_TASKS;
  so_idle : length (idle s) = MAX_CPUS;
  so_percpu : length (percpu s) = MAX_CPUS;
  so_rsp0 : length (rsp0 s) = MAX_CPUS;
  so_user : forall i t, tasks s !! i = Some t -> state t <> Unused -> kind t = User;
  so_idle_kind : forall c t, idle s !! c = Some t -> kind t = Idle;
  so_own : own (state <$> tasks s) (percpu s);
}.

Lemma states_insert (ts : list Task) (i : nat) (t : Task) :
  state <$> <[i := t]> ts = <[i := state t]> (state <$> ts).
Proof. apply list_fmap_insert. Qed.

Lemma states_lookup s i t : tasks s !! i = Some t -> (state <$> tasks s) !! i = Some (state t).
Proof. intros H. by rewrite list_lookup_fmap, H. Qed.

Lemma states_lookup_inv s i x :
  (state <$> tasks s) !! i = Some x -> exists t, tasks s !! i = Some t /\ state t = x.
Proof. rewrite list_lookup_fmap. destruct (tasks s !! i) as [t|]; [|done]. intros [= <-]. eauto. Qed.

(** Writing a task back with the kind it had. *)
Lemma put_ok s i t t' ps :
  sched_ok s -> tasks s !! i = Some t -> (kind t' = User \/ (kind t' = kind t /\ state t' = state t)) ->
  length ps = MAX_CPUS -> own (<[i := state t']> (state <$> tasks s)) ps ->
  sched_ok (set_percpu (put_task s (Tsk i) t') ps).
Proof.
  intros Hs Hi Hk Hps Ho. destruct Hs. constructor; simpl; try done.
  - by rewrite length_insert.
  - intros j u Hj Hu. split_inserts; [|eauto]. destruct Hk as [?|[-> E]]; [done|].
    rewrite E in Hu. eauto.
  - by rewrite states_insert.
Qed.

Lemma set_percpu_id s : set_percpu s (percpu s) = s.
Proof. by destruct s. Qed.

Lemma put_idle_ok s c t t' :
  sched_ok s -> idle s !! c = Some t -> kind t' = kind t -> sched_ok (put_task s (Idl c) t').
Proof.
  intros [] Hi Hk. constructor; simpl; try done.
  - by rewrite length_insert.
  - intros j u Hj. split_inserts; [rewrite Hk; eauto|eauto].
Qed.

Lemma set_rsp0_ok s r : sched_ok s -> length r = MAX_CPUS -> sched_ok (set_rsp0 s r).
Proof. intros [] ?. by constructor. Qed.

(** What a step keeps of the saved contexts: frames and kernel stacks stay,
    what was [Ready] stays [Ready]. *)
Definition keeps (s s' : Sched) : Prop :=
  forall r t, find_task s r = Some t -> exists t', find_task s' r = Some t' /\
    frame t' = frame t /\ kstack t' = kstack t /\ kind t' = kind t /\
    (state t = Ready -> state t' = Ready).

Lemma publish_run s c p :
  sched_ok s -> percpu s !! c = Some p ->
  exists s1, publish c s = Ret (tt, s1) /\ sched_ok s1 /\ keeps s s1 /\
    percpu s1 = <[c := mkPerCpu (current p) None]> (percpu s) /\ rsp0 s1 = rsp0 s /\
    (forall j t, current p = Some (Tsk j) -> tasks s !! j = Some t -> tasks s1 !! j = Some t).
Proof.
  intros Hs Hc. unfold publish, per_cpu, sbind. rewrite Hc.
  assert (c < length (percpu s))%nat as Hlt by by eapply lookup_lt_Some.
  destruct (deferred p) as [[d|d]|] eqn:Hd.
  - destruct (own_deferred _ _ (so_own _ Hs) _ _ _ Hc Hd) as [Hrun Hne].
    destruct (states_lookup_inv _ _ _ Hrun) as (t & Ht & Hst).
    unfold upd_task. cbn [find_task]. rewrite Ht. unfold set_per_cpu.
    cbn [put_task set_tasks percpu]. rewrite (proj2 (Nat.ltb_lt _ _)) by done.
    eexists. split; [done|]. split_and!.
    + apply (put_ok s d t (with_state Ready t)); [done..| |by rewrite length_insert; apply Hs|].
      * left. apply (so_user _ Hs d t); [done|]. by rewrite Hst.
      * by apply own_publish; [apply Hs|..].
    + intros [j|j] u Hu; cbn in *; [|by eauto 10]. destruct (decide (j = d)) as [->|].
      * simplify_eq. eexists. split; [apply list_lookup_insert_eq; by eapply lookup_lt_Some|]. done.
      * exists u. by rewrite list_lookup_insert_ne.
    + done.
    + done.
    + intros j u Hj Hu. cbn. rewrite list_lookup_insert_ne; [done|]. congruence.
  - by destruct (own_no_idle _ _ (so_own _ Hs) c p d Hc).
  - exists s. split; [done|]. split_and!; try done.
    + intros r t Hr. by eauto 10.
    + rewrite list_insert_id; [done|]. rewrite Hc. by destruct p; simplify_eq/=.
Qed.

Lemma current_find s c p r :
  sched_ok s -> percpu s !! c = Some p -> current p = Some r -> exists t, find_task s r = Some t.
Proof.
  intros Hs Hc Hr. destruct r as [i|c'].
  - destruct (own_current _ _ (so_own _ Hs) _ _ _ Hc Hr) as [H|[H|H]];
      apply states_lookup_inv in H as (t & ? & _); eauto.
  - pose proof (own_idle _ _ (so_own _ Hs) _ _ _ Hc Hr) as ->. apply lookup_lt_is_Some_2.
    rewrite (so_idle _ Hs), <- (so_percpu _ Hs). by eapply lookup_lt_Some.
Qed.

Lemma save_frame_run s c p fr :
  sched_ok s -> percpu s !! c = Some p ->
  exists s1, save_frame (current p) fr s = Ret (tt, s1) /\ sched_ok s1 /\
    percpu s1 = percpu s /\ rsp0 s1 = rsp0 s /\
    (forall r t, find_task s r = Some t ->
       find_task s1 r = Some (if bool_decide (current p = Some r) then with_frame fr t else t)).
Proof.
  intros Hs Hc. unfold save_frame. destruct (current p) as [r|] eqn:Hr.
  2: { exists s. split_and!; try done. }
  destruct (current_find _ _ _ _ Hs Hc Hr) as (t & Ht).
  unfold upd_task. rewrite Ht. eexists. split; [done|]. destruct r as [i|i]; cbn in Ht.
  - split_and!; try done.
    + rewrite <- (set_percpu_id (put_task _ _ _)).
      apply (put_ok s i t (with_frame fr t)); [done..|by right|apply Hs|].
      cbn. rewrite list_insert_id; [apply Hs|]. by apply states_lookup.
    + intros [j|j] u Hu; cbn in *; case_bool_decide as E; simplify_eq; try done.
      * apply list_lookup_insert_eq. by eapply lookup_lt_Some.
      * rewrite list_lookup_insert_ne; [done|]. congruence.
  - split_and!; try done.
    + by eapply put_idle_ok.
    + intros [j|j] u Hu; cbn in *; case_bool_decide as E; simplify_eq; try done.
      * apply list_lookup_insert_eq. by eapply lookup_lt_Some.
      * rewrite list_lookup_insert_ne; [done|]. congruence.
Qed.

Lemma pick_from_Some cur i ts j :
  pick_from cur i ts = Some j ->
  exists k t, j = (i + k)%nat /\ ts !! k = Some t /\ state t = Ready /\ cur <> Some (Tsk j).
Proof.
  revert i. induction ts as [|t ts IH]; intros i; simpl; [done|].
  destruct (bool_decide (state t = Ready)) eqn:E1; [destruct (bool_decide (cur = Some (Tsk i))) eqn:E2|]; simpl.
  - intros (k & u & -> & ? & ? & ?)%IH. exists (S k), u. split; [lia|]. done.
  - intros [= <-]. apply bool_decide_eq_true in E1. apply bool_decide_eq_false in E2.
    exists 0%nat, t. split; [lia|]. done.
  - intros (k & u & -> & ? & ? & ?)%IH. exists (S k), u. split; [lia|]. done.
Qed.

Lemma pick_from_None cur i ts k t :
  pick_from cur i ts = None -> ts !! k = Some t -> state t = Ready -> cur = Some (Tsk (i + k)).
Proof.
  revert i k. induction ts as [|u ts IH]; intros i k; simpl; [done|].
  destruct (bool_decide (state u = Ready)) eqn:E1; [destruct (bool_decide (cur = Some (Tsk i))) eqn:E2|]; simpl;
    intros Hp Hk Ht; try done.
  - apply bool_decide_eq_true in E2. destruct k as [|k]; [by rewrite Nat.add_0_r|].
    rewrite (IH (S i) k) by done. do 2 f_equal. lia.
  - apply bool_decide_eq_false in E1. destruct k as [|k]; [by simplify_eq/=|].
    rewrite (IH (S i) k) by done. do 2 f_equal. lia.
Qed.

(** What [schedule] leaves behind when CPU [c], interrupted with the frame
    [fr], resumes the task [n] with the frame [r]. *)
Record resumed (s s' : Sched) (c : nat) (p : PerCpu) (fr r : Z) (n : tref) : Prop := {
  rs_ok : sched_ok s';
  rs_percpu : exists d, percpu s' = <[c := mkPerCpu (Some n) d]> (percpu s);
  rs_frame : if bool_decide (current p = Some n) then r = fr
             else exists t, find_task s n = Some t /\ r = frame t /\ rsp0 s' !! c = Some (kstack t);
  rs_saved : forall q, current p = Some q -> exists t', find_task s' q = Some t' /\ frame t' = fr;
  rs_others : forall q t, find_task s q = Some t -> current p <> Some q ->
    exists t', find_task s' q = Some t' /\ frame t' = frame t /\ kstack t' = kstack t;
  rs_running : forall i, n = Tsk i -> exists t, tasks s' !! i = Some t /\ state t = Running;
  rs_work : forall j t, tasks s !! j = Some t -> state t = Ready -> current p <> Some (Tsk j) ->
    exists i, n = Tsk i;
}.

(** The state in which [schedule] chooses: the deferred task is published, the
    interrupted frame saved. *)
Record prepared (s s2 : Sched) (c : nat) (p : PerCpu) (fr : Z) : Prop := {
  pr_ok : sched_ok s2;
  pr_percpu : percpu s2 = <[c := mkPerCpu (current p) None]> (percpu s);
  pr_rsp0 : rsp0 s2 = rsp0 s;
  pr_task : forall q t, find_task s q = Some t -> exists t2, find_task s2 q = Some t2 /\
    frame t2 = (if bool_decide (current p = Some q) then fr else frame t) /\
    kstack t2 = kstack t /\ kind t2 = kind t /\ (state t = Ready -> state t2 = Ready);
}.

Lemma prepare_run s c p fr :
  sched_ok s -> percpu s !! c = Some p ->
  exists s1 s2, publish c s = Ret (tt, s1) /\ per_cpu c s1 = Ret (mkPerCpu (current p) None, s1) /\
    save_frame (current p) fr s1 = Ret (tt, s2) /\ prepared s s2 c p fr.
Proof.
  intros Hs Hc. destruct (publish_run s c p Hs Hc) as (s1 & Hrun & Hs1 & Hk & Hps & Hr & _).
  assert (percpu s1 !! c = Some (mkPerCpu (current p) None)) as Hc1.
  { rewrite Hps. apply list_lookup_insert_eq. by eapply lookup_lt_Some. }
  destruct (save_frame_run s1 c _ fr Hs1 Hc1) as (s2 & Hrun2 & Hs2 & Hps2 & Hr2 & Hf2).
  exists s1, s2. split; [done|]. split; [unfold per_cpu; by rewrite Hc1|]. split; [done|].
  constructor; [done|congruence|congruence|]. intros q t Hq.
  destruct (Hk q t Hq) as (t1 & Hq1 & ? & ? & ? & ?). pose proof (Hf2 q t1 Hq1) as Hq2.
  cbn [current] in Hq2. eexists. split; [exact Hq2|]. case_bool_decide; cbn; auto.
Qed.

(** Writing the [Running] state of the chosen task keeps contexts. *)
Definition marked (c : nat) (t : Task) : Task := with_cpu c (with_state Running t).

Lemma put_find s q t t' r :
  find_task s q = Some t ->
  find_task (put_task s q t') r = if bool_decide (r = q) then Some t' else find_task s r.
Proof.
  intros Hq. destruct q as [i|i], r as [j|j]; cbn in *; case_bool_decide as E; simplify_eq; try done.
  - apply list_lookup_insert_eq. by eapply lookup_lt_Some.
  - apply list_lookup_insert_ne. congruence.
  - apply list_lookup_insert_eq. by eapply lookup_lt_Some.
  - apply list_lookup_insert_ne. congruence.
Qed.

(** From a prepared state, marking [n] running and pointing the CPU at it. *)
Lemma finish s s2 c p fr n t2 ps rs :
  sched_ok s -> percpu s !! c = Some p ->
  prepared s s2 c p fr -> find_task s2 n = Some t2 ->
  let s' := set_rsp0 (set_percpu (put_task s2 n (marked c t2)) ps) rs in
  sched_ok s' -> (exists d, ps = <[c := mkPerCpu (Some n) d]> (percpu s)) ->
  (current p <> Some n -> rs !! c = Some (kstack t2)) ->
  (forall j t, tasks s !! j = Some t -> state t = Ready -> current p <> Some (Tsk j) ->
     exists i, n = Tsk i) ->
  resumed s s' c p fr (frame t2) n.
Proof.
  intros Hs Hc Hp Hn s' Hok Hps Hrs Hwork.
  assert (forall r, find_task s' r = if bool_decide (r = n) then Some (marked c t2) else find_task s2 r) as Hfind.
  { intros r. rewrite <- (put_find s2 n t2 (marked c t2) r Hn). by destruct n. }
  assert (exists t, find_task s n = Some t) as [t Ht].
  { destruct n as [i|i]; cbn in *; apply lookup_lt_is_Some_2.
    - rewrite (so_tasks _ Hs), <- (so_tasks _ (pr_ok _ _ _ _ _ Hp)). by eapply lookup_lt_Some.
    - rewrite (so_idle _ Hs), <- (so_idle _ (pr_ok _ _ _ _ _ Hp)). by eapply lookup_lt_Some. }
  destruct (pr_task _ _ _ _ _ Hp n t Ht) as (t2' & Hn' & Hf & Hk & _). simplify_eq.
  constructor; try done.
  - revert Hf. case_bool_decide; [done|]. intros Hf. exists t. split; [done|]. split; [done|].
    rewrite <- Hk. by apply Hrs.
  - intros q Hq. destruct (current_find s c p q Hs Hc Hq) as (u & Hu).
    destruct (pr_task _ _ _ _ _ Hp q u Hu) as (u2 & Hu2 & Hfu & _).
    rewrite bool_decide_true in Hfu by done. rewrite Hfind.
    destruct (decide (q = n)) as [->|E].
    + rewrite bool_decide_true by done. simplify_eq. by eexists.
    + rewrite bool_decide_false by done. by eauto.
  - intros q u Hu Hq. destruct (pr_task _ _ _ _ _ Hp q u Hu) as (u2 & Hu2 & Hfu & Hku & _).
    rewrite bool_decide_false in Hfu by done.
    rewrite Hfind. destruct (decide (q = n)) as [->|E].
    + rewrite bool_decide_true by done. simplify_eq. by eexists.
    + rewrite bool_decide_false by done. by eauto.
  - intros i ->. pose proof (Hfind (Tsk i)) as Hi. rewrite bool_decide_true in Hi by done.
    cbn in Hi. by eauto.
Qed.

Lemma rsp0_lt s c p : sched_ok s -> percpu s !! c = Some p -> (c < length (rsp0 s))%nat.
Proof. intros Hs Hc. rewrite (so_rsp0 _ Hs), <- (so_percpu _ Hs). by eapply lookup_lt_Some. Qed.

Lemma set_per_cpu_run s c p q :
  percpu s !! c = Some p -> set_per_cpu c q s = Ret (tt, set_percpu s (<[c := q]> (percpu s))).
Proof.
  intros Hc. unfold set_per_cpu. rewrite (proj2 (Nat.ltb_lt _ _)); [done|]. by eapply lookup_lt_Some.
Qed.

Lemma set_kernel_stack_run s c v :
  (c < length (rsp0 s))%nat -> set_kernel_stack c v s = Ret (tt, set_rsp0 s (<[c := v]> (rsp0 s))).
Proof. intros Hc. unfold set_kernel_stack. by rewrite (proj2 (Nat.ltb_lt _ _)). Qed.

Definition left_behind (s : Sched) (cur : option tref) : option tref :=
  match cur with
  | Some (Tsk j) =>
      if bool_decide ((state <$> tasks s) !! j = Some Running) then Some (Tsk j) else None
  | _ => None
  end.

Lemma defer_run s c p :
  sched_ok s -> percpu s !! c = Some p ->
  defer (current p) None s = Ret (left_behind s (current p), s).
Proof.
  intros Hs Hc. unfold defer, left_behind, sbind, sret. destruct (current p) as [[j|j]|] eqn:Hcur; [| |done].
  - destruct (own_current _ _ (so_own _ Hs) _ _ _ Hc Hcur) as [H|[H|H]];
      destruct (states_lookup_inv _ _ _ H) as (u & Hu & Hx);
      unfold get_task; cbn [find_task]; rewrite Hu, H, Hx;
      rewrite (so_user _ Hs j u) by (done || by rewrite Hx); done.
  - destruct (current_find _ _ _ (Idl j) Hs Hc Hcur) as (u & Hu).
    unfold get_task. rewrite Hu. by rewrite (so_idle_kind _ Hs j u).
Qed.

(** Taking a [Ready] task. *)
Lemma finish_pick s s2 c p fr i :
  sched_ok s -> percpu s !! c = Some p -> prepared s s2 c p fr ->
  pick_from (current p) 0 (tasks s2) = Some i ->
  exists r s', (_ <- switch c (current p) (Tsk i) ;;
    _ <- upd_task (Tsk i) (fun t => with_cpu c (with_state Running t)) ;;
    t <- get_task (Tsk i) ;; sret (frame t)) s2 = Ret (r, s') /\ resumed s s' c p fr r (Tsk i).
Proof.
  intros Hs Hc Hp (k & t & -> & Hk & Hst & Hne)%pick_from_Some. cbn [Nat.add] in *.
  pose proof (pr_ok _ _ _ _ _ Hp) as Hs2.
  assert (percpu s2 !! c = Some (mkPerCpu (current p) None)) as Hc2.
  { rewrite (pr_percpu _ _ _ _ _ Hp). apply list_lookup_insert_eq. by eapply lookup_lt_Some. }
  set (d := left_behind s2 (current p)).
  assert (switch c (current p) (Tsk k) s2 =
    Ret (tt, set_rsp0 (set_percpu s2 (<[c := mkPerCpu (Some (Tsk k)) d]> (percpu s2)))
               (<[c := kstack t]> (rsp0 s2)))) as Hsw.
  { unfold switch, sbind, per_cpu. rewrite bool_decide_false by done. rewrite Hc2. cbn [deferred].
    pose proof (defer_run s2 c (mkPerCpu (current p) None) Hs2 Hc2) as Hd.
    cbn [current] in Hd. rewrite Hd. fold d.
    rewrite (set_per_cpu_run _ _ _ _ Hc2). unfold get_task. cbn [find_task set_percpu tasks]. rewrite Hk.
    rewrite set_kernel_stack_run; [done|]. by eapply (rsp0_lt s2). }
  unfold sbind. rewrite Hsw. unfold upd_task, get_task, sret.
  cbn [find_task set_rsp0 set_percpu tasks]. rewrite Hk. cbn [find_task put_task set_tasks tasks].
  rewrite list_lookup_insert_eq by by eapply lookup_lt_Some.
  eexists _, _. split; [done|].
  assert (sched_ok (set_rsp0 (set_percpu (put_task s2 (Tsk k) (marked c t))
    (<[c := mkPerCpu (Some (Tsk k)) d]> (percpu s2))) (<[c := kstack t]> (rsp0 s2)))) as Hok.
  { apply set_rsp0_ok; [|rewrite length_insert; apply Hs2]. apply (put_ok s2 k t); try done.
    - left. apply (so_user _ Hs2 k t); [done|]. by rewrite Hst.
    - rewrite length_insert. apply Hs2.
    - apply (own_take _ _ c _ k d (so_own _ Hs2) Hc2); [done| |done].
      rewrite <- Hst. by apply states_lookup. }
  apply (finish s s2 c p fr (Tsk k) t (<[c := mkPerCpu (Some (Tsk k)) d]> (percpu s2))
    (<[c := kstack t]> (rsp0 s2))); try done.
  - exists d. rewrite <- (list_insert_insert_eq (percpu s) c _ (mkPerCpu (current p) None)).
    by rewrite <- (pr_percpu _ _ _ _ _ Hp).
  - intros _. apply list_lookup_insert_eq. by eapply (rsp0_lt s2).
  - eauto.
Qed.

(** Nothing else is runnable: stay, or go idle. *)
Lemma finish_none s s2 c p fr :
  sched_ok s -> percpu s !! c = Some p -> prepared s s2 c p fr ->
  pick_from (current p) 0 (tasks s2) = None ->
  forall j t, tasks s !! j = Some t -> state t = Ready -> current p = Some (Tsk j).
Proof.
  intros Hs Hc Hp Hnone j t Hj Ht.
  destruct (pr_task _ _ _ _ _ Hp (Tsk j) t Hj) as (t2 & Hj2 & _ & _ & _ & Hr).
  exact (pick_from_None _ 0 _ _ _ Hnone Hj2 (Hr Ht)).
Qed.

Lemma finish_keep s s2 c p fr j t2 :
  sched_ok s -> percpu s !! c = Some p -> prepared s s2 c p fr ->
  pick_from (current p) 0 (tasks s2) = None ->
  current p = Some (Tsk j) -> tasks s2 !! j = Some t2 -> state t2 = Running ->
  exists s', (_ <- switch c (current p) (Tsk j) ;;
    _ <- upd_task (Tsk j) (fun t => with_cpu c (with_state Running t)) ;;
    t <- get_task (Tsk j) ;; sret (frame t)) s2 = Ret (frame t2, s') /\
    resumed s s' c p fr (frame t2) (Tsk j).
Proof.
  intros Hs Hc Hp Hnone Hcur Hj Hst. pose proof (pr_ok _ _ _ _ _ Hp) as Hs2.
  unfold sbind, switch. rewrite bool_decide_true by done.
  unfold sret, upd_task, get_task. cbn [find_task]. rewrite Hj. cbn [find_task put_task set_tasks tasks].
  rewrite list_lookup_insert_eq by by eapply lookup_lt_Some.
  eexists. split; [done|].
  assert (put_task s2 (Tsk j) (marked c t2) =
    set_rsp0 (set_percpu (put_task s2 (Tsk j) (marked c t2)) (percpu s2)) (rsp0 s2)) as E by done.
  change (set_tasks s2 _) with (put_task s2 (Tsk j) (marked c t2)). rewrite E.
  apply (finish s s2 c p fr (Tsk j) t2); try done.
  - rewrite <- E. rewrite <- (set_percpu_id (put_task _ _ _)). apply (put_ok s2 j t2); try done.
    + right. by split.
    + apply Hs2.
    + cbn. rewrite list_insert_id; [apply Hs2|]. rewrite <- Hst. by apply states_lookup.
  - exists None. by rewrite (pr_percpu _ _ _ _ _ Hp), Hcur.
  - by eauto.
Qed.

Lemma finish_idle s s2 c p fr :
  sched_ok s -> percpu s !! c = Some p -> prepared s s2 c p fr ->
  pick_from (current p) 0 (tasks s2) = None ->
  (forall j t, current p = Some (Tsk j) -> tasks s2 !! j = Some t -> state t <> Running) ->
  (forall c', current p <> Some (Idl c')) ->
  exists r s', (_ <- switch c (current p) (Idl c) ;;
    _ <- upd_task (Idl c) (fun t => with_cpu c (with_state Running t)) ;;
    t <- get_task (Idl c) ;; sret (frame t)) s2 = Ret (r, s') /\ resumed s s' c p fr r (Idl c).
Proof.
  intros Hs Hc Hp Hnone Hrun Hni. pose proof (pr_ok _ _ _ _ _ Hp) as Hs2.
  assert (percpu s2 !! c = Some (mkPerCpu (current p) None)) as Hc2.
  { rewrite (pr_percpu _ _ _ _ _ Hp). apply list_lookup_insert_eq. by eapply lookup_lt_Some. }
  assert (exists t, idle s2 !! c = Some t) as [t Ht].
  { apply lookup_lt_is_Some_2. rewrite (so_idle _ Hs2), <- (so_percpu _ Hs2). by eapply lookup_lt_Some. }
  assert (switch c (current p) (Idl c) s2 =
    Ret (tt, set_rsp0 (set_percpu s2 (<[c := mkPerCpu (Some (Idl c)) None]> (percpu s2)))
               (<[c := kstack t]> (rsp0 s2)))) as Hsw.
  { unfold switch, sbind, per_cpu. rewrite bool_decide_false by apply Hni. rewrite Hc2. cbn [deferred].
    pose proof (defer_run s2 c (mkPerCpu (current p) None) Hs2 Hc2) as Hd.
    cbn [current] in Hd. rewrite Hd.
    replace (left_behind s2 (current p)) with (@None tref).
    2: { unfold left_behind. destruct (current p) as [[j|j]|] eqn:Hcur; [|by destruct (Hni j)|done].
      rewrite bool_decide_false; [done|]. intros E.
      apply states_lookup_inv in E as (u & Hu & Hx). by eapply (Hrun j u). }
    rewrite (set_per_cpu_run _ _ _ _ Hc2). unfold get_task. cbn [find_task set_percpu idle]. rewrite Ht.
    rewrite set_kernel_stack_run; [done|]. by eapply (rsp0_lt s2). }
  unfold sbind. rewrite Hsw. unfold upd_task, get_task, sret.
  cbn [find_task set_rsp0 set_percpu idle]. rewrite Ht. cbn [find_task put_task set_idle idle].
  rewrite list_lookup_insert_eq by by eapply lookup_lt_Some.
  eexists _, _. split; [done|].
  assert (sched_ok (set_percpu s2 (<[c := mkPerCpu (Some (Idl c)) None]> (percpu s2)))) as Hok1.
  { rewrite <- (set_percpu_id s2). destruct Hs2 as [? ? ? ? ? ? Hown]. constructor; simpl; try done.
    - by rewrite length_insert.
    - eapply own_to_idle; [done..|]. intros j Hj E.
      apply states_lookup_inv in E as (u & Hu & Hx). by eapply (Hrun j u). }
  apply (finish s s2 c p fr (Idl c) t (<[c := mkPerCpu (Some (Idl c)) None]> (percpu s2))
    (<[c := kstack t]> (rsp0 s2))); try done.
  - apply set_rsp0_ok; [|rewrite length_insert; apply Hs2].
    by apply (put_idle_ok _ c t (marked c t) Hok1).
  - exists None. rewrite <- (list_insert_insert_eq (percpu s) c _ (mkPerCpu (current p) None)).
    by rewrite <- (pr_percpu _ _ _ _ _ Hp).
  - intros _. apply list_lookup_insert_eq. by eapply (rsp0_lt s2).
  - intros j u Hj Hu Hne. destruct Hne.
    exact (finish_none s s2 c p fr Hs Hc Hp Hnone j u Hj Hu).
Qed.

Lemma schedule_spec s c p fr :
  sched_ok s -> initialized s = true -> percpu s !! c = Some p ->
  exists r s' n, schedule c fr s = Ret (r, s') /\ resumed s s' c p fr r n.
Proof.
  intros Hs Hinit Hc.
  destruct (prepare_run s c p fr Hs Hc) as (s1 & s2 & H1 & H2 & H3 & Hp).
  pose proof (pr_ok _ _ _ _ _ Hp) as Hs2.
  unfold schedule. rewrite (sbind_Ret _ _ _ s s) by done. rewrite Hinit. cbn [negb].
  rewrite (sbind_Ret _ _ _ _ _ H1), (sbind_Ret _ _ _ _ _ H2). cbn [current].
  rewrite (sbind_Ret _ _ _ _ _ H3).
  assert (percpu s2 !! c = Some (mkPerCpu (current p) None)) as Hc2.
  { rewrite (pr_percpu _ _ _ _ _ Hp). apply list_lookup_insert_eq. by eapply lookup_lt_Some. }
  destruct (pick_from (current p) 0 (tasks s2)) as [i|] eqn:Hpick.
  { rewrite (sbind_Ret _ _ s2 (Some (Tsk i)) s2) by (unfold choose, pick, sbind; by rewrite Hpick).
    destruct (finish_pick s s2 c p fr i Hs Hc Hp Hpick) as (r & s' & Hrun & Hres). by exists r, s', (Tsk i). }
  assert (forall x, choose c (current p) s2 = Ret (x, s2) ->
    (x <- choose c (current p) ;; match x with None => sret fr | Some n =>
       _ <- switch c (current p) n ;;
       _ <- upd_task n (fun t => with_cpu c (with_state Running t)) ;;
       t <- get_task n ;; sret (frame t) end) s2 =
    match x with None => sret fr | Some n =>
       _ <- switch c (current p) n ;;
       _ <- upd_task n (fun t => with_cpu c (with_state Running t)) ;;
       t <- get_task n ;; sret (frame t) end s2) as Hch by (intros x Hx; by rewrite (sbind_Ret _ _ _ _ _ Hx)).
  assert (forall x, (match current p with None => sret (Some (Idl c)) | Some q =>
      t <- get_task q ;;
      if bool_decide (kind t = User) && bool_decide (state t = Running) then sret (Some q)
      else if bool_decide (kind t = Idle) then sret None else sret (Some (Idl c)) end) s2 = Ret (x, s2) ->
    choose c (current p) s2 = Ret (x, s2)) as Hcase.
  { intros x Hx. unfold choose. rewrite (sbind_Ret _ _ s2 None s2); [exact Hx|].
    unfold pick. by rewrite Hpick. }
  destruct (current p) as [[j|c']|] eqn:Hcur.
  - destruct (current_find _ _ _ (Tsk j) Hs2 Hc2 eq_refl) as (t & Ht). cbn in Ht.
    assert (kind t = User) as Hk.
    { apply (so_user _ Hs2 j t Ht). intros E.
      pose proof (own_ready _ _ c _ j (so_own _ Hs2) Hc2 ltac:(by left)) as [_ []].
      rewrite <- E. by apply states_lookup. }
    destruct (decide (state t = Running)) as [Hr|Hr].
    + rewrite (Hch (Some (Tsk j))) by
        (apply Hcase; unfold sbind, get_task; cbn [find_task]; rewrite Ht, Hk, Hr; done).
      rewrite <- Hcur in *.
      destruct (finish_keep s s2 c p fr j t Hs Hc Hp Hpick Hcur Ht Hr) as (s' & Hrun & Hres).
      by exists (frame t), s', (Tsk j).
    + rewrite (Hch (Some (Idl c))) by (apply Hcase; unfold sbind, get_task; cbn [find_task];
        rewrite Ht, Hk, (bool_decide_false (state t = Running)) by done; done).
      rewrite <- Hcur in *.
      destruct (finish_idle s s2 c p fr Hs Hc Hp Hpick) as (r & s' & Hrun & Hres).
      * intros j' t' Hj' Ht'. rewrite Hcur in Hj'. congruence.
      * intros c'. rewrite Hcur. done.
      * by exists r, s', (Idl c).
  - destruct (current_find _ _ _ (Idl c') Hs2 Hc2 eq_refl) as (t & Ht).
    assert (kind t = Idle) as Hk by by eapply (so_idle_kind _ Hs2).
    rewrite (Hch None) by (apply Hcase; unfold sbind, get_task; rewrite Ht, Hk; done).
    exists fr, s2, (Idl c'). split; [done|]. rewrite <- Hcur in *.
    constructor; try done.
    + exists None. by rewrite (pr_percpu _ _ _ _ _ Hp), Hcur.
    + by rewrite bool_decide_true.
    + intros q Hq. destruct (current_find s c p q Hs Hc Hq) as (u & Hu).
      destruct (pr_task _ _ _ _ _ Hp q u Hu) as (u2 & ? & Hf & _).
      rewrite bool_decide_true in Hf by done. by eauto.
    + intros q u Hu Hq. destruct (pr_task _ _ _ _ _ Hp q u Hu) as (u2 & ? & Hf & ? & _).
      rewrite bool_decide_false in Hf by done. by eauto.
    + intros j u Hj Hu Hne. destruct Hne. exact (finish_none s s2 c p fr Hs Hc Hp Hpick j u Hj Hu).
  - rewrite (Hch (Some (Idl c))) by by apply Hcase.
    rewrite <- Hcur in *.
    destruct (finish_idle s s2 c p fr Hs Hc Hp Hpick) as (r & s' & Hrun & Hres).
    + intros j t. by rewrite Hcur.
    + intros c'. by rewrite Hcur.
    + by exists r, s', (Idl c).
Qed.

(** ** Sequences of steps *)

(** No CPU is between parking its task and switching away from it. *)
Definition settled (s : Sched) : Prop :=
  forall c p i t, percpu s !! c = Some p -> current p = Some (Tsk i) ->
    tasks s !! i = Some t -> state t <> Blocked.

(** CPU [c] executes a system call of the task [i]. *)
Definition in_task (s : Sched) (c i : nat) : Prop :=
  exists p, percpu s !! c = Some p /\ current p = Some (Tsk i).

Inductive sched_step : Sched -> Sched -> Prop :=
| step_init_cpu c s s' :
    percpu s !! c = Some EMPTY_PERCPU -> init_cpu c s = Ret (tt, s') -> sched_step s s'
| step_schedule c fr r s s' :
    initialized s = true -> schedule c fr s = Ret (r, s') -> sched_step s s'
| step_dead c i s s' :
    in_task s c i -> mark_current_dead c s = Ret (tt, s') -> sched_step s s'
| step_sleep c i tick s s' :
    in_task s c i -> block_current_until c tick s = Ret (tt, s') -> sched_step s s'
| step_read c i s s' :
    in_task s c i -> block_current_input c s = Ret (tt, s') -> sched_step s s'
| step_wake now s s' :
    settled s -> wake_sleepers now s = Ret (tt, s') -> sched_step s s'
| step_key s s' :
    settled s -> wake_input_waiters s = Ret (tt, s') -> sched_step s s'
| step_spawn entry stack r s s' :
    spawn_user entry stack s = Ret (r, s') -> sched_step s s'.

Lemma on_current_ok s s' c i f x :
  sched_ok s -> in_task s c i -> (x = Blocked \/ x = Dead) ->
  (forall t, state (f t) = x /\ kind (f t) = kind t) ->
  on_current c f s = Ret (tt, s') -> sched_ok s'.
Proof.
  intros Hs (p & Hc & Hi) Hx Hf. unfold on_current, per_cpu, sbind. rewrite Hc, Hi.
  destruct (current_find s c p (Tsk i) Hs Hc Hi) as (t & Ht). unfold upd_task. rewrite Ht. intros [= <-].
  change (sched_ok (put_task s (Tsk i) (f t))).
  rewrite <- (set_percpu_id (put_task _ _ _)). destruct (Hf t) as [Hst Hk].
  apply (put_ok s i t); try done.
  - left. rewrite Hk. apply (so_user _ Hs i t Ht). intros E.
    pose proof (own_ready _ _ c p i (so_own _ Hs) Hc ltac:(by left)) as [_ []].
    rewrite <- E. by apply states_lookup.
  - apply Hs.
  - rewrite Hst. by eapply own_stop; [apply Hs|..].
Qed.

Lemma wake_ok s f :
  sched_ok s -> settled s ->
  (forall t, kind (f t) = kind t /\ (state (f t) = state t \/ (state t = Blocked /\ state (f t) = Ready))) ->
  sched_ok (set_tasks s (f <$> tasks s)).
Proof.
  intros Hs Hset Hf. destruct Hs as [? ? ? ? Huser ? Hown]. constructor; simpl; try done.
  - by rewrite length_fmap.
  - intros i t Hi Hne. rewrite list_lookup_fmap in Hi.
    destruct (tasks s !! i) as [u|] eqn:E; [|done]. simplify_eq/=. destruct (Hf u) as [-> Hst].
    apply (Huser i u E). destruct Hst as [|[E' _]]; congruence.
  - replace (state <$> (f <$> tasks s))
      with (imap (fun i x => default x (state <$> (f <$> (tasks s !! i)))) (state <$> tasks s)).
    + apply own_wake; [done| |].
      * intros i x Hx. apply states_lookup_inv in Hx as (t & Ht & <-). rewrite Ht. simpl.
        destruct (Hf t) as [_ [|[? ?]]]; auto.
      * intros c p i Hc Hi E. apply states_lookup_inv in E as (t & Ht & E). by eapply (Hset c p i t).
    + apply list_eq. intros i. rewrite list_lookup_imap, !list_lookup_fmap.
      by destruct (tasks s !! i).
Qed.

Lemma unused_from_Some i ts j :
  unused_from i ts = Some j -> exists k t, j = (i + k)%nat /\ ts !! k = Some t /\ state t = Unused.
Proof.
  revert i. induction ts as [|t ts IH]; intros i; simpl; [done|].
  destruct (bool_decide (state t = Unused)) eqn:E.
  - intros [= <-]. apply bool_decide_eq_true in E. exists 0%nat, t. split; [lia|]. done.
  - intros (k & u & -> & ? & ?)%IH. exists (S k), u. split; [lia|]. done.
Qed.

Lemma build_user_frame_run top entry stack s :
  FRAME_WORDS * 8 <= top < 2 ^ 64 ->
  build_user_frame top entry stack s =
  Ret (top - FRAME_WORDS * 8, set_stacks s (write_words (stacks s) (top - FRAME_WORDS * 8)
         (frame_image SYSCALL_VECTOR entry USER_CODE_SELECTOR stack USER_DATA_SELECTOR))).
Proof.
  intros Ht. unfold build_user_frame, frame_at, sbind, slift.
  rewrite chk_Ret by (unfold FRAME_WORDS in *; lia). reflexivity.
Qed.

Opaque write_words.
Lemma build_user_frame_inv top entry stack s f s' :
  build_user_frame top entry stack s = Ret (f, s') -> exists m, s' = set_stacks s m.
Proof.
  unfold build_user_frame, sbind, slift. destruct (frame_at top); [|done..].
  unfold smodify, sret. intros H. injection H as _ <-. by eexists.
Qed.

Transparent write_words.

Lemma spawn_ok s s' i f top m h :
  sched_ok s -> unused_from 0 (tasks s) = Some i ->
  s' = put_task (set_stacks (set_kheap s h) m) (Tsk i) (mkTask Ready User 0 f top 0 false) ->
  sched_ok s'.
Proof.
  intros Hs Hi ->. apply unused_from_Some in Hi as (k & t & -> & Ht & Hst). cbn [Nat.add] in *.
  assert (sched_ok (set_stacks (set_kheap s h) m)) as Hs1 by (destruct Hs; by constructor).
  rewrite <- (set_percpu_id (put_task _ _ _)). apply (put_ok _ k t); try done.
  - by left.
  - apply Hs.
  - apply own_set_state; [apply Hs|done|]. intros c p Hc Hh.
    destruct (own_ready _ _ c p k (so_own _ Hs) Hc Hh) as [_ []]. rewrite <- Hst. by apply states_lookup.
Qed.

Lemma step_ok s s' : sched_ok s -> sched_step s s' -> sched_ok s'.
Proof.
  intros Hs Hstep. destruct Hstep as
    [c s s' Hc Hrun|c fr r s s' Hi Hrun|c i s s' Hin Hrun|c i tick s s' Hin Hrun|c i s s' Hin Hrun
    |now s s' Hset Hrun|s s' Hset Hrun|entry stack r s s' Hrun].
  - unfold init_cpu, upd_task, set_per_cpu, get_task, set_kernel_stack in Hrun. inv_run.
    destruct (find_task s (Idl c)) as [t|] eqn:Ht; [|done]. simplify_eq/=.
    repeat (case_match; simplify_eq/=).
    apply set_rsp0_ok; [|rewrite length_insert; apply Hs].
    assert (sched_ok (put_task s (Idl c) (with_state Running t))) as Hs1 by by eapply put_idle_ok.
    destruct Hs1 as [? ? ? ? ? ? Hown]. constructor; simpl; try done.
    + by rewrite length_insert.
    + eapply own_to_idle; done.
  - destruct (percpu s !! c) as [p|] eqn:Hc.
    + destruct (schedule_spec s c p fr Hs Hi Hc) as (r' & s2 & n & Hrun' & Hres).
      rewrite Hrun in Hrun'. simplify_eq. apply Hres.
    + unfold schedule in Hrun. rewrite (sbind_Ret _ _ _ s s) in Hrun by done.
      rewrite Hi in Hrun. unfold publish, per_cpu, sbind in Hrun. cbn [negb] in Hrun.
      by rewrite Hc in Hrun.
  - eapply (on_current_ok s s' c i _ Dead); [done|done|by auto| |exact Hrun]. done.
  - eapply (on_current_ok s s' c i _ Blocked); [done|done|by auto| |exact Hrun]. done.
  - eapply (on_current_ok s s' c i _ Blocked); [done|done|by auto| |exact Hrun]. done.
  - unfold wake_sleepers in Hrun. inv_run. apply wake_ok; [done..|]. intros t.
    unfold wake_sleeper. destruct (bool_decide (state t = Blocked)) eqn:E; simpl; [|by auto].
    apply bool_decide_eq_true in E. case_test; auto.
  - unfold wake_input_waiters in Hrun. inv_run. apply wake_ok; [done..|]. intros t.
    unfold wake_waiter. destruct (bool_decide (state t = Blocked)) eqn:E; simpl; [|by auto].
    apply bool_decide_eq_true in E. case_test; auto.
  - unfold spawn_user, kmalloc in Hrun. inv_run.
    destruct (Heap.kmalloc _ _) as [[q h]| |]; simplify_eq.
    assert (sched_ok (set_kheap s h)) as Hs1 by (destruct Hs; by constructor).
    case_test_in Hrun; inv_run; [done|].
    destruct (unused_from 0 _) as [i|] eqn:Hi; inv_run; [|done].
    apply build_user_frame_inv in Hrun1 as [m ->]. unfold upd_task in Hrun2. case_match; simplify_eq.
    by eapply (spawn_ok s); [| |done].
Qed.

Lemma unused_from_None i ts k t :
  unused_from i ts = None -> ts !! k = Some t -> state t <> Unused.
Proof.
  revert i k. induction ts as [|u ts IH]; intros i k; simpl; [done|].
  case_bool_decide; [done|]. intros Hn Hk. destruct k as [|k]; [by simplify_eq/=|]. by eapply IH.
Qed.

Lemma write_words_out m a ws x :
  (forall k, (k < length ws)%nat -> x <> a + 8 * Z.of_nat k) -> write_words m a ws !! x = m !! x.
Proof.
  revert m a. induction ws as [|w ws IH]; intros m a Hx; [done|]. cbn [write_words].
  rewrite IH.
  - apply lookup_insert_ne. specialize (Hx 0%nat). simpl in Hx. lia.
  - intros k Hk. specialize (Hx (S k)). simpl in Hx. lia.
Qed.

Lemma write_words_in m a ws k w :
  ws !! k = Some w -> write_words m a ws !! (a + 8 * Z.of_nat k) = Some w.
Proof.
  revert m a k. induction ws as [|v ws IH]; intros m a k Hk; [done|]. cbn [write_words].
  destruct k as [|k]; simplify_eq/=.
  - rewrite write_words_out by lia. rewrite Z.add_0_r. apply lookup_insert_eq.
  - replace (a + 8 * Z.of_nat (S k)) with (a + 8 + 8 * Z.of_nat k) by lia. by apply IH.
Qed.

(** The stack top of a 16-byte aligned allocation needs no rounding. *)
Lemma stack_top_aligned a :
  a mod 16 = 0 -> 0 <= a < 2 ^ 64 -> Z.land a (unot 64 0xF) = a.
Proof.
  intros Ha Hr. change 0xF with (Z.ones 4). rewrite (land_align 64 4) by lia. lia.
Qed.

Lemma spawn_alloc s entry stack ptr h :
  Heap.kmalloc KERNEL_STACK_SIZE (kheap s) = Ret (ptr, h) ->
  0 < ptr -> ptr mod 16 = 0 -> ptr + KERNEL_STACK_SIZE < 2 ^ 64 ->
  spawn_user entry stack s =
  match unused_from 0 (tasks s) with
  | None => Ret (None, set_kheap s h)
  | Some i =>
      (f <- build_user_frame (ptr + KERNEL_STACK_SIZE) entry stack ;;
       _ <- upd_task (Tsk i) (fun _ => mkTask Ready User 0 f (ptr + KERNEL_STACK_SIZE) 0 false) ;;
       sret (Some i)) (set_kheap s h)
  end.
Proof.
  intros Hrun Hpos Hal Hend. unfold spawn_user, kmalloc.
  unfold sbind at 1. rewrite Hrun. rewrite (proj2 (Z.eqb_neq ptr 0)) by lia.
  unfold sbind at 1, slift. rewrite chk_Ret by (unfold KERNEL_STACK_SIZE in *; lia).
  rewrite stack_top_aligned by (unfold KERNEL_STACK_SIZE in *; lia).
  unfold sbind at 1, sget. cbn [set_kheap tasks]. by destruct (unused_from 0 (tasks s)).
Qed.

Lemma spawn_user_spec s entry stack l e :
  sched_ok s -> Heap.heap_ok (kheap s) l e ->
  (exists ptr sz i rl s', spawn_user entry stack s = Ret (Some i, s') /\
     unused_from 0 (tasks s) = Some i /\ Heap.heap_ok (kheap s') rl e /\
     KERNEL_STACK_SIZE <= sz /\
     Heap.used (Heap.heap_head (kheap s)) rl ≡ₚ (ptr, sz) :: Heap.used (Heap.heap_head (kheap s)) l /\
     s' = put_task (set_stacks (set_kheap s (kheap s')) (write_words (stacks s)
            (ptr + KERNEL_STACK_SIZE - FRAME_WORDS * 8)
            (frame_image SYSCALL_VECTOR entry USER_CODE_SELECTOR stack USER_DATA_SELECTOR))) (Tsk i)
          (mkTask Ready User 0 (ptr + KERNEL_STACK_SIZE - FRAME_WORDS * 8)
             (ptr + KERNEL_STACK_SIZE) 0 false)) \/
  (exists h, spawn_user entry stack s = Ret (None, set_kheap s h) /\
     (h = kheap s \/ unused_from 0 (tasks s) = None)).
Proof.
  intros Hs Hh.
  destruct (Heap.kmalloc_run (kheap s) l e KERNEL_STACK_SIZE Hh) as
    [(ptr & sz & h & rl & Hrun & Hok & Hal & Hsz & Hlo & Hhi & Hused & _)|[Hrun _]].
  { unfold KERNEL_STACK_SIZE, u64_max. lia. }
  2: { right. exists (kheap s). unfold spawn_user, kmalloc, sbind at 1. rewrite Hrun. cbn. by auto. }
  destruct (Heap.hk_head _ _ _ Hh) as [Hpos _]. pose proof (Heap.hk_end _ _ _ Hh) as Hend.
  rewrite (spawn_alloc s entry stack ptr h Hrun) by lia.
  destruct (unused_from 0 (tasks s)) as [i|] eqn:Hi; [|right; exists h; by auto].
  left. rewrite (sbind_Ret _ _ _ _ _ (build_user_frame_run (ptr + KERNEL_STACK_SIZE) entry stack _
    ltac:(unfold FRAME_WORDS, KERNEL_STACK_SIZE in *; lia))).
  pose proof Hi as (k & t & -> & Ht & _)%unused_from_Some. cbn [Nat.add].
  unfold sbind, upd_task. cbn [find_task set_stacks set_kheap tasks]. rewrite Ht.
  exists ptr, sz, k, rl. eexists. split; [reflexivity|]. split_and!; try done.
Qed.


(** ** Properties *)

(** Two CPUs, three tasks: CPU 0 runs task 0, CPU 1 is idle, tasks 1 and 2 are
    ready. *)
Definition user_task (st : TaskState) (f k : Z) : Task := mkTask st User 0 f k 0 false.
Definition idle_task (c : nat) : Task := mkTask Running Idle c (0x9000 + Z.of_nat c) 0xA000 0 false.

Definition sample_sched : Sched :=
  mkSched true
    (user_task Running 0x1000 0x2000 :: user_task Ready 0x3000 0x4000 ::
     user_task Ready 0x5000 0x6000 :: replicate 61 EMPTY_TASK)
    (idle_task 0 :: idle_task 1 :: replicate 30 EMPTY_TASK)
    (mkPerCpu (Some (Tsk 0)) None :: mkPerCpu (Some (Idl 1)) None :: replicate 30 EMPTY_PERCPU)
    (0x2000 :: 0xA000 :: replicate 30 0) ∅ Heap.sample_heap 2 0xFFFFFFFF80000000 0xFFFFFFFF80100000.

Lemma sample_sched_ok : sched_ok sample_sched.
Proof.
  assert (forall c p, percpu sample_sched !! c = Some p ->
    (c = 0%nat /\ p = mkPerCpu (Some (Tsk 0)) None) \/
    (c = 1%nat /\ p = mkPerCpu (Some (Idl 1)) None) \/ p = EMPTY_PERCPU) as Hp.
  { intros [|[|c]] p; [by intros [= <-]; auto..|]. intros H.
    change (replicate 30 EMPTY_PERCPU !! c = Some p) in H.
    apply lookup_replicate in H as [-> _]. auto. }
  constructor; try done.
  - intros [|[|[|i]]] t; [by intros [= <-]..|]. intros H.
    change (replicate 61 EMPTY_TASK !! i = Some t) in H. by apply lookup_replicate in H as [-> _].
  - intros [|[|c]] t; [by intros [= <-]..|]. intros H.
    change (replicate 30 EMPTY_TASK !! c = Some t) in H. by apply lookup_replicate in H as [-> _].
  - constructor.
    + intros c p i [(-> & ->)|[(-> & ->)| ->]]%Hp H; simplify_eq/=. by left.
    + intros c p i [(-> & ->)|[(-> & ->)| ->]]%Hp H; simplify_eq/=.
    + intros c p i [(-> & ->)|[(-> & ->)| ->]]%Hp H; simplify_eq/=. done.
    + intros c p i [(-> & ->)|[(-> & ->)| ->]]%Hp H; simplify_eq/=.
    + intros c c' p p' i [(-> & ->)|[(-> & ->)| ->]]%Hp [(-> & ->)|[(-> & ->)| ->]]%Hp [H|H] [H'|H'];
        simplify_eq/=. done.
    + intros [|[|[|i]]] H; simplify_eq/=.
      * exists 0%nat. eexists. split; [done|]. by left.
      * change ((state <$> replicate 61 EMPTY_TASK) !! i = Some Running) in H.
        rewrite fmap_replicate in H. by apply lookup_replicate in H as [H _].
Qed.

(** [schedule] always returns on a CPU of the table, and leaves the
    scheduler well formed. It resumes the interrupted context itself, or a
    task with exactly the frame that was saved for it and with [RSP0] at that
    task's kernel stack; the interrupted frame is saved in the task it belongs
    to, no other saved frame or stack changes, and no other CPU is touched.
    It never idles, nor keeps the current task, while another task of the
    table is ready. *)
Theorem schedule_correct (s : Sched) (c : nat) (p : PerCpu) (fr : Z)
    (Hs : sched_ok s) (Hinit : initialized s = true) (Hc : percpu s !! c = Some p) :
  exists r s' n, schedule c fr s = Ret (r, s') /\ sched_ok s' /\
    (exists d, percpu s' = <[c := mkPerCpu (Some n) d]> (percpu s)) /\
    (if bool_decide (current p = Some n) then r = fr
     else exists t, find_task s n = Some t /\ r = frame t /\ rsp0 s' !! c = Some (kstack t)) /\
    (forall q, current p = Some q -> exists t', find_task s' q = Some t' /\ frame t' = fr) /\
    (forall q t, find_task s q = Some t -> current p <> Some q ->
       exists t', find_task s' q = Some t' /\ frame t' = frame t /\ kstack t' = kstack t) /\
    (forall i, n = Tsk i -> exists t, tasks s' !! i = Some t /\ state t = Running) /\
    (forall j t, tasks s !! j = Some t -> state t = Ready -> current p <> Some (Tsk j) ->
       exists i, n = Tsk i).
Proof.
  destruct (schedule_spec s c p fr Hs Hinit Hc) as (r & s' & n & Hrun & []).
  exists r, s', n. split_and!; done.
Qed.

Lemma schedule_correct_witness :
  exists r s', schedule 0 0x7000 sample_sched = Ret (r, s') /\ sched_ok s' /\ r = 0x3000 /\
    percpu s' !! 0%nat = Some (mkPerCpu (Some (Tsk 1)) (Some (Tsk 0))) /\ rsp0 s' !! 0%nat = Some 0x4000.
Proof.
  assert (Hval : match schedule 0 0x7000 sample_sched with
    | Ret (r, s') => bool_decide (r = 0x3000) &&
        bool_decide (percpu s' !! 0%nat = Some (mkPerCpu (Some (Tsk 1)) (Some (Tsk 0)))) &&
        bool_decide (rsp0 s' !! 0%nat = Some 0x4000)
    | _ => false end = true) by (vm_compute; reflexivity).
  destruct (schedule_correct sample_sched 0 _ 0x7000 sample_sched_ok eq_refl eq_refl)
    as (r & s' & n & Hrun & Hok & _).
  rewrite Hrun in Hval. apply andb_true_iff in Hval as [[H1 H2]%andb_true_iff H3].
  exists r, s'. split; [exact Hrun|]. split; [exact Hok|].
  split_and!; by eapply bool_decide_eq_true.
Defined.

(** C4: In every state reachable by the steps of all CPUs, as long as no
    sleeper is woken between parking itself and switching away, a task is
    current on at most one CPU, a ready task is held by none, and a running
    one by exactly one. *)
Theorem sched_exclusive (s s' : Sched) (Hs : sched_ok s) (Hsteps : rtc sched_step s s') :
  sched_ok s' /\
  (forall c1 c2 p1 p2 i, percpu s' !! c1 = Some p1 -> percpu s' !! c2 = Some p2 ->
     current p1 = Some (Tsk i) -> current p2 = Some (Tsk i) -> c1 = c2) /\
  (forall i t, tasks s' !! i = Some t ->
     (state t = Ready -> forall c p, percpu s' !! c = Some p -> ~ holds p i) /\
     (state t = Running -> exists c p, percpu s' !! c = Some p /\ holds p i)).
Proof.
  assert (sched_ok s') as Hs'.
  { revert Hs. induction Hsteps; [done|]. intros. by eapply IHHsteps, step_ok. }
  pose proof (so_own _ Hs') as Ho. split; [done|]. split.
  - intros c1 c2 p1 p2 i ????. eapply (own_unique _ _ Ho c1 c2 p1 p2 i); [done..|by left|by left].
  - intros i t Hi. apply states_lookup in Hi. split; intros E; rewrite E in Hi.
    + intros c p Hc Hh. by destruct (own_ready _ _ c p i Ho Hc Hh).
    + by apply (own_running _ _ Ho).
Qed.

Lemma sched_exclusive_witness :
  exists s', rtc sched_step sample_sched s' /\ sched_ok s' /\
    percpu s' !! 1%nat = Some (mkPerCpu (Some (Tsk 1)) None).
Proof.
  assert (exists s', schedule 1 0x7000 sample_sched = Ret (0x3000, s') /\
    percpu s' !! 1%nat = Some (mkPerCpu (Some (Tsk 1)) None)) as (s' & Hrun & Hp)
    by (eexists; split; vm_compute; reflexivity).
  assert (rtc sched_step sample_sched s') as Hr
    by (eapply rtc_once, step_schedule; [reflexivity|exact Hrun]).
  exists s'. split; [exact Hr|]. split; [|exact Hp].
  apply (sched_exclusive sample_sched s' sample_sched_ok Hr).
Defined.

(** Without that proviso the discipline breaks: a task that parks itself
    waiting for a key on CPU 0 and is woken by the keyboard interrupt before
    CPU 0 has switched away is picked by CPU 1 and is then current on both
    CPUs, on the same kernel stack. *)
Theorem wake_before_switch_double_run :
  sched_ok sample_sched /\
  exists s1 s2 s3 r, block_current_input 0 sample_sched = Ret (tt, s1) /\
    wake_input_waiters s1 = Ret (tt, s2) /\ schedule 1 0x7000 s2 = Ret (r, s3) /\
    exists p0 p1, percpu s3 !! 0%nat = Some p0 /\ percpu s3 !! 1%nat = Some p1 /\
      current p0 = Some (Tsk 0) /\ current p1 = Some (Tsk 0).
Proof.
  split; [apply sample_sched_ok|].
  eexists _, _, _, _. split; [reflexivity|]. split; [reflexivity|]. split; [vm_compute; reflexivity|].
  eexists _, _. split; [vm_compute; reflexivity|]. split; [vm_compute; reflexivity|]. done.
Qed.

(** [spawn_user] always returns and keeps the scheduler and the heap well
    formed. On success a slot that was unused holds a ready ring-3 task whose
    kernel stack is a fresh heap allocation and whose saved frame, at the top
    of that stack, makes [iretq] enter [entry] on [user_stack] with ring-3
    selectors and interrupts enabled; nothing else changes. It fails only when
    the heap has no room or the table no unused slot, with every task as it
    was. *)
Theorem spawn_user_correct (s : Sched) (entry stack : Z) (l : list (Z * bool)) (e : Z)
    (Hs : sched_ok s) (Hh : Heap.heap_ok (kheap s) l e) :
  exists r s', spawn_user entry stack s = Ret (r, s') /\ sched_ok s' /\ percpu s' = percpu s /\
    match r with
    | Some i => exists t ptr sz rl, tasks s !! i = Some t /\ state t = Unused /\
        Heap.heap_ok (kheap s') rl e /\ KERNEL_STACK_SIZE <= sz /\
        Heap.used (Heap.heap_head (kheap s)) rl ≡ₚ
          (ptr, sz) :: Heap.used (Heap.heap_head (kheap s)) l /\
        let top := ptr + KERNEL_STACK_SIZE in
        tasks s' = <[i := mkTask Ready User 0 (top - 176) top 0 false]> (tasks s) /\
        (forall k w, (replicate 15 0 ++ [0x80; 0; entry; 0x1B; 0x202; stack; 0x23]) !! k = Some w ->
           stacks s' !! (top - 176 + 8 * Z.of_nat k) = Some w)
    | None => tasks s' = tasks s /\
        (kheap s' = kheap s \/ forall i t, tasks s !! i = Some t -> state t <> Unused)
    end.
Proof.
  destruct (spawn_user_spec s entry stack l e Hs Hh) as
    [(ptr & sz & i & rl & s' & Hrun & Hi & Hok & Hsz & Hused & Hs')|(h & Hrun & Hcase)].
  - exists (Some i), s'. split; [done|]. split; [by eapply spawn_ok|]. rewrite Hs'. split; [done|].
    pose proof Hi as (k & t & -> & Ht & Hst)%unused_from_Some.
    exists t, ptr, sz, rl. split; [done|]. split; [done|]. split; [exact Hok|]. split; [done|].
    split; [done|]. split; [done|]. intros j w Hj. by apply write_words_in.
  - exists None. eexists. split; [done|]. split; [destruct Hs; by constructor|]. split; [done|].
    split; [done|]. destruct Hcase as [->|Hn]; [by left|right]. intros i t. by eapply unused_from_None.
Qed.

(** A heap with room for one kernel stack. *)
Definition roomy_sched : Sched :=
  set_kheap sample_sched
    (Heap.mkHeap {[0xFFFF900000000000 := Heap.mkBlock 131040 0 1 0]} 0xFFFF900000000000 0x202).

Lemma spawn_user_correct_witness :
  exists s', spawn_user 0x400000 0x7FFFF000 roomy_sched = Ret (Some 3%nat, s') /\ sched_ok s' /\
    stacks s' !! 0xFFFF90000000FFF8 = Some 0x400000.
Proof.
  assert (Hval : match spawn_user 0x400000 0x7FFFF000 roomy_sched with
    | Ret (r, s') => bool_decide (r = Some 3%nat) &&
        bool_decide (stacks s' !! 0xFFFF90000000FFF8 = Some 0x400000)
    | _ => false end = true) by (vm_compute; reflexivity).
  destruct (spawn_user_correct roomy_sched 0x400000 0x7FFFF000 [(131040, true)] 0xFFFF900000020000)
    as (r & s' & Hrun & Hok & _).
  - destruct sample_sched_ok. by constructor.
  - constructor; simpl; try lia; [|done]. split_and!; try done. by exists 0.
  - rewrite Hrun in Hval. apply andb_true_iff in Hval as [H1 H2].
    apply bool_decide_eq_true in H1, H2. subst r. exists s'. split; [exact Hrun|]. split; [exact Hok|exact H2].
Defined.

(** Timer interrupts on CPU 0 with the successive frames [frs]. *)
Fixpoint ticks (frs : list Z) (s : Sched) : outcome Sched :=
  match frs with
  | [] => Ret s
  | fr :: frs' => let! r := schedule 0 fr s in ticks frs' r.2
  end.

(** Tasks 0 and 1 take turns on CPU 0, task 2 is ready. *)
Inductive alternating : Sched -> Prop :=
| alt_first b f0 f1 f2 k0 k1 k2 c0 c1 c2 ts ids ps r rs st h n rb ie :
    alternating (mkSched true
      (mkTask Running User c0 f0 k0 0 false ::
       mkTask (if b : bool then Running else Ready) User c1 f1 k1 0 false ::
       mkTask Ready User c2 f2 k2 0 false :: ts) ids
      (mkPerCpu (Some (Tsk 0)) (if b then Some (Tsk 1) else None) :: ps) (r :: rs) st h n rb ie)
| alt_second f0 f1 f2 k0 k1 k2 c0 c1 c2 ts ids ps r rs st h n rb ie :
    alternating (mkSched true
      (mkTask Running User c0 f0 k0 0 false :: mkTask Running User c1 f1 k1 0 false ::
       mkTask Ready User c2 f2 k2 0 false :: ts) ids
      (mkPerCpu (Some (Tsk 1)) (Some (Tsk 0)) :: ps) (r :: rs) st h n rb ie).

Lemma alternating_tick s fr :
  alternating s -> exists r s', schedule 0 fr s = Ret (r, s') /\ alternating s'.
Proof.
  intros [b f0 f1 f2 k0 k1 k2 c0 c1 c2 ts ids ps r rs st h n rb ie
         |f0 f1 f2 k0 k1 k2 c0 c1 c2 ts ids ps r rs st h n rb ie].
  - destruct b; (eexists _, _; split; [lazy; reflexivity|]); apply alt_second.
  - eexists _, _. split; [lazy; reflexivity|]. apply (alt_first true).
Qed.

(** The scheduler is not round-robin: with three runnable tasks and one
    CPU, any number of timer interrupts alternates between the first two, and
    the third stays ready without ever running. *)
Theorem schedule_starves_third_task (s : Sched) (frs : list Z) (Ha : alternating s) :
  exists s', ticks frs s = Ret s' /\
    (exists t, tasks s' !! 2%nat = Some t /\ state t = Ready) /\
    (exists p, percpu s' !! 0%nat = Some p /\ ~ holds p 2).
Proof.
  revert s Ha. induction frs as [|fr frs IH]; intros s Ha; cbn [ticks].
  - exists s. split; [done|]. destruct Ha as [b|]; (split; [by eexists|]); eexists; (split; [done|]).
    + intros [H|H]; [done|]. by destruct b.
    + by intros [H|H].
  - destruct (alternating_tick s fr Ha) as (r & s1 & -> & Ha1). by apply IH.
Qed.

Lemma schedule_starves_third_task_witness :
  exists s', ticks (replicate 1000 0x7000) sample_sched = Ret s' /\
    exists t, tasks s' !! 2%nat = Some t /\ state t = Ready.
Proof.
  destruct (schedule_starves_third_task sample_sched (replicate 1000 0x7000)) as (s' & Hrun & Ht & _).
  - apply (alt_first false).
  - exists s'. split; [exact Hrun|exact Ht].
Defined.
