(* ===== verification/Smp.v ===== *)
(** * Processors ([src/src/smp.rs])

    The kernel numbers its processors twice: [discover] fills the table that
    [cpu_index] searches, and [start_aps] later tells each processor its number
    as it releases it. Both go over the list of the bootloader; the theorem
    shows that they agree. *)

From S2P Require Import Prelude Scheduler.
From stdpp Require Import list.
#[local] Open Scope nat_scope.

(** What the code uses of an entry; [goto_address] is set or null, and the
    bootloader starts the processor at [ap_entry] once it is set. *)
Record LimineSmpInfo := mkInfo {
  lapic_id : Z;
  goto_address : bool;
  extra_argument : Z;
}.

(** [cpus] is the array of [cpu_count] pointers, [None] a null pointer. *)
Record LimineSmpResponse := mkResponse {
  bsp_lapic_id : Z;
  cpus : list (option LimineSmpInfo);
}.

(** The statics [CPU_COUNT] and [LAPIC_IDS]. *)
Record Smp := mkSmp {
  cpu_count : nat;
  lapic_ids : list Z;
}.

Definition smp_boot : Smp := mkSmp 1 (replicate MAX_CPUS 0%Z).

(** The test of both loops. *)
Definition claims (bsp : Z) (info : option LimineSmpInfo) (index : nat) : option LimineSmpInfo :=
  match info with
  | Some i => if negb (lapic_id i =? bsp)%Z && (index <? MAX_CPUS) then Some i else None
  | None => None
  end.

Fixpoint discover_loop (bsp : Z) (l : list (option LimineSmpInfo)) (index : nat) (ids : list Z)
    : nat * list Z :=
  match l with
  | [] => (index, ids)
  | info :: l' =>
      match claims bsp info index with
      | Some i => discover_loop bsp l' (S index) (<[index := lapic_id i]> ids)
      | None => discover_loop bsp l' index ids
      end
  end.

(** [local] is what [apic::local_id] reads on the processor that runs this. *)
Definition discover (response : option LimineSmpResponse) (local : Z) (s : Smp) : Smp :=
  match response with
  | None => mkSmp 1 (<[0 := local]> (lapic_ids s))
  | Some r =>
      let bsp := bsp_lapic_id r in
      let '(index, ids) := discover_loop bsp (cpus r) 1 (<[0 := bsp]> (lapic_ids s)) in
      mkSmp index ids
  end.

Fixpoint cpu_index_loop (id : Z) (ids : list Z) (i n : nat) : nat :=
  match n with
  | O => 0
  | S n' => if decide (ids !! i = Some id) then i else cpu_index_loop id ids (S i) n'
  end.

Definition cpu_index (local : Z) (s : Smp) : nat := cpu_index_loop local (lapic_ids s) 0 (cpu_count s).

Fixpoint start_loop (bsp : Z) (l : list (option LimineSmpInfo)) (index : nat)
    : list (option LimineSmpInfo) :=
  match l with
  | [] => []
  | info :: l' =>
      match claims bsp info index with
      | Some i => Some (mkInfo (lapic_id i) true (Z.of_nat index)) :: start_loop bsp l' (S index)
      | None => info :: start_loop bsp l' index
      end
  end.

Definition start_aps (response : option LimineSmpResponse) : option LimineSmpResponse :=
  match response with
  | None => None
  | Some r => Some (mkResponse (bsp_lapic_id r) (start_loop (bsp_lapic_id r) (cpus r) 1))
  end.

(** The slot a released processor initialises, in [ap_entry]. *)
Definition ap_entry_cpu (info : LimineSmpInfo) : Z := extra_argument info.

(** ** Lemmas *)

(** The application processors of the list, in its order. *)
Definition ap_ids (bsp : Z) (l : list (option LimineSmpInfo)) : list Z :=
  filter (fun id => id <> bsp) (lapic_id <$> omap id l).

Lemma ap_ids_None bsp l : ap_ids bsp (None :: l) = ap_ids bsp l.
Proof. done. Qed.

Lemma ap_ids_Some bsp i l :
  ap_ids bsp (Some i :: l) = if (lapic_id i =? bsp)%Z then ap_ids bsp l else lapic_id i :: ap_ids bsp l.
Proof.
  unfold ap_ids. cbn [omap list_omap fmap list_fmap id]. destruct (Z.eqb_spec (lapic_id i) bsp) as [E|E].
  - by rewrite filter_cons_False by (by intros []).
  - by rewrite filter_cons_True.
Qed.

Lemma discover_loop_spec bsp l : forall index ids index' ids',
  discover_loop bsp l index ids = (index', ids') -> length ids = MAX_CPUS -> index <= MAX_CPUS ->
  length ids' = MAX_CPUS /\ index' = Nat.min MAX_CPUS (index + length (ap_ids bsp l)) /\
  (forall j, j < index -> ids' !! j = ids !! j) /\
  (forall k, index + k < MAX_CPUS -> k < length (ap_ids bsp l) -> ids' !! (index + k) = ap_ids bsp l !! k).
Proof.
  induction l as [|[i|] l IH]; intros index ids index' ids'; cbn [discover_loop claims].
  - intros [= <- <-] Hlen Hi. change (ap_ids bsp []) with (@nil Z). cbn [length].
    split; [done|]. split; [lia|]. split; [done|]. intros k _ Hk. lia.
  - rewrite ap_ids_Some. destruct (Z.eqb_spec (lapic_id i) bsp) as [E|E]; cbn [negb andb]; [apply IH|].
    destruct (Nat.ltb_spec index MAX_CPUS) as [Hlt|Hge].
    + intros Hd Hlen Hi. apply IH in Hd as (Hl' & -> & Hold & Hnew); [|by rewrite length_insert|lia].
      split; [done|]. cbn [length]. split; [lia|]. split.
      * intros j Hj. rewrite Hold by lia. by rewrite list_lookup_insert_ne by lia.
      * intros [|k] Hk Hk'.
        -- rewrite Nat.add_0_r, Hold by lia. by rewrite list_lookup_insert_eq by lia.
        -- replace (index + S k) with (S index + k) by lia. rewrite Hnew by lia. done.
    + intros Hd Hlen Hi. apply IH in Hd as (Hl' & -> & Hold & Hnew); [|done|done].
      cbn [length]. split; [done|]. split; [lia|]. split; [done|]. intros k Hk. lia.
  - rewrite ap_ids_None. apply IH.
Qed.

Lemma start_loop_length bsp l : forall index, length (start_loop bsp l index) = length l.
Proof.
  induction l as [|x l IH]; intros index; cbn [start_loop]; [done|].
  destruct (claims bsp x index); cbn [length]; by rewrite IH.
Qed.

(** Only the released processors change, and each carries its rank. *)
Lemma start_loop_spec bsp l : forall index k info info',
  index <= MAX_CPUS -> l !! k = Some info -> start_loop bsp l index !! k = Some info' ->
  info' = info \/ exists i j, info = Some i /\ lapic_id i <> bsp /\
    info' = Some (mkInfo (lapic_id i) true (Z.of_nat (index + j))) /\
    index + j < MAX_CPUS /\ ap_ids bsp l !! j = Some (lapic_id i).
Proof.
  induction l as [|x l IH]; intros index k info info' Hix; [done|].
  destruct x as [i|]; cbn [start_loop claims]; rewrite ?ap_ids_None, ?ap_ids_Some.
  2:{ destruct k; [by intros [= <-] [= <-]; left|]. by apply IH. }
  destruct (Z.eqb_spec (lapic_id i) bsp) as [E|E]; cbn [negb andb];
    [destruct k; [by intros [= <-] [= <-]; left|]; by apply IH|].
  destruct (Nat.ltb_spec index MAX_CPUS) as [Hlt|Hge].
  - destruct k as [|k].
    + intros [= <-] [= <-]. right. exists i, 0. by rewrite Nat.add_0_r.
    + cbn [lookup list_lookup]. intros H1 H2. destruct (IH (S index) k info info' ltac:(lia) H1 H2) as [|(a & j & H)]; [by left|].
      right. exists a, (S j). by replace (index + S j) with (S index + j) by lia.
  - destruct k as [|k]; [by intros [= <-] [= <-]; left|].
    cbn [lookup list_lookup]. intros H1 H2. destruct (IH index k info info' Hix H1 H2) as [|(a & j & H)]; [by left|].
    destruct H as (_ & _ & _ & Hj & _). lia.
Qed.

(** Below the bound on the number of processors every one is released. *)
Lemma start_loop_all bsp l : forall index k i,
  index + length (ap_ids bsp l) <= MAX_CPUS -> l !! k = Some (Some i) -> lapic_id i <> bsp ->
  exists x, start_loop bsp l index !! k = Some (Some (mkInfo (lapic_id i) true x)).
Proof.
  induction l as [|[i0|] l IH]; intros index k i Hix Hk Hi; [done| |].
  - rewrite ap_ids_Some in Hix. cbn [start_loop claims].
    destruct (Z.eqb_spec (lapic_id i0) bsp) as [E|E]; cbn [negb andb].
    + destruct k as [|k]; [by injection Hk as ->|]. by apply IH.
    + cbn [length] in Hix. rewrite (proj2 (Nat.ltb_lt _ _)) by lia.
      destruct k as [|k]; [injection Hk as ->; eauto|]. apply IH; [lia|done|done].
  - destruct k as [|k]; [done|]. cbn [start_loop claims]. by apply IH.
Qed.

Lemma cpu_index_loop_spec x ids n : forall i j,
  i <= j < i + n -> ids !! j = Some x -> (forall m, i <= m < j -> ids !! m <> Some x) ->
  cpu_index_loop x ids i n = j.
Proof.
  induction n as [|n IH]; intros i j Hj Hx Hfirst; [lia|]. cbn [cpu_index_loop].
  destruct (decide (ids !! i = Some x)) as [Hi|Hi].
  - destruct (decide (i = j)) as [->|]; [done|]. by destruct (Hfirst i ltac:(lia)).
  - apply IH; [|done|intros m Hm; apply Hfirst; lia]. destruct (decide (i = j)); [congruence|lia].
Qed.

(** ** Theorem *)

(** Processor numbers agree. For a list of the bootloader that names every
    processor once, [discover] counts between one and [MAX_CPUS] processors,
    the boot processor finds itself at 0, and every processor [start_aps]
    releases is told the number that [cpu_index] finds for it: a number of its
    own, between 1 and the count. Null entries and the boot processor are left
    alone, and when the table has room for all, every other processor is
    released. *)
Theorem smp_indices_agree r local s : length (lapic_ids s) = MAX_CPUS ->
  NoDup (bsp_lapic_id r :: ap_ids (bsp_lapic_id r) (cpus r)) ->
  Forall (fun o => forall i, o = Some i -> goto_address i = false) (cpus r) ->
  exists r', start_aps (Some r) = Some r' /\
    let s' := discover (Some r) local s in
    1 <= cpu_count s' <= MAX_CPUS /\ cpu_index (bsp_lapic_id r) s' = 0 /\
    (forall k i, cpus r' !! k = Some (Some i) -> goto_address i = true ->
       (1 <= ap_entry_cpu i < Z.of_nat (cpu_count s'))%Z /\
       Z.of_nat (cpu_index (lapic_id i) s') = ap_entry_cpu i /\ lapic_id i <> bsp_lapic_id r) /\
    (forall k i, cpus r !! k = Some (Some i) -> lapic_id i = bsp_lapic_id r -> cpus r' !! k = Some (Some i)) /\
    (length (ap_ids (bsp_lapic_id r) (cpus r)) < MAX_CPUS ->
     forall k i, cpus r !! k = Some (Some i) -> lapic_id i <> bsp_lapic_id r ->
       exists x, cpus r' !! k = Some (Some (mkInfo (lapic_id i) true x))).
Proof.
  intros Hlen Hnd Hgoto. destruct r as [bsp l]. cbn [bsp_lapic_id cpus] in *.
  eexists. split; [done|]. cbn [start_aps cpus bsp_lapic_id discover]. set (ids0 := <[0:=bsp]> (lapic_ids s)).
  destruct (discover_loop bsp l 1 ids0) as [n ids] eqn:Hd. cbn [cpu_count]. unfold cpu_index. cbn [cpu_count lapic_ids].
  apply discover_loop_spec in Hd as (Hl & Hn & Hold & Hnew);
    [|by unfold ids0; rewrite length_insert|unfold MAX_CPUS; lia].
  apply NoDup_cons in Hnd as [Hbsp Hnd].
  assert (ids !! 0 = Some bsp) as H0.
  { rewrite Hold by lia. apply list_lookup_insert_eq. rewrite Hlen. unfold MAX_CPUS. lia. }
  assert (forall j a, 1 + j < MAX_CPUS -> ap_ids bsp l !! j = Some a -> cpu_index_loop a ids 0 n = 1 + j) as Hix.
  { intros j a Hj Ha. apply lookup_lt_Some in Ha as Hlt. apply cpu_index_loop_spec; [lia|by rewrite Hnew|].
    intros [|m] Hm Hm'; [rewrite H0 in Hm'; injection Hm' as ->; apply Hbsp; by eapply list_elem_of_lookup_2|].
    change (S m) with (1 + m) in Hm'. rewrite Hnew in Hm' by lia.
    pose proof (NoDup_lookup _ _ _ _ Hnd Hm' Ha). lia. }
  assert (forall k info', start_loop bsp l 1 !! k = Some info' -> is_Some (l !! k)) as Hdom.
  { intros k info' Hk%lookup_lt_Some. rewrite start_loop_length in Hk. by apply lookup_lt_is_Some. }
  split; [unfold MAX_CPUS in *; lia|]. split; [apply cpu_index_loop_spec; [unfold MAX_CPUS in *; lia|done|lia]|].
  split; [|split].
  - intros k i Hk Hg. destruct (Hdom k _ Hk) as [info Hinfo].
    destruct (start_loop_spec bsp l 1 k info (Some i)) as [<-|(i0 & j & -> & Hne & [= ->] & Hj & Ha)];
      [unfold MAX_CPUS; lia|done|done| |].
    + assert (goto_address i = false) by (by apply (Forall_lookup_1 _ _ _ _ Hgoto Hinfo)). congruence.
    + cbn [lapic_id ap_entry_cpu extra_argument]. rewrite (Hix j _ Hj Ha). apply lookup_lt_Some in Ha.
      split; [lia|done].
  - intros k i Hk Hi. assert (is_Some (start_loop bsp l 1 !! k)) as [x Hx].
    { apply lookup_lt_is_Some. apply lookup_lt_Some in Hk.
      by rewrite start_loop_length. }
    destruct (start_loop_spec bsp l 1 k (Some i) x) as [->|(i0 & j & [= <-] & Hne & _)]; try done.
    unfold MAX_CPUS; lia.
  - intros Hroom k i Hk Hi. by apply start_loop_all; [unfold MAX_CPUS in *; lia|..].
Qed.

(** ** Witness *)

Definition three_cpus : LimineSmpResponse :=
  mkResponse 4 [Some (mkInfo 0 false 0); None; Some (mkInfo 4 false 0); Some (mkInfo 6 false 0)].

Lemma smp_indices_agree_witness : exists r', start_aps (Some three_cpus) = Some r' /\
  cpu_index 4 (discover (Some three_cpus) 4 smp_boot) = 0.
Proof.
  destruct (smp_indices_agree three_cpus 4 smp_boot) as (r' & Hr' & _ & H0 & _).
  - reflexivity.
  - apply (bool_decide_unpack _). vm_compute. exact I.
  - unfold three_cpus. cbn [cpus]. rewrite !Forall_cons, Forall_nil. split_and!; intros; by simplify_eq.
  - exists r'. split; [exact Hr'|exact H0].
Defined.
