(* ===== verification/Entry.v ===== *)
(** * The entry stubs ([src/src/asm.rs])

    Interrupts enter the kernel through a few lines of assembly that save the
    interrupted registers in an [InterruptFrame] ([src/src/interrupts.rs]), call
    the handler in Rust, and resume the frame it returns, which may be that of
    another task. Here the stubs are programs of a small machine: the registers
    of a processor over the words of the kernel stacks. What the processor itself
    does on an interrupt and for each instruction follows its manual; the handler
    and what it leaves in the registers a call may clobber are arguments. *)

From S2P Require Import Prelude Io Scheduler.
From stdpp Require Import list.
#[local] Open Scope Z_scope.

Inductive reg := RAX | RBX | RCX | RDX | RSI | RDI | RBP | R8 | R9 | R10 | R11 | R12 | R13 | R14 | R15.
#[global] Instance reg_eq_dec : EqDecision reg.
Proof. solve_decision. Defined.

(** [context_switch] and calls keep these. *)
Definition callee_saved (r : reg) : bool :=
  match r with RBX | RBP | R12 | R13 | R14 | R15 => true | _ => false end.

Record Core := mkCore {
  gpr : reg -> Z;
  rip : Z;
  cs : Z;
  rflags : Z;
  rsp : Z;
  ss : Z;
}.

Definition set_gpr (c : Core) (r : reg) (v : Z) : Core :=
  mkCore (fun q => if bool_decide (q = r) then v else gpr c q) (rip c) (cs c) (rflags c) (rsp c) (ss c).
Definition set_rsp (c : Core) (v : Z) : Core := mkCore (gpr c) (rip c) (cs c) (rflags c) v (ss c).
Definition set_rip (c : Core) (v : Z) : Core := mkCore (gpr c) v (cs c) (rflags c) (rsp c) (ss c).
Definition set_rflags (c : Core) (v : Z) : Core := mkCore (gpr c) (rip c) (cs c) v (rsp c) (ss c).

(** Instructions, in Intel's order of operands; [Call] calls the handler. *)
Inductive instr :=
| Push (r : reg)
| PushImm (v : Z)
| Pop (r : reg)
| MovFromRsp (d : reg)                (* mov d, rsp *)
| MovToRsp (s : reg)                  (* mov rsp, s *)
| StoreRsp (a : reg)                  (* mov [a], rsp *)
| LoadStack (d : reg) (off : Z)       (* mov d, [rsp + off] *)
| AddRsp (n : Z)
| Cli
| Call
| RetNear
| Iretq.

(** The registers of the [InterruptFrame], in the order they are pushed. *)
Definition saved_regs : list reg := [RAX; RBX; RCX; RDX; RSI; RDI; RBP; R8; R9; R10; R11; R12; R13; R14; R15].
Definition popped_regs : list reg := [R15; R14; R13; R12; R11; R10; R9; R8; RBP; RDI; RSI; RDX; RCX; RBX; RAX].

Definition irq_common : list instr :=
  (Push <$> saved_regs) ++ [MovFromRsp RDI; Call; MovToRsp RAX] ++ (Pop <$> popped_regs) ++ [AddRsp 16; Iretq].

Definition irq_stub (vector : Z) : list instr := [Cli; PushImm 0; PushImm vector] ++ irq_common.

(** [isr14] up to the call; the handler does not return. *)
Definition isr14 : list instr := [Cli; LoadStack RDI 8; LoadStack RSI 0].

Definition context_switch : list instr :=
  (Push <$> [R15; R14; R13; R12; RBP; RBX]) ++ [StoreRsp RDI; MovToRsp RSI] ++
  (Pop <$> [RBX; RBP; R12; R13; R14; R15]) ++ [RetNear].

(** ** The machine *)

(** A state of the kernel that holds the words of the stacks. *)
Class HasStacks (S : Type) := {
  words_of : S -> gmap Z Z;
  with_words : S -> gmap Z Z -> S;
  words_with : forall s m, words_of (with_words s m) = m;
  with_with : forall s m m', with_words (with_words s m) m' = with_words s m';
  with_words_of : forall s, with_words s (words_of s) = s;
}.

Definition word (m : gmap Z Z) (a : Z) : Z := default 0 (m !! a).

Section Machine.
Context {S : Type} `{HS : HasStacks S}.

Definition Machine : Type := Core * S.

(** The handler called, the return address of the call, and the values the
    handler leaves in registers it may clobber. *)
Context (handler : Z -> M S Z) (ret_addr : Z) (scratch : reg -> Z).

Definition on_core (f : Core -> Core) : M Machine unit := smodify (fun '(c, s) => (f c, s)).

Definition push (v : Z) : M Machine unit := smodify (fun '(c, s) =>
  let sp := wrap 64 (rsp c - 8) in
  (set_rsp c sp, with_words s (<[sp := v]> (words_of s)))).

Definition pop : M Machine Z := fun '(c, s) =>
  Ret (word (words_of s) (rsp c), (set_rsp c (wrap 64 (rsp c + 8)), s)).

Definition call_handler : M Machine unit := fun '(c, s) =>
  match handler (gpr c RDI) s with
  | Ret (v, s') => Ret (tt, (mkCore (fun r => if bool_decide (r = RAX) then v else if callee_saved r then gpr c r else scratch r)
                               (rip c) (cs c) (rflags c) (rsp c) (ss c), s'))
  | Panic => Panic
  | OutOfFuel => OutOfFuel
  end.

Definition step (i : instr) : M Machine unit :=
  '(c, s) <- sget ;;
  match i with
  | Push r => push (gpr c r)
  | PushImm v => push v
  | Pop r => v <- pop ;; on_core (fun c => set_gpr c r v)
  | MovFromRsp d => on_core (fun c => set_gpr c d (rsp c))
  | MovToRsp r => on_core (fun c => set_rsp c (gpr c r))
  | StoreRsp a => sput (c, with_words s (<[gpr c a := rsp c]> (words_of s)))
  | LoadStack d off => on_core (fun c => set_gpr c d (word (words_of s) (wrap 64 (rsp c + off))))
  | AddRsp n => on_core (fun c => set_rsp c (wrap 64 (rsp c + n)))
  | Cli => on_core (fun c => set_rflags c (irq_disable (rflags c)))
  | Call => _ <- push ret_addr ;; _ <- call_handler ;; _ <- pop ;; sret tt
  | RetNear => v <- pop ;; on_core (fun c => set_rip c v)
  | Iretq =>
      ip <- pop ;; cs' <- pop ;; fl <- pop ;; sp <- pop ;; ss' <- pop ;;
      on_core (fun c => mkCore (gpr c) ip cs' fl sp ss')
  end.

Fixpoint exec (p : list instr) : M Machine unit :=
  match p with
  | [] => sret tt
  | i :: p => _ <- step i ;; exec p
  end.

(** The processor takes an interrupt through a gate of the table: it changes to the
    stack of the task state segment when it comes from ring 3, aligns it, pushes
    where it was (and an error code for some exceptions), and clears IF, TF, NT, RF
    and VM. *)
Definition deliver (rsp0 : Z) (error_code : option Z) : M Machine unit :=
  '(c, _) <- sget ;;
  let sp := if cs c mod 4 =? 3 then rsp0 else rsp c in
  _ <- on_core (fun c => set_rsp c (16 * (sp / 16))) ;;
  _ <- push (ss c) ;;
  _ <- push (rsp c) ;;
  _ <- push (rflags c) ;;
  _ <- push (cs c) ;;
  _ <- push (rip c) ;;
  _ <- match error_code with Some e => push e | None => sret tt end ;;
  on_core (fun k => mkCore (gpr k) (rip k) KERNEL_CODE_SELECTOR (Z.land (rflags k) (unot 64 0x34300))
    (rsp k) (if cs c mod 4 =? 3 then 0 else ss k)).

(** An interrupt from its delivery to the return from it. *)
Definition interrupt (rsp0 vector : Z) : M Machine unit :=
  _ <- deliver rsp0 None ;; exec (irq_stub vector).
End Machine.

(** ** Frames *)

(** The words of the frame of a context, from its address up. *)
Definition frame_of (c : Core) (vector : Z) : list Z :=
  (gpr c <$> popped_regs) ++ [vector; 0; rip c; cs c; rflags c; rsp c; ss c].

(** The position of a register in an [InterruptFrame]. *)
Definition slot (r : reg) : Z :=
  match r with
  | R15 => 0 | R14 => 1 | R13 => 2 | R12 => 3 | R11 => 4 | R10 => 5 | R9 => 6 | R8 => 7 | RBP => 8 | RDI => 9
  | RSI => 10 | RDX => 11 | RCX => 12 | RBX => 13 | RAX => 14
  end.

(** The context a frame stands for. *)
Definition context_at (m : gmap Z Z) (f : Z) : Core :=
  mkCore (fun r => word m (f + 8 * slot r)) (word m (f + 136)) (word m (f + 144)) (word m (f + 152)) (word m (f + 160)) (word m (f + 168)).

Definition holds (m : gmap Z Z) (f : Z) (ws : list Z) : Prop :=
  forall (i : nat) w, ws !! i = Some w -> m !! (f + 8 * Z.of_nat i) = Some w.

Record same_core (c c' : Core) : Prop := {
  sc_gpr : forall r, gpr c r = gpr c' r;
  sc_rip : rip c = rip c';
  sc_cs : cs c = cs c';
  sc_rflags : rflags c = rflags c';
  sc_rsp : rsp c = rsp c';
  sc_ss : ss c = ss c';
}.

#[export] Instance same_core_equiv : Equivalence same_core.
Proof.
  split.
  - intros c. by constructor.
  - intros c c' []. by constructor.
  - intros a b d [] []. constructor; intros; etrans; eauto.
Qed.

Lemma context_of_frame m f c v : holds m f (frame_of c v) -> same_core (context_at m f) c.
Proof.
  intros Hh. assert (forall (i : nat) w, frame_of c v !! i = Some w -> word m (f + 8 * Z.of_nat i) = w) as Hw.
  { intros i w Hi. unfold word. by rewrite (Hh i w Hi). }
  constructor; cbn [context_at gpr rip cs rflags rsp ss].
  - intros r. destruct r; cbn [slot];
      [apply (Hw 14%nat)|apply (Hw 13%nat)|apply (Hw 12%nat)|apply (Hw 11%nat)|apply (Hw 10%nat)|apply (Hw 9%nat)|apply (Hw 8%nat)
      |apply (Hw 7%nat)|apply (Hw 6%nat)|apply (Hw 5%nat)|apply (Hw 4%nat)|apply (Hw 3%nat)|apply (Hw 2%nat)|apply (Hw 1%nat)|apply (Hw 0%nat)];
      reflexivity.
  - by apply (Hw 17%nat).
  - by apply (Hw 18%nat).
  - by apply (Hw 19%nat).
  - by apply (Hw 20%nat).
  - by apply (Hw 21%nat).
Qed.

Lemma write_words_cons m a w ws : write_words m a (w :: ws) = <[a := w]> (write_words m (a + 8) ws).
Proof.
  cbn [write_words]. assert (a < a + 8) as Hab by lia. revert Hab. generalize (a + 8) as b. revert m.
  induction ws as [|v ws IH]; intros m b Hab; [done|]. cbn [write_words].
  rewrite insert_insert_ne by lia. apply IH. lia.
Qed.

Lemma write_words_holds m a ws : holds (write_words m a ws) a ws.
Proof. intros i w. apply write_words_in. Qed.

(** ** Running the stubs *)

Section Runs.
Context {S : Type} `{HS : HasStacks S} (handler : Z -> M S Z) (ret_addr : Z) (scratch : reg -> Z).
Abbreviation exec := (exec handler ret_addr scratch).

Lemma exec_cons i p st st1 : step handler ret_addr scratch i st = Ret (tt, st1) -> exec (i :: p) st = exec p st1.
Proof. intros H. cbn [Entry.exec]. by rewrite (sbind_Ret _ _ _ _ _ H). Qed.

Lemma push_run v c s m sp ws : rsp c = sp -> 8 <= sp < 2 ^ 64 ->
  push v (c, with_words s (write_words m sp ws)) =
  Ret (tt, (set_rsp c (sp - 8), with_words s (write_words m (sp - 8) (v :: ws)))).
Proof.
  intros <- Hsp. unfold push, smodify. rewrite words_with, with_with, wrap_small, write_words_cons by lia.
  by replace (rsp c - 8 + 8) with (rsp c) by lia.
Qed.

Lemma pop_run c s sp : rsp c = sp -> 0 <= sp < 2 ^ 64 - 8 -> pop (c, s) = Ret (word (words_of s) sp, (set_rsp c (sp + 8), s)).
Proof. intros <- Hsp. unfold pop. by rewrite wrap_small by lia. Qed.

Lemma exec_push rs p : forall c s m sp ws, rsp c = sp -> 8 * Z.of_nat (length rs) <= sp < 2 ^ 64 ->
  exec ((Push <$> rs) ++ p) (c, with_words s (write_words m sp ws)) =
  exec p (set_rsp c (sp - 8 * Z.of_nat (length rs)),
    with_words s (write_words m (sp - 8 * Z.of_nat (length rs)) (reverse (gpr c <$> rs) ++ ws))).
Proof.
  induction rs as [|r rs IH]; intros c s m sp ws Hc Hsp; cbn [fmap list_fmap app length] in *.
  - rewrite Z.mul_0_r, Z.sub_0_r. destruct c. by cbn in Hc |- *; subst.
  - rewrite (exec_cons _ _ _ (set_rsp c (sp - 8), with_words s (write_words m (sp - 8) (gpr c r :: ws))))
      by (unfold step; cbn [sbind sget]; apply push_run; [done|lia]).
    rewrite (IH _ _ _ (sp - 8)); [|done|lia]. replace (sp - 8 - 8 * Z.of_nat (length rs)) with (sp - 8 * Z.of_nat (Datatypes.S (length rs))) by lia.
    rewrite reverse_cons, <- app_assoc. done.
Qed.

(** Registers loaded from consecutive words. *)
Fixpoint loaded (rs : list reg) (m : gmap Z Z) (c : Core) : Core :=
  match rs with
  | [] => c
  | r :: rs => loaded rs m (set_gpr (set_rsp c (rsp c + 8)) r (word m (rsp c)))
  end.

Lemma exec_pop rs p : forall c s, 0 <= rsp c < 2 ^ 64 - 8 * Z.of_nat (length rs) ->
  exec ((Pop <$> rs) ++ p) (c, s) = exec p (loaded rs (words_of s) c, s).
Proof.
  induction rs as [|r rs IH]; intros c s Hsp; cbn [fmap list_fmap app length loaded] in *; [done|].
  erewrite exec_cons; [apply IH|]; [cbn [set_gpr set_rsp rsp]; lia|].
  unfold step. cbn [sbind sget]. rewrite (sbind_Ret _ _ _ _ _ (pop_run c s _ eq_refl ltac:(lia))). done.
Qed.

Lemma loaded_rsp rs m : forall c, rsp (loaded rs m c) = rsp c + 8 * Z.of_nat (length rs).
Proof. induction rs as [|r rs IH]; intros c; cbn [loaded length]; [|rewrite IH; cbn [set_gpr set_rsp rsp]]; lia. Qed.

Lemma loaded_other rs m r : r ∉ rs -> forall c, gpr (loaded rs m c) r = gpr c r.
Proof.
  induction rs as [|q rs IH]; intros Hr c; cbn [loaded]; [done|]. apply not_elem_of_cons in Hr as [Hq Hr].
  rewrite (IH Hr). cbn [set_gpr gpr]. by rewrite bool_decide_false.
Qed.

Lemma loaded_gpr rs m r (i : nat) : NoDup rs -> rs !! i = Some r -> forall c, gpr (loaded rs m c) r = word m (rsp c + 8 * Z.of_nat i).
Proof.
  revert i. induction rs as [|q rs IH]; intros i Hnd Hi c; [done|]. apply NoDup_cons in Hnd as [Hq Hnd]. cbn [loaded].
  destruct i as [|i]; simplify_eq/=.
  - rewrite loaded_other by done. cbn [set_gpr set_rsp gpr]. rewrite bool_decide_true by done. f_equal. lia.
  - rewrite (IH i Hnd Hi). cbn [set_gpr set_rsp rsp]. f_equal. lia.
Qed.

Lemma popped_nodup : NoDup popped_regs.
Proof. apply (bool_decide_unpack (NoDup popped_regs)). exact I. Qed.

Lemma popped_slot r : popped_regs !! Z.to_nat (slot r) = Some r.
Proof. by destruct r. Qed.

Lemma slot_nonneg r : 0 <= slot r.
Proof. by destruct r. Qed.

(** Where the frame of an interrupt is put. *)
Definition entry_top (rsp0 : Z) (c : Core) : Z := 16 * ((if cs c mod 4 =? 3 then rsp0 else rsp c) / 16).
Definition entry_frame (rsp0 : Z) (c : Core) : Z := entry_top rsp0 c - 176.

Lemma deliver_run rsp0 c s ec (ws := (match ec with Some e => [e] | None => [] end) ++ [rip c; cs c; rflags c; rsp c; ss c])
    (sp := entry_top rsp0 c - 8 * Z.of_nat (length ws)) : 48 <= entry_top rsp0 c < 2 ^ 64 ->
  exists fl ss', deliver rsp0 ec (c, s) =
    Ret (tt, (mkCore (gpr c) (rip c) KERNEL_CODE_SELECTOR fl sp ss', with_words s (write_words (words_of s) sp ws))).
Proof.
  intros Ht. do 2 eexists. rewrite <- (with_words_of s) at 1. change (words_of s) with (write_words (words_of s) (entry_top rsp0 c) []) at 1.
  unfold deliver. cbn [sbind sget]. unfold on_core at 1, smodify. cbn [sbind]. fold (entry_top rsp0 c).
  do 5 (erewrite sbind_Ret; [|eapply push_run; [cbn [set_rsp rsp]; reflexivity|lia]]). subst sp ws.
  destruct ec as [e|]; cbn [sret app length]; [erewrite sbind_Ret; [|eapply push_run; [cbn [set_rsp rsp]; reflexivity|lia]]|];
    cbn [sbind sret set_rsp gpr rip cs rflags rsp ss].
  - replace (entry_top rsp0 c - 8 * Z.of_nat 6) with (entry_top rsp0 c - 8 - 8 - 8 - 8 - 8 - 8) by lia. reflexivity.
  - replace (entry_top rsp0 c - 8 * Z.of_nat 5) with (entry_top rsp0 c - 8 - 8 - 8 - 8 - 8) by lia. reflexivity.
Qed.

(** What the handler is run on. *)
Definition entered (rsp0 vector : Z) (c : Core) (s : S) : S :=
  with_words s (write_words (words_of s) (entry_frame rsp0 c - 8) (ret_addr :: frame_of c vector)).

Lemma iretq_run c s f : rsp c = f -> 0 <= f < 2 ^ 64 - 40 -> step handler ret_addr scratch Iretq (c, s) =
  Ret (tt, (mkCore (gpr c) (word (words_of s) f) (word (words_of s) (f + 8)) (word (words_of s) (f + 16)) (word (words_of s) (f + 24))
    (word (words_of s) (f + 32)), s)).
Proof.
  intros Hf Hr. unfold step. cbn [sbind sget].
  do 5 (erewrite sbind_Ret; [|eapply pop_run; [first [exact Hf | cbn [set_rsp rsp]; reflexivity]|lia]]).
  unfold on_core, smodify. cbn [set_rsp gpr]. do 3 f_equal. f_equal; f_equal; lia.
Qed.

(** From the call to the [iretq]: the frame the handler returns is context_at. *)
Lemma resume_run c s F s2 : rsp c = gpr c RDI -> 8 <= rsp c < 2 ^ 64 ->
  handler (rsp c) (with_words s (<[rsp c - 8 := ret_addr]> (words_of s))) = Ret (F, s2) -> 0 <= F < 2 ^ 64 - 176 ->
  exists c', exec ([Call; MovToRsp RAX] ++ (Pop <$> popped_regs) ++ [AddRsp 16; Iretq]) (c, s) = Ret (tt, (c', s2)) /\
    same_core c' (context_at (words_of s2) F).
Proof.
  intros HF Hsp Hh Hr. set (c2 := mkCore (fun r => if bool_decide (r = RAX) then F else if callee_saved r then gpr c r else scratch r)
    (rip c) (cs c) (rflags c) (rsp c) (ss c)).
  assert (step handler ret_addr scratch Call (c, s) = Ret (tt, (c2, s2))) as Hcall.
  { unfold step. cbn [sbind sget]. unfold push at 1, smodify. cbn [sbind]. rewrite wrap_small by lia.
    rewrite (sbind_Ret _ _ _ tt (mkCore (gpr c2) (rip c) (cs c) (rflags c) (rsp c - 8) (ss c), s2))
      by (unfold call_handler; cbn [set_rsp gpr]; rewrite <- HF, Hh; reflexivity).
    rewrite (sbind_Ret _ _ _ _ _ (pop_run (mkCore _ _ _ _ _ _) s2 (rsp c - 8) eq_refl ltac:(lia))).
    unfold sret, set_rsp, c2. cbn [gpr rip cs rflags rsp ss]. by replace (rsp c - 8 + 8) with (rsp c) by lia. }
  cbn [app]. rewrite (exec_cons _ _ _ _ Hcall), (exec_cons (MovToRsp RAX) _ (c2, s2) (set_rsp c2 F, s2) eq_refl).
  rewrite exec_pop by (cbn [set_rsp rsp]; change (length popped_regs) with 15%nat; lia).
  set (c3 := loaded _ _ _).
  assert (rsp c3 = F + 120) as E3 by (unfold c3; by rewrite loaded_rsp).
  rewrite (exec_cons _ _ _ (set_rsp c3 (F + 136), s2))
    by (unfold step, on_core, smodify; cbn [sbind sget]; rewrite E3, wrap_small by lia; by replace (F + 120 + 16) with (F + 136) by lia).
  rewrite (exec_cons _ _ _ _ (iretq_run (set_rsp c3 (F + 136)) s2 (F + 136) eq_refl ltac:(lia))).
  eexists. split; [reflexivity|]. constructor; cbn [gpr rip cs rflags rsp ss context_at].
  - intros r. unfold c3. cbn [set_rsp gpr]. rewrite (loaded_gpr _ _ r _ popped_nodup (popped_slot r)). cbn [set_rsp rsp].
    by rewrite Z2Nat.id by apply slot_nonneg.
  - done.
  - f_equal; lia.
  - f_equal; lia.
  - f_equal; lia.
  - f_equal; lia.
Qed.

Lemma interrupt_run rsp0 v c s F s2 : 184 <= entry_top rsp0 c < 2 ^ 64 ->
  handler (entry_frame rsp0 c) (entered rsp0 v c s) = Ret (F, s2) -> 0 <= F < 2 ^ 64 - 176 ->
  exists c', interrupt handler ret_addr scratch rsp0 v (c, s) = Ret (tt, (c', s2)) /\ same_core c' (context_at (words_of s2) F).
Proof.
  intros Ht Hh HF. destruct (deliver_run rsp0 c s None ltac:(lia)) as (fl & ss' & Hd). cbn [app length] in Hd.
  replace (entry_top rsp0 c - 8 * Z.of_nat 5) with (entry_top rsp0 c - 40) in Hd by lia.
  unfold interrupt, irq_stub, irq_common. rewrite (sbind_Ret _ _ _ _ _ Hd). clear Hd. cbn [app].
  set (c1 := mkCore (gpr c) (rip c) KERNEL_CODE_SELECTOR (irq_disable fl) (entry_top rsp0 c - 40) ss').
  erewrite (exec_cons Cli _ _ (c1, _)) by reflexivity.
  erewrite (exec_cons (PushImm 0)) by (unfold step; cbn [sbind sget]; apply push_run; [reflexivity|lia]).
  erewrite (exec_cons (PushImm v)) by (unfold step; cbn [sbind sget]; apply push_run; [reflexivity|lia]).
  rewrite exec_push by (cbn [set_rsp rsp]; change (length saved_regs) with 15%nat; lia).
  change (Z.of_nat (length saved_regs)) with 15.
  change (gpr _ <$> saved_regs) with (gpr c <$> saved_regs).
  replace (entry_top rsp0 c - 40 - 8 - 8 - 8 * 15) with (entry_frame rsp0 c) by (unfold entry_frame; lia).
  erewrite (exec_cons (MovFromRsp RDI)) by reflexivity.
  unfold entered in Hh. rewrite write_words_cons in Hh. replace (entry_frame rsp0 c - 8 + 8) with (entry_frame rsp0 c) in Hh by lia.
  edestruct resume_run as (c' & Hx & Hc'); [..|exists c'; split; [exact Hx|exact Hc']].
  - cbn [set_gpr set_rsp gpr rsp]. by rewrite bool_decide_true.
  - cbn [set_gpr set_rsp rsp]. unfold entry_frame. lia.
  - rewrite words_with, with_with. exact Hh.
  - done.
Qed.

(** A page fault passes the faulting instruction and the error code, which the
    processor pushes last. *)
Lemma page_fault_arguments rsp0 c s e : 56 <= entry_top rsp0 c < 2 ^ 64 ->
  exists c' s', (_ <- deliver rsp0 (Some e) ;; exec isr14) (c, s) = Ret (tt, (c', s')) /\
    gpr c' RDI = rip c /\ gpr c' RSI = e.
Proof.
  intros Ht. destruct (deliver_run rsp0 c s (Some e) ltac:(lia)) as (fl & ss' & Hd). cbn [app length] in Hd.
  set (sp := entry_top rsp0 c - 8 * Z.of_nat 6) in Hd. assert (8 <= sp < 2 ^ 64 - 8) as Hsp by (unfold sp; lia).
  rewrite (sbind_Ret _ _ _ _ _ Hd). unfold isr14, Entry.exec, step, on_core, smodify.
  cbn [sbind sget sret set_gpr set_rflags gpr rip cs rflags rsp ss].
  do 2 eexists. split; [reflexivity|]. cbn [gpr]. rewrite !words_with, !wrap_small by lia. unfold word.
  pose proof (write_words_holds (words_of s) sp [e; rip c; cs c; rflags c; rsp c; ss c]) as Hh.
  pose proof (Hh 0%nat _ eq_refl) as H0. pose proof (Hh 1%nat _ eq_refl) as H1. change (8 * Z.of_nat 0) with 0 in H0.
  change (8 * Z.of_nat 1) with 8 in H1. by rewrite H0, H1.
Qed.

(** *** The cooperative switch *)

Definition kept_regs : list reg := [RBX; RBP; R12; R13; R14; R15].

Lemma kept_nodup : NoDup kept_regs.
Proof. apply (bool_decide_unpack (NoDup kept_regs)). exact I. Qed.

(** Where a caller of [context_switch] goes on: its kept registers, the return
    address and the stack pointer after the return, as its stack holds them. *)
Record parked (m : gmap Z Z) (sp : Z) (c : Core) : Prop := {
  pk_regs : forall (i : nat) r, kept_regs !! i = Some r -> word m (sp + 8 * Z.of_nat i) = gpr c r;
  pk_rip : word m (sp + 48) = rip c;
  pk_rsp : sp + 56 = rsp c;
}.

(** [context_switch] parks the caller, as it will be after the call, under the
    pointer given in [rdi], and continues whoever is parked at [rsi]. *)
Lemma context_switch_run c s : 56 <= rsp c < 2 ^ 64 - 8 -> 0 <= gpr c RSI < 2 ^ 64 - 64 ->
  (forall i : nat, (i < 7)%nat -> gpr c RDI <> rsp c - 48 + 8 * Z.of_nat i) ->
  exists c' s', exec context_switch (c, s) = Ret (tt, (c', s')) /\
    word (words_of s') (gpr c RDI) = rsp c - 48 /\
    parked (words_of s') (rsp c - 48) (set_rsp (set_rip c (word (words_of s) (rsp c))) (rsp c + 8)) /\
    (forall a, a <> gpr c RDI -> ~ rsp c - 48 <= a < rsp c -> words_of s' !! a = words_of s !! a) /\
    parked (words_of s') (gpr c RSI) c'.
Proof.
  intros Hsp Hsi Hdi.
  assert (exec context_switch (c, s) = exec context_switch (c, with_words s (write_words (words_of s) (rsp c) []))) as ->
    by (cbn [write_words]; by rewrite with_words_of).
  unfold context_switch.
  rewrite exec_push by (cbn [length]; lia). cbn [length]. replace (rsp c - 8 * Z.of_nat 6) with (rsp c - 48) by lia.
  set (ws := gpr c <$> kept_regs). change (reverse _ ++ []) with ws. cbn [app].
  set (m1 := write_words (words_of s) (rsp c - 48) ws).
  set (m2 := <[gpr c RDI := rsp c - 48]> m1). set (s2 := with_words s m2).
  assert (words_of s2 = m2) as Em by apply words_with.
  erewrite (exec_cons (StoreRsp RDI) _ _ (_, s2)) by (unfold step; cbn [sbind sget set_rsp rsp gpr]; rewrite words_with, with_with; reflexivity).
  erewrite (exec_cons (MovToRsp RSI) _ _ (set_rsp c (gpr c RSI), s2)) by reflexivity.
  change (Pop <$> _) with (Pop <$> kept_regs). rewrite exec_pop by (cbn [set_rsp rsp length kept_regs]; lia).
  set (c3 := loaded _ _ _). assert (rsp c3 = gpr c RSI + 48) as E3 by (unfold c3; by rewrite loaded_rsp).
  erewrite exec_cons by (unfold step; cbn [sbind sget]; erewrite sbind_Ret by (eapply pop_run; [exact E3|lia]); reflexivity).
  assert (forall (i : nat) w, (i < 7)%nat -> m1 !! (rsp c - 48 + 8 * Z.of_nat i) = w -> m2 !! (rsp c - 48 + 8 * Z.of_nat i) = w) as Hkeep.
  { intros i w Hi H. unfold m2. rewrite lookup_insert_ne by (by apply Hdi). done. }
  do 2 eexists. split; [reflexivity|]. rewrite Em. split_and!.
  - unfold word, m2. by rewrite lookup_insert_eq.
  - constructor; cbn [set_rsp set_rip gpr rip rsp].
    + intros i r Hi. unfold word. pose proof (lookup_lt_Some _ _ _ Hi) as Hlt. cbn [kept_regs length] in Hlt.
      rewrite (Hkeep i (Some (gpr c r))); [done|lia|]. apply write_words_in. unfold ws. by rewrite list_lookup_fmap, Hi.
    + unfold word at 1. replace (rsp c - 48 + 48) with (rsp c - 48 + 8 * Z.of_nat 6) by lia. rewrite (Hkeep 6%nat (words_of s !! rsp c)); [done|lia|].
      unfold m1. replace (rsp c - 48 + 8 * Z.of_nat 6) with (rsp c) by lia. apply write_words_out.
      intros k Hk. cbn [ws kept_regs fmap list_fmap length] in Hk. lia.
    + lia.
  - intros a Ha Hout. unfold m2. rewrite lookup_insert_ne by done. apply write_words_out. intros k Hk.
    cbn [ws kept_regs fmap list_fmap length] in Hk. lia.
  - constructor; cbn [set_rsp set_rip gpr rip rsp].
    + intros i r Hi. unfold c3. rewrite (loaded_gpr _ _ r i kept_nodup Hi). cbn [set_rsp rsp]. by rewrite Em.
    + done.
    + lia.
Qed.

(** Whoever is parked goes on where it left, whatever ran in between, as long as its
    seven words are still there and the new caller's stack and slot are elsewhere. *)
Theorem context_switch_resumes c s a : 56 <= rsp c < 2 ^ 64 - 8 -> 0 <= gpr c RSI < 2 ^ 64 - 64 ->
  (forall i : nat, (i < 7)%nat -> gpr c RDI <> rsp c - 48 + 8 * Z.of_nat i /\ gpr c RDI <> gpr c RSI + 8 * Z.of_nat i /\
    ~ rsp c - 48 <= gpr c RSI + 8 * Z.of_nat i < rsp c) ->
  parked (words_of s) (gpr c RSI) a ->
  exists c' s', exec context_switch (c, s) = Ret (tt, (c', s')) /\ rip c' = rip a /\ rsp c' = rsp a /\
    forall r, callee_saved r = true -> gpr c' r = gpr a r.
Proof.
  intros Hsp Hsi Hap Hpark. destruct (context_switch_run c s Hsp Hsi ltac:(intros i Hi; apply (Hap i Hi))) as (c' & s' & Hx & _ & _ & Hout & Hc').
  assert (forall i : nat, (i < 7)%nat -> word (words_of s') (gpr c RSI + 8 * Z.of_nat i) = word (words_of s) (gpr c RSI + 8 * Z.of_nat i)) as Hw.
  { intros i Hi. unfold word. destruct (Hap i Hi) as (_ & H1 & H2). by rewrite Hout. }
  exists c', s'. split; [done|]. split_and!.
  - rewrite <- (pk_rip _ _ _ Hc'), <- (pk_rip _ _ _ Hpark). exact (Hw 6%nat ltac:(lia)).
  - rewrite <- (pk_rsp _ _ _ Hc'). exact (pk_rsp _ _ _ Hpark).
  - intros r Hr. assert (exists i : nat, kept_regs !! i = Some r) as [i Hi].
    { destruct r; try discriminate Hr; [by exists 0%nat|by exists 1%nat|by exists 2%nat|by exists 3%nat|by exists 4%nat|by exists 5%nat]. }
    rewrite <- (pk_regs _ _ _ Hc' _ _ Hi), <- (pk_regs _ _ _ Hpark _ _ Hi). apply Hw.
    pose proof (lookup_lt_Some _ _ _ Hi) as Hlt. cbn [kept_regs length] in Hlt. lia.
Qed.
End Runs.
