(* ===== verification/Graphics.v ===== *)
(** * Screen drawing ([src/src/graphics.rs], [src/src/font.rs])

    The framebuffer is an array of 32-bit pixels behind a pointer; a map from
    array index to colour stands for it, so that a store outside the screen
    would show. Coordinates and indices are 64-bit and their arithmetic is
    checked. *)

From S2P Require Import Prelude.

(** One byte per row, least significant bit leftmost. *)
Definition FONT8X8_BASIC : list (list Z) := [
  [0x00; 0x00; 0x00; 0x00; 0x00; 0x00; 0x00; 0x00];
  [0x00; 0x00; 0x00; 0x00; 0x00; 0x00; 0x00; 0x00];
  [0x00; 0x00; 0x00; 0x00; 0x00; 0x00; 0x00; 0x00];
  [0x00; 0x00; 0x00; 0x00; 0x00; 0x00; 0x00; 0x00];
  [0x00; 0x00; 0x00; 0x00; 0x00; 0x00; 0x00; 0x00];
  [0x00; 0x00; 0x00; 0x00; 0x00; 0x00; 0x00; 0x00];
  [0x00; 0x00; 0x00; 0x00; 0x00; 0x00; 0x00; 0x00];
  [0x00; 0x00; 0x00; 0x00; 0x00; 0x00; 0x00; 0x00];
  [0x00; 0x00; 0x00; 0x00; 0x00; 0x00; 0x00; 0x00];
  [0x00; 0x00; 0x00; 0x00; 0x00; 0x00; 0x00; 0x00];
  [0x00; 0x00; 0x00; 0x00; 0x00; 0x00; 0x00; 0x00];
  [0x00; 0x00; 0x00; 0x00; 0x00; 0x00; 0x00; 0x00];
  [0x00; 0x00; 0x00; 0x00; 0x00; 0x00; 0x00; 0x00];
  [0x00; 0x00; 0x00; 0x00; 0x00; 0x00; 0x00; 0x00];
  [0x00; 0x00; 0x00; 0x00; 0x00; 0x00; 0x00; 0x00];
  [0x00; 0x00; 0x00; 0x00; 0x00; 0x00; 0x00; 0x00];
  [0x00; 0x00; 0x00; 0x00; 0x00; 0x00; 0x00; 0x00];
  [0x00; 0x00; 0x00; 0x00; 0x00; 0x00; 0x00; 0x00];
  [0x00; 0x00; 0x00; 0x00; 0x00; 0x00; 0x00; 0x00];
  [0x00; 0x00; 0x00; 0x00; 0x00; 0x00; 0x00; 0x00];
  [0x00; 0x00; 0x00; 0x00; 0x00; 0x00; 0x00; 0x00];
  [0x00; 0x00; 0x00; 0x00; 0x00; 0x00; 0x00; 0x00];
  [0x00; 0x00; 0x00; 0x00; 0x00; 0x00; 0x00; 0x00];
  [0x00; 0x00; 0x00; 0x00; 0x00; 0x00; 0x00; 0x00];
  [0x00; 0x00; 0x00; 0x00; 0x00; 0x00; 0x00; 0x00];
  [0x00; 0x00; 0x00; 0x00; 0x00; 0x00; 0x00; 0x00];
  [0x00; 0x00; 0x00; 0x00; 0x00; 0x00; 0x00; 0x00];
  [0x00; 0x00; 0x00; 0x00; 0x00; 0x00; 0x00; 0x00];
  [0x00; 0x00; 0x00; 0x00; 0x00; 0x00; 0x00; 0x00];
  [0x00; 0x00; 0x00; 0x00; 0x00; 0x00; 0x00; 0x00];
  [0x00; 0x00; 0x00; 0x00; 0x00; 0x00; 0x00; 0x00];
  [0x00; 0x00; 0x00; 0x00; 0x00; 0x00; 0x00; 0x00];
  [0x00; 0x00; 0x00; 0x00; 0x00; 0x00; 0x00; 0x00];
  [0x18; 0x3C; 0x3C; 0x18; 0x18; 0x00; 0x18; 0x00];
  [0x36; 0x36; 0x00; 0x00; 0x00; 0x00; 0x00; 0x00];
  [0x36; 0x36; 0x7F; 0x36; 0x7F; 0x36; 0x36; 0x00];
  [0x0C; 0x3E; 0x03; 0x1E; 0x30; 0x1F; 0x0C; 0x00];
  [0x00; 0x63; 0x33; 0x18; 0x0C; 0x66; 0x63; 0x00];
  [0x1C; 0x36; 0x1C; 0x6E; 0x3B; 0x33; 0x6E; 0x00];
  [0x06; 0x06; 0x03; 0x00; 0x00; 0x00; 0x00; 0x00];
  [0x18; 0x0C; 0x06; 0x06; 0x06; 0x0C; 0x18; 0x00];
  [0x06; 0x0C; 0x18; 0x18; 0x18; 0x0C; 0x06; 0x00];
  [0x00; 0x66; 0x3C; 0xFF; 0x3C; 0x66; 0x00; 0x00];
  [0x00; 0x0C; 0x0C; 0x3F; 0x0C; 0x0C; 0x00; 0x00];
  [0x00; 0x00; 0x00; 0x00; 0x00; 0x0C; 0x0C; 0x06];
  [0x00; 0x00; 0x00; 0x3F; 0x00; 0x00; 0x00; 0x00];
  [0x00; 0x00; 0x00; 0x00; 0x00; 0x0C; 0x0C; 0x00];
  [0x60; 0x30; 0x18; 0x0C; 0x06; 0x03; 0x01; 0x00];
  [0x3E; 0x63; 0x73; 0x7B; 0x6F; 0x67; 0x3E; 0x00];
  [0x0C; 0x0E; 0x0C; 0x0C; 0x0C; 0x0C; 0x3F; 0x00];
  [0x1E; 0x33; 0x30; 0x1C; 0x06; 0x33; 0x3F; 0x00];
  [0x1E; 0x33; 0x30; 0x1C; 0x30; 0x33; 0x1E; 0x00];
  [0x38; 0x3C; 0x36; 0x33; 0x7F; 0x30; 0x78; 0x00];
  [0x3F; 0x03; 0x1F; 0x30; 0x30; 0x33; 0x1E; 0x00];
  [0x1C; 0x06; 0x03; 0x1F; 0x33; 0x33; 0x1E; 0x00];
  [0x3F; 0x33; 0x30; 0x18; 0x0C; 0x0C; 0x0C; 0x00];
  [0x1E; 0x33; 0x33; 0x1E; 0x33; 0x33; 0x1E; 0x00];
  [0x1E; 0x33; 0x33; 0x3E; 0x30; 0x18; 0x0E; 0x00];
  [0x00; 0x0C; 0x0C; 0x00; 0x00; 0x0C; 0x0C; 0x00];
  [0x00; 0x0C; 0x0C; 0x00; 0x00; 0x0C; 0x0C; 0x06];
  [0x18; 0x0C; 0x06; 0x03; 0x06; 0x0C; 0x18; 0x00];
  [0x00; 0x00; 0x3F; 0x00; 0x00; 0x3F; 0x00; 0x00];
  [0x06; 0x0C; 0x18; 0x30; 0x18; 0x0C; 0x06; 0x00];
  [0x1E; 0x33; 0x30; 0x18; 0x0C; 0x00; 0x0C; 0x00];
  [0x3E; 0x63; 0x7B; 0x7B; 0x7B; 0x03; 0x1E; 0x00];
  [0x0C; 0x1E; 0x33; 0x33; 0x3F; 0x33; 0x33; 0x00];
  [0x3F; 0x66; 0x66; 0x3E; 0x66; 0x66; 0x3F; 0x00];
  [0x3C; 0x66; 0x03; 0x03; 0x03; 0x66; 0x3C; 0x00];
  [0x1F; 0x36; 0x66; 0x66; 0x66; 0x36; 0x1F; 0x00];
  [0x7F; 0x46; 0x16; 0x1E; 0x16; 0x46; 0x7F; 0x00];
  [0x7F; 0x46; 0x16; 0x1E; 0x16; 0x06; 0x0F; 0x00];
  [0x3C; 0x66; 0x03; 0x03; 0x73; 0x66; 0x7C; 0x00];
  [0x33; 0x33; 0x33; 0x3F; 0x33; 0x33; 0x33; 0x00];
  [0x1E; 0x0C; 0x0C; 0x0C; 0x0C; 0x0C; 0x1E; 0x00];
  [0x78; 0x30; 0x30; 0x30; 0x33; 0x33; 0x1E; 0x00];
  [0x67; 0x66; 0x36; 0x1E; 0x36; 0x66; 0x67; 0x00];
  [0x0F; 0x06; 0x06; 0x06; 0x46; 0x66; 0x7F; 0x00];
  [0x63; 0x77; 0x7F; 0x7F; 0x6B; 0x63; 0x63; 0x00];
  [0x63; 0x67; 0x6F; 0x7B; 0x73; 0x63; 0x63; 0x00];
  [0x1C; 0x36; 0x63; 0x63; 0x63; 0x36; 0x1C; 0x00];
  [0x3F; 0x66; 0x66; 0x3E; 0x06; 0x06; 0x0F; 0x00];
  [0x1E; 0x33; 0x33; 0x33; 0x3B; 0x1E; 0x38; 0x00];
  [0x3F; 0x66; 0x66; 0x3E; 0x36; 0x66; 0x67; 0x00];
  [0x1E; 0x33; 0x07; 0x0E; 0x38; 0x33; 0x1E; 0x00];
  [0x3F; 0x2D; 0x0C; 0x0C; 0x0C; 0x0C; 0x1E; 0x00];
  [0x33; 0x33; 0x33; 0x33; 0x33; 0x33; 0x3F; 0x00];
  [0x33; 0x33; 0x33; 0x33; 0x33; 0x1E; 0x0C; 0x00];
  [0x63; 0x63; 0x63; 0x6B; 0x7F; 0x77; 0x63; 0x00];
  [0x63; 0x63; 0x36; 0x1C; 0x1C; 0x36; 0x63; 0x00];
  [0x33; 0x33; 0x33; 0x1E; 0x0C; 0x0C; 0x1E; 0x00];
  [0x7F; 0x63; 0x31; 0x18; 0x4C; 0x66; 0x7F; 0x00];
  [0x1E; 0x06; 0x06; 0x06; 0x06; 0x06; 0x1E; 0x00];
  [0x03; 0x06; 0x0C; 0x18; 0x30; 0x60; 0x40; 0x00];
  [0x1E; 0x18; 0x18; 0x18; 0x18; 0x18; 0x1E; 0x00];
  [0x08; 0x1C; 0x36; 0x63; 0x00; 0x00; 0x00; 0x00];
  [0x00; 0x00; 0x00; 0x00; 0x00; 0x00; 0x00; 0xFF];
  [0x0C; 0x0C; 0x18; 0x00; 0x00; 0x00; 0x00; 0x00];
  [0x00; 0x00; 0x1E; 0x30; 0x3E; 0x33; 0x6E; 0x00];
  [0x07; 0x06; 0x06; 0x3E; 0x66; 0x66; 0x3B; 0x00];
  [0x00; 0x00; 0x1E; 0x33; 0x03; 0x33; 0x1E; 0x00];
  [0x38; 0x30; 0x30; 0x3E; 0x33; 0x33; 0x6E; 0x00];
  [0x00; 0x00; 0x1E; 0x33; 0x3F; 0x03; 0x1E; 0x00];
  [0x1C; 0x36; 0x06; 0x0F; 0x06; 0x06; 0x0F; 0x00];
  [0x00; 0x00; 0x6E; 0x33; 0x33; 0x3E; 0x30; 0x1F];
  [0x07; 0x06; 0x36; 0x6E; 0x66; 0x66; 0x67; 0x00];
  [0x0C; 0x00; 0x0E; 0x0C; 0x0C; 0x0C; 0x1E; 0x00];
  [0x30; 0x00; 0x30; 0x30; 0x30; 0x33; 0x33; 0x1E];
  [0x07; 0x06; 0x66; 0x36; 0x1E; 0x36; 0x67; 0x00];
  [0x0E; 0x0C; 0x0C; 0x0C; 0x0C; 0x0C; 0x1E; 0x00];
  [0x00; 0x00; 0x33; 0x7F; 0x7F; 0x6B; 0x63; 0x00];
  [0x00; 0x00; 0x1F; 0x33; 0x33; 0x33; 0x33; 0x00];
  [0x00; 0x00; 0x1E; 0x33; 0x33; 0x33; 0x1E; 0x00];
  [0x00; 0x00; 0x3B; 0x66; 0x66; 0x3E; 0x06; 0x0F];
  [0x00; 0x00; 0x6E; 0x33; 0x33; 0x3E; 0x30; 0x78];
  [0x00; 0x00; 0x3B; 0x6E; 0x66; 0x06; 0x0F; 0x00];
  [0x00; 0x00; 0x3E; 0x03; 0x1E; 0x30; 0x1F; 0x00];
  [0x08; 0x0C; 0x3E; 0x0C; 0x0C; 0x2C; 0x18; 0x00];
  [0x00; 0x00; 0x33; 0x33; 0x33; 0x33; 0x6E; 0x00];
  [0x00; 0x00; 0x33; 0x33; 0x33; 0x1E; 0x0C; 0x00];
  [0x00; 0x00; 0x63; 0x6B; 0x7F; 0x7F; 0x36; 0x00];
  [0x00; 0x00; 0x63; 0x36; 0x1C; 0x36; 0x63; 0x00];
  [0x00; 0x00; 0x33; 0x33; 0x33; 0x3E; 0x30; 0x1F];
  [0x00; 0x00; 0x3F; 0x19; 0x0C; 0x26; 0x3F; 0x00];
  [0x38; 0x0C; 0x0C; 0x07; 0x0C; 0x0C; 0x38; 0x00];
  [0x18; 0x18; 0x18; 0x00; 0x18; 0x18; 0x18; 0x00];
  [0x07; 0x0C; 0x0C; 0x38; 0x0C; 0x0C; 0x07; 0x00];
  [0x6E; 0x3B; 0x00; 0x00; 0x00; 0x00; 0x00; 0x00];
  [0x00; 0x00; 0x00; 0x00; 0x00; 0x00; 0x00; 0x00]].

(** The fields of the bootloader's description that the kernel reads. *)
Record LimineFramebuffer := mkFb {
  address : Z;
  width : Z;
  height : Z;
  pitch : Z;
  bpp : Z;
}.

(** The static [FB], the pixels, and the cursor of the terminal. *)
Record Screen := mkScreen {
  fb : option LimineFramebuffer;
  pixels : gmap Z Z;
  cursor_x : Z;
  cursor_y : Z;
}.

Definition set_pixels (s : Screen) (m : gmap Z Z) : Screen := mkScreen (fb s) m (cursor_x s) (cursor_y s).

Definition px (m : gmap Z Z) (k : Z) : Z := default 0 (m !! k).

(** [*pixels.add(k)], read and written. *)
Definition load_px (k : Z) : M Screen Z := fun s => Ret (px (pixels s) k, s).
Definition store_px (k color : Z) : M Screen unit := smodify (fun s => set_pixels s (<[k := color]> (pixels s))).

Definition graphics_init (framebuffer : LimineFramebuffer) : M Screen unit :=
  smodify (fun s => mkScreen (Some framebuffer) (pixels s) (cursor_x s) (cursor_y s)).

Definition draw_pixel (x y color : Z) : M Screen unit :=
  s <- sget ;;
  match fb s with
  | None => sret tt
  | Some f =>
      if (width f <=? x) || (height f <=? y) then sret tt else
      row <-! chk 64 (y * (pitch f / 4)) ;;
      k <-! chk 64 (row + x) ;;
      store_px k color
  end.

(** One row of a glyph. *)
Definition draw_bits (bits x y color : Z) (row : Z) : M Screen (flow unit unit) :=
  for_loop 8 0 (fun col _ =>
    if negb (Z.land bits (Z.shiftl 1 col) =? 0) then
      px_x <-! chk 64 (x + col) ;;
      px_y <-! chk 64 (y + row) ;;
      _ <- draw_pixel px_x px_y color ;;
      sret (Next tt)
    else sret (Next tt)) tt.

Definition draw_char (c x y color : Z) : M Screen unit :=
  match FONT8X8_BASIC !! Z.to_nat (Z.land c 0x7F) with
  | None => spanic
  | Some bitmap =>
      _ <- for_loop (R := unit) 8 0 (fun row _ =>
        bits <-! get8 bitmap row ;;
        if bits =? 0 then sret (Next tt) else
        _ <- draw_bits bits x y color row ;;
        sret (Next tt)) tt ;;
      sret tt
  end.

Definition framebuffer_width (s : Screen) : Z := match fb s with None => 0 | Some f => width f end.
Definition framebuffer_height (s : Screen) : Z := match fb s with None => 0 | Some f => height f end.
Definition framebuffer_address (s : Screen) : Z := match fb s with None => 0 | Some f => address f end.
Definition framebuffer_pitch (s : Screen) : Z := match fb s with None => 0 | Some f => pitch f end.
Definition framebuffer_bpp (s : Screen) : Z := match fb s with None => 0 | Some f => bpp f end.

Fixpoint draw_string_loop (str : list Z) (x width color cursor_x cursor_y : Z) : M Screen unit :=
  match str with
  | [] => sret tt
  | byte :: rest =>
      edge <-! chk 64 (cursor_x + 8) ;;
      ' (cx, cy) <- (if width <? edge then cy <-! chk 64 (cursor_y + 8) ;; sret (x, cy)
                     else sret (cursor_x, cursor_y)) ;;
      _ <- draw_char byte cx cy color ;;
      cx <-! chk 64 (cx + 8) ;;
      draw_string_loop rest x width color cx cy
  end.

Definition draw_string (str : list Z) (x y color : Z) : M Screen unit :=
  s <- sget ;;
  draw_string_loop str x (framebuffer_width s) color x y.

Definition clear_screen (color : Z) : M Screen unit :=
  s <- sget ;;
  match fb s with
  | None => sret tt
  | Some f =>
      _ <- for_loop (R := unit) (Z.to_nat (height f)) 0 (fun y _ =>
        _ <- for_loop (R := unit) (Z.to_nat (width f)) 0 (fun x _ =>
          _ <- draw_pixel x y color ;; sret (Next tt)) tt ;;
        sret (Next tt)) tt ;;
      sret tt
  end.

(** The two loops of the scroll: rows move up, then the last ones are filled. *)
Definition scroll_copy (rows pitch_pixels i : Z) (_ : unit) : M Screen (flow unit unit) :=
  shift <-! chk 64 (rows * pitch_pixels) ;;
  k <-! chk 64 (i + shift) ;;
  v <- load_px k ;;
  _ <- store_px i v ;;
  sret (Next tt).

Definition scroll_fill (pitch_pixels fill_color y : Z) (_ : unit) : M Screen (flow unit unit) :=
  _ <- for_loop (R := unit) (Z.to_nat pitch_pixels) 0 (fun x _ =>
    row <-! chk 64 (y * pitch_pixels) ;;
    k <-! chk 64 (row + x) ;;
    _ <- store_px k fill_color ;;
    sret (Next tt)) tt ;;
  sret (Next tt).

Definition scroll_framebuffer (rows fill_color : Z) : M Screen unit :=
  s <- sget ;;
  match fb s with
  | None => sret tt
  | Some f =>
      let rows := Z.min rows (height f) in
      let pitch_pixels := pitch f / 4 in
      copy_pixels <-! chk 64 ((height f - rows) * pitch_pixels) ;;
      _ <- for_loop (Z.to_nat copy_pixels) 0 (scroll_copy rows pitch_pixels) tt ;;
      _ <- for_loop (Z.to_nat rows) (height f - rows) (scroll_fill pitch_pixels fill_color) tt ;;
      sret tt
  end.

(** ** Lemmas *)

(** The screens of the machine: a scan line holds its visible pixels, and the
    whole array fits an address. *)
Record fb_ok (f : LimineFramebuffer) : Prop := {
  fo_width : 8 <= width f <= pitch f / 4;
  fo_height : 30 <= height f;
  fo_size : pitch f / 4 * (height f + 8) < 2 ^ 63;
}.

Definition screen_size (f : LimineFramebuffer) : Z := pitch f / 4 * height f.

(** [s'] is [s] with other pixels inside the screen. *)
Record redrawn (f : LimineFramebuffer) (s s' : Screen) : Prop := {
  rd_same : s' = set_pixels s (pixels s');
  rd_out : forall k, ~ (0 <= k < screen_size f) -> pixels s' !! k = pixels s !! k;
}.

Lemma redrawn_refl f s : redrawn f s s.
Proof. split; [by destruct s|done]. Qed.

Lemma redrawn_trans f s1 s2 s3 : redrawn f s1 s2 -> redrawn f s2 s3 -> redrawn f s1 s3.
Proof.
  intros [E1 O1] [E2 O2]. split; [by rewrite E2, E1|]. intros k Hk. by rewrite O2, O1.
Qed.

Lemma redrawn_fb f s s' : redrawn f s s' -> fb s' = fb s.
Proof. intros [-> _]. done. Qed.

Lemma redrawn_store f s k v :
  0 <= k < screen_size f -> redrawn f s (set_pixels s (<[k := v]> (pixels s))).
Proof.
  intros Hk. split; [done|]. intros j Hj. cbn [pixels set_pixels].
  by rewrite lookup_insert_ne by (intros ->; done).
Qed.

Lemma px_insert m k v j : px (<[k := v]> m) j = if j =? k then v else px m j.
Proof.
  unfold px. destruct (Z.eqb_spec j k) as [->|Hne]; [by rewrite lookup_insert_eq|].
  by rewrite lookup_insert_ne by done.
Qed.

(** The colour at column [i] of line [j]. *)
Definition pixel (f : LimineFramebuffer) (s : Screen) (i j : Z) : Z :=
  px (pixels s) (j * (pitch f / 4) + i).

Definition visible (f : LimineFramebuffer) (i j : Z) : Prop := 0 <= i < width f /\ 0 <= j < height f.

Lemma visible_inj p i j i' j' :
  0 <= i < p -> 0 <= i' < p -> j * p + i = j' * p + i' -> i = i' /\ j = j'.
Proof. intros Hi Hi' He. assert (j = j') by nia. subst. lia. Qed.

Lemma visible_index f i j : fb_ok f -> visible f i j ->
  0 <= j * (pitch f / 4) + i < screen_size f.
Proof. intros [? ? ?] [? ?]. unfold screen_size. nia. Qed.

(** Drawing a point changes it if it is on the screen, and nothing else. *)
Lemma draw_pixel_spec f s x y color :
  fb s = Some f -> fb_ok f -> 0 <= x -> 0 <= y ->
  exists s', draw_pixel x y color s = Ret (tt, s') /\ redrawn f s s' /\
    forall i j, visible f i j ->
      pixel f s' i j = if (i =? x) && (j =? y) then color else pixel f s i j.
Proof.
  intros Hf Hok Hx Hy. unfold draw_pixel, sbind at 1, sget. rewrite Hf. pose proof Hok as [Hw Hh Hsz].
  destruct (Z.leb_spec (width f) x) as [Hwx|Hwx]; cbn [orb];
    [|destruct (Z.leb_spec (height f) y) as [Hhy|Hhy]].
  1-2: exists s; split; [done|]; split; [apply redrawn_refl|]; intros i j [Hi Hj];
    by destruct (Z.eqb_spec i x), (Z.eqb_spec j y); try lia.
  assert (visible f x y) as Hv by (split; lia). pose proof (visible_index f x y Hok Hv) as Hk.
  unfold screen_size in Hk. unfold sbind, slift. rewrite chk_Ret by nia. rewrite chk_Ret by nia.
  eexists. split; [done|]. split; [by apply redrawn_store|]. intros i j [Hi Hj].
  unfold pixel. cbn [set_pixels pixels]. rewrite px_insert.
  destruct (Z.eqb_spec (j * (pitch f / 4) + i) (y * (pitch f / 4) + x)) as [E|E].
  - apply visible_inj in E as [-> ->]; [|lia..]. by rewrite !Z.eqb_refl.
  - destruct (Z.eqb_spec i x), (Z.eqb_spec j y); try done. by subst.
Qed.

(** *** Glyphs *)

(** Pixel (column [l], row [r]) of the glyph of [c]. *)
Definition glyph (c r l : Z) : bool :=
  (0 <=? r) && (r <? 8) && (0 <=? l) && (l <? 8) &&
  Z.testbit ((FONT8X8_BASIC !!! Z.to_nat (Z.land c 0x7F)) !!! Z.to_nat r) l.

Lemma font_row c : exists bitmap, FONT8X8_BASIC !! Z.to_nat (Z.land c 0x7F) = Some bitmap /\
  FONT8X8_BASIC !!! Z.to_nat (Z.land c 0x7F) = bitmap /\ length bitmap = 8%nat.
Proof.
  change 0x7F with (Z.ones 7). rewrite Z.land_ones by lia.
  destruct (lookup_lt_is_Some_2 FONT8X8_BASIC (Z.to_nat (c mod 2 ^ 7))) as [b Hb].
  { change (length FONT8X8_BASIC) with 128%nat. lia. }
  exists b. split; [done|]. split; [by apply list_lookup_total_correct|].
  assert (Forall (fun b => length b = 8%nat) FONT8X8_BASIC) as Hall by (by apply (bool_decide_unpack _)).
  by apply (Forall_lookup_1 _ _ _ _ Hall Hb).
Qed.

Lemma draw_bits_spec f s bits x y color row :
  fb s = Some f -> fb_ok f -> 0 <= x < 2 ^ 63 -> 0 <= y < 2 ^ 63 -> 0 <= row < 8 ->
  exists s', draw_bits bits x y color row s = Ret (Next tt, s') /\ redrawn f s s' /\
    forall i j, visible f i j ->
      pixel f s' i j = if (j =? y + row) && (x <=? i) && (i <? x + 8) && Z.testbit bits (i - x)
                       then color else pixel f s i j.
Proof.
  intros Hf Hok Hx Hy Hrow. unfold draw_bits.
  destruct (for_loop_inv (R := unit) (fun col (_ : unit) t => redrawn f s t /\
    forall i j, visible f i j ->
      pixel f t i j = if (j =? y + row) && (x <=? i) && (i <? x + col) && Z.testbit bits (i - x)
                      then color else pixel f s i j) 8 0 (fun col _ =>
    if negb (Z.land bits (Z.shiftl 1 col) =? 0) then
      px_x <-! chk 64 (x + col) ;; px_y <-! chk 64 (y + row) ;;
      _ <- draw_pixel px_x px_y color ;; sret (Next tt)
    else sret (Next tt)) tt s) as ([] & s' & Hrun & Hred & Hpix).
  - split; [apply redrawn_refl|]. intros i j _.
    destruct (Z.leb_spec x i), (Z.ltb_spec i (x + 0)); rewrite ?andb_false_r; try done. lia.
  - intros col [] t Hcol [Hred Hpix]. rewrite land_bit_zero, negb_involutive by lia.
    destruct (Z.testbit bits col) eqn:Hbit.
    + unfold sbind, slift. rewrite chk_Ret by lia. rewrite chk_Ret by lia.
      destruct (draw_pixel_spec f t (x + col) (y + row) color) as (t' & Hrun & Hred' & Hpix');
        [by rewrite (redrawn_fb _ _ _ Hred)|done|lia|lia|].
      rewrite Hrun. exists tt, t'. split; [done|]. split; [by eapply redrawn_trans|].
      intros i j Hv. rewrite Hpix', Hpix by done.
      destruct (Z.eqb_spec i (x + col)) as [->|Hi].
      * replace (x + col - x) with col by lia. rewrite Hbit.
        destruct (Z.eqb_spec j (y + row)); cbn [andb]; [|done].
        rewrite (proj2 (Z.leb_le _ _)), (proj2 (Z.ltb_lt (x + col) (x + (col + 1)))) by lia. done.
      * cbn [andb]. replace (i <? x + (col + 1)) with (i <? x + col); [done|].
        destruct (Z.ltb_spec i (x + col)), (Z.ltb_spec i (x + (col + 1))); try done; lia.
    + exists tt, t. split; [done|]. split; [done|]. intros i j Hv. rewrite Hpix by done.
      destruct (Z.eq_dec i (x + col)) as [->|Hi].
      * replace (x + col - x) with col by lia. by rewrite Hbit, !andb_false_r.
      * replace (i <? x + (col + 1)) with (i <? x + col); [done|].
        destruct (Z.ltb_spec i (x + col)), (Z.ltb_spec i (x + (col + 1))); try done; lia.
  - rewrite Hrun. by exists s'.
Qed.

Lemma draw_char_spec f s c x y color :
  fb s = Some f -> fb_ok f -> 0 <= x < 2 ^ 63 -> 0 <= y < 2 ^ 63 ->
  exists s', draw_char c x y color s = Ret (tt, s') /\ redrawn f s s' /\
    forall i j, visible f i j ->
      pixel f s' i j = if glyph c (j - y) (i - x) then color else pixel f s i j.
Proof.
  intros Hf Hok Hx Hy. unfold draw_char, glyph.
  destruct (font_row c) as (bitmap & -> & -> & Hlen).
  set (inside := fun row i j => (0 <=? j - y) && (j - y <? row) && (0 <=? i - x) && (i - x <? 8) &&
    Z.testbit (bitmap !!! Z.to_nat (j - y)) (i - x)).
  destruct (for_loop_inv (R := unit) (fun row (_ : unit) t => redrawn f s t /\
    forall i j, visible f i j -> pixel f t i j = if inside row i j then color else pixel f s i j) 8 0
    (fun row _ => bits <-! get8 bitmap row ;; if bits =? 0 then sret (Next tt) else
      _ <- draw_bits bits x y color row ;; sret (Next tt)) tt s) as ([] & s' & Hrun & Hred & Hpix).
  - split; [apply redrawn_refl|]. intros i j _. unfold inside.
    destruct (Z.leb_spec 0 (j - y)), (Z.ltb_spec (j - y) 0); try done. lia.
  - intros row [] t Hrow [Hred Hpix].
    assert (get8 bitmap row = Ret (bitmap !!! Z.to_nat row)) as Hget.
    { unfold get8. rewrite (proj2 (Z.ltb_ge _ _)) by lia.
      destruct (lookup_lt_is_Some_2 bitmap (Z.to_nat row)) as [v Hv]; [lia|].
      by rewrite Hv, (list_lookup_total_correct _ _ _ Hv). }
    unfold sbind at 1, slift. rewrite Hget. set (bits := bitmap !!! Z.to_nat row).
    assert (forall i j, inside (row + 1) i j =
      inside row i j || ((j =? y + row) && (x <=? i) && (i <? x + 8) && Z.testbit bits (i - x))) as Hnext.
    { intros i j. unfold inside. destruct (Z.eqb_spec j (y + row)) as [->|Hj].
      - replace (y + row - y) with row by lia. rewrite Z.ltb_irrefl, andb_false_r. cbn [andb orb].
        rewrite (proj2 (Z.leb_le 0 row)), (proj2 (Z.ltb_lt row (row + 1))) by lia. cbn [andb]. unfold bits.
        f_equal. f_equal; [destruct (Z.leb_spec 0 (i - x)), (Z.leb_spec x i); try done; lia|].
        destruct (Z.ltb_spec (i - x) 8), (Z.ltb_spec i (x + 8)); try done; lia.
      - cbn [andb]. rewrite orb_false_r.
        replace (j - y <? row + 1) with (j - y <? row); [done|].
        destruct (Z.ltb_spec (j - y) row), (Z.ltb_spec (j - y) (row + 1)); try done; lia. }
    destruct (Z.eqb_spec bits 0) as [E|E].
    + exists tt, t. split; [done|]. split; [done|]. intros i j Hv.
      by rewrite Hnext, E, Z.testbit_0_l, andb_false_r, orb_false_r, Hpix by done.
    + destruct (draw_bits_spec f t bits x y color row) as (t' & Hr & Hred' & Hpix');
        [by rewrite (redrawn_fb _ _ _ Hred)|done..|lia|].
      unfold sbind. rewrite Hr. exists tt, t'. split; [done|]. split; [by eapply redrawn_trans|].
      intros i j Hv. rewrite Hpix', Hpix, Hnext by done. destruct (inside row i j); cbn [orb]; [|done].
      by destruct (_ && _ && _ && _).
  - rewrite (sbind_Ret _ _ _ _ _ Hrun). exists s'. split; [done|]. split; [done|]. exact Hpix.
Qed.

(** *** Scrolling *)

Lemma scroll_copy_spec f s rows n :
  fb_ok f -> fb s = Some f -> 0 < rows <= height f -> n = (height f - rows) * (pitch f / 4) ->
  exists s', for_loop (Z.to_nat n) 0 (scroll_copy rows (pitch f / 4)) tt s = Ret (Next tt, s') /\
    redrawn f s s' /\
    forall k, px (pixels s') k =
      if (0 <=? k) && (k <? n) then px (pixels s) (k + rows * (pitch f / 4)) else px (pixels s) k.
Proof.
  intros [Hw Hh Hsz] Hf Hrows Hn. set (p := pitch f / 4) in *. assert (0 <= n) by nia.
  destruct (for_loop_inv (R := unit) (fun i (_ : unit) t => redrawn f s t /\
    forall k, px (pixels t) k =
      if (0 <=? k) && (k <? i) then px (pixels s) (k + rows * p) else px (pixels s) k)
    (Z.to_nat n) 0 (scroll_copy rows p) tt s) as ([] & s' & Hrun & Hred & Hpx).
  - split; [apply redrawn_refl|]. intros k. destruct (Z.leb_spec 0 k), (Z.ltb_spec k 0); try done. lia.
  - intros i [] t Hi [Hred Hpx]. assert (rows * p + n = screen_size f) as Hsum by (unfold screen_size, p in *; nia).
    assert (screen_size f < 2 ^ 63) by (unfold screen_size, p in *; nia). assert (0 < rows * p) by nia.
    unfold scroll_copy, sbind, slift, load_px, store_px, smodify, sret.
    rewrite chk_Ret by lia. rewrite chk_Ret by lia. eexists tt, _. split; [done|].
    split; [eapply redrawn_trans; [done|]; apply redrawn_store; lia|].
    intros k. cbn [set_pixels pixels]. rewrite px_insert, Hpx.
    rewrite (proj2 (Z.ltb_ge (i + rows * p) i)), andb_false_r by lia.
    destruct (Z.eqb_spec k i) as [->|Hk].
    + rewrite (proj2 (Z.leb_le 0 i)), (proj2 (Z.ltb_lt i (i + 1))) by lia. done.
    + rewrite Hpx. replace (k <? i + 1) with (k <? i); [done|].
      destruct (Z.ltb_spec k i), (Z.ltb_spec k (i + 1)); try done; lia.
  - exists s'. split; [done|]. split; [done|]. by replace (0 + Z.of_nat (Z.to_nat n)) with n in Hpx by lia.
Qed.

(** One line of the fill. *)
Lemma scroll_fill_spec f s fill y :
  fb_ok f -> fb s = Some f -> 0 <= y < height f ->
  exists s', scroll_fill (pitch f / 4) fill y tt s = Ret (Next tt, s') /\ redrawn f s s' /\
    forall k, px (pixels s') k =
      if (y * (pitch f / 4) <=? k) && (k <? (y + 1) * (pitch f / 4)) then fill else px (pixels s) k.
Proof.
  intros [Hw Hh Hsz] Hf Hy. set (p := pitch f / 4) in *. unfold scroll_fill.
  assert ((y + 1) * p <= screen_size f) as Hend by (unfold screen_size, p in *; nia).
  assert (screen_size f < 2 ^ 63) by (unfold screen_size, p in *; nia). assert (0 <= y * p) by nia.
  destruct (for_loop_inv (R := unit) (fun x (_ : unit) t => redrawn f s t /\
    forall k, px (pixels t) k = if (y * p <=? k) && (k <? y * p + x) then fill else px (pixels s) k)
    (Z.to_nat p) 0 (fun x _ => row <-! chk 64 (y * p) ;; k <-! chk 64 (row + x) ;;
      _ <- store_px k fill ;; sret (Next tt)) tt s) as ([] & s' & Hrun & Hred & Hpx).
  - split; [apply redrawn_refl|]. intros k.
    destruct (Z.leb_spec (y * p) k), (Z.ltb_spec k (y * p + 0)); try done. lia.
  - intros x [] t Hx [Hred Hpx]. unfold sbind, slift, store_px, smodify, sret.
    rewrite chk_Ret by lia. rewrite chk_Ret by lia. eexists tt, _. split; [done|].
    split; [eapply redrawn_trans; [done|]; apply redrawn_store; lia|].
    intros k. cbn [set_pixels pixels]. rewrite px_insert, Hpx.
    destruct (Z.eqb_spec k (y * p + x)) as [->|Hk].
    + by rewrite (proj2 (Z.leb_le (y * p) _)), (proj2 (Z.ltb_lt _ (y * p + (x + 1)))) by lia.
    + replace (k <? y * p + (x + 1)) with (k <? y * p + x); [done|].
      destruct (Z.ltb_spec k (y * p + x)), (Z.ltb_spec k (y * p + (x + 1))); try done; lia.
  - rewrite (sbind_Ret _ _ _ _ _ Hrun). exists s'. split; [done|]. split; [done|].
    intros k. rewrite Hpx. by replace (y * p + (0 + Z.of_nat (Z.to_nat p))) with ((y + 1) * p) by lia.
Qed.

Lemma scroll_spec f s rows fill :
  fb_ok f -> fb s = Some f -> 0 < rows <= height f ->
  exists s', scroll_framebuffer rows fill s = Ret (tt, s') /\ redrawn f s s' /\
    forall i j, 0 <= i < pitch f / 4 -> 0 <= j < height f ->
      pixel f s' i j = if j <? height f - rows then pixel f s i (j + rows) else fill.
Proof.
  intros Hok Hf Hrows. unfold scroll_framebuffer, sbind at 1, sget. rewrite Hf. cbv zeta.
  pose proof Hok as [Hw Hh Hsz]. rewrite Z.min_l by lia. remember (pitch f / 4) as p eqn:Hp.
  unfold sbind at 1, slift. rewrite chk_Ret by nia.
  destruct (scroll_copy_spec f s rows ((height f - rows) * p)) as (s1 & Hrun1 & Hred1 & Hpx1);
    [done..|by rewrite Hp|]. rewrite <- Hp in *.
  rewrite (sbind_Ret _ _ _ _ _ Hrun1).
  destruct (for_loop_inv (R := unit) (fun y (_ : unit) t => redrawn f s t /\
    forall k, px (pixels t) k = if ((height f - rows) * p <=? k) && (k <? y * p) then fill else px (pixels s1) k)
    (Z.to_nat rows) (height f - rows) (scroll_fill p fill) tt s1) as ([] & s' & Hrun & Hred & Hpx).
  - split; [done|]. intros k.
    destruct (Z.leb_spec ((height f - rows) * p) k), (Z.ltb_spec k ((height f - rows) * p)); try done. lia.
  - intros y [] t Hy [Hred Hpx].
    destruct (scroll_fill_spec f t fill y Hok) as (t' & Hrun & Hred' & Hpx');
      [by rewrite (redrawn_fb _ _ _ Hred)|lia|]. rewrite <- Hp in *.
    exists tt, t'. split; [done|]. split; [by eapply redrawn_trans|]. intros k. rewrite Hpx', Hpx.
    destruct (Z.leb_spec ((height f - rows) * p) k), (Z.ltb_spec k (y * p)), (Z.leb_spec (y * p) k),
      (Z.ltb_spec k ((y + 1) * p)); cbn [andb]; try done; nia.
  - rewrite (sbind_Ret _ _ _ _ _ Hrun). exists s'. split; [done|]. split; [done|].
    intros i j Hi Hj. unfold pixel. rewrite <- Hp, Hpx, Hpx1. destruct (Z.ltb_spec j (height f - rows)).
    + rewrite (proj2 (Z.leb_gt _ _)) by nia. cbn [andb].
      rewrite (proj2 (Z.leb_le 0 _)), (proj2 (Z.ltb_lt _ _)) by nia. cbn [andb]. f_equal. lia.
    + by rewrite (proj2 (Z.leb_le _ _)), (proj2 (Z.ltb_lt _ _)) by nia.
Qed.
