(* ===== verification/Terminal.v ===== *)
(** * The text terminal ([src/src/terminal.rs])

    The cursor and what happens at the edges of the screen. [Console] is what
    the rest of the kernel asks of a terminal: every byte is accepted. Formatted
    output ([print], [panic] and the macros) goes through [core::fmt] and ends in
    [puts]. *)

From S2P Require Import Prelude Graphics.

Definition LINE_HEIGHT : Z := 30.
Definition FONT_WIDTH : Z := 8.
Definition SCROLL_COLOR : Z := 0x000000.
Definition TEXT_COLOR : Z := 0xFFFFFF.

Definition cursor : M Screen (Z * Z) := fun s => Ret ((cursor_x s, cursor_y s), s).
Definition set_cursor_raw (x y : Z) : M Screen unit := smodify (fun s => mkScreen (fb s) (pixels s) x y).

Definition newline : M Screen unit :=
  ' (_, y) <- cursor ;;
  y <-! chk 64 (y + LINE_HEIGHT) ;;
  s <- sget ;;
  if framebuffer_height s <=? y then
    _ <- scroll_framebuffer LINE_HEIGHT SCROLL_COLOR ;;
    s <- sget ;;
    y <-! chk 64 (framebuffer_height s - LINE_HEIGHT) ;;
    set_cursor_raw 0 y
  else set_cursor_raw 0 y.

Definition advance : M Screen unit :=
  ' (x, y) <- cursor ;;
  x <-! chk 64 (x + FONT_WIDTH) ;;
  s <- sget ;;
  if Z.max 0 (framebuffer_width s - FONT_WIDTH) <? x then newline else set_cursor_raw x y.

Definition clear (color : Z) : M Screen unit :=
  _ <- set_cursor_raw 0 0 ;;
  clear_screen color.

Definition NEWLINE : Z := 10.

Definition putc_color (c color : Z) : M Screen unit :=
  if c =? NEWLINE then newline else
  ' (x, y) <- cursor ;;
  _ <- draw_char c x y color ;;
  advance.

Definition putc (c : Z) : M Screen unit :=
  if c =? NEWLINE then newline else
  ' (x, y) <- cursor ;;
  _ <- draw_char c x y TEXT_COLOR ;;
  advance.

Fixpoint puts (bytes : list Z) : M Screen unit :=
  match bytes with
  | [] => sret tt
  | b :: rest => _ <- putc b ;; puts rest
  end.

(** The underline at the cursor, drawn and erased. *)
Definition cursor_line (color : Z) : M Screen unit :=
  ' (x, y) <- cursor ;;
  _ <- for_loop (R := unit) 8 0 (fun i _ =>
    px_x <-! chk 64 (x + i) ;;
    px_y <-! chk 64 (y + 8) ;;
    _ <- draw_pixel px_x px_y color ;;
    sret (Next tt)) tt ;;
  sret tt.

Definition draw_cursor : M Screen unit := cursor_line TEXT_COLOR.
Definition erase_cursor : M Screen unit := cursor_line SCROLL_COLOR.

Definition get_cursor_x (s : Screen) : Z := cursor_x s.
Definition get_cursor_y (s : Screen) : Z := cursor_y s.
Definition set_cursor (x y : Z) : M Screen unit := set_cursor_raw x y.

(** The ASCII codes of [0x] and of the digits, most significant first. *)
Definition hex_digit (d : Z) : Z := if d <? 10 then 0x30 + d else 0x37 + d.
Definition hex_bytes (value : Z) : list Z :=
  0x30 :: 0x78 :: ((fun i => hex_digit (Z.land (Z.shiftr value (28 - Z.of_nat i * 4)) 0xF)) <$> seq 0 8).
Definition printf_hex (value : Z) : M Screen unit := puts (hex_bytes value).

(** ** What a terminal promises *)

Class Console (T : Type) := {
  con_putc : Z -> M T unit;
  con_ok : T -> Prop;
  con_returns : forall t c, con_ok t -> 0 <= c < 256 -> exists t', con_putc c t = Ret (tt, t') /\ con_ok t';
}.

(** ** Lemmas *)

(** The invariant: there is a screen, and the next glyph starts on it. *)
Record screen_ok (f : LimineFramebuffer) (s : Screen) : Prop := {
  so_fb : fb s = Some f;
  so_ok : fb_ok f;
  so_x : 0 <= cursor_x s /\ cursor_x s + FONT_WIDTH <= width f;
  so_y : 0 <= cursor_y s < height f;
}.

Lemma screen_bounds f s : screen_ok f s -> width f < 2 ^ 62 /\ height f < 2 ^ 62.
Proof. intros [_ [Hw Hh Hsz] _ _]. nia. Qed.

(** The screen after a line feed. *)
Record fed (f : LimineFramebuffer) (s s' : Screen) : Prop := {
  fd_ok : screen_ok f s';
  fd_x : cursor_x s' = 0;
  fd_y : cursor_y s' = if height f <=? cursor_y s + LINE_HEIGHT then height f - LINE_HEIGHT else cursor_y s + LINE_HEIGHT;
  fd_pixel : forall i j, visible f i j ->
    pixel f s' i j =
      if height f <=? cursor_y s + LINE_HEIGHT then
        if j <? height f - LINE_HEIGHT then pixel f s i (j + LINE_HEIGHT) else SCROLL_COLOR
      else pixel f s i j;
  fd_out : forall k, ~ (0 <= k < screen_size f) -> pixels s' !! k = pixels s !! k;
}.

Lemma newline_spec f s : screen_ok f s -> exists s', newline s = Ret (tt, s') /\ fed f s s'.
Proof.
  intros Hs. pose proof (screen_bounds f s Hs) as [Hwb Hhb]. pose proof Hs as [Hf Hok Hx Hy].
  unfold LINE_HEIGHT, FONT_WIDTH in *. pose proof Hok as [Hw Hh Hsz].
  unfold newline, cursor, LINE_HEIGHT. unfold sbind at 1. unfold sbind at 1, slift. rewrite chk_Ret by lia.
  unfold sbind at 1, sget. unfold framebuffer_height. rewrite Hf.
  destruct (Z.leb_spec (height f) (cursor_y s + 30)) as [Hle|Hgt].
  - destruct (scroll_spec f s 30 SCROLL_COLOR Hok Hf) as (s1 & Hrun & Hred & Hpx); [lia|].
    rewrite (sbind_Ret _ _ _ _ _ Hrun). unfold sbind at 1. rewrite (redrawn_fb _ _ _ Hred), Hf.
    unfold sbind, slift. rewrite chk_Ret by lia. eexists. split; [done|].
    pose proof (redrawn_fb _ _ _ Hred) as Hf1. rewrite Hf in Hf1. destruct Hred as [_ Hout].
    split; cbn [cursor_x cursor_y pixels]; unfold LINE_HEIGHT; try rewrite (proj2 (Z.leb_le _ _)) by lia; try done.
    + split; cbn [fb cursor_x cursor_y]; unfold FONT_WIDTH; [done|done|lia|lia].
    + intros i j [Hi Hj]. apply Hpx; lia.
  - eexists. split; [done|]. split; cbn [cursor_x cursor_y pixels]; unfold LINE_HEIGHT;
      rewrite ?(proj2 (Z.leb_gt _ _)) by lia; try done.
    split; cbn [fb cursor_x cursor_y]; unfold FONT_WIDTH; [done|done|lia|lia].
Qed.

(** What [putc] has drawn before the cursor moves. *)
Definition inked (f : LimineFramebuffer) (s : Screen) (c i j : Z) : Z :=
  if c =? NEWLINE then pixel f s i j else
  if glyph c (j - cursor_y s) (i - cursor_x s) then TEXT_COLOR else pixel f s i j.

(** Whether the byte ends the line. *)
Definition breaks (f : LimineFramebuffer) (s : Screen) (c : Z) : bool :=
  (c =? NEWLINE) || (width f - FONT_WIDTH <? cursor_x s + FONT_WIDTH).

Lemma putc_spec f s c : screen_ok f s ->
  exists s', putc c s = Ret (tt, s') /\ screen_ok f s' /\
    (forall k, ~ (0 <= k < screen_size f) -> pixels s' !! k = pixels s !! k) /\
    if breaks f s c then
      cursor_x s' = 0 /\
      cursor_y s' = (if height f <=? cursor_y s + LINE_HEIGHT then height f - LINE_HEIGHT
                     else cursor_y s + LINE_HEIGHT) /\
      forall i j, visible f i j -> pixel f s' i j =
        if height f <=? cursor_y s + LINE_HEIGHT then
          if j <? height f - LINE_HEIGHT then inked f s c i (j + LINE_HEIGHT) else SCROLL_COLOR
        else inked f s c i j
    else
      cursor_x s' = cursor_x s + FONT_WIDTH /\ cursor_y s' = cursor_y s /\
      forall i j, visible f i j -> pixel f s' i j = inked f s c i j.
Proof.
  intros Hs. pose proof (screen_bounds f s Hs) as [Hwb Hhb]. pose proof Hs as [Hf Hok Hx Hy].
  unfold putc, breaks, inked. destruct (Z.eqb_spec c NEWLINE) as [Hc|Hc]; cbn [orb].
  - destruct (newline_spec f s Hs) as (s' & Hrun & [Hs' Hcx Hcy Hpx Hout]). exists s'.
    split; [done|]. split; [done|]. split; [done|]. split; [done|]. split; [|exact Hpx].
    exact Hcy.
  - unfold cursor. unfold sbind at 1. unfold FONT_WIDTH in *.
    destruct (draw_char_spec f s c (cursor_x s) (cursor_y s) TEXT_COLOR Hf Hok) as (s1 & Hrun & Hred & Hpx);
      [lia..|]. rewrite (sbind_Ret _ _ _ _ _ Hrun).
    pose proof (redrawn_fb _ _ _ Hred) as Hfb1. pose proof Hred as [Hsame Hout].
    assert (cursor_x s1 = cursor_x s /\ cursor_y s1 = cursor_y s) as [Hcx Hcy] by (by rewrite Hsame).
    assert (screen_ok f s1) as Hs1.
    { split; rewrite ?Hfb1, ?Hcx, ?Hcy; unfold FONT_WIDTH; [done|done|lia|lia]. }
    unfold advance, cursor, FONT_WIDTH. unfold sbind at 1. unfold sbind at 1, slift. rewrite Hcx, chk_Ret by lia.
    unfold sbind at 1, sget, framebuffer_width. rewrite Hfb1, Hf. pose proof Hok as [Hw _ _].
    rewrite Z.max_r by lia. destruct (Z.ltb_spec (width f - 8) (cursor_x s + 8)) as [Hbr|Hbr].
    + destruct (newline_spec f s1 Hs1) as (s' & Hrun' & [Hs' Hcx' Hcy' Hpx' Hout']). exists s'.
      split; [done|]. split; [done|]. split; [intros k Hk; by rewrite Hout', Hout|].
      split; [done|]. rewrite Hcy in Hcy', Hpx'. unfold LINE_HEIGHT in *. split.
      * exact Hcy'.
      * intros i j Hv. rewrite Hpx' by done. destruct Hv as [Hi Hj].
        destruct (Z.leb_spec (height f) (cursor_y s + 30)); [destruct (Z.ltb_spec j (height f - 30))|];
          [|done|]; by rewrite Hpx by (split; lia).
    + eexists. split; [done|]. split; [|split; [exact Hout|]].
      * split; cbn [fb cursor_x cursor_y]; unfold FONT_WIDTH; [by rewrite Hfb1|done|lia|lia].
      * cbn [cursor_x cursor_y]. split; [done|]. split; [done|]. exact Hpx.
Qed.

Lemma puts_spec f bytes : forall s, screen_ok f s -> exists s', puts bytes s = Ret (tt, s') /\ screen_ok f s'.
Proof.
  induction bytes as [|b bytes IH]; intros s Hs; cbn [puts]; [by exists s|].
  destruct (putc_spec f s b Hs) as (s1 & Hrun & Hs1 & _). rewrite (sbind_Ret _ _ _ _ _ Hrun). by apply IH.
Qed.

#[export] Instance Terminal_console : Console Screen.
Proof.
  refine {| con_putc := putc; con_ok := fun s => exists f, screen_ok f s; con_returns := _ |}.
  intros s c [f Hs] _. destruct (putc_spec f s c Hs) as (s' & Hrun & Hs' & _). eauto.
Defined.

(** ** Theorems *)

(** C40: Writing a byte to the screen. On every screen of at least 8 by 30 pixels
    with the cursor on it, [putc] returns for every byte, stores nothing outside
    the pixel array, and keeps the cursor on the screen. A printable byte sets
    exactly the pixels of its glyph at the cursor; at the right edge, or for a
    line feed, the cursor goes to the start of the next line, and at the bottom
    the picture moves up by one line and the last line is cleared. *)
Theorem putc_correct f s c : screen_ok f s ->
  exists s', putc c s = Ret (tt, s') /\ screen_ok f s' /\
    (forall k, ~ (0 <= k < screen_size f) -> pixels s' !! k = pixels s !! k) /\
    if breaks f s c then
      cursor_x s' = 0 /\
      cursor_y s' = (if height f <=? cursor_y s + LINE_HEIGHT then height f - LINE_HEIGHT
                     else cursor_y s + LINE_HEIGHT) /\
      forall i j, visible f i j -> pixel f s' i j =
        if height f <=? cursor_y s + LINE_HEIGHT then
          if j <? height f - LINE_HEIGHT then inked f s c i (j + LINE_HEIGHT) else SCROLL_COLOR
        else inked f s c i j
    else
      cursor_x s' = cursor_x s + FONT_WIDTH /\ cursor_y s' = cursor_y s /\
      forall i j, visible f i j -> pixel f s' i j = inked f s c i j.
Proof. apply putc_spec. Qed.


(** ** Witnesses *)

Definition small_fb : LimineFramebuffer := mkFb 0xFFFF8000FD000000 16 60 64 32.
Definition small_screen : Screen := mkScreen (Some small_fb) ∅ 8 30.

Lemma small_screen_ok : screen_ok small_fb small_screen.
Proof. split; [done| |cbn; unfold FONT_WIDTH; lia|cbn; lia]. by split. Qed.

Lemma putc_correct_witness : exists s', putc 0x41 small_screen = Ret (tt, s') /\ screen_ok small_fb s' /\
  cursor_x s' = 0 /\ cursor_y s' = 30.
Proof.
  destruct (putc_correct small_fb small_screen 0x41 small_screen_ok) as (s' & Hrun & Hs' & _ & Hx & Hy & _).
  exists s'. split; [exact Hrun|]. split; [exact Hs'|]. split; [exact Hx|exact Hy].
Defined.
