(* ===== verification/Klog.v ===== *)
(** * The kernel log ([src/src/klog.rs])

    Levels, their names, and the threshold in front of the console. Messages arrive
    here as the bytes [core::fmt] makes of them. *)

From S2P Require Import Prelude Graphics Terminal.
From stdpp Require Import list strings.
From Stdlib Require Import Ascii String.
#[local] Open Scope Z_scope.

Module Level.
Inductive t := Trace | Debug | Info | Warn | Error | None.
End Level.
Definition Level : Type := Level.t.

#[global] Instance Level_eq_dec : EqDecision Level.
Proof. unfold Level. solve_decision. Defined.

(** [level as i32] *)
Definition level_code (l : Level) : Z :=
  match l with
  | Level.Trace => 0 | Level.Debug => 1 | Level.Info => 2 | Level.Warn => 3 | Level.Error => 4 | Level.None => 5
  end.

Definition NAMES : list (string * Level) :=
  [("trace", Level.Trace); ("debug", Level.Debug); ("info", Level.Info); ("warn", Level.Warn); ("error", Level.Error); ("none", Level.None)]%string.

(** The bytes of a literal. *)
Definition text (s : string) : list Z := (fun c => Z.of_N (N_of_ascii c)) <$> list_ascii_of_string s.

Fixpoint level_name_in (names : list (string * Level)) (level : Level) : string :=
  match names with
  | [] => "unknown"
  | (name, value) :: names => if bool_decide (value = level) then name else level_name_in names level
  end.
Definition level_name (level : Level) : string := level_name_in NAMES level.

Fixpoint level_parse_in (names : list (string * Level)) (name : string) : option Level :=
  match names with
  | [] => None
  | (candidate, value) :: names => if bool_decide (candidate = name) then Some value else level_parse_in names name
  end.
Definition level_parse (name : string) : option Level := level_parse_in NAMES name.

(** The cargo features the macros look at. *)
Record Features := mkFeatures { f_debug : bool; f_debug_pci : bool; f_debug_heap : bool; f_log_tags : bool }.

Section Log.
Context {T : Type} `{CT : Console T}.

(** The threshold, and the console behind it. *)
Record Klog := mkKlog { THRESHOLD : Z; log_con : T }.

Definition enabled (level : Level) : M Klog bool :=
  s <- sget ;;
  let threshold := THRESHOLD s in
  if level_code Level.None <=? threshold then sret false else sret (threshold <=? level_code level).

Definition set_level (level : Level) : M Klog unit := smodify (fun s => mkKlog (level_code level) (log_con s)).

Definition get_level : M Klog Level :=
  s <- sget ;;
  sret (match THRESHOLD s with
        | 0 => Level.Trace | 1 => Level.Debug | 2 => Level.Info | 3 => Level.Warn | 4 => Level.Error
        | _ => Level.None
        end).

(** [PINX_LOG_LEVEL] is what the build script passes. *)
Definition init (PINX_LOG_LEVEL : string) : M Klog unit :=
  match level_parse PINX_LOG_LEVEL with
  | Some level => set_level level
  | None => set_level Level.Info
  end.

(** [terminal::print] of bytes already formatted. *)
Fixpoint print (bytes : list Z) : M T unit :=
  match bytes with
  | [] => sret tt
  | b :: bytes => _ <- con_putc b ;; print bytes
  end.

Definition to_con (m : M T unit) : M Klog unit := fun s =>
  match m (log_con s) with
  | Ret (_, t) => Ret (tt, mkKlog (THRESHOLD s) t)
  | Panic => Panic
  | OutOfFuel => OutOfFuel
  end.

(** [log_tags] is the cargo feature. *)
Definition emit (log_tags : bool) (level : Level) (args : list Z) : M Klog unit :=
  _ <- (if log_tags then to_con (print (text "[" ++ text (level_name level) ++ text "] ")) else sret tt) ;;
  to_con (print args).

Definition at_level (log_tags : bool) (level : Level) (args : list Z) : M Klog unit :=
  e <- enabled level ;;
  if e then emit log_tags level args else sret tt.

Definition error (log_tags : bool) (args : list Z) : M Klog unit := emit log_tags Level.Error args.

(** The macros. Which of them the compiler keeps is decided by the cargo features; one
    that is off expands to nothing. *)
Definition klog_at (fe : Features) (level : Level) (args : list Z) : M Klog unit := at_level (f_log_tags fe) level args.

Definition ktrace (fe : Features) (args : list Z) : M Klog unit :=
  if f_debug fe then klog_at fe Level.Trace args else sret tt.
Definition kdebug (fe : Features) (args : list Z) : M Klog unit :=
  if f_debug fe then klog_at fe Level.Debug args else sret tt.
Definition kinfo (fe : Features) (args : list Z) : M Klog unit :=
  if f_debug fe then klog_at fe Level.Info args else sret tt.
Definition kerror (fe : Features) (args : list Z) : M Klog unit := klog_at fe Level.Error args.
Definition kpci (fe : Features) (args : list Z) : M Klog unit :=
  if f_debug fe && f_debug_pci fe then klog_at fe Level.Info args else sret tt.
Definition kheap_msg (fe : Features) (args : list Z) : M Klog unit :=
  if f_debug fe && f_debug_heap fe then klog_at fe Level.Warn args else sret tt.
End Log.
Arguments Klog T : clear implicits.

(** ** What the log shows *)

Lemma level_name_parse l : level_parse (level_name l) = Some l.
Proof. by destruct l. Qed.

Lemma level_parse_name s l : level_parse s = Some l -> level_name l = s.
Proof.
  unfold level_parse, NAMES. cbn [level_parse_in].
  repeat (case_bool_decide; [intros [= <-]; by subst s|]). done.
Qed.

Section LogLemmas.
Context {T : Type} `{CT : Console T}.
Abbreviation Klog := (Klog T).

Lemma text_bytes s : Forall (fun b => 0 <= b < 256) (text s).
Proof.
  unfold text. apply Forall_forall. intros b Hb. apply list_elem_of_fmap in Hb as (c & -> & _).
  pose proof (N_ascii_bounded c). lia.
Qed.

Lemma print_app a b (t : T) : print (a ++ b) t = (_ <- print a ;; print b) t.
Proof.
  revert t. induction a as [|x a IH]; intros t; [done|]. cbn [app print]. unfold sbind in *.
  destruct (con_putc x t) as [[[] t']| |]; [apply IH|done..].
Qed.

Lemma print_returns bytes (t : T) : con_ok t -> Forall (fun b => 0 <= b < 256) bytes -> exists t', print bytes t = Ret (tt, t') /\ con_ok t'.
Proof.
  revert t. induction bytes as [|b bytes IH]; intros t Ht Hb; cbn [print]; [by exists t|]. apply Forall_cons in Hb as [Hb Hbs].
  destruct (con_returns t b Ht Hb) as (t1 & Hrun & Ht1). rewrite (sbind_Ret _ _ _ _ _ Hrun). by apply IH.
Qed.

Lemma set_get_level l (s : Klog) : exists s', set_level l s = Ret (tt, s') /\ get_level s' = Ret (l, s') /\ log_con s' = log_con s.
Proof. eexists. split; [reflexivity|]. by destruct l. Qed.

Lemma enabled_run level t (c : T) :
  enabled level (mkKlog (level_code t) c) = Ret (bool_decide (t <> Level.None /\ level_code t <= level_code level), mkKlog (level_code t) c).
Proof. by destruct t, level. Qed.

(** What one message adds to the console. *)
Definition line (log_tags : bool) (level : Level) (args : list Z) : list Z :=
  (if log_tags then text "[" ++ text (level_name level) ++ text "] " else []) ++ args.

Lemma tag_bytes (log_tags : bool) level :
  Forall (fun b => 0 <= b < 256) (if log_tags then text "[" ++ text (level_name level) ++ text "] " else []).
Proof. destruct log_tags; [|by apply Forall_nil]. repeat apply Forall_app_2; apply text_bytes. Qed.

Lemma at_level_run log_tags level args t (c : T) : con_ok c -> Forall (fun b => 0 <= b < 256) args ->
  exists c', at_level log_tags level args (mkKlog (level_code t) c) = Ret (tt, mkKlog (level_code t) c') /\ con_ok c' /\
    print (if bool_decide (t <> Level.None /\ level_code t <= level_code level) then line log_tags level args else []) c = Ret (tt, c').
Proof.
  intros Hcon Hargs. unfold at_level. rewrite (sbind_Ret _ _ _ _ _ (enabled_run _ _ _)).
  case_bool_decide; [|exists c; split; [reflexivity|]; split; [exact Hcon|]; reflexivity].
  pose proof (tag_bytes log_tags level) as Htag. unfold line. set (tag := if log_tags then _ else _) in *. unfold emit.
  destruct (print_returns tag c Hcon Htag) as (t1 & H1 & Hc1).
  destruct (print_returns args t1 Hc1 Hargs) as (t2 & H2 & Hc2).
  assert ((if log_tags then to_con (print tag) else sret tt) (mkKlog (level_code t) c) = Ret (tt, mkKlog (level_code t) t1)) as H1'.
  { destruct log_tags; [unfold to_con; cbn [log_con THRESHOLD]; by rewrite H1|]. cbn in H1. by injection H1 as <-. }
  exists t2. rewrite print_app, (sbind_Ret _ _ _ _ _ H1), H2. split; [|done].
  destruct log_tags; rewrite (sbind_Ret _ _ _ _ _ H1'); unfold to_con; cbn [log_con THRESHOLD]; by rewrite H2.
Qed.

Lemma init_level name (s : Klog) : init name s = Ret (tt, mkKlog (level_code (default Level.Info (level_parse name))) (log_con s)).
Proof. unfold init. by destruct (level_parse name). Qed.

(** An informational message of the boot sequence. *)
Lemma kinfo_run fe args t (c : T) : con_ok c -> Forall (fun b => 0 <= b < 256) args ->
  exists c', kinfo fe args (mkKlog (level_code t) c) = Ret (tt, mkKlog (level_code t) c') /\ con_ok c'.
Proof.
  intros Hc Ha. unfold kinfo, klog_at. destruct (f_debug fe); [|by exists c].
  destruct (at_level_run (f_log_tags fe) Level.Info args t c Hc Ha) as (c' & -> & Hc' & _). by exists c'.
Qed.

(** With the threshold the build asked for (or [info] when it asked for something that
    is not a level), a message reaches the console exactly when its level is not below
    the threshold and the threshold is not [none]; then the console has its tag, if
    tags are on, and its bytes, in this order, and otherwise nothing. Logging always
    returns, and never moves the threshold. *)
Theorem log_filter_correct (name : string) (log_tags : bool) (level : Level) (args : list Z) (s : Klog)
    (Hcon : con_ok (log_con s)) (Hargs : Forall (fun b => 0 <= b < 256) args) :
  let t : Level := default Level.Info (level_parse name) in
  exists s', (_ <- init name ;; at_level log_tags level args) s = Ret (tt, s') /\
    THRESHOLD s' = level_code t /\ con_ok (log_con s') /\
    print (if bool_decide (t <> Level.None /\ level_code t <= level_code level) then line log_tags level args else []) (log_con s) =
      Ret (tt, log_con s').
Proof.
  intros t. rewrite (sbind_Ret _ _ _ _ _ (init_level name s)). fold t.
  destruct (at_level_run log_tags level args t (log_con s) Hcon Hargs) as (c & -> & Hc & Hp). by eexists.
Qed.
End LogLemmas.

Lemma log_filter_correct_witness :
  exists s', (_ <- init "warn" ;; at_level true Level.Error [72; 105]) (mkKlog 2 small_screen) = Ret (tt, s') /\ THRESHOLD s' = 3.
Proof.
  destruct (log_filter_correct "warn" true Level.Error [72; 105] (mkKlog 2 small_screen)) as (s' & Hrun & Ht & _).
  - exists small_fb. exact small_screen_ok.
  - repeat (apply Forall_cons; split; [lia|]). by apply Forall_nil.
  - exists s'. split; [exact Hrun|exact Ht].
Defined.
