(* ===== verification/Ext4Layout.v ===== *)
(** * On-disk structures of ext4 ([src/src/ext4.rs], lines 22-262)

    The constants, the field offsets, and the readers and writers of extent
    headers, extents, index entries and directory entries inside a byte buffer,
    with their round trips. *)

From S2P Require Import Prelude Block.
From stdpp Require Import list.
#[local] Open Scope Z_scope.

Definition EXT4_MAGIC : Z := 0xEF53.
Definition MAX_BLOCK_SIZE : Z := 4096.
Definition MAX_INODE_SIZE : Z := 256.
Definition EXT4_NAME_LEN : Z := 255.
Definition EXT4_EXT_MAGIC : Z := 0xF30A.
Definition ROOT_INO : Z := 2.
Definition GOOD_OLD_INODE_SIZE : Z := 128.

Definition INCOMPAT_FILETYPE : Z := 0x0002.
Definition INCOMPAT_EXTENTS : Z := 0x0040.
Definition INCOMPAT_64BIT : Z := 0x0080.
Definition INCOMPAT_FLEX_BG : Z := 0x0200.
Definition INCOMPAT_CSUM_SEED : Z := 0x2000.
Definition RO_COMPAT_METADATA_CSUM : Z := 0x0400.
Definition RO_COMPAT_REJECT : Z := 0x00001000.

Definition SB_INODES_COUNT : Z := 0x00.
Definition SB_BLOCKS_COUNT_LO : Z := 0x04.
Definition SB_FREE_BLOCKS_LO : Z := 0x0C.
Definition SB_FREE_INODES : Z := 0x10.
Definition SB_FIRST_DATA_BLOCK : Z := 0x14.
Definition SB_LOG_BLOCK_SIZE : Z := 0x18.
Definition SB_LOG_CLUSTER_SIZE : Z := 0x1C.
Definition SB_BLOCKS_PER_GROUP : Z := 0x20.
Definition SB_INODES_PER_GROUP : Z := 0x28.
Definition SB_MAGIC : Z := 0x38.
Definition SB_REV_LEVEL : Z := 0x4C.
Definition SB_INODE_SIZE : Z := 0x58.
Definition SB_FEATURE_INCOMPAT : Z := 0x60.
Definition SB_FEATURE_RO_COMPAT : Z := 0x64.
Definition SB_UUID : Z := 0x68.
Definition SB_VOLUME_NAME : Z := 0x78.
Definition SB_RESERVED_GDT_BLOCKS : Z := 0xCE.
Definition SB_BLOCKS_COUNT_HI : Z := 0x150.
Definition SB_FREE_BLOCKS_HI : Z := 0x158.
Definition SB_DESC_SIZE : Z := 0xFE.
Definition SB_CHECKSUM_SEED : Z := 0x270.
Definition SB_CHECKSUM : Z := 0x3FC.

Definition GD_BLOCK_BITMAP_LO : Z := 0x00.
Definition GD_INODE_BITMAP_LO : Z := 0x04.
Definition GD_INODE_TABLE_LO : Z := 0x08.
Definition GD_FREE_BLOCKS_LO : Z := 0x0C.
Definition GD_FREE_INODES_LO : Z := 0x0E.
Definition GD_USED_DIRS_LO : Z := 0x10.
Definition GD_BLOCK_BITMAP_CSUM_LO : Z := 0x18.
Definition GD_INODE_BITMAP_CSUM_LO : Z := 0x1A.
Definition GD_ITABLE_UNUSED_LO : Z := 0x1C.
Definition GD_CHECKSUM : Z := 0x1E.
Definition GD_BLOCK_BITMAP_HI : Z := 0x20.
Definition GD_INODE_BITMAP_HI : Z := 0x24.
Definition GD_INODE_TABLE_HI : Z := 0x28.
Definition GD_FREE_BLOCKS_HI : Z := 0x2C.
Definition GD_FREE_INODES_HI : Z := 0x2E.
Definition GD_USED_DIRS_HI : Z := 0x30.
Definition GD_ITABLE_UNUSED_HI : Z := 0x32.
Definition GD_BLOCK_BITMAP_CSUM_HI : Z := 0x38.
Definition GD_INODE_BITMAP_CSUM_HI : Z := 0x3A.

Definition INO_MODE : Z := 0x00.
Definition INO_SIZE_LO : Z := 0x04.
Definition INO_LINKS_COUNT : Z := 0x1A.
Definition INO_BLOCKS_LO : Z := 0x1C.
Definition INO_FLAGS : Z := 0x20.
Definition INO_IBLOCK : Z := 0x28.
Definition INO_GENERATION : Z := 0x64.
Definition INO_SIZE_HIGH : Z := 0x6C.
Definition INO_BLOCKS_HIGH : Z := 0x74.
Definition INO_CHECKSUM_LO : Z := 0x7C.
Definition INO_EXTRA_ISIZE : Z := 0x80.
Definition INO_CHECKSUM_HI : Z := 0x82.

Definition INO_FLAG_EXTENTS : Z := 0x00080000.
Definition INO_FLAG_INDEX : Z := 0x00001000.
Definition S_IFDIR : Z := 0x4000.
Definition S_IFREG : Z := 0x8000.
Definition S_IFMT : Z := 0xF000.
Definition FT_DIR : Z := 2.

Module FsError.
Inductive t := Io | NoSpace | NotFound | AlreadyExists | Corrupt | ReadOnly | Unsupported | Invalid.
End FsError.
Definition FsError : Type := FsError.t.

Abbreviation fs A := (result FsError A).

(** ** Little-endian fields *)
Definition le16 (b : list Z) (off : Z) : outcome Z := get_le 2 b off.
Definition le32 (b : list Z) (off : Z) : outcome Z := get_le 4 b off.
Definition put_le16 (b : list Z) (off v : Z) : outcome (list Z) := put_le 2 b off v.
Definition put_le32 (b : list Z) (off v : Z) : outcome (list Z) := put_le 4 b off v.

Definition round_dir_size (name_len : Z) : Z := 8 + Z.land (name_len + 3) (unot 64 3).

Record Inode := mkInode {
  ino : Z;
  mode : Z;
  size : Z;
  blocks : Z;
  flags : Z;
  raw : list Z;
}.

Definition with_raw (i : Inode) (r : list Z) : Inode :=
  mkInode (ino i) (mode i) (size i) (blocks i) (flags i) r.
Definition with_size (i : Inode) (sz : Z) : Inode :=
  mkInode (ino i) (mode i) sz (blocks i) (flags i) (raw i).
Definition with_blocks (i : Inode) (n : Z) : Inode :=
  mkInode (ino i) (mode i) (size i) n (flags i) (raw i).

Definition is_dir (i : Inode) : bool := Z.land (mode i) S_IFMT =? S_IFDIR.
Definition is_file (i : Inode) : bool := Z.land (mode i) S_IFMT =? S_IFREG.

Record DirEnt := mkDirEnt {
  de_ino : Z;
  de_file_type : Z;
  de_name_len : Z;
  de_name : list Z;
}.

Definition DirEnt_empty : DirEnt := mkDirEnt 0 0 0 (zeros EXT4_NAME_LEN).

Definition map_block_err (e : BlockError) : FsError :=
  match e with
  | Io => FsError.Io
  | NoSpace => FsError.NoSpace
  | NotFound => FsError.NotFound
  | Corrupt => FsError.Corrupt
  | Unsupported => FsError.Unsupported
  end.

(** ** Extent nodes *)

(** The header at [base]: (entries, max, depth). *)
Definition rd_hdr (b : list Z) (base : Z) : outcome (option (Z * Z * Z)) :=
  if blen b <? base + 12 then Ret None else
  let! magic := le16 b base in
  if negb (magic =? EXT4_EXT_MAGIC) then Ret None else
  let! entries := le16 b (base + 2) in
  let! max := le16 b (base + 4) in
  let! depth := le16 b (base + 6) in
  Ret (Some (entries, max, depth)).

Definition wr_hdr (b : list Z) (base entries max depth : Z) : outcome (list Z) :=
  let! b := put_le16 b base EXT4_EXT_MAGIC in
  let! b := put_le16 b (base + 2) entries in
  let! b := put_le16 b (base + 4) max in
  let! b := put_le16 b (base + 6) depth in
  put_le32 b (base + 8) 0.

(** Extent [i] of the node at [base]: (first logical block, length, first
    physical block). *)
Definition rd_extent (b : list Z) (base i : Z) : outcome (option (Z * Z * Z)) :=
  let o := base + 12 + 12 * i in
  if blen b <? o + 12 then Ret None else
  let! eb := le32 b o in
  let! elen := le16 b (o + 4) in
  let elen := if negb (Z.land elen 0x8000 =? 0) then 0 else elen in
  if elen =? 0 then Ret None else
  let! hi := le16 b (o + 6) in
  let! lo := le32 b (o + 8) in
  Ret (Some (eb, elen, Z.lor (Z.shiftl hi 32) lo)).

Definition wr_extent (b : list Z) (base i eb elen pblock : Z) : outcome (list Z) :=
  let o := base + 12 + 12 * i in
  let! b := put_le32 b o eb in
  let! b := put_le16 b (o + 4) elen in
  let! b := put_le16 b (o + 6) (wrap 16 (Z.shiftr pblock 32)) in
  put_le32 b (o + 8) (wrap 32 pblock).

(** Index [i] of the node at [base]: (first covered block, child). *)
Definition rd_index (b : list Z) (base i : Z) : outcome (option (Z * Z)) :=
  let o := base + 12 + 12 * i in
  if blen b <? o + 12 then Ret None else
  let! eb := le32 b o in
  let! hi := le16 b (o + 8) in
  let! lo := le32 b (o + 4) in
  Ret (Some (eb, Z.lor (Z.shiftl hi 32) lo)).

Definition wr_index (b : list Z) (base i eb child : Z) : outcome (list Z) :=
  let o := base + 12 + 12 * i in
  let! b := put_le32 b o eb in
  let! b := put_le32 b (o + 4) (wrap 32 child) in
  let! b := put_le16 b (o + 8) (wrap 16 (Z.shiftr child 32)) in
  put_le16 b (o + 10) 0.

(** A directory entry at [pos]. *)
Definition fill_entry (b : list Z) (pos rec ino ft : Z) (name : list Z) : outcome (list Z) :=
  let! b := put_le32 b pos ino in
  let! b := put_le16 b (pos + 4) rec in
  let! b := put8 b (pos + 6) (wrap 8 (blen name)) in
  let! b := put8 b (pos + 7) ft in
  splice b (pos + 8) name.

(** ** Round trips *)

(** Two adjacent writes are one. *)
Lemma splice_splice b lo x y :
  (let! b1 := splice b lo x in splice b1 (lo + blen x) y) = splice b lo (x ++ y).
Proof.
  pose proof (blen_nonneg x). pose proof (blen_nonneg y).
  destruct (splice b lo x) as [b1| |] eqn:Hx; cbn [obind].
  - pose proof (splice_blen _ _ _ _ Hx) as Hl. pose proof (splice_inv _ _ _ _ Hx) as (?&?&->).
    destruct (decide (lo + blen x + blen y <= blen b)).
    + rewrite !splice_Ret by (rewrite ?blen_app in *; lia). f_equal. unfold blen in *.
      replace (Z.to_nat (lo + Z.of_nat (length x))) with (Z.to_nat lo + length x)%nat by lia.
      rewrite (assoc_L (++) _ x), take_app_length' by (rewrite length_app, length_take; lia).
      rewrite <- !(assoc_L (++)), length_app. do 3 f_equal.
      rewrite (assoc_L (++)), drop_app_ge by (rewrite length_app, length_take; lia).
      rewrite length_app, length_take, drop_drop. f_equal. lia.
    + unfold splice. rewrite Hl, blen_app.
      replace ((0 <=? lo) && (lo + (blen x + blen y) <=? blen b)) with false by lia.
      by replace ((0 <=? lo + blen x) && (lo + blen x + blen y <=? blen b)) with false by lia.
  - unfold splice in *. rewrite blen_app. case_test_in Hx; [done|].
    apply andb_false_iff in Heqb0. case_test; [|done]. lia.
  - unfold splice in Hx. by case_test_in Hx.
Qed.

Lemma get_le_slice n b lo hi s k :
  slice b lo hi = Ret s -> 0 <= n -> 0 <= k -> k + n <= hi - lo ->
  get_le n b (lo + k) = get_le n s k.
Proof.
  intros Hs Hn Hk Hkn. pose proof (slice_len _ _ _ _ Hs) as Hl. unfold get_le.
  destruct (slice s k (k + n)) as [t| |] eqn:Ht; cycle 1.
  - rewrite slice_Ret in Ht by lia. done.
  - rewrite slice_Ret in Ht by lia. done.
  - by rewrite <-Z.add_assoc, (slice_slice _ _ _ _ _ _ _ Hs Ht).
Qed.

Lemma get_le_app_l n v y :
  0 <= v < 256 ^ Z.of_nat n -> get_le (Z.of_nat n) (to_le n v ++ y) 0 = Ret v.
Proof.
  intros Hv. unfold get_le. rewrite slice_Ret by (rewrite ?blen_app; unfold blen; rewrite ?to_le_length; lia).
  cbn [obind]. rewrite Z.add_0_l, Z.sub_0_r, Nat2Z.id. change (Z.to_nat 0) with 0%nat.
  rewrite drop_0, take_app_length' by (symmetry; apply to_le_length). by rewrite from_le_to_le, Z.mod_small.
Qed.

Lemma get_le_app_r n x y k :
  blen x <= k -> get_le n (x ++ y) k = get_le n y (k - blen x).
Proof.
  intros Hk. unfold get_le, slice. rewrite blen_app. pose proof (blen_nonneg x).
  destruct ((0 <=? k) && (k <=? k + n) && (k + n <=? blen x + blen y)) eqn:Hc.
  - replace ((0 <=? k - blen x) && (k - blen x <=? k - blen x + n) && (k - blen x + n <=? blen y))
      with true by lia.
    cbn [obind]. do 3 f_equal; [lia|]. unfold blen in *. rewrite drop_app_ge by lia. f_equal. lia.
  - by replace ((0 <=? k - blen x) && (k - blen x <=? k - blen x + n) && (k - blen x + n <=? blen y))
      with false by lia.
Qed.

(** Fields of a buffer outside a written range. *)
Lemma get_le_splice_other n b lo x b' k :
  splice b lo x = Ret b' -> k + n <= lo \/ lo + blen x <= k -> get_le n b' k = get_le n b k.
Proof. intros Hs Hd. unfold get_le. by erewrite slice_splice_disjoint. Qed.

Lemma get8_splice_other b lo x b' k :
  splice b lo x = Ret b' -> k < lo \/ lo + blen x <= k -> get8 b' k = get8 b k.
Proof.
  intros Hs Hd. unfold get8. case_test; [done|]. pose proof (splice_inv _ _ _ _ Hs) as (?&?&_).
  by erewrite splice_lookup_out by first [done | unfold blen in *; lia].
Qed.

(** The bytes the writers produce. *)
Definition hdr_bytes (entries max depth : Z) : list Z :=
  to_le 2 EXT4_EXT_MAGIC ++ to_le 2 entries ++ to_le 2 max ++ to_le 2 depth ++ to_le 4 0.
Definition extent_bytes (eb elen pb : Z) : list Z :=
  to_le 4 eb ++ to_le 2 elen ++ to_le 2 (wrap 16 (Z.shiftr pb 32)) ++ to_le 4 (wrap 32 pb).
Definition index_bytes (eb child : Z) : list Z :=
  to_le 4 eb ++ to_le 4 (wrap 32 child) ++ to_le 2 (wrap 16 (Z.shiftr child 32)) ++ to_le 2 0.
Definition entry_bytes (rec ino ft : Z) (name : list Z) : list Z :=
  to_le 4 ino ++ to_le 2 rec ++ [wrap 8 (blen name)] ++ [ft] ++ name.

Lemma splice_chain b lo x y k :
  (forall b1, k b1 = splice b1 (lo + blen x) y) -> obind (splice b lo x) k = splice b lo (x ++ y).
Proof.
  intros Hk. rewrite <-splice_splice. destruct (splice b lo x); [apply Hk|done|done].
Qed.

(** Offsets between fields of known length. *)
Ltac blen_lia := unfold blen; rewrite ?to_le_length; cbn [length]; lia.

(** A run of adjacent writes is one write. *)
Ltac chain :=
  repeat (apply splice_chain; intros ?b; cbv beta;
          match goal with
          | |- _ = splice _ (?o + blen _) _ =>
              match goal with
              | |- obind (splice _ ?p _) _ = splice _ ?q _ => replace q with p by blen_lia
              | |- splice _ ?p _ = splice _ ?q _ => replace q with p by blen_lia; reflexivity
              end
          end).

Lemma wr_hdr_eq b base entries max depth :
  wr_hdr b base entries max depth = splice b base (hdr_bytes entries max depth).
Proof. unfold wr_hdr, hdr_bytes, put_le16, put_le32, put_le. chain. Qed.

Lemma wr_extent_eq b base i eb elen pb :
  wr_extent b base i eb elen pb = splice b (base + 12 + 12 * i) (extent_bytes eb elen pb).
Proof. unfold wr_extent, extent_bytes, put_le16, put_le32, put_le. chain. Qed.

Lemma wr_index_eq b base i eb child :
  wr_index b base i eb child = splice b (base + 12 + 12 * i) (index_bytes eb child).
Proof. unfold wr_index, index_bytes, put_le16, put_le32, put_le. chain. Qed.

Lemma fill_entry_eq b pos rec ino ft name :
  fill_entry b pos rec ino ft name = splice b pos (entry_bytes rec ino ft name).
Proof. unfold fill_entry, entry_bytes, put_le16, put_le32, put_le, put8. chain. Qed.

Lemma split48 pb : 0 <= pb < 2 ^ 48 ->
  Z.lor (Z.shiftl (wrap 16 (Z.shiftr pb 32)) 32) (wrap 32 pb) = pb.
Proof.
  intros Hpb. unfold wrap. rewrite (Z.mod_small (Z.shiftr pb 32)).
  2: { rewrite Z.shiftr_div_pow2 by lia. lia. }
  rewrite <-Z.land_ones by lia. zbits i. destruct (Z.ltb_spec i 32).
  - rewrite (Z.testbit_neg_r _ (i - 32)) by lia. by rewrite andb_true_r.
  - rewrite Z.shiftr_spec by lia. replace (i - 32 + 32) with i by lia. by rewrite andb_false_r, orb_false_r.
Qed.

Lemma hdr_bytes_len e m d : blen (hdr_bytes e m d) = 12.
Proof. done. Qed.
Lemma extent_bytes_len eb el pb : blen (extent_bytes eb el pb) = 12.
Proof. done. Qed.
Lemma index_bytes_len eb c : blen (index_bytes eb c) = 12.
Proof. done. Qed.
Lemma entry_bytes_len rec i ft name : blen (entry_bytes rec i ft name) = 8 + blen name.
Proof. unfold entry_bytes. rewrite !blen_app. change (blen (to_le 4 i)) with 4.
  change (blen (to_le 2 rec)) with 2. change (blen [ft]) with 1.
  change (blen [wrap 8 (blen name)]) with 1. lia.
Qed.

Lemma get_le_head w n v y :
  w = Z.of_nat n -> 0 <= v < 256 ^ w -> get_le w (to_le n v ++ y) 0 = Ret v.
Proof. intros ->. apply get_le_app_l. Qed.

Lemma get_le_last w n v : w = Z.of_nat n -> 0 <= v < 256 ^ w -> get_le w (to_le n v) 0 = Ret v.
Proof. intros. rewrite <-(app_nil_r (to_le n v)). by apply get_le_head. Qed.

Ltac field_range := first [reflexivity | assumption | lia | apply wrap_range; lia].

(** Read a field of a known sequence of bytes. *)
Ltac rd_field :=
  match goal with
  | |- context [get_le ?w (to_le ?m ?v ++ ?y) 0] => rewrite (get_le_head w m v y) by field_range
  | |- context [get_le ?w (to_le ?m ?v) 0] => rewrite (get_le_last w m v) by field_range
  | |- context [get_le ?n (to_le ?m ?v ++ ?y) ?k] =>
      rewrite (get_le_app_r n (to_le m v) y k) by blen_lia;
      let r := eval cbv in (k - Z.of_nat m) in
      replace (k - blen (to_le m v)) with r by blen_lia
  end; cbn [obind].

Lemma rd_hdr_wr b base entries max depth b' :
  wr_hdr b base entries max depth = Ret b' ->
  0 <= entries < 2 ^ 16 -> 0 <= max < 2 ^ 16 -> 0 <= depth < 2 ^ 16 ->
  rd_hdr b' base = Ret (Some (entries, max, depth)).
Proof.
  rewrite wr_hdr_eq. intros Hw He Hm Hd.
  pose proof (splice_blen _ _ _ _ Hw) as Hl. pose proof (splice_inv _ _ _ _ Hw) as (?&?&_).
  rewrite hdr_bytes_len in *. pose proof (slice_splice_same _ _ _ _ Hw) as Hs. rewrite hdr_bytes_len in Hs.
  unfold rd_hdr. case_test; [lia|]. unfold le16.
  rewrite <-(Z.add_0_r base) at 1.
  rewrite !(get_le_slice _ _ _ _ _ _ Hs) by lia. unfold hdr_bytes.
  unfold EXT4_EXT_MAGIC. rd_field. simpl negb. cbv iota. by repeat rd_field.
Qed.

Lemma rd_extent_wr b base i eb elen pb b' :
  wr_extent b base i eb elen pb = Ret b' ->
  0 <= eb < 2 ^ 32 -> 1 <= elen < 2 ^ 15 -> 0 <= pb < 2 ^ 48 ->
  rd_extent b' base i = Ret (Some (eb, elen, pb)).
Proof.
  rewrite wr_extent_eq. intros Hw He Hm Hd.
  pose proof (splice_blen _ _ _ _ Hw) as Hl. pose proof (splice_inv _ _ _ _ Hw) as (?&?&_).
  rewrite extent_bytes_len in *. pose proof (slice_splice_same _ _ _ _ Hw) as Hs. rewrite extent_bytes_len in Hs.
  unfold rd_extent. cbv zeta. case_test; [lia|]. unfold le16, le32.
  rewrite <-(Z.add_0_r (base + 12 + 12 * i)) at 1.
  rewrite !(get_le_slice _ _ _ _ _ _ Hs) by lia. unfold extent_bytes. repeat rd_field.
  change 0x8000 with (Z.shiftl 1 15). rewrite land_bit_zero, (testbit_above 15) by lia.
  cbn [negb]. cbv iota. case_test; [lia|]. repeat rd_field. by rewrite split48.
Qed.

Lemma rd_index_wr b base i eb child b' :
  wr_index b base i eb child = Ret b' -> 0 <= eb < 2 ^ 32 -> 0 <= child < 2 ^ 48 ->
  rd_index b' base i = Ret (Some (eb, child)).
Proof.
  rewrite wr_index_eq. intros Hw He Hd.
  pose proof (splice_blen _ _ _ _ Hw) as Hl. pose proof (splice_inv _ _ _ _ Hw) as (?&?&_).
  rewrite index_bytes_len in *. pose proof (slice_splice_same _ _ _ _ Hw) as Hs. rewrite index_bytes_len in Hs.
  unfold rd_index. cbv zeta. case_test; [lia|]. unfold le16, le32.
  rewrite <-(Z.add_0_r (base + 12 + 12 * i)) at 1.
  rewrite !(get_le_slice _ _ _ _ _ _ Hs) by lia. unfold index_bytes. repeat rd_field. by rewrite split48.
Qed.

(** A node entry or header the write does not touch reads as before. *)
Lemma rd_extent_other b lo x b' base i :
  splice b lo x = Ret b' -> base + 24 + 12 * i <= lo \/ lo + blen x <= base + 12 + 12 * i ->
  rd_extent b' base i = rd_extent b base i.
Proof.
  intros Hs Hd. unfold rd_extent, le16, le32. rewrite (splice_blen _ _ _ _ Hs).
  case_test; [done|]. by rewrite !(get_le_splice_other _ _ _ _ _ _ Hs) by lia.
Qed.

Lemma rd_hdr_other b lo x b' base :
  splice b lo x = Ret b' -> base + 12 <= lo \/ lo + blen x <= base ->
  rd_hdr b' base = rd_hdr b base.
Proof.
  intros Hs Hd. unfold rd_hdr, le16. rewrite (splice_blen _ _ _ _ Hs).
  case_test; [done|]. by rewrite !(get_le_splice_other _ _ _ _ _ _ Hs) by lia.
Qed.

Lemma lor_48 hi lo :
  0 <= hi < 2 ^ 16 -> 0 <= lo < 2 ^ 32 -> 0 <= Z.lor (Z.shiftl hi 32) lo < 2 ^ 48.
Proof.
  intros. apply lor_range; [lia| |lia]. rewrite Z.shiftl_mul_pow2 by lia. lia.
Qed.

Lemma clear_top w x : 0 < w -> 0 <= x < 2 ^ w -> Z.testbit x (w - 1) = false -> x < 2 ^ (w - 1).
Proof.
  intros Hw Hx Hb. apply bits_bound; [lia..|]. intros i Hi.
  destruct (decide (i = w - 1)) as [->|]; [done|]. apply (testbit_above w); lia.
Qed.

(** The readers never panic. *)
Lemma rd_hdr_total b base : 0 <= base -> exists r, rd_hdr b base = Ret r /\
  match r with Some (e, m, d) => bytes_ok b -> 0 <= e < 2 ^ 16 /\ 0 <= m < 2 ^ 16 /\ 0 <= d < 2 ^ 16 | None => True end.
Proof.
  intros Hb. unfold rd_hdr, le16. case_test; [by exists None|].
  destruct (get_le_Ret 2 b base) as (v & -> & _); [lia..|]. cbn [obind].
  case_test; [by exists None|].
  destruct (get_le_Ret 2 b (base + 2)) as (v2 & -> & ?); [lia..|].
  destruct (get_le_Ret 2 b (base + 4)) as (v4 & -> & ?); [lia..|].
  destruct (get_le_Ret 2 b (base + 6)) as (v6 & -> & ?); [lia..|].
  eexists. split; [done|]. intros Hok.
  repeat match goal with H : bytes_ok b -> _ |- _ => specialize (H Hok) end. lia.
Qed.

Lemma rd_extent_total b base i : 0 <= base -> 0 <= i -> exists r, rd_extent b base i = Ret r /\
  match r with
  | Some (eb, el, pb) => bytes_ok b -> 0 <= eb < 2 ^ 32 /\ 1 <= el < 2 ^ 15 /\ 0 <= pb < 2 ^ 48
  | None => True
  end.
Proof.
  intros Hb Hi. unfold rd_extent, le16, le32. cbv zeta. case_test; [by exists None|].
  destruct (get_le_Ret 4 b (base + 12 + 12 * i)) as (v & -> & Hv); [lia..|]. cbn [obind].
  destruct (get_le_Ret 2 b (base + 12 + 12 * i + 4)) as (v4 & -> & H4); [lia..|]. cbn [obind].
  change 0x8000 with (Z.shiftl 1 15). rewrite land_bit_zero by lia.
  destruct (Z.testbit v4 15) eqn:Hbit; cbn [negb]; [by exists None|].
  case_test; [by exists None|].
  destruct (get_le_Ret 2 b (base + 12 + 12 * i + 6)) as (v6 & -> & H6); [lia..|].
  destruct (get_le_Ret 4 b (base + 12 + 12 * i + 8)) as (v8 & -> & H8); [lia..|].
  eexists. split; [done|]. intros Hok. specialize (Hv Hok). specialize (H4 Hok).
  specialize (H6 Hok). specialize (H8 Hok). split; [lia|]. split.
  - split; [lia|]. apply (clear_top 16) in Hbit; lia.
  - apply (lor_48 v6 v8); lia.
Qed.

(** A field can be written anywhere inside the buffer. *)
Lemma put_le_Ret n b off v :
  0 <= off -> off + Z.of_nat n <= blen b ->
  exists b', put_le n b off v = Ret b' /\ blen b' = blen b /\ (bytes_ok b -> bytes_ok b').
Proof.
  intros Ho Hl. unfold put_le.
  destruct (splice b off (to_le n v)) as [b'| |] eqn:E;
    [|rewrite splice_Ret in E by (unfold blen in *; rewrite ?to_le_length; lia); done..].
  exists b'. split; [done|]. split; [by eapply splice_blen|].
  intros. eapply splice_bytes; [done|done|apply to_le_bytes].
Qed.

Lemma put_le_len n b off v b' : put_le n b off v = Ret b' -> blen b' = blen b.
Proof. apply splice_blen. Qed.

Lemma slice_put_other n b off v b' lo hi :
  put_le n b off v = Ret b' -> hi <= off \/ off + Z.of_nat n <= lo -> slice b' lo hi = slice b lo hi.
Proof.
  intros Hp Hd. eapply slice_splice_disjoint; [exact Hp|]. unfold blen. by rewrite to_le_length.
Qed.
