(* ===== verification/Ext4.v ===== *)
(** * The ext4 driver: mounting, blocks, group descriptors
    ([src/src/ext4.rs], lines 264-558)

    [Ext4] is the mounted volume over any [BlockDevice]. The other files of the
    driver build on this one: [Ext4Inode] (inodes), [Ext4Alloc] (bitmaps),
    [Ext4Extent] (extent trees), [Ext4Dir] (directories) and [Ext4File] (files
    and creation). *)

From S2P Require Import Prelude Block Crc.
From stdpp Require Import list.
From S2P Require Import Ext4Layout.
#[local] Open Scope Z_scope.

(** The [?] operator inside a loop body: an error leaves the loop and the
    function. *)
Definition fbind {S E A B R : Type} (m : M S (result E A))
    (k : A -> M S (flow B (result E R))) : M S (flow B (result E R)) :=
  r <- m ;;
  match r with
  | Ok a => k a
  | Err e => sret (Exit (Err e))
  end.
Notation "x <-& m ;; k" := (fbind m (fun x => k))
  (at level 20, m at level 99, k at level 200, only parsing) : kernel_scope.
Notation "' p <-& m ;; k" := (fbind m (fun p => k))
  (at level 20, p pattern, m at level 99, k at level 200, only parsing) : kernel_scope.

Section Driver.
Context {D : Type} `{BD : BlockDevice D}.

Record Ext4 := mkExt4 {
  dev : D;
  bs : Z;
  bpg : Z;
  ipg : Z;
  inode_size : Z;
  desc_size : Z;
  num_groups : Z;
  first_data_block : Z;
  gdt_fsb : Z;
  reserved_gdt_blocks : Z;
  uuid : list Z;
  volume_name : list Z;
  csum_seed : Z;
  meta_csum : bool;
  has_64bit : bool;
  blocks_total : Z;
  inodes_total : Z;
  free_blocks : Z;
  free_inodes : Z;
}.

(** Only the device and the two free counters change after the mount. *)
Definition set_dev (s : Ext4) (d : D) : Ext4 :=
  mkExt4 d (bs s) (bpg s) (ipg s) (inode_size s) (desc_size s) (num_groups s) (first_data_block s)
    (gdt_fsb s) (reserved_gdt_blocks s) (uuid s) (volume_name s) (csum_seed s) (meta_csum s)
    (has_64bit s) (blocks_total s) (inodes_total s) (free_blocks s) (free_inodes s).
Definition set_free (s : Ext4) (fb fi : Z) : Ext4 :=
  mkExt4 (dev s) (bs s) (bpg s) (ipg s) (inode_size s) (desc_size s) (num_groups s) (first_data_block s)
    (gdt_fsb s) (reserved_gdt_blocks s) (uuid s) (volume_name s) (csum_seed s) (meta_csum s)
    (has_64bit s) (blocks_total s) (inodes_total s) fb fi.

(** A device operation with its error mapped ([map_err(map_block_err)]). *)
Definition dev_op {A} (m : M D (res A)) : M D (fs A) :=
  r <- m ;;
  match r with
  | Ok a => sret (Ok a)
  | Err e => sret (Err (map_block_err e))
  end.

Definition on_dev {A} (m : M D A) : M Ext4 A := fun s =>
  match m (dev s) with
  | Ret (a, d) => Ret (a, set_dev s d)
  | Panic => Panic
  | OutOfFuel => OutOfFuel
  end.

(** ** Mounting *)

(** The fields of the superblock [buf], from the inode count on. *)
Definition mount_fields (bs : Z) (buf : list Z) (d : D) : outcome (fs Ext4) :=
  let! inodes_total := le32 buf SB_INODES_COUNT in
  let! bpg := le32 buf SB_BLOCKS_PER_GROUP in
  let! ipg := le32 buf SB_INODES_PER_GROUP in
  if (inodes_total =? 0) || (bpg =? 0) || (ipg =? 0) then Ret (Err FsError.Corrupt) else
  let! rev := le32 buf SB_REV_LEVEL in
  if negb (rev =? 1) then Ret (Err FsError.Unsupported) else
  let! inode_size := le16 buf SB_INODE_SIZE in
  let inode_size := if inode_size <? GOOD_OLD_INODE_SIZE then GOOD_OLD_INODE_SIZE else inode_size in
  if MAX_INODE_SIZE <? inode_size then Ret (Err FsError.Unsupported) else
  let! incompat := le32 buf SB_FEATURE_INCOMPAT in
  let! ro_compat := le32 buf SB_FEATURE_RO_COMPAT in
  let known := Z.lor (Z.lor (Z.lor (Z.lor INCOMPAT_FILETYPE INCOMPAT_EXTENTS) INCOMPAT_64BIT)
                        INCOMPAT_FLEX_BG) INCOMPAT_CSUM_SEED in
  if negb (Z.land incompat (unot 32 known) =? 0) then Ret (Err FsError.Unsupported) else
  if (Z.land incompat INCOMPAT_EXTENTS =? 0) || (Z.land incompat INCOMPAT_FILETYPE =? 0)
  then Ret (Err FsError.Unsupported) else
  if negb (Z.land ro_compat RO_COMPAT_REJECT =? 0) then Ret (Err FsError.Unsupported) else
  let has_64bit := negb (Z.land incompat INCOMPAT_64BIT =? 0) in
  let meta_csum := negb (Z.land ro_compat RO_COMPAT_METADATA_CSUM =? 0) &&
                   negb (Z.land incompat INCOMPAT_CSUM_SEED =? 0) in
  let! desc_size := le16 buf SB_DESC_SIZE in
  let desc_size := if desc_size =? 0 then 32 else desc_size in
  if (desc_size <? 32) || (has_64bit && (desc_size <? 64)) then Ret (Err FsError.Corrupt) else
  let! blocks_lo := le32 buf SB_BLOCKS_COUNT_LO in
  let! free_lo := le32 buf SB_FREE_BLOCKS_LO in
  let! blocks_hi := le32 buf SB_BLOCKS_COUNT_HI in
  let! free_hi := le32 buf SB_FREE_BLOCKS_HI in
  let blocks_total := if has_64bit then Z.lor blocks_lo (Z.shiftl blocks_hi 32) else blocks_lo in
  let free_blocks := if has_64bit then Z.lor free_lo (Z.shiftl free_hi 32) else free_lo in
  let! free_inodes := le32 buf SB_FREE_INODES in
  let! rounded := chk 64 (blocks_total + bpg) in
  let num_groups := wrap 32 ((rounded - 1) / bpg) in
  let! first_data_block := le32 buf SB_FIRST_DATA_BLOCK in
  let! reserved_gdt_blocks := le16 buf SB_RESERVED_GDT_BLOCKS in
  let! uuid := slice buf SB_UUID (SB_UUID + 16) in
  let! volume_name := slice buf SB_VOLUME_NAME (SB_VOLUME_NAME + 16) in
  let! seed := le32 buf SB_CHECKSUM_SEED in
  let csum_seed := if negb (Z.land incompat INCOMPAT_CSUM_SEED =? 0) then seed
                   else crc32c 0xFFFFFFFF uuid in
  let! checksum := le32 buf SB_CHECKSUM in
  let! body := slice buf 0 0x3FC in
  if meta_csum && negb (checksum =? crc32c 0xFFFFFFFF body) then Ret (Err FsError.Corrupt) else
  Ret (Ok (mkExt4 d bs bpg ipg inode_size desc_size num_groups first_data_block
             (first_data_block + 1) reserved_gdt_blocks uuid volume_name csum_seed meta_csum
             has_64bit blocks_total inodes_total free_blocks free_inodes)).

Definition mount : M D (fs Ext4) :=
  d <- sget ;;
  if negb (block_size d =? 512) then sret (Err FsError.Unsupported) else
  bytes <-? dev_op (read_blocks (1024 / 512) 1024) ;;
  buf <-! splice (zeros MAX_BLOCK_SIZE) 0 bytes ;;
  magic <-! le16 buf SB_MAGIC ;;
  if negb (magic =? EXT4_MAGIC) then sret (Err FsError.Corrupt) else
  log_block_size <-! le32 buf SB_LOG_BLOCK_SIZE ;;
  if 2 <? log_block_size then sret (Err FsError.Unsupported) else
  let bs := Z.shiftl 1024 log_block_size in
  log_cluster_size <-! le32 buf SB_LOG_CLUSTER_SIZE ;;
  if negb (log_cluster_size =? log_block_size) then sret (Err FsError.Unsupported) else
  let sb_fsb := if bs =? 1024 then 1 else 0 in
  buf <-? (if negb (sb_fsb =? 1) then
             bytes <-? dev_op (read_blocks (sb_fsb * bs / 512) bs) ;;
             buf <-! splice buf 0 bytes ;;
             magic <-! le16 buf SB_MAGIC ;;
             if negb (magic =? EXT4_MAGIC) then sret (Err FsError.Corrupt) else sret (Ok buf)
           else sret (Ok buf)) ;;
  d <- sget ;;
  slift (mount_fields bs buf d).

Definition sync : M Ext4 (fs unit) := on_dev (dev_op flush).

(** ** Blocks *)

Definition fsb_lba (s : Ext4) (fsb : Z) : outcome Z :=
  let! b := chk 64 (fsb * bs s) in Ret (b / 512).

Definition sblock_fsb (s : Ext4) : Z := if bs s =? 1024 then 1 else 0.

(** [read_fsb] fills the front of [buf]; the result is the buffer after it. *)
Definition read_fsb (fsb : Z) (buf : list Z) : M Ext4 (fs (list Z)) :=
  s <- sget ;;
  lba <-! fsb_lba s fsb ;;
  _ <-! slice buf 0 (bs s) ;;
  bytes <-? on_dev (dev_op (read_blocks lba (bs s))) ;;
  buf' <-! splice buf 0 bytes ;;
  sret (Ok buf').

Definition write_fsb (fsb : Z) (buf : list Z) : M Ext4 (fs unit) :=
  s <- sget ;;
  lba <-! fsb_lba s fsb ;;
  bytes <-! slice buf 0 (bs s) ;;
  on_dev (dev_op (write_blocks lba bytes)).

Definition read_sblock (buf : list Z) : M Ext4 (fs (list Z)) :=
  s <- sget ;; read_fsb (sblock_fsb s) buf.

Definition write_sblock (buf : list Z) : M Ext4 (fs unit) :=
  s <- sget ;; write_fsb (sblock_fsb s) buf.

(** ** Group descriptors *)

(** Where the descriptor of a group lies: its block and the offset in it. *)
Definition group_place (s : Ext4) (group : Z) : outcome (Z * Z) :=
  let! byte := chk 64 (gdt_fsb s * bs s + group * desc_size s) in
  Ret (byte / bs s, byte mod bs s).

(** The block of the descriptor and its offset in it. *)
Definition group_descriptor (group : Z) (buf : list Z) : M Ext4 (fs (Z * list Z)) :=
  s <- sget ;;
  if num_groups s <=? group then sret (Err FsError.Corrupt) else
  ' (block, off) <-! group_place s group ;;
  buf <-? read_fsb block buf ;;
  sret (Ok (off, buf)).

Definition push_group (group : Z) (gd : list Z) : M Ext4 (fs unit) :=
  s <- sget ;;
  ' (block, off) <-! group_place s group ;;
  buf <-? read_fsb block (zeros MAX_BLOCK_SIZE) ;;
  buf <-! splice buf off gd ;;
  write_fsb block buf.

(** The checksum of a descriptor, with its own field taken as zero. *)
Definition group_csum (s : Ext4) (group : Z) (d : list Z) : outcome Z :=
  let crc := crc32c (csum_seed s) (to_le 4 group) in
  let! front := slice d 0 0x1E in
  let crc := crc32c (crc32c crc front) [0; 0] in
  if 0x20 <? desc_size s then
    let! rest := slice d 0x20 (desc_size s) in Ret (crc32c crc rest)
  else Ret crc.

Definition with_group (group : Z) (f : list Z -> outcome (list Z)) : M Ext4 (fs unit) :=
  s <- sget ;;
  ' (off, read) <-? group_descriptor group (zeros MAX_BLOCK_SIZE) ;;
  local <-! slice read off (off + desc_size s) ;;
  local <-! f local ;;
  local <-! (if meta_csum s then
               let! crc := group_csum s group local in put_le16 local GD_CHECKSUM (wrap 16 crc)
             else Ret local) ;;
  push_group group local.

Definition gd_u32 (s : Ext4) (gd : list Z) (lo hi : Z) : outcome Z :=
  let! v := le32 gd lo in
  if has_64bit s && (hi <? desc_size s) then
    let! h := le32 gd hi in Ret (Z.lor v (Z.shiftl h 32))
  else Ret v.

Definition gd_u16 (s : Ext4) (gd : list Z) (lo hi : Z) : outcome Z :=
  let! v := le16 gd lo in
  if has_64bit s && (hi <? desc_size s) then
    let! h := le16 gd hi in Ret (Z.lor v (Z.shiftl h 16))
  else Ret v.

(** [(x as i64 + d).max(0) as u64] *)
Definition add_count (x d : Z) : outcome Z :=
  let! y := chk_i64 (as_i64 x + d) in Ret (Z.max y 0).

Definition persist_super_counts (dblk dino : Z) : M Ext4 (fs unit) :=
  s <- sget ;;
  fb <-! add_count (free_blocks s) dblk ;;
  fi <-! add_count (free_inodes s) dino ;;
  _ <- sput (set_free s fb fi) ;;
  sb <-? read_sblock (zeros MAX_BLOCK_SIZE) ;;
  sb <-! put_le32 sb SB_FREE_BLOCKS_LO (wrap 32 fb) ;;
  sb <-! put_le32 sb SB_FREE_INODES (wrap 32 fi) ;;
  sb <-! (if has_64bit s then put_le32 sb SB_FREE_BLOCKS_HI (wrap 32 (Z.shiftr fb 32)) else Ret sb) ;;
  sb <-! (if meta_csum s then
            let! body := slice sb 0 0x3FC in put_le32 sb SB_CHECKSUM (crc32c 0xFFFFFFFF body)
          else Ret sb) ;;
  write_sblock sb.
End Driver.

Arguments Ext4 D : clear implicits.

(** Read the next field of a buffer that is long enough. *)
Ltac read_field_as b v Hv Hr :=
  match goal with
  | |- context [obind (?f b ?o) _] =>
      let n := lazymatch f with le32 => constr:(4) | le16 => constr:(2) end in
      destruct (get_le_Ret n b o) as (v & Hv & Hr);
      [lia|unfold o; lia|unfold o; lia|];
      change (f b o = Ret v) in Hv; rewrite Hv; cbn [obind]
  end.

(** ** The volume as an array of blocks *)

Section Laws.
Context {D : Type} `{BL : BlockLaws D}.
Abbreviation Ext4 := (Ext4 D).

(** What the mount establishes, and every operation keeps. *)
Record ext4_ok (s : Ext4) : Prop := {
  ok_dev : bd_ok (dev s);
  ok_bs : bs s = 1024 \/ bs s = 2048 \/ bs s = 4096;
  ok_bpg : 0 < bpg s < 2 ^ 32;
  ok_ipg : 0 < ipg s < 2 ^ 32;
  ok_inode_size : 128 <= inode_size s <= 256;
  ok_desc_size : 32 <= desc_size s < 2 ^ 16;
  ok_desc64 : has_64bit s = true -> 64 <= desc_size s;
  ok_groups : 0 <= num_groups s < 2 ^ 32;
  ok_first : 0 <= first_data_block s < 2 ^ 32;
  ok_gdt : gdt_fsb s = first_data_block s + 1;
  ok_reserved : 0 <= reserved_gdt_blocks s < 2 ^ 16;
  ok_seed : 0 <= csum_seed s < 2 ^ 32;
  ok_blocks : 0 <= blocks_total s < 2 ^ 64;
  ok_inodes : 0 < inodes_total s < 2 ^ 32;
  ok_free_blocks : 0 <= free_blocks s < 2 ^ 64;
  ok_free_inodes : 0 <= free_inodes s < 2 ^ 64;
}.

Definition image (s : Ext4) : list Z := bd_image (dev s).

(** The bytes of block [fsb]. *)
Definition block_at (s : Ext4) (fsb : Z) : outcome (list Z) :=
  slice (image s) (fsb * bs s) (fsb * bs s + bs s).

(** [s'] is [s] after device accesses: only the device differs. *)
Definition same_volume (s s' : Ext4) : Prop := s' = set_dev s (dev s') /\ bd_ok (dev s').

Definition unchanged (s s' : Ext4) : Prop := same_volume s s' /\ image s' = image s.

Lemma same_volume_refl s : bd_ok (dev s) -> same_volume s s.
Proof. intros. split; [by destruct s|done]. Qed.

Lemma same_volume_trans s1 s2 s3 : same_volume s1 s2 -> same_volume s2 s3 -> same_volume s1 s3.
Proof. intros [H12 _] [H23 ?]. split; [|done]. rewrite H23, H12. done. Qed.

Lemma unchanged_refl s : bd_ok (dev s) -> unchanged s s.
Proof. split; [by apply same_volume_refl|done]. Qed.

Lemma unchanged_trans s1 s2 s3 : unchanged s1 s2 -> unchanged s2 s3 -> unchanged s1 s3.
Proof. intros [? H12] [? H23]. split; [by eapply same_volume_trans|by rewrite H23]. Qed.

Lemma same_volume_ok s s' : same_volume s s' -> ext4_ok s -> ext4_ok s'.
Proof. intros [-> Hd] [ ]. split; try done. Qed.

Lemma unchanged_ok s s' : unchanged s s' -> ext4_ok s -> ext4_ok s'.
Proof. intros [? _]. by apply same_volume_ok. Qed.

Lemma unchanged_block s s' fsb : unchanged s s' -> block_at s' fsb = block_at s fsb.
Proof. intros [[Hs _] Hi]. unfold block_at. rewrite Hi. by rewrite Hs. Qed.

Lemma fsb_lba_Ret s fsb :
  ext4_ok s -> 0 <= fsb -> fsb * bs s < 2 ^ 64 -> fsb_lba s fsb = Ret (fsb * bs s / 512).
Proof.
  intros Hs Hf Hov. unfold fsb_lba. pose proof (ok_bs s Hs). rewrite chk_Ret by nia. done.
Qed.

Lemma lba_bytes s fsb : ext4_ok s -> 512 * (fsb * bs s / 512) = fsb * bs s.
Proof.
  intros Hs. destruct (ok_bs s Hs) as [->|[->| ->]]; lia.
Qed.

Lemma dev_op_Ret {A} (m : M D (res A)) d r d' :
  m d = Ret (r, d') ->
  dev_op m d = Ret (match r with Ok a => Ok a | Err e => Err (map_block_err e) end, d').
Proof. intros Hm. unfold dev_op. rewrite (sbind_Ret _ _ _ _ _ Hm). by destruct r. Qed.

(** [read_fsb] returns the block in front of the buffer, or an error; the
    volume is unchanged. *)
Lemma read_fsb_spec s fsb buf :
  ext4_ok s -> 0 <= fsb -> fsb * bs s < 2 ^ 64 -> bs s <= blen buf ->
  exists r s', read_fsb fsb buf s = Ret (r, s') /\ unchanged s s' /\
    match r with
    | Ok b => exists bytes, block_at s fsb = Ret bytes /\ splice buf 0 bytes = Ret b
    | Err _ => True
    end.
Proof.
  intros Hs Hf Hov Hlen. pose proof (ok_bs s Hs) as Hbs.
  unfold read_fsb. rewrite (sbind_Ret _ _ s s s) by done.
  unfold sbind at 1, slift. rewrite fsb_lba_Ret by done.
  unfold sbind at 1. rewrite slice_Ret by lia.
  destruct (bd_read (dev s) (fsb * bs s / 512) (bs s)) as (r & d' & Hrun & Hd' & Himg & Hr);
    [by apply ok_dev|lia..|].
  apply dev_op_Ret in Hrun. unfold qbind, sbind at 1, on_dev. rewrite Hrun.
  assert (unchanged s (set_dev s d')) as Hun by (by split; [split|]).
  rewrite lba_bytes in Hr by done. destruct r as [b|e].
  - pose proof (slice_len _ _ _ _ Hr) as Hl. cbn. unfold sbind.
    rewrite splice_Ret by lia. eexists _, _. split; [done|]. split; [done|].
    exists b. split; [done|]. by rewrite splice_Ret by lia.
  - by eexists _, _.
Qed.

(** [write_fsb] replaces the block; when the device reports an error, nothing
    outside the block has changed. *)
Lemma write_fsb_spec s fsb buf :
  ext4_ok s -> 0 <= fsb -> fsb * bs s < 2 ^ 64 -> bs s <= blen buf -> bytes_ok buf ->
  exists r s' bytes, write_fsb fsb buf s = Ret (r, s') /\ same_volume s s' /\
    slice buf 0 (bs s) = Ret bytes /\
    match r with
    | Ok _ => splice (image s) (fsb * bs s) bytes = Ret (image s')
    | Err _ => same_outside (image s) (image s') (fsb * bs s) (fsb * bs s + bs s)
    end.
Proof.
  intros Hs Hf Hov Hlen Hok. pose proof (ok_bs s Hs) as Hbs.
  unfold write_fsb. rewrite (sbind_Ret _ _ s s s) by done.
  unfold sbind at 1, slift. rewrite fsb_lba_Ret by done.
  unfold sbind at 1. destruct (slice buf 0 (bs s)) as [bytes| |] eqn:Hsl;
    [|rewrite slice_Ret in Hsl by lia; done..].
  pose proof (slice_len _ _ _ _ Hsl) as Hl. rewrite Z.sub_0_r in Hl.
  destruct (bd_write (dev s) (fsb * bs s / 512) bytes) as (r & d' & Hrun & Hd' & Hr);
    [by apply ok_dev|lia|lia|rewrite Hl; lia|by eapply slice_bytes|].
  apply dev_op_Ret in Hrun. unfold on_dev. rewrite Hrun. rewrite lba_bytes, ?Hl in Hr by done.
  eexists _, _, bytes. split; [done|]. split; [by split|]. split; [done|]. by destruct r.
Qed.

(** ** Mounting *)

Lemma sbind_get {S B} (k : S -> M S B) s : sbind sget k s = k s s.
Proof. done. Qed.

Lemma sbind_lift {S A B} (m : outcome A) (k : A -> M S B) s a :
  m = Ret a -> sbind (slift m) k s = k a s.
Proof. by intros ->. Qed.

(** The feature words the driver accepts. *)
Definition KNOWN_INCOMPAT : Z :=
  Z.lor (Z.lor (Z.lor (Z.lor INCOMPAT_FILETYPE INCOMPAT_EXTENTS) INCOMPAT_64BIT) INCOMPAT_FLEX_BG)
    INCOMPAT_CSUM_SEED.

Definition features_ok (incompat ro_compat : Z) : Prop :=
  Z.land incompat (unot 32 KNOWN_INCOMPAT) = 0 /\
  Z.land incompat INCOMPAT_EXTENTS <> 0 /\ Z.land incompat INCOMPAT_FILETYPE <> 0 /\
  Z.land ro_compat RO_COMPAT_REJECT = 0.

(** [s] is what the superblock [sb] describes, and the superblock passed every
    check. *)
Record mounted (sb : list Z) (s : Ext4) : Prop := {
  mt_inodes : le32 sb SB_INODES_COUNT = Ret (inodes_total s);
  mt_bpg : le32 sb SB_BLOCKS_PER_GROUP = Ret (bpg s);
  mt_ipg : le32 sb SB_INODES_PER_GROUP = Ret (ipg s);
  mt_rev : le32 sb SB_REV_LEVEL = Ret 1;
  mt_features : exists incompat ro_compat,
    le32 sb SB_FEATURE_INCOMPAT = Ret incompat /\ le32 sb SB_FEATURE_RO_COMPAT = Ret ro_compat /\
    features_ok incompat ro_compat /\
    has_64bit s = Z.testbit incompat 7 /\
    meta_csum s = Z.testbit ro_compat 10 && Z.testbit incompat 13;
  mt_blocks : exists lo hi, le32 sb SB_BLOCKS_COUNT_LO = Ret lo /\ le32 sb SB_BLOCKS_COUNT_HI = Ret hi /\
    blocks_total s = lo + (if has_64bit s then 2 ^ 32 * hi else 0);
  mt_free : exists lo hi, le32 sb SB_FREE_BLOCKS_LO = Ret lo /\ le32 sb SB_FREE_BLOCKS_HI = Ret hi /\
    free_blocks s = lo + (if has_64bit s then 2 ^ 32 * hi else 0);
  mt_free_inodes : le32 sb SB_FREE_INODES = Ret (free_inodes s);
  mt_groups : num_groups s = ((blocks_total s + bpg s - 1) / bpg s) mod 2 ^ 32;
  mt_first : le32 sb SB_FIRST_DATA_BLOCK = Ret (first_data_block s);
  mt_uuid : slice sb SB_UUID (SB_UUID + 16) = Ret (uuid s);
  mt_csum : meta_csum s = true -> exists body,
    slice sb 0 SB_CHECKSUM = Ret body /\ le32 sb SB_CHECKSUM = Ret (crc32c 0xFFFFFFFF body);
}.

(** A block count that overflows when it is rounded up to whole groups. *)
Definition oversized (sb : list Z) : Prop := exists lo hi b,
  le32 sb SB_BLOCKS_COUNT_LO = Ret lo /\ le32 sb SB_BLOCKS_COUNT_HI = Ret hi /\
  le32 sb SB_BLOCKS_PER_GROUP = Ret b /\ 2 ^ 64 <= lo + 2 ^ 32 * hi + b.

Lemma join_halves w lo hi :
  0 <= w -> 0 <= lo < 2 ^ w -> Z.lor lo (Z.shiftl hi w) = lo + 2 ^ w * hi.
Proof.
  intros Hw Hlo.
  assert (Z.land lo (Z.shiftl hi w) = 0) as Hdis.
  { zbits i. destruct (Z.ltb_spec i w).
    - by rewrite (Z.testbit_neg_r hi), andb_false_r by lia.
    - by rewrite (testbit_above w lo) by lia. }
  rewrite <-Z.lxor_lor, <-Z.add_nocarry_lxor by done.
  rewrite Z.shiftl_mul_pow2 by lia. lia.
Qed.

Lemma flag_test x b : 0 <= b -> negb (Z.land x (Z.shiftl 1 b) =? 0) = Z.testbit x b.
Proof. intros. by rewrite land_bit_zero, negb_involutive. Qed.

Lemma mount_fields_spec b buf (d : D) :
  blen buf = MAX_BLOCK_SIZE -> bytes_ok buf -> bd_ok d ->
  b = 1024 \/ b = 2048 \/ b = 4096 ->
  (exists r, mount_fields b buf d = Ret r /\
     match r with Ok s => ext4_ok s /\ mounted buf s /\ dev s = d /\ bs s = b | Err _ => True end) \/
  (mount_fields b buf d = Panic /\ oversized buf).
Proof.
  intros Hlen Hok Hd Hbs. unfold MAX_BLOCK_SIZE in Hlen. unfold mount_fields.
  read_field_as buf inodes Hinodes Rinodes. read_field_as buf bpg0 Hbpg Rbpg.
  read_field_as buf ipg0 Hipg Ripg.
  case_test; [left; by eexists|]. read_field_as buf rv Hrev Rrev.
  case_test; [left; by eexists|]. read_field_as buf isz Hisz Risz. cbv zeta.
  set (isz' := if isz <? GOOD_OLD_INODE_SIZE then _ else _).
  case_test; [left; by eexists|].
  read_field_as buf inc Hinc Rinc. read_field_as buf ro Hro Rro. fold KNOWN_INCOMPAT.
  case_test; [left; by eexists|]. case_test; [left; by eexists|]. case_test; [left; by eexists|].
  change INCOMPAT_64BIT with (Z.shiftl 1 7). change RO_COMPAT_METADATA_CSUM with (Z.shiftl 1 10).
  change INCOMPAT_CSUM_SEED with (Z.shiftl 1 13).
  rewrite !flag_test by lia.
  remember (Z.testbit inc 7) as h64 eqn:E64. remember (Z.testbit inc 13) as hseed eqn:Eseed.
  remember (Z.testbit ro 10) as hcsum eqn:Ecsum. read_field_as buf dsz Hdsz Rdsz.
  set (dsz' := if dsz =? 0 then _ else _).
  case_test; [left; by eexists|].
  read_field_as buf blo Hblo Rblo. read_field_as buf flo Hflo Rflo.
  read_field_as buf bhi Hbhi Rbhi. read_field_as buf fhi Hfhi Rfhi.
  repeat match goal with H : bytes_ok buf -> _ |- _ => specialize (H Hok) end.
  rewrite !join_halves by lia.
  read_field_as buf fino Hfino Rfino.
  destruct (decide (2 ^ 64 <= (if h64 then blo + 2 ^ 32 * bhi else blo) + bpg0)) as [Hov|Hov].
  { right. rewrite chk_Panic by lia. split; [done|]. exists blo, bhi, bpg0. split_and!; try done.
    destruct h64; lia. }
  left. rewrite chk_Ret by (destruct h64; lia). cbn [obind].
  read_field_as buf fdb Hfirst Rfirst. read_field_as buf resv Hresv Rresv.
  destruct (slice buf SB_UUID (SB_UUID + 16)) as [uu| |] eqn:Huu;
    [|rewrite slice_Ret in Huu by (unfold SB_UUID; lia); done..].
  destruct (slice buf SB_VOLUME_NAME (SB_VOLUME_NAME + 16)) as [vn| |] eqn:Hvn;
    [|rewrite slice_Ret in Hvn by (unfold SB_VOLUME_NAME; lia); done..]. cbn [obind].
  read_field_as buf seed Hseed Rseed. read_field_as buf cs Hsum Rsum.
  destruct (slice buf 0 1020) as [body| |] eqn:Hbody; [|rewrite slice_Ret in Hbody by lia; done..].
  cbn [obind].
  repeat match goal with H : bytes_ok buf -> _ |- _ => specialize (H Hok) end.
  case_test; [by eexists|]. eexists. split; [done|].
  assert (128 <= isz' <= 256).
  { unfold isz', GOOD_OLD_INODE_SIZE, MAX_INODE_SIZE in *. repeat case_test; lia. }
  assert (32 <= dsz' < 2 ^ 16) by (unfold dsz' in *; repeat case_test; lia).
  split; [|split; [|done]].
  - split; cbn; try done; try lia.
    + intros H64. destruct h64; [|done].
      match goal with H : true && _ = false |- _ => cbn [andb] in H; lia end.
    + apply Z.mod_pos_bound. lia.
    + destruct hseed; [lia|]. apply crc32c_range. lia.
    + destruct h64; lia.
    + destruct h64; lia.
  - split; cbn; try done.
    + by rewrite Hrev; f_equal.
    + exists inc, ro. rewrite E64, Ecsum, Eseed. by split_and!.
    + exists blo, bhi. split_and!; try done. destruct h64; lia.
    + exists flo, fhi. split_and!; try done. destruct h64; lia.
    + intros Hm. exists body. split; [done|]. rewrite Hm in *.
      destruct (Z.eqb_spec cs (crc32c 4294967295 body)) as [<-|]; [done|].  done.
Qed.

(** The buffer the fields are read from, for blocks of [b] bytes: the
    superblock of a volume with 1 KiB blocks, else block 0. *)
Definition superblock (img : list Z) (b : Z) : outcome (list Z) :=
  let start := if b =? 1024 then 1024 else 0 in
  let! bytes := slice img start (start + b) in
  splice (zeros MAX_BLOCK_SIZE) 0 bytes.

(** The block size the superblock at byte 1024 declares. *)
Definition declared_bs (img : list Z) (b : Z) : Prop :=
  exists bytes l, slice img 1024 2048 = Ret bytes /\ le32 bytes SB_LOG_BLOCK_SIZE = Ret l /\
    0 <= l <= 2 /\ b = Z.shiftl 1024 l.

Lemma front_field n bytes rest buf o :
  splice rest 0 bytes = Ret buf -> 0 <= o -> 0 <= n -> o + n <= blen bytes ->
  get_le n buf o = get_le n bytes o.
Proof.
  intros Hs Ho Hn Hl. pose proof (slice_splice_same _ _ _ _ Hs) as Hsl.
  rewrite <-(Z.add_0_l o) at 1. eapply get_le_slice; [exact Hsl|lia..].
Qed.

Lemma splice_cover b x y b1 b2 :
  splice b 0 x = Ret b1 -> splice b1 0 y = Ret b2 -> blen x <= blen y -> splice b 0 y = Ret b2.
Proof.
  intros Hx Hy Hl. pose proof (splice_blen _ _ _ _ Hx) as Hb.
  pose proof (splice_inv _ _ _ _ Hy) as (_&?&->). pose proof (splice_inv _ _ _ _ Hx) as (_&?&->).
  rewrite splice_Ret by lia. f_equal. change (Z.to_nat 0) with 0%nat. rewrite !take_0. cbn [app].
  f_equal. unfold blen in *. rewrite drop_app_ge by lia. rewrite drop_drop. f_equal. lia.
Qed.

Lemma pad_block bytes : blen bytes <= MAX_BLOCK_SIZE -> bytes_ok bytes -> exists buf,
  splice (zeros MAX_BLOCK_SIZE) 0 bytes = Ret buf /\ blen buf = MAX_BLOCK_SIZE /\ bytes_ok buf.
Proof.
  intros Hl Hb. destruct (splice (zeros MAX_BLOCK_SIZE) 0 bytes) as [buf| |] eqn:E;
    [|rewrite splice_Ret in E by (rewrite ?blen_zeros by (unfold MAX_BLOCK_SIZE; lia); lia); done..].
  exists buf. split; [done|]. split.
  - rewrite (splice_blen _ _ _ _ E). apply blen_zeros. unfold MAX_BLOCK_SIZE. lia.
  - eapply splice_bytes; [done|apply zeros_bytes|done].
Qed.

(** A read of [n] bytes from sector [lba] of the bare device. *)
Lemma dev_read_spec (d : D) lba n :
  bd_ok d -> 0 <= lba -> 0 <= n < 2 ^ 63 -> lba < 2 ^ 63 ->
  exists r d', dev_op (read_blocks lba n) d = Ret (r, d') /\ bd_ok d' /\ bd_image d' = bd_image d /\
    match r with
    | Ok b => slice (bd_image d) (512 * lba) (512 * lba + n) = Ret b /\ bytes_ok b /\ blen b = n
    | Err _ => True
    end.
Proof.
  intros Hd Hlba Hn Hl.
  destruct (bd_read d lba n) as (r & d' & Hrun & Hd' & Himg & Hr); [done|lia..|].
  apply dev_op_Ret in Hrun. eexists _, d'. split; [exact Hrun|]. split; [done|]. split; [done|].
  destruct r as [b|]; [|done]. split; [done|]. split; [|apply slice_len in Hr; lia].
  eapply slice_bytes; [done|]. by apply bd_bytes.
Qed.

(** The second half of [mount]: choosing the buffer the fields come from. *)
Definition mount_buffer (b : Z) (buf : list Z) : M D (fs (list Z)) :=
  let sb_fsb := if b =? 1024 then 1 else 0 in
  if negb (sb_fsb =? 1) then
    bytes <-? dev_op (read_blocks (sb_fsb * b / 512) b) ;;
    buf <-! splice buf 0 bytes ;;
    magic <-! le16 buf SB_MAGIC ;;
    if negb (magic =? EXT4_MAGIC) then sret (Err FsError.Corrupt) else sret (Ok buf)
  else sret (Ok buf).

Lemma mount_buffer_spec (d : D) b bytes buf :
  bd_ok d -> b = 1024 \/ b = 2048 \/ b = 4096 ->
  slice (bd_image d) 1024 2048 = Ret bytes -> splice (zeros MAX_BLOCK_SIZE) 0 bytes = Ret buf ->
  bytes_ok buf -> blen buf = MAX_BLOCK_SIZE -> le16 buf SB_MAGIC = Ret EXT4_MAGIC ->
  exists r d', mount_buffer b buf d = Ret (r, d') /\ bd_ok d' /\ bd_image d' = bd_image d /\
    match r with
    | Ok sb => superblock (bd_image d) b = Ret sb /\ le16 sb SB_MAGIC = Ret EXT4_MAGIC /\
                 bytes_ok sb /\ blen sb = MAX_BLOCK_SIZE
    | Err _ => True
    end.
Proof.
  intros Hd Hb Hsl Hbuf Hok Hlen Hmagic. unfold mount_buffer, superblock.
  destruct (Z.eqb_spec b 1024) as [->|Hne]; cbn [Z.eqb negb].
  { exists (Ok buf), d. split; [done|]. change (1024 + 1024) with 2048. rewrite Hsl. by split_and!. }
  change (negb (0 =? 1)) with true. cbv iota. rewrite Z.mul_0_l. change (0 / 512) with 0.
  destruct (dev_read_spec d 0 b) as (r & d' & Hrun & Hd' & Himg & Hr); [done|lia..|].
  destruct r as [bytes'|e]; [|rewrite (qbind_Err _ _ _ _ _ Hrun); by eexists _, d'].
  destruct Hr as (Hsl' & Hok' & Hl'). rewrite (qbind_Ok _ _ _ _ _ Hrun).
  destruct (splice buf 0 bytes') as [buf'| |] eqn:Hbuf';
    [|rewrite splice_Ret in Hbuf' by (unfold MAX_BLOCK_SIZE in Hlen; lia); done..].
  rewrite (sbind_lift _ _ _ buf') by done.
  pose proof (splice_blen _ _ _ _ Hbuf') as Hlb.
  destruct (get_le_Ret 2 buf' SB_MAGIC) as (m & Hm & _);
    [lia|unfold SB_MAGIC; lia|unfold SB_MAGIC, MAX_BLOCK_SIZE in *; lia|].
  rewrite (sbind_lift _ _ _ m) by exact Hm.
  destruct (Z.eqb_spec m EXT4_MAGIC) as [->|]; cbn [negb]; [|by eexists _, d'].
  exists (Ok buf'), d'. split; [done|]. split; [done|]. split; [done|].
  change (512 * 0) with 0 in Hsl'. rewrite Z.add_0_l in *. rewrite Hsl'. cbn [obind].
  split_and!; [|done| |lia].
  - eapply splice_cover; [exact Hbuf|done|]. pose proof (slice_len _ _ _ _ Hsl). lia.
  - by eapply splice_bytes.
Qed.

Lemma mount_spec (d : D) : bd_ok d ->
  (exists r d', mount d = Ret (r, d') /\ bd_ok d' /\ bd_image d' = bd_image d /\
     match r with
     | Ok s => ext4_ok s /\ dev s = d' /\ declared_bs (bd_image d) (bs s) /\
         exists sb, superblock (bd_image d) (bs s) = Ret sb /\ le16 sb SB_MAGIC = Ret EXT4_MAGIC /\
           mounted sb s
     | Err _ => True
     end) \/
  (mount d = Panic /\ exists b sb, declared_bs (bd_image d) b /\
     superblock (bd_image d) b = Ret sb /\ le16 sb SB_MAGIC = Ret EXT4_MAGIC /\ oversized sb).
Proof.
  intros Hd. unfold mount. rewrite sbind_get. case_test; [left; by eexists _, d|].
  change (1024 / 512) with 2.
  destruct (dev_read_spec d 2 1024) as (r & d1 & Hrun & Hd1 & Himg1 & Hr); [done|lia..|].
  destruct r as [bytes|e]; [|rewrite (qbind_Err _ _ _ _ _ Hrun); left; by eexists _, d1].
  destruct Hr as (Hsl & Hokb & Hlb). rewrite (qbind_Ok _ _ _ _ _ Hrun).
  destruct (pad_block bytes) as (buf & Hbuf & Hlen & Hok); [unfold MAX_BLOCK_SIZE; lia|done|].
  rewrite (sbind_lift _ _ _ buf) by done.
  destruct (get_le_Ret 2 buf SB_MAGIC) as (m & Hm & _);
    [lia|unfold SB_MAGIC; lia|unfold SB_MAGIC, MAX_BLOCK_SIZE in *; lia|].
  rewrite (sbind_lift _ _ _ m) by exact Hm.
  destruct (Z.eqb_spec m EXT4_MAGIC) as [->|]; cbn [negb]; [|left; by eexists _, d1].
  destruct (get_le_Ret 4 buf SB_LOG_BLOCK_SIZE) as (l & Hl & Rl);
    [lia|unfold SB_LOG_BLOCK_SIZE; lia|unfold SB_LOG_BLOCK_SIZE, MAX_BLOCK_SIZE in *; lia|].
  rewrite (sbind_lift _ _ _ l) by exact Hl. specialize (Rl Hok).
  case_test; [left; by eexists _, d1|]. cbv zeta.
  destruct (get_le_Ret 4 buf SB_LOG_CLUSTER_SIZE) as (cl & Hcl & _);
    [lia|unfold SB_LOG_CLUSTER_SIZE; lia|unfold SB_LOG_CLUSTER_SIZE, MAX_BLOCK_SIZE in *; lia|].
  rewrite (sbind_lift _ _ _ cl) by exact Hcl. case_test; [left; by eexists _, d1|].
  assert (declared_bs (bd_image d) (Z.shiftl 1024 l)) as Hdec.
  { exists bytes, l. split; [done|]. split; [|split; [lia|done]].
    unfold le32. rewrite <-Hl. symmetry. eapply front_field; [done|unfold SB_LOG_BLOCK_SIZE; lia..]. }
  assert (Z.shiftl 1024 l = 1024 \/ Z.shiftl 1024 l = 2048 \/ Z.shiftl 1024 l = 4096) as Hbs.
  { rewrite Z.shiftl_mul_pow2 by lia. assert (l = 0 \/ l = 1 \/ l = 2) as [->|[->| ->]] by lia; lia. }
  set (b := Z.shiftl 1024 l) in *. fold (mount_buffer b buf).
  rewrite <-Himg1 in Hsl, Hdec |- *.
  destruct (mount_buffer_spec d1 b bytes buf) as (r & d2 & Hrun2 & Hd2 & Himg2 & Hr2); try done.
  destruct r as [sb|e]; [|rewrite (qbind_Err _ _ _ _ _ Hrun2); left; by eexists _, d2].
  destruct Hr2 as (Hsb & Hmag & Hoksb & Hlsb).
  rewrite (qbind_Ok _ _ _ _ _ Hrun2), sbind_get.
  destruct (mount_fields_spec b sb d2) as [(r & Hf & Hr)|[Hf Hov]]; try done.
  - left. unfold slift. rewrite Hf. exists r, d2. split_and!; try done.
    destruct r as [s|]; [|done]. destruct Hr as (Hs & Hmt & Hdev & Hsbs). rewrite Hsbs.
    split; [done|]. split; [done|]. split; [done|]. by exists sb.
  - right. unfold slift. rewrite Hf. split; [done|]. by exists b, sb.
Qed.

(** ** Descriptors and inodes in the image *)

(** The record sizes of volumes made by mke2fs: no record crosses a block
    boundary. *)
Definition aligned (s : Ext4) : Prop :=
  (desc_size s = 32 \/ desc_size s = 64) /\ (inode_size s = 128 \/ inode_size s = 256).

Definition desc_byte (s : Ext4) (group : Z) : Z := gdt_fsb s * bs s + group * desc_size s.

Definition desc_at (s : Ext4) (group : Z) : outcome (list Z) :=
  slice (image s) (desc_byte s group) (desc_byte s group + desc_size s).

Lemma same_volume_aligned s s' : same_volume s s' -> aligned s -> aligned s'.
Proof. by intros [-> _]. Qed.

Lemma same_volume_desc s s' group :
  same_volume s s' -> desc_byte s' group = desc_byte s group.
Proof. by intros [-> _]. Qed.

Lemma unchanged_desc s s' group : unchanged s s' -> desc_at s' group = desc_at s group.
Proof.
  intros [Hv Hi]. unfold desc_at. rewrite Hi, (same_volume_desc _ _ _ Hv). by destruct Hv as [-> _].
Qed.

(** A record of [n] bytes at byte [p], found through its block. *)
Lemma record_in_block s p n bytes buf :
  ext4_ok s -> 0 <= p -> 0 <= n -> p mod bs s + n <= bs s ->
  block_at s (p / bs s) = Ret bytes -> splice (zeros MAX_BLOCK_SIZE) 0 bytes = Ret buf ->
  slice buf (p mod bs s) (p mod bs s + n) = slice (image s) p (p + n) /\
  exists x, slice (image s) p (p + n) = Ret x.
Proof.
  intros Hs Hp Hn Hfit Hb Hbuf. pose proof (ok_bs s Hs) as Hbs. unfold block_at in Hb.
  pose proof (slice_len _ _ _ _ Hb) as Hl. pose proof (Z.mod_pos_bound p (bs s)).
  pose proof (Z.div_mod p (bs s)).
  destruct (slice bytes (p mod bs s) (p mod bs s + n)) as [x| |] eqn:Hx;
    [|rewrite slice_Ret in Hx by lia; done..].
  pose proof (slice_slice _ _ _ _ _ _ _ Hb Hx) as Himg.
  replace (p / bs s * bs s + p mod bs s) with p in Himg by lia.
  replace (p / bs s * bs s + (p mod bs s + n)) with (p + n) in Himg by lia.
  pose proof (slice_splice_same _ _ _ _ Hbuf) as Hself.
  pose proof (slice_slice _ _ _ _ _ _ _ Hself Hx) as Hbx. rewrite !Z.add_0_l in Hbx.
  rewrite Himg, Hbx. eauto.
Qed.

(** Reading a block, changing a record in it and writing it back changes just
    the record in the image. *)
Lemma record_rewrite s p x bytes rest buf buf' w img' :
  ext4_ok s -> 0 <= p -> p mod bs s + blen x <= bs s ->
  block_at s (p / bs s) = Ret bytes -> splice rest 0 bytes = Ret buf ->
  splice buf (p mod bs s) x = Ret buf' -> slice buf' 0 (bs s) = Ret w ->
  splice (image s) (p / bs s * bs s) w = Ret img' -> splice (image s) p x = Ret img'.
Proof.
  intros Hs Hp Hfit Hb Hbuf Hbuf' Hw Himg. pose proof (ok_bs s Hs) as Hbs. unfold block_at in Hb.
  pose proof (Z.mod_pos_bound p (bs s)).
  assert (p = p / bs s * bs s + p mod bs s) as Hpq by (pose proof (Z.div_mod p (bs s)); lia).
  assert (0 <= p / bs s * bs s) by (pose proof (Z.div_pos p (bs s)); nia).
  remember (p / bs s * bs s) as q eqn:Eq. remember (p mod bs s) as o eqn:Eo. clear Eq Eo. subst p.
  pose proof (slice_inv _ _ _ _ Hb) as (?&?&_). pose proof (slice_len _ _ _ _ Hb) as Hlb.
  pose proof (slice_len _ _ _ _ Hw) as Hlw. pose proof (blen_nonneg x).
  pose proof (splice_blen _ _ _ _ Himg) as Hli.
  assert (forall k, (k < Z.to_nat (bs s))%nat -> buf !! k = image s !! (Z.to_nat q + k)%nat) as Hbk.
  { intros k Hk. pose proof (splice_lookup_in _ _ _ _ k Hbuf) as Hk1.
    change (Z.to_nat 0 + k)%nat with k in Hk1. unfold blen in Hlb. rewrite Hk1 by lia.
    rewrite (slice_lookup _ _ _ _ _ Hb) by lia. done. }
  destruct (splice (image s) (q + o) x) as [img2| |] eqn:Hx2;
    [|rewrite splice_Ret in Hx2 by lia; done..].
  f_equal. apply list_eq. intros k. unfold blen in *.
  destruct (decide (Z.to_nat q <= k < Z.to_nat q + Z.to_nat (bs s))%nat) as [Hin|Hout]; cycle 1.
  - rewrite (splice_lookup_out _ _ _ _ _ Hx2) by lia.
    by rewrite (splice_lookup_out _ _ _ _ _ Himg) by lia.
  - replace k with (Z.to_nat q + (k - Z.to_nat q))%nat at 2 by lia.
    rewrite (splice_lookup_in _ _ _ _ _ Himg) by lia.
    rewrite (slice_lookup _ _ _ _ _ Hw) by lia. change (Z.to_nat 0 + ?n)%nat with n.
    destruct (decide (Z.to_nat (q + o) <= k < Z.to_nat (q + o) + length x)%nat).
    + replace k with (Z.to_nat (q + o) + (k - Z.to_nat (q + o)))%nat at 1 by lia.
      rewrite (splice_lookup_in _ _ _ _ _ Hx2) by lia.
      replace (k - Z.to_nat q)%nat with (Z.to_nat o + (k - Z.to_nat (q + o)))%nat by lia.
      by rewrite (splice_lookup_in _ _ _ _ _ Hbuf') by lia.
    + rewrite (splice_lookup_out _ _ _ _ _ Hx2) by lia.
      rewrite (splice_lookup_out _ _ _ _ _ Hbuf') by lia.
      rewrite Hbk by lia. f_equal. lia.
Qed.

Lemma record_fits q n b : 0 < n -> 0 < b -> b mod n = 0 -> q mod n = 0 -> q mod b + n <= b.
Proof.
  intros Hn Hb Hbn Hqn.
  apply Z.mod_divide in Hqn as [c ->]; [|lia]. apply Z.mod_divide in Hbn as [e ->]; [|lia].
  rewrite Z.mul_mod_distr_r by nia. pose proof (Z.mod_pos_bound c e). nia.
Qed.

Lemma desc_fits s group : ext4_ok s -> aligned s ->
  desc_byte s group mod bs s + desc_size s <= bs s.
Proof.
  intros Hs [Ha _]. unfold desc_byte. apply record_fits.
  - lia.
  - pose proof (ok_bs s Hs); lia.
  - by destruct (ok_bs s Hs) as [->|[->| ->]], Ha as [->| ->].
  - destruct (ok_bs s Hs) as [->|[->| ->]], Ha as [->| ->]; lia.
Qed.

Lemma group_place_Ret s group :
  ext4_ok s -> 0 <= group < 2 ^ 32 ->
  group_place s group = Ret (desc_byte s group / bs s, desc_byte s group mod bs s) /\
  0 <= desc_byte s group < 2 ^ 60.
Proof.
  intros Hs Hg. unfold group_place, desc_byte.
  pose proof (ok_bs s Hs). pose proof (ok_gdt s Hs). pose proof (ok_first s Hs).
  pose proof (ok_desc_size s Hs).
  assert (0 <= gdt_fsb s * bs s <= 2 ^ 32 * 4096) by nia.
  assert (0 <= group * desc_size s <= 2 ^ 32 * 2 ^ 16) by nia.
  rewrite chk_Ret by lia. split; [done|lia].
Qed.

Lemma block_of_byte s p :
  ext4_ok s -> 0 <= p -> 0 <= p / bs s /\ p / bs s * bs s <= p.
Proof.
  intros Hs Hp. pose proof (ok_bs s Hs). pose proof (Z.div_mod p (bs s)).
  pose proof (Z.mod_pos_bound p (bs s)). pose proof (Z.div_pos p (bs s)). lia.
Qed.

Lemma zeros_block_len s : ext4_ok s -> bs s <= blen (zeros MAX_BLOCK_SIZE).
Proof. intros Hs. rewrite blen_zeros by done. pose proof (ok_bs s Hs). unfold MAX_BLOCK_SIZE. lia. Qed.

(** [group_descriptor] finds the descriptor of [group] in the image. *)
Lemma group_descriptor_spec s group :
  ext4_ok s -> aligned s -> 0 <= group ->
  exists r s', group_descriptor group (zeros MAX_BLOCK_SIZE) s = Ret (r, s') /\ unchanged s s' /\
    match r with
    | Ok (off, buf) => group < num_groups s /\ exists gd,
        desc_at s group = Ret gd /\ slice buf off (off + desc_size s) = Ret gd
    | Err _ => True
    end.
Proof.
  intros Hs Ha Hg. unfold group_descriptor. rewrite sbind_get.
  pose proof (unchanged_refl s (ok_dev s Hs)).
  case_test; [by eexists _, s|]. pose proof (ok_groups s Hs).
  destruct (group_place_Ret s group Hs) as [Hpl Hrange]; [lia|].
  rewrite (sbind_lift _ _ _ _ Hpl).
  pose proof (block_of_byte s (desc_byte s group) Hs) as [??]; [lia|].
  destruct (read_fsb_spec s (desc_byte s group / bs s) (zeros MAX_BLOCK_SIZE))
    as (r & s' & Hrun & Hun & Hr); [done|lia|lia|by apply zeros_block_len|].
  destruct r as [buf|e]; [|rewrite (qbind_Err _ _ _ _ _ Hrun); by eexists _, s'].
  rewrite (qbind_Ok _ _ _ _ _ Hrun). eexists _, s'. split; [done|]. split; [done|]. split; [lia|].
  destruct Hr as (bytes & Hb & Hbuf). unfold desc_at.
  pose proof (ok_desc_size s Hs).
  destruct (record_in_block s (desc_byte s group) (desc_size s) bytes buf) as [Heq (gd & Hgd)];
    [done|lia|lia|by apply desc_fits|done|done|].
  exists gd. by rewrite Heq.
Qed.

(** Putting a record of [x] bytes at byte [p] into the block just read and
    writing the block back. *)
Lemma record_update_spec s s1 p x bytes rest buf :
  ext4_ok s -> unchanged s s1 -> 0 <= p < 2 ^ 64 -> p mod bs s + blen x <= bs s -> bytes_ok x ->
  block_at s (p / bs s) = Ret bytes -> splice rest 0 bytes = Ret buf -> bs s <= blen rest -> bytes_ok rest ->
  exists buf' r s', splice buf (p mod bs s) x = Ret buf' /\ bytes_ok buf' /\
    write_fsb (p / bs s) buf' s1 = Ret (r, s') /\ same_volume s s' /\
    match r with
    | Ok _ => splice (image s) p x = Ret (image s')
    | Err _ => let b := p / bs s * bs s in same_outside (image s) (image s') b (b + bs s)
    end.
Proof.
  intros Hs Hun Hp Hfit Hok Hb Hbuf Hrest Hokr.
  pose proof (block_of_byte s p Hs) as [??]; [lia|]. pose proof (ok_bs s Hs) as Hbs.
  pose proof (Z.mod_pos_bound p (bs s)). pose proof (splice_blen _ _ _ _ Hbuf) as Hlb.
  destruct (splice buf (p mod bs s) x) as [buf'| |] eqn:Hbuf';
    [|rewrite splice_Ret in Hbuf' by lia; done..].
  pose proof (unchanged_ok _ _ Hun Hs) as Hs1.
  assert (bytes_ok buf') as Hokb.
  { eapply splice_bytes; [done| |done]. eapply splice_bytes; [done|done|].
    eapply slice_bytes; [done|]. apply bd_bytes, Hs. }
  destruct Hun as [[Heq Hd1] Himg1].
  assert (bs s1 = bs s) as Hbs1 by (by rewrite Heq).
  destruct (write_fsb_spec s1 (p / bs s) buf') as (r & s' & w & Hrun' & Hsv & Hw & Hr);
    [done|lia|rewrite Hbs1; lia|rewrite (splice_blen _ _ _ _ Hbuf'); lia|done|].
  rewrite Hbs1, Himg1 in *. exists buf', r, s'. split; [done|]. split; [done|]. split; [done|].
  split; [eapply same_volume_trans; [|done]; by split|].
  destruct r; [|done]. eapply record_rewrite; eauto; lia.
Qed.

Lemma record_write_spec s s1 p x bytes buf :
  ext4_ok s -> unchanged s s1 -> 0 <= p < 2 ^ 64 -> p mod bs s + blen x <= bs s -> bytes_ok x ->
  block_at s (p / bs s) = Ret bytes -> splice (zeros MAX_BLOCK_SIZE) 0 bytes = Ret buf ->
  exists buf' r s', splice buf (p mod bs s) x = Ret buf' /\
    write_fsb (p / bs s) buf' s1 = Ret (r, s') /\ same_volume s s' /\
    match r with
    | Ok _ => splice (image s) p x = Ret (image s')
    | Err _ => let b := p / bs s * bs s in same_outside (image s) (image s') b (b + bs s)
    end.
Proof.
  intros Hs Hun Hp Hfit Hok Hb Hbuf.
  destruct (record_update_spec s s1 p x bytes _ buf Hs Hun Hp Hfit Hok Hb Hbuf (zeros_block_len s Hs) (zeros_bytes _))
    as (buf' & r & s' & ? & _ & ?). by exists buf', r, s'.
Qed.

(** [push_group] replaces the descriptor of [group]. *)
Lemma push_group_spec s group gd :
  ext4_ok s -> aligned s -> 0 <= group < 2 ^ 32 -> blen gd = desc_size s -> bytes_ok gd ->
  exists r s', push_group group gd s = Ret (r, s') /\ same_volume s s' /\
    match r with
    | Ok _ => splice (image s) (desc_byte s group) gd = Ret (image s')
    | Err _ => let b := desc_byte s group / bs s * bs s in
        same_outside (image s) (image s') b (b + bs s)
    end.
Proof.
  intros Hs Ha Hg Hl Hok. unfold push_group. rewrite sbind_get.
  destruct (group_place_Ret s group Hs Hg) as [Hpl Hrange]. rewrite (sbind_lift _ _ _ _ Hpl).
  pose proof (block_of_byte s (desc_byte s group) Hs) as [??]; [lia|].
  destruct (read_fsb_spec s (desc_byte s group / bs s) (zeros MAX_BLOCK_SIZE))
    as (r & s1 & Hrun & Hun & Hr); [done|lia|lia|by apply zeros_block_len|].
  destruct r as [buf|e]; cycle 1.
  { rewrite (qbind_Err _ _ _ _ _ Hrun). eexists _, s1. split; [done|]. split; [apply Hun|].
    destruct Hun as [_ ->]. apply same_outside_refl. }
  rewrite (qbind_Ok _ _ _ _ _ Hrun). destruct Hr as (bytes & Hb & Hbuf).
  destruct (record_write_spec s s1 (desc_byte s group) gd bytes buf)
    as (buf' & r & s' & Hbuf' & Hrun' & Hsv & Hr); try done; [lia| |].
  { rewrite Hl. by apply desc_fits. }
  rewrite (sbind_lift _ _ _ buf') by done. by exists r, s'.
Qed.

(** The address fields of a descriptor can always be read. *)
Lemma gd_u32_Ret s gd lo hi :
  ext4_ok s -> blen gd = desc_size s -> bytes_ok gd -> 0 <= lo -> lo + 4 <= 32 -> 0 <= hi -> hi + 4 <= 64 ->
  exists v, gd_u32 s gd lo hi = Ret v /\ 0 <= v < 2 ^ 64.
Proof.
  intros Hs Hl Hok Hlo Hlo' Hhi Hhi'. unfold gd_u32, le32. pose proof (ok_desc_size s Hs).
  destruct (get_le_Ret 4 gd lo) as (v & -> & Hv); [lia..|]. specialize (Hv Hok). cbn [obind].
  case_test; [|exists v; split; [done|lia]].
  pose proof (ok_desc64 s Hs ltac:(done)).
  destruct (get_le_Ret 4 gd hi) as (h & -> & Hh); [lia..|]. specialize (Hh Hok). cbn [obind].
  rewrite join_halves by lia. eexists. split; [done|]. lia.
Qed.

Lemma desc_at_props s group gd :
  ext4_ok s -> desc_at s group = Ret gd -> blen gd = desc_size s /\ bytes_ok gd.
Proof.
  intros Hs Hgd. unfold desc_at in Hgd. split; [apply slice_len in Hgd; lia|].
  eapply slice_bytes; [done|]. apply bd_bytes, Hs.
Qed.


Lemma superblock_front img b sb n o :
  b <> 1024 -> superblock img b = Ret sb -> 0 <= o -> 0 <= n -> o + n <= b ->
  get_le n sb o = get_le n img o.
Proof.
  intros Hb Hsb Ho Hn Hle. unfold superblock in Hsb.
  destruct (Z.eqb_spec b 1024); [done|]. apply obind_Ret_inv in Hsb as (bytes & Hsl & Hsb).
  pose proof (slice_len _ _ _ _ Hsl) as Hl. rewrite (front_field n bytes _ sb o Hsb) by lia.
  symmetry. rewrite <-(Z.add_0_l o) at 1. eapply get_le_slice; [exact Hsl|lia..].
Qed.

(** A volume with 2 KiB or 4 KiB blocks, as mke2fs makes them, is never
    mounted: the superblock is read again from block 0 at offset 0, where such
    a volume has its boot record, and the magic is missing there. *)
Theorem mount_large_blocks_refused (d : D) bytes l :
  bd_ok d -> slice (bd_image d) 1024 2048 = Ret bytes -> le32 bytes SB_LOG_BLOCK_SIZE = Ret l ->
  1 <= l -> le16 (bd_image d) SB_MAGIC <> Ret EXT4_MAGIC ->
  exists e d', mount d = Ret (Err e, d').
Proof.
  intros Hd Hsl Hlog Hl Hmag.
  assert (forall b sb, declared_bs (bd_image d) b -> superblock (bd_image d) b = Ret sb ->
            le16 sb SB_MAGIC = Ret EXT4_MAGIC -> False) as Habs.
  { intros b sb (bytes' & l' & Hsl' & Hlog' & Hl' & ->) Hsb Hm.
    rewrite Hsl in Hsl'. injection Hsl' as <-. rewrite Hlog in Hlog'. injection Hlog' as <-.
    assert (2048 <= Z.shiftl 1024 l).
    { rewrite Z.shiftl_mul_pow2 by lia. pose proof (Z.pow_le_mono_r 2 1 l). lia. }
    apply Hmag. rewrite <-Hm. symmetry. unfold le16.
    eapply superblock_front; [|exact Hsb|unfold SB_MAGIC; lia..]. lia. }
  destruct (mount_spec d Hd) as [(r & d' & Hrun & _ & _ & Hr)|(_ & b & sb & ? & ? & ? & _)].
  - destruct r as [s|e]; [|eauto]. destruct Hr as (_ & _ & Hdec & sb & Hsb & Hm & _).
    destruct (Habs _ _ Hdec Hsb Hm).
  - by destruct (Habs b sb).
Qed.
End Laws.

(** ** A small volume *)

Definition set_field (img : list Z) (f : nat * Z * Z) : list Z :=
  let '(n, off, v) := f in match put_le n img off v with Ret b => b | _ => img end.

Definition fields (fs : list (nat * Z * Z)) (img : list Z) : list Z := foldl set_field img fs.

(** Sixteen blocks of 1 KiB with checksums and 64-bit descriptors: superblock
    (1), descriptors (2), bitmaps (3, 4), sixteen inodes of 256 bytes (5 to 8)
    and the root directory (9). *)
Definition sample_super : list (nat * Z * Z) := [
  (4%nat, SB_INODES_COUNT, 16); (4%nat, SB_BLOCKS_COUNT_LO, 16); (4%nat, SB_FREE_BLOCKS_LO, 6);
  (4%nat, SB_FREE_INODES, 6); (4%nat, SB_FIRST_DATA_BLOCK, 1); (4%nat, SB_BLOCKS_PER_GROUP, 32);
  (4%nat, SB_INODES_PER_GROUP, 16); (2%nat, SB_MAGIC, EXT4_MAGIC); (4%nat, SB_REV_LEVEL, 1);
  (2%nat, SB_INODE_SIZE, 256); (4%nat, SB_FEATURE_INCOMPAT, 0x20C2);
  (4%nat, SB_FEATURE_RO_COMPAT, 0x400); (2%nat, SB_DESC_SIZE, 64); (4%nat, SB_CHECKSUM_SEED, 77)].

Definition sample_sb : list Z :=
  let sb := fields sample_super (zeros 1024) in
  fields [(4%nat, SB_CHECKSUM, crc32c 0xFFFFFFFF (take 1020 sb))] sb.

Definition sample_rest : list (nat * Z * Z) := [
  (4%nat, 2048, 3); (4%nat, 2052, 4); (4%nat, 2056, 5); (2%nat, 2060, 6); (2%nat, 2062, 6);
  (2%nat, 3072, 0x1FF); (2%nat, 4096, 0x3FF);
  (2%nat, 5376, 0x41ED); (4%nat, 5380, 1024); (2%nat, 5402, 2);
  (2%nat, 5416, EXT4_EXT_MAGIC); (2%nat, 5418, 1); (2%nat, 5420, 4); (2%nat, 5432, 1); (4%nat, 5436, 9);
  (4%nat, 9216, 2); (2%nat, 9220, 12); (1%nat, 9222, 1); (1%nat, 9223, 2); (1%nat, 9224, 0x2E);
  (4%nat, 9228, 2); (2%nat, 9232, 1000); (1%nat, 9234, 2); (1%nat, 9235, 2); (2%nat, 9236, 0x2E2E)].

Definition sample_image : list Z :=
  fields sample_rest (zeros 1024 ++ sample_sb ++ zeros 14336).

Definition no_volume : Ext4 RamDisk :=
  mkExt4 (mkRam []) 0 0 0 0 0 0 0 0 0 [] [] 0 false false 0 0 0 0.

Definition sample_volume : Ext4 RamDisk :=
  match mount (mkRam sample_image) with Ret (Ok s, _) => s | _ => no_volume end.

(** The same superblock with 4 KiB blocks. *)
Definition large_image : list Z :=
  zeros 1024 ++ fields [(4%nat, SB_LOG_BLOCK_SIZE, 2); (4%nat, SB_LOG_CLUSTER_SIZE, 2)] sample_sb ++
  zeros 14336.

Definition is_ok {S E A} (m : outcome (result E A * S)) : bool :=
  match m with Ret (Ok _, _) => true | _ => false end.

Lemma sample_mounts : is_ok (mount (mkRam sample_image)) = true.
Proof. vm_compute. reflexivity. Qed.

Lemma sample_bytes : bd_ok (mkRam sample_image).
Proof. apply (bytes_okb_ok sample_image). vm_compute. reflexivity. Qed.

Lemma sample_ok : ext4_ok sample_volume.
Proof.
  unfold sample_volume. pose proof (mount_spec (mkRam sample_image) sample_bytes) as H.
  pose proof sample_mounts as Hok. revert H Hok. generalize (mkRam sample_image). intros d H Hok.
  destruct H as [(r & d' & Hrun & _ & _ & Hr)|[Hrun _]]; rewrite Hrun in Hok |- *; [|discriminate].
  destruct r as [s|e]; [|discriminate]. apply Hr.
Qed.

Lemma sample_aligned : aligned sample_volume.
Proof. split; right; vm_compute; reflexivity. Qed.


Lemma mount_large_blocks_refused_witness : exists bytes,
  slice (bd_image (mkRam large_image)) 1024 2048 = Ret bytes /\ le32 bytes SB_LOG_BLOCK_SIZE = Ret 2 /\
  exists e d', mount (mkRam large_image) = Ret (Err e, d').
Proof.
  assert (bd_ok (mkRam large_image)) as Hok
    by (apply (bytes_okb_ok large_image); vm_compute; reflexivity).
  assert (exists bytes, slice (bd_image (mkRam large_image)) 1024 2048 = Ret bytes /\
            le32 bytes SB_LOG_BLOCK_SIZE = Ret 2) as (bytes & Hsl & Hlog).
  { eexists. split; [vm_compute; reflexivity|]. vm_compute. reflexivity. }
  assert (le16 (bd_image (mkRam large_image)) SB_MAGIC = Ret 0) as H0 by (vm_compute; reflexivity).
  exists bytes. revert Hok Hsl H0. generalize (mkRam large_image). intros d Hok Hsl H0.
  split; [done|]. split; [done|].
  apply (mount_large_blocks_refused d bytes 2); [done|done|done|lia|]. by rewrite H0.
Defined.
