(* ===== verification/Ext4Inode.v ===== *)
(** * Inodes ([src/src/ext4.rs], lines 560-650)

    Locating, reading and writing inodes, with their checksums. *)

From S2P Require Import Prelude Block Crc.
From stdpp Require Import list.
From S2P Require Import Ext4Layout Ext4.
#[local] Open Scope Z_scope.

Section Inodes.
Context {D : Type} `{BD : BlockDevice D}.
Abbreviation Ext4 := (Ext4 D).

(** The block of an inode, its offset in the block, and its group. *)
Definition inode_location (ino : Z) : M Ext4 (fs (Z * Z * Z)) :=
  s <- sget ;;
  ino' <-! chk 32 (ino - 1) ;;
  let group := ino' / ipg s in
  let index := ino' mod ipg s in
  ' (off, gd_buf) <-? group_descriptor group (zeros MAX_BLOCK_SIZE) ;;
  gd <-! slice gd_buf off (off + desc_size s) ;;
  table <-! gd_u32 s gd GD_INODE_TABLE_LO GD_INODE_TABLE_HI ;;
  byte <-! chk 64 (table * bs s + index * inode_size s) ;;
  sret (Ok (byte / bs s, byte mod bs s, group)).

(** The fields of an inode image. *)
Definition decode_inode (s : Ext4) (ino : Z) (raw : list Z) : outcome Inode :=
  let! mode := le16 raw INO_MODE in
  let! size_lo := le32 raw INO_SIZE_LO in
  let! size_high := if has_64bit s then le32 raw INO_SIZE_HIGH else Ret 0 in
  let! blocks_lo := le32 raw INO_BLOCKS_LO in
  let! blocks_high := if has_64bit s then le32 raw INO_BLOCKS_HIGH else Ret 0 in
  let! flags := le32 raw INO_FLAGS in
  let! full := splice (zeros MAX_INODE_SIZE) 0 raw in
  Ret (mkInode ino mode (Z.lor size_lo (Z.shiftl size_high 32))
         (Z.lor blocks_lo (Z.shiftl blocks_high 32)) flags full).

Definition read_inode (ino : Z) : M Ext4 (fs Inode) :=
  s <- sget ;;
  ' (block, off, _) <-? inode_location ino ;;
  buf <-? read_fsb block (zeros MAX_BLOCK_SIZE) ;;
  raw <-! slice buf off (off + inode_size s) ;;
  inode <-! decode_inode s ino raw ;;
  sret (Ok inode).

(** The fields of [inode] put into its image. *)
Definition encode_inode (s : Ext4) (inode : Inode) : outcome (list Z) :=
  let! r := put_le16 (raw inode) INO_MODE (mode inode) in
  let! r := put_le32 r INO_SIZE_LO (wrap 32 (size inode)) in
  let! r := put_le32 r INO_BLOCKS_LO (wrap 32 (blocks inode)) in
  let! r := put_le32 r INO_FLAGS (flags inode) in
  if has_64bit s then
    let! r := put_le32 r INO_SIZE_HIGH (wrap 32 (Z.shiftr (size inode) 32)) in
    put_le32 r INO_BLOCKS_HIGH (wrap 32 (Z.shiftr (blocks inode) 32))
  else Ret r.

Definition fits_hi (s : Ext4) (r : list Z) : outcome bool :=
  if GOOD_OLD_INODE_SIZE <? inode_size s then
    let! extra := le16 r INO_EXTRA_ISIZE in Ret (4 <=? extra)
  else Ret false.

(** The checksum of an inode image, its two checksum fields taken as zero. *)
Definition inode_csum (s : Ext4) (ino : Z) (r : list Z) : outcome Z :=
  let! gen := le32 r INO_GENERATION in
  let seed := crc32c (crc32c (csum_seed s) (to_le 4 ino)) (to_le 4 gen) in
  let! hi := fits_hi s r in
  let! a := slice r 0 INO_CHECKSUM_LO in
  let! b := slice r (INO_CHECKSUM_LO + 2) GOOD_OLD_INODE_SIZE in
  let csum := crc32c (crc32c (crc32c seed a) [0; 0]) b in
  if GOOD_OLD_INODE_SIZE <? inode_size s then
    let! c := slice r GOOD_OLD_INODE_SIZE INO_CHECKSUM_HI in
    let csum := crc32c csum c in
    let csum := if hi then crc32c csum [0; 0] else csum in
    let tail := if hi then INO_CHECKSUM_HI + 2 else INO_CHECKSUM_HI in
    let! d := slice r tail (inode_size s) in
    Ret (crc32c csum d)
  else Ret csum.

Definition stamp_inode (s : Ext4) (ino : Z) (r : list Z) : outcome (list Z) :=
  if meta_csum s then
    let! csum := inode_csum s ino r in
    let! hi := fits_hi s r in
    let! r := put_le16 r INO_CHECKSUM_LO (wrap 16 csum) in
    if hi then put_le16 r INO_CHECKSUM_HI (wrap 16 (Z.shiftr csum 16)) else Ret r
  else Ret r.

(** [write_inode] also updates the image kept in the inode it is given. *)
Definition write_inode (inode : Inode) : M Ext4 (fs Inode) :=
  s <- sget ;;
  ' (block, off, _) <-? inode_location (ino inode) ;;
  buf <-? read_fsb block (zeros MAX_BLOCK_SIZE) ;;
  r <-! encode_inode s inode ;;
  r <-! stamp_inode s (ino inode) r ;;
  image <-! slice r 0 (inode_size s) ;;
  buf <-! splice buf off image ;;
  _ <-? write_fsb block buf ;;
  sret (Ok (with_raw inode r)).
End Inodes.

(** ** Inodes in the image *)

Section Laws.
Context {D : Type} `{BL : BlockLaws D}.
Abbreviation Ext4 := (Ext4 D).

(** The byte of the image inode [n] starts at. *)
Definition inode_byte (s : Ext4) (n : Z) : outcome Z :=
  let! gd := desc_at s ((n - 1) / ipg s) in
  let! table := gd_u32 s gd GD_INODE_TABLE_LO GD_INODE_TABLE_HI in
  Ret (table * bs s + (n - 1) mod ipg s * inode_size s).

(** The inode tables end below byte [2^64]. *)
Definition tables_fit (s : Ext4) (n : Z) : Prop := forall p, inode_byte s n = Ret p -> p < 2 ^ 64.

Lemma inode_byte_fits s n p :
  ext4_ok s -> aligned s -> 1 <= n -> inode_byte s n = Ret p ->
  0 <= p /\ p mod bs s + inode_size s <= bs s.
Proof.
  intros Hs [_ Ha] Hn Hp. unfold inode_byte in Hp.
  apply obind_Ret_inv in Hp as (gd & Hgd & Hp). apply obind_Ret_inv in Hp as (t & Ht & Hp).
  injection Hp as <-. destruct (desc_at_props _ _ _ Hs Hgd) as [Hl Hok].
  destruct (gd_u32_Ret s gd GD_INODE_TABLE_LO GD_INODE_TABLE_HI) as (v & Hv & Hr); try done.
  rewrite Ht in Hv. injection Hv as <-. pose proof (ok_bs s Hs). pose proof (ok_ipg s Hs).
  pose proof (Z.mod_pos_bound (n - 1) (ipg s)).
  split; [nia|]. apply record_fits; [lia|lia| |].
  - by destruct (ok_bs s Hs) as [->|[->| ->]], Ha as [->| ->].
  - destruct (ok_bs s Hs) as [->|[->| ->]], Ha as [->| ->]; lia.
Qed.

Lemma inode_location_spec s n :
  ext4_ok s -> aligned s -> 1 <= n <= 2 ^ 32 -> tables_fit s n ->
  exists r s', inode_location n s = Ret (r, s') /\ unchanged s s' /\
    match r with
    | Ok (blk, off, _) => exists p, inode_byte s n = Ret p /\ blk = p / bs s /\ off = p mod bs s
    | Err _ => True
    end.
Proof.
  intros Hs Ha Hn Hfit. unfold inode_location. rewrite sbind_get.
  rewrite (sbind_lift _ _ _ (n - 1)) by (apply chk_Ret; lia). cbv zeta. pose proof (ok_ipg s Hs).
  destruct (group_descriptor_spec s ((n - 1) / ipg s)) as (r & s' & Hrun & Hun & Hr);
    [done|done|apply Z.div_pos; lia|].
  destruct r as [[off buf]|e]; [|rewrite (qbind_Err _ _ _ _ _ Hrun); by eexists _, s'].
  rewrite (qbind_Ok _ _ _ _ _ Hrun). destruct Hr as (_ & gd & Hgd & Hsl).
  rewrite (sbind_lift _ _ _ gd) by done. destruct (desc_at_props _ _ _ Hs Hgd) as [Hl Hok].
  destruct (gd_u32_Ret s gd GD_INODE_TABLE_LO GD_INODE_TABLE_HI) as (v & Hv & Hr); try done.
  rewrite (sbind_lift _ _ _ v) by done.
  assert (inode_byte s n = Ret (v * bs s + (n - 1) mod ipg s * inode_size s)) as Hp.
  { unfold inode_byte. rewrite Hgd. cbn [obind]. by rewrite Hv. }
  pose proof (Hfit _ Hp). destruct (inode_byte_fits s n _ Hs Ha ltac:(lia) Hp) as [? _].
  erewrite sbind_lift by (apply chk_Ret; lia).
  eexists _, s'. split; [done|]. split; [done|]. by eexists.
Qed.

(** ** Fields of an inode image *)

Lemma decode_inode_Ret s n r :
  ext4_ok s -> blen r = inode_size s -> exists i, decode_inode s n r = Ret i.
Proof.
  intros Hs Hl. pose proof (ok_inode_size s Hs). unfold decode_inode.
  read_field_as r a1 H1 R1. read_field_as r a2 H2 R2.
  assert (exists v, (if has_64bit s then le32 r INO_SIZE_HIGH else Ret 0) = Ret v) as [v ->].
  { destruct (has_64bit s); [|eauto].
    destruct (get_le_Ret 4 r INO_SIZE_HIGH) as (v & Hv & _); unfold INO_SIZE_HIGH in *; eauto; lia. }
  cbn [obind]. read_field_as r a3 H3 R3.
  assert (exists v, (if has_64bit s then le32 r INO_BLOCKS_HIGH else Ret 0) = Ret v) as [v' ->].
  { destruct (has_64bit s); [|eauto].
    destruct (get_le_Ret 4 r INO_BLOCKS_HIGH) as (w & Hw & _); unfold INO_BLOCKS_HIGH in *; eauto; lia. }
  cbn [obind]. read_field_as r a4 H4 R4.
  rewrite splice_Ret by (rewrite ?blen_zeros by done; unfold MAX_INODE_SIZE; lia). eauto.
Qed.

(** An inode in memory, with values its on-disk fields can hold. *)
Record inode_wf (s : Ext4) (i : Inode) : Prop := {
  iw_raw : blen (raw i) = MAX_INODE_SIZE;
  iw_bytes : bytes_ok (raw i);
  iw_ino : 1 <= ino i < 2 ^ 32;
  iw_mode : 0 <= mode i < 2 ^ 16;
  iw_size : 0 <= size i < 2 ^ (if has_64bit s then 64 else 32);
  iw_blocks : 0 <= blocks i < 2 ^ (if has_64bit s then 64 else 32);
  iw_flags : 0 <= flags i < 2 ^ 32;
}.

(** The image [r] holds the fields of [i]. *)
Record carries (s : Ext4) (i : Inode) (r : list Z) : Prop := {
  ca_mode : le16 r INO_MODE = Ret (mode i);
  ca_size : le32 r INO_SIZE_LO = Ret (wrap 32 (size i));
  ca_blocks : le32 r INO_BLOCKS_LO = Ret (wrap 32 (blocks i));
  ca_flags : le32 r INO_FLAGS = Ret (flags i);
  ca_size_high : has_64bit s = true -> le32 r INO_SIZE_HIGH = Ret (wrap 32 (Z.shiftr (size i) 32));
  ca_blocks_high : has_64bit s = true -> le32 r INO_BLOCKS_HIGH = Ret (wrap 32 (Z.shiftr (blocks i) 32));
}.

(** Read a field through the writes of other fields. *)
Ltac through :=
  unfold le16, le32, put_le16, put_le32 in *;
  repeat match goal with
  | H : put_le ?n ?b ?o ?v = Ret ?b' |- get_le ?m ?b' ?o' = Ret ?v =>
      apply (get_put_same n b o v b' H); first [assumption | lia | apply (wrap_range 32); lia
                                               | apply (wrap_range 16); lia]
  | H : put_le ?n ?b ?o ?v = Ret ?b' |- get_le ?m ?b' ?o' = _ =>
      rewrite (get_put_other n m b o o' v b' H) by (cbv; intuition congruence)
  end.

Lemma encode_inode_spec s i :
  inode_wf s i -> exists r, encode_inode s i = Ret r /\ blen r = MAX_INODE_SIZE /\ bytes_ok r /\
    carries s i r.
Proof.
  intros [Hl Hok _ Hmode _ _ Hflags]. unfold encode_inode, put_le16, put_le32.
  unfold MAX_INODE_SIZE in Hl.
  destruct (put_le_Ret 2 (raw i) INO_MODE (mode i)) as (r1 & P1 & L1 & O1); [by cbv|cbn; unfold INO_MODE; lia|].
  rewrite P1. cbn [obind].
  destruct (put_le_Ret 4 r1 INO_SIZE_LO (wrap 32 (size i))) as (r2 & P2 & L2 & O2); [by cbv|cbn; unfold INO_SIZE_LO; lia|].
  rewrite P2. cbn [obind].
  destruct (put_le_Ret 4 r2 INO_BLOCKS_LO (wrap 32 (blocks i))) as (r3 & P3 & L3 & O3); [by cbv|cbn; unfold INO_BLOCKS_LO; lia|].
  rewrite P3. cbn [obind].
  destruct (put_le_Ret 4 r3 INO_FLAGS (flags i)) as (r4 & P4 & L4 & O4); [by cbv|cbn; unfold INO_FLAGS; lia|].
  rewrite P4. cbn [obind].
  destruct (has_64bit s) eqn:H64; cycle 1.
  { exists r4. split; [done|]. split; [unfold MAX_INODE_SIZE; lia|]. split; [by auto|].
    split; rewrite ?H64; try done; through. }
  destruct (put_le_Ret 4 r4 INO_SIZE_HIGH (wrap 32 (Z.shiftr (size i) 32))) as (r5 & P5 & L5 & O5);
    [by cbv|cbn; unfold INO_SIZE_HIGH; lia|]. rewrite P5. cbn [obind].
  destruct (put_le_Ret 4 r5 INO_BLOCKS_HIGH (wrap 32 (Z.shiftr (blocks i) 32))) as (r6 & P6 & L6 & O6);
    [by cbv|cbn; unfold INO_BLOCKS_HIGH; lia|]. rewrite P6.
  exists r6. split; [done|]. split; [unfold MAX_INODE_SIZE; lia|]. split; [by auto 10|].
  split; intros; through.
Qed.

(** Writing a checksum field changes none of these fields. *)
Lemma carries_put (s : Ext4) i r off v r' :
  put_le 2 r off v = Ret r' -> off = INO_CHECKSUM_LO \/ off = INO_CHECKSUM_HI ->
  carries s i r -> carries s i r'.
Proof.
  intros Hp Ho [ ]. split; intros; unfold le16, le32 in *;
    rewrite (get_put_other _ _ _ _ _ _ _ Hp) by (destruct Ho as [-> | ->]; cbv; intuition congruence);
    auto.
Qed.

(** The image carries the checksum ext4 prescribes for it. *)
Definition csum_ok (s : Ext4) (n : Z) (r : list Z) : Prop :=
  meta_csum s = true -> exists c, inode_csum s n r = Ret c /\
    le16 r INO_CHECKSUM_LO = Ret (wrap 16 c) /\
    (fits_hi s r = Ret true -> le16 r INO_CHECKSUM_HI = Ret (wrap 16 (Z.shiftr c 16))).

Lemma fits_hi_put (s : Ext4) r off v r' :
  put_le 2 r off v = Ret r' -> off = INO_CHECKSUM_LO \/ off = INO_CHECKSUM_HI ->
  fits_hi s r' = fits_hi s r.
Proof.
  intros Hp Ho. unfold fits_hi, le16.
  by rewrite (get_put_other _ _ _ _ _ _ _ Hp) by (destruct Ho as [-> | ->]; cbv; intuition congruence).
Qed.

Lemma inode_csum_put (s : Ext4) n r off v r' :
  put_le 2 r off v = Ret r' ->
  off = INO_CHECKSUM_LO \/ (off = INO_CHECKSUM_HI /\ fits_hi s r = Ret true) ->
  inode_csum s n r' = inode_csum s n r.
Proof.
  intros Hp Ho. assert (off = INO_CHECKSUM_LO \/ off = INO_CHECKSUM_HI) as Ho'
    by (destruct Ho as [?|[? _]]; auto).
  unfold inode_csum. rewrite (fits_hi_put _ _ _ _ _ Hp Ho'). unfold le32.
  rewrite (get_put_other _ _ _ _ _ _ _ Hp) by (destruct Ho' as [-> | ->]; cbv; intuition congruence).
  rewrite (slice_put_other _ _ _ _ _ 0 INO_CHECKSUM_LO Hp),
    (slice_put_other _ _ _ _ _ (INO_CHECKSUM_LO + 2) GOOD_OLD_INODE_SIZE Hp),
    (slice_put_other _ _ _ _ _ GOOD_OLD_INODE_SIZE INO_CHECKSUM_HI Hp)
    by (destruct Ho' as [-> | ->]; cbv; intuition congruence).
  destruct Ho as [-> | [-> Hhi]].
  - destruct (fits_hi s r) as [[]| |]; cbn [obind];
      rewrite ?(slice_put_other _ _ _ _ _ (INO_CHECKSUM_HI + 2) (inode_size s) Hp),
        ?(slice_put_other _ _ _ _ _ INO_CHECKSUM_HI (inode_size s) Hp)
      by (right; cbv; intuition congruence); done.
  - rewrite Hhi. cbn [obind].
    by rewrite (slice_put_other _ _ _ _ _ (INO_CHECKSUM_HI + 2) (inode_size s) Hp)
      by (right; cbv; intuition congruence).
Qed.

Lemma inode_csum_Ret s n r :
  ext4_ok s -> aligned s -> blen r = MAX_INODE_SIZE -> exists c hi, inode_csum s n r = Ret c /\ fits_hi s r = Ret hi.
Proof.
  intros Hs Ha Hl. pose proof (ok_inode_size s Hs). unfold MAX_INODE_SIZE in Hl. unfold inode_csum.
  read_field_as r gn Hg Rg.
  assert (exists hi, fits_hi s r = Ret hi) as [hi Hhi].
  { unfold fits_hi. case_test; [|eauto]. read_field_as r xt Hx Rx. eauto. }
  rewrite Hhi. cbn [obind].
  rewrite (slice_Ret r 0), (slice_Ret r (INO_CHECKSUM_LO + 2)) by (cbv -[blen Z.le Z.add]; lia).
  cbn [obind]. case_test; [|eauto]. unfold GOOD_OLD_INODE_SIZE in *.
  rewrite (slice_Ret r 128) by (unfold INO_CHECKSUM_HI; lia). cbn [obind].
  rewrite slice_Ret by (destruct Ha as [_ Ha], hi; unfold INO_CHECKSUM_HI; lia). cbn [obind]. eauto.
Qed.

Lemma stamp_inode_spec s i r :
  ext4_ok s -> aligned s -> blen r = MAX_INODE_SIZE -> bytes_ok r -> carries s i r ->
  exists r', stamp_inode s (ino i) r = Ret r' /\ blen r' = MAX_INODE_SIZE /\ bytes_ok r' /\
    carries s i r' /\ csum_ok s (ino i) r'.
Proof.
  intros Hs Ha Hl Hok Hc. unfold stamp_inode, csum_ok.
  destruct (meta_csum s) eqn:Hm; [|by exists r].
  destruct (inode_csum_Ret s (ino i) r Hs Ha Hl) as (c & hi & Hcs & Hhi). rewrite Hcs, Hhi. cbn [obind].
  unfold put_le16, le16.
  destruct (put_le_Ret 2 r INO_CHECKSUM_LO (wrap 16 c)) as (r1 & P1 & L1 & O1);
    [by cbv|rewrite Hl; by cbv|]. rewrite P1. cbn [obind].
  pose proof (inode_csum_put s (ino i) _ _ _ _ P1 ltac:(by left)) as Hcs1.
  pose proof (fits_hi_put s _ _ _ _ P1 ltac:(by left)) as Hhi1.
  pose proof (carries_put s i _ _ _ _ P1 ltac:(by left) Hc) as Hc1.
  pose proof (get_put_same _ _ _ _ _ P1 (wrap_range 16 c ltac:(lia))) as Hlo.
  destruct hi; cycle 1.
  { exists r1. split; [done|]. split; [lia|]. split; [auto|]. split; [done|]. intros _.
    exists c. rewrite Hcs1. split; [done|]. split; [done|]. by rewrite Hhi1, Hhi. }
  destruct (put_le_Ret 2 r1 INO_CHECKSUM_HI (wrap 16 (Z.shiftr c 16))) as (r2 & P2 & L2 & O2);
    [by cbv|rewrite L1, Hl; by cbv|].
  exists r2. rewrite P2. split; [done|]. split; [lia|]. split; [auto|].
  split; [by eapply carries_put; [exact P2|by right|]|]. intros _. exists c.
  rewrite (inode_csum_put s (ino i) _ _ _ _ P2) by (right; split; [done|by rewrite Hhi1]).
  rewrite Hcs1. split; [done|]. split.
  - rewrite (get_put_other _ _ _ _ _ _ _ P2) by (cbv; intuition congruence). exact Hlo.
  - intros _. exact (get_put_same _ _ _ _ _ P2 (wrap_range 16 _ ltac:(lia))).
Qed.

Lemma join_wrapped x : 0 <= x < 2 ^ 64 ->
  Z.lor (wrap 32 x) (Z.shiftl (wrap 32 (Z.shiftr x 32)) 32) = x.
Proof.
  intros Hx. rewrite join_halves by (lia || apply wrap_range; lia). unfold wrap.
  rewrite Z.shiftr_div_pow2 by lia. lia.
Qed.

(** Decoding the front of an image that carries [i] gives the fields of [i]. *)
Lemma decode_carries s i r front :
  ext4_ok s -> inode_wf s i -> blen r = MAX_INODE_SIZE -> carries s i r ->
  slice r 0 (inode_size s) = Ret front ->
  exists full, splice (zeros MAX_INODE_SIZE) 0 front = Ret full /\
    decode_inode s (ino i) front = Ret (with_raw i full).
Proof.
  intros Hs [_ _ _ _ Hsz Hbl _] Hl Hc Hf. pose proof (ok_inode_size s Hs).
  pose proof (slice_len _ _ _ _ Hf) as Hlf. unfold MAX_INODE_SIZE in Hl.
  assert (forall n o, 0 <= n -> 0 <= o -> o + n <= 128 -> get_le n front o = get_le n r o) as Hg.
  { intros n o Hn Ho Hle. rewrite <-(Z.add_0_l o) at 2. symmetry.
    apply (get_le_slice n r 0 (inode_size s) front o Hf); lia. }
  destruct (splice (zeros MAX_INODE_SIZE) 0 front) as [full| |] eqn:Hfull;
    [|rewrite splice_Ret in Hfull by (rewrite ?blen_zeros by done; unfold MAX_INODE_SIZE; lia); done..].
  exists full. split; [done|]. unfold decode_inode, le16, le32. destruct Hc. unfold le16, le32 in *.
  rewrite !Hg by (cbv; intuition congruence). rewrite ca_mode0, ca_size0. cbn [obind].
  destruct (has_64bit s) eqn:H64.
  - rewrite (ca_size_high0 eq_refl). cbn [obind]. rewrite ca_blocks0. cbn [obind].
    rewrite (ca_blocks_high0 eq_refl). cbn [obind]. rewrite ca_flags0, Hfull. cbn [obind].
    by rewrite !join_wrapped by done.
  - cbn [obind]. rewrite ca_blocks0. cbn [obind]. rewrite ca_flags0, Hfull. cbn [obind].
    rewrite Z.shiftl_0_l, !Z.lor_0_r. unfold wrap. by rewrite !Z.mod_small by done.
Qed.

Lemma read_inode_spec s n :
  ext4_ok s -> aligned s -> 1 <= n <= 2 ^ 32 -> tables_fit s n ->
  exists r s', read_inode n s = Ret (r, s') /\ unchanged s s' /\
    match r with
    | Ok i => exists p front, inode_byte s n = Ret p /\
        slice (image s) p (p + inode_size s) = Ret front /\ decode_inode s n front = Ret i
    | Err _ => True
    end.
Proof.
  intros Hs Ha Hn Hfit. unfold read_inode. rewrite sbind_get.
  destruct (inode_location_spec s n Hs Ha Hn Hfit) as (r & s1 & Hrun & Hun & Hr).
  destruct r as [[[blk off] g]|e]; [|rewrite (qbind_Err _ _ _ _ _ Hrun); by eexists _, s1].
  rewrite (qbind_Ok _ _ _ _ _ Hrun). destruct Hr as (p & Hp & -> & ->).
  destruct (inode_byte_fits s n p Hs Ha ltac:(lia) Hp) as [Hp0 Hpf]. pose proof (Hfit p Hp).
  pose proof (block_of_byte s p Hs Hp0) as [??].
  pose proof (unchanged_ok _ _ Hun Hs) as Hs1. pose proof Hun as [[Heq _] _].
  assert (bs s1 = bs s) as Hbs by (by rewrite Heq).
  destruct (read_fsb_spec s1 (p / bs s) (zeros MAX_BLOCK_SIZE)) as (r & s2 & Hrun2 & Hun2 & Hr);
    [done|lia|rewrite Hbs; lia|by apply zeros_block_len|].
  pose proof (unchanged_trans _ _ _ Hun Hun2) as Hun'.
  destruct r as [buf|e]; [|rewrite (qbind_Err _ _ _ _ _ Hrun2); by eexists _, s2].
  rewrite (qbind_Ok _ _ _ _ _ Hrun2). destruct Hr as (bytes & Hb & Hbuf).
  rewrite (unchanged_block _ _ _ Hun) in Hb. pose proof (ok_inode_size s Hs).
  destruct (record_in_block s p (inode_size s) bytes buf) as [Hsl (front & Hf)]; try done; [lia|].
  rewrite (sbind_lift _ _ _ front) by (by rewrite Hsl).
  destruct (decode_inode_Ret s n front Hs) as [i Hi]; [apply slice_len in Hf; lia|].
  rewrite (sbind_lift _ _ _ i) by done. eexists _, s2. split; [done|]. split; [done|]. by exists p, front.
Qed.

Lemma write_inode_spec s i :
  ext4_ok s -> aligned s -> inode_wf s i -> tables_fit s (ino i) ->
  exists r s', write_inode i s = Ret (r, s') /\ same_volume s s' /\
    match r with
    | Ok i' => exists p front, inode_byte s (ino i) = Ret p /\ i' = with_raw i (raw i') /\
        inode_wf s i' /\ carries s i (raw i') /\ csum_ok s (ino i) (raw i') /\
        slice (raw i') 0 (inode_size s) = Ret front /\ splice (image s) p front = Ret (image s')
    | Err _ => image s' = image s \/ exists p, inode_byte s (ino i) = Ret p /\
        let b := p / bs s * bs s in same_outside (image s) (image s') b (b + bs s)
    end.
Proof.
  intros Hs Ha Hwf Hfit. pose proof (iw_ino s i Hwf) as Hn. unfold write_inode. rewrite sbind_get.
  destruct (inode_location_spec s (ino i) Hs Ha ltac:(lia) Hfit) as (r & s1 & Hrun & Hun & Hr).
  destruct r as [[[blk off] g]|e].
  2: { rewrite (qbind_Err _ _ _ _ _ Hrun). eexists _, s1. split; [done|]. split; [apply Hun|].
       left. apply Hun. }
  rewrite (qbind_Ok _ _ _ _ _ Hrun). destruct Hr as (p & Hp & -> & ->).
  destruct (inode_byte_fits s (ino i) p Hs Ha ltac:(lia) Hp) as [Hp0 Hpf]. pose proof (Hfit p Hp).
  pose proof (block_of_byte s p Hs Hp0) as [??].
  pose proof (unchanged_ok _ _ Hun Hs) as Hs1. pose proof Hun as [[Heq _] _].
  assert (bs s1 = bs s) as Hbs by (by rewrite Heq).
  destruct (read_fsb_spec s1 (p / bs s) (zeros MAX_BLOCK_SIZE)) as (r & s2 & Hrun2 & Hun2 & Hr);
    [done|lia|rewrite Hbs; lia|by apply zeros_block_len|].
  pose proof (unchanged_trans _ _ _ Hun Hun2) as Hun'.
  destruct r as [buf|e].
  2: { rewrite (qbind_Err _ _ _ _ _ Hrun2). eexists _, s2. split; [done|]. split; [apply Hun'|].
       left. apply Hun'. }
  rewrite (qbind_Ok _ _ _ _ _ Hrun2). destruct Hr as (bytes & Hb & Hbuf).
  rewrite (unchanged_block _ _ _ Hun) in Hb. pose proof (ok_inode_size s Hs).
  destruct (encode_inode_spec s i Hwf) as (r1 & Henc & Hl1 & Hok1 & Hc1).
  rewrite (sbind_lift _ _ _ r1) by done.
  destruct (stamp_inode_spec s i r1 Hs Ha Hl1 Hok1 Hc1) as (r & Hst & Hl & Hok & Hc & Hcs).
  rewrite (sbind_lift _ _ _ r) by done.
  destruct (slice r 0 (inode_size s)) as [front| |] eqn:Hf;
    [|rewrite slice_Ret in Hf by (unfold MAX_INODE_SIZE in Hl; lia); done..].
  rewrite (sbind_lift _ _ _ front) by done. pose proof (slice_len _ _ _ _ Hf) as Hlf.
  destruct (record_write_spec s s2 p front bytes buf)
    as (buf' & res & s' & Hbuf' & Hrun' & Hsv & Hres); try done; [lia..|by eapply slice_bytes|].
  rewrite (sbind_lift _ _ _ buf') by done. destruct res as [[]|e].
  - rewrite (qbind_Ok _ _ _ _ _ Hrun'). eexists _, s'. split; [done|]. split; [done|].
    exists p, front. split; [done|]. split; [done|]. split; [by destruct Hwf; split|].
    cbn [with_raw raw]. done.
  - rewrite (qbind_Err _ _ _ _ _ Hrun'). eexists _, s'. split; [done|]. split; [done|].
    right. by exists p.
Qed.

(** The descriptor of the group of inode [n] does not overlap the inode. *)
Definition apart (s : Ext4) (n : Z) : Prop := forall p, inode_byte s n = Ret p ->
  let d := desc_byte s ((n - 1) / ipg s) in d + desc_size s <= p \/ p + inode_size s <= d.

Lemma inode_byte_kept s s' n p front :
  same_volume s s' -> apart s n -> inode_byte s n = Ret p -> blen front = inode_size s ->
  splice (image s) p front = Ret (image s') -> inode_byte s' n = Ret p.
Proof.
  intros Hsv Hap Hp Hl Himg. pose proof (Hap p Hp) as Hd. unfold inode_byte in *.
  assert (desc_at s' ((n - 1) / ipg s') = desc_at s ((n - 1) / ipg s)) as ->.
  { unfold desc_at. rewrite (same_volume_desc _ _ _ Hsv).
    assert (ipg s' = ipg s /\ desc_size s' = desc_size s) as [-> ->] by (by destruct Hsv as [-> _]).
    eapply slice_splice_disjoint; [done|]. rewrite Hl. cbv zeta in Hd. lia. }
  by destruct Hsv as [-> _].
Qed.

(** [write_inode] returns, and on success the volume image differs from the
    old one exactly by the on-disk inode: the [inode_size] bytes at the place
    the group descriptor gives now carry the mode, size, block count and flags
    of the inode, and the checksum that ext4 prescribes for these bytes. *)
Theorem write_inode_correct s i :
  ext4_ok s -> aligned s -> inode_wf s i -> tables_fit s (ino i) ->
  exists r s', write_inode i s = Ret (r, s') /\ ext4_ok s' /\
    match r with
    | Ok i' => exists p front, inode_byte s (ino i) = Ret p /\ i' = with_raw i (raw i') /\
        carries s i (raw i') /\ csum_ok s (ino i) (raw i') /\
        slice (raw i') 0 (inode_size s) = Ret front /\ splice (image s) p front = Ret (image s')
    | Err _ => image s' = image s \/ exists p, inode_byte s (ino i) = Ret p /\
        let b := p / bs s * bs s in same_outside (image s) (image s') b (b + bs s)
    end.
Proof.
  intros Hs Ha Hwf Hfit.
  destruct (write_inode_spec s i Hs Ha Hwf Hfit) as (r & s' & Hrun & Hsv & Hr).
  exists r, s'. split; [done|]. split; [by eapply same_volume_ok|].
  destruct r as [i'|]; [|done]. destruct Hr as (p & front & ? & ? & _ & ?). by exists p, front.
Qed.

(** C7: Reading back an inode. After a successful [write_inode] every
    [read_inode] of that inode returns, and if the device delivers the blocks
    it yields the mode, size, block count, flags and on-disk bytes written. *)
Theorem inode_roundtrip s i i' s' :
  ext4_ok s -> aligned s -> inode_wf s i -> tables_fit s (ino i) -> apart s (ino i) ->
  write_inode i s = Ret (Ok i', s') ->
  exists r s'', read_inode (ino i) s' = Ret (r, s'') /\ image s'' = image s' /\
    match r with
    | Ok j => ino j = ino i /\ mode j = mode i /\ size j = size i /\ blocks j = blocks i /\
        flags j = flags i /\ slice (raw j) 0 (inode_size s) = slice (raw i') 0 (inode_size s)
    | Err _ => True
    end.
Proof.
  intros Hs Ha Hwf Hfit Hap Hw.
  destruct (write_inode_spec s i Hs Ha Hwf Hfit) as (r & s1 & Hrun & Hsv & Hr).
  rewrite Hw in Hrun. injection Hrun as <- <-.
  destruct Hr as (p & front & Hp & Hi' & Hwf' & Hc & _ & Hf & Himg).
  pose proof (slice_len _ _ _ _ Hf) as Hlf. rewrite Z.sub_0_r in Hlf.
  pose proof (inode_byte_kept s s' _ p front Hsv Hap Hp Hlf Himg) as Hp'.
  pose proof (same_volume_ok _ _ Hsv Hs) as Hs'. pose proof (iw_ino s i Hwf).
  destruct (read_inode_spec s' (ino i)) as (r & s'' & Hrd & Hun & Hr);
    [done|by eapply same_volume_aligned|lia| |].
  { intros q Hq. rewrite Hp' in Hq. injection Hq as <-. by apply Hfit. }
  exists r, s''. split; [done|]. split; [apply Hun|]. destruct r as [j|]; [|done].
  destruct Hr as (q & fr & Hq & Hfr & Hdec). rewrite Hp' in Hq. injection Hq as <-.
  assert (inode_size s' = inode_size s) as Hsz by (by destruct Hsv as [-> _]).
  rewrite Hsz, <-Hlf, (slice_splice_same _ _ _ _ Himg) in Hfr. injection Hfr as <-.
  assert (decode_inode s' (ino i) front = decode_inode s (ino i) front) as Heq
    by (by destruct Hsv as [-> _]).
  destruct (decode_carries s i (raw i') front Hs Hwf (iw_raw _ _ Hwf') Hc Hf) as (full & Hfull & Hd).
  rewrite Heq, Hd in Hdec. injection Hdec as <-. cbn [with_raw ino mode size blocks flags raw].
  split_and!; try done. rewrite Hf, <-Hlf. exact (slice_splice_same _ _ _ _ Hfull).
Qed.
End Laws.

(** ** Witnesses *)

Definition sample_inode : Inode := mkInode 3 0x81A4 5 2 INO_FLAG_EXTENTS (zeros 256).

Lemma sample_inode_wf : inode_wf sample_volume sample_inode.
Proof.
  assert (has_64bit sample_volume = true) as H64 by (vm_compute; reflexivity).
  split; rewrite ?H64; cbn; try lia; [done|apply zeros_bytes|unfold INO_FLAG_EXTENTS; lia].
Qed.

Lemma sample_inode_byte : inode_byte sample_volume 3 = Ret 5632.
Proof. vm_compute. reflexivity. Qed.

Lemma sample_fit : tables_fit sample_volume 3.
Proof. intros p. rewrite sample_inode_byte. intros [= <-]. lia. Qed.

Lemma sample_apart : apart sample_volume 3.
Proof.
  intros p. rewrite sample_inode_byte. intros [= <-]. cbv zeta. left.
  assert (desc_byte sample_volume ((3 - 1) / ipg sample_volume) + desc_size sample_volume = 2112) as ->
    by (vm_compute; reflexivity). lia.
Qed.

Lemma sample_written : is_ok (write_inode sample_inode sample_volume) = true.
Proof. vm_compute. reflexivity. Qed.

Lemma write_inode_correct_witness : exists i' s',
  write_inode sample_inode sample_volume = Ret (Ok i', s') /\ ext4_ok s' /\
  carries sample_volume sample_inode (raw i') /\ csum_ok sample_volume 3 (raw i').
Proof.
  pose proof (write_inode_correct sample_volume sample_inode sample_ok sample_aligned sample_inode_wf
                sample_fit) as H.
  pose proof sample_written as Hok. destruct H as (r & s' & Hrun & Hs' & Hr). rewrite Hrun in Hok.
  destruct r as [i'|]; [|discriminate]. exists i', s'. split; [done|]. split; [done|].
  destruct Hr as (p & front & _ & _ & Hc & Hcs & _). by split.
Defined.

Lemma inode_roundtrip_witness : exists i' s' r s'',
  write_inode sample_inode sample_volume = Ret (Ok i', s') /\
  read_inode 3 s' = Ret (r, s'') /\ match r with Ok j => size j = 5 | Err _ => True end.
Proof.
  pose proof sample_written as Hok.
  destruct (write_inode sample_inode sample_volume) as [[[i'|e] s']| |] eqn:Hw; try discriminate Hok.
  pose proof (inode_roundtrip sample_volume sample_inode i' s' sample_ok sample_aligned sample_inode_wf
                sample_fit sample_apart Hw) as (r & s'' & Hrun & _ & Hr).
  exists i', s', r, s''. split; [done|]. split; [exact Hrun|].
  destruct r as [j|]; [|done]. destruct Hr as (_ & _ & Hsz & _). exact Hsz.
Defined.
