(* ===== verification/Ext4Alloc.v ===== *)
(** * Allocation of ext4 blocks and inodes ([src/src/ext4.rs], lines 652-845)

    The bitmaps, the reserved blocks, and the bookkeeping of an allocation in
    the group descriptor and the superblock. *)

From S2P Require Import Prelude Block Crc.
From stdpp Require Import list.
From S2P Require Import Ext4Layout Ext4.
#[local] Open Scope Z_scope.

Section Alloc.
Context {D : Type} `{BD : BlockDevice D}.
Abbreviation Ext4 := (Ext4 D).

(** The block a bitmap of [group] is in. *)
Definition read_bitmap (group : Z) (want_inode : bool) : M Ext4 (fs Z) :=
  s <- sget ;;
  ' (off, gd_buf) <-? group_descriptor group (zeros MAX_BLOCK_SIZE) ;;
  gd <-! slice gd_buf off (off + desc_size s) ;;
  v <-! (if want_inode then gd_u32 s gd GD_INODE_BITMAP_LO GD_INODE_BITMAP_HI
         else gd_u32 s gd GD_BLOCK_BITMAP_LO GD_BLOCK_BITMAP_HI) ;;
  sret (Ok v).

(** The end of the descriptor table with its reserve. Here and below a product
    of a [u32] and a [u16] cannot overflow a [u64]. *)
Definition reserved_end (s : Ext4) : outcome Z :=
  let table_bytes := num_groups s * desc_size s in
  chk 64 (gdt_fsb s + (table_bytes + bs s - 1) / bs s + reserved_gdt_blocks s).

(** The blocks of a group its descriptor names: the two bitmaps and the inode
    table. *)
Definition in_metadata (s : Ext4) (gd : list Z) (fsb : Z) : outcome bool :=
  let! bb := gd_u32 s gd GD_BLOCK_BITMAP_LO GD_BLOCK_BITMAP_HI in
  let! ib := gd_u32 s gd GD_INODE_BITMAP_LO GD_INODE_BITMAP_HI in
  let! it := gd_u32 s gd GD_INODE_TABLE_LO GD_INODE_TABLE_HI in
  let it_blocks := (inodes_total s / num_groups s * inode_size s + bs s - 1) / bs s in
  if (fsb =? bb) || (fsb =? ib) then Ret true else
  if fsb <? it then Ret false else
  let! it_end := chk 64 (it + it_blocks) in
  Ret (fsb <? it_end).

Definition block_reserved (group fsb : Z) : M Ext4 bool :=
  s <- sget ;;
  low <-! (if group =? 0 then let! e := reserved_end s in Ret (fsb <? e) else Ret false) ;;
  if low : bool then sret true else
  r <- group_descriptor group (zeros MAX_BLOCK_SIZE) ;;
  match r with
  | Ok (off, gd_buf) =>
      gd <-! slice gd_buf off (off + desc_size s) ;;
      slift (in_metadata s gd fsb)
  | Err _ => sret true
  end.

(** One bit of the bitmap [bm] of [group]: a free one is taken, unless it is a
    block outside the volume or a reserved one. *)
Definition try_bit (want_inode : bool) (group bitmap_fsb units : Z) (bm : list Z) (by_ bit : Z)
    (_ : unit) : M Ext4 (flow unit (fs Z)) :=
  s <- sget ;;
  v <-! get8 bm by_ ;;
  if negb (Z.land v (Z.shiftl 1 bit) =? 0) then sret (Next tt) else
  let idx := by_ * 8 + bit in
  if units <=? wrap 32 idx then sret (Next tt) else
  if want_inode then
    n <-! chk 64 (group * ipg s + idx + 1) ;;
    bm <-! put8 bm by_ (Z.lor v (Z.shiftl 1 bit)) ;;
    _ <-& write_fsb bitmap_fsb bm ;;
    sret (Exit (Ok n))
  else
    fsb <-! chk 64 (first_data_block s + group * bpg s + idx) ;;
    if blocks_total s <=? fsb then sret (Next tt) else
    reserved <- block_reserved group fsb ;;
    if reserved : bool then sret (Next tt) else
    bm <-! put8 bm by_ (Z.lor v (Z.shiftl 1 bit)) ;;
    _ <-& write_fsb bitmap_fsb bm ;;
    sret (Exit (Ok fsb)).

Definition try_byte (want_inode : bool) (group bitmap_fsb units : Z) (bm : list Z) (by_ : Z)
    (_ : unit) : M Ext4 (flow unit (fs Z)) :=
  v <-! get8 bm by_ ;;
  if v =? 0xFF then sret (Next tt) else
  for_loop 8 0 (try_bit want_inode group bitmap_fsb units bm by_) tt.

Definition try_group (want_inode : bool) (units bitmap_bytes : Z) (group : Z) (_ : unit)
    : M Ext4 (flow unit (fs Z)) :=
  bitmap_fsb <-& read_bitmap group want_inode ;;
  bm <-& read_fsb bitmap_fsb (zeros MAX_BLOCK_SIZE) ;;
  for_loop (Z.to_nat bitmap_bytes) 0 (try_byte want_inode group bitmap_fsb units bm) tt.

(** A free unit, marked in its bitmap: a block number or an inode number. *)
Definition alloc_bit (want_inode : bool) : M Ext4 (fs Z) :=
  s <- sget ;;
  let units := if want_inode then ipg s else bpg s in
  let bitmap_bytes := units / 8 in
  f <- for_loop (Z.to_nat (num_groups s)) 0 (try_group want_inode units bitmap_bytes) tt ;;
  match f with
  | Next _ => sret (Err FsError.NoSpace)
  | Exit r => sret r
  end.

(** Add [d] to a 16-bit counter of a descriptor, its high half at [hi] used on
    64-bit volumes. *)
Definition bump (desc64 : bool) (gd : list Z) (lo hi d : Z) : outcome (list Z) :=
  let! l := le16 gd lo in
  let! h := if desc64 then le16 gd hi else Ret 0 in
  let v := Z.lor l (Z.shiftl h 16) + d in
  let! gd := put_le16 gd lo (wrap 16 v) in
  if desc64 then put_le16 gd hi (wrap 16 (Z.shiftr v 16)) else Ret gd.

Definition put_csum (desc64 : bool) (gd : list Z) (lo hi : Z) (c : option Z) : outcome (list Z) :=
  match c with
  | Some c =>
      let! gd := put_le16 gd lo (wrap 16 c) in
      if desc64 then put_le16 gd hi (wrap 16 (Z.shiftr c 16)) else Ret gd
  | None => Ret gd
  end.

(** The closure [commit_alloc] hands to [with_group]. *)
Definition commit_group (desc64 : bool) (dblk dino ddir : Z) (bb ib itu : option Z) (gd : list Z)
    : outcome (list Z) :=
  let! gd := bump desc64 gd GD_FREE_BLOCKS_LO GD_FREE_BLOCKS_HI dblk in
  let! gd := bump desc64 gd GD_FREE_INODES_LO GD_FREE_INODES_HI dino in
  let! gd := if negb (ddir =? 0) then bump desc64 gd GD_USED_DIRS_LO GD_USED_DIRS_HI ddir
             else Ret gd in
  let! gd := put_csum desc64 gd GD_BLOCK_BITMAP_CSUM_LO GD_BLOCK_BITMAP_CSUM_HI bb in
  let! gd := put_csum desc64 gd GD_INODE_BITMAP_CSUM_LO GD_INODE_BITMAP_CSUM_HI ib in
  match itu with
  | Some u =>
      let! gd := put_le16 gd GD_ITABLE_UNUSED_LO u in
      if desc64 then put_le16 gd GD_ITABLE_UNUSED_HI 0 else Ret gd
  | None => Ret gd
  end.

Definition commit_alloc (group dblk dino ddir : Z) (bb ib itu : option Z) : M Ext4 (fs unit) :=
  s <- sget ;;
  _ <-? with_group group (commit_group (has_64bit s) dblk dino ddir bb ib itu) ;;
  persist_super_counts dblk dino.

Definition alloc_block : M Ext4 (fs Z) :=
  fsb <-? alloc_bit false ;;
  s <- sget ;;
  rel <-! chk 64 (fsb - first_data_block s) ;;
  let group := wrap 32 (rel / bpg s) in
  bm_fsb <-? read_bitmap group false ;;
  bm <-? read_fsb bm_fsb (zeros MAX_BLOCK_SIZE) ;;
  bb <-! (if meta_csum s then
            let! b := slice bm 0 (bpg s / 8) in Ret (crc32c (csum_seed s) b)
          else Ret 0) ;;
  _ <-? commit_alloc group (-1) 0 0 (Some bb) None None ;;
  sret (Ok fsb).

Definition alloc_inode (is_dir : bool) : M Ext4 (fs Z) :=
  n <-? alloc_bit true ;;
  let ino := wrap 32 n in
  s <- sget ;;
  ino' <-! chk 32 (ino - 1) ;;
  let group := ino' / ipg s in
  let index := ino' mod ipg s in
  bm_fsb <-? read_bitmap group true ;;
  bm <-? read_fsb bm_fsb (zeros MAX_BLOCK_SIZE) ;;
  ib <-! (if meta_csum s then
            let! b := slice bm 0 (ipg s / 8) in Ret (crc32c (csum_seed s) b)
          else Ret 0) ;;
  ' (off, gd_buf) <-? group_descriptor group (zeros MAX_BLOCK_SIZE) ;;
  gd <-! slice gd_buf off (off + desc_size s) ;;
  current <-! gd_u16 s gd GD_ITABLE_UNUSED_LO GD_ITABLE_UNUSED_HI ;;
  let max_unused := ipg s - index - 1 in
  let new_unused := wrap 16 (Z.min current max_unused) in
  _ <-? commit_alloc group 0 (-1) (if is_dir then 1 else 0) None (Some ib) (Some new_unused) ;;
  sret (Ok ino).
End Alloc.

(** ** Allocating a bit *)

Section Laws.
Context {D : Type} `{BL : BlockLaws D}.
Abbreviation Ext4 := (Ext4 D).

(** The three addresses a descriptor holds. *)
Definition addr_field (lo hi : Z) : Prop :=
  (lo, hi) ∈ [(GD_BLOCK_BITMAP_LO, GD_BLOCK_BITMAP_HI); (GD_INODE_BITMAP_LO, GD_INODE_BITMAP_HI);
              (GD_INODE_TABLE_LO, GD_INODE_TABLE_HI)].

(** They lie below byte [2^63] of the volume. *)
Definition addrs_fit (s : Ext4) : Prop := forall group gd lo hi v,
  0 <= group < num_groups s -> desc_at s group = Ret gd -> addr_field lo hi ->
  gd_u32 s gd lo hi = Ret v -> v * bs s < 2 ^ 63.

Definition units (s : Ext4) (want_inode : bool) : Z := if want_inode then ipg s else bpg s.

(** A bitmap fits in one block. *)
Definition bitmaps_fit (s : Ext4) : Prop := ipg s / 8 <= bs s /\ bpg s / 8 <= bs s.

(** The block of a bitmap. *)
Definition bitmap_block (s : Ext4) (want_inode : bool) (group : Z) : outcome Z :=
  let! gd := desc_at s group in
  if want_inode then gd_u32 s gd GD_INODE_BITMAP_LO GD_INODE_BITMAP_HI
  else gd_u32 s gd GD_BLOCK_BITMAP_LO GD_BLOCK_BITMAP_HI.

(** Block [n] is none of the metadata blocks of [group]. *)
Definition not_metadata (s : Ext4) (group n : Z) : Prop :=
  (group = 0 -> gdt_fsb s + (num_groups s * desc_size s + bs s - 1) / bs s + reserved_gdt_blocks s <= n) /\
  exists gd bb ib it, desc_at s group = Ret gd /\
    gd_u32 s gd GD_BLOCK_BITMAP_LO GD_BLOCK_BITMAP_HI = Ret bb /\
    gd_u32 s gd GD_INODE_BITMAP_LO GD_INODE_BITMAP_HI = Ret ib /\
    gd_u32 s gd GD_INODE_TABLE_LO GD_INODE_TABLE_HI = Ret it /\
    n <> bb /\ n <> ib /\
    ~ (it <= n < it + (inodes_total s / num_groups s * inode_size s + bs s - 1) / bs s).

(** Between [s] and [s'] one bit was taken, and it stands for unit [n]. *)
Record taken (s s' : Ext4) (want_inode : bool) (n group byte bit : Z) : Prop := {
  tk_group : 0 <= group < num_groups s;
  tk_byte : 0 <= byte < units s want_inode / 8;
  tk_bit : 0 <= bit < 8;
  tk_unit : n = if want_inode then group * ipg s + 8 * byte + bit + 1
                else first_data_block s + group * bpg s + 8 * byte + bit;
  tk_image : exists bm v, bitmap_block s want_inode group = Ret bm /\
    get8 (image s) (bm * bs s + byte) = Ret v /\ Z.testbit v bit = false /\
    put8 (image s) (bm * bs s + byte) (Z.lor v (Z.shiftl 1 bit)) = Ret (image s');
  tk_block : want_inode = false -> n < blocks_total s /\ not_metadata s group n;
}.

Lemma addr_field_inv lo hi : addr_field lo hi ->
  (lo = GD_BLOCK_BITMAP_LO /\ hi = GD_BLOCK_BITMAP_HI) \/
  (lo = GD_INODE_BITMAP_LO /\ hi = GD_INODE_BITMAP_HI) \/
  (lo = GD_INODE_TABLE_LO /\ hi = GD_INODE_TABLE_HI).
Proof.
  unfold addr_field. rewrite !elem_of_cons, elem_of_nil.
  intros [[= -> ->]|[[= -> ->]|[[= -> ->]|[]]]]; auto.
Qed.

Lemma addr_field_cases lo hi : addr_field lo hi -> 0 <= lo /\ lo + 4 <= 32 /\ 0 <= hi /\ hi + 4 <= 64.
Proof. intros [[-> ->]|[[-> ->]|[-> ->]]]%addr_field_inv; by cbv. Qed.

Lemma addr_block : addr_field GD_BLOCK_BITMAP_LO GD_BLOCK_BITMAP_HI.
Proof. unfold addr_field. set_solver. Qed.
Lemma addr_inode : addr_field GD_INODE_BITMAP_LO GD_INODE_BITMAP_HI.
Proof. unfold addr_field. set_solver. Qed.
Lemma addr_table : addr_field GD_INODE_TABLE_LO GD_INODE_TABLE_HI.
Proof. unfold addr_field. set_solver. Qed.

Lemma read_addr s group gd lo hi :
  ext4_ok s -> addrs_fit s -> 0 <= group < num_groups s -> desc_at s group = Ret gd -> addr_field lo hi ->
  exists v, gd_u32 s gd lo hi = Ret v /\ 0 <= v /\ v * bs s < 2 ^ 63.
Proof.
  intros Hs Hfit Hg Hgd Hf. destruct (desc_at_props _ _ _ Hs Hgd) as [Hl Hok].
  destruct (addr_field_cases _ _ Hf) as (?&?&?&?).
  destruct (gd_u32_Ret s gd lo hi Hs Hl Hok) as (v & Hv & Hr); [done..|].
  exists v. split; [done|]. split; [lia|]. by eapply Hfit.
Qed.

(** Nothing that depends on the descriptors changes while the image stays. *)
Lemma unchanged_gd s t gd lo hi : unchanged s t -> gd_u32 t gd lo hi = gd_u32 s gd lo hi.
Proof. by intros [[-> _] _]. Qed.

Lemma read_bitmap_spec s t w group :
  ext4_ok s -> aligned s -> addrs_fit s -> unchanged s t -> 0 <= group < num_groups s ->
  exists r t', read_bitmap group w t = Ret (r, t') /\ unchanged s t' /\
    match r with
    | Ok bm => bitmap_block s w group = Ret bm /\ 0 <= bm /\ bm * bs s < 2 ^ 63
    | Err _ => True
    end.
Proof.
  intros Hs Ha Hfit Hun Hg. unfold read_bitmap. rewrite sbind_get.
  pose proof (unchanged_ok _ _ Hun Hs) as Ht. pose proof Hun as [Hsv _].
  destruct (group_descriptor_spec t group) as (r & t' & Hrun & Hun' & Hr);
    [done|by eapply same_volume_aligned|lia|].
  pose proof (unchanged_trans _ _ _ Hun Hun') as Hun2.
  destruct r as [[off buf]|e]; [|rewrite (qbind_Err _ _ _ _ _ Hrun); by eexists _, t'].
  rewrite (qbind_Ok _ _ _ _ _ Hrun). destruct Hr as (_ & gd & Hgd & Hsl).
  rewrite (sbind_lift _ _ _ gd) by done. rewrite (unchanged_desc _ _ _ Hun) in Hgd.
  destruct (read_addr s group gd _ _ Hs Hfit Hg Hgd addr_inode) as (vi & Hvi & ?&?).
  destruct (read_addr s group gd _ _ Hs Hfit Hg Hgd addr_block) as (vb & Hvb & ?&?).
  exists (Ok (if w then vi else vb)), t'. rewrite !(unchanged_gd _ _ _ _ _ Hun), Hvi, Hvb.
  unfold bitmap_block. rewrite Hgd. cbn [obind]. rewrite Hvi, Hvb. destruct w; done.
Qed.

Lemma reserved_end_Ret s : ext4_ok s ->
  reserved_end s = Ret (gdt_fsb s + (num_groups s * desc_size s + bs s - 1) / bs s + reserved_gdt_blocks s).
Proof.
  intros Hs. unfold reserved_end. destruct Hs.
  assert (0 <= num_groups s * desc_size s <= 2 ^ 32 * 2 ^ 16) by nia.
  assert (0 <= (num_groups s * desc_size s + bs s - 1) / bs s <= 2 ^ 49).
  { split; [apply Z.div_pos; lia|]. apply Z.div_le_upper_bound; nia. }
  apply chk_Ret. lia.
Qed.

Lemma table_blocks s : ext4_ok s ->
  0 <= (inodes_total s / num_groups s * inode_size s + bs s - 1) / bs s <= 2 ^ 41.
Proof.
  intros [ ]. assert (0 <= inodes_total s / num_groups s <= 2 ^ 32).
  { destruct (decide (num_groups s = 0)) as [->|]; [rewrite Z.div_0_r; lia|].
    split; [apply Z.div_pos; lia|]. apply Z.div_le_upper_bound; nia. }
  split; [apply Z.div_pos; nia|]. apply Z.div_le_upper_bound; nia.
Qed.

Lemma addr_bound s v : ext4_ok s -> 0 <= v -> v * bs s < 2 ^ 63 -> v < 2 ^ 53.
Proof. intros Hs Hv Hb. destruct (ok_bs s Hs) as [E|[E|E]]; rewrite E in Hb; lia. Qed.

(** A block [block_reserved] lets pass is no metadata block. *)
Lemma block_reserved_spec s t group n :
  ext4_ok s -> aligned s -> addrs_fit s -> unchanged s t -> 0 <= group < num_groups s -> 0 <= n ->
  exists b t', block_reserved group n t = Ret (b, t') /\ unchanged s t' /\
    (b = false -> not_metadata s group n).
Proof.
  intros Hs Ha Hfit Hun Hg Hn. unfold block_reserved. rewrite sbind_get.
  pose proof (unchanged_ok _ _ Hun Hs) as Ht. pose proof Hun as [[Heq _] _].
  rewrite (reserved_end_Ret t Ht). cbn [obind].
  assert (forall A (f : Ext4 -> A), (forall d, f (set_dev s d) = f s) -> f t = f s) as Hsame
    by (intros A f Hf; rewrite Heq; apply Hf).
  rewrite (Hsame _ (fun u => gdt_fsb u + (num_groups u * desc_size u + bs u - 1) / bs u + reserved_gdt_blocks u))
    by done. set (e := gdt_fsb s + _ + _).
  rewrite (sbind_lift _ _ _ (if group =? 0 then n <? e else false)) by (by case_test).
  destruct (if group =? 0 then n <? e else false) eqn:Hlow; [by exists true, t|].
  assert (group = 0 -> e <= n) as Hend by (intros ->; cbn in Hlow; lia).
  destruct (group_descriptor_spec t group) as (r & t' & Hrun & Hun' & Hr);
    [done|by eapply same_volume_aligned; [apply Hun|]|lia|].
  pose proof (unchanged_trans _ _ _ Hun Hun') as Hun2.
  rewrite (sbind_Ret _ _ _ _ _ Hrun). destruct r as [[off buf]|err]; [|by exists true, t'].
  destruct Hr as (_ & gd & Hgd & Hsl). rewrite (sbind_lift _ _ _ gd) by done.
  rewrite (unchanged_desc _ _ _ Hun) in Hgd.
  destruct (read_addr s group gd _ _ Hs Hfit Hg Hgd addr_block) as (bb & Hbb & ?&?).
  destruct (read_addr s group gd _ _ Hs Hfit Hg Hgd addr_inode) as (ib & Hib & ?&?).
  destruct (read_addr s group gd _ _ Hs Hfit Hg Hgd addr_table) as (it & Hit & Hit0 & Hit1).
  unfold in_metadata. rewrite !(unchanged_gd _ _ _ _ _ Hun), Hbb, Hib, Hit. cbn [obind].
  rewrite (Hsame _ (fun u => (inodes_total u / num_groups u * inode_size u + bs u - 1) / bs u)) by done.
  pose proof (table_blocks s Hs) as Htb. pose proof (ok_bs s Hs).
  set (nb := (inodes_total s / _ * _ + _ - 1) / _) in *.
  assert (unchanged s t' /\ (n = bb \/ n = ib \/ it <= n < it + nb \/ not_metadata s group n)) as [_ Hcase].
  { split; [done|]. destruct (decide (n = bb)); [auto|]. destruct (decide (n = ib)); [auto|].
    destruct (decide (it <= n < it + nb)); [auto|]. right; right; right.
    split; [done|]. exists gd, bb, ib, it. by split_and!. }
  case_test; [by exists true, t'|]. case_test; [exists false, t'; split; [done|]; split; [done|]; lia || idtac|].
  - intros _. destruct Hcase as [->|[->|[?|?]]]; [lia..|done].
  - clearbody nb e. pose proof (addr_bound s it Hs Hit0 Hit1) as Hit2.
    rewrite chk_Ret by (clear -Hit0 Htb Hit2; lia). cbn [obind slift]. exists (n <? it + nb), t'. split; [done|]. split; [done|].
    intros ?. destruct Hcase as [->|[->|[?|?]]]; [lia..|done].
Qed.

(** What an attempt to take a bit has done to the volume. *)
Definition alloc_post (s : Ext4) (w : bool) (r : fs Z) (t : Ext4) : Prop :=
  same_volume s t /\
  match r with
  | Ok n => exists group byte bit, taken s t w n group byte bit
  | Err _ => exists b, same_outside (image s) (image t) (b * bs s) (b * bs s + bs s)
  end.

Lemma unchanged_post s w e t : unchanged s t -> alloc_post s w (Err e) t.
Proof. intros [Hsv Hi]. split; [done|]. exists 0. rewrite Hi. apply same_outside_refl. Qed.

Section OneBitmap.
Context (s : Ext4) (w : bool) (group bfsb : Z) (bytes bm : list Z).
Hypotheses (Hs : ext4_ok s) (Ha : aligned s) (Hfit : addrs_fit s) (Hbf : bitmaps_fit s)
  (Hg : 0 <= group < num_groups s) (Hblk : bitmap_block s w group = Ret bfsb)
  (Hb0 : 0 <= bfsb) (Hb1 : bfsb * bs s < 2 ^ 63)
  (Hbytes : block_at s bfsb = Ret bytes) (Hbm : splice (zeros MAX_BLOCK_SIZE) 0 bytes = Ret bm).

Lemma byte_in_block by_ : 0 <= by_ < units s w / 8 ->
  by_ < bs s /\ (bfsb * bs s + by_) / bs s = bfsb /\ (bfsb * bs s + by_) mod bs s = by_.
Proof.
  intros Hby. assert (by_ < bs s) as Hlt.
  { destruct Hbf. unfold units in Hby. destruct w; lia. }
  pose proof (ok_bs s Hs). split; [done|]. split.
  - rewrite Z.div_add_l, Z.div_small by lia. lia.
  - by rewrite Z.add_comm, Z.mod_add, Z.mod_small by lia.
Qed.

Lemma bitmap_byte by_ : 0 <= by_ < units s w / 8 ->
  exists v, get8 bm by_ = Ret v /\ get8 (image s) (bfsb * bs s + by_) = Ret v /\ 0 <= v < 2 ^ 8.
Proof.
  intros Hby. destruct (byte_in_block by_ Hby) as (Hlt & _).
  pose proof (slice_len _ _ _ _ Hbytes) as Hl. unfold blen in Hl.
  destruct (lookup_lt_is_Some_2 bytes (Z.to_nat by_)) as [v Hv]; [lia|].
  assert (bm !! Z.to_nat by_ = Some v) as Hv1.
  { rewrite <-Hv. apply (splice_lookup_in _ 0 _ _ (Z.to_nat by_) Hbm). lia. }
  pose proof (ok_bs s Hs).
  assert (image s !! Z.to_nat (bfsb * bs s + by_) = Some v) as Hv2.
  { rewrite <-Hv. rewrite (slice_lookup _ _ _ _ _ Hbytes) by lia. f_equal. lia. }
  exists v. unfold get8. case_test; [lia|]. case_test; [nia|]. rewrite Hv1, Hv2.
  split; [done|]. split; [done|]. change (2 ^ 8) with 256.
  eapply (Forall_lookup_1 (fun x => 0 <= x < 256)); [|exact Hv].
  eapply slice_bytes; [exact Hbytes|]. apply bd_bytes, Hs.
Qed.

(** Set one byte of the bitmap and write its block. *)
Lemma mark_spec t by_ v' :
  unchanged s t -> 0 <= by_ < units s w / 8 -> 0 <= v' < 2 ^ 8 ->
  exists bm' r t', put8 bm by_ v' = Ret bm' /\ write_fsb bfsb bm' t = Ret (r, t') /\ same_volume s t' /\
    match r with
    | Ok _ => put8 (image s) (bfsb * bs s + by_) v' = Ret (image t')
    | Err _ => same_outside (image s) (image t') (bfsb * bs s) (bfsb * bs s + bs s)
    end.
Proof.
  intros Hun Hby Hv. destruct (byte_in_block by_ Hby) as (Hlt & Hdiv & Hmod).
  assert (0 <= bfsb * bs s) by (pose proof (ok_bs s Hs); nia). pose proof (ok_bs s Hs).
  destruct (record_write_spec s t (bfsb * bs s + by_) [v'] bytes bm)
    as (bm' & r & t' & Hp & Hw & Hsv & Hr).
  - done.
  - done.
  - lia.
  - rewrite Hmod. change (blen [v']) with 1. lia.
  - constructor; [lia|constructor].
  - by rewrite Hdiv.
  - done.
  - rewrite Hdiv, ?Hmod in *. by exists bm', r, t'.
Qed.

Lemma unit_range by_ bit : 0 <= by_ < units s w / 8 -> 0 <= bit < 8 ->
  0 <= by_ * 8 + bit < units s w /\ 0 <= first_data_block s + group * bpg s + (by_ * 8 + bit) < 2 ^ 64 /\
  0 <= group * ipg s + (by_ * 8 + bit) + 1 < 2 ^ 64.
Proof.
  intros Hby Hbit. pose proof (ok_bpg s Hs). pose proof (ok_ipg s Hs). pose proof (ok_groups s Hs).
  pose proof (ok_first s Hs).
  assert (0 <= by_ * 8 + bit < units s w) as Hidx by lia.
  assert (units s w < 2 ^ 32) by (unfold units; destruct w; lia).
  assert (0 <= group * bpg s <= (2 ^ 32 - 2) * (2 ^ 32 - 1)) by (split; [nia|apply Z.mul_le_mono_nonneg; lia]).
  assert (0 <= group * ipg s <= (2 ^ 32 - 2) * (2 ^ 32 - 1)) by (split; [nia|apply Z.mul_le_mono_nonneg; lia]).
  lia.
Qed.

Lemma try_bit_spec t by_ bit :
  unchanged s t -> 0 <= by_ < units s w / 8 -> 0 <= bit < 8 ->
  exists f t', try_bit w group bfsb (units s w) bm by_ bit tt t = Ret (f, t') /\
    match f with Next _ => unchanged s t' | Exit r => alloc_post s w r t' end.
Proof.
  intros Hun Hby Hbit. destruct (bitmap_byte by_ Hby) as (v & Hv & Hv' & Hvr).
  destruct (unit_range by_ bit Hby Hbit) as (Hidx & Hf & Hi).
  unfold try_bit. rewrite sbind_get, (sbind_lift _ _ _ v) by done.
  rewrite land_bit_zero, negb_involutive by lia.
  destruct (Z.testbit v bit) eqn:Hfree; [by exists (Next tt), t|].
  assert (units s w < 2 ^ 32) by (pose proof (ok_bpg s Hs); pose proof (ok_ipg s Hs); unfold units; destruct w; lia).
  rewrite (wrap_small 32 (by_ * 8 + bit)) by lia. case_test; [lia|].
  assert (0 <= Z.lor v (Z.shiftl 1 bit) < 2 ^ 8) as Hlor by (apply lor_range; [lia|done|apply one_range; lia]).
  pose proof Hun as [[Heq _] _].
  assert (ipg t = ipg s /\ first_data_block t = first_data_block s /\ bpg t = bpg s /\
          blocks_total t = blocks_total s) as (-> & -> & -> & ->) by (by rewrite Heq).
  pose proof mark_spec as Hmark. clear Hbf. destruct w.
  - rewrite (sbind_lift _ _ _ _ (chk_Ret 64 _ Hi)).
    destruct (Hmark t by_ _ Hun Hby Hlor) as (bm' & r & t' & Hp & Hw & Hsv & Hr).
    rewrite (sbind_lift _ _ _ _ Hp). unfold fbind. rewrite (sbind_Ret _ _ _ _ _ Hw).
    destruct r as [[]|e]; eexists _, t'; (split; [done|]); (split; [done|]); [|by exists bfsb].
    exists group, by_, bit. split; try done; [lia|]. by exists bfsb, v.
  - rewrite (sbind_lift _ _ _ _ (chk_Ret 64 _ Hf)). case_test; [by exists (Next tt), t|].
    destruct (block_reserved_spec s t group _ Hs Ha Hfit Hun Hg (proj1 Hf)) as (b & t1 & Hrun & Hun1 & Hb).
    rewrite (sbind_Ret _ _ _ _ _ Hrun). destruct b; [by exists (Next tt), t1|].
    destruct (Hmark t1 by_ _ Hun1 Hby Hlor) as (bm' & r & t' & Hp & Hw & Hsv & Hr).
    rewrite (sbind_lift _ _ _ _ Hp). unfold fbind. rewrite (sbind_Ret _ _ _ _ _ Hw).
    destruct r as [[]|e]; eexists _, t'; (split; [done|]); (split; [done|]); [|by exists bfsb].
    exists group, by_, bit. split; try done; [lia| |].
    + by exists bfsb, v.
    + intros _. split; [lia|]. by apply Hb.
Qed.

Lemma try_byte_spec t by_ :
  unchanged s t -> 0 <= by_ < units s w / 8 ->
  exists f t', try_byte w group bfsb (units s w) bm by_ tt t = Ret (f, t') /\
    match f with Next _ => unchanged s t' | Exit r => alloc_post s w r t' end.
Proof.
  intros Hun Hby. destruct (bitmap_byte by_ Hby) as (v & Hv & _). unfold try_byte.
  rewrite (sbind_lift _ _ _ v) by done. case_test; [by exists (Next tt), t|].
  destruct (for_loop_cases (fun _ _ u => unchanged s u) (fun r u => alloc_post s w r u) 8 0
              (try_bit w group bfsb (units s w) bm by_) tt t) as (f & t' & Hrun & Hf).
  - done.
  - intros j [] u Hj Hu. apply try_bit_spec; [done|done|lia].
  - exists f, t'. split; [exact Hrun|]. by destruct f.
Qed.
End OneBitmap.

Lemma try_group_spec s w group t :
  ext4_ok s -> aligned s -> addrs_fit s -> bitmaps_fit s -> 0 <= group < num_groups s -> unchanged s t ->
  exists f t', try_group w (units s w) (units s w / 8) group tt t = Ret (f, t') /\
    match f with Next _ => unchanged s t' | Exit r => alloc_post s w r t' end.
Proof.
  intros Hs Ha Hfit Hbf Hg Hun. unfold try_group.
  destruct (read_bitmap_spec s t w group Hs Ha Hfit Hun Hg) as (r & t1 & Hrun & Hun1 & Hr).
  unfold fbind at 1. rewrite (sbind_Ret _ _ _ _ _ Hrun).
  destruct r as [bfsb|e]; [|eexists _, t1; split; [done|]; by apply unchanged_post].
  destruct Hr as (Hblk & Hb0 & Hb1). pose proof (unchanged_ok _ _ Hun1 Hs) as Ht1.
  assert (bs t1 = bs s) as Hbs by (by destruct Hun1 as [[-> _] _]).
  destruct (read_fsb_spec t1 bfsb (zeros MAX_BLOCK_SIZE)) as (r & t2 & Hrun2 & Hun2 & Hr);
    [done|lia|rewrite Hbs; lia|by apply zeros_block_len|].
  pose proof (unchanged_trans _ _ _ Hun1 Hun2) as Hun'.
  unfold fbind at 1. rewrite (sbind_Ret _ _ _ _ _ Hrun2).
  destruct r as [bm|e]; [|eexists _, t2; split; [done|]; by apply unchanged_post].
  destruct Hr as (bytes & Hbytes & Hbm). rewrite (unchanged_block _ _ _ Hun1) in Hbytes.
  assert (0 <= units s w / 8) by (apply Z.div_pos; [|lia]; pose proof (ok_bpg s Hs); pose proof (ok_ipg s Hs);
                                  unfold units; destruct w; lia).
  destruct (for_loop_cases (fun _ _ u => unchanged s u) (fun r u => alloc_post s w r u)
              (Z.to_nat (units s w / 8)) 0 (try_byte w group bfsb (units s w) bm) tt t2) as (f & t' & Hrun3 & Hf).
  - done.
  - intros j [] u Hj Hu. eapply try_byte_spec; eauto; lia.
  - exists f, t'. split; [exact Hrun3|]. by destruct f.
Qed.

Lemma alloc_bit_spec s w :
  ext4_ok s -> aligned s -> addrs_fit s -> bitmaps_fit s ->
  exists r s', alloc_bit w s = Ret (r, s') /\ alloc_post s w r s'.
Proof.
  intros Hs Ha Hfit Hbf. unfold alloc_bit. rewrite sbind_get. cbv zeta. fold (units s w).
  pose proof (ok_groups s Hs).
  destruct (for_loop_cases (fun _ _ u => unchanged s u) (fun r u => alloc_post s w r u)
              (Z.to_nat (num_groups s)) 0 (try_group w (units s w) (units s w / 8)) tt s)
    as (f & t' & Hrun & Hf).
  - by apply unchanged_refl, ok_dev.
  - intros j [] u Hj Hu. apply try_group_spec; [done..|lia|done].
  - rewrite (sbind_Ret _ _ _ _ _ Hrun). destruct f as [u|r].
    + eexists _, t'. split; [done|]. by apply unchanged_post.
    + by exists r, t'.
Qed.

End Laws.

(** ** Witness *)

Lemma sample_addrs : addrs_fit sample_volume.
Proof.
  assert (num_groups sample_volume = 1) as Hn by (vm_compute; reflexivity).
  assert (bs sample_volume = 1024) as Hb by (vm_compute; reflexivity).
  intros group gd lo hi v Hg Hgd Hf Hv. rewrite Hn in Hg. assert (group = 0) as -> by lia.
  assert (forall lo hi, addr_field lo hi ->
    exists x, (let! gd := desc_at sample_volume 0 in gd_u32 sample_volume gd lo hi) = Ret x /\ x < 16) as Hall.
  { intros l h [[-> ->]|[[-> ->]|[-> ->]]]%addr_field_inv; eexists; (split; [vm_compute; reflexivity|lia]). }
  destruct (Hall lo hi Hf) as (x & Hx & Hlt). rewrite Hgd in Hx. cbn [obind] in Hx.
  rewrite Hv in Hx. injection Hx as ->. rewrite Hb. lia.
Qed.

Lemma sample_bitmaps : bitmaps_fit sample_volume.
Proof.
  assert (ipg sample_volume / 8 = 2) as H1 by (vm_compute; reflexivity).
  assert (bpg sample_volume / 8 = 4) as H2 by (vm_compute; reflexivity).
  assert (bs sample_volume = 1024) as H3 by (vm_compute; reflexivity).
  unfold bitmaps_fit. rewrite H1, H2, H3. clear. lia.
Qed.

Lemma sample_alloc : match alloc_bit false sample_volume with Ret (Ok n, _) => n =? 10 | _ => false end = true.
Proof. vm_compute. reflexivity. Qed.

