(* ===== verification/Ext4Extent.v ===== *)
(** * Extent trees ([src/src/ext4.rs], lines 847-1095)

    The map from the logical blocks of a file to physical blocks: reading it
    ([map_block]), growing it ([insert_extent]), counting it
    ([recount_blocks]). *)

From S2P Require Import Prelude Block Crc.
From stdpp Require Import list.
From S2P Require Import Ext4Layout Ext4 Ext4Alloc.
#[local] Open Scope Z_scope.

Section Extents.
Context {D : Type} `{BD : BlockDevice D}.
Abbreviation Ext4 := (Ext4 D).

Definition leaf_max (s : Ext4) : Z := wrap 16 ((bs s - 12) / 12).

Definition dir_limit (s : Ext4) : Z := if meta_csum s then bs s - 12 else bs s.

Definition extent_block_csum (s : Ext4) (ino gen : Z) (blk : list Z) (max : Z) : outcome (list Z) :=
  if negb (meta_csum s) then Ret blk else
  let tail := 12 + 12 * max in
  let seed := crc32c (crc32c (csum_seed s) (to_le 4 ino)) (to_le 4 gen) in
  let! body := slice blk 0 tail in
  put_le32 blk tail (crc32c seed body).

(** ** Reading the tree *)

(** Extent [i] of a leaf, when it covers [lb]. *)
Definition leaf_entry (b : list Z) (base lb i : Z) (_ : unit) : outcome (flow unit Z) :=
  let! e := rd_extent b base i in
  match e with
  | Some (eb, elen, pb) =>
      if eb <=? lb then
        let! top := chk 32 (eb + elen) in
        if lb <? top then Ret (Exit (pb + (lb - eb))) else Ret (Next tt)
      else Ret (Next tt)
  | None => Ret (Next tt)
  end.

Definition leaf_find (b : list Z) (base entries lb : Z) : outcome (option Z) :=
  let! f := ofor (Z.to_nat entries) 0 (leaf_entry b base lb) tt in
  match f with
  | Next _ => Ret None
  | Exit p => Ret (Some p)
  end.

(** Index [i] of an inner node, when its range covers [lb]. *)
Definition index_entry (b : list Z) (base entries lb i : Z) (_ : unit) : outcome (flow unit Z) :=
  let! e := rd_index b base i in
  match e with
  | Some (eb, child) =>
      let! next := if i + 1 <? entries then
                     let! n := rd_index b base (i + 1) in
                     Ret (match n with Some (nb, _) => nb | None => u32_max end)
                   else Ret u32_max in
      if (eb <=? lb) && (lb <? next) then Ret (Exit child) else Ret (Next tt)
  | None => Ret (Next tt)
  end.

Definition index_find (b : list Z) (base entries lb : Z) : outcome (option Z) :=
  let! f := ofor (Z.to_nat entries) 0 (index_entry b base entries lb) tt in
  match f with
  | Next _ => Ret None
  | Exit c => Ret (Some c)
  end.

(** The variables of the descent: [node_block] 0 is the root in the inode. *)
Record node := mkNode {
  entries : Z;
  depth : Z;
  node_base : Z;
  node_block : Z;
  cur_buf : list Z;
}.

Definition node_bytes (inode : Inode) (n : node) : list Z :=
  if node_block n =? 0 then raw inode else cur_buf n.

Definition map_level (inode : Inode) (lb : Z) (n : node) : M Ext4 (flow node (fs (option Z))) :=
  let b := node_bytes inode n in
  if depth n =? 0 then
    r <-! leaf_find b (node_base n) (entries n) lb ;;
    sret (Exit (Ok r))
  else
    chosen <-! index_find b (node_base n) (entries n) lb ;;
    match chosen with
    | None => sret (Exit (Ok None))
    | Some child =>
        buf <-& read_fsb child (cur_buf n) ;;
        h <-! rd_hdr buf 0 ;;
        match h with
        | None => sret (Exit (Ok None))
        | Some (e, _, d) => sret (Next (mkNode e d 0 child buf))
        end
    end.

(** A tree whose depths decrease has at most [2^16] levels, so the fuel is
    enough for it. *)
Definition map_fuel : nat := Z.to_nat (2 ^ 16).

Definition map_block_with (fuel : nat) (inode : Inode) (lb : Z) : M Ext4 (fs (option Z)) :=
  h <-! rd_hdr (raw inode) INO_IBLOCK ;;
  match h with
  | None => sret (Ok None)
  | Some (e, _, d) =>
      while_loop fuel (map_level inode lb) (mkNode e d INO_IBLOCK 0 (zeros MAX_BLOCK_SIZE))
  end.

Definition map_block : Inode -> Z -> M Ext4 (fs (option Z)) := map_block_with map_fuel.

(** ** Growing the tree *)

(** Whether the extent [e] ends where [lb -> pblock] goes on. *)
Definition continues (e : option (Z * Z * Z)) (lb pblock : Z) : outcome (option (Z * Z * Z)) :=
  match e with
  | Some (eb, elen, pb) =>
      let! top := chk 32 (eb + elen) in
      Ret (if (top =? lb) && (pb + elen =? pblock) then Some (eb, elen, pb) else None)
  | None => Ret None
  end.

(** Make the last of [entries] extents one longer, if [lb -> pblock] continues
    it. *)
Definition extend_last (b : list Z) (base entries lb pblock : Z) : outcome (option (list Z)) :=
  if 0 <? entries then
    let! e := rd_extent b base (entries - 1) in
    let! c := continues e lb pblock in
    match c with
    | Some (eb, elen, pb) =>
        let! b := wr_extent b base (entries - 1) eb (elen + 1) pb in Ret (Some b)
    | None => Ret None
    end
  else Ret None.

(** Copy extents [from..to] of a node to the front of the block [blk]. *)
Definition copy_extent (src : list Z) (base from : Z) (i : Z) (blk : list Z)
    : outcome (flow (list Z) (list Z)) :=
  let! e := rd_extent src base i in
  match e with
  | Some (eb, elen, pb) =>
      let! blk := wr_extent blk 0 (i - from) eb elen pb in Ret (Next blk)
  | None => Ret (Next blk)
  end.

Definition copy_extents (src : list Z) (base from to : Z) (blk : list Z) : outcome (list Z) :=
  let! f := ofor (Z.to_nat (to - from)) from (copy_extent src base from) blk in
  match f with
  | Next b => Ret b
  | Exit b => Ret b
  end.

(** The result tells whether the mapping was placed; [false] asks for another
    try after a split. *)
Definition place_in_rightmost_leaf (inode : Inode) (lb pblock : Z) : M Ext4 (fs (bool * Inode)) :=
  s <- sget ;;
  let base := INO_IBLOCK in
  h <-! rd_hdr (raw inode) base ;;
  match h with
  | None => sret (Err FsError.Corrupt)
  | Some (entries, rmax, _) =>
      last <-! chk 16 (entries - 1) ;;
      ix <-! rd_index (raw inode) base last ;;
      match ix with
      | None => sret (Err FsError.Corrupt)
      | Some (_, leaf) =>
          gen <-! le32 (raw inode) INO_GENERATION ;;
          blk <-? read_fsb leaf (zeros MAX_BLOCK_SIZE) ;;
          h <-! rd_hdr blk 0 ;;
          match h with
          | None => sret (Err FsError.Corrupt)
          | Some (le, lmax, _) =>
              longer <-! extend_last blk 0 le lb pblock ;;
              match longer with
              | Some blk =>
                  blk <-! extent_block_csum s (ino inode) gen blk lmax ;;
                  _ <-? write_fsb leaf blk ;;
                  sret (Ok (true, inode))
              | None =>
                  if le <? lmax then
                    blk <-! wr_extent blk 0 le lb 1 pblock ;;
                    blk <-! wr_hdr blk 0 (le + 1) lmax 0 ;;
                    blk <-! extent_block_csum s (ino inode) gen blk lmax ;;
                    _ <-? write_fsb leaf blk ;;
                    sret (Ok (true, inode))
                  else
                    let half := le / 2 in
                    if half =? 0 then sret (Err FsError.NoSpace) else
                    new_leaf <-? alloc_block ;;
                    nb <-! copy_extents blk 0 half le (zeros MAX_BLOCK_SIZE) ;;
                    first <-! rd_extent blk 0 half ;;
                    let first_lb := match first with Some (eb, _, _) => eb | None => 0 end in
                    blk <-! wr_hdr blk 0 half lmax 0 ;;
                    nb <-! wr_hdr nb 0 (le - half) lmax 0 ;;
                    blk <-! extent_block_csum s (ino inode) gen blk lmax ;;
                    nb <-! extent_block_csum s (ino inode) gen nb lmax ;;
                    _ <-? write_fsb leaf blk ;;
                    _ <-? write_fsb new_leaf nb ;;
                    if rmax <=? entries then sret (Err FsError.NoSpace) else
                    r <-! wr_index (raw inode) base entries first_lb new_leaf ;;
                    r <-! wr_hdr r base (entries + 1) rmax 1 ;;
                    sret (Ok (false, with_raw inode r))
              end
          end
      end
  end.

(** Move the extents of the inode into a leaf of their own. *)
Definition deepen (inode : Inode) (entries max gen : Z) : M Ext4 (fs Inode) :=
  let base := INO_IBLOCK in
  leaf <-? alloc_block ;;
  s <- sget ;;
  let lmax := leaf_max s in
  blk <-! copy_extents (raw inode) base 0 entries (zeros MAX_BLOCK_SIZE) ;;
  blk <-! wr_hdr blk 0 entries lmax 0 ;;
  blk <-! extent_block_csum s (ino inode) gen blk lmax ;;
  _ <-? write_fsb leaf blk ;;
  r <-! wr_hdr (raw inode) base 1 max 1 ;;
  r <-! wr_index r base 0 0 leaf ;;
  sret (Ok (with_raw inode r)).

(** The second half of [insert_extent]: at most two tries. *)
Definition place (inode : Inode) (lb pblock : Z) : M Ext4 (fs Inode) :=
  ' (placed, inode) <-? place_in_rightmost_leaf inode lb pblock ;;
  if placed : bool then sret (Ok inode) else
  ' (placed, inode) <-? place_in_rightmost_leaf inode lb pblock ;;
  if placed : bool then sret (Ok inode) else
  sret (Err FsError.NoSpace).

Definition insert_extent (inode : Inode) (lb pblock : Z) : M Ext4 (fs Inode) :=
  let base := INO_IBLOCK in
  h <-! rd_hdr (raw inode) base ;;
  ' (r, (entries, max, depth)) <-! (match h with
                                    | Some emd => Ret (raw inode, emd)
                                    | None =>
                                        let! r := wr_hdr (raw inode) base 0 4 0 in
                                        Ret (r, (0, 4, 0))
                                    end) ;;
  let inode := with_raw inode r in
  gen <-! le32 r INO_GENERATION ;;
  if depth =? 0 then
    longer <-! extend_last r base entries lb pblock ;;
    match longer with
    | Some r => sret (Ok (with_raw inode r))
    | None =>
        if entries <? max then
          r <-! wr_extent r base entries lb 1 pblock ;;
          r <-! wr_hdr r base (entries + 1) max 0 ;;
          sret (Ok (with_raw inode r))
        else
          inode <-? deepen inode entries max gen ;;
          place inode lb pblock
    end
  else place inode lb pblock.

(** ** Counting the tree *)

Definition leaf_sum (b : list Z) (base i total : Z) : outcome (flow Z Z) :=
  let! e := rd_extent b base i in
  match e with
  | Some (_, elen, _) => let! t := chk 64 (total + elen) in Ret (Next t)
  | None => Ret (Next total)
  end.

Fixpoint node_sum (depth : nat) (b : list Z) (base : Z) : M Ext4 (fs Z) :=
  h <-! rd_hdr b base ;;
  match h with
  | None => sret (Ok 0)
  | Some (entries, _, _) =>
      match depth with
      | O =>
          f <-! ofor (Z.to_nat entries) 0 (leaf_sum b base) 0 ;;
          match f with Next t => sret (Ok t) | Exit t => sret (Ok t) end
      | S depth' =>
          f <- for_loop (Z.to_nat entries) 0 (fun i total =>
                 ix <-! rd_index b base i ;;
                 match ix with
                 | None => sret (Exit (Err FsError.Corrupt))
                 | Some (_, child) =>
                     blk <-& read_fsb child (zeros MAX_BLOCK_SIZE) ;;
                     n <-& node_sum depth' blk 0 ;;
                     total <-! chk 64 (total + n) ;;
                     sret (Next total)
                 end) 0 ;;
          match f with Next t => sret (Ok t) | Exit r => sret r end
      end
  end.

Definition recount_blocks (inode : Inode) : M Ext4 (fs Z) :=
  s <- sget ;;
  h <-! rd_hdr (raw inode) INO_IBLOCK ;;
  match h with
  | None => sret (Ok 0)
  | Some (_, _, depth) =>
      total <-? node_sum (Z.to_nat depth) (raw inode) INO_IBLOCK ;;
      n <-! chk 64 (total * (bs s / 512)) ;;
      sret (Ok n)
  end.
End Extents.

(** ** Leaves as lists of extents *)

(** The extents of a leaf in order; unwritten and empty slots do not count. *)
Fixpoint leaf_extents (n : nat) (b : list Z) (base i : Z) : list (Z * Z * Z) :=
  match n with
  | O => []
  | S n' =>
      match rd_extent b base i with
      | Ret (Some e) => e :: leaf_extents n' b base (i + 1)
      | _ => leaf_extents n' b base (i + 1)
      end
  end.

Fixpoint lookup_extent (l : list (Z * Z * Z)) (lb : Z) : option Z :=
  match l with
  | [] => None
  | (eb, elen, pb) :: l' =>
      if (eb <=? lb) && (lb <? eb + elen) then Some (pb + (lb - eb)) else lookup_extent l' lb
  end.

(** No extent reaches past the last logical block. *)
Definition extents_fit (l : list (Z * Z * Z)) : Prop :=
  Forall (fun '(eb, elen, _) => 0 <= eb /\ 0 <= elen /\ eb + elen < 2 ^ 32) l.

Lemma leaf_loop b base lb n i :
  0 <= base -> 0 <= i -> extents_fit (leaf_extents n b base i) ->
  ofor n i (leaf_entry b base lb) tt =
  Ret (match lookup_extent (leaf_extents n b base i) lb with Some p => Exit p | None => Next tt end).
Proof.
  intros Hb. revert i. induction n as [|n IH]; intros i Hi Hfit; [done|].
  cbn [ofor leaf_extents] in *. unfold leaf_entry at 1.
  destruct (rd_extent_total b base i) as (r & Hr & _); [done..|]. rewrite Hr in *. cbn [obind].
  destruct r as [[[eb elen] pb]|]; [|apply IH; [lia|done]].
  apply Forall_cons in Hfit as [(?&?&?) Hfit]. cbn [lookup_extent].
  destruct (Z.leb_spec eb lb); cbn [andb obind]; [|apply IH; [lia|done]].
  rewrite chk_Ret by lia. cbn [obind].
  destruct (Z.ltb_spec lb (eb + elen)); cbn [obind]; [done|apply IH; [lia|done]].
Qed.

Lemma leaf_find_eq b base n lb :
  0 <= base -> extents_fit (leaf_extents (Z.to_nat n) b base 0) ->
  leaf_find b base n lb = Ret (lookup_extent (leaf_extents (Z.to_nat n) b base 0) lb).
Proof.
  intros Hb Hfit. unfold leaf_find. rewrite leaf_loop by done. cbn [obind].
  by destruct (lookup_extent _ lb).
Qed.

Lemma leaf_extents_snoc n b base i :
  leaf_extents (S n) b base i =
  leaf_extents n b base i ++
  match rd_extent b base (i + Z.of_nat n) with Ret (Some e) => [e] | _ => [] end.
Proof.
  revert i. induction n as [|n IH]; intros i.
  - cbn [leaf_extents]. rewrite Z.add_0_r. by destruct (rd_extent b base i) as [[]| |].
  - cbn [leaf_extents] in *. rewrite (IH (i + 1)).
    replace (i + 1 + Z.of_nat n) with (i + Z.of_nat (S n)) by lia.
    by destruct (rd_extent b base i) as [[]| |].
Qed.

Lemma leaf_extents_ext n b b' base i :
  (forall j, i <= j < i + Z.of_nat n -> rd_extent b' base j = rd_extent b base j) ->
  leaf_extents n b' base i = leaf_extents n b base i.
Proof.
  revert i. induction n as [|n IH]; intros i Heq; [done|]. cbn [leaf_extents].
  rewrite Heq by lia. rewrite IH; [done|]. intros. apply Heq. lia.
Qed.

Lemma lookup_extent_app l l' lb :
  lookup_extent (l ++ l') lb =
  match lookup_extent l lb with Some p => Some p | None => lookup_extent l' lb end.
Proof.
  induction l as [|[[eb elen] pb] l IH]; cbn; [done|]. by destruct (_ && _).
Qed.

(** ** Inserting into a root that is a leaf *)

(** The effect of an insertion on the list of extents: the last one grows, or
    one of length 1 is appended. *)
Inductive grown (l : list (Z * Z * Z)) (lb p : Z) : list (Z * Z * Z) -> Prop :=
| grown_last l0 eb elen pb : l = l0 ++ [(eb, elen, pb)] -> eb + elen = lb -> pb + elen = p ->
    grown l lb p (l0 ++ [(eb, elen + 1, pb)])
| grown_new : grown l lb p (l ++ [(lb, 1, p)]).

(** A grown list maps what it mapped, and [lb] to [p]. *)
Lemma grown_lookup l lb p l' x :
  extents_fit l -> 0 <= lb -> lookup_extent l lb = None -> grown l lb p l' ->
  lookup_extent l' x = if x =? lb then Some p else lookup_extent l x.
Proof.
  intros Hfit Hlb Hnone Hg. destruct Hg as [l0 eb elen pb -> Hend Hp|].
  - apply Forall_app in Hfit as [_ [(?&?&?) _]%Forall_cons].
    rewrite !lookup_extent_app in *. cbn [lookup_extent] in *.
    destruct (Z.eqb_spec x lb) as [->|Hne].
    + destruct (lookup_extent l0 lb); [done|].
      replace ((eb <=? lb) && (lb <? eb + (elen + 1))) with true by lia. f_equal. lia.
    + destruct (lookup_extent l0 x); [done|].
      replace ((eb <=? x) && (x <? eb + (elen + 1))) with ((eb <=? x) && (x <? eb + elen)) by lia. done.
  - rewrite lookup_extent_app. cbn [lookup_extent].
    destruct (Z.eqb_spec x lb) as [->|Hne].
    + rewrite Hnone. replace ((lb <=? lb) && (lb <? lb + 1)) with true by lia. f_equal. lia.
    + destruct (lookup_extent l x); [done|].
      by replace ((lb <=? x) && (x <? lb + 1)) with false by lia.
Qed.

(** The extents of the root of an inode whose tree is a single leaf. *)
Definition root_leaf (i : Inode) (n max : Z) (l : list (Z * Z * Z)) : Prop :=
  blen (raw i) = MAX_INODE_SIZE /\ bytes_ok (raw i) /\
  rd_hdr (raw i) INO_IBLOCK = Ret (Some (n, max, 0)) /\ 0 <= n <= max /\ max <= 4 /\
  l = leaf_extents (Z.to_nat n) (raw i) INO_IBLOCK 0 /\ extents_fit l.

(** An extent that can grow by one block without setting the bit that marks it
    unwritten. *)
Definition can_grow (l : list (Z * Z * Z)) : Prop := Forall (fun '(_, elen, _) => elen < 2 ^ 15 - 1) l.

Lemma root_leaf_put i n max l r o x :
  root_leaf i n max l -> splice (raw i) o x = Ret r -> bytes_ok x ->
  blen r = MAX_INODE_SIZE /\ bytes_ok r.
Proof.
  intros (Hl & Hok & _) Hs Hx. split; [by rewrite (splice_blen _ _ _ _ Hs)|by eapply splice_bytes].
Qed.

Lemma extent_bytes_ok eb elen pb : bytes_ok (extent_bytes eb elen pb).
Proof. repeat apply Forall_app_2; apply to_le_bytes. Qed.
Lemma hdr_bytes_ok e m d : bytes_ok (hdr_bytes e m d).
Proof. repeat apply Forall_app_2; apply to_le_bytes. Qed.

(** Growing the last extent in place. *)
Lemma extend_last_spec i n max l lb p :
  root_leaf i n max l -> can_grow l -> 0 <= lb < 2 ^ 32 - 1 ->
  (exists r l', extend_last (raw i) INO_IBLOCK n lb p = Ret (Some r) /\ grown l lb p l' /\
     root_leaf (with_raw i r) n max l') \/
  extend_last (raw i) INO_IBLOCK n lb p = Ret None.
Proof.
  intros Hroot Hcan Hlb. pose proof Hroot as (Hl & Hok & Hh & Hn & Hmax & Hlist & Hfit). unfold extend_last.
  destruct (Z.ltb_spec 0 n); [|by right].
  destruct (rd_extent_total (raw i) INO_IBLOCK (n - 1)) as (e & He & Hr); [done|lia|].
  rewrite He. cbn [obind]. destruct e as [[[eb elen] pb]|]; [|by right]. specialize (Hr Hok).
  assert (l = leaf_extents (Z.to_nat (n - 1)) (raw i) INO_IBLOCK 0 ++ [(eb, elen, pb)]) as Hl0.
  { rewrite Hlist. replace (Z.to_nat n) with (S (Z.to_nat (n - 1))) by lia.
    rewrite leaf_extents_snoc. replace (0 + Z.of_nat (Z.to_nat (n - 1))) with (n - 1) by lia. by rewrite He. }
  set (l0 := leaf_extents _ _ _ _) in Hl0.
  pose proof Hcan as Hc. rewrite Hl0 in Hc. apply Forall_app in Hc as [_ [Hc _]%Forall_cons].
  pose proof Hfit as Hf. rewrite Hl0 in Hf. apply Forall_app in Hf as [Hf0 [(?&?&?) _]%Forall_cons].
  cbn [continues]. rewrite chk_Ret by lia. cbn [obind].
  destruct (Z.eqb_spec (eb + elen) lb) as [Hend|]; [|by right].
  destruct (Z.eqb_spec (pb + elen) p) as [Hp|]; [|by right]. cbn [andb]. left.
  destruct (wr_extent (raw i) INO_IBLOCK (n - 1) eb (elen + 1) pb) as [r| |] eqn:Hw;
    [|rewrite wr_extent_eq, splice_Ret in Hw
        by (rewrite ?extent_bytes_len; unfold INO_IBLOCK, MAX_INODE_SIZE in *; lia); done..].
  pose proof Hw as Hw'. rewrite wr_extent_eq in Hw'.
  exists r, (l0 ++ [(eb, elen + 1, pb)]). split; [done|]. split; [by eapply grown_last|].
  destruct (root_leaf_put _ _ _ _ _ _ _ Hroot Hw' (extent_bytes_ok _ _ _)) as [Hlr Hokr].
  split; [done|]. split; [done|]. cbn [with_raw raw].
  split; [rewrite (rd_hdr_other _ _ _ _ INO_IBLOCK Hw') by lia; done|]. split; [done|]. split; [done|].
  split.
  - replace (Z.to_nat n) with (S (Z.to_nat (n - 1))) by lia. rewrite leaf_extents_snoc.
    replace (0 + Z.of_nat (Z.to_nat (n - 1))) with (n - 1) by lia.
    rewrite (rd_extent_wr _ _ _ _ _ _ _ Hw) by lia. f_equal. symmetry. apply leaf_extents_ext.
    intros j Hj. apply (rd_extent_other _ _ _ _ _ _ Hw'). lia.
  - apply Forall_app. split; [done|]. apply Forall_cons. split; [lia|done].
Qed.

Lemma append_spec i n max l lb p :
  root_leaf i n max l -> n < max -> 0 <= lb < 2 ^ 32 - 1 -> 0 <= p < 2 ^ 48 ->
  exists r1 r2, wr_extent (raw i) INO_IBLOCK n lb 1 p = Ret r1 /\
    wr_hdr r1 INO_IBLOCK (n + 1) max 0 = Ret r2 /\
    root_leaf (with_raw i r2) (n + 1) max (l ++ [(lb, 1, p)]).
Proof.
  intros Hroot Hroom Hlb Hp. pose proof Hroot as (Hl & Hok & Hh & Hn & Hmax & Hlist & Hfit).
  destruct (wr_extent (raw i) INO_IBLOCK n lb 1 p) as [r1| |] eqn:Hw;
    [|rewrite wr_extent_eq, splice_Ret in Hw
        by (rewrite ?extent_bytes_len; unfold INO_IBLOCK, MAX_INODE_SIZE in *; lia); done..].
  pose proof Hw as Hw'. rewrite wr_extent_eq in Hw'.
  destruct (root_leaf_put _ _ _ _ _ _ _ Hroot Hw' (extent_bytes_ok _ _ _)) as [Hl1 Hok1].
  destruct (wr_hdr r1 INO_IBLOCK (n + 1) max 0) as [r2| |] eqn:Hh2;
    [|rewrite wr_hdr_eq, splice_Ret in Hh2
        by (rewrite ?hdr_bytes_len; unfold INO_IBLOCK, MAX_INODE_SIZE in *; lia); done..].
  pose proof Hh2 as Hh2'. rewrite wr_hdr_eq in Hh2'.
  exists r1, r2. split; [done|]. split; [done|].
  split; [by rewrite <-Hl1; apply (splice_blen _ _ _ _ Hh2')|].
  split; [eapply splice_bytes; [exact Hh2'|done|apply hdr_bytes_ok]|]. cbn [with_raw raw].
  split; [by eapply rd_hdr_wr; [exact Hh2|lia..]|]. split; [lia|]. split; [done|].
  split; [|apply Forall_app; split; [done|]; apply Forall_cons; split; [lia|done]].
  replace (Z.to_nat (n + 1)) with (S (Z.to_nat n)) by lia. rewrite leaf_extents_snoc.
  replace (0 + Z.of_nat (Z.to_nat n)) with n by lia.
  assert (forall j, 0 <= j -> rd_extent r2 INO_IBLOCK j = rd_extent r1 INO_IBLOCK j) as Hsame.
  { intros j Hj. apply (rd_extent_other _ _ _ _ _ _ Hh2'). rewrite hdr_bytes_len. lia. }
  rewrite Hsame, (rd_extent_wr _ _ _ _ _ _ _ Hw) by lia. f_equal. rewrite Hlist. symmetry.
  apply leaf_extents_ext. intros j Hj. rewrite Hsame by lia.
  apply (rd_extent_other _ _ _ _ _ _ Hw'). lia.
Qed.

Section Root.
Context {D : Type} `{BD : BlockDevice D}.
Abbreviation Ext4 := (Ext4 D).

Lemma map_fuel_S : exists k, map_fuel = S k.
Proof. exists (Z.to_nat (2 ^ 16 - 1)). unfold map_fuel. lia. Qed.

(** A tree of one leaf is looked up without reading the device. *)
Lemma map_root_leaf (s : Ext4) i n max l lb :
  root_leaf i n max l -> map_block i lb s = Ret (Ok (lookup_extent l lb), s).
Proof.
  intros (Hl & Hok & Hh & Hn & Hmax & Hlist & Hfit). unfold map_block, map_block_with.
  unfold sbind, slift. rewrite Hh. destruct map_fuel_S as [k ->]. cbn [while_loop].
  unfold map_level, node_bytes, sbind, slift. cbn. rewrite leaf_find_eq by (done || by rewrite <-Hlist).
  by rewrite <-Hlist.
Qed.

Lemma insert_root_spec (s : Ext4) i n max l lb p :
  root_leaf i n max l -> n < max -> can_grow l -> 0 <= lb < 2 ^ 32 - 1 -> 0 <= p < 2 ^ 48 ->
  exists i' n' l', insert_extent i lb p s = Ret (Ok i', s) /\ grown l lb p l' /\ root_leaf i' n' max l' /\
    i' = with_raw i (raw i').
Proof.
  intros Hroot Hroom Hcan Hlb Hp. pose proof Hroot as (Hl & Hok & Hh & _).
  unfold insert_extent. unfold sbind at 1, slift. rewrite Hh. unfold sbind at 1. cbn [obind].
  destruct (get_le_Ret 4 (raw i) INO_GENERATION) as (g & Hg & _);
    [lia|by cbv|rewrite Hl; by cbv|].
  unfold sbind at 1. unfold le32. rewrite Hg. cbn [Z.eqb].
  unfold sbind at 1.
  destruct (extend_last_spec i n max l lb p Hroot Hcan Hlb) as [(r & l' & He & Hgr & Hr)|He]; rewrite He.
  - exists (with_raw i r), n, l'. by split_and!.
  - case_test; [|lia].
    destruct (append_spec i n max l lb p Hroot Hroom Hlb Hp) as (r1 & r2 & H1 & H2 & Hr).
    unfold sbind at 1. rewrite H1. unfold sbind. rewrite H2.
    exists (with_raw i r2), (n + 1), (l ++ [(lb, 1, p)]).
    split; [done|]. split; [apply grown_new|]. split; [exact Hr|done].
Qed.

End Root.

(** ** Trees of any depth *)

(** The readers see only the front of a buffer. *)
Lemma rd_hdr_front bytes rest buf :
  splice rest 0 bytes = Ret buf -> 12 <= blen bytes -> rd_hdr buf 0 = rd_hdr bytes 0.
Proof.
  intros Hs Hl. unfold rd_hdr, le16. pose proof (splice_inv _ _ _ _ Hs) as (_&?&_).
  pose proof (splice_blen _ _ _ _ Hs). do 2 (case_test; [lia|]).
  by rewrite !(front_field _ _ _ _ _ Hs) by lia.
Qed.

Lemma rd_extent_front bytes rest buf i :
  splice rest 0 bytes = Ret buf -> 0 <= i -> 24 + 12 * i <= blen bytes ->
  rd_extent buf 0 i = rd_extent bytes 0 i.
Proof.
  intros Hs Hi Hl. unfold rd_extent, le16, le32. pose proof (splice_inv _ _ _ _ Hs) as (_&?&_).
  pose proof (splice_blen _ _ _ _ Hs). do 2 (case_test; [lia|]).
  by rewrite !(front_field _ _ _ _ _ Hs) by lia.
Qed.

Lemma rd_index_front bytes rest buf i :
  splice rest 0 bytes = Ret buf -> 0 <= i -> 24 + 12 * i <= blen bytes ->
  rd_index buf 0 i = rd_index bytes 0 i.
Proof.
  intros Hs Hi Hl. unfold rd_index, le16, le32. pose proof (splice_inv _ _ _ _ Hs) as (_&?&_).
  pose proof (splice_blen _ _ _ _ Hs). do 2 (case_test; [lia|]).
  by rewrite !(front_field _ _ _ _ _ Hs) by lia.
Qed.

Lemma ofor_ext {A R} n i (f g : Z -> A -> outcome (flow A R)) a :
  (forall j b, i <= j < i + Z.of_nat n -> f j b = g j b) -> ofor n i f a = ofor n i g a.
Proof.
  revert i a. induction n as [|n IH]; intros i a Heq; [done|]. cbn [ofor]. rewrite Heq by lia.
  destruct (g i a) as [[a'|r]| |]; cbn [obind]; try done. apply IH. intros. apply Heq. lia.
Qed.

Lemma leaf_find_front bytes rest buf e lb :
  splice rest 0 bytes = Ret buf -> 12 + 12 * e <= blen bytes ->
  leaf_find buf 0 e lb = leaf_find bytes 0 e lb.
Proof.
  intros Hs Hl. unfold leaf_find. erewrite ofor_ext; [done|]. intros j [] Hj. unfold leaf_entry.
  by rewrite (rd_extent_front _ _ _ _ Hs) by lia.
Qed.

Lemma index_find_front bytes rest buf e lb :
  splice rest 0 bytes = Ret buf -> 12 + 12 * e <= blen bytes ->
  index_find buf 0 e lb = index_find bytes 0 e lb.
Proof.
  intros Hs Hl. unfold index_find. erewrite ofor_ext; [done|]. intros j [] Hj. unfold index_entry.
  rewrite (rd_index_front _ _ _ j Hs) by lia. destruct (Z.ltb_spec (j + 1) e); [|done].
  by rewrite (rd_index_front _ _ _ (j + 1) Hs) by lia.
Qed.

Section Trees.
Context {D : Type} `{BL : BlockLaws D}.
Abbreviation Ext4 := (Ext4 D).

(** The physical block of [lb] in the tree of height [d] whose root node is in
    [b] at [base], following the blocks of the volume. *)
Fixpoint tree_lookup (s : Ext4) (d : nat) (b : list Z) (base lb : Z) : outcome (option Z) :=
  let! h := rd_hdr b base in
  match h with
  | None => Ret None
  | Some (e, _, _) =>
      match d with
      | O => leaf_find b base e lb
      | S d' =>
          let! c := index_find b base e lb in
          match c with
          | None => Ret None
          | Some child => let! bytes := block_at s child in tree_lookup s d' bytes 0 lb
          end
      end
  end.

(** The nodes on the way to [lb] are nodes of a tree of height [d]: the depth
    in each header is the height of its subtree, the entries lie inside the
    node, extents end below [2^32]. *)
Fixpoint tree_ok (s : Ext4) (d : nat) (b : list Z) (base lb : Z) : Prop :=
  exists e m, rd_hdr b base = Ret (Some (e, m, Z.of_nat d)) /\ 0 <= e /\ base + 12 + 12 * e <= blen b /\
    match d with
    | O => extents_fit (leaf_extents (Z.to_nat e) b base 0)
    | S d' =>
        exists c, index_find b base e lb = Ret c /\
        match c with
        | None => True
        | Some child => 0 < child /\ child * bs s < 2 ^ 64 /\
            forall bytes, block_at s child = Ret bytes -> tree_ok s d' bytes 0 lb
        end
    end.

(** The loop variables stand for the node [b] at [base]. *)
Record at_node (i : Inode) (n : node) (b : list Z) (base lb : Z) : Prop := {
  an_base : node_base n = base;
  an_buf : blen (cur_buf n) = MAX_BLOCK_SIZE;
  an_leaf : leaf_find (node_bytes i n) base (entries n) lb = leaf_find b base (entries n) lb;
  an_index : index_find (node_bytes i n) base (entries n) lb = index_find b base (entries n) lb;
}.

Lemma descend_spec s i lb d : forall t n b base fuel,
  ext4_ok s -> unchanged s t -> 0 <= base -> at_node i n b base lb ->
  (exists m, rd_hdr b base = Ret (Some (entries n, m, Z.of_nat d))) -> depth n = Z.of_nat d ->
  tree_ok s d b base lb -> (d < fuel)%nat ->
  exists r t', while_loop fuel (map_level i lb) n t = Ret (r, t') /\ unchanged s t' /\
    match r with Ok x => tree_lookup s d b base lb = Ret x | Err _ => True end.
Proof.
  induction d as [|d IH]; intros t n b base fuel Hs Hun Hbase [Hnb Hbuf Hlf Hix] [m Hh] Hd Htree Hfuel;
    (destruct fuel as [|fuel]; [lia|]); cbn [while_loop tree_lookup tree_ok] in *;
    rewrite Hh in *; destruct Htree as (e & m' & [= <- <-] & He & Hlen & Htree);
    unfold sbind at 1, map_level; rewrite Hd, Hnb.
  - cbn [Z.of_nat Z.eqb]. pose proof (leaf_find_eq b base (entries n) lb Hbase Htree) as Hl.
    rewrite Hl in *. unfold sbind, slift. rewrite Hlf. by eexists _, t.
  - assert ((Z.of_nat (S d) =? 0) = false) as -> by (apply Z.eqb_neq; lia).
    unfold sbind at 1, slift. rewrite Hix.
    destruct Htree as (c & Hc & Htree). cbn [obind]. rewrite Hc. cbn [obind].
    destruct c as [child|]; [|by eexists _, t]. destruct Htree as (Hc0 & Hc1 & Hsub).
    pose proof (unchanged_ok _ _ Hun Hs) as Ht.
    assert (bs t = bs s) as Hbs by (by destruct Hun as [[-> _] _]). pose proof (ok_bs s Hs) as Hbss.
    destruct (read_fsb_spec t child (cur_buf n)) as (r & t1 & Hrun & Hun1 & Hr);
      [done|lia|by rewrite Hbs|rewrite Hbs, Hbuf; unfold MAX_BLOCK_SIZE; lia|].
    pose proof (unchanged_trans _ _ _ Hun Hun1) as Hun'.
    unfold fbind, sbind at 1. rewrite Hrun. destruct r as [buf|e]; [|by eexists _, t1].
    destruct Hr as (bytes & Hbytes & Hsp). rewrite (unchanged_block _ _ _ Hun) in Hbytes.
    rewrite Hbytes. cbn [obind]. pose proof (slice_len _ _ _ _ Hbytes) as Hlb.
    specialize (Hsub bytes Hbytes). pose proof Hsub as Hsub'.
    destruct d; cbn [tree_ok] in Hsub'; destruct Hsub' as (e' & m'' & Hh' & He' & Hlen' & _);
      unfold sbind at 1; rewrite (rd_hdr_front _ _ _ Hsp), Hh' by lia; unfold sret.
    + apply (IH t1 (mkNode e' 0 0 child buf) bytes 0 fuel); try done; [|by exists m''|lia].
      split; cbn [node_base cur_buf entries]; [done|by rewrite (splice_blen _ _ _ _ Hsp)| |];
        unfold node_bytes; cbn [node_block cur_buf]; replace (child =? 0) with false by lia;
        [by eapply leaf_find_front|by eapply index_find_front].
    + apply (IH t1 (mkNode e' (Z.of_nat (S d)) 0 child buf) bytes 0 fuel); try done; [|by exists m''|lia].
      split; cbn [node_base cur_buf entries]; [done|by rewrite (splice_blen _ _ _ _ Hsp)| |];
        unfold node_bytes; cbn [node_block cur_buf]; replace (child =? 0) with false by lia;
        [by eapply leaf_find_front|by eapply index_find_front].
Qed.

(** A walk from the root, on a volume that earlier reads have left unchanged. *)
Lemma map_block_spec s t i lb (d : nat) :
  ext4_ok s -> unchanged s t -> tree_ok s d (raw i) INO_IBLOCK lb -> Z.of_nat d < 2 ^ 16 ->
  exists r t', map_block i lb t = Ret (r, t') /\ unchanged s t' /\
    match r with Ok x => tree_lookup s d (raw i) INO_IBLOCK lb = Ret x | Err _ => True end.
Proof.
  intros Hs Hun Htree Hd. unfold map_block, map_block_with, sbind, slift.
  assert (exists e m, rd_hdr (raw i) INO_IBLOCK = Ret (Some (e, m, Z.of_nat d))) as (e & m & Hh).
  { destruct d; cbn [tree_ok] in Htree; destruct Htree as (e & m & Hh & _); eauto. }
  rewrite Hh. eapply descend_spec; try done.
  - by exists m.
  - unfold map_fuel. lia.
Qed.

End Trees.

(** ** A tree that is none *)

(** A root with one index entry, for block 10. *)
Definition node_or_zeros (o : outcome (list Z)) : list Z := match o with Ret b => b | _ => [] end.

Definition deep_inode : Inode :=
  mkInode 3 0x81A4 1024 2 INO_FLAG_EXTENTS
    (node_or_zeros (let! r := wr_hdr (zeros MAX_INODE_SIZE) INO_IBLOCK 1 4 1 in
                    wr_index r INO_IBLOCK 0 0 10)).

(** The sample volume with [node] in block 10. *)
Definition with_block10 (node : outcome (list Z)) : Ext4 RamDisk :=
  set_dev sample_volume
    (mkRam (node_or_zeros (splice (ram_image (dev sample_volume)) 10240 (node_or_zeros node)))).

(** In one volume it is a leaf that maps block 0 to block 9, in the other an
    index node that names itself. *)
Definition leaf_volume : Ext4 RamDisk :=
  with_block10 (let! b := wr_hdr (zeros 1024) 0 1 84 0 in wr_extent b 0 0 0 1 9).
Definition cyclic_volume : Ext4 RamDisk :=
  with_block10 (let! b := wr_hdr (zeros 1024) 0 1 84 1 in wr_index b 0 0 0 10).

Definition cyclic_buf : list Z :=
  node_or_zeros (let! b := slice (ram_image (dev cyclic_volume)) 10240 11264 in
                 splice (zeros MAX_BLOCK_SIZE) 0 b).

Lemma deep_header : rd_hdr (raw deep_inode) INO_IBLOCK = Ret (Some (1, 4, 1)).
Proof. vm_compute. reflexivity. Qed.

Lemma cyclic_enter :
  map_level deep_inode 0 (mkNode 1 1 INO_IBLOCK 0 (zeros MAX_BLOCK_SIZE)) cyclic_volume =
  Ret (Next (mkNode 1 1 0 10 cyclic_buf), cyclic_volume).
Proof. vm_compute. reflexivity. Qed.

Lemma cyclic_turn :
  map_level deep_inode 0 (mkNode 1 1 0 10 cyclic_buf) cyclic_volume =
  Ret (Next (mkNode 1 1 0 10 cyclic_buf), cyclic_volume).
Proof. vm_compute. reflexivity. Qed.

(** The descent does not check that depths decrease: on a volume with an
    index node that names itself as its child, [map_block] never returns,
    however many steps it is given. *)
Theorem map_block_cyclic_diverges fuel :
  map_block_with fuel deep_inode 0 cyclic_volume = OutOfFuel.
Proof.
  unfold map_block_with, sbind at 1, slift. rewrite deep_header.
  destruct fuel as [|fuel]; [done|]. cbn [while_loop]. unfold sbind at 1. rewrite cyclic_enter.
  induction fuel as [|fuel IH]; [done|]. cbn [while_loop]. unfold sbind at 1. by rewrite cyclic_turn.
Qed.

(** ** An extent at its maximal length *)

Definition long_inode : Inode :=
  mkInode 3 0x81A4 0 0 INO_FLAG_EXTENTS
    (node_or_zeros (let! r := wr_hdr (zeros MAX_INODE_SIZE) INO_IBLOCK 1 4 0 in
                    wr_extent r INO_IBLOCK 0 0 0x7FFF 100)).

(** Growing an extent of 32767 blocks by one sets the bit that marks it
    unwritten: [insert_extent] reports success, and afterwards not one block of
    the extent is mapped any more. *)
Theorem extent_growth_unmaps {D} `{BlockDevice D} (s : Ext4 D) :
  map_block long_inode 0 s = Ret (Ok (Some 100), s) /\
  exists i', insert_extent long_inode 0x7FFF (100 + 0x7FFF) s = Ret (Ok i', s) /\
    forall x, map_block i' x s = Ret (Ok None, s).
Proof.
  split; [vm_compute; reflexivity|]. eexists. split; [vm_compute; reflexivity|]. intros x.
  apply (map_root_leaf s _ 1 4 []). split; [done|]. split; [apply bytes_okb_ok; vm_compute; reflexivity|].
  split; [vm_compute; reflexivity|]. split; [lia|]. split; [lia|].
  split; [vm_compute; reflexivity|constructor].
Qed.

(** ** Witnesses *)

Definition short_inode : Inode :=
  mkInode 3 0x81A4 0 0 INO_FLAG_EXTENTS
    (node_or_zeros (let! r := wr_hdr (zeros MAX_INODE_SIZE) INO_IBLOCK 1 4 0 in
                    wr_extent r INO_IBLOCK 0 0 2 100)).

Lemma short_root : root_leaf short_inode 1 4 [(0, 2, 100)].
Proof.
  split; [done|]. split; [apply bytes_okb_ok; vm_compute; reflexivity|].
  split; [vm_compute; reflexivity|]. split; [lia|]. split; [lia|]. split; [vm_compute; reflexivity|].
  constructor; [lia|constructor].
Qed.


Lemma leaf_volume_ok : ext4_ok leaf_volume.
Proof.
  assert (bd_ok (dev leaf_volume)) as Hd.
  { apply (bytes_okb_ok (ram_image (dev leaf_volume))). vm_compute. reflexivity. }
  eapply (same_volume_ok sample_volume); [|exact sample_ok]. split; [|exact Hd]. reflexivity.
Qed.

Lemma leaf_tree : tree_ok leaf_volume 1 (raw deep_inode) INO_IBLOCK 0.
Proof.
  cbn [tree_ok]. exists 1, 4. split; [vm_compute; reflexivity|]. split; [lia|].
  split; [vm_compute; discriminate|]. exists (Some 10). split; [vm_compute; reflexivity|].
  split; [lia|]. split; [vm_compute; reflexivity|]. intros bytes Hb. vm_compute in Hb.
  apply (f_equal node_or_zeros) in Hb. cbn [node_or_zeros] in Hb. subst bytes.
  exists 1, 84. split; [vm_compute; reflexivity|]. split; [lia|].
  split; [vm_compute; discriminate|].
  match goal with |- extents_fit ?l => assert (l = [(0, 1, 9)]) as -> by (vm_compute; reflexivity) end.
  constructor; [lia|constructor].
Qed.

