(* ===== verification/Ext4Dir.v ===== *)
(** * Directories ([src/src/ext4.rs], lines 1097-1250)

    A directory block is a chain of records; [dir_limit] leaves room for the
    checksum tail. *)

From S2P Require Import Prelude Block Crc.
From stdpp Require Import list.
From S2P Require Import Ext4Layout Ext4 Ext4Inode Ext4Alloc Ext4Extent.
#[local] Open Scope Z_scope.

Section Dir.
Context {D : Type} `{BD : BlockDevice D}.
Abbreviation Ext4 := (Ext4 D).

Definition dir_tail_csum (s : Ext4) (ino gen : Z) (blk : list Z) : outcome (list Z) :=
  if negb (meta_csum s) then Ret blk else
  let! blk := put_le32 blk (bs s - 12) 0 in
  let! blk := put_le16 blk (bs s - 8) 12 in
  let! blk := put8 blk (bs s - 6) 0 in
  let! blk := put8 blk (bs s - 5) 0xDE in
  let seed := crc32c (crc32c (csum_seed s) (to_le 4 ino)) (to_le 4 gen) in
  let! body := slice blk 0 (bs s - 12) in
  put_le32 blk (bs s - 4) (crc32c seed body).

(** A record is at least one byte long, so a block has at most as many turns as
    bytes. *)
Definition dir_fuel : nat := Z.to_nat (MAX_BLOCK_SIZE + 1).

(** The number of blocks of a directory. *)
Definition dir_blocks (s : Ext4) (inode : Inode) : outcome Z :=
  let! t := chk 64 (size inode + bs s) in Ret ((t - 1) / bs s).

(** *** Listing *)

Definition list_step (limit : Z) (blk : list Z) (acc : Z * (Z * list DirEnt))
    : outcome (flow (Z * (Z * list DirEnt)) (Z * list DirEnt)) :=
  let '(pos, (n, out)) := acc in
  if limit <? pos + 8 then Ret (Exit (n, out)) else
  let! eino := le32 blk pos in
  let! rec := le16 blk (pos + 4) in
  if rec =? 0 then Ret (Exit (n, out)) else
  let! nlen := get8 blk (pos + 6) in
  let! ft := get8 blk (pos + 7) in
  if negb (eino =? 0) && (nlen <=? EXT4_NAME_LEN) then
    let! out :=
      match out !! Z.to_nat n with
      | Some e =>
          let! bytes := slice blk (pos + 8) (pos + 8 + nlen) in
          let! name := splice (de_name e) 0 bytes in
          Ret (<[Z.to_nat n := mkDirEnt eino ft nlen name]> out)
      | None => Ret out
      end in
    Ret (Next (pos + rec, (n + 1, out)))
  else Ret (Next (pos + rec, (n, out))).

Definition list_block (limit : Z) (blk : list Z) (acc : Z * list DirEnt) : outcome (Z * list DirEnt) :=
  owhile dir_fuel (list_step limit blk) (0, acc).

(** [read_dir] fills [out] and tells how many entries there are; with an error
    the buffer is given up. *)
Definition read_dir (dir : Z) (out : list DirEnt) : M Ext4 (fs (Z * list DirEnt)) :=
  inode <-? read_inode dir ;;
  if negb (is_dir inode) then sret (Err FsError.Invalid) else
  s <- sget ;;
  let limit := dir_limit s in
  blocks <-! dir_blocks s inode ;;
  f <- for_loop (Z.to_nat blocks) 0 (fun lb '(blk, acc) =>
         m <-& map_block inode (wrap 32 lb) ;;
         match m with
         | Some fsb =>
             blk <-& read_fsb fsb blk ;;
             acc <-! list_block limit blk acc ;;
             sret (Next (blk, acc))
         | None => sret (Next (blk, acc))
         end) (zeros MAX_BLOCK_SIZE, (0, out)) ;;
  match f with
  | Next (_, acc) => sret (Ok acc)
  | Exit r => sret r
  end.

(** *** Looking up a name *)

Definition find_step (limit : Z) (name : list Z) (blk : list Z) (pos : Z)
    : outcome (flow Z (option Z)) :=
  if limit <? pos + 8 then Ret (Exit None) else
  let! rec := le16 blk (pos + 4) in
  if rec =? 0 then Ret (Exit None) else
  let! eino := le32 blk pos in
  let! nlen := get8 blk (pos + 6) in
  if negb (eino =? 0) && (nlen =? blen name) then
    let! bytes := slice blk (pos + 8) (pos + 8 + nlen) in
    if bool_decide (bytes = name) then Ret (Exit (Some eino)) else Ret (Next (pos + rec))
  else Ret (Next (pos + rec)).

Definition find_in_block (limit : Z) (name : list Z) (blk : list Z) : outcome (option Z) :=
  owhile dir_fuel (find_step limit name blk) 0.

Definition lookup (dir : Z) (name : list Z) : M Ext4 (fs (option Z)) :=
  inode <-? read_inode dir ;;
  if negb (is_dir inode) then sret (Err FsError.Invalid) else
  s <- sget ;;
  let limit := dir_limit s in
  blocks <-! dir_blocks s inode ;;
  f <- for_loop (Z.to_nat blocks) 0 (fun lb blk =>
         m <-& map_block inode (wrap 32 lb) ;;
         match m with
         | Some fsb =>
             blk <-& read_fsb fsb blk ;;
             r <-! find_in_block limit name blk ;;
             match r with
             | Some eino => sret (Exit (Ok (Some eino)))
             | None => sret (Next blk)
             end
         | None => sret (Next blk)
         end) (zeros MAX_BLOCK_SIZE) ;;
  match f with
  | Next _ => sret (Ok None)
  | Exit r => sret r
  end.

(** *** Adding an entry *)

(** What the scan for room in a block found: an unused record that is long
    enough, or the last record with its length and the part of it in use. *)
Inductive room := Reuse (pos rec : Z) | Last (pos rec actual : Z).

Definition room_step (limit needed : Z) (blk : list Z) (acc : Z * (Z * Z * Z))
    : outcome (flow (Z * (Z * Z * Z)) room) :=
  let '(pos, (last_pos, last_rec, last_actual)) := acc in
  if limit <? pos + 8 then Ret (Exit (Last last_pos last_rec last_actual)) else
  let! rec := le16 blk (pos + 4) in
  if rec =? 0 then Ret (Exit (Last last_pos last_rec last_actual)) else
  let! eino := le32 blk pos in
  let! nlen := get8 blk (pos + 6) in
  if (eino =? 0) && (needed <=? rec) then Ret (Exit (Reuse pos rec)) else
  Ret (Next (pos + rec, (pos, rec, if eino =? 0 then 0 else round_dir_size nlen))).

(** The block with the entry added, when it has room for it. *)
Definition insert_in_block (limit target ft : Z) (name : list Z) (blk : list Z)
    : outcome (option (list Z)) :=
  let needed := round_dir_size (blen name) in
  let! r := owhile dir_fuel (room_step limit needed blk) (0, (0, 0, 0)) in
  match r with
  | Reuse pos rec => let! blk := fill_entry blk pos rec target ft name in Ret (Some blk)
  | Last last_pos last_rec last_actual =>
      let slack := last_rec - last_actual in
      if needed <=? slack then
        let! blk := put_le16 blk (last_pos + 4) (wrap 16 last_actual) in
        let! blk := fill_entry blk (last_pos + last_actual) (wrap 16 slack) target ft name in
        Ret (Some blk)
      else Ret None
  end.

Definition add_dirent (dir : Z) (name : list Z) (target ft : Z) : M Ext4 (fs unit) :=
  if (blen name =? 0) || (EXT4_NAME_LEN <? blen name) then sret (Err FsError.Invalid) else
  inode <-? read_inode dir ;;
  if negb (is_dir inode) then sret (Err FsError.Invalid) else
  if negb (Z.land (flags inode) INO_FLAG_INDEX =? 0) then sret (Err FsError.ReadOnly) else
  s <- sget ;;
  let limit := dir_limit s in
  blocks <-! dir_blocks s inode ;;
  gen <-! le32 (raw inode) INO_GENERATION ;;
  f <- for_loop (Z.to_nat blocks) 0 (fun lb blk =>
         m <-& map_block inode (wrap 32 lb) ;;
         match m with
         | Some fsb =>
             blk <-& read_fsb fsb blk ;;
             r <-! insert_in_block limit target ft name blk ;;
             match r with
             | Some blk =>
                 blk <-! dir_tail_csum s (ino inode) gen blk ;;
                 _ <-& write_fsb fsb blk ;;
                 sret (Exit (Ok tt))
             | None => sret (Next blk)
             end
         | None => sret (Next blk)
         end) (zeros MAX_BLOCK_SIZE) ;;
  match f with
  | Exit r => sret r
  | Next _ =>
      let new_lb := wrap 32 blocks in
      fsb <-? alloc_block ;;
      nb <-! fill_entry (zeros MAX_BLOCK_SIZE) 0 (wrap 16 limit) target ft name ;;
      nb <-! dir_tail_csum s (ino inode) gen nb ;;
      _ <-? write_fsb fsb nb ;;
      inode <-? insert_extent inode new_lb fsb ;;
      sz <-! chk 64 (size inode + bs s) ;;
      let inode := with_size inode sz in
      n <-? recount_blocks inode ;;
      _ <-? write_inode (with_blocks inode n) ;;
      sret (Ok tt)
  end.
End Dir.

(** ** Blocks as lists of records *)

Record dentry := mkEnt {
  d_rec : Z;
  d_ino : Z;
  d_name : list Z;
}.

(** The record at [pos] of a block. *)
Record entry_at (limit : Z) (blk : list Z) (pos : Z) (e : dentry) : Prop := {
  ea_pos : 0 <= pos;
  ea_name : 8 + blen (d_name e) <= d_rec e;
  ea_end : pos + d_rec e <= limit;
  ea_ino : le32 blk pos = Ret (d_ino e);
  ea_rec : le16 blk (pos + 4) = Ret (d_rec e);
  ea_len : get8 blk (pos + 6) = Ret (blen (d_name e));
  ea_bytes : slice blk (pos + 8) (pos + 8 + blen (d_name e)) = Ret (d_name e);
}.

(** The records [l] lie one after the other from [pos] to [q]. *)
Fixpoint seg (limit : Z) (blk : list Z) (pos : Z) (l : list dentry) (q : Z) : Prop :=
  match l with
  | [] => pos = q
  | e :: l' => entry_at limit blk pos e /\ seg limit blk (pos + d_rec e) l' q
  end.

(** The whole block: no further record fits after the last one. *)
Definition dir_block (limit : Z) (blk : list Z) (l : list dentry) : Prop :=
  limit <= blen blk /\ exists q, seg limit blk 0 l q /\ limit < q + 8.

Fixpoint find_entry (l : list dentry) (name : list Z) : option Z :=
  match l with
  | [] => None
  | e :: l' =>
      if negb (d_ino e =? 0) && bool_decide (d_name e = name) then Some (d_ino e)
      else find_entry l' name
  end.

Definition reclen (l : list dentry) : Z := fold_right (fun e n => d_rec e + n) 0 l.

Lemma seg_app limit blk pos l1 l2 q :
  seg limit blk pos (l1 ++ l2) q <->
  seg limit blk pos l1 (pos + reclen l1) /\ seg limit blk (pos + reclen l1) l2 q.
Proof.
  revert pos. induction l1 as [|e l1 IH]; intros pos; cbn [app seg reclen fold_right].
  - rewrite Z.add_0_r. tauto.
  - rewrite IH. fold (reclen l1).
    replace (pos + d_rec e + reclen l1) with (pos + (d_rec e + reclen l1)) by lia. tauto.
Qed.

Lemma seg_end limit blk pos l q : seg limit blk pos l q -> q = pos + reclen l.
Proof.
  revert pos. induction l as [|e l IH]; intros pos; cbn [seg reclen fold_right]; [lia|].
  intros [_ ->%IH]. unfold reclen. lia.
Qed.

Lemma seg_length limit blk pos l q :
  seg limit blk pos l q -> pos <= limit -> pos + 8 * Z.of_nat (length l) <= q /\ q <= limit.
Proof.
  revert pos. induction l as [|e l IH]; intros pos; cbn [seg length]; [lia|].
  intros [[? ? ? _ _ _ _] Hs] Hp. pose proof (blen_nonneg (d_name e)).
  destruct (IH _ Hs); lia.
Qed.

(** A write that stays clear of the records leaves them. *)
Lemma entry_at_splice limit blk o x blk' pos e :
  splice blk o x = Ret blk' -> entry_at limit blk pos e -> o + blen x <= pos \/ pos + d_rec e <= o ->
  entry_at limit blk' pos e.
Proof.
  intros Hs [ ] Hd. pose proof (blen_nonneg (d_name e)). split; try done; unfold le16, le32 in *.
  - by rewrite (get_le_splice_other _ _ _ _ _ _ Hs) by lia.
  - by rewrite (get_le_splice_other _ _ _ _ _ _ Hs) by lia.
  - by rewrite (get8_splice_other _ _ _ _ _ Hs) by lia.
  - by rewrite (slice_splice_disjoint _ _ _ _ _ _ Hs) by lia.
Qed.

Lemma seg_splice limit blk o x blk' pos l q :
  splice blk o x = Ret blk' -> seg limit blk pos l q -> o + blen x <= pos \/ q <= o ->
  seg limit blk' pos l q.
Proof.
  intros Hs. revert pos. induction l as [|e l IH]; intros pos; cbn [seg]; [done|].
  intros [He Hl] Hd. pose proof (seg_end _ _ _ _ _ Hl) as Hq. pose proof He as [? ? _ _ _ _ _].
  pose proof (blen_nonneg (d_name e)).
  assert (0 <= reclen l).
  { clear -Hl. revert Hl. generalize (pos + d_rec e). intros p Hl.
    pose proof (seg_end _ _ _ _ _ Hl) as ->. revert p Hl.
    induction l as [|e' l IH]; intros p; cbn [seg reclen fold_right]; [lia|].
    intros [[? ? _ _ _ _ _] Hl]. pose proof (blen_nonneg (d_name e')).
    fold (reclen l) in *. specialize (IH (p + d_rec e')).
    replace (p + (d_rec e' + reclen l)) with (p + d_rec e' + reclen l) in Hl by lia. specialize (IH Hl). lia. }
  split; [eapply entry_at_splice; [done|done|lia]|apply IH; [done|lia]].
Qed.

(** The lookup loop computes [find_entry]. *)
Lemma find_loop limit name blk l : forall fuel pos q,
  seg limit blk pos l q -> limit < q + 8 -> (length l < fuel)%nat ->
  owhile fuel (find_step limit name blk) pos = Ret (find_entry l name).
Proof.
  induction l as [|e l IH]; intros fuel pos q Hs Hq Hf; (destruct fuel as [|fuel]; [cbn in Hf; lia|]);
    cbn [seg owhile find_entry length] in *; unfold find_step at 1.
  - subst q. by replace (limit <? pos + 8) with true by lia.
  - destruct Hs as [[? ? ? Hino Hrec Hlen Hbytes] Hs]. pose proof (blen_nonneg (d_name e)).
    replace (limit <? pos + 8) with false by lia. rewrite Hrec, Hino, Hlen. cbn [obind].
    replace (d_rec e =? 0) with false by lia.
    destruct (Z.eqb_spec (d_ino e) 0); cbn [negb andb obind].
    { eapply IH; [done|done|lia]. }
    destruct (Z.eqb_spec (blen (d_name e)) (blen name)) as [Hl|Hl]; cbn [obind].
    + rewrite Hbytes. cbn [obind]. case_bool_decide; [done|]. cbn [obind]. eapply IH; [done|done|lia].
    + rewrite bool_decide_eq_false_2 by congruence. eapply IH; [done|done|lia].
Qed.

Lemma find_in_block_eq limit name blk l :
  dir_block limit blk l -> 0 <= limit <= MAX_BLOCK_SIZE ->
  find_in_block limit name blk = Ret (find_entry l name).
Proof.
  intros (Hlen & q & Hs & Hq) Hlim. unfold find_in_block. eapply find_loop; [done|done|].
  destruct (seg_length _ _ _ _ _ Hs); [lia|]. unfold dir_fuel, MAX_BLOCK_SIZE in *. lia.
Qed.

(** ** Adding an entry to a block *)

(** What the scan for room finds in a list of records. *)
Fixpoint scan_room (needed pos : Z) (acc : Z * Z * Z) (l : list dentry) : room :=
  match l with
  | [] => let '(p, r, a) := acc in Last p r a
  | e :: l' =>
      if (d_ino e =? 0) && (needed <=? d_rec e) then Reuse pos (d_rec e)
      else scan_room needed (pos + d_rec e)
             (pos, d_rec e, if d_ino e =? 0 then 0 else round_dir_size (blen (d_name e))) l'
  end.

Lemma room_loop limit needed blk l : forall fuel pos q acc,
  seg limit blk pos l q -> limit < q + 8 -> (length l < fuel)%nat ->
  owhile fuel (room_step limit needed blk) (pos, acc) = Ret (scan_room needed pos acc l).
Proof.
  induction l as [|e l IH]; intros fuel pos q [[p r] a] Hs Hq Hf;
    (destruct fuel as [|fuel]; [cbn in Hf; lia|]);
    cbn [seg owhile scan_room length] in *; unfold room_step at 1.
  - subst q. by replace (limit <? pos + 8) with true by lia.
  - destruct Hs as [[? ? ? Hino Hrec Hlen Hbytes] Hs]. pose proof (blen_nonneg (d_name e)).
    replace (limit <? pos + 8) with false by lia. rewrite Hrec, Hino, Hlen. cbn [obind].
    replace (d_rec e =? 0) with false by lia.
    destruct ((d_ino e =? 0) && (needed <=? d_rec e)); cbn [obind]; [done|].
    eapply IH; [done|done|lia].
Qed.

Lemma scan_room_cases needed l : forall pos acc,
  (exists l1 e l2, l = l1 ++ e :: l2 /\ d_ino e = 0 /\ needed <= d_rec e /\
     scan_room needed pos acc l = Reuse (pos + reclen l1) (d_rec e)) \/
  (exists l1 e, l = l1 ++ [e] /\
     scan_room needed pos acc l =
       Last (pos + reclen l1) (d_rec e) (if d_ino e =? 0 then 0 else round_dir_size (blen (d_name e))) /\
     (d_ino e = 0 -> d_rec e < needed)) \/
  (l = [] /\ scan_room needed pos acc l = let '(p, r, a) := acc in Last p r a).
Proof.
  induction l as [|e l IH]; intros pos acc; cbn [scan_room]; [auto|].
  destruct ((d_ino e =? 0) && (needed <=? d_rec e)) eqn:Hc.
  { left. exists [], e, l. cbn. rewrite Z.add_0_r. split_and!; (done || lia). }
  destruct (IH (pos + d_rec e) (pos, d_rec e, if d_ino e =? 0 then 0 else round_dir_size (blen (d_name e))))
    as [(l1 & e' & l2 & -> & ? & ? & Hr)|[(l1 & e' & -> & Hr & ?)|[-> Hr]]]; rewrite Hr.
  - left. exists (e :: l1), e', l2. split_and!; try done. cbn [reclen fold_right]. f_equal.
    unfold reclen. lia.
  - right; left. exists (e :: l1), e'. split_and!; try done. cbn [reclen fold_right]. f_equal. unfold reclen. lia.
  - right; left. exists [], e. split; [done|]. split; [cbn; by rewrite Z.add_0_r|]. lia.
Qed.

Lemma round_dir_size_spec n : 0 <= n < 2 ^ 32 -> 8 + n <= round_dir_size n < 12 + n.
Proof.
  intros Hn. unfold round_dir_size. change (unot 64 3) with (unot 64 (Z.ones 2)).
  rewrite (land_align 64 2) by lia. change (2 ^ 2) with 4. lia.
Qed.

Lemma get8_slice b lo hi s k :
  slice b lo hi = Ret s -> 0 <= k < hi - lo -> get8 b (lo + k) = get8 s k.
Proof.
  intros Hs Hk. pose proof (slice_inv _ _ _ _ Hs) as (?&?&_). unfold get8.
  do 2 (case_test; [lia|]). rewrite (slice_lookup _ _ _ _ _ Hs) by lia.
  by replace (Z.to_nat (lo + k)) with (Z.to_nat lo + Z.to_nat k)%nat by lia.
Qed.

(** The record [fill_entry] writes. *)
Lemma fill_entry_at limit blk pos rec ino ft name blk' :
  fill_entry blk pos rec ino ft name = Ret blk' -> 0 <= pos -> 0 <= ino < 2 ^ 32 -> rec < 2 ^ 16 ->
  blen name < 256 -> 8 + blen name <= rec -> pos + rec <= limit ->
  entry_at limit blk' pos (mkEnt rec ino name).
Proof.
  rewrite fill_entry_eq. intros Hs Hpos Hino Hrec Hname Hfit Hend. pose proof (blen_nonneg name).
  pose proof (slice_splice_same _ _ _ _ Hs) as Hsl. rewrite entry_bytes_len in Hsl.
  split; cbn [d_rec d_ino d_name]; try done; unfold le16, le32.
  - rewrite <-(Z.add_0_r pos). rewrite (get_le_slice _ _ _ _ _ 0 Hsl) by lia.
    unfold entry_bytes. by rd_field.
  - rewrite (get_le_slice _ _ _ _ _ 4 Hsl) by lia. unfold entry_bytes. rd_field. by rd_field.
  - rewrite (get8_slice _ _ _ _ 6 Hsl) by lia. unfold entry_bytes, get8. cbn.
    by rewrite (wrap_small 8) by lia.
  - assert (slice (entry_bytes rec ino ft name) 8 (8 + blen name) = Ret name) as Hn.
    { unfold entry_bytes. rewrite slice_Ret by (rewrite ?entry_bytes_len; fold (entry_bytes rec ino ft name); rewrite ?entry_bytes_len; lia).
      f_equal. cbn. apply take_ge. unfold blen. lia. }
    pose proof (slice_slice _ _ _ _ _ _ _ Hsl Hn) as Hres.
    by replace (pos + (8 + blen name)) with (pos + 8 + blen name) in Hres by lia.
Qed.

Lemma find_entry_app l1 l2 name :
  find_entry (l1 ++ l2) name =
  match find_entry l1 name with Some i => Some i | None => find_entry l2 name end.
Proof. induction l1 as [|e l1 IH]; cbn; [done|]. by destruct (_ && _). Qed.

(** Records of a block once an entry was added: an unused one was filled, or
    the last one gave up its slack. *)
Inductive entry_added (target : Z) (name : list Z) (l : list dentry) : list dentry -> Prop :=
| added_reuse l1 e l2 : l = l1 ++ e :: l2 -> d_ino e = 0 ->
    entry_added target name l (l1 ++ mkEnt (d_rec e) target name :: l2)
| added_split l1 e a : l = l1 ++ [e] ->
    entry_added target name l
      (l1 ++ [mkEnt a (d_ino e) (d_name e); mkEnt (d_rec e - a) target name]).

Lemma entry_added_find target name l l' x :
  entry_added target name l l' -> target <> 0 -> find_entry l name = None ->
  find_entry l' x = if bool_decide (x = name) then Some target else find_entry l x.
Proof.
  intros Ha Ht Hnone.
  assert (negb (target =? 0) = true) as Ht' by lia.
  destruct Ha as [l1 e l2 -> H0|l1 e a ->]; rewrite !find_entry_app in *;
    cbn [find_entry d_ino d_name] in *; rewrite Ht' in *; cbn [andb].
  - rewrite H0 in *. cbn [negb andb Z.eqb] in *. destruct (decide (x = name)) as [->|Hx].
    + rewrite !bool_decide_eq_true_2 by done. by destruct (find_entry l1 name).
    + rewrite !bool_decide_eq_false_2 by congruence. by destruct (find_entry l1 x).
  - destruct (decide (x = name)) as [->|Hx].
    + rewrite (bool_decide_eq_true_2 (name = name)) by done.
      destruct (find_entry l1 name); [done|]. by destruct (negb _ && _).
    + rewrite (bool_decide_eq_false_2 (x = name)), (bool_decide_eq_false_2 (name = x)) by congruence.
      destruct (find_entry l1 x); [done|]. by destruct (negb _ && _).
Qed.

Lemma seg_range limit blk pos l q : seg limit blk pos l q -> 0 <= reclen l.
Proof.
  revert pos. induction l as [|e l IH]; intros pos; cbn [seg reclen fold_right]; [lia|].
  intros [[? ? _ _ _ _ _] Hl]. pose proof (blen_nonneg (d_name e)). specialize (IH _ Hl).
  unfold reclen in IH. lia.
Qed.

(** [insert_in_block] returns; when it finds room, one entry is added to the
    records of the block and nothing beyond the limit changes. *)
Lemma insert_in_block_spec limit target ft name blk l :
  dir_block limit blk l -> 0 <= limit <= MAX_BLOCK_SIZE -> 1 <= target < 2 ^ 32 -> 0 < blen name < 256 ->
  exists r, insert_in_block limit target ft name blk = Ret r /\
    match r with
    | Some blk' => blen blk' = blen blk /\ exists l', entry_added target name l l' /\ dir_block limit blk' l'
    | None => True
    end.
Proof.
  intros (Hlen & q & Hs & Hq) Hlim Ht Hname. unfold insert_in_block. cbv zeta.
  pose proof (round_dir_size_spec (blen name) ltac:(lia)) as Hneed.
  set (needed := round_dir_size (blen name)) in *.
  rewrite (room_loop limit needed blk l dir_fuel 0 q) by
    (done || (destruct (seg_length _ _ _ _ _ Hs); [lia|]; unfold dir_fuel, MAX_BLOCK_SIZE in *; lia)).
  cbn [obind]. unfold MAX_BLOCK_SIZE in *.
  destruct (scan_room_cases needed l 0 (0, 0, 0))
    as [(l1 & e & l2 & -> & H0 & Hrec & ->)|[(l1 & e & -> & -> & Hsmall)|[-> ->]]]; rewrite ?Z.add_0_l.
  - apply seg_app in Hs as [Hs1 Hs2]. cbn [seg] in Hs2. destruct Hs2 as [He Hs2]. rewrite Z.add_0_l in *.
    pose proof He as [? ? ? _ _ _ _]. pose proof (seg_end _ _ _ _ _ Hs2).
    pose proof (seg_range _ _ _ _ _ Hs2).
    destruct (fill_entry blk (reclen l1) (d_rec e) target ft name) as [blk'| |] eqn:Hf;
      [|rewrite fill_entry_eq, splice_Ret in Hf by (rewrite ?entry_bytes_len; lia); done..].
    pose proof Hf as Hf'. rewrite fill_entry_eq in Hf'.
    exists (Some blk'). split; [done|]. split; [by eapply splice_blen|].
    eexists. split; [by apply added_reuse|]. split; [by rewrite (splice_blen _ _ _ _ Hf')|].
    exists q. split; [|done]. apply seg_app. rewrite Z.add_0_l. split; [|cbn [seg]; split].
    + eapply seg_splice; [done|done|lia].
    + eapply fill_entry_at; [done|lia..].
    + eapply seg_splice; [done|done|]. rewrite entry_bytes_len. cbn [d_rec]. lia.
  - set (a := if d_ino e =? 0 then 0 else round_dir_size (blen (d_name e))).
    destruct (Z.leb_spec needed (d_rec e - a)) as [Hroom|]; [|by exists None].
    apply seg_app in Hs as [Hs1 Hs2]. cbn [seg] in Hs2. destruct Hs2 as [He <-]. rewrite Z.add_0_l in *.
    pose proof He as [Hp0 Hn0 Hend Hino Hrec Hlen0 Hbytes]. pose proof (blen_nonneg (d_name e)).
    assert (8 + blen (d_name e) <= a /\ d_ino e <> 0) as [Ha Hne].
    { unfold a in *. destruct (Z.eqb_spec (d_ino e) 0) as [E|E]; [lia|].
      pose proof (round_dir_size_spec (blen (d_name e))). lia. }
    destruct (put_le_Ret 2 blk (reclen l1 + 4) (wrap 16 a)) as (blk1 & Hp & Hl1 & _); [lia|cbn; lia|].
    unfold put_le16. rewrite Hp. cbn [obind]. rewrite (wrap_small 16 a) in Hp by lia.
    rewrite (wrap_small 16 (d_rec e - a)) by lia.
    destruct (fill_entry blk1 (reclen l1 + a) (d_rec e - a) target ft name) as [blk2| |] eqn:Hf;
      [|rewrite fill_entry_eq, splice_Ret in Hf by (rewrite ?entry_bytes_len; lia); done..].
    pose proof Hf as Hf'. rewrite fill_entry_eq in Hf'.
    exists (Some blk2). split; [done|]. split; [rewrite <-Hl1; by eapply splice_blen|].
    eexists. split; [by apply (added_split _ _ _ l1 e a)|]. split; [rewrite (splice_blen _ _ _ _ Hf'); lia|].
    exists (reclen l1 + d_rec e). split; [|done]. apply seg_app. rewrite Z.add_0_l.
    split; [|cbn [seg d_rec]; split; [|split; [|lia]]].
    + eapply seg_splice; [exact Hf'| |lia]. eapply seg_splice; [exact Hp|done|lia].
    + eapply entry_at_splice; [exact Hf'| |cbn [d_rec]; lia].
      split; cbn [d_rec d_ino d_name]; try done; try lia; unfold le16, le32 in *.
      * by rewrite (get_put_other _ _ _ _ _ _ _ Hp) by lia.
      * apply (get_put_same _ _ _ _ _ Hp). lia.
      * by rewrite (get8_splice_other _ _ _ _ _ Hp) by blen_lia.
      * by rewrite (slice_put_other _ _ _ _ _ _ _ Hp) by lia.
    + eapply fill_entry_at; [done|lia..].
  - exists None. split; [|done]. by replace (needed <=? 0 - 0) with false by lia.
Qed.

Section Laws.
Context {D : Type} `{BL : BlockLaws D}.
Abbreviation Ext4 := (Ext4 D).

(** The checksum a directory block carries in its tail. *)
Definition dir_csum_ok (s : Ext4) (ino gen : Z) (blk : list Z) : Prop :=
  meta_csum s = true -> exists body, slice blk 0 (bs s - 12) = Ret body /\
    le32 blk (bs s - 4) =
    Ret (crc32c (crc32c (crc32c (csum_seed s) (to_le 4 ino)) (to_le 4 gen)) body).

Lemma dir_limit_range s : ext4_ok s -> 0 <= dir_limit s <= MAX_BLOCK_SIZE /\ dir_limit s <= bs s.
Proof.
  intros Hs. unfold dir_limit, MAX_BLOCK_SIZE. pose proof (ok_bs s Hs). destruct (meta_csum s); lia.
Qed.

(** The tail is written behind the records. *)
Lemma dir_tail_csum_spec s ino gen blk l :
  ext4_ok s -> blen blk = MAX_BLOCK_SIZE -> dir_block (dir_limit s) blk l ->
  exists blk', dir_tail_csum s ino gen blk = Ret blk' /\ dir_block (dir_limit s) blk' l /\
    dir_csum_ok s ino gen blk'.
Proof.
  intros Hs Hlen Hblk. pose proof (ok_bs s Hs) as Hbs. unfold MAX_BLOCK_SIZE in Hlen.
  unfold dir_tail_csum, dir_csum_ok. destruct (meta_csum s) eqn:Hm; cbn [negb]; [|by exists blk].
  assert (dir_limit s = bs s - 12) as Hlim by (unfold dir_limit; by rewrite Hm).
  assert (forall n b o v, blen b = 4096 -> bs s - 12 <= o -> o + Z.of_nat n <= bs s ->
    dir_block (dir_limit s) b l -> exists b', splice b o (to_le n v) = Ret b' /\ blen b' = 4096 /\
      dir_block (dir_limit s) b' l /\ slice b' 0 (bs s - 12) = slice b 0 (bs s - 12)) as Hput.
  { intros n b o v Hl Ho Hn (Hle & q & Hq & Hend).
    destruct (put_le_Ret n b o v) as (b' & Hp & Hl' & _); [lia..|]. exists b'. split; [exact Hp|].
    split; [lia|]. split; [|by rewrite (slice_put_other _ _ _ _ _ _ _ Hp) by lia].
    split; [lia|]. exists q. split; [|done]. eapply seg_splice; [exact Hp|done|].
    destruct (seg_length _ _ _ _ _ Hq); lia. }
  unfold put_le16, put_le32, put_le, put8.
  destruct (Hput 4%nat blk (bs s - 12) 0) as (b1 & -> & L1 & B1 & _); [lia..|done|]. cbn [obind].
  destruct (Hput 2%nat b1 (bs s - 8) 12) as (b2 & -> & L2 & B2 & _); [lia..|done|]. cbn [obind].
  destruct (Hput 1%nat b2 (bs s - 6) 0) as (b3 & H3 & L3 & B3 & _); [lia..|done|].
  change (to_le 1 0) with [0] in H3. rewrite H3. cbn [obind].
  destruct (Hput 1%nat b3 (bs s - 5) 0xDE) as (b4 & H4 & L4 & B4 & _); [lia..|done|].
  change (to_le 1 0xDE) with [0xDE] in H4. rewrite H4. cbn [obind].
  destruct (slice b4 0 (bs s - 12)) as [body| |] eqn:Hb; [|rewrite slice_Ret in Hb by lia; done..].
  cbn [obind]. set (c := crc32c _ body).
  destruct (Hput 4%nat b4 (bs s - 4) c) as (b5 & H5 & L5 & B5 & S5); [lia..|done|].
  rewrite H5. exists b5. split; [done|]. split; [done|]. intros _. exists body.
  split; [by rewrite S5|]. apply (get_put_same 4 b4 (bs s - 4) c b5 H5).
  unfold c. repeat apply crc32c_range. apply Hs.
Qed.

(** Adding a name to a directory block. [insert_in_block] returns on every
    well-formed block that does not hold the name yet; when it finds room, then
    after the tail is stamped the block carries its checksum, looking the new
    name up gives the target, and every other name is found, or not found,
    exactly as before. *)
Theorem dirent_insert_lookup s ino gen target ft name blk l :
  ext4_ok s -> blen blk = MAX_BLOCK_SIZE -> dir_block (dir_limit s) blk l ->
  1 <= target < 2 ^ 32 -> 0 < blen name < 256 ->
  find_in_block (dir_limit s) name blk = Ret None ->
  exists r, insert_in_block (dir_limit s) target ft name blk = Ret r /\
    match r with
    | Some blk' => exists blk2, dir_tail_csum s ino gen blk' = Ret blk2 /\ dir_csum_ok s ino gen blk2 /\
        forall x, find_in_block (dir_limit s) x blk2 =
          if bool_decide (x = name) then Ret (Some target) else find_in_block (dir_limit s) x blk
    | None => True
    end.
Proof.
  intros Hs Hlen Hblk Ht Hname Hnone. destruct (dir_limit_range s Hs) as [Hlim _].
  destruct (insert_in_block_spec (dir_limit s) target ft name blk l Hblk Hlim Ht Hname) as (r & Hr & Hpost).
  exists r. split; [done|]. destruct r as [blk'|]; [|done]. destruct Hpost as (Hl' & l' & Hadd & Hblk').
  destruct (dir_tail_csum_spec s ino gen blk' l' Hs ltac:(by rewrite Hl') Hblk') as (blk2 & Htail & Hblk2 & Hc).
  exists blk2. split; [done|]. split; [done|]. intros x.
  rewrite (find_in_block_eq _ name _ _ Hblk Hlim) in Hnone.
  rewrite (find_in_block_eq _ x _ _ Hblk Hlim), (find_in_block_eq _ x _ _ Hblk2 Hlim).
  injection Hnone as Hnone. rewrite (entry_added_find target name l l' x Hadd ltac:(lia) Hnone).
  by case_bool_decide.
Qed.
End Laws.

(** ** Witness *)

(** The root directory block of the sample volume. *)
Definition sample_dir : list Z := node_or_zeros (
  let! b := slice (ram_image (dev sample_volume)) 9216 10240 in splice (zeros MAX_BLOCK_SIZE) 0 b).

Lemma sample_dir_block :
  dir_block (dir_limit sample_volume) sample_dir [mkEnt 12 2 [0x2E]; mkEnt 1000 2 [0x2E; 0x2E]].
Proof.
  assert (dir_limit sample_volume = 1012) as -> by (vm_compute; reflexivity).
  split; [vm_compute; discriminate|]. exists 1012. split; [|lia]. cbn [seg d_rec].
  repeat split; cbn [d_rec d_ino d_name]; try lia; first [done | vm_compute; first [reflexivity | discriminate]].
Qed.

Lemma sample_absent : find_in_block (dir_limit sample_volume) [0x61] sample_dir = Ret None.
Proof. vm_compute. reflexivity. Qed.

Lemma dirent_insert_lookup_witness : exists r,
  insert_in_block (dir_limit sample_volume) 11 1 [0x61] sample_dir = Ret r /\
  match r with
  | Some blk' => exists blk2, dir_tail_csum sample_volume 2 0 blk' = Ret blk2 /\
      find_in_block (dir_limit sample_volume) [0x61] blk2 = Ret (Some 11)
  | None => True
  end.
Proof.
  pose proof (dirent_insert_lookup sample_volume 2 0 11 1 [0x61] sample_dir _ sample_ok
    ltac:(vm_compute; reflexivity) sample_dir_block ltac:(lia) ltac:(split; reflexivity) sample_absent)
    as (r & Hr & Hp).
  exists r. split; [exact Hr|]. destruct r as [blk'|]; [|exact I].
  destruct Hp as (blk2 & Htail & _ & Hfind). exists blk2. split; [exact Htail|exact (Hfind [0x61])].
Defined.
