(* ===== verification/Ext4File.v ===== *)
(** * Files and creation ([src/src/ext4.rs], lines 1252-1374) *)

From S2P Require Import Prelude Block Crc.
From stdpp Require Import list.
From S2P Require Import Ext4Layout Ext4 Ext4Inode Ext4Alloc Ext4Extent Ext4Dir.
#[local] Open Scope Z_scope.

Section Files.
Context {D : Type} `{BD : BlockDevice D}.
Abbreviation Ext4 := (Ext4 D).

(** One turn copies at least one byte. *)
Definition read_turn (inode : Inode) (offset take : Z) (acc : Z * (list Z * list Z))
    : M Ext4 (flow (Z * (list Z * list Z)) (fs (Z * list Z))) :=
  let '(done, (blk, buf)) := acc in
  if take <=? done then sret (Exit (Ok (take, buf))) else
  s <- sget ;;
  cur <-! chk 64 (offset + done) ;;
  let lb := cur / bs s in
  let in_off := cur mod bs s in
  let count := Z.min (bs s - in_off) (take - done) in
  m <-& map_block inode (wrap 32 lb) ;;
  match m with
  | Some fsb =>
      blk <-& read_fsb fsb blk ;;
      bytes <-! slice blk in_off (in_off + count) ;;
      buf <-! splice buf done bytes ;;
      sret (Next (done + count, (blk, buf)))
  | None =>
      buf <-! splice buf done (zeros count) ;;
      sret (Next (done + count, (blk, buf)))
  end.

(** [read_file] answers how many bytes it read and the buffer after it; with an
    error the buffer is given up. *)
Definition read_file (ino offset : Z) (buf : list Z) : M Ext4 (fs (Z * list Z)) :=
  if blen buf =? 0 then sret (Ok (0, buf)) else
  inode <-? read_inode ino ;;
  if negb (is_file inode) then sret (Err FsError.Invalid) else
  if size inode <=? offset then sret (Ok (0, buf)) else
  let take := Z.min (size inode - offset) (blen buf) in
  while_loop (Z.to_nat take + 1) (read_turn inode offset take)
    (0, (zeros MAX_BLOCK_SIZE, buf)).

Definition write_turn (offset : Z) (buf : list Z) (acc : Z * (list Z * Inode))
    : M Ext4 (flow (Z * (list Z * Inode)) (fs Inode)) :=
  let '(done, (blk, inode)) := acc in
  if blen buf <=? done then sret (Exit (Ok inode)) else
  s <- sget ;;
  cur <-! chk 64 (offset + done) ;;
  let lb := cur / bs s in
  let in_off := cur mod bs s in
  let count := Z.min (bs s - in_off) (blen buf - done) in
  m <-& map_block inode (wrap 32 lb) ;;
  ' (blk, inode) <-& (match m with
                      | Some fsb => blk <-? read_fsb fsb blk ;; sret (Ok (blk, inode))
                      | None =>
                          fsb <-? alloc_block ;;
                          inode <-? insert_extent inode (wrap 32 lb) fsb ;;
                          sret (Ok (zeros MAX_BLOCK_SIZE, inode))
                      end) ;;
  m <-& map_block inode (wrap 32 lb) ;;
  match m with
  | None => sret (Exit (Err FsError.Corrupt))
  | Some fsb =>
      bytes <-! slice buf done (done + count) ;;
      blk <-! splice blk in_off bytes ;;
      _ <-& write_fsb fsb blk ;;
      sret (Next (done + count, (blk, inode)))
  end.

Definition write_file (ino offset : Z) (buf : list Z) : M Ext4 (fs unit) :=
  if blen buf =? 0 then sret (Ok tt) else
  inode <-? read_inode ino ;;
  if negb (is_file inode) then sret (Err FsError.Invalid) else
  end_ <-! chk 64 (offset + blen buf) ;;
  inode <-? while_loop (length buf + 1) (write_turn offset buf)
              (0, (zeros MAX_BLOCK_SIZE, inode)) ;;
  let inode := if size inode <? end_ then with_size inode end_ else inode in
  n <-? recount_blocks inode ;;
  _ <-? write_inode (with_blocks inode n) ;;
  sret (Ok tt).

(** The inode of a new file or directory, before its first block; the
    permissions are 0o755 and 0o644. *)
Definition fresh_inode (ino : Z) (is_dir : bool) : outcome Inode :=
  let! r := wr_hdr (zeros MAX_INODE_SIZE) INO_IBLOCK 0 4 0 in
  let! r := put_le16 r INO_LINKS_COUNT (if is_dir then 2 else 1) in
  let! r := put_le16 r INO_EXTRA_ISIZE 28 in
  Ret (mkInode ino (if is_dir then Z.lor S_IFDIR 0x1ED else Z.lor S_IFREG 0x1A4) 0 0
         INO_FLAG_EXTENTS r).

(** The first block of a new directory: [.] and [..]. *)
Definition dot : list Z := [0x2E].
Definition dot_dot : list Z := [0x2E; 0x2E].

Definition fresh_dir_block (s : Ext4) (ino parent : Z) : outcome (list Z) :=
  let limit := dir_limit s in
  let! nb := fill_entry (zeros MAX_BLOCK_SIZE) 0 12 ino FT_DIR dot in
  let! nb := fill_entry nb 12 (wrap 16 (limit - 12)) parent FT_DIR dot_dot in
  dir_tail_csum s ino 0 nb.

Definition first_dir_block (inode : Inode) (parent : Z) : M Ext4 (fs Inode) :=
  fsb <-? alloc_block ;;
  s <- sget ;;
  nb <-! fresh_dir_block s (ino inode) parent ;;
  _ <-? write_fsb fsb nb ;;
  r <-! wr_hdr (raw inode) INO_IBLOCK 1 4 0 ;;
  r <-! wr_extent r INO_IBLOCK 0 0 1 fsb ;;
  sret (Ok (mkInode (ino inode) (mode inode) (bs s) (bs s / 512) (flags inode) r)).

(** A new subdirectory is one more link to its parent. *)
Definition link_parent (dir : Z) : M Ext4 (fs unit) :=
  parent <-? read_inode dir ;;
  links <-! le16 (raw parent) INO_LINKS_COUNT ;;
  links <-! chk 16 (links + 1) ;;
  r <-! put_le16 (raw parent) INO_LINKS_COUNT links ;;
  _ <-? write_inode (with_raw parent r) ;;
  sret (Ok tt).

Definition create (dir : Z) (name : list Z) (is_dir : bool) : M Ext4 (fs Z) :=
  found <-? lookup dir name ;;
  match found with
  | Some _ => sret (Err FsError.AlreadyExists)
  | None =>
      ino <-? alloc_inode is_dir ;;
      inode <-! fresh_inode ino is_dir ;;
      inode <-? (if is_dir then first_dir_block inode dir else sret (Ok inode)) ;;
      _ <-? write_inode inode ;;
      _ <-? add_dirent dir name ino (if is_dir then FT_DIR else 1) ;;
      _ <-? (if is_dir then link_parent dir else sret (Ok tt)) ;;
      sret (Ok ino)
  end.

Definition create_file (dir : Z) (name : list Z) : M Ext4 (fs Z) := create dir name false.
Definition create_dir (dir : Z) (name : list Z) : M Ext4 (fs Z) := create dir name true.
End Files.

(** ** Reading *)

Section Laws.
Context {D : Type} `{BL : BlockLaws D}.
Abbreviation Ext4 := (Ext4 D).

(** The inode of number [n], read off the volume. *)
Definition disk_inode (s : Ext4) (n : Z) : outcome Inode :=
  let! p := inode_byte s n in
  let! front := slice (image s) p (p + inode_size s) in
  decode_inode s n front.

(** Byte [o] of the file whose extent tree has height [d]; a hole is zeros. *)
Definition file_byte (s : Ext4) (d : nat) (i : Inode) (o : Z) : option Z :=
  match tree_lookup s d (raw i) INO_IBLOCK (o / bs s) with
  | Ret (Some p) => image s !! Z.to_nat (p * bs s + o mod bs s)
  | Ret None => Some 0
  | _ => None
  end.

(** The blocks below the end of the file are mapped by a well-formed tree. *)
Record file_ok (s : Ext4) (d : nat) (i : Inode) : Prop := {
  fo_depth : Z.of_nat d < 2 ^ 16;
  fo_size : 0 <= size i < 2 ^ 64;
  fo_blocks : size i <= 2 ^ 32 * bs s;
  fo_tree : forall lb, 0 <= lb -> lb * bs s < size i -> tree_ok s d (raw i) INO_IBLOCK lb;
  fo_fits : forall lb p, 0 <= lb -> lb * bs s < size i ->
    tree_lookup s d (raw i) INO_IBLOCK lb = Ret (Some p) -> 0 <= p /\ p * bs s < 2 ^ 64;
}.

(** [buf'] is [buf] with its first [n] bytes read from the file at [offset]. *)
Definition copied (s : Ext4) (d : nat) (i : Inode) (offset : Z) (buf : list Z) (n : Z) (buf' : list Z) : Prop :=
  length buf' = length buf /\
  (forall k : nat, Z.of_nat k < n -> buf' !! k = file_byte s d i (offset + Z.of_nat k)) /\
  (forall k : nat, n <= Z.of_nat k -> buf' !! k = buf !! k).

Lemma copied_chunk s d i offset buf n buf1 bytes buf2 :
  copied s d i offset buf n buf1 -> 0 <= n -> splice buf1 n bytes = Ret buf2 ->
  (forall j : nat, (j < length bytes)%nat ->
     bytes !! j = file_byte s d i (offset + n + Z.of_nat j)) ->
  copied s d i offset buf (n + blen bytes) buf2.
Proof.
  intros (Hl & Hin & Hout) Hn Hsp Hb. unfold blen.
  split; [by rewrite (splice_len _ _ _ _ Hsp)|]. split; intros k Hk.
  - destruct (Z.lt_ge_cases (Z.of_nat k) n) as [Hkn|Hkn].
    + rewrite (splice_lookup_out _ _ _ _ _ Hsp) by lia. by apply Hin.
    + replace k with (Z.to_nat n + (k - Z.to_nat n))%nat by lia.
      rewrite (splice_lookup_in _ _ _ _ _ Hsp) by lia. rewrite Hb by lia. f_equal. lia.
  - rewrite (splice_lookup_out _ _ _ _ _ Hsp) by lia. apply Hout. lia.
Qed.

Lemma same_block b c j : 0 < b -> 0 <= j -> c mod b + j < b ->
  (c + j) / b = c / b /\ (c + j) mod b = c mod b + j.
Proof.
  intros Hb Hj Hlt. pose proof (Z.mod_pos_bound c b Hb). pose proof (Z.div_mod c b ltac:(lia)).
  split; symmetry; [apply Z.div_unique with (c mod b + j)|apply Z.mod_unique with (c / b)]; lia.
Qed.

(** The bytes of a turn, from a block and from a hole. *)
Lemma mapped_bytes s d i c count p block buf blk bytes :
  ext4_ok s -> 0 <= c -> 0 < count -> c mod bs s + count <= bs s -> 0 <= p ->
  tree_lookup s d (raw i) INO_IBLOCK (c / bs s) = Ret (Some p) ->
  block_at s p = Ret block -> splice buf 0 block = Ret blk ->
  slice blk (c mod bs s) (c mod bs s + count) = Ret bytes ->
  forall j : nat, (j < length bytes)%nat -> bytes !! j = file_byte s d i (c + Z.of_nat j).
Proof.
  intros Hs Hc Hcnt Hfit Hp Htree Hblock Hblk Hbytes j Hj. pose proof (ok_bs s Hs) as Hbs.
  pose proof (slice_len _ _ _ _ Hbytes) as Hlen. pose proof (slice_len _ _ _ _ Hblock) as Hblen.
  unfold blen in Hlen, Hblen. pose proof (Z.mod_pos_bound c (bs s) ltac:(lia)) as Hm.
  unfold file_byte. destruct (same_block (bs s) c (Z.of_nat j)) as [-> ->]; [lia..|]. rewrite Htree.
  rewrite (slice_lookup _ _ _ _ _ Hbytes) by lia.
  change (blk !! (Z.to_nat 0 + (Z.to_nat (c mod bs s) + j))%nat =
    image s !! Z.to_nat (p * bs s + (c mod bs s + Z.of_nat j))).
  rewrite (splice_lookup_in buf 0 block blk _ Hblk) by lia.
  rewrite (slice_lookup _ _ _ _ _ Hblock) by lia. f_equal. nia.
Qed.

Lemma hole_bytes s d i c count :
  ext4_ok s -> 0 <= c -> 0 < count -> c mod bs s + count <= bs s ->
  tree_lookup s d (raw i) INO_IBLOCK (c / bs s) = Ret None ->
  forall j : nat, (j < length (zeros count))%nat -> zeros count !! j = file_byte s d i (c + Z.of_nat j).
Proof.
  intros Hs Hc Hcnt Hfit Htree j Hj. pose proof (ok_bs s Hs) as Hbs.
  pose proof (Z.mod_pos_bound c (bs s) ltac:(lia)) as Hm.
  unfold zeros in *. rewrite length_replicate in Hj.
  unfold file_byte. destruct (same_block (bs s) c (Z.of_nat j)) as [-> _]; [lia..|]. rewrite Htree.
  by apply lookup_replicate_2.
Qed.

(** A turn reads at least one byte, or reports an error of the device. *)
Lemma read_turn_spec s d i offset take buf n blk buf1 t :
  ext4_ok s -> file_ok s d i -> unchanged s t -> 0 <= offset -> offset + take <= size i ->
  take <= blen buf -> 0 <= n < take -> blen blk = MAX_BLOCK_SIZE -> copied s d i offset buf n buf1 ->
  exists r t', read_turn i offset take (n, (blk, buf1)) t = Ret (r, t') /\ unchanged s t' /\
    match r with
    | Next (n', (blk', buf')) =>
        n < n' <= take /\ blen blk' = MAX_BLOCK_SIZE /\ copied s d i offset buf n' buf'
    | Exit (Ok _) => False
    | Exit (Err _) => True
    end.
Proof.
  intros Hs Hf Hun Ho Hend Htake Hn Hblk Hcopied. pose proof (ok_bs s Hs) as Hbs.
  assert (bs t = bs s) as Hbt by (by destruct Hun as [[-> _] _]). pose proof (fo_size _ _ _ Hf).
  pose proof (fo_blocks _ _ _ Hf) as Hmax. assert (blen buf1 = blen buf) as Hlen1.
  { destruct Hcopied as (Hl & _). unfold blen. by rewrite Hl. }
  unfold read_turn. rewrite (proj2 (Z.leb_gt _ _)) by lia. rewrite sbind_get.
  rewrite (sbind_lift _ _ _ (offset + n)) by (apply chk_Ret; lia). cbv zeta. rewrite Hbt.
  remember (offset + n) as c eqn:Hc. remember (Z.min (bs s - c mod bs s) (take - n)) as count eqn:Hcount.
  pose proof (Z.mod_pos_bound c (bs s) ltac:(lia)) as Hm.
  assert (0 <= c / bs s < 2 ^ 32 /\ c / bs s * bs s < size i) as [Hlb Hlbs].
  { pose proof (Z.div_mod c (bs s) ltac:(lia)). split; [|lia].
    split; [apply Z.div_pos; lia|apply Z.div_lt_upper_bound; lia]. }
  assert (wrap 32 (c / bs s) = c / bs s) as -> by (unfold wrap; by apply Z.mod_small).
  assert (0 < count /\ c mod bs s + count <= bs s /\ n + count <= take) as (Hc0 & Hc1 & Hc2) by lia.
  destruct (map_block_spec s t i (c / bs s) d Hs Hun) as (r & t1 & Hrun & Hun1 & Hr);
    [by apply (fo_tree _ _ _ Hf); lia|by apply (fo_depth _ _ _ Hf)|].
  unfold fbind at 1, sbind at 1. rewrite Hrun. destruct r as [[p|]|e]; [| |by eexists _, t1].
  - destruct (fo_fits _ _ _ Hf (c / bs s) p ltac:(lia) Hlbs Hr) as [Hp0 Hpov].
    assert (bs t1 = bs s) as Hb1 by (by destruct Hun1 as [[-> _] _]).
    destruct (read_fsb_spec t1 p blk) as (r & t2 & Hrun2 & Hun2 & Hr2);
      [by eapply unchanged_ok|lia|by rewrite Hb1|rewrite Hb1, Hblk; unfold MAX_BLOCK_SIZE; lia|].
    pose proof (unchanged_trans _ _ _ Hun1 Hun2) as Hun'.
    unfold fbind at 1, sbind at 1. rewrite Hrun2. destruct r as [blk'|e]; [|by eexists _, t2].
    destruct Hr2 as (block & Hblock & Hsp). rewrite (unchanged_block _ _ _ Hun1) in Hblock.
    pose proof (splice_blen _ _ _ _ Hsp) as Hblk'.
    destruct (slice blk' (c mod bs s) (c mod bs s + count)) as [bytes| |] eqn:Hbytes;
      [|rewrite slice_Ret in Hbytes by (rewrite ?Hblk', ?Hblk; unfold MAX_BLOCK_SIZE; lia); done..].
    rewrite (sbind_lift _ _ _ bytes) by done. pose proof (slice_len _ _ _ _ Hbytes) as Hbl.
    destruct (splice buf1 n bytes) as [buf2| |] eqn:Hsp2; [|rewrite splice_Ret in Hsp2 by lia; done..].
    rewrite (sbind_lift _ _ _ buf2) by done. eexists _, t2. split; [done|]. split; [done|].
    split; [lia|]. split; [by rewrite Hblk'|].
    replace (n + count) with (n + blen bytes) by lia. eapply copied_chunk; [done|lia|done|].
    rewrite <- Hc. eapply mapped_bytes with (count := count); try done; lia.
  - assert (blen (zeros count) = count) as Hz by (unfold blen, zeros; rewrite length_replicate; lia).
    destruct (splice buf1 n (zeros count)) as [buf2| |] eqn:Hsp2;
      [|rewrite splice_Ret in Hsp2 by lia; done..].
    rewrite (sbind_lift _ _ _ buf2) by done. eexists _, t1. split; [done|]. split; [done|].
    split; [lia|]. split; [done|]. replace (n + count) with (n + blen (zeros count)) by lia. eapply copied_chunk; [done|lia|done|].
    rewrite <- Hc. apply hole_bytes; try done; lia.
Qed.

Lemma read_loop_spec s d i offset take buf :
  ext4_ok s -> file_ok s d i -> 0 <= offset -> offset + take <= size i -> take <= blen buf ->
  forall fuel n blk buf1 t, unchanged s t -> 0 <= n <= take -> blen blk = MAX_BLOCK_SIZE ->
  copied s d i offset buf n buf1 -> (Z.to_nat (take - n) < fuel)%nat ->
  exists r t', while_loop fuel (read_turn i offset take) (n, (blk, buf1)) t = Ret (r, t') /\
    unchanged s t' /\
    match r with
    | Ok (m, buf') => m = take /\ copied s d i offset buf take buf'
    | Err _ => True
    end.
Proof.
  intros Hs Hf Ho Hend Htake. induction fuel as [|fuel IH]; [lia|].
  intros n blk buf1 t Hun Hn Hblk Hc Hfuel. cbn [while_loop].
  destruct (Z.eq_dec n take) as [->|Hne].
  - unfold sbind at 1, read_turn. rewrite Z.leb_refl. by eexists _, t.
  - destruct (read_turn_spec s d i offset take buf n blk buf1 t) as (r & t1 & Hrun & Hun1 & Hr);
      try done; [lia|].
    unfold sbind at 1. rewrite Hrun. destruct r as [[n' [blk' buf']]|[?|e]]; [|done|by eexists _, t1].
    destruct Hr as (Hn' & Hblk' & Hc'). apply IH; try done; lia.
Qed.

(** [read_inode] finds the inode of the volume. *)
Lemma read_disk_inode s n i :
  ext4_ok s -> aligned s -> 1 <= n <= 2 ^ 32 -> tables_fit s n -> disk_inode s n = Ret i ->
  exists r s', read_inode n s = Ret (r, s') /\ unchanged s s' /\ match r with Ok i' => i' = i | Err _ => True end.
Proof.
  intros Hs Ha Hn Hfit Hi. destruct (read_inode_spec s n Hs Ha Hn Hfit) as (r & s1 & Hrun & Hun & Hr).
  exists r, s1. split; [done|]. split; [done|]. destruct r as [i'|]; [|done]. destruct Hr as (p & front & Hp & Hfr & Hdec).
  unfold disk_inode in Hi. rewrite Hp in Hi. cbn [obind] in Hi. rewrite Hfr in Hi. cbn [obind] in Hi. congruence.
Qed.

Lemma read_file_spec s n offset buf i d :
  ext4_ok s -> aligned s -> 1 <= n <= 2 ^ 32 -> tables_fit s n -> disk_inode s n = Ret i ->
  (is_file i = true -> file_ok s d i) -> 0 <= offset -> 0 < blen buf ->
  exists r s', read_file n offset buf s = Ret (r, s') /\ unchanged s s' /\
    match r with
    | Ok (count, buf') => is_file i = true /\
        count = Z.max 0 (Z.min (size i - offset) (blen buf)) /\ copied s d i offset buf count buf'
    | Err _ => True
    end.
Proof.
  intros Hs Ha Hn Hfit Hi Hf Ho Hlen. unfold read_file. rewrite (proj2 (Z.eqb_neq _ _)) by lia.
  destruct (read_disk_inode s n i Hs Ha Hn Hfit Hi) as (r & s1 & Hrun & Hun & Hr).
  destruct r as [i'|e]; [|rewrite (qbind_Err _ _ _ _ _ Hrun); by eexists _, s1].
  rewrite (qbind_Ok _ _ _ _ _ Hrun). subst i'.
  destruct (is_file i) eqn:Hfile; cbn [negb]; [|by eexists _, s1]. specialize (Hf eq_refl).
  destruct (Z.leb_spec (size i) offset).
  { eexists _, s1. split; [done|]. split; [done|]. split; [done|]. split; [lia|].
    by split; [|split]; [|lia|]. }
  cbv zeta. set (tk := Z.min (size i - offset) (blen buf)).
  destruct (read_loop_spec s d i offset tk buf Hs Hf Ho ltac:(lia) ltac:(lia) (Z.to_nat tk + 1) 0
    (zeros MAX_BLOCK_SIZE) buf s1 Hun ltac:(lia) eq_refl) as (r & s2 & Hrun2 & Hun2 & Hr2);
    [by split; [|split]; [|lia|]|lia|].
  rewrite Hrun2. eexists _, s2. split; [done|]. split; [done|].
  destruct r as [[m buf']|e]; [|done]. destruct Hr2 as [-> Hc]. split; [done|].
  replace (Z.max 0 tk) with tk by lia. done.
Qed.
(** C30: Reading a file. [read_file] returns for every file whose extent tree is
    well formed below its size, leaves the volume as it was, and unless the
    device fails it fills exactly [min (size - offset, buffer length)] bytes of
    the buffer (none beyond the end) with the bytes of the file: those of the
    block each one is mapped to, zeros in holes. The rest of the buffer is kept,
    and an inode that is not a regular file gives an error. *)
Theorem read_file_correct s n offset buf i d :
  ext4_ok s -> aligned s -> 1 <= n <= 2 ^ 32 -> tables_fit s n -> disk_inode s n = Ret i ->
  (is_file i = true -> file_ok s d i) -> 0 <= offset -> 0 < blen buf ->
  exists r s', read_file n offset buf s = Ret (r, s') /\ unchanged s s' /\
    match r with
    | Ok (count, buf') => is_file i = true /\
        count = Z.max 0 (Z.min (size i - offset) (blen buf)) /\ copied s d i offset buf count buf'
    | Err _ => True
    end.
Proof. apply read_file_spec. Qed.
End Laws.

(** ** Witness *)

(** A file of five bytes in block 9 of the sample volume. *)
Definition five_bytes : Inode :=
  mkInode 3 0x81A4 5 2 INO_FLAG_EXTENTS
    (node_or_zeros (let! r := wr_hdr (zeros MAX_INODE_SIZE) INO_IBLOCK 1 4 0 in
                    wr_extent r INO_IBLOCK 0 0 1 9)).

Definition file_volume : Ext4 RamDisk :=
  match write_inode five_bytes sample_volume with Ret (_, s) => s | _ => sample_volume end.

Definition five_on_disk : Inode :=
  match disk_inode file_volume 3 with Ret i => i | _ => five_bytes end.

Lemma file_volume_ok : ext4_ok file_volume.
Proof.
  assert (bd_ok (dev file_volume)) as Hd.
  { apply (bytes_okb_ok (ram_image (dev file_volume))). vm_compute. reflexivity. }
  eapply (same_volume_ok sample_volume); [|exact sample_ok]. split; [|exact Hd]. vm_compute. reflexivity.
Qed.

Lemma file_volume_aligned : aligned file_volume.
Proof. split; right; vm_compute; reflexivity. Qed.

Lemma file_volume_fit : tables_fit file_volume 3.
Proof.
  intros p. assert (inode_byte file_volume 3 = Ret 5632) as -> by (vm_compute; reflexivity).
  intros [= <-]. reflexivity.
Qed.

Lemma five_disk : disk_inode file_volume 3 = Ret five_on_disk.
Proof. vm_compute. reflexivity. Qed.

Lemma five_ok : file_ok file_volume 0 five_on_disk.
Proof.
  assert (bs file_volume = 1024) as Hbs by (vm_compute; reflexivity).
  assert (size five_on_disk = 5) as Hsz by (vm_compute; reflexivity).
  assert (tree_lookup file_volume 0 (raw five_on_disk) INO_IBLOCK 0 = Ret (Some 9)) as Hl
    by (vm_compute; reflexivity).
  assert (tree_ok file_volume 0 (raw five_on_disk) INO_IBLOCK 0) as Ht.
  { exists 1, 4. split; [vm_compute; reflexivity|]. split; [lia|]. split; [vm_compute; discriminate|].
    match goal with |- extents_fit ?l => assert (l = [(0, 1, 9)]) as -> by (vm_compute; reflexivity) end.
    constructor; [lia|constructor]. }
  revert Hbs Hsz Hl Ht. generalize file_volume five_on_disk. intros s i Hbs Hsz Hl Ht.
  split; rewrite ?Hsz, ?Hbs; [lia..| |]; intros lb; [|intros p]; intros H0 H1;
    assert (lb = 0) as -> by lia; [exact Ht|]. rewrite Hl. intros [= <-]. lia.
Qed.

Lemma read_file_correct_witness : exists r s',
  read_file 3 0 (zeros 8) file_volume = Ret (r, s') /\
  match r with
  | Ok (count, buf') => count = 5 /\ copied file_volume 0 five_on_disk 0 (zeros 8) 5 buf'
  | Err _ => True
  end.
Proof.
  destruct (read_file_correct file_volume 3 0 (zeros 8) five_on_disk 0 file_volume_ok file_volume_aligned
    ltac:(lia) file_volume_fit five_disk (fun _ => five_ok) ltac:(lia) ltac:(reflexivity))
    as (r & s' & Hrun & _ & Hr).
  exists r, s'. split; [exact Hrun|]. destruct r as [[count buf']|e]; [|exact I].
  destruct Hr as (_ & Hcount & Hcp).
  assert (Z.max 0 (Z.min (size five_on_disk - 0) (blen (zeros 8))) = 5) as H5 by (vm_compute; reflexivity).
  rewrite H5 in Hcount. rewrite Hcount in Hcp. split; [exact Hcount|exact Hcp].
Defined.

(** On the volume in memory the read succeeds. *)
Example read_file_five : is_ok (read_file 3 0 (zeros 8) file_volume) = true.
Proof. vm_compute. reflexivity. Qed.
