(* ===== verification/Ext4Write.v ===== *)
(** * Writing to files ([write_file] of [src/src/ext4.rs])

    What a write does to the volume, byte by byte, for a file whose extents are in its
    inode and cover the bytes written: exactly those bytes of the file change, wherever
    its extents put them, the inode gets the new size and block count, and nothing else
    of the volume is touched. *)

From S2P Require Import Prelude Block Crc.
From stdpp Require Import list.
From S2P Require Import Ext4Layout Ext4 Ext4Inode Ext4Alloc Ext4Extent Ext4Dir Ext4File.
#[local] Open Scope Z_scope.

Section Write.
Context {D : Type} `{BL : BlockLaws D}.
Abbreviation Ext4 := (Ext4 D).

(** The byte of the image where the extents [l] put byte [o] of a file. *)
Definition place_of (s : Ext4) (l : list (Z * Z * Z)) (o : Z) : option Z :=
  match lookup_extent l (o / bs s) with
  | Some p => Some (p * bs s + o mod bs s)
  | None => None
  end.

(** Every byte from [lo] to [hi] has a block, and no block belongs to two places of the file. *)
Record backed (s : Ext4) (l : list (Z * Z * Z)) (lo hi : Z) : Prop := {
  bk_range : 0 <= lo /\ hi <= 2 ^ 32 * bs s /\ hi < 2 ^ 64;
  bk_mapped : forall o, lo <= o < hi -> exists p, lookup_extent l (o / bs s) = Some p;
  bk_fits : forall lb p, lookup_extent l lb = Some p -> 0 <= p /\ p * bs s + bs s <= 2 ^ 64;
  bk_once : forall lb lb' p, lookup_extent l lb = Some p -> lookup_extent l lb' = Some p -> lb = lb';
}.

(** The image after the first [n] bytes of [buf] have been written at [offset]. *)
Record written (s : Ext4) (l : list (Z * Z * Z)) (offset : Z) (buf : list Z) (n : Z) (img : list Z) : Prop := {
  wn_length : length img = length (image s);
  wn_in : forall o a, offset <= o < offset + n -> place_of s l o = Some a ->
    img !! Z.to_nat a = buf !! Z.to_nat (o - offset);
  wn_out : forall a, 0 <= a -> (forall o, offset <= o < offset + n -> place_of s l o <> Some a) ->
    img !! Z.to_nat a = image s !! Z.to_nat a;
}.

(** The image after a write to the blocks of the file that failed. *)
Record disturbed (s : Ext4) (l : list (Z * Z * Z)) (img : list Z) : Prop := {
  ds_length : length img = length (image s);
  ds_out : forall a, 0 <= a -> (forall lb p, lookup_extent l lb = Some p -> ~ p * bs s <= a < p * bs s + bs s) ->
    img !! Z.to_nat a = image s !! Z.to_nat a;
}.

Lemma place_of_some s l o a : ext4_ok s -> place_of s l o = Some a ->
  exists p, lookup_extent l (o / bs s) = Some p /\ a = p * bs s + o mod bs s /\ p * bs s <= a < p * bs s + bs s.
Proof.
  intros Hs Ho. unfold place_of in Ho. destruct (lookup_extent l (o / bs s)) as [p|]; [|done]. injection Ho as <-.
  exists p. pose proof (ok_bs s Hs). pose proof (Z.mod_pos_bound o (bs s) ltac:(lia)). split; [done|]. split; [done|]. lia.
Qed.

Lemma block_inj b p q x : 0 < b -> p * b <= x < p * b + b -> q * b <= x < q * b + b -> p = q.
Proof. intros Hb Hp Hq. assert (p < q \/ p = q \/ q < p) as [?|[?|?]] by lia; nia. Qed.

(** Different bytes of the file are different bytes of the image. *)
Lemma place_inj s l lo hi o o' a : ext4_ok s -> backed s l lo hi ->
  place_of s l o = Some a -> place_of s l o' = Some a -> o = o'.
Proof.
  intros Hs Hb Ho Ho'. destruct (place_of_some _ _ _ _ Hs Ho) as (p & Hp & Ha & Hr).
  destruct (place_of_some _ _ _ _ Hs Ho') as (q & Hq & Ha' & Hr'). pose proof (ok_bs s Hs).
  pose proof (block_inj (bs s) p q a ltac:(lia) Hr Hr') as <-.
  pose proof (bk_once _ _ _ _ Hb _ _ _ Hp Hq) as Hlb.
  rewrite (Z.div_mod o (bs s)), (Z.div_mod o' (bs s)) by lia. rewrite Hlb. lia.
Qed.

Lemma written_disturbed s l offset buf n img : ext4_ok s -> written s l offset buf n img -> disturbed s l img.
Proof.
  intros Hs [Hl _ Hout]. split; [done|]. intros a Ha Hc. apply Hout; [done|]. intros o _ Ho.
  destruct (place_of_some _ _ _ _ Hs Ho) as (p & Hp & _ & Hr). by apply (Hc _ _ Hp).
Qed.

Lemma disturbed_block s l img img' lb p : lookup_extent l lb = Some p -> disturbed s l img ->
  same_outside img img' (p * bs s) (p * bs s + bs s) -> disturbed s l img'.
Proof.
  intros Hp [Hl Hout] [Hl' Hout']. split; [congruence|]. intros a Ha Hc.
  rewrite Hout' by (specialize (Hc _ _ Hp); lia). by apply Hout.
Qed.

(** One chunk more, inside a block. *)
Lemma written_chunk s l lo hi offset buf n img bytes p img' :
  ext4_ok s -> backed s l lo hi -> lo <= offset -> offset + n + blen bytes <= hi -> 0 <= n ->
  lookup_extent l ((offset + n) / bs s) = Some p -> (offset + n) mod bs s + blen bytes <= bs s ->
  slice buf n (n + blen bytes) = Ret bytes ->
  splice img (p * bs s + (offset + n) mod bs s) bytes = Ret img' ->
  written s l offset buf n img -> written s l offset buf (n + blen bytes) img'.
Proof.
  intros Hs Hb Hlo Hhi Hn Hp Hfit Hbytes Hsp [Hl Hin Hout]. pose proof (ok_bs s Hs) as Hbs.
  pose proof (bk_fits _ _ _ _ Hb _ _ Hp) as [Hp0 _]. pose proof (bk_range _ _ _ _ Hb) as (Hlo0 & _ & _).
  set (c := offset + n) in *. pose proof (Z.mod_pos_bound c (bs s) ltac:(lia)) as Hm.
  assert (forall j, 0 <= j < blen bytes -> place_of s l (c + j) = Some (p * bs s + c mod bs s + j)) as Hpl.
  { intros j Hj. unfold place_of. destruct (same_block (bs s) c j) as [-> ->]; [lia..|]. rewrite Hp. f_equal. lia. }
  split; [by rewrite (splice_len _ _ _ _ Hsp)| |].
  - intros o a Ho Ha. destruct (Z.lt_ge_cases o c) as [Hlt|Hge].
    + assert (~ p * bs s + c mod bs s <= a < p * bs s + c mod bs s + blen bytes) as Hno.
      { intros Hx. pose proof (place_inj s l lo hi o (c + (a - (p * bs s + c mod bs s))) a Hs Hb Ha) as E.
        rewrite Hpl in E by lia. specialize (E ltac:(f_equal; lia)). lia. }
      destruct (place_of_some _ _ _ _ Hs Ha) as (q & Hq & _ & Hr).
      pose proof (bk_fits _ _ _ _ Hb _ _ Hq) as [Hq0 _].
      rewrite (splice_lookup_out _ _ _ _ _ Hsp) by (unfold blen in Hno; nia). apply Hin; [lia|done].
    + specialize (Hpl (o - c) ltac:(lia)). replace (c + (o - c)) with o in Hpl by lia. rewrite Ha in Hpl. injection Hpl as ->.
      replace (Z.to_nat (p * bs s + c mod bs s + (o - c))) with (Z.to_nat (p * bs s + c mod bs s) + Z.to_nat (o - c))%nat by nia.
      unfold blen in *. rewrite (splice_lookup_in _ _ _ _ _ Hsp) by lia. rewrite (slice_lookup _ _ _ _ _ Hbytes) by lia. f_equal. lia.
  - intros a Ha Hc. rewrite (splice_lookup_out _ _ _ _ _ Hsp); [|].
    + apply Hout; [done|]. intros o Ho. apply Hc. pose proof (blen_nonneg bytes). lia.
    + destruct (Z.lt_ge_cases a (p * bs s + c mod bs s)); [nia|].
      destruct (Z.lt_ge_cases a (p * bs s + c mod bs s + blen bytes)); [|unfold blen in *; nia]. exfalso.
      apply (Hc (c + (a - (p * bs s + c mod bs s)))); [lia|]. rewrite Hpl by lia. f_equal. lia.
Qed.

(** A turn writes at least one byte, or reports an error of the device. *)
Lemma write_turn_spec s l nn max i offset buf n blk t :
  ext4_ok s -> root_leaf i nn max l -> backed s l offset (offset + blen buf) -> bytes_ok buf ->
  same_volume s t -> written s l offset buf n (image t) -> 0 <= n < blen buf ->
  blen blk = MAX_BLOCK_SIZE -> bytes_ok blk ->
  exists r t', write_turn offset buf (n, (blk, i)) t = Ret (r, t') /\ same_volume s t' /\
    match r with
    | Next (n', (blk', i')) => i' = i /\ n < n' <= blen buf /\ blen blk' = MAX_BLOCK_SIZE /\ bytes_ok blk' /\
        written s l offset buf n' (image t')
    | Exit (Ok _) => False
    | Exit (Err _) => disturbed s l (image t')
    end.
Proof.
  intros Hs Hroot Hb Hok Hsv Hw Hn Hblk Hokb. pose proof (ok_bs s Hs) as Hbs.
  pose proof (same_volume_ok _ _ Hsv Hs) as Ht. assert (bs t = bs s) as Hbt by (by destruct Hsv as [-> _]).
  pose proof (bk_range _ _ _ _ Hb) as (Ho & Hmax & Hov).
  unfold write_turn. rewrite (proj2 (Z.leb_gt _ _)) by lia. rewrite sbind_get.
  rewrite (sbind_lift _ _ _ (offset + n)) by (apply chk_Ret; lia). cbv zeta. rewrite Hbt.
  remember (offset + n) as c eqn:Hc. remember (Z.min (bs s - c mod bs s) (blen buf - n)) as count eqn:Hcount.
  pose proof (Z.mod_pos_bound c (bs s) ltac:(lia)) as Hm.
  assert (wrap 32 (c / bs s) = c / bs s) as ->.
  { unfold wrap. apply Z.mod_small. split; [apply Z.div_pos; lia|apply Z.div_lt_upper_bound; lia]. }
  destruct (bk_mapped _ _ _ _ Hb c ltac:(lia)) as [p Hp]. destruct (bk_fits _ _ _ _ Hb _ _ Hp) as [Hp0 Hpov].
  unfold fbind at 1, sbind at 1. rewrite (map_root_leaf t i nn max l _ Hroot), Hp.
  destruct (read_fsb_spec t p blk Ht) as (r & t1 & Hrun & Hun & Hr);
    [lia|rewrite Hbt; lia|rewrite Hbt, Hblk; unfold MAX_BLOCK_SIZE; lia|].
  pose proof (same_volume_trans _ _ _ Hsv (proj1 Hun)) as Hsv1. unfold fbind at 1, sbind at 1.
  destruct r as [blk1|e]; [rewrite (qbind_Ok _ _ _ _ _ Hrun)|rewrite (qbind_Err _ _ _ _ _ Hrun)]; cycle 1.
  { eexists _, t1. split; [done|]. split; [done|]. destruct Hun as [_ ->]. by eapply written_disturbed. }
  destruct Hr as (block & Hblock & Hsp). cbn [sret].
  unfold fbind at 1, sbind at 1. rewrite (map_root_leaf t1 i nn max l _ Hroot), Hp.
  destruct (slice buf n (n + count)) as [bytes| |] eqn:Hbytes; [|rewrite slice_Ret in Hbytes by lia; done..].
  rewrite (sbind_lift _ _ _ bytes) by done. pose proof (slice_len _ _ _ _ Hbytes) as Hbl.
  assert ((p * bs s + c mod bs s) / bs s = p /\ (p * bs s + c mod bs s) mod bs s = c mod bs s) as [Hd1 Hd2].
  { split; symmetry; [apply Z.div_unique with (c mod bs s)|apply Z.mod_unique with p]; lia. }
  destruct (record_update_spec t t1 (p * bs s + c mod bs s) bytes block blk blk1 Ht Hun) as (blk2 & r & t2 & Hsp2 & Hok2 & Hrun2 & Hsv2 & Hr2);
    rewrite ?Hbt, ?Hd1, ?Hd2 in *; [nia|lia|by eapply slice_bytes|done|done|rewrite Hblk; unfold MAX_BLOCK_SIZE; lia|done|].
  rewrite (sbind_lift _ _ _ blk2) by done. pose proof (same_volume_trans _ _ _ Hsv Hsv2) as Hsv'.
  unfold fbind, sbind. rewrite Hrun2. destruct r as [u|e].
  - eexists _, t2. split; [done|]. split; [done|]. split; [done|]. split; [lia|].
    split; [by rewrite (splice_blen _ _ _ _ Hsp2), (splice_blen _ _ _ _ Hsp)|]. split; [done|].
    replace count with (blen bytes) by lia. subst c.
    eapply (written_chunk s l offset (offset + blen buf)); try done; try lia. by replace (n + blen bytes) with (n + count) by lia.
  - eexists _, t2. split; [done|]. split; [done|]. eapply disturbed_block; [done|by eapply written_disturbed|exact Hr2].
Qed.

Lemma write_loop_spec s l nn max i offset buf :
  ext4_ok s -> root_leaf i nn max l -> backed s l offset (offset + blen buf) -> bytes_ok buf ->
  forall fuel n blk t, same_volume s t -> written s l offset buf n (image t) -> 0 <= n <= blen buf ->
  blen blk = MAX_BLOCK_SIZE -> bytes_ok blk -> (Z.to_nat (blen buf - n) < fuel)%nat ->
  exists r t', while_loop fuel (write_turn offset buf) (n, (blk, i)) t = Ret (r, t') /\ same_volume s t' /\
    match r with
    | Ok i' => i' = i /\ written s l offset buf (blen buf) (image t')
    | Err _ => disturbed s l (image t')
    end.
Proof.
  intros Hs Hroot Hb Hok. induction fuel as [|fuel IH]; [lia|].
  intros n blk t Hsv Hw Hn Hblk Hokb Hfuel. cbn [while_loop].
  destruct (Z.eq_dec n (blen buf)) as [->|Hne].
  - unfold sbind at 1, write_turn. rewrite Z.leb_refl. by eexists _, t.
  - destruct (write_turn_spec s l nn max i offset buf n blk t) as (r & t1 & Hrun & Hsv1 & Hr); try done; [lia|].
    unfold sbind at 1. rewrite Hrun. destruct r as [[n' [blk' i']]|[?|e]]; [|done|by eexists _, t1].
    destruct Hr as (-> & Hn' & Hblk' & Hokb' & Hw'). apply IH; try done; lia.
Qed.

(** *** Counting the blocks of the file *)

Definition ext_sum (l : list (Z * Z * Z)) : Z := fold_right (fun '(_, elen, _) n => elen + n) 0 l.

Lemma ext_sum_bound b base n : bytes_ok b -> 0 <= base -> forall i, 0 <= i ->
  0 <= ext_sum (leaf_extents n b base i) <= 2 ^ 15 * Z.of_nat n.
Proof.
  intros Hok Hb. induction n as [|n IH]; intros i Hi; cbn [leaf_extents]; [cbn; lia|].
  specialize (IH (i + 1) ltac:(lia)). destruct (rd_extent_total b base i) as (r & -> & Hr); [done..|].
  destruct r as [[[eb el] pb]|]; [|lia]. specialize (Hr Hok). cbn [ext_sum fold_right].
  fold (ext_sum (leaf_extents n b base (i + 1))). lia.
Qed.

(** The number of sectors of a file with its extents in the inode. *)
Lemma root_sectors (s : Ext4) i nn max l : ext4_ok s -> root_leaf i nn max l -> 0 <= ext_sum l * (bs s / 512) < 2 ^ 32.
Proof.
  intros Hs (_ & Hok & _ & Hn & Hmax & -> & _). pose proof (ok_bs s Hs) as Hbs.
  assert (1 <= bs s / 512 <= 8) by (destruct Hbs as [->|[->| ->]]; vm_compute; split; discriminate).
  pose proof (ext_sum_bound (raw i) INO_IBLOCK (Z.to_nat nn) Hok ltac:(done) 0 ltac:(done)). nia.
Qed.

Lemma leaf_sum_loop b base n : forall i total, 0 <= base -> 0 <= i -> extents_fit (leaf_extents n b base i) ->
  0 <= total -> total + 2 ^ 32 * Z.of_nat n < 2 ^ 64 ->
  ofor n i (leaf_sum b base) total = Ret (Next (total + ext_sum (leaf_extents n b base i))).
Proof.
  induction n as [|n IH]; intros i total Hb Hi Hfit Ht Hov; cbn [ofor leaf_extents] in *; [by rewrite Z.add_0_r|].
  unfold leaf_sum at 1. destruct (rd_extent_total b base i) as (r & Hr & _); [done..|]. rewrite Hr in *. cbn [obind].
  destruct r as [[[eb elen] pb]|]; cbn [obind].
  - apply Forall_cons in Hfit as [(?&?&?) Hfit]. rewrite chk_Ret by lia. cbn [obind].
    rewrite IH by (try done; lia). cbn [ext_sum fold_right]. fold (ext_sum (leaf_extents n b base (i + 1))). do 2 f_equal. lia.
  - apply IH; try done; lia.
Qed.

Lemma recount_root (s : Ext4) i nn max l : ext4_ok s -> root_leaf i nn max l ->
  recount_blocks i s = Ret (Ok (ext_sum l * (bs s / 512)), s).
Proof.
  intros Hs Hroot. pose proof (root_sectors s i nn max l Hs Hroot) as Hr.
  destruct Hroot as (Hl & Hok & Hh & Hn & Hmax & Hlist & Hfit).
  unfold recount_blocks. rewrite sbind_get, (sbind_lift _ _ _ _ Hh). change (Z.to_nat 0) with 0%nat.
  assert (node_sum 0 (raw i) INO_IBLOCK s = Ret (Ok (ext_sum l), s)) as Hsumrun.
  { cbn [node_sum]. rewrite (sbind_lift _ _ _ _ Hh). rewrite (sbind_lift _ _ _ (Next (ext_sum l))); [done|].
    rewrite leaf_sum_loop by (try done; try lia; by rewrite <- Hlist). by rewrite <- Hlist. }
  rewrite (qbind_Ok _ _ _ _ _ Hsumrun). by rewrite (sbind_lift _ _ _ (ext_sum l * (bs s / 512))) by (apply chk_Ret; lia).
Qed.

(** *** The block map in the inode *)

Definition iblock (r : list Z) : outcome (list Z) := slice r INO_IBLOCK (INO_IBLOCK + 60).

Lemma rd_hdr_iblock r r' : blen r = MAX_INODE_SIZE -> blen r' = MAX_INODE_SIZE -> iblock r' = iblock r ->
  rd_hdr r' INO_IBLOCK = rd_hdr r INO_IBLOCK /\
  forall j, 0 <= j < 4 -> rd_extent r' INO_IBLOCK j = rd_extent r INO_IBLOCK j.
Proof.
  intros Hl Hl' Hi. unfold iblock in Hi. unfold MAX_INODE_SIZE in *.
  destruct (slice r INO_IBLOCK (INO_IBLOCK + 60)) as [x| |] eqn:Hx; [|rewrite slice_Ret in Hx by (unfold INO_IBLOCK; lia); done..].
  assert (forall n k, 0 <= n -> INO_IBLOCK <= k -> k + n <= INO_IBLOCK + 60 -> get_le n r' k = get_le n r k) as Hg.
  { intros n k Hn Hk Hkn. replace k with (INO_IBLOCK + (k - INO_IBLOCK)) by lia.
    rewrite (get_le_slice n r' _ _ _ _ Hi), (get_le_slice n r _ _ _ _ Hx); [done|lia..]. }
  unfold rd_hdr, rd_extent, le16, le32. rewrite Hl, Hl'. split.
  - case_test; [done|]. by rewrite !Hg by lia.
  - intros j Hj. cbv zeta. case_test; [done|]. by rewrite !Hg by lia.
Qed.

Lemma root_leaf_iblock i i' nn max l : root_leaf i nn max l -> blen (raw i') = MAX_INODE_SIZE -> bytes_ok (raw i') ->
  iblock (raw i') = iblock (raw i) -> root_leaf i' nn max l.
Proof.
  intros (Hl & Hok & Hh & Hn & Hmax & Hlist & Hfit) Hl' Hok' Hi.
  destruct (rd_hdr_iblock _ _ Hl Hl' Hi) as [Eh Ee]. split; [done|]. split; [done|].
  split; [by rewrite Eh|]. split; [done|]. split; [done|]. split; [|done].
  rewrite Hlist. symmetry. apply leaf_extents_ext. intros j Hj. apply Ee. lia.
Qed.

Lemma iblock_put n r off v r' : put_le n r off v = Ret r' -> INO_IBLOCK + 60 <= off \/ off + Z.of_nat n <= INO_IBLOCK ->
  iblock r' = iblock r.
Proof. apply slice_put_other. Qed.

Lemma encode_iblock (s : Ext4) i r : encode_inode s i = Ret r -> iblock r = iblock (raw i).
Proof.
  unfold encode_inode. intros (r1 & H1 & (r2 & H2 & (r3 & H3 & (r4 & H4 & H)%obind_Ret_inv)%obind_Ret_inv)%obind_Ret_inv)%obind_Ret_inv.
  assert (iblock r4 = iblock (raw i)) as E4.
  { rewrite (iblock_put _ _ _ _ _ H4), (iblock_put _ _ _ _ _ H3), (iblock_put _ _ _ _ _ H2), (iblock_put _ _ _ _ _ H1);
      [done|right; vm_compute; discriminate..]. }
  destruct (has_64bit s); [|by injection H as <-]. apply obind_Ret_inv in H as (r5 & H5 & H6).
  rewrite (iblock_put _ _ _ _ _ H6), (iblock_put _ _ _ _ _ H5); [done|vm_compute; intuition discriminate..].
Qed.

Lemma stamp_iblock (s : Ext4) n r r' : stamp_inode s n r = Ret r' -> iblock r' = iblock r.
Proof.
  unfold stamp_inode. destruct (meta_csum s); [|by intros [= <-]].
  intros (csum & _ & (hi & _ & (r1 & H1 & H)%obind_Ret_inv)%obind_Ret_inv)%obind_Ret_inv.
  assert (iblock r1 = iblock r) as E1 by (apply (iblock_put _ _ _ _ _ H1); left; vm_compute; discriminate).
  destruct hi; [|by injection H as <-].
  rewrite (iblock_put _ _ _ _ _ H); [done|left; vm_compute; discriminate].
Qed.

Lemma write_inode_iblock (s : Ext4) i i' s' : write_inode i s = Ret (Ok i', s') -> iblock (raw i') = iblock (raw i).
Proof.
  unfold write_inode. rewrite sbind_get. intros ([[blk off] g] & s1 & _ & H)%qbind_Ok_inv.
  apply qbind_Ok_inv in H as (buf & s2 & _ & H). apply sbind_Ret_inv in H as (r1 & s3 & [He ->]%slift_Ret_inv & H).
  apply sbind_Ret_inv in H as (r2 & s4 & [Hst ->]%slift_Ret_inv & H).
  apply sbind_Ret_inv in H as (im & s5 & _ & H). apply sbind_Ret_inv in H as (b2 & s6 & _ & H).
  apply qbind_Ok_inv in H as (u & s7 & _ & H). injection H as <- _. cbn [with_raw raw].
  by rewrite (stamp_iblock _ _ _ _ Hst), (encode_iblock _ _ _ He).
Qed.

(** *** The whole write *)

(** The blocks of the file lie clear of its inode and of the descriptor that leads to it. *)
Definition clear_of_inode (s : Ext4) (l : list (Z * Z * Z)) (n : Z) : Prop :=
  forall p lb q, inode_byte s n = Ret p -> lookup_extent l lb = Some q ->
    (q * bs s + bs s <= p \/ p + inode_size s <= q * bs s) /\
    let d := desc_byte s ((n - 1) / ipg s) in q * bs s + bs s <= d \/ d + desc_size s <= q * bs s.

(** A file with its extents in the inode, and a range of it that can be written in place. *)
Record writable (s : Ext4) (n : Z) (i : Inode) (nn max : Z) (l : list (Z * Z * Z)) (offset len : Z) : Prop := {
  wt_disk : disk_inode s n = Ret i;
  wt_wf : inode_wf s i;
  wt_root : root_leaf i nn max l;
  wt_backed : backed s l offset (offset + len);
  wt_size : offset + len < 2 ^ (if has_64bit s then 64 else 32);
  wt_fit : tables_fit s n;
  wt_apart : apart s n;
  wt_clear : clear_of_inode s l n;
}.

(** The file after [buf] has been written at [offset]. *)
Record updated (s s' : Ext4) (n : Z) (i i' : Inode) (nn max : Z) (l : list (Z * Z * Z)) (offset : Z) (buf : list Z) : Prop := {
  up_place : inode_byte s' n = inode_byte s n;
  up_disk : disk_inode s' n = Ret i';
  up_root : root_leaf i' nn max l;
  up_size : size i' = Z.max (size i) (offset + blen buf);
  up_mode : mode i' = mode i;
  up_flags : flags i' = flags i;
  up_blocks : blocks i' = ext_sum l * (bs s / 512);
  up_bytes : forall o, 0 <= o -> file_byte s' 0 i' o =
    if bool_decide (offset <= o < offset + blen buf) then buf !! Z.to_nat (o - offset) else file_byte s 0 i o;
  up_rest : forall p a, inode_byte s n = Ret p -> 0 <= a -> ~ p <= a < p + inode_size s ->
    (forall o, offset <= o < offset + blen buf -> place_of s l o <> Some a) -> image s' !! Z.to_nat a = image s !! Z.to_nat a;
}.

Lemma slice_ext b b' lo hi : length b' = length b -> (forall a, lo <= a < hi -> b' !! Z.to_nat a = b !! Z.to_nat a) ->
  0 <= lo -> slice b' lo hi = slice b lo hi.
Proof.
  intros Hl He Hlo. unfold slice, blen. rewrite Hl. case_test; [|done]. f_equal. apply list_eq. intros k.
  destruct (decide (k < Z.to_nat (hi - lo))%nat) as [Hk|Hk].
  - rewrite !lookup_take_lt, !lookup_drop by lia. specialize (He (lo + Z.of_nat k) ltac:(lia)).
    by replace (Z.to_nat (lo + Z.of_nat k)) with (Z.to_nat lo + k)%nat in He by lia.
  - by rewrite !lookup_take_ge by lia.
Qed.

Lemma tree_lookup_root (s : Ext4) i nn max l lb : root_leaf i nn max l ->
  tree_lookup s 0 (raw i) INO_IBLOCK lb = Ret (lookup_extent l lb).
Proof.
  intros (Hl & Hok & Hh & Hn & Hmax & Hlist & Hfit). cbn [tree_lookup]. rewrite Hh. cbn [obind].
  rewrite leaf_find_eq by (done || by rewrite <- Hlist). by rewrite <- Hlist.
Qed.

(** The bytes of a file whose extents are in its inode. *)
Lemma file_byte_root (s : Ext4) i nn max l o : root_leaf i nn max l ->
  file_byte s 0 i o = match place_of s l o with Some a => image s !! Z.to_nat a | None => Some 0 end.
Proof. intros Hr. unfold file_byte, place_of. rewrite (tree_lookup_root _ _ _ _ _ _ Hr). by destruct (lookup_extent l (o / bs s)). Qed.

(** Writing the data does not move the inode. *)
Lemma inode_byte_disturbed s t l n : ext4_ok s -> 1 <= n <= 2 ^ 32 -> same_volume s t -> disturbed s l (image t) -> clear_of_inode s l n ->
  forall p, inode_byte s n = Ret p -> inode_byte t n = Ret p.
Proof.
  intros Hs Hn Hsv [Hlen Hd] Hc p Hp. rewrite <- Hp. unfold inode_byte. pose proof (ok_ipg s Hs).
  assert (desc_at t ((n - 1) / ipg t) = desc_at s ((n - 1) / ipg s)) as ->.
  { unfold desc_at. rewrite (same_volume_desc _ _ _ Hsv).
    assert (ipg t = ipg s /\ desc_size t = desc_size s) as [-> ->] by (by destruct Hsv as [-> _]).
    assert (0 <= desc_byte s ((n - 1) / ipg s)) as H0.
    { pose proof (group_place_Ret s ((n - 1) / ipg s) Hs) as [_ ?]; [|lia].
      split; [apply Z.div_pos; lia|apply Z.div_lt_upper_bound; nia]. }
    apply slice_ext; [done| |done]. intros a Ha. apply Hd; [lia|]. intros lb q Hq Hx.
    destruct (Hc p lb q Hp Hq) as [_ Hdd]. cbv zeta in Hdd. lia. }
  by destruct Hsv as [-> _].
Qed.

(** The inode [write_file] stores. *)
Definition grown_inode (i : Inode) (end_ n : Z) : Inode :=
  with_blocks (if size i <? end_ then with_size i end_ else i) n.

Lemma grown_inode_fields i end_ n : let j := grown_inode i end_ n in
  ino j = ino i /\ mode j = mode i /\ size j = Z.max (size i) end_ /\ blocks j = n /\ flags j = flags i /\ raw j = raw i.
Proof. unfold grown_inode. destruct (Z.ltb_spec (size i) end_); cbn; split_and!; try done; lia. Qed.

Lemma writable_ino (s : Ext4) n i nn max l offset len : writable s n i nn max l offset len -> ino i = n.
Proof.
  intros [Hi _ _ _ _ _ _ _]. unfold disk_inode in Hi. apply obind_Ret_inv in Hi as (p & _ & Hi).
  apply obind_Ret_inv in Hi as (fr & _ & Hi). unfold decode_inode in Hi. inv_run. done.
Qed.

Lemma ino_range (s : Ext4) n i nn max l offset len : writable s n i nn max l offset len -> 1 <= n < 2 ^ 32.
Proof. intros Hw. rewrite <- (writable_ino _ _ _ _ _ _ _ _ Hw). apply (iw_ino _ _ (wt_wf _ _ _ _ _ _ _ _ Hw)). Qed.

(** The inode read back from where it was stored. *)
Lemma stored_inode (s t s' : Ext4) n j i' p front :
  ext4_ok s -> same_volume s t -> same_volume t s' -> inode_wf t j -> ino j = n -> inode_wf t i' -> carries t j (raw i') ->
  slice (raw i') 0 (inode_size t) = Ret front -> splice (image t) p front = Ret (image s') -> inode_byte s' n = Ret p ->
  exists full, splice (zeros MAX_INODE_SIZE) 0 front = Ret full /\ disk_inode s' n = Ret (with_raw j full) /\ iblock full = iblock (raw i').
Proof.
  intros Hs Hst Hts Hwf <- Hwf' Hc Hf Himg Hp. pose proof (same_volume_ok _ _ Hst Hs) as Ht.
  destruct (decode_carries t j (raw i') front Ht Hwf (iw_raw _ _ Hwf') Hc Hf) as (full & Hfull & Hd).
  exists full. split; [done|]. pose proof (slice_len _ _ _ _ Hf) as Hlf. rewrite Z.sub_0_r in Hlf.
  assert (inode_size s' = inode_size t) as Hsz by (by destruct Hts as [-> _]). split.
  - unfold disk_inode. rewrite Hp. cbn [obind]. rewrite Hsz, <- Hlf, (slice_splice_same _ _ _ _ Himg). cbn [obind].
    replace (decode_inode s' (ino j) front) with (decode_inode t (ino j) front) by (by destruct Hts as [-> _]). exact Hd.
  - pose proof (ok_inode_size t Ht) as Hisz. pose proof (slice_splice_same _ _ _ _ Hfull) as Hself. rewrite Z.add_0_l, Hlf in Hself.
    unfold iblock. destruct (slice front INO_IBLOCK (INO_IBLOCK + 60)) as [x| |] eqn:Hx;
      [|rewrite slice_Ret in Hx by (unfold INO_IBLOCK; lia); done..].
    pose proof (slice_slice _ _ _ _ _ _ _ Hself Hx) as E1. pose proof (slice_slice _ _ _ _ _ _ _ Hf Hx) as E2.
    rewrite !Z.add_0_l in E1, E2. by rewrite E1, E2.
Qed.

(** The data is written, then the inode. *)
Lemma updated_intro s t s' n i nn max l offset buf i' p front :
  ext4_ok s -> aligned s -> writable s n i nn max l offset (blen buf) -> same_volume s t -> same_volume t s' ->
  written s l offset buf (blen buf) (image t) ->
  let j := grown_inode i (offset + blen buf) (ext_sum l * (bs s / 512)) in
  inode_wf t j -> inode_wf t i' -> carries t j (raw i') -> iblock (raw i') = iblock (raw j) -> inode_byte t n = Ret p ->
  slice (raw i') 0 (inode_size t) = Ret front -> splice (image t) p front = Ret (image s') ->
  exists i2, updated s s' n i i2 nn max l offset buf.
Proof.
  intros Hs Ha Hw Hst Hts Hwr j Hwfj Hwf' Hc Hib Hpt Hf Himg. pose proof (ok_bs s Hs) as Hbs.
  destruct (grown_inode_fields i (offset + blen buf) (ext_sum l * (bs s / 512))) as (Eino & Emode & Esize & Eblocks & Eflags & Eraw).
  fold j in Eino, Emode, Esize, Eblocks, Eflags, Eraw. pose proof (writable_ino _ _ _ _ _ _ _ _ Hw) as Hn.
  pose proof (same_volume_ok _ _ Hst Hs) as Ht. pose proof (ino_range _ _ _ _ _ _ _ _ Hw) as Hrange.
  pose proof (slice_len _ _ _ _ Hf) as Hlf. rewrite Z.sub_0_r in Hlf.
  assert (inode_size t = inode_size s /\ bs s' = bs s /\ ipg t = ipg s /\ desc_size t = desc_size s) as (Hisz & Hbs' & Hipg & Hds)
    by (destruct Hts as [-> _]; by destruct Hst as [-> _]).
  assert (inode_byte s n = Ret p) as Hps.
  { pose proof (wt_disk _ _ _ _ _ _ _ _ Hw) as Hi. unfold disk_inode in Hi. apply obind_Ret_inv in Hi as (q & Hq & _).
    pose proof (inode_byte_disturbed s t l n Hs ltac:(lia) Hst (written_disturbed _ _ _ _ _ _ Hs Hwr) (wt_clear _ _ _ _ _ _ _ _ Hw) q Hq) as E.
    rewrite Hpt in E. by injection E as <-. }
  pose proof (wt_apart _ _ _ _ _ _ _ _ Hw p Hps) as Hap. cbv zeta in Hap.
  assert (inode_byte s' n = Ret p) as Hps'.
  { apply (inode_byte_kept t s' n p front Hts); [|done..]. intros q Hq. rewrite Hpt in Hq. injection Hq as <-. cbv zeta.
    rewrite (same_volume_desc _ _ _ Hst), Hipg, Hds, Hisz. exact Hap. }
  destruct (stored_inode s t s' n j i' p front Hs Hst Hts Hwfj ltac:(by rewrite Eino) Hwf' Hc Hf Himg Hps') as (full & Hfull & Hd & Hibf).
  assert (root_leaf (with_raw j full) nn max l) as Hroot.
  { apply (root_leaf_iblock i); [apply Hw| | |].
    - cbn [with_raw raw]. rewrite (splice_blen _ _ _ _ Hfull). by rewrite blen_zeros.
    - cbn [with_raw raw]. eapply splice_bytes; [exact Hfull|apply zeros_bytes|]. eapply slice_bytes; [exact Hf|apply (iw_bytes _ _ Hwf')].
    - cbn [with_raw raw]. by rewrite Hibf, Hib, Eraw. }
  exists (with_raw j full). split; try done.
  - by rewrite Hps, Hps'.
  - intros o Ho. rewrite (file_byte_root s' _ _ _ _ o Hroot), (file_byte_root s _ _ _ _ o (wt_root _ _ _ _ _ _ _ _ Hw)).
    assert (place_of s' l o = place_of s l o) as -> by (unfold place_of; by rewrite Hbs').
    destruct (place_of s l o) as [a|] eqn:Hpl; cycle 1.
    { case_bool_decide as Hr; [|done]. destruct (bk_mapped _ _ _ _ (wt_backed _ _ _ _ _ _ _ _ Hw) o Hr) as [q Hq].
      unfold place_of in Hpl. by rewrite Hq in Hpl. }
    destruct (place_of_some _ _ _ _ Hs Hpl) as (q & Hq & _ & Hin). pose proof (bk_fits _ _ _ _ (wt_backed _ _ _ _ _ _ _ _ Hw) _ _ Hq) as [Hq0 _].
    destruct (wt_clear _ _ _ _ _ _ _ _ Hw p _ _ Hps Hq) as [Hcl _].
    pose proof (proj1 (inode_byte_fits s n p Hs Ha ltac:(lia) Hps)) as Hp0.
    assert (0 <= q * bs s) as Hqb by (apply Z.mul_nonneg_nonneg; lia). unfold blen in Hlf.
    rewrite (splice_lookup_out _ _ _ _ _ Himg) by (clear - Hlf Hcl Hin Hp0 Hqb Hisz; lia).
    case_bool_decide as Hr; [by apply (wn_in _ _ _ _ _ _ Hwr)|].
    apply (wn_out _ _ _ _ _ _ Hwr); [clear - Hqb Hin; lia|]. intros o' Ho' Hpl'.
    by rewrite (place_inj _ _ _ _ _ _ _ Hs (wt_backed _ _ _ _ _ _ _ _ Hw) Hpl Hpl') in Hr.
  - intros q a Hq Ha0 Hout Hno. rewrite Hps in Hq. injection Hq as <-.
    pose proof (proj1 (inode_byte_fits s n p Hs Ha ltac:(lia) Hps)) as Hp0.
    rewrite (splice_lookup_out _ _ _ _ _ Himg) by (unfold blen in Hlf; lia). by apply (wn_out _ _ _ _ _ _ Hwr).
Qed.

Lemma grown_wf (s t : Ext4) n i nn max l offset buf : ext4_ok s -> same_volume s t -> writable s n i nn max l offset (blen buf) ->
  inode_wf t (grown_inode i (offset + blen buf) (ext_sum l * (bs s / 512))).
Proof.
  intros Hs Hsv Hw. destruct (grown_inode_fields i (offset + blen buf) (ext_sum l * (bs s / 512))) as (E1 & E2 & E3 & E4 & E5 & E6).
  pose proof (root_sectors s i nn max l Hs (wt_root _ _ _ _ _ _ _ _ Hw)) as Hb. pose proof (wt_size _ _ _ _ _ _ _ _ Hw) as Hend.
  assert (has_64bit t = has_64bit s) as E64 by (by destruct Hsv as [-> _]).
  pose proof (wt_wf _ _ _ _ _ _ _ _ Hw) as [ ].
  split; rewrite ?E1, ?E2, ?E3, ?E4, ?E5, ?E6, ?E64; try done; destruct (has_64bit s); lia.
Qed.

(** A failed write has disturbed at most the blocks of the file and the block of its inode. *)
Definition confined (s s' : Ext4) (l : list (Z * Z * Z)) (n : Z) : Prop :=
  length (image s') = length (image s) /\
  forall p a, inode_byte s n = Ret p -> 0 <= a -> ~ p / bs s * bs s <= a < p / bs s * bs s + bs s ->
    (forall lb q, lookup_extent l lb = Some q -> ~ q * bs s <= a < q * bs s + bs s) ->
    image s' !! Z.to_nat a = image s !! Z.to_nat a.

Lemma unchanged_confined s s' l n : unchanged s s' -> confined s s' l n.
Proof. intros [_ Hi]. split; [by rewrite Hi|]. intros. by rewrite Hi. Qed.

Lemma disturbed_confined s s' l n : disturbed s l (image s') -> confined s s' l n.
Proof. intros [Hl Hd]. split; [done|]. intros p a _ Ha _ Hc. by apply Hd. Qed.

Lemma write_file_spec s n i nn max l offset buf :
  ext4_ok s -> aligned s -> writable s n i nn max l offset (blen buf) -> bytes_ok buf -> 0 < blen buf ->
  exists r s', write_file n offset buf s = Ret (r, s') /\ same_volume s s' /\
    match r with
    | Ok _ => is_file i = true /\ exists i', updated s s' n i i' nn max l offset buf
    | Err _ => confined s s' l n
    end.
Proof.
  intros Hs Ha Hw Hok Hlen. pose proof (ino_range _ _ _ _ _ _ _ _ Hw) as Hn. pose proof (writable_ino _ _ _ _ _ _ _ _ Hw) as Hino.
  pose proof (wt_root _ _ _ _ _ _ _ _ Hw) as Hroot. pose proof (wt_backed _ _ _ _ _ _ _ _ Hw) as Hb.
  unfold write_file. rewrite (proj2 (Z.eqb_neq _ _)) by lia.
  destruct (read_disk_inode s n i Hs Ha ltac:(lia) (wt_fit _ _ _ _ _ _ _ _ Hw) (wt_disk _ _ _ _ _ _ _ _ Hw)) as (r & s1 & Hrun & Hun & Hr).
  destruct r as [i1|e]; [rewrite (qbind_Ok _ _ _ _ _ Hrun)|rewrite (qbind_Err _ _ _ _ _ Hrun)]; cycle 1.
  { eexists _, s1. split; [done|]. split; [apply Hun|]. by apply unchanged_confined. }
  subst i1. destruct (is_file i) eqn:Hfile; cbn [negb]; cycle 1.
  { eexists _, s1. split; [done|]. split; [apply Hun|]. by apply unchanged_confined. }
  pose proof (bk_range _ _ _ _ Hb) as (Ho & _ & Hov).
  rewrite (sbind_lift _ _ _ (offset + blen buf)) by (apply chk_Ret; lia).
  destruct (write_loop_spec s l nn max i offset buf Hs Hroot Hb Hok (length buf + 1) 0 (zeros MAX_BLOCK_SIZE) s1)
    as (r & t & Hrun1 & Hst & Hr1); [apply Hun| |lia|done|apply zeros_bytes|unfold blen; lia|].
  { destruct Hun as [_ Hi]. rewrite Hi. split; [done|lia|done]. }
  destruct r as [i1|e]; [rewrite (qbind_Ok _ _ _ _ _ Hrun1)|rewrite (qbind_Err _ _ _ _ _ Hrun1)]; cycle 1.
  { eexists _, t. split; [done|]. split; [done|]. by apply disturbed_confined. }
  destruct Hr1 as [-> Hwr]. cbv zeta. pose proof (same_volume_ok _ _ Hst Hs) as Ht.
  assert (bs t = bs s /\ ipg t = ipg s) as [Hbt Hipg] by (by destruct Hst as [-> _]).
  assert (root_leaf (if size i <? offset + blen buf then with_size i (offset + blen buf) else i) nn max l) as Hroot2 by (by case_match).
  pose proof (recount_root t _ nn max l Ht Hroot2) as Hrec. rewrite Hbt in Hrec. rewrite (qbind_Ok _ _ _ _ _ Hrec).
  fold (grown_inode i (offset + blen buf) (ext_sum l * (bs s / 512))). set (j := grown_inode _ _ _).
  pose proof (grown_wf s t n i nn max l offset buf Hs Hst Hw) as Hwfj. fold j in Hwfj.
  assert (ino j = n) as Ej by (unfold j; rewrite (proj1 (grown_inode_fields _ _ _)); done).
  assert (exists p, inode_byte s n = Ret p) as [p Hp].
  { pose proof (wt_disk _ _ _ _ _ _ _ _ Hw) as Hi. unfold disk_inode in Hi. apply obind_Ret_inv in Hi as (q & Hq & _). by exists q. }
  pose proof (inode_byte_disturbed s t l n Hs ltac:(lia) Hst (written_disturbed _ _ _ _ _ _ Hs Hwr) (wt_clear _ _ _ _ _ _ _ _ Hw) p Hp) as Hpt.
  destruct (write_inode_spec t j Ht (same_volume_aligned _ _ Hst Ha) Hwfj) as (r & s2 & Hrun2 & Hts & Hr2).
  { intros q Hq. rewrite Ej, Hpt in Hq. injection Hq as <-. by apply (wt_fit _ _ _ _ _ _ _ _ Hw). }
  pose proof (same_volume_trans _ _ _ Hst Hts) as Hss. rewrite Ej in Hr2.
  destruct r as [i'|e]; [rewrite (qbind_Ok _ _ _ _ _ Hrun2)|rewrite (qbind_Err _ _ _ _ _ Hrun2)]; eexists _, s2; (split; [done|]); (split; [done|]).
  - split; [done|]. destruct Hr2 as (q & front & Hq & _ & Hwf' & Hc & _ & Hf & Himg).
    eapply (updated_intro s t s2 n i nn max l offset buf i' q front); try done. by apply (write_inode_iblock t _ _ s2).
  - pose proof (written_disturbed _ _ _ _ _ _ Hs Hwr) as [Hl Hd]. destruct Hr2 as [Hi|(q & Hq & [Hl2 Hout])].
    + apply disturbed_confined. rewrite Hi. by split.
    + split; [congruence|]. intros q' a Hq' Ha0 Hblk Hcl. rewrite Hpt in Hq. injection Hq as <-. rewrite Hp in Hq'. injection Hq' as <-.
      rewrite Hbt in Hout. rewrite Hout by lia. by apply Hd.
Qed.

Lemma root_file_ok (s : Ext4) i nn max l lo hi : root_leaf i nn max l -> backed s l lo hi ->
  0 <= size i < 2 ^ 64 -> size i <= 2 ^ 32 * bs s -> ext4_ok s -> file_ok s 0 i.
Proof.
  intros Hroot Hb Hsz Hmax Hs. pose proof (ok_bs s Hs). split; [done|done|done| |].
  - intros lb Hlb _. pose proof Hroot as (Hl & _ & Hh & Hn & Hmx & Hlist & Hfit). exists nn, max. split; [done|].
    split; [lia|]. split; [rewrite Hl; unfold MAX_INODE_SIZE, INO_IBLOCK; lia|]. by rewrite <- Hlist.
  - intros lb p Hlb _. rewrite (tree_lookup_root _ _ _ _ _ _ Hroot). intros [= Hp].
    pose proof (bk_fits _ _ _ _ Hb _ _ Hp). lia.
Qed.


End Write.

(** ** Witnesses *)

(** Three bytes written over the end of the file of five. *)
Definition three : list Z := [0x61; 0x62; 0x63].

Lemma one_extent lb p : lookup_extent [(0, 1, 9)] lb = Some p -> lb = 0 /\ p = 9.
Proof. cbn [lookup_extent]. case_test; [|done]. intros [= <-]. lia. Qed.

Lemma one_extent_fits : extents_fit [(0, 1, 9)].
Proof. constructor; [lia|constructor]. Qed.

Lemma one_backed (s : Ext4 RamDisk) : bs s = 1024 -> backed s [(0, 1, 9)] 4 (4 + 3).
Proof.
  intros Hbs. split; rewrite ?Hbs.
  - lia.
  - intros o Ho. exists 9. replace (o / 1024) with 0 by lia. reflexivity.
  - intros lb p [-> ->]%one_extent. lia.
  - intros lb lb' p [-> _]%one_extent [-> _]%one_extent. reflexivity.
Qed.

Lemma five_writable : writable file_volume 3 five_on_disk 1 4 [(0, 1, 9)] 4 3.
Proof.
  assert (bs file_volume = 1024) as Hbs by (vm_compute; reflexivity).
  assert (inode_byte file_volume 3 = Ret 5632) as Hp by (vm_compute; reflexivity).
  split.
  - exact five_disk.
  - split; try (vm_compute; split; [discriminate|reflexivity]).
    + vm_compute. reflexivity.
    + apply (bytes_okb_ok (raw five_on_disk)). vm_compute. reflexivity.
  - split; [vm_compute; reflexivity|]. split; [apply (bytes_okb_ok (raw five_on_disk)); vm_compute; reflexivity|].
    split; [vm_compute; reflexivity|]. split; [split; discriminate|]. split; [discriminate|]. split; [vm_compute; reflexivity|].
    exact one_extent_fits.
  - exact (one_backed _ Hbs).
  - vm_compute. reflexivity.
  - exact file_volume_fit.
  - intros p. rewrite Hp. intros [= <-]. vm_compute. intuition discriminate.
  - intros p lb q. rewrite Hp. intros [= <-] [-> ->]%one_extent. rewrite Hbs. split; [right|right]; vm_compute; discriminate.
Qed.


Definition five_written : Ext4 RamDisk :=
  match write_file 3 4 three file_volume with Ret (_, s) => s | _ => file_volume end.

Lemma five_write_run : write_file 3 4 three file_volume = Ret (Ok tt, five_written).
Proof. vm_compute. reflexivity. Qed.

