(* ===== verification/Ext4Lookup.v ===== *)
(** * Names in directories ([lookup] and [add_dirent] of [src/src/ext4.rs])

    A directory as the list of its records, block after block: looking a name up walks
    this list, and adding a name to a block with room changes the answer for that name
    alone. *)

From S2P Require Import Prelude Block Crc.
From stdpp Require Import list.
From S2P Require Import Ext4Layout Ext4 Ext4Inode Ext4Alloc Ext4Extent Ext4Dir Ext4File Ext4Write.
#[local] Open Scope Z_scope.

(** A block read into a larger buffer holds the same records. *)
Lemma front_slice bytes rest buf lo hi : splice rest 0 bytes = Ret buf -> 0 <= lo <= hi -> hi <= blen bytes ->
  slice buf lo hi = slice bytes lo hi.
Proof.
  intros Hs Hlo Hhi. pose proof (slice_splice_same _ _ _ _ Hs) as Hself. rewrite Z.add_0_l in Hself.
  destruct (slice bytes lo hi) as [x| |] eqn:Hx; [|rewrite slice_Ret in Hx by lia; done..].
  pose proof (slice_slice _ _ _ _ _ _ _ Hself Hx) as E. by rewrite !Z.add_0_l in E.
Qed.

Lemma front_get8 bytes rest buf o : splice rest 0 bytes = Ret buf -> 0 <= o < blen bytes -> get8 buf o = get8 bytes o.
Proof.
  intros Hs Ho. unfold get8. case_test; [done|]. unfold blen in Ho.
  pose proof (splice_lookup_in _ _ _ _ (Z.to_nat o) Hs ltac:(lia)) as E. change (Z.to_nat 0 + Z.to_nat o)%nat with (Z.to_nat o) in E. by rewrite E.
Qed.

Lemma entry_at_front limit bytes rest buf pos e : splice rest 0 bytes = Ret buf -> limit <= blen bytes ->
  entry_at limit bytes pos e <-> entry_at limit buf pos e.
Proof.
  intros Hs Hl. pose proof (blen_nonneg (d_name e)).
  assert (0 <= pos -> 8 + blen (d_name e) <= d_rec e -> pos + d_rec e <= limit ->
    le32 buf pos = le32 bytes pos /\ le16 buf (pos + 4) = le16 bytes (pos + 4) /\ get8 buf (pos + 6) = get8 bytes (pos + 6) /\
    slice buf (pos + 8) (pos + 8 + blen (d_name e)) = slice bytes (pos + 8) (pos + 8 + blen (d_name e))) as Heq.
  { intros. unfold le16, le32. rewrite !(front_field _ _ _ _ _ Hs), (front_get8 _ _ _ _ Hs), (front_slice _ _ _ _ _ Hs) by lia. done. }
  split; intros [Hp Hn He Hi Hr Hlen Hb]; destruct (Heq Hp Hn He) as (E1 & E2 & E3 & E4); split; congruence.
Qed.

Lemma dir_block_front limit bytes rest buf l : splice rest 0 bytes = Ret buf -> limit <= blen bytes ->
  dir_block limit bytes l <-> dir_block limit buf l.
Proof.
  intros Hs Hl. pose proof (splice_inv _ _ _ _ Hs) as (_ & Hle & _). pose proof (splice_blen _ _ _ _ Hs).
  assert (forall l pos q, seg limit bytes pos l q <-> seg limit buf pos l q) as Hseg.
  { clear l. induction l as [|e l IH]; intros pos q; cbn [seg]; [done|]. by rewrite (entry_at_front _ _ _ _ pos e Hs Hl), IH. }
  unfold dir_block. setoid_rewrite Hseg. split; intros [_ Hq]; (split; [lia|exact Hq]).
Qed.

Lemma splice_own b lo hi x : slice b lo hi = Ret x -> splice b lo x = Ret b.
Proof.
  intros Hx. pose proof (slice_inv _ _ _ _ Hx) as (Hlo & Hhi & _). pose proof (slice_len _ _ _ _ Hx) as Hl.
  destruct (splice b lo x) as [b'| |] eqn:Hs; [|rewrite splice_Ret in Hs by lia; done..]. f_equal. apply list_eq. intros k.
  unfold blen in *. destruct (decide (Z.to_nat lo <= k < Z.to_nat lo + length x)%nat) as [Hk|Hk].
  - replace k with (Z.to_nat lo + (k - Z.to_nat lo))%nat by lia. rewrite (splice_lookup_in _ _ _ _ _ Hs) by lia.
    by rewrite (slice_lookup _ _ _ _ _ Hx) by lia.
  - rewrite (splice_lookup_out _ _ _ _ _ Hs); [done|lia].
Qed.

(** Whether the scan for room finds any. *)
Definition has_room (needed : Z) (l : list dentry) : bool :=
  match scan_room needed 0 (0, 0, 0) l with
  | Reuse _ _ => true
  | Last _ last_rec last_actual => needed <=? last_rec - last_actual
  end.

Lemma insert_in_block_full limit target ft name blk l : dir_block limit blk l -> 0 <= limit <= MAX_BLOCK_SIZE ->
  insert_in_block limit target ft name blk = Ret None -> has_room (round_dir_size (blen name)) l = false.
Proof.
  intros (Hlen & q & Hs & Hq) Hlim. unfold insert_in_block, has_room. cbv zeta.
  rewrite (room_loop limit _ blk l dir_fuel 0 q) by
    (done || (destruct (seg_length _ _ _ _ _ Hs); [lia|]; unfold dir_fuel, MAX_BLOCK_SIZE in *; lia)).
  cbn [obind]. destruct (scan_room _ _ _ _) as [pos rec|p r a]; intros H; [inv_run; done|].
  case_test_in H; [inv_run; done|done].
Qed.

(** Writing bytes keeps a buffer one of bytes, and its length. *)
Definition kept (b b' : list Z) : Prop := bytes_ok b' /\ blen b' = blen b.

Lemma splice_kept b o x b' : splice b o x = Ret b' -> bytes_ok x -> bytes_ok b -> kept b b'.
Proof. intros Hs Hx Hb. split; [by eapply splice_bytes|by eapply splice_blen]. Qed.

Lemma put_kept n b o v b' : put_le n b o v = Ret b' -> bytes_ok b -> kept b b'.
Proof. intros Hs. apply (splice_kept _ _ _ _ Hs), to_le_bytes. Qed.

Lemma put8_kept b o v b' : put8 b o v = Ret b' -> 0 <= v < 256 -> bytes_ok b -> kept b b'.
Proof. intros Hs Hv. apply (splice_kept _ _ _ _ Hs). by apply Forall_singleton. Qed.

Lemma kept_trans b1 b2 b3 : kept b1 b2 -> kept b2 b3 -> kept b1 b3.
Proof. intros [? ?] [? ?]. split; [done|congruence]. Qed.

Lemma fill_entry_kept b pos rec target ft name b' : fill_entry b pos rec target ft name = Ret b' ->
  bytes_ok b -> bytes_ok name -> 0 <= ft < 256 -> kept b b'.
Proof.
  rewrite fill_entry_eq. intros Hs Hb Hn Hf. apply (splice_kept _ _ _ _ Hs); [|done]. unfold entry_bytes.
  repeat first [apply Forall_app_2 | apply to_le_bytes | apply Forall_cons; split | done | apply wrap_range; lia].
Qed.

Lemma insert_in_block_kept limit target ft name b b' : insert_in_block limit target ft name b = Ret (Some b') ->
  bytes_ok b -> bytes_ok name -> 0 <= ft < 256 -> kept b b'.
Proof.
  unfold insert_in_block. intros H Hb Hn Hf. apply obind_Ret_inv in H as (r & _ & H). destruct r as [pos rec|p r a].
  - inv_run. by eapply fill_entry_kept.
  - case_test_in H; [|done]. inv_run. pose proof (put_kept _ _ _ _ _ Hrun Hb) as Hk.
    eapply kept_trans; [exact Hk|]. eapply fill_entry_kept; [done|apply Hk|done|done].
Qed.

Section Lookup.
Context {D : Type} `{BL : BlockLaws D}.
Abbreviation Ext4 := (Ext4 D).

(** The number of blocks of a directory. *)
Definition dir_len (s : Ext4) (i : Inode) : Z := (size i + bs s - 1) / bs s.

(** [ents lb] are the records of block [lb] of the directory [i]; a hole has none. *)
Record dir_ok (s : Ext4) (d : nat) (i : Inode) (ents : Z -> list dentry) : Prop := {
  do_depth : Z.of_nat d < 2 ^ 16;
  do_size : 0 <= size i < 2 ^ 63;
  do_len : dir_len s i <= 2 ^ 32;
  do_tree : forall lb, 0 <= lb < dir_len s i -> tree_ok s d (raw i) INO_IBLOCK lb;
  do_fits : forall lb p, 0 <= lb < dir_len s i -> tree_lookup s d (raw i) INO_IBLOCK lb = Ret (Some p) -> 0 <= p /\ p * bs s + bs s <= 2 ^ 64;
  do_block : forall lb p bytes, 0 <= lb < dir_len s i -> tree_lookup s d (raw i) INO_IBLOCK lb = Ret (Some p) ->
    block_at s p = Ret bytes -> dir_block (dir_limit s) bytes (ents lb);
  do_hole : forall lb, 0 <= lb < dir_len s i -> tree_lookup s d (raw i) INO_IBLOCK lb = Ret None -> ents lb = [];
}.

(** The records of the first [n] blocks. *)
Definition records (ents : Z -> list dentry) (n : Z) : list dentry := mjoin ((fun k => ents (Z.of_nat k)) <$> seq 0 (Z.to_nat n)).

Lemma records_S ents n : 0 <= n -> records ents (n + 1) = records ents n ++ ents n.
Proof.
  intros Hn. unfold records. replace (Z.to_nat (n + 1)) with (S (Z.to_nat n)) by lia.
  rewrite seq_S, fmap_app, join_app. cbn. rewrite app_nil_r. f_equal. f_equal. lia.
Qed.

Lemma records_found ents n m name e : 0 <= n <= m -> find_entry (records ents n) name = Some e ->
  find_entry (records ents m) name = Some e.
Proof.
  intros Hnm Hf. replace m with (n + Z.of_nat (Z.to_nat (m - n))) by lia.
  induction (Z.to_nat (m - n)) as [|k IH]; [by rewrite Z.add_0_r|].
  replace (n + Z.of_nat (S k)) with (n + Z.of_nat k + 1) by lia. rewrite records_S, find_entry_app by lia. by rewrite IH.
Qed.

Lemma dir_blocks_Ret s i : ext4_ok s -> 0 <= size i < 2 ^ 63 -> dir_blocks s i = Ret (dir_len s i).
Proof.
  intros Hs Hsz. pose proof (ok_bs s Hs). unfold dir_blocks. rewrite chk_Ret by lia. done.
Qed.

Lemma dir_len_nonneg s i : ext4_ok s -> 0 <= size i -> 0 <= dir_len s i.
Proof. intros Hs Hsz. pose proof (ok_bs s Hs). unfold dir_len. apply Z.div_pos; lia. Qed.

(** Reading block [lb] of the directory. *)
Lemma dir_block_read s t d i ents lb blk : ext4_ok s -> dir_ok s d i ents -> unchanged s t -> 0 <= lb < dir_len s i ->
  blen blk = MAX_BLOCK_SIZE ->
  exists r t1, map_block i (wrap 32 lb) t = Ret (r, t1) /\ unchanged s t1 /\
    match r with
    | Ok (Some p) => tree_lookup s d (raw i) INO_IBLOCK lb = Ret (Some p) /\ 0 <= p /\ p * bs s + bs s <= 2 ^ 64 /\
        exists r2 t2, read_fsb p blk t1 = Ret (r2, t2) /\ unchanged s t2 /\
        match r2 with
        | Ok blk2 => exists bytes, block_at s p = Ret bytes /\ splice blk 0 bytes = Ret blk2 /\
            blen blk2 = MAX_BLOCK_SIZE /\ dir_block (dir_limit s) blk2 (ents lb)
        | Err _ => True
        end
    | Ok None => ents lb = []
    | Err _ => True
    end.
Proof.
  intros Hs Hd Hun Hlb Hblk. pose proof (ok_bs s Hs) as Hbs. pose proof (do_len _ _ _ _ Hd) as Hmax.
  assert (wrap 32 lb = lb) as -> by (unfold wrap; apply Z.mod_small; lia).
  destruct (map_block_spec s t i lb d Hs Hun (do_tree _ _ _ _ Hd lb Hlb) (do_depth _ _ _ _ Hd)) as (r & t1 & Hrun & Hun1 & Hr).
  exists r, t1. split; [done|]. split; [done|]. destruct r as [[p|]|]; [|by apply (do_hole _ _ _ _ Hd)|done].
  destruct (do_fits _ _ _ _ Hd lb p Hlb Hr) as [Hp0 Hpov]. split; [done|]. split; [done|]. split; [done|].
  assert (bs t1 = bs s) as Hb1 by (by destruct Hun1 as [[-> _] _]).
  destruct (read_fsb_spec t1 p blk) as (r2 & t2 & Hrun2 & Hun2 & Hr2);
    [by eapply unchanged_ok|lia|rewrite Hb1; lia|rewrite Hb1, Hblk; unfold MAX_BLOCK_SIZE; lia|].
  exists r2, t2. split; [done|]. split; [by eapply unchanged_trans|]. destruct r2 as [blk2|]; [|done].
  destruct Hr2 as (bytes & Hb & Hsp). rewrite (unchanged_block _ _ _ Hun1) in Hb. exists bytes. split; [done|]. split; [done|].
  split; [by rewrite (splice_blen _ _ _ _ Hsp)|]. apply (dir_block_front _ _ _ _ _ Hsp); [|by apply (do_block _ _ _ _ Hd lb p)].
  rewrite (slice_len _ _ _ _ Hb). pose proof (dir_limit_range s Hs). lia.
Qed.

Lemma lookup_spec s n i d ents name :
  ext4_ok s -> aligned s -> 1 <= n <= 2 ^ 32 -> tables_fit s n -> disk_inode s n = Ret i ->
  (is_dir i = true -> dir_ok s d i ents) ->
  exists r s', Ext4Dir.lookup n name s = Ret (r, s') /\ unchanged s s' /\
    match r with
    | Ok res => is_dir i = true /\ res = find_entry (records ents (dir_len s i)) name
    | Err _ => True
    end.
Proof.
  intros Hs Ha Hn Hfit Hi Hdir. unfold Ext4Dir.lookup.
  destruct (read_disk_inode s n i Hs Ha Hn Hfit Hi) as (r & s1 & Hrun & Hun & Hr).
  destruct r as [i'|e]; [|rewrite (qbind_Err _ _ _ _ _ Hrun); by eexists _, s1].
  rewrite (qbind_Ok _ _ _ _ _ Hrun). subst i'. destruct (is_dir i) eqn:Ed; cbn [negb]; [|by eexists _, s1].
  specialize (Hdir eq_refl). pose proof (do_size _ _ _ _ Hdir) as Hsz. rewrite sbind_get.
  assert (bs s1 = bs s /\ dir_limit s1 = dir_limit s /\ dir_blocks s1 i = dir_blocks s i) as (Hb1 & Hl1 & Hd1)
    by (by destruct Hun as [[-> _] _]).
  cbv zeta. rewrite Hl1, Hd1. rewrite (sbind_lift _ _ _ _ (dir_blocks_Ret s i Hs Hsz)).
  pose proof (dir_len_nonneg s i Hs ltac:(lia)) as Hlen. destruct (dir_limit_range s Hs) as [Hlim _].
  match goal with |- context [for_loop ?k ?z ?body ?a] =>
    destruct (for_loop_cases
      (fun j blk u => unchanged s u /\ blen blk = MAX_BLOCK_SIZE /\ find_entry (records ents j) name = None)
      (fun r u => unchanged s u /\ match r with
                                   | Ok res => find_entry (records ents (dir_len s i)) name = res
                                   | Err _ => True
                                   end)
      k z body a s1) as (f & t & Hloop & Hf) end.
  - by split_and!.
  - intros j blk u Hj (Hu & Hblk & Hnone).
    destruct (dir_block_read s u d i ents j blk Hs Hdir Hu ltac:(lia) Hblk) as (r & t1 & Hm & Hu1 & Hr).
    unfold fbind at 1, sbind at 1. rewrite Hm. destruct r as [[p|]|e]; [| |by eexists _, t1].
    + destruct Hr as (_ & _ & _ & r2 & t2 & Hrd & Hu2 & Hr2). unfold fbind at 1, sbind at 1. rewrite Hrd.
      destruct r2 as [blk2|e]; [|by eexists _, t2]. destruct Hr2 as (_ & _ & _ & Hblk2 & Hdb).
      rewrite (sbind_lift _ _ _ _ (find_in_block_eq _ name _ _ Hdb Hlim)).
      assert (find_entry (records ents (j + 1)) name = find_entry (ents j) name) as Hfj
        by (rewrite records_S, find_entry_app, Hnone by lia; done).
      destruct (find_entry (ents j) name) as [e|] eqn:He; eexists _, t2; (split; [done|]); (split; [done|]); [|done].
      by apply (records_found _ (j + 1)); [lia|].
    + eexists _, t1. split; [done|]. split; [done|]. split; [done|].
      rewrite records_S, find_entry_app, Hnone, Hr by lia. done.
  - rewrite (sbind_Ret _ _ _ _ _ Hloop). destruct f as [blk|r]; eexists _, t; (split; [done|]).
    + destruct Hf as (Hu & _ & Hnone). rewrite Z.add_0_l, Z2Nat.id in Hnone by lia. split; [done|]. by rewrite Hnone.
    + destruct Hf as (Hu & Hr). split; [done|]. by destruct r.
Qed.

(** *** Adding a name *)

Lemma dir_tail_kept (s : Ext4) n gen b b' : dir_tail_csum s n gen b = Ret b' -> bytes_ok b -> kept b b'.
Proof.
  unfold dir_tail_csum. intros H Hb. destruct (meta_csum s); cbn [negb] in H; [|by injection H as <-].
  apply obind_Ret_inv in H as (b1 & H1 & H). apply obind_Ret_inv in H as (b2 & H2 & H).
  apply obind_Ret_inv in H as (b3 & H3 & H). apply obind_Ret_inv in H as (b4 & H4 & H). cbv zeta in H.
  apply obind_Ret_inv in H as (body & _ & H5).
  pose proof (put_kept _ _ _ _ _ H1 Hb) as K1. pose proof (put_kept _ _ _ _ _ H2 (proj1 K1)) as K2.
  pose proof (put8_kept _ _ _ _ H3 ltac:(lia) (proj1 K2)) as K3. pose proof (put8_kept _ _ _ _ H4 ltac:(lia) (proj1 K3)) as K4.
  pose proof (put_kept _ _ _ _ _ H5 (proj1 K4)) as K5. eauto using kept_trans.
Qed.

(** A directory with its extents in the inode, each block in one place and clear of the inode. *)
Record dir_layout (s : Ext4) (n : Z) (i : Inode) (nn max : Z) (l : list (Z * Z * Z)) (ents : Z -> list dentry) : Prop := {
  dl_ino : 1 <= n < 2 ^ 32;
  dl_disk : disk_inode s n = Ret i;
  dl_root : root_leaf i nn max l;
  dl_dir : dir_ok s 0 i ents;
  dl_once : forall lb lb' p, lookup_extent l lb = Some p -> lookup_extent l lb' = Some p -> lb = lb';
  dl_fit : tables_fit s n;
  dl_clear : clear_of_inode s l n;
}.

Definition set_block (ents : Z -> list dentry) (lb : Z) (es : list dentry) : Z -> list dentry :=
  fun k => if k =? lb then es else ents k.

(** The records of the directory after an entry was added to block [lb]. *)
Lemma records_added ents lb es target name x m : entry_added target name (ents lb) es -> target <> 0 -> 0 <= lb ->
  find_entry (records ents (Z.of_nat m)) name = None ->
  find_entry (records (set_block ents lb es) (Z.of_nat m)) x =
    if bool_decide (x = name /\ lb < Z.of_nat m) then Some target else find_entry (records ents (Z.of_nat m)) x.
Proof.
  intros Hadd Ht Hlb. induction m as [|m IH]; [rewrite bool_decide_false by (intros [_ ?]; lia); done|].
  replace (Z.of_nat (S m)) with (Z.of_nat m + 1) by lia. rewrite !records_S, !find_entry_app by lia. intros Hnone.
  destruct (find_entry (records ents (Z.of_nat m)) name) as [|] eqn:Hm; [done|]. rewrite (IH eq_refl).
  unfold set_block at 1. destruct (Z.eqb_spec (Z.of_nat m) lb) as [E|E].
  - rewrite <- E in *. rewrite (entry_added_find _ _ _ _ x Hadd Ht Hnone), (bool_decide_false (x = name /\ Z.of_nat m < Z.of_nat m)) by (intros [_ ?]; lia).
    destruct (decide (x = name)) as [->|Hx].
    + by rewrite Hm, (bool_decide_true (name = name)), (bool_decide_true (name = name /\ _)) by (done || (split; [done|lia])).
    + by rewrite (bool_decide_false (x = name)), (bool_decide_false (x = name /\ _)) by (done || by intros [? _]).
  - rewrite (bool_decide_ext (x = name /\ lb < Z.of_nat m + 1) (x = name /\ lb < Z.of_nat m)) by (intuition lia). by case_bool_decide.
Qed.

(** Rewriting block [lb] of the directory leaves its inode and its other blocks. *)
Lemma dir_rewritten (s s' : Ext4) n i nn max l ents lb p w es :
  ext4_ok s -> aligned s -> dir_layout s n i nn max l ents -> same_volume s s' -> 0 <= lb < dir_len s i ->
  lookup_extent l lb = Some p -> 0 <= p -> blen w = bs s -> splice (image s) (p * bs s) w = Ret (image s') ->
  dir_block (dir_limit s) w es -> dir_layout s' n i nn max l (set_block ents lb es).
Proof.
  intros Hs Ha [Hn Hi Hroot Hd Honce Hfit Hcl] Hsv Hlb Hp Hp0 Hw Himg Hes. pose proof (ok_bs s Hs) as Hbs.
  assert (bs s' = bs s /\ inode_size s' = inode_size s /\ dir_limit s' = dir_limit s /\ dir_len s' i = dir_len s i /\ ipg s' = ipg s /\ desc_size s' = desc_size s)
    as (Eb & Ez & El & En & Eg & Ed) by (by destruct Hsv as [-> _]).
  assert (disturbed s l (image s')) as Hdist.
  { eapply (disturbed_block s l (image s)); [exact Hp|by split|].
    pose proof (splice_same_outside _ _ _ _ Himg) as Hso. by rewrite Hw in Hso. }
  unfold disk_inode in Hi. apply obind_Ret_inv in Hi as (q & Hq & Hi).
  pose proof (inode_byte_disturbed s s' l n Hs ltac:(lia) Hsv Hdist Hcl q Hq) as Hq'.
  destruct (Hcl q lb p Hq Hp) as [Hclq _].
  split; try done.
  - unfold disk_inode. rewrite Hq'. cbn [obind]. rewrite Ez. rewrite (slice_splice_disjoint _ _ _ _ _ _ Himg) by lia.
    destruct (slice (image s) q (q + inode_size s)); [|done..]. cbn [obind] in *. by destruct Hsv as [-> _].
  - destruct Hd as [? ? ? Htree Hfits Hblock Hhole]. rewrite <- En in *.
    split; rewrite ?Eb, ?El; try done.
    + intros k r bytes Hk Hr. rewrite (tree_lookup_root _ _ _ _ _ _ Hroot) in Hr. injection Hr as Hr.
      unfold set_block. destruct (Z.eqb_spec k lb) as [->|Hne].
      * rewrite Hp in Hr. injection Hr as <-. unfold block_at. rewrite Eb. pose proof (slice_splice_same _ _ _ _ Himg) as Hsl.
        rewrite Hw in Hsl. rewrite Hsl. by intros [= <-].
      * assert (r <> p) as Hrp by (intros ->; by apply Hne, (Honce k lb p)).
        destruct (Hfits k r Hk) as [Hr0 _]; [by rewrite (tree_lookup_root _ _ _ _ _ _ Hroot), Hr|].
        intros Hbytes. apply (Hblock k r); [done|by rewrite (tree_lookup_root _ _ _ _ _ _ Hroot), Hr|].
        rewrite <- Hbytes. unfold block_at. rewrite Eb. symmetry. apply (slice_splice_disjoint _ _ _ _ _ _ Himg). rewrite Hw. nia.
    + intros k Hk Hr. unfold set_block. destruct (Z.eqb_spec k lb) as [->|Hne]; [|by apply Hhole].
      rewrite (tree_lookup_root _ _ _ _ _ _ Hroot), Hp in Hr. done.
  - intros r Hr. rewrite Hq' in Hr. injection Hr as <-. by apply Hfit.
  - intros r k z Hr Hz. rewrite Hq' in Hr. injection Hr as <-. rewrite Eb, Ez, Ed, Eg, (same_volume_desc _ _ _ Hsv). exact (Hcl q k z Hq Hz).
Qed.

(** What [add_dirent] has done when it found room in a block. *)
Definition name_added (s s' : Ext4) (n : Z) (i : Inode) (nn max : Z) (l : list (Z * Z * Z)) (ents : Z -> list dentry)
    (name : list Z) (target : Z) : Prop :=
  exists ents', dir_layout s' n i nn max l ents' /\
    forall x, find_entry (records ents' (dir_len s i)) x =
      if bool_decide (x = name) then Some target else find_entry (records ents (dir_len s i)) x.

(** A failed write has disturbed at most the blocks of the directory. *)
Definition add_post (s : Ext4) (n : Z) (i : Inode) (nn max : Z) (l : list (Z * Z * Z)) (ents : Z -> list dentry)
    (name : list Z) (target : Z) (r : fs unit) (t : Ext4) : Prop :=
  same_volume s t /\
  match r with
  | Ok _ => name_added s t n i nn max l ents name target
  | Err _ => disturbed s l (image t)
  end.

Lemma unchanged_disturbed s t l : unchanged s t -> disturbed s l (image t).
Proof. intros [_ ->]. by split. Qed.

(** Filling the room in block [lb] and writing it. *)
Lemma fill_block s t n i nn max l ents lb p blk blk1 target ft name gen :
  ext4_ok s -> aligned s -> dir_layout s n i nn max l ents -> 0 <= lb < dir_len s i -> unchanged s t ->
  lookup_extent l lb = Some p -> 0 <= p -> p * bs s + bs s <= 2 ^ 64 ->
  blen blk = MAX_BLOCK_SIZE -> bytes_ok blk -> dir_block (dir_limit s) blk (ents lb) ->
  1 <= target < 2 ^ 32 -> 0 < blen name < 256 -> bytes_ok name -> 0 <= ft < 256 ->
  find_entry (records ents (dir_len s i)) name = None ->
  insert_in_block (dir_limit s) target ft name blk = Ret (Some blk1) ->
  exists blk2 r t', dir_tail_csum s n gen blk1 = Ret blk2 /\ write_fsb p blk2 t = Ret (r, t') /\
    add_post s n i nn max l ents name target r t'.
Proof.
  intros Hs Ha Hdl Hlb Hun Hp Hp0 Hpov Hl Hok Hdb Ht Hname Hnok Hft Hnone Hins. pose proof (ok_bs s Hs) as Hbs.
  destruct (dir_limit_range s Hs) as [Hlim Hlim2].
  destruct (insert_in_block_spec (dir_limit s) target ft name blk (ents lb) Hdb Hlim Ht Hname) as (r0 & Hr0 & Hpost).
  rewrite Hins in Hr0. injection Hr0 as <-. destruct Hpost as (Hl1 & es & Hadd & Hdb1).
  destruct (insert_in_block_kept _ _ _ _ _ _ Hins Hok Hnok Hft) as [Hok1 _].
  destruct (dir_tail_csum_spec s n gen blk1 es Hs ltac:(by rewrite Hl1) Hdb1) as (blk2 & Htail & Hdb2 & _).
  destruct (dir_tail_kept _ _ _ _ _ Htail Hok1) as [Hok2 Hl2].
  assert (bs t = bs s /\ image t = image s) as [Hbt Hit] by (by destruct Hun as [[-> _] ?]).
  assert (blen blk2 = 4096) as Hl4 by (rewrite Hl2, Hl1; exact Hl).
  destruct (write_fsb_spec t p blk2 (unchanged_ok _ _ Hun Hs)) as (r & t' & w & Hrun & Hsv & Hw & Hr);
    [done|rewrite Hbt; lia|rewrite Hbt; lia|done|].
  rewrite Hbt in *. rewrite Hit in Hr. exists blk2, r, t'. split; [done|]. split; [done|].
  pose proof (same_volume_trans _ _ _ (proj1 Hun) Hsv) as Hsv'. split; [done|]. pose proof (slice_len _ _ _ _ Hw) as Hlw.
  rewrite Z.sub_0_r in Hlw. destruct r as [u|e]; [|eapply disturbed_block; [exact Hp|by split|exact Hr]].
  exists (set_block ents lb es). split.
  - eapply dir_rewritten; try done. apply (dir_block_front _ _ _ _ es (splice_own _ _ _ _ Hw)); [lia|done].
  - intros x. pose proof (records_added ents lb es target name x (Z.to_nat (dir_len s i)) Hadd ltac:(lia) ltac:(lia)) as Hrec.
    rewrite Z2Nat.id in Hrec by lia. rewrite (Hrec Hnone). rewrite (bool_decide_ext (x = name /\ lb < dir_len s i) (x = name)); [done|].
    intuition lia.
Qed.

Lemma add_dirent_spec s n i nn max l ents name target ft :
  ext4_ok s -> aligned s -> dir_layout s n i nn max l ents -> is_dir i = true -> Z.land (flags i) INO_FLAG_INDEX = 0 ->
  1 <= target < 2 ^ 32 -> 0 < blen name < 256 -> bytes_ok name -> 0 <= ft < 256 ->
  find_entry (records ents (dir_len s i)) name = None ->
  (exists lb, 0 <= lb < dir_len s i /\ has_room (round_dir_size (blen name)) (ents lb) = true) ->
  exists r s', add_dirent n name target ft s = Ret (r, s') /\ add_post s n i nn max l ents name target r s'.
Proof.
  intros Hs Ha Hdl Hdir Hidx Ht Hname Hnok Hft Hnone (lb0 & Hlb0 & Hroom).
  pose proof Hdl as [Hn Hi Hroot Hd _ Hfit _]. unfold add_dirent.
  replace ((blen name =? 0) || (EXT4_NAME_LEN <? blen name)) with false by (unfold EXT4_NAME_LEN; lia).
  destruct (read_disk_inode s n i Hs Ha ltac:(lia) Hfit Hi) as (r & s1 & Hrun & Hun & Hr).
  destruct r as [i'|e]; [rewrite (qbind_Ok _ _ _ _ _ Hrun)|rewrite (qbind_Err _ _ _ _ _ Hrun)]; cycle 1.
  { eexists _, s1. split; [done|]. split; [apply Hun|]. by apply unchanged_disturbed. }
  subst i'. rewrite Hdir, Hidx. cbn [negb Z.eqb]. rewrite sbind_get.
  pose proof (do_size _ _ _ _ Hd) as Hsz. pose proof (dir_len_nonneg s i Hs ltac:(lia)) as Hlen.
  assert (dir_limit s1 = dir_limit s /\ dir_blocks s1 i = dir_blocks s i /\ forall a b c, dir_tail_csum s1 a b c = dir_tail_csum s a b c)
    as (Hl1 & Hd1 & Htl) by (by destruct Hun as [[-> _] _]).
  cbv zeta. rewrite Hl1, Hd1, (sbind_lift _ _ _ _ (dir_blocks_Ret s i Hs Hsz)).
  destruct (get_le_Ret 4 (raw i) INO_GENERATION) as (gen & Hg & _); [lia|by cbv|destruct Hroot as [-> _]; by cbv|].
  rewrite (sbind_lift _ _ _ gen Hg). assert (ino i = n) as Hino.
  { unfold disk_inode in Hi. apply obind_Ret_inv in Hi as (p & _ & Hi). apply obind_Ret_inv in Hi as (fr & _ & Hi).
    unfold decode_inode in Hi. inv_run. done. }
  rewrite Hino. destruct (dir_limit_range s Hs) as [Hlim _].
  match goal with |- context [for_loop ?k ?z ?body ?a] =>
    destruct (for_loop_cases
      (fun j blk u => unchanged s u /\ blen blk = MAX_BLOCK_SIZE /\ bytes_ok blk /\
         forall y, 0 <= y < j -> has_room (round_dir_size (blen name)) (ents y) = false)
      (fun r u => add_post s n i nn max l ents name target r u) k z body a s1) as (f & t & Hloop & Hf) end.
  - split; [done|]. split; [done|]. split; [apply zeros_bytes|lia].
  - intros j blk u Hj (Hu & Hblk & Hbok & Hfull).
    destruct (dir_block_read s u 0 i ents j blk Hs Hd Hu ltac:(lia) Hblk) as (r & t1 & Hm & Hu1 & Hr).
    unfold fbind at 1, sbind at 1. rewrite Hm.
    destruct r as [[p|]|e]; [| |eexists _, t1; split; [done|]; split; [apply Hu1|by apply unchanged_disturbed]].
    + destruct Hr as (Hp & Hp0 & Hpov & r2 & t2 & Hrd & Hu2 & Hr2). rewrite (tree_lookup_root _ _ _ _ _ _ Hroot) in Hp. injection Hp as Hp.
      unfold fbind at 1, sbind at 1. rewrite Hrd.
      destruct r2 as [blk2|e]; [|eexists _, t2; split; [done|]; split; [apply Hu2|by apply unchanged_disturbed]].
      destruct Hr2 as (bytes & Hbytes & Hsp & Hblk2 & Hdb).
      assert (bytes_ok blk2) as Hbok2.
      { eapply splice_bytes; [exact Hsp|done|]. eapply slice_bytes; [exact Hbytes|]. apply bd_bytes, Hs. }
      destruct (insert_in_block_spec (dir_limit s) target ft name blk2 (ents j) Hdb Hlim Ht Hname) as (r & Hins & _).
      rewrite (sbind_lift _ _ _ r Hins). destruct r as [blk3|].
      * destruct (fill_block s t2 n i nn max l ents j p blk2 blk3 target ft name gen) as (blk4 & r & t3 & Htail & Hwr & Hpost); try done; [lia|].
        rewrite (sbind_lift _ _ _ blk4) by (by rewrite Htl). unfold fbind, sbind. rewrite Hwr. destruct r; by eexists _, t3.
      * eexists _, t2. split; [done|]. split; [done|]. split; [done|]. split; [done|]. intros k Hk.
        destruct (Z.eq_dec k j) as [->|]; [by eapply insert_in_block_full|]. apply Hfull. lia.
    + eexists _, t1. split; [done|]. split; [done|]. split; [done|]. split; [done|]. intros k Hk.
      destruct (Z.eq_dec k j) as [->|]; [|apply Hfull; lia]. rewrite Hr. unfold has_room. cbn [scan_room].
      pose proof (round_dir_size_spec (blen name) ltac:(lia)). lia.
  - rewrite (sbind_Ret _ _ _ _ _ Hloop). destruct f as [blk|r]; [|by exists r, t].
    destruct Hf as (_ & _ & _ & Hfull). rewrite Z.add_0_l, Z2Nat.id in Hfull by lia. rewrite (Hfull lb0) in Hroom by lia. done.
Qed.

(** C18: Looking a name up. For a directory of any depth whose blocks are well-formed
    chains of records, [lookup] returns, leaves the volume as it was, and unless
    the device fails it answers exactly what a search of all records of the
    directory, block after block and holes skipped, gives: the inode of the
    first record in use with that name, or nothing. An inode that is not a
    directory gives an error. *)
Theorem lookup_correct s n i d ents name :
  ext4_ok s -> aligned s -> 1 <= n <= 2 ^ 32 -> tables_fit s n -> disk_inode s n = Ret i ->
  (is_dir i = true -> dir_ok s d i ents) ->
  exists r s', Ext4Dir.lookup n name s = Ret (r, s') /\ unchanged s s' /\
    match r with
    | Ok res => is_dir i = true /\ res = find_entry (records ents (dir_len s i)) name
    | Err _ => True
    end.
Proof. apply lookup_spec. Qed.

End Lookup.

(** ** Witnesses *)

(** The root directory of the sample volume. *)
Definition root_inode : Inode := match disk_inode sample_volume 2 with Ret i => i | _ => sample_inode end.
Definition root_ents (lb : Z) : list dentry := if lb =? 0 then [mkEnt 12 2 [0x2E]; mkEnt 1000 2 [0x2E; 0x2E]] else [].

Lemma root_disk : disk_inode sample_volume 2 = Ret root_inode.
Proof. vm_compute. reflexivity. Qed.

Lemma root_fit : tables_fit sample_volume 2.
Proof. intros p. assert (inode_byte sample_volume 2 = Ret 5376) as -> by (vm_compute; reflexivity). intros [= <-]. reflexivity. Qed.

Lemma root_root : root_leaf root_inode 1 4 [(0, 1, 9)].
Proof.
  split; [vm_compute; reflexivity|]. split; [apply (bytes_okb_ok (raw root_inode)); vm_compute; reflexivity|].
  split; [vm_compute; reflexivity|]. split; [split; discriminate|]. split; [discriminate|]. split; [vm_compute; reflexivity|].
  exact one_extent_fits.
Qed.

Lemma root_len : dir_len sample_volume root_inode = 1.
Proof. vm_compute. reflexivity. Qed.

Definition root_bytes : list Z := match block_at sample_volume 9 with Ret b => b | _ => [] end.

Lemma root_bytes_eq : block_at sample_volume 9 = Ret root_bytes.
Proof. vm_compute. reflexivity. Qed.

Lemma root_splice : splice (zeros MAX_BLOCK_SIZE) 0 root_bytes = Ret sample_dir.
Proof. vm_compute. reflexivity. Qed.

Lemma root_bytes_limit : dir_limit sample_volume <= blen root_bytes.
Proof. vm_compute. discriminate. Qed.

Lemma root_block bytes : block_at sample_volume 9 = Ret bytes -> dir_block (dir_limit sample_volume) bytes (root_ents 0).
Proof.
  rewrite root_bytes_eq. intros H. assert (root_bytes = bytes) as <- by congruence.
  exact (proj2 (dir_block_front _ _ _ _ _ root_splice root_bytes_limit) sample_dir_block).
Qed.

Lemma root_dir_ok : dir_ok sample_volume 0 root_inode root_ents.
Proof.
  assert (bs sample_volume = 1024) as Hbs by (vm_compute; reflexivity).
  assert (forall lb, 0 <= lb < 1 -> lb = 0) as H0 by lia.
  assert (forall lb, tree_lookup sample_volume 0 (raw root_inode) INO_IBLOCK lb = Ret (lookup_extent [(0, 1, 9)] lb)) as Hl
    by (intros lb; exact (tree_lookup_root _ _ _ _ _ _ root_root)).
  split; rewrite ?root_len.
  - reflexivity.
  - split; [vm_compute; discriminate|vm_compute; reflexivity].
  - discriminate.
  - intros lb _. exists 1, 4. split; [vm_compute; reflexivity|]. split; [discriminate|]. split; [vm_compute; discriminate|].
    pose proof root_root as (_ & _ & _ & _ & _ & <- & Hf). exact Hf.
  - intros lb p _. rewrite Hl, Hbs. intros [= [_ ->]%one_extent]. split; discriminate.
  - intros lb p bytes _. rewrite Hl. intros [= [-> ->]%one_extent]. exact (root_block bytes).
  - intros lb ->%H0. rewrite Hl. discriminate.
Qed.

Lemma lookup_correct_witness : exists r s', Ext4Dir.lookup 2 [0x2E; 0x2E] sample_volume = Ret (r, s') /\
  match r with Ok res => res = Some 2 | Err _ => True end.
Proof.
  destruct (lookup_correct sample_volume 2 root_inode 0 root_ents [0x2E; 0x2E] sample_ok sample_aligned ltac:(split; discriminate)
    root_fit root_disk (fun _ => root_dir_ok)) as (r & s' & Hrun & _ & Hr).
  exists r, s'. split; [exact Hrun|]. destruct r as [res|e]; [|exact I]. destruct Hr as [_ ->]. rewrite root_len. reflexivity.
Defined.

Lemma root_layout : dir_layout sample_volume 2 root_inode 1 4 [(0, 1, 9)] root_ents.
Proof.
  split; [split; [discriminate|reflexivity]|exact root_disk|exact root_root|exact root_dir_ok| |exact root_fit|].
  - intros lb lb' p [-> _]%one_extent [-> _]%one_extent. reflexivity.
  - assert (inode_byte sample_volume 2 = Ret 5376) as Hp by (vm_compute; reflexivity). intros p lb q. rewrite Hp.
    intros [= <-] [-> ->]%one_extent. split; right; vm_compute; discriminate.
Qed.


(** On the volume in memory both succeed. *)
Example add_dirent_root : match add_dirent 2 [0x61] 11 1 sample_volume with
  | Ret (Ok _, s') => match Ext4Dir.lookup 2 [0x61] s' with Ret (Ok res, _) => bool_decide (res = Some 11) | _ => false end
  | _ => false
  end = true.
Proof. vm_compute. reflexivity. Qed.
