(* ===== verification/UserMem.v ===== *)
(** * User memory ([src/src/syscall.rs], [src/src/user.rs], the parts that touch pages)

    Programs, stacks and anonymous mappings are made of the same piece: a frame
    is taken, cleared through its HHDM alias and mapped with user permissions.
    [fresh_user_page] is that piece, [window] what a run of such pages promises
    to the code above: distinct frames, known contents, nothing else moved. *)

From S2P Require Import Prelude Pmm Vmm.
From stdpp Require Import list.
#[local] Open Scope Z_scope.

(** Bytes of the word memory, and a byte stored into it. *)
Definition byte_at (m : gmap Z Z) (a : Z) : Z :=
  Z.land (Z.shiftr (rd m (a / 8 * 8)) (a mod 8 * 8)) 0xFF.

Definition put_byte (a v : Z) (m : gmap Z Z) : gmap Z Z :=
  let w := rd m (a / 8 * 8) in
  let sh := a mod 8 * 8 in
  <[a / 8 * 8 := Z.lor (Z.ldiff w (Z.shiftl 0xFF sh)) (Z.shiftl v sh)]> m.

(** [copy_nonoverlapping] to a kernel pointer. *)
Fixpoint put_bytes (a : Z) (l : list Z) (m : gmap Z Z) : gmap Z Z :=
  match l with
  | [] => m
  | v :: l' => put_bytes (a + 1) l' (put_byte a v m)
  end.

Section UserPages.
Context {PA : Type} `{FA : FrameAllocator PA}.
Abbreviation Vmm := (Vmm PA).

(** A load from, and stores to, a user address made by the kernel: the processor
    walks the tables, and a page that is not there is a page fault, which stops
    the machine ([exception_page_fault]). *)
Definition load_user (va : Z) : M Vmm Z :=
  pa <- vmm_virt_to_phys va ;;
  if pa =? VMM_NO_PHYS then spanic else
  o <- hhdm_base ;;
  s <- sget ;;
  sret (byte_at (mem s) (pa + o)).

Definition store_user (va v : Z) : M Vmm unit :=
  pa <- vmm_virt_to_phys va ;;
  if pa =? VMM_NO_PHYS then spanic else
  o <- hhdm_base ;;
  smodify (fun s => set_mem s (put_byte (pa + o) v (mem s))).

Fixpoint store_user_bytes (va : Z) (l : list Z) : M Vmm unit :=
  match l with
  | [] => sret tt
  | v :: l' => _ <- store_user va v ;; store_user_bytes (va + 1) l'
  end.

(** Take, clear and map a frame; [None] when there is none left. *)
Definition fresh_user_page (va : Z) : M Vmm (option Z) :=
  frame <- pmm_alloc ;;
  if frame =? PMM_NO_PAGE then sret None else
  dst <- phys_to_virt frame ;;
  _ <- zero_table dst ;;
  _ <- vmm_map_user_page va frame ;;
  sret (Some frame).
End UserPages.

(** ** Bytes *)

Lemma byte_at_put a v m b :
  0 <= v < 256 -> byte_at (put_byte a v m) b = if b =? a then v else byte_at m b.
Proof.
  intros Hv. unfold byte_at, put_byte. change 0xFF with (Z.ones 8).
  destruct (Z.eq_dec (a / 8 * 8) (b / 8 * 8)) as [E|E].
  - rewrite <- E, rd_insert_eq. set (w := rd m (a / 8 * 8)).
    destruct (Z.eqb_spec b a) as [->|Hne].
    + zbits i. rewrite Z.add_simpl_r. destruct (Z.ltb_spec i 8) as [Hi|Hi].
      * by rewrite andb_true_r, andb_false_r.
      * rewrite andb_false_r. symmetry. apply (testbit_above 8); lia.
    + zbits i. destruct (Z.ltb_spec i 8) as [Hi|Hi]; [|by rewrite !andb_false_r].
      rewrite !andb_true_r.
      assert (b mod 8 <> a mod 8) by lia.
      assert (forall x, 0 <= x < 256 -> Z.testbit x (i + b mod 8 * 8 - a mod 8 * 8) = false) as Hout.
      { intros x Hx. destruct (Z.lt_ge_cases (i + b mod 8 * 8 - a mod 8 * 8) 0).
        - by apply Z.testbit_neg_r.
        - apply (testbit_above 8); lia. }
      rewrite (Hout (Z.ones 8)), (Hout v) by (try change (Z.ones 8) with 255; lia). cbn [negb].
      by rewrite andb_true_r, orb_false_r.
  - rewrite rd_insert_ne by done. by destruct (Z.eqb_spec b a) as [->|].
Qed.

Lemma rd_put_byte a v m b : b <> a / 8 * 8 -> rd (put_byte a v m) b = rd m b.
Proof. intros. by apply rd_insert_ne. Qed.

Lemma byte_at_puts l : forall a m b, Forall (fun v => 0 <= v < 256) l ->
  byte_at (put_bytes a l m) b =
    if (a <=? b) && (b <? a + blen l) then l !!! Z.to_nat (b - a) else byte_at m b.
Proof.
  induction l as [|v l IH]; intros a m b Hl; cbn [put_bytes]; unfold blen; cbn [length].
  - destruct (Z.leb_spec a b), (Z.ltb_spec b (a + Z.of_nat 0)); try done. lia.
  - apply Forall_cons_1 in Hl as [Hv Hl]. rewrite IH, byte_at_put by done. unfold blen.
    destruct (Z.eqb_spec b a) as [->|Hne].
    + rewrite (proj2 (Z.leb_gt _ _)) by lia. rewrite (proj2 (Z.leb_le _ _)), (proj2 (Z.ltb_lt _ _)) by lia.
      cbn [andb]. rewrite Z.sub_diag, (proj2 (Z.ltb_lt a _)) by lia. done.
    + destruct (Z.leb_spec (a + 1) b), (Z.leb_spec a b); cbn [andb]; try done; try lia.
      replace (a + 1 + Z.of_nat (length l)) with (a + Z.of_nat (S (length l))) by lia.
      destruct (Z.ltb_spec b (a + Z.of_nat (S (length l)))); [|done].
      by replace (Z.to_nat (b - a)) with (S (Z.to_nat (b - (a + 1)))) by lia.
Qed.

Lemma rd_puts l : forall a m b, (forall k, 0 <= k < blen l -> b <> (a + k) / 8 * 8) ->
  rd (put_bytes a l m) b = rd m b.
Proof.
  induction l as [|v l IH]; intros a m b Hb; [done|]. cbn [put_bytes]. unfold blen in *. cbn [length] in *.
  rewrite IH.
  - apply rd_put_byte. specialize (Hb 0). rewrite Z.add_0_r in Hb. apply Hb. lia.
  - intros k Hk. replace (a + 1 + k) with (a + (k + 1)) by lia. apply Hb. lia.
Qed.

(** ** Fresh pages *)

Section Windows.
Context {PA : Type} `{FA : FrameAllocator PA}.
Abbreviation Vmm := (Vmm PA).

(** [s'] is [s] with the page [va] mapped to the cleared frame [f]. *)
Record fresh (s s' : Vmm) (h va f : Z) : Prop := {
  fr_ok : vmm_ok s' h;
  fr_pml4 : pml4 s' = pml4 s;
  fr_new : fa_free (frames s) f;
  fr_small : frame_ok h f;
  fr_page : data_page s' h f;
  fr_data : keeps_data s s' h;
  fr_free : forall g, fa_free (frames s') g -> fa_free (frames s) g;
  fr_zero : forall i, 0 <= i < 512 -> rd (mem s') (f * PAGE_SIZE + h + 8 * i) = 0;
  fr_user : user_access (trail (mem s') h (pml4 s) (path va)) = true;
  fr_other : forall va', vpn va' <> vpn va ->
    evolves (trail (mem s) h (pml4 s) (path va')) (trail (mem s') h (pml4 s) (path va'));
  fr_trans : forall off, 0 <= off < PAGE_SIZE -> va + off < 2 ^ 64 ->
    decode (trail (mem s') h (pml4 s) (path (va + off))) (va + off) = f * PAGE_SIZE + off;
}.

Definition USER_FLAGS : Z := Z.lor (Z.lor PTE_PRESENT PTE_WRITABLE) PTE_USER.

Lemma page_offset va off : 0 <= va -> va mod PAGE_SIZE = 0 -> 0 <= off < PAGE_SIZE ->
  vpn (va + off) = vpn va /\ Z.land (va + off) (PAGE_SIZE - 1) = off.
Proof.
  intros Hva Hal Hoff. unfold vpn. change (PAGE_SIZE - 1) with (Z.ones 12).
  rewrite !Z.land_ones, !Z.shiftr_div_pow2 by lia. unfold PAGE_SIZE in *. lia.
Qed.

Lemma aligned_mask va : va mod PAGE_SIZE = 0 -> Z.land va (PAGE_SIZE - 1) = 0.
Proof. intros H. change (PAGE_SIZE - 1) with (Z.ones 12). by rewrite Z.land_ones by lia. Qed.

Lemma fresh_user_page_spec (s : Vmm) h va n :
  vmm_ok s h -> 0 <= va < 2 ^ 64 -> va mod PAGE_SIZE = 0 -> room (frames s) (4 + n) ->
  no_huge (trail (mem s) h (pml4 s) (path va)) ->
  exists f s', fresh_user_page va s = Ret (Some (f * PAGE_SIZE), s') /\ fresh s s' h va f /\
    room (frames s') n.
Proof.
  intros Hs Hva Hal Hroom Hnh.
  destruct (pmm_alloc_run s h (3 + n) Hs Hroom) as (f & p' & Ha & Hf & Hsmall & Hok' & Hroom' & Hfree).
  set (s0 := mkVmm p' (mem s) (hhdm s) (pml4 s) (flushed s)) in *.
  assert (vmm_ok s0 h) as Hs0 by (by eapply alloc_keeps_ok).
  assert (data_page s0 h f) as Hd0 by (by apply alloc_data_page).
  set (m1 := zero_words (f * PAGE_SIZE + h) (mem s)).
  assert (forall a, ~ in_page h f a -> rd m1 a = rd (mem s) a) as Hout.
  { intros a Hna. apply rd_zero_out. intros i Hi ->. apply Hna. unfold in_page, PAGE_SIZE. lia. }
  destruct (data_write s0 h f m1 Hs0 Hd0 Hout) as (Hs1 & Htr & Hdp). set (s1 := set_mem s0 m1) in *.
  assert (keeps_data s s1 h) as Hk1.
  { intros g Hg. assert (f <> g) as Hfg by (intros ->; by apply (dp_used _ _ _ Hg)). split.
    - apply Hdp. split; [intros [? _]%Hfree; by apply (dp_used _ _ _ Hg)|apply Hg].
    - intros a Ha'. apply Hout. unfold in_page, PAGE_SIZE in *. lia. }
  assert (Z.land (f * PAGE_SIZE) (PAGE_SIZE - 1) = 0) as Hfal.
  { apply aligned_mask. unfold PAGE_SIZE. lia. }
  destruct (map_spec s1 h va (f * PAGE_SIZE) USER_FLAGS n Hs1 (aligned_mask va Hal) Hfal Hroom')
    as (s2 & Hrun & Hm & Hr2); [cbn [s1 set_mem mem pml4 s0]; by rewrite Htr by (done || apply path_path_ok)|].
  exists f, s2. split; [|split; [|done]].
  - unfold fresh_user_page. rewrite (sbind_Ret _ _ _ _ _ Ha).
    rewrite (proj2 (Z.eqb_neq _ _)) by apply frame_not_no_page. destruct Hsmall as [Hf0 Hf64].
    unfold phys_to_virt, sbind at 1.
    rewrite (phys_to_ptr_hhdm _ h) by (apply (ok_hhdm _ _ Hs0) || (pose proof (ok_h _ _ Hs); unfold PAGE_SIZE in *; lia)).
    unfold sbind at 1, zero_table, smodify. fold m1. by rewrite (sbind_Ret _ _ _ _ _ Hrun).
  - destruct Hsmall as [Hf0 Hf64]. destruct (md_data _ _ _ _ _ _ Hm f (Hdp f Hd0)) as [Hd2 Hpage2].
    assert (0 <= f * PAGE_SIZE < 2 ^ 52) as Hpa by (unfold PAGE_SIZE; lia).
    destruct (leaf_entry_spec (f * PAGE_SIZE) USER_FLAGS) as (Hp & Hmask & Hleaf); [done..|].
    destruct (md_page _ _ _ _ _ _ Hm) as (es & Hes & Hlen & Hnav & Hu).
    constructor; try done.
    + apply Hm.
    + by rewrite (md_pml4 _ _ _ _ _ _ Hm).
    + by eapply keeps_data_trans; [|apply Hm].
    + intros g Hg. apply (md_free _ _ _ _ _ _ Hm) in Hg. by apply Hfree in Hg as [? _].
    + intros i Hi. rewrite Hpage2 by (unfold in_page, PAGE_SIZE; lia). by apply rd_zero_in.
    + change (pml4 s) with (pml4 s1). rewrite Hes. unfold user_access in *.
      rewrite forallb_app, Hu by done. cbn [forallb]. by rewrite Hp, Hleaf.
    + intros va' Hv. change (trail (mem s) h (pml4 s) (path va')) with (trail (mem s0) h (pml4 s0) (path va')).
      rewrite <- (Htr (path va')) by (done || apply path_path_ok).
      apply (md_other _ _ _ _ _ _ Hm); [apply path_path_ok|done|by rewrite path_vpn].
    + intros off Hoff Hlt. destruct (page_offset va off) as [Hvpn Hland]; [lia|done|done|].
      apply path_vpn in Hvpn. rewrite Hvpn. change (pml4 s) with (pml4 s1). rewrite Hes.
      destruct es as [|x [|y [|z [|]]]]; try done. cbn [app decode].
      rewrite Hp, Hmask, Hland. by apply lor_offset.
Qed.

(** ** Windows *)

(** After [s0], the pages [base], [base + PAGE_SIZE], ... are backed by the new
    frames [fs], and the byte at the user address [va] in them is [C va]. *)
Record window (s0 s : Vmm) (h base : Z) (fs : list Z) (C : Z -> Z) : Prop := {
  wn_ok : vmm_ok s h;
  wn_pml4 : pml4 s = pml4 s0;
  wn_nodup : NoDup fs;
  wn_new : Forall (fun f => fa_free (frames s0) f /\ frame_ok h f /\ data_page s h f) fs;
  wn_data : keeps_data s0 s h;
  wn_free : forall g, fa_free (frames s) g -> fa_free (frames s0) g;
  wn_other : forall va, (forall k, 0 <= k < Z.of_nat (length fs) -> vpn va <> vpn (base + k * PAGE_SIZE)) ->
    evolves (trail (mem s0) h (pml4 s0) (path va)) (trail (mem s) h (pml4 s0) (path va));
  wn_page : forall k f off, fs !! k = Some f -> 0 <= off < PAGE_SIZE ->
    let va := base + Z.of_nat k * PAGE_SIZE + off in
    user_access (trail (mem s) h (pml4 s0) (path va)) = true /\
    decode (trail (mem s) h (pml4 s0) (path va)) va = f * PAGE_SIZE + off /\
    byte_at (mem s) (f * PAGE_SIZE + off + h) = C va;
}.

(** A page-aligned range of the lower half. *)
Definition user_range (base n : Z) : Prop :=
  0 <= base /\ base mod PAGE_SIZE = 0 /\ 0 <= n /\ base + n * PAGE_SIZE <= 2 ^ 47.

Lemma range_vpn base n k off :
  user_range base n -> 0 <= k < n -> 0 <= off < PAGE_SIZE ->
  vpn (base + k * PAGE_SIZE + off) = base / PAGE_SIZE + k.
Proof.
  intros (Hb & Hal & Hn & Hend) Hk Hoff. unfold vpn.
  rewrite Z.land_ones, Z.shiftr_div_pow2 by lia. unfold PAGE_SIZE in *. lia.
Qed.

Lemma window_nil (s : Vmm) h base C : vmm_ok s h -> window s s h base [] C.
Proof.
  intros Hs. constructor; try done; first [constructor; fail | apply keeps_data_refl | (intros; apply evolves_refl) | constructor].
Qed.

Lemma byte_at_page (m m' : gmap Z Z) h g off :
  0 <= h -> h mod PAGE_SIZE = 0 -> 0 <= off < PAGE_SIZE ->
  (forall a, in_page h g a -> rd m' a = rd m a) ->
  byte_at m' (g * PAGE_SIZE + off + h) = byte_at m (g * PAGE_SIZE + off + h).
Proof.
  intros Hh Hal Hoff Hsame. unfold byte_at. rewrite Hsame; [done|].
  unfold in_page, PAGE_SIZE in *. lia.
Qed.

(** One more page: mapped fresh, then filled through its alias. *)
Lemma window_snoc (s0 s s1 : Vmm) h base fs C f m' n :
  window s0 s h base fs C -> fresh s s1 h (base + Z.of_nat (length fs) * PAGE_SIZE) f ->
  user_range base n -> Z.of_nat (length fs) < n -> h mod PAGE_SIZE = 0 ->
  (forall a, ~ in_page h f a -> rd m' a = rd (mem s1) a) ->
  (forall off, 0 <= off < PAGE_SIZE ->
     byte_at m' (f * PAGE_SIZE + off + h) = C (base + Z.of_nat (length fs) * PAGE_SIZE + off)) ->
  window s0 (set_mem s1 m') h base (fs ++ [f]) C.
Proof.
  intros W F Hr Hn Hh Hout Hin. pose proof (fr_pml4 _ _ _ _ _ F) as P1. pose proof (wn_pml4 _ _ _ _ _ _ W) as P0.
  pose proof (ok_h _ _ (wn_ok _ _ _ _ _ _ W)) as Hh0.
  destruct (data_write s1 h f m' (fr_ok _ _ _ _ _ F) (fr_page _ _ _ _ _ F) Hout) as (Hs2 & Htr & Hdp).
  assert (forall va, trail m' h (pml4 s0) (path va) = trail (mem s1) h (pml4 s) (path va)) as Htrail.
  { intros va. rewrite <- P0, <- P1, Htr by (done || apply path_path_ok). by rewrite P1. }
  assert (Forall (fun g => fa_free (frames s0) g /\ frame_ok h g /\ data_page s1 h g /\ g <> f) fs) as Hold.
  { eapply Forall_impl; [exact (wn_new _ _ _ _ _ _ W)|]. intros g (? & ? & Hg). split; [done|]. split; [done|].
    split; [by apply (fr_data _ _ _ _ _ F)|]. intros ->. by apply (dp_used _ _ _ Hg), (fr_new _ _ _ _ _ F). }
  assert (forall g a, g <> f -> in_page h g a -> ~ in_page h f a) as Hdisj.
  { unfold in_page, PAGE_SIZE. lia. }
  constructor; cbn [set_mem mem pml4 frames].
  - done.
  - by rewrite P1.
  - apply NoDup_app. split; [apply W|]. split; [|apply NoDup_singleton].
    intros g Hg ->%list_elem_of_singleton. rewrite Forall_forall in Hold. by apply Hold in Hg as (_ & _ & _ & ?).
  - apply Forall_app. split.
    + eapply Forall_impl; [exact Hold|]. intros g (? & ? & ? & _). split; [done|]. split; [done|]. by apply Hdp.
    + constructor; [|constructor].
      exact (conj (wn_free _ _ _ _ _ _ W f (fr_new _ _ _ _ _ F)) (conj (fr_small _ _ _ _ _ F) (Hdp f (fr_page _ _ _ _ _ F)))).
  - intros g Hg. destruct (wn_data _ _ _ _ _ _ W g Hg) as [Hg1 E1].
    destruct (fr_data _ _ _ _ _ F g Hg1) as [Hg2 E2]. split; [by apply Hdp|]. cbn [set_mem mem].
    intros a Ha. assert (g <> f) as Hgf by (intros ->; by apply (dp_used _ _ _ Hg1), (fr_new _ _ _ _ _ F)).
    rewrite Hout by (by eapply Hdisj). by rewrite E2, E1.
  - intros g Hg. by apply (wn_free _ _ _ _ _ _ W), (fr_free _ _ _ _ _ F).
  - intros va Hva. rewrite length_app in Hva. cbn [length] in Hva. rewrite Htrail.
    eapply evolves_trans; [apply (wn_other _ _ _ _ _ _ W); intros; apply Hva; lia|].
    rewrite <- P0. apply (fr_other _ _ _ _ _ F). apply Hva. lia.
  - intros k g off Hk Hoff. set (va := base + Z.of_nat k * PAGE_SIZE + off). rewrite Htrail. apply lookup_app_Some in Hk as [Hk|[Hge Hk]].
    + pose proof (lookup_lt_Some _ _ _ Hk) as Hlt. destruct (wn_page _ _ _ _ _ _ W k g off Hk Hoff) as (Hu & Hd & Hb).
      fold va in Hu, Hd, Hb. pose proof (Forall_lookup_1 _ _ _ _ Hold Hk) as (_ & _ & Hdg & Hgf).
      destruct (fr_other _ _ _ _ _ F va) as (He1 & _ & He3 & _).
      { unfold va. rewrite (range_vpn base n) by (done || lia).
        rewrite <- (Z.add_0_r (base + Z.of_nat (length fs) * PAGE_SIZE)).
        rewrite (range_vpn base n) by (done || unfold PAGE_SIZE; lia). lia. }
      rewrite P0 in He1, He3 |- *. split; [by apply He3|]. split; [by rewrite He1|].
      pose proof (Forall_lookup_1 _ _ _ _ (wn_new _ _ _ _ _ _ W) Hk) as (_ & _ & Hdg0).
      destruct (fr_data _ _ _ _ _ F g Hdg0) as [_ Hsame].
      rewrite (byte_at_page (mem s1)) by (done || (intros a Ha; apply Hout; by eapply Hdisj)).
      by rewrite (byte_at_page (mem s)).
    + assert (k = length fs) as ->.
      { destruct (k - length fs)%nat eqn:E; [lia|]. done. }
      rewrite Nat.sub_diag in Hk. injection Hk as <-. destruct Hr as (Hb0 & Hbal & _ & Hend).
      split.
      * destruct (page_offset (base + Z.of_nat (length fs) * PAGE_SIZE) off) as [Hv _];
          [unfold PAGE_SIZE; lia|unfold PAGE_SIZE in *; lia|done|].
        apply path_vpn in Hv. unfold va. rewrite Hv. apply F.
      * split; [apply (fr_trans _ _ _ _ _ F); [done|unfold PAGE_SIZE in *; lia]|by apply Hin].
Qed.
(** A cleared page reads as zeros. *)
Lemma fresh_zero (s s' : Vmm) h va f off :
  fresh s s' h va f -> 0 <= h -> h mod PAGE_SIZE = 0 -> 0 <= off < PAGE_SIZE ->
  byte_at (mem s') (f * PAGE_SIZE + off + h) = 0.
Proof.
  intros F Hh Hal Hoff. unfold byte_at.
  replace ((f * PAGE_SIZE + off + h) / 8 * 8) with (f * PAGE_SIZE + h + 8 * (off / 8))
    by (unfold PAGE_SIZE in *; lia).
  rewrite (fr_zero _ _ _ _ _ F) by (unfold PAGE_SIZE in *; lia). by rewrite Z.shiftr_0_l.
Qed.

(** The next page of a range can be mapped as long as nothing large is in the
    way. *)
Lemma window_fresh (s0 s : Vmm) h base fs C n r :
  window s0 s h base fs C -> user_range base n -> Z.of_nat (length fs) < n ->
  (forall k, 0 <= k < n -> no_huge (trail (mem s0) h (pml4 s0) (path (base + k * PAGE_SIZE)))) ->
  room (frames s) (4 + r) ->
  exists f s', fresh_user_page (base + Z.of_nat (length fs) * PAGE_SIZE) s = Ret (Some (f * PAGE_SIZE), s') /\
    fresh s s' h (base + Z.of_nat (length fs) * PAGE_SIZE) f /\ room (frames s') r.
Proof.
  intros W Hr Hn Hnh Hroom. pose proof Hr as (Hb & Hal & _ & Hend).
  apply fresh_user_page_spec; [apply W|unfold PAGE_SIZE in *; lia|unfold PAGE_SIZE in *; lia|done|].
  rewrite (wn_pml4 _ _ _ _ _ _ W). apply (wn_other _ _ _ _ _ _ W); [|apply Hnh; lia].
  intros k Hk. rewrite <- (Z.add_0_r (base + Z.of_nat (length fs) * PAGE_SIZE)), <- (Z.add_0_r (base + k * PAGE_SIZE)).
  rewrite !(range_vpn base n) by (done || unfold PAGE_SIZE; lia). lia.
Qed.

Lemma window_zero_step (s0 s : Vmm) h base fs n r :
  window s0 s h base fs (fun _ => 0) -> user_range base n -> Z.of_nat (length fs) < n -> h mod PAGE_SIZE = 0 ->
  (forall k, 0 <= k < n -> no_huge (trail (mem s0) h (pml4 s0) (path (base + k * PAGE_SIZE)))) ->
  room (frames s) (4 + r) ->
  exists f s', fresh_user_page (base + Z.of_nat (length fs) * PAGE_SIZE) s = Ret (Some (f * PAGE_SIZE), s') /\
    window s0 s' h base (fs ++ [f]) (fun _ => 0) /\ room (frames s') r.
Proof.
  intros W Hr Hn Hh Hnh Hroom.
  destruct (window_fresh s0 s h base fs _ n r W Hr Hn Hnh Hroom) as (f & s' & Hrun & F & Hroom').
  exists f, s'. split; [done|]. split; [|done].
  replace s' with (set_mem s' (mem s')) by (by destruct s').
  eapply window_snoc; try done. intros off Hoff.
  eapply fresh_zero; [done|apply (ok_h _ _ (fr_ok _ _ _ _ _ F))|done|done].
Qed.

(** What the kernel, and a program, see in a window. *)
Lemma window_load (s0 s : Vmm) h base fs C n va :
  window s0 s h base fs C -> user_range base n -> Z.of_nat (length fs) = n ->
  base <= va < base + n * PAGE_SIZE ->
  load_user va s = Ret (C va, s) /\ user_access (trail (mem s) h (pml4 s) (path va)) = true.
Proof.
  intros W (Hb & Hal & _ & Hend) Hn Hva. set (k := Z.to_nat ((va - base) / PAGE_SIZE)). set (off := (va - base) mod PAGE_SIZE).
  assert (va = base + Z.of_nat k * PAGE_SIZE + off) as Hsplit by (unfold k, off, PAGE_SIZE in *; lia).
  assert (0 <= off < PAGE_SIZE) as Hoff by (unfold off, PAGE_SIZE; lia).
  destruct (lookup_lt_is_Some_2 fs k) as [f Hf]; [unfold k, PAGE_SIZE in *; lia|].
  destruct (wn_page _ _ _ _ _ _ W k f off Hf Hoff) as (Hu & Hd & Hby). rewrite <- Hsplit in Hu, Hd, Hby.
  rewrite (wn_pml4 _ _ _ _ _ _ W). split; [|done]. unfold load_user.
  rewrite (sbind_Ret _ _ _ _ _ (virt_to_phys_run s h va (wn_ok _ _ _ _ _ _ W) ltac:(lia))).
  rewrite (wn_pml4 _ _ _ _ _ _ W), Hd.
  pose proof (Forall_lookup_1 _ _ _ _ (wn_new _ _ _ _ _ _ W) Hf) as (_ & [[Hf0 Hf40] _] & _).
  rewrite (proj2 (Z.eqb_neq _ _)) by (unfold VMM_NO_PHYS, u64_max, PAGE_SIZE in *; lia).
  unfold sbind at 1, hhdm_base. rewrite (ok_hhdm _ _ (wn_ok _ _ _ _ _ _ W)). unfold sbind, sget, sret.
  by rewrite Hby.
Qed.

(** Outside, every address translates as before. *)
Lemma fresh_window_outside (s0 s : Vmm) h base fs C n va :
  vmm_ok s0 h -> window s0 s h base fs C -> user_range base n -> Z.of_nat (length fs) = n ->
  0 <= va < 2 ^ 48 -> ~ (base <= va < base + n * PAGE_SIZE) ->
  exists pa, vmm_virt_to_phys va s0 = Ret (pa, s0) /\ vmm_virt_to_phys va s = Ret (pa, s).
Proof.
  intros Hs W (Hb & Hal & Hn0 & Hend) Hn Hva Hout. eexists. split; [apply (virt_to_phys_run s0 h); [done|lia]|].
  rewrite (virt_to_phys_run s h) by (apply W || lia). rewrite (wn_pml4 _ _ _ _ _ _ W).
  destruct (wn_other _ _ _ _ _ _ W va) as (E & _); [|by rewrite E by lia].
  intros k Hk. rewrite <- (Z.add_0_r (base + k * PAGE_SIZE)).
  rewrite (range_vpn base n) by (done || unfold PAGE_SIZE; lia).
  unfold vpn. rewrite Z.land_ones, Z.shiftr_div_pow2 by lia. unfold PAGE_SIZE in *. lia.
Qed.
End Windows.
