(* ===== verification/Dma.v ===== *)
(** * Memory a driver shares with a device ([src/src/ahci.rs], the parts that touch pages)

    The kernel maps frames into windows of its address space, fills them through
    the window and hands their physical addresses to a device. [Pages] says which
    page of the address space is backed by which frame, [shared] that the page
    tables agree with it; under [shared] an access through a window is an access
    to the frame ([store_bytes_run], [load_bytes_run]), and whatever is written to
    the frames, by the kernel or by the device, leaves the page tables alone
    ([shared_set]). *)

From S2P Require Import Prelude Pmm Vmm UserMem.
From stdpp Require Import list.
#[local] Open Scope Z_scope.

(** ** Operations *)

Section Ops.
Context {PA : Type} `{FA : FrameAllocator PA}.
Abbreviation Vmm := (Vmm PA).

(** [copy_nonoverlapping] out of a virtual address. *)
Fixpoint load_bytes (va : Z) (n : nat) : M Vmm (list Z) :=
  match n with
  | O => sret []
  | S n' =>
      b <- load_user va ;;
      l <- load_bytes (va + 1) n' ;;
      sret (b :: l)
  end.

(** A [u32] written through a pointer. *)
Definition store32 (va v : Z) : M Vmm unit := store_user_bytes va (to_le 4 v).
Definition store16 (va v : Z) : M Vmm unit := store_user_bytes va (to_le 2 v).
Definition store8 (va v : Z) : M Vmm unit := store_user va v.

Definition map_page (virtual_address : Z) : M Vmm Z :=
  physical <- pmm_alloc ;;
  _ <- (if negb (physical =? PMM_NO_PAGE) then vmm_map_page virtual_address physical else sret tt) ;;
  sret physical.

(** The 1024 words of a page; flushing the cache lines has no effect here. *)
Definition reset_page (address : Z) : M Vmm unit :=
  _ <- for_loop (R := Empty_set) (Z.to_nat (PAGE_SIZE / 4)) 0 (fun i _ =>
         _ <- store32 (address + 4 * i) 0 ;; sret (Next tt)) tt ;;
  sret tt.
End Ops.

(** ** Windows *)

(** The frame behind a page of the address space, by page number. *)
Abbreviation Pages := (gmap Z Z).

Definition phys_of (P : Pages) (va : Z) : option Z :=
  f ← P !! (va / PAGE_SIZE); Some (f * PAGE_SIZE + va mod PAGE_SIZE).

(** The byte a window shows at [va]. *)
Definition view (h : Z) (P : Pages) (m : gmap Z Z) (va : Z) : Z :=
  byte_at m (default 0 (phys_of P va) + h).

(** [m'] is [m] except in the frames of the windows. *)
Definition outside (h : Z) (P : Pages) (m m' : gmap Z Z) : Prop := forall a,
  (forall p f, P !! p = Some f -> ~ in_page h f a) -> rd m' a = rd m a.

Definition covered (P : Pages) (va n : Z) : Prop := forall a, va <= a < va + n -> is_Some (phys_of P a).

Section Windows.
Context {PA : Type} `{FA : FrameAllocator PA}.
Abbreviation Vmm := (Vmm PA).

Definition translates (s : Vmm) (h va pa : Z) : Prop :=
  decode (trail (mem s) h (pml4 s) (path va)) va = pa.

(** The page numbers of the upper half of the address space. *)
Definition upper (p : Z) : Prop := 2 ^ 52 - 2 ^ 35 <= p < 2 ^ 52.

Record shared (s : Vmm) (h : Z) (P : Pages) : Prop := {
  sh_ok : vmm_ok s h;
  sh_align : h mod PAGE_SIZE = 0;
  sh_inj : forall p q f, P !! p = Some f -> P !! q = Some f -> p = q;
  sh_frame : forall p f, P !! p = Some f -> upper p /\ frame_ok h f /\ data_page s h f;
  sh_map : forall va pa, phys_of P va = Some pa -> translates s h va pa;
}.

Lemma phys_of_Some P va pa :
  phys_of P va = Some pa <->
  exists f, P !! (va / PAGE_SIZE) = Some f /\ pa = f * PAGE_SIZE + va mod PAGE_SIZE.
Proof.
  unfold phys_of. destruct (P !! (va / PAGE_SIZE)) as [f|]; cbn; (split; [|by intros (g & [= <-] & ->)]); [|done].
  intros [= <-]. by exists f.
Qed.

Lemma phys_of_inj s h P a b pa :
  shared s h P -> phys_of P a = Some pa -> phys_of P b = Some pa -> a = b.
Proof.
  intros Hs (f & Hf & ->)%phys_of_Some (g & Hg & E)%phys_of_Some.
  assert (g = f) as -> by (unfold PAGE_SIZE in *; lia).
  pose proof (sh_inj _ _ _ Hs _ _ _ Hf Hg). unfold PAGE_SIZE in *. lia.
Qed.

Lemma view_at h P m va pa : phys_of P va = Some pa -> view h P m va = byte_at m (pa + h).
Proof. unfold view. by intros ->. Qed.

Lemma phys_of_range s h P va pa : shared s h P -> phys_of P va = Some pa ->
  0 <= va < 2 ^ 64 /\ 0 <= pa < 2 ^ 52 /\ pa + h < 2 ^ 64 /\ 0 <= h.
Proof.
  intros Hs (f & Hf & ->)%phys_of_Some. destruct (sh_frame _ _ _ Hs _ _ Hf) as (Hp & [? ?] & _).
  pose proof (ok_h _ _ (sh_ok _ _ _ Hs)). unfold upper, PAGE_SIZE in *. lia.
Qed.

(** *** Writes to the frames leave the tables alone *)

Lemma data_writes (s : Vmm) h (P : Pages) m' :
  vmm_ok s h -> (forall p f, P !! p = Some f -> data_page s h f) -> outside h P (mem s) m' ->
  vmm_ok (set_mem s m') h /\
  (forall q, path_ok q -> (length q <= 4)%nat -> trail m' h (pml4 s) q = trail (mem s) h (pml4 s) q) /\
  (forall k, data_page s h k -> data_page (set_mem s m') h k).
Proof.
  intros Hs Hg Hm. assert (agree (mem s) m' h (pml4 s) [] (-1)) as Hag.
  { intros q t j Hq Hql Hj Hw _. apply Hm. intros p f Hf Ha. by eapply (data_page_word s h f q t j); eauto. }
  assert (forall q, path_ok q -> (length q <= 4)%nat ->
    trail m' h (pml4 s) q = trail (mem s) h (pml4 s) q /\ walk m' h (pml4 s) q = walk (mem s) h (pml4 s) q) as Hsame.
  { intros q Hq Hql. apply (agree_other _ _ _ _ [] (-1)); try done. intros [r ->]. cbn in Hq.
    apply Forall_cons_1 in Hq as [? _]. lia. }
  split; [|split; [intros; by apply Hsame|]].
  - destruct Hs as [? ? ? ? ? Htab Hinj]. constructor; try done; cbn [mem set_mem pml4 frames].
    + intros q u Hq Hql. rewrite (proj2 (Hsame q Hq ltac:(lia))). by apply Htab.
    + intros q q' u Hq Hq' Hl Hl'. rewrite (proj2 (Hsame q Hq ltac:(lia))), (proj2 (Hsame q' Hq' ltac:(lia))).
      by apply Hinj.
  - intros k Hk. split; [apply Hk|]. cbn [mem set_mem pml4]. intros q u Hq Hql.
    rewrite (proj2 (Hsame q Hq ltac:(lia))). by apply Hk.
Qed.

Lemma shared_set s h P m' :
  shared s h P -> outside h P (mem s) m' ->
  shared (set_mem s m') h P /\ forall va pa, translates s h va pa -> translates (set_mem s m') h va pa.
Proof.
  intros [Hok Hal Hinj Hfr Hmap] Hout.
  destruct (data_writes s h P m' Hok) as (Hok' & Htr & Hdp); [intros p f Hf; by apply (Hfr p f)|done|].
  assert (forall va pa, translates s h va pa -> translates (set_mem s m') h va pa) as Ht.
  { unfold translates. cbn [mem set_mem pml4]. intros va pa. by rewrite Htr by (done || apply path_path_ok). }
  split; [|done]. constructor; try done.
  - intros p f Hf. destruct (Hfr p f Hf) as (? & ? & ?). split; [done|]. split; [done|]. by apply Hdp.
  - intros va pa Hpa. by apply Ht, Hmap.
Qed.

Lemma outside_refl h P m : outside h P m m.
Proof. by intros a. Qed.

Lemma outside_trans h P m1 m2 m3 : outside h P m1 m2 -> outside h P m2 m3 -> outside h P m1 m3.
Proof. intros H1 H2 a Ha. by rewrite H2, H1. Qed.

(** *** Accesses through a window *)

Lemma translate_run s h P va pa :
  shared s h P -> phys_of P va = Some pa -> vmm_virt_to_phys va s = Ret (pa, s) /\ pa <> VMM_NO_PHYS.
Proof.
  intros Hs Hpa. destruct (phys_of_range _ _ _ _ _ Hs Hpa) as (? & ? & _).
  rewrite (virt_to_phys_run s h) by (done || apply Hs). rewrite (sh_map _ _ _ Hs _ _ Hpa).
  split; [done|]. unfold VMM_NO_PHYS, u64_max. lia.
Qed.

Lemma hhdm_base_run s h P : shared s h P -> hhdm_base s = Ret (h, s).
Proof. intros Hs. unfold hhdm_base. by rewrite (ok_hhdm _ _ (sh_ok _ _ _ Hs)). Qed.

Lemma put_byte_outside s h P va pa v m :
  shared s h P -> phys_of P va = Some pa -> outside h P m (put_byte (pa + h) v m).
Proof.
  intros Hs Hpa a Ha. apply rd_put_byte. intros ->.
  apply phys_of_Some in Hpa as (f & Hf & ->). apply (Ha _ f Hf).
  pose proof (sh_align _ _ _ Hs). pose proof (ok_h _ _ (sh_ok _ _ _ Hs)). unfold in_page, PAGE_SIZE in *. lia.
Qed.

Lemma view_put s h P va pa v m a :
  shared s h P -> phys_of P va = Some pa -> is_Some (phys_of P a) -> 0 <= v < 256 ->
  view h P (put_byte (pa + h) v m) a = if a =? va then v else view h P m a.
Proof.
  intros Hs Hpa [pb Hpb] Hv. rewrite !(view_at _ _ _ _ _ Hpb), byte_at_put by done.
  destruct (Z.eqb_spec a va) as [->|Hne].
  - rewrite Hpa in Hpb. injection Hpb as ->. by rewrite Z.eqb_refl.
  - rewrite (proj2 (Z.eqb_neq _ _)); [done|]. intros E. apply Hne.
    eapply phys_of_inj; [done| |done]. by replace pb with pa in * by lia.
Qed.

Lemma store_run s h P va pa v :
  shared s h P -> phys_of P va = Some pa ->
  store_user va v s = Ret (tt, set_mem s (put_byte (pa + h) v (mem s))).
Proof.
  intros Hs Hpa. unfold store_user. destruct (translate_run _ _ _ _ _ Hs Hpa) as [Hrun Hne].
  rewrite (sbind_Ret _ _ _ _ _ Hrun), (proj2 (Z.eqb_neq _ _)) by done.
  by rewrite (sbind_Ret _ _ _ _ _ (hhdm_base_run _ _ _ Hs)).
Qed.

(** What a window shows after [l] has been written at [va]. *)
Definition written (va : Z) (l : list Z) (C : Z -> Z) (a : Z) : Z :=
  if (va <=? a) && (a <? va + blen l) then l !!! Z.to_nat (a - va) else C a.

Lemma store_bytes_run h P l : forall va (s : Vmm), shared s h P -> covered P va (blen l) -> bytes_ok l ->
  exists m', store_user_bytes va l s = Ret (tt, set_mem s m') /\ outside h P (mem s) m' /\
    forall a, is_Some (phys_of P a) -> view h P m' a = written va l (view h P (mem s)) a.
Proof.
  induction l as [|v l IH]; intros va s Hs Hc Hl.
  - exists (mem s). split; [by destruct s|]. split; [apply outside_refl|]. intros a _. unfold written.
    change (blen []) with 0. destruct (Z.leb_spec va a), (Z.ltb_spec a (va + 0)); try done; lia.
  - apply Forall_cons_1 in Hl as [Hv Hl]. assert (blen (v :: l) = 1 + blen l) as E by (unfold blen; cbn; lia).
    pose proof (blen_nonneg l). destruct (Hc va ltac:(lia)) as [pa Hpa].
    set (m1 := put_byte (pa + h) v (mem s)). pose proof (put_byte_outside s h P va pa v (mem s) Hs Hpa) as Ho1.
    destruct (shared_set s h P m1 Hs Ho1) as [Hs1 _].
    destruct (IH (va + 1) (set_mem s m1) Hs1) as (m' & Hrun & Ho & Hview);
      [intros a Ha; apply Hc; lia|done|].
    exists m'. cbn [store_user_bytes]. rewrite (sbind_Ret _ _ _ _ _ (store_run s h P va pa v Hs Hpa)). fold m1.
    split; [exact Hrun|]. split; [by eapply outside_trans|].
    intros a Ha. rewrite Hview by done. unfold written. rewrite E. cbn [mem set_mem].
    unfold m1. rewrite (view_put s h P va pa v (mem s) a Hs Hpa Ha Hv).
    destruct (Z.eqb_spec a va) as [->|Hne].
    + rewrite (proj2 (Z.leb_gt (va + 1) va)), (proj2 (Z.leb_le va va)), (proj2 (Z.ltb_lt va (va + (1 + blen l)))) by lia.
      cbn [andb]. by rewrite Z.sub_diag.
    + destruct (Z.leb_spec (va + 1) a), (Z.leb_spec va a); cbn [andb]; try done; try lia.
      replace (va + 1 + blen l) with (va + (1 + blen l)) by lia.
      destruct (Z.ltb_spec a (va + (1 + blen l))); [|done].
      by replace (Z.to_nat (a - va)) with (S (Z.to_nat (a - (va + 1)))) by lia.
Qed.

Lemma load_bytes_run h P n : forall va (s : Vmm), shared s h P -> covered P va (Z.of_nat n) ->
  load_bytes va n s = Ret ((fun i => view h P (mem s) (va + Z.of_nat i)) <$> seq 0 n, s).
Proof.
  induction n as [|n IH]; intros va s Hs Hc; [done|]. cbn [load_bytes].
  destruct (Hc va ltac:(lia)) as [pa Hpa]. destruct (translate_run _ _ _ _ _ Hs Hpa) as [Hrun Hne].
  assert (load_user va s = Ret (view h P (mem s) va, s)) as Hload.
  { unfold load_user. rewrite (sbind_Ret _ _ _ _ _ Hrun), (proj2 (Z.eqb_neq _ _)) by done.
    rewrite (sbind_Ret _ _ _ _ _ (hhdm_base_run _ _ _ Hs)), (view_at _ _ _ _ _ Hpa). done. }
  rewrite (sbind_Ret _ _ _ _ _ Hload).
  assert (covered P (va + 1) (Z.of_nat n)) as Hc' by (intros a Ha; apply Hc; lia).
  rewrite (sbind_Ret _ _ _ _ _ (IH (va + 1) s Hs Hc')). unfold sret.
  cbn [seq fmap list_fmap]. rewrite Z.add_0_r. do 3 f_equal. rewrite <- fmap_S_seq, <- list_fmap_compose.
  apply list_fmap_ext. intros i x _. cbn. f_equal. lia.
Qed.

Lemma store_bytes_app l1 : forall l2 va (s : Vmm),
  store_user_bytes va (l1 ++ l2) s = sbind (store_user_bytes va l1) (fun _ => store_user_bytes (va + blen l1) l2) s.
Proof.
  induction l1 as [|v l1 IH]; intros l2 va s; cbn [app store_user_bytes].
  - unfold sbind, sret, blen. cbn [length]. by rewrite Z.add_0_r.
  - unfold sbind at 1 2 3. destruct (store_user va v s) as [[[] s1]| |]; try done. rewrite IH.
    unfold sbind, blen. cbn [length]. by replace (va + 1 + Z.of_nat (length l1)) with (va + Z.of_nat (S (length l1))) by lia.
Qed.

Lemma reset_loop addr n : forall i (s : Vmm),
  for_loop (R := Empty_set) n i (fun i _ => sbind (store32 (addr + 4 * i) 0) (fun _ => sret (Next tt))) tt s =
  sbind (store_user_bytes (addr + 4 * i) (replicate (n * 4) 0)) (fun _ => sret (Next tt)) s.
Proof.
  induction n as [|n IH]; intros i s; [done|]. cbn [for_loop].
  change (replicate (S n * 4) 0) with (to_le 4 0 ++ replicate (n * 4) 0).
  unfold store32 at 1. unfold sbind at 1 2 4. rewrite store_bytes_app. unfold sbind at 2.
  destruct (store_user_bytes (addr + 4 * i) (to_le 4 0) s) as [[[] s1]| |]; try done.
  unfold sret at 1. rewrite IH. unfold sbind. by replace (addr + 4 * (i + 1)) with (addr + 4 * i + blen (to_le 4 0)) by (change (blen (to_le 4 0)) with 4; lia).
Qed.

Lemma reset_page_run h P va (s : Vmm) : shared s h P -> covered P va PAGE_SIZE ->
  exists m', reset_page va s = Ret (tt, set_mem s m') /\ outside h P (mem s) m' /\
    forall a, is_Some (phys_of P a) -> view h P m' a = written va (zeros PAGE_SIZE) (view h P (mem s)) a.
Proof.
  intros Hs Hc. unfold reset_page, sbind at 1. rewrite reset_loop. rewrite Z.mul_0_r, Z.add_0_r.
  change (Z.to_nat (PAGE_SIZE / 4) * 4)%nat with (Z.to_nat PAGE_SIZE). fold (zeros PAGE_SIZE).
  destruct (store_bytes_run h P (zeros PAGE_SIZE) va s Hs) as (m' & Hrun & Hout & Hv);
    [by rewrite blen_zeros|apply zeros_bytes|].
  exists m'. by rewrite (sbind_Ret _ _ _ _ _ Hrun).
Qed.

(** *** A new page of a window *)

Lemma vpn_upper a b : upper (a / PAGE_SIZE) -> upper (b / PAGE_SIZE) ->
  vpn a = vpn b -> a / PAGE_SIZE = b / PAGE_SIZE.
Proof.
  unfold vpn, upper, PAGE_SIZE. rewrite !Z.land_ones, !Z.shiftr_div_pow2 by lia. lia.
Qed.

Lemma phys_of_insert P va f a : va mod PAGE_SIZE = 0 ->
  phys_of (<[va / PAGE_SIZE := f]> P) a =
    if a / PAGE_SIZE =? va / PAGE_SIZE then Some (f * PAGE_SIZE + (a - va)) else phys_of P a.
Proof.
  intros Hal. unfold phys_of. destruct (Z.eqb_spec (a / PAGE_SIZE) (va / PAGE_SIZE)) as [E|E].
  - rewrite E, lookup_insert_eq. cbn. f_equal. unfold PAGE_SIZE in *. lia.
  - by rewrite lookup_insert_ne.
Qed.

(** [s'] is [s] with the frame [f] mapped at the page [va]. *)
Record new_page (s s' : Vmm) (h : Z) (P : Pages) (va f : Z) : Prop := {
  np_shared : shared s' h (<[va / PAGE_SIZE := f]> P);
  np_new : fa_free (frames s) f;
  np_pml4 : pml4 s' = pml4 s;
  np_data : keeps_data s s' h;
  np_free : forall g, fa_free (frames s') g -> fa_free (frames s) g;
  np_view : forall a, is_Some (phys_of P a) ->
    view h (<[va / PAGE_SIZE := f]> P) (mem s') a = view h P (mem s) a;
  np_other : forall va', vpn va' <> vpn va ->
    evolves (trail (mem s) h (pml4 s) (path va')) (trail (mem s') h (pml4 s) (path va'));
}.

Definition KERNEL_FLAGS : Z := Z.lor PTE_PRESENT PTE_WRITABLE.

(** The translation of the page just mapped. *)
Lemma mapped_frame s s' h va f flags a :
  mapped s s' h va (Z.lor (Z.lor (Z.land (f * PAGE_SIZE) PTE_ADDR_MASK) PTE_PRESENT) flags) (has flags PTE_USER) ->
  Z.land flags PTE_ADDR_MASK = 0 -> 0 <= f < 2 ^ 40 -> upper (va / PAGE_SIZE) -> va mod PAGE_SIZE = 0 -> a / PAGE_SIZE = va / PAGE_SIZE ->
  decode (trail (mem s') h (pml4 s) (path a)) a = f * PAGE_SIZE + (a - va).
Proof.
  intros Hm Hfl Hf Hup Hal E. unfold upper in Hup.
  assert (0 <= f * PAGE_SIZE < 2 ^ 52) as Hpa by (unfold PAGE_SIZE; lia).
  assert (Z.land (f * PAGE_SIZE) (PAGE_SIZE - 1) = 0) as Hfal by (apply aligned_mask; unfold PAGE_SIZE; lia).
  destruct (leaf_entry_spec (f * PAGE_SIZE) flags) as (Hp & Hmask & _); [done..|].
  destruct (md_page _ _ _ _ _ _ Hm) as (es & Hes & Hlen & _).
  destruct (page_offset va (a - va)) as [Hvpn Hland]; [unfold PAGE_SIZE in *; lia|done|unfold PAGE_SIZE in *; lia|].
  replace (va + (a - va)) with a in Hvpn, Hland by lia. apply path_vpn in Hvpn. rewrite Hvpn, Hes.
  destruct es as [|x [|y [|z [|]]]]; try done. cbn [app decode].
  rewrite Hp, Hmask, Hland. apply lor_offset. unfold PAGE_SIZE in *; lia.
Qed.

Lemma map_page_spec (s : Vmm) h P va n :
  shared s h P -> upper (va / PAGE_SIZE) -> va mod PAGE_SIZE = 0 -> P !! (va / PAGE_SIZE) = None ->
  room (frames s) (4 + n) -> no_huge (trail (mem s) h (pml4 s) (path va)) ->
  exists f s', map_page va s = Ret (f * PAGE_SIZE, s') /\ new_page s s' h P va f /\ room (frames s') n.
Proof.
  intros Hsh Hup Hal Hnone Hroom Hnh. pose proof (sh_ok _ _ _ Hsh) as Hs.
  destruct (pmm_alloc_run s h (3 + n) Hs Hroom) as (f & p' & Ha & Hf & Hsmall & Hok' & Hroom' & Hfree).
  set (s0 := mkVmm p' (mem s) (hhdm s) (pml4 s) (flushed s)) in *.
  assert (vmm_ok s0 h) as Hs0 by (by eapply alloc_keeps_ok).
  assert (data_page s0 h f) as Hd0 by (by apply alloc_data_page).
  assert (keeps_data s s0 h) as Hk0.
  { intros g Hg. split; [|done]. split; [intros [? _]%Hfree; by apply (dp_used _ _ _ Hg)|apply Hg]. }
  assert (Z.land (f * PAGE_SIZE) (PAGE_SIZE - 1) = 0) as Hfal by (apply aligned_mask; unfold PAGE_SIZE; lia).
  destruct (map_spec s0 h va (f * PAGE_SIZE) KERNEL_FLAGS n Hs0 (aligned_mask va Hal) Hfal Hroom' Hnh)
    as (s2 & Hrun & Hm & Hr2).
  exists f, s2. split; [|split; [|done]].
  { unfold map_page. rewrite (sbind_Ret _ _ _ _ _ Ha).
    rewrite (proj2 (Z.eqb_neq _ _)) by apply frame_not_no_page. cbn [negb].
    by rewrite (sbind_Ret _ _ _ _ _ Hrun). }
  assert (keeps_data s s2 h) as Hk by (by eapply keeps_data_trans; [|apply Hm]).
  assert (forall g, fa_free (frames s2) g -> fa_free (frames s) g) as Hfr.
  { intros g Hg. apply (md_free _ _ _ _ _ _ Hm) in Hg. by apply Hfree in Hg as [? _]. }
  assert (forall va', vpn va' <> vpn va ->
    evolves (trail (mem s) h (pml4 s) (path va')) (trail (mem s2) h (pml4 s) (path va'))) as Hother.
  { intros va' Hv. apply (md_other _ _ _ _ _ _ Hm); [apply path_path_ok|done|by rewrite path_vpn]. }
  assert (forall p g, P !! p = Some g -> g <> f) as Hne.
  { intros p g Hg ->. destruct (sh_frame _ _ _ Hsh _ _ Hg) as (_ & _ & Hd). by apply (dp_used _ _ _ Hd). }
  constructor; try done.
  - constructor.
    + apply Hm.
    + apply Hsh.
    + intros p q g. destruct (decide (p = va / PAGE_SIZE)) as [->|Hp], (decide (q = va / PAGE_SIZE)) as [->|Hq];
        rewrite ?lookup_insert_eq, ?lookup_insert_ne by done; try done.
      * intros [= <-] Hg. by destruct (Hne _ _ Hg).
      * intros Hg [= <-]. by destruct (Hne _ _ Hg).
      * apply (sh_inj _ _ _ Hsh).
    + intros p g. destruct (decide (p = va / PAGE_SIZE)) as [->|Hp].
      * rewrite lookup_insert_eq. intros [= <-]. split; [done|]. split; [done|]. by apply (md_data _ _ _ _ _ _ Hm).
      * rewrite lookup_insert_ne by done. intros Hg. destruct (sh_frame _ _ _ Hsh _ _ Hg) as (? & ? & Hd).
        split; [done|]. split; [done|]. by apply Hk.
    + intros a pa. rewrite phys_of_insert by done. unfold translates. rewrite (md_pml4 _ _ _ _ _ _ Hm).
      destruct (Z.eqb_spec (a / PAGE_SIZE) (va / PAGE_SIZE)) as [E|E].
      * intros [= <-]. apply (mapped_frame s0 s2 h va f KERNEL_FLAGS); [done|done|apply Hsmall|done|done|done].
      * intros Hpa. assert (is_Some (P !! (a / PAGE_SIZE))) as [g Hg] by
          (apply phys_of_Some in Hpa as (g & ? & _); eauto).
        destruct (sh_frame _ _ _ Hsh _ _ Hg) as (Hu & _). cbn [pml4 s0].
        destruct (Hother a) as (-> & _); [by intros Hv%vpn_upper|]. by apply (sh_map _ _ _ Hsh).
  - by rewrite (md_pml4 _ _ _ _ _ _ Hm).
  - intros a [pa Hpa]. apply phys_of_Some in Hpa as Hpa'. destruct Hpa' as (g & Hg & Epa).
    assert (a / PAGE_SIZE <> va / PAGE_SIZE) as E by (intros E; by rewrite E, Hnone in Hg).
    rewrite (view_at _ P _ _ _ Hpa). rewrite (view_at _ _ _ _ pa); [|rewrite phys_of_insert by done; by rewrite (proj2 (Z.eqb_neq _ _))].
    destruct (sh_frame _ _ _ Hsh _ _ Hg) as (_ & _ & Hd). destruct (Hk g Hd) as [_ Hsame]. rewrite Epa.
    pose proof (ok_h _ _ Hs). apply byte_at_page; [done|apply Hsh|unfold PAGE_SIZE; lia|done].
Qed.
End Windows.
