(* ===== verification/Ahci.v ===== *)
(** * The AHCI driver ([src/src/ahci.rs])

    The driver fills a command header, a command table and a scatter list in
    memory it shares with the controller, rings a register, and polls. Registers
    are reached through the page tables; what lies behind them is the class [Hba]:
    a controller that answers register accesses and may write memory whenever it
    is touched. [HbaLaws] states what the AHCI and ATA documents promise of it.

    The operations come first, then the controller's view of the command in
    memory ([fetch]) and its promises. *)

From S2P Require Import Prelude Block Pmm Vmm UserMem Dma.
From stdpp Require Import list.
#[local] Open Scope Z_scope.

Definition AHCI_PCMD_ST : Z := Z.shiftl 1 0.
Definition AHCI_PCMD_FRE : Z := Z.shiftl 1 4.
Definition AHCI_PCMD_CR : Z := Z.shiftl 1 15.
Definition AHCI_GHC_AE : Z := Z.shiftl 1 31.
Definition AHCI_PCMD_FR : Z := Z.shiftl 1 14.
Definition AHCI_CL_CFL_5 : Z := 5.
Definition AHCI_CL_CBR : Z := Z.shiftl 1 10.

Definition AHCI_PORT_MAX : Z := 32.

Definition AHCI_WINDOW_BASE : Z := 0xFFFFC00000000000.
Definition AHCI_WINDOW_SIZE : Z := 0x3000.
Definition AHCI_CL_OFF : Z := 0x0000.
Definition AHCI_FB_OFF : Z := 0x1000.
Definition AHCI_CT_OFF : Z := 0x2000.
Definition AHCI_PAGE_SIZE : Z := 0x1000.

Definition AHCI_DMA_PAGES : Z := 64.
Definition AHCI_DMA_BASE : Z := 0xFFFFC10000000000.
Definition AHCI_MAX_TRANSFER : Z := AHCI_DMA_PAGES * 0x1000.

Definition AHCI_CR_SPINS : positive := 1000000.
Definition AHCI_FR_SPINS : positive := 1000000.
Definition AHCI_SECTOR_SIZE : Z := 512.
Definition AHCI_SECTOR_MAX : Z := AHCI_MAX_TRANSFER / AHCI_SECTOR_SIZE.

Definition AHCI_FIS_TYPE_REG_H2D : Z := 0x27.
Definition AHCI_CMD_READ_DMA_EXT : Z := 0x25.
Definition AHCI_CMD_WRITE_DMA_EXT : Z := 0x35.
Definition AHCI_CMD_IDENTIFY_DEVICE : Z := 0xEC.
Definition AHCI_CMD_FLUSH_CACHE_EXT : Z := 0xEA.

Definition AHCI_TFD_BSY : Z := Z.shiftl 1 7.
Definition AHCI_TFD_DRQ : Z := Z.shiftl 1 3.
Definition AHCI_PXIS_TFES : Z := Z.shiftl 1 30.
Definition AHCI_XFER_SPINS : positive := 20000000.

(** Offsets of [AhciHbaMem], [AhciPort], [AhciCmdHeader], [AhciFisRegH2d] and
    [AhciPrdtEntry]. *)
Module Reg.
Definition ghc : Z := 0x04.
Definition ports : Z := 0x100.
Definition port_size : Z := 0x80.
Definition clb : Z := 0x00.
Definition fb : Z := 0x08.
Definition pxis : Z := 0x10.
Definition cmd : Z := 0x18.
Definition tfd : Z := 0x20.
Definition serr : Z := 0x30.
Definition ci : Z := 0x38.
End Reg.

Module Hdr.
Definition flags : Z := 0.
Definition prdtl : Z := 2.
Definition prdbc : Z := 4.
Definition ctba : Z := 8.
Definition ctbau : Z := 12.
End Hdr.

Module Fis.
Definition size : Z := 20.
Definition fis_type : Z := 0.
Definition flags : Z := 1.
Definition command : Z := 2.
Definition lba0 : Z := 4.
Definition lba1 : Z := 5.
Definition lba2 : Z := 6.
Definition device_ : Z := 7.
Definition lba3 : Z := 8.
Definition lba4 : Z := 9.
Definition lba5 : Z := 10.
Definition countl : Z := 12.
Definition counth : Z := 13.
End Fis.

Module Prdt.
Definition off : Z := 0x80.
Definition size : Z := 16.
Definition dba : Z := 0.
Definition dbau : Z := 4.
Definition reserved : Z := 8.
Definition dbc : Z := 12.
End Prdt.

(** ** Polling

    [for _ in 0..n] whose body may [break] with a value. The bound is a binary
    number, so that a loop that breaks early is cheap to evaluate. *)
Section Spin.
Context {S R : Type} (body : M S (option R)).

Definition or_else (m k : M S (option R)) : M S (option R) :=
  r <- m ;;
  match r with
  | Some x => sret (Some x)
  | None => k
  end.

Fixpoint spin (p : positive) : M S (option R) :=
  match p with
  | xH => body
  | xO p => or_else (spin p) (spin p)
  | xI p => or_else body (or_else (spin p) (spin p))
  end.

(** The same, counted in unary. *)
Fixpoint tries (n : nat) : M S (option R) :=
  match n with
  | O => sret None
  | Datatypes.S n => or_else body (tries n)
  end.
End Spin.

(** ** The controller *)

(** [bus_read h a] and [bus_write h a n v] access the register at the physical
    address [a] ([n] bytes wide) of a machine whose memory is seen at [h]. *)
Class Hba (H : Type) := {
  bus_read : Z -> Z -> H * gmap Z Z -> Z * (H * gmap Z Z);
  bus_write : Z -> Z -> nat -> Z -> H * gmap Z Z -> H * gmap Z Z;
}.

Record AhciDevice := mkDevice {
  dev_present : bool;
  dev_hba : Z;
  dev_port : Z;
  dev_sectors : Z;
  dev_lba48 : bool;
}.

Definition EMPTY_DEVICE : AhciDevice := mkDevice false 0 0 0 false.

Section Driver.
Context {PA : Type} `{FA : FrameAllocator PA} {H : Type} `{HB : Hba H}.
Abbreviation Vmm := (Vmm PA).

(** The kernel's memory, the hardware, and the statics of the driver. *)
Record Ahci := mkAhci {
  vm : Vmm;
  hw : H;
  AHCI_DEVICES : list AhciDevice;
  AHCI_DEVICE_COUNT : Z;
  AHCI_DMA_READY : bool;
  AHCI_DMA_PHYS : list Z;
}.

Definition set_vm (s : Ahci) (v : Vmm) : Ahci :=
  mkAhci v (hw s) (AHCI_DEVICES s) (AHCI_DEVICE_COUNT s) (AHCI_DMA_READY s) (AHCI_DMA_PHYS s).

Definition set_world (s : Ahci) (w : H * gmap Z Z) : Ahci :=
  mkAhci (set_mem (vm s) (snd w)) (fst w) (AHCI_DEVICES s) (AHCI_DEVICE_COUNT s)
    (AHCI_DMA_READY s) (AHCI_DMA_PHYS s).

Definition in_vm {A} (m : M Vmm A) : M Ahci A := fun s =>
  match m (vm s) with
  | Ret (a, v) => Ret (a, set_vm s v)
  | Panic => Panic
  | OutOfFuel => OutOfFuel
  end.

(** A register access: the processor translates the address, and a page that is
    not there is a page fault. *)
Definition mmio_read (va : Z) : M Ahci Z :=
  pa <- in_vm (vmm_virt_to_phys va) ;;
  if pa =? VMM_NO_PHYS then spanic else
  h <- in_vm hhdm_base ;;
  fun s => let '(v, w) := bus_read h pa (hw s, mem (vm s)) in Ret (v, set_world s w).

Definition mmio_write (va : Z) (n : nat) (v : Z) : M Ahci unit :=
  pa <- in_vm (vmm_virt_to_phys va) ;;
  if pa =? VMM_NO_PHYS then spanic else
  h <- in_vm hhdm_base ;;
  fun s => Ret (tt, set_world s (bus_write h pa n v (hw s, mem (vm s)))).

(** The address of the register [reg] of [ports[port]]. *)
Definition port_reg (hba port reg : Z) : Z := hba + Reg.ports + port * Reg.port_size + reg.

Definition dma_virt : Z := AHCI_DMA_BASE.

Definition dma_window_init : M Ahci unit :=
  s <- sget ;;
  if AHCI_DMA_READY s then sret tt else
  _ <- for_loop (R := Empty_set) (Z.to_nat AHCI_DMA_PAGES) 0 (fun i _ =>
         physical <- in_vm (map_page (AHCI_DMA_BASE + i * AHCI_PAGE_SIZE)) ;;
         if physical =? PMM_NO_PAGE then spanic else
         s <- sget ;;
         phys <-! set_word (AHCI_DMA_PHYS s) i physical ;;
         _ <- sput (mkAhci (vm s) (hw s) (AHCI_DEVICES s) (AHCI_DEVICE_COUNT s) (AHCI_DMA_READY s) phys) ;;
         sret (Next tt)) tt ;;
  smodify (fun s => mkAhci (vm s) (hw s) (AHCI_DEVICES s) (AHCI_DEVICE_COUNT s) true (AHCI_DMA_PHYS s)).

(** *** Building a command *)

Definition write_header (command_list prdtl : Z) : M Vmm unit :=
  _ <- store16 (command_list + Hdr.flags) (Z.lor AHCI_CL_CFL_5 AHCI_CL_CBR) ;;
  _ <- store16 (command_list + Hdr.prdtl) (wrap 16 prdtl) ;;
  store32 (command_list + Hdr.prdbc) 0.

Definition write_prdt (command_table len : Z) (phys : list Z) (prdtl : Z) : M Vmm unit :=
  let prdt := command_table + Prdt.off in
  _ <- for_loop (R := Empty_set) (Z.to_nat prdtl) 0 (fun i _ =>
         let entry := prdt + Prdt.size * i in
         p <-! word_at phys i ;;
         _ <- store32 (entry + Prdt.dba) (wrap 32 p) ;;
         _ <- store32 (entry + Prdt.dbau) (wrap 32 (Z.shiftr p 32)) ;;
         _ <- store32 (entry + Prdt.reserved) 0 ;;
         remaining <-! chk 64 (len - i * AHCI_PAGE_SIZE) ;;
         let bytes := if AHCI_PAGE_SIZE <? remaining then AHCI_PAGE_SIZE else remaining in
         n <-! chk 64 (bytes - 1) ;;
         _ <- store32 (entry + Prdt.dbc) (wrap 32 n) ;;
         sret (Next tt)) tt ;;
  sret tt.

Definition write_fis (fis command lba sectors : Z) : M Vmm unit :=
  _ <- store_user_bytes fis (zeros Fis.size) ;;
  _ <- store8 (fis + Fis.fis_type) AHCI_FIS_TYPE_REG_H2D ;;
  _ <- store8 (fis + Fis.flags) (Z.shiftl 1 7) ;;
  _ <- store8 (fis + Fis.command) command ;;
  _ <- store8 (fis + Fis.lba0) (wrap 8 lba) ;;
  _ <- store8 (fis + Fis.lba1) (wrap 8 (Z.shiftr lba 8)) ;;
  _ <- store8 (fis + Fis.lba2) (wrap 8 (Z.shiftr lba 16)) ;;
  _ <- store8 (fis + Fis.lba3) (wrap 8 (Z.shiftr lba 24)) ;;
  _ <- store8 (fis + Fis.lba4) (wrap 8 (Z.shiftr lba 32)) ;;
  _ <- store8 (fis + Fis.lba5) (wrap 8 (Z.shiftr lba 40)) ;;
  _ <- store8 (fis + Fis.device_) (Z.shiftl 1 6) ;;
  _ <- store8 (fis + Fis.countl) (wrap 8 sectors) ;;
  store8 (fis + Fis.counth) (wrap 8 (Z.shiftr sectors 8)).

(** The header, the scatter list and the FIS of one command. *)
Definition build_command (command_list command_table len : Z) (phys : list Z) (command lba : Z) : M Vmm unit :=
  let prdtl := (len + AHCI_PAGE_SIZE - 1) / AHCI_PAGE_SIZE in
  _ <- write_header command_list prdtl ;;
  _ <- write_prdt command_table len phys prdtl ;;
  write_fis command_table command lba (len / AHCI_SECTOR_SIZE).

(** *** Running it *)

(** The loop that waits for the port, and the one that waits for the command. *)
Definition port_ready (port : Z -> Z) : M Ahci (option unit) :=
  tfd <- mmio_read (port Reg.tfd) ;;
  sret (if Z.land tfd (Z.lor AHCI_TFD_BSY AHCI_TFD_DRQ) =? 0 then Some tt else None).

Definition slot_done (port : Z -> Z) : M Ahci (option unit) :=
  current_ci <- mmio_read (port Reg.ci) ;;
  sret (if Z.land current_ci 1 =? 0 then Some tt else None).

(** Ring the doorbell of slot 0, wait for the command, and read how it went. *)
Definition run_command (port : Z -> Z) : M Ahci bool :=
  _ <- mmio_write (port Reg.ci) 4 1 ;;
  completed <- spin (slot_done port) AHCI_XFER_SPINS ;;
  if negb (bool_decide (is_Some completed)) then sret false else
  status <- mmio_read (port Reg.pxis) ;;
  tfd <- mmio_read (port Reg.tfd) ;;
  sret ((Z.land status AHCI_PXIS_TFES =? 0) && (Z.land tfd 1 =? 0)).

(** [buf] is the caller's buffer, [None] when it is the staging window itself.
    The answer is [None] for [false]; for [true] it carries the bytes that were
    copied into the caller's buffer, if any were. *)
Definition xfer (device : AhciDevice) (command lba : Z) (buf : option (list Z)) (len : Z)
    (to_disk : bool) : M Ahci (option (list Z)) :=
  if (len =? 0) || negb (len mod AHCI_SECTOR_SIZE =? 0) || (AHCI_MAX_TRANSFER <? len) then sret None else
  let sectors := len / AHCI_SECTOR_SIZE in
  if AHCI_SECTOR_MAX <? sectors then sret None else
  if AHCI_PORT_MAX <=? dev_port device then spanic else
  let port := port_reg (dev_hba device) (dev_port device) in
  let dma := dma_virt in
  _ <- in_vm (reset_page dma) ;;
  _ <- (match buf with
        | Some l => if to_disk then in_vm (store_user_bytes dma (take (Z.to_nat len) l)) else sret tt
        | None => sret tt
        end) ;;
  let window := AHCI_WINDOW_BASE + dev_port device * AHCI_WINDOW_SIZE in
  let command_list := window + AHCI_CL_OFF in
  let command_table := window + AHCI_CT_OFF in
  ready <- spin (port_ready port) AHCI_XFER_SPINS ;;
  if negb (bool_decide (is_Some ready)) then sret None else
  ci <- mmio_read (port Reg.ci) ;;
  if negb (Z.land ci 1 =? 0) then sret None else
  _ <- mmio_write (port Reg.pxis) 4 0xFFFFFFFF ;;
  _ <- mmio_write (port Reg.serr) 4 0xFFFFFFFF ;;
  s <- sget ;;
  _ <- in_vm (build_command command_list command_table len (AHCI_DMA_PHYS s) command lba) ;;
  ok <- run_command port ;;
  if negb ok then sret None else
  match buf with
  | Some _ =>
      if to_disk then sret (Some []) else
      l <- in_vm (load_bytes dma (Z.to_nat len)) ;;
      sret (Some l)
  | None => sret (Some [])
  end.

(** [(ident[i * 2 + 1] as u16) << 8 | ident[i * 2] as u16] *)
Definition word (ident : list Z) (i : Z) : outcome Z :=
  let! hi := get8 ident (i * 2 + 1) in
  let! lo := get8 ident (i * 2) in
  Ret (Z.lor (Z.shiftl hi 8) lo).

Definition ident_sectors (ident : list Z) : outcome (Z * bool) :=
  let! w83 := word ident 83 in
  let lba48 := negb (Z.land w83 (Z.shiftl 1 10) =? 0) in
  if lba48 then
    let! w100 := word ident 100 in
    let! w101 := word ident 101 in
    let! w102 := word ident 102 in
    let! w103 := word ident 103 in
    Ret (Z.lor (Z.lor (Z.lor w100 (Z.shiftl w101 16)) (Z.shiftl w102 32)) (Z.shiftl w103 48), true)
  else
    let! w60 := word ident 60 in
    let! w61 := word ident 61 in
    Ret (Z.lor w60 (Z.shiftl w61 16), false).

Definition identify (hba port_num : Z) : M Ahci (option (Z * bool)) :=
  let device := mkDevice true hba port_num 0 false in
  r <- xfer device AHCI_CMD_IDENTIFY_DEVICE 0 None AHCI_SECTOR_SIZE false ;;
  match r with
  | None => sret None
  | Some _ =>
      ident <- in_vm (load_bytes dma_virt 512) ;;
      '(sectors, lba48) <-! ident_sectors ident ;;
      sret (if sectors =? 0 then None else Some (sectors, lba48))
  end.

(** *** Bringing up a port *)

Definition cmd_clear (port : Z -> Z) (bit : Z) : M Ahci (option unit) :=
  cmd <- mmio_read (port Reg.cmd) ;;
  sret (if Z.land cmd bit =? 0 then Some tt else None).

Definition cmd_and (port : Z -> Z) (mask : Z) : M Ahci unit :=
  cmd <- mmio_read (port Reg.cmd) ;;
  mmio_write (port Reg.cmd) 4 (Z.land cmd mask).

Definition cmd_or (port : Z -> Z) (bits : Z) : M Ahci unit :=
  cmd <- mmio_read (port Reg.cmd) ;;
  mmio_write (port Reg.cmd) 4 (Z.lor cmd bits).

(** Waiting for a bit of [PxCMD]: the loop, and the test after it. *)
Definition wait_clear (port : Z -> Z) (bit : Z) (spins : positive) : M Ahci unit :=
  _ <- spin (cmd_clear port bit) spins ;;
  cmd <- mmio_read (port Reg.cmd) ;;
  if negb (Z.land cmd bit =? 0) then spanic else sret tt.

Definition init_header (window ct_phys : Z) : M Vmm unit :=
  let header := window + AHCI_CL_OFF in
  _ <- store16 (header + Hdr.flags) (Z.lor AHCI_CL_CFL_5 AHCI_CL_CBR) ;;
  _ <- store16 (header + Hdr.prdtl) 0 ;;
  _ <- store32 (header + Hdr.prdbc) 0 ;;
  _ <- store32 (header + Hdr.ctba) (wrap 32 (Z.land ct_phys 0xFFFFFFFF)) ;;
  store32 (header + Hdr.ctbau) (wrap 32 (Z.shiftr ct_phys 32)).

Definition register (hba port_num sectors : Z) (lba48 : bool) : M Ahci unit :=
  s <- sget ;;
  let n := AHCI_DEVICE_COUNT s in
  if (0 <=? n) && (n <? Z.of_nat (length (AHCI_DEVICES s))) then
    n' <-! chk 64 (n + 1) ;;
    sput (mkAhci (vm s) (hw s)
            (<[Z.to_nat n := mkDevice true hba port_num sectors lba48]> (AHCI_DEVICES s)) n'
            (AHCI_DMA_READY s) (AHCI_DMA_PHYS s))
  else spanic.

(** The engines of a port are stopped, its status cleared. *)
Definition port_stop (hba port_num : Z) : M Ahci unit :=
  let port := port_reg hba port_num in
  ghc <- mmio_read (hba + Reg.ghc) ;;
  _ <- mmio_write (hba + Reg.ghc) 4 (Z.lor ghc AHCI_GHC_AE) ;;
  _ <- cmd_and port (unot 32 AHCI_PCMD_FRE) ;;
  _ <- cmd_and port (unot 32 AHCI_PCMD_ST) ;;
  _ <- wait_clear port AHCI_PCMD_CR AHCI_CR_SPINS ;;
  _ <- wait_clear port AHCI_PCMD_FR AHCI_FR_SPINS ;;
  _ <- mmio_write (port Reg.pxis) 4 0xFFFFFFFF ;;
  mmio_write (port Reg.serr) 4 0xFFFFFFFF.

(** The windows of a port: cleared, with the header pointing to the table. *)
Definition port_windows (window ct_phys : Z) : M Vmm unit :=
  _ <- reset_page (window + AHCI_CL_OFF) ;;
  _ <- reset_page (window + AHCI_FB_OFF) ;;
  _ <- reset_page (window + AHCI_CT_OFF) ;;
  init_header window ct_phys.

(** The port is told its areas and started. *)
Definition port_start (hba port_num cl_phys fb_phys : Z) : M Ahci unit :=
  let port := port_reg hba port_num in
  _ <- mmio_write (port Reg.clb) 8 cl_phys ;;
  _ <- mmio_write (port Reg.fb) 8 fb_phys ;;
  _ <- cmd_or port AHCI_PCMD_FRE ;;
  cmd_or port AHCI_PCMD_ST.

(** Up to the start of the command engine; [false] when memory ran out. *)
Definition port_up (hba port_num : Z) : M Ahci bool :=
  let window := AHCI_WINDOW_BASE + port_num * AHCI_WINDOW_SIZE in
  _ <- port_stop hba port_num ;;
  cl_phys <- in_vm (map_page (window + AHCI_CL_OFF)) ;;
  fb_phys <- in_vm (map_page (window + AHCI_FB_OFF)) ;;
  ct_phys <- in_vm (map_page (window + AHCI_CT_OFF)) ;;
  if (cl_phys =? PMM_NO_PAGE) || (fb_phys =? PMM_NO_PAGE) || (ct_phys =? PMM_NO_PAGE) then sret false else
  _ <- in_vm (port_windows window ct_phys) ;;
  _ <- port_start hba port_num cl_phys fb_phys ;;
  sret true.

Definition init (hba port_num : Z) : M Ahci unit :=
  if AHCI_PORT_MAX <=? port_num then sret tt else
  _ <- dma_window_init ;;
  up <- port_up hba port_num ;;
  if negb up then sret tt else
  id <- identify hba port_num ;;
  match id with
  | Some (sectors, lba48) => register hba port_num sectors lba48
  | None => sret tt
  end.

(** *** The disks *)

Definition disk_count (s : Ahci) : Z := AHCI_DEVICE_COUNT s.

(** [AHCI_DEVICES[disk]] *)
Definition device_at (s : Ahci) (disk : Z) : outcome AhciDevice :=
  if disk <? 0 then Panic else
  match AHCI_DEVICES s !! Z.to_nat disk with
  | Some d => Ret d
  | None => Panic
  end.

Definition disk_sectors (s : Ahci) (disk : Z) : outcome Z :=
  if AHCI_DEVICE_COUNT s <=? disk then Ret 0 else
  let! d := device_at s disk in Ret (dev_sectors d).

Definition device (s : Ahci) (disk : Z) : outcome (option AhciDevice) :=
  if AHCI_DEVICE_COUNT s <=? disk then Ret None else
  let! d := device_at s disk in
  Ret (if negb (dev_present d) then None else Some d).

(** [lba >= 1 << 48 || lba + len / 512 > dev.sectors] *)
Definition out_of_range (dev : AhciDevice) (lba len : Z) : outcome bool :=
  if 2 ^ 48 <=? lba then Ret true else
  let! last := chk 64 (lba + len / AHCI_SECTOR_SIZE) in
  Ret (dev_sectors dev <? last).

(** The buffer of [read] is known by its length; the answer carries its new
    contents. *)
Definition read (disk lba len : Z) : M Ahci (option (list Z)) :=
  s <- sget ;;
  d <-! device s disk ;;
  match d with
  | None => sret None
  | Some dev =>
      bad <-! out_of_range dev lba len ;;
      if bad : bool then sret None else
      xfer dev AHCI_CMD_READ_DMA_EXT lba (Some (zeros len)) len false
  end.

Definition write (disk lba : Z) (buffer : list Z) : M Ahci bool :=
  s <- sget ;;
  d <-! device s disk ;;
  match d with
  | None => sret false
  | Some dev =>
      bad <-! out_of_range dev lba (blen buffer) ;;
      if bad : bool then sret false else
      r <- xfer dev AHCI_CMD_WRITE_DMA_EXT lba (Some buffer) (blen buffer) true ;;
      sret (bool_decide (is_Some r))
  end.

Definition flush (disk : Z) : M Ahci bool :=
  s <- sget ;;
  d <-! device s disk ;;
  match d with
  | None => sret false
  | Some dev =>
      r <- xfer dev AHCI_CMD_FLUSH_CACHE_EXT 0 None AHCI_SECTOR_SIZE false ;;
      sret (bool_decide (is_Some r))
  end.
End Driver.
