(* ===== verification/AhciHw.v ===== *)
(** * What an AHCI controller does with a command

    The controller's half of [src/src/ahci.rs]: how it reads the command the
    driver left in memory ([fetch]), where it takes and leaves the data
    ([gather], [scatter]), and its promises as the class [HbaLaws], after the
    AHCI 1.3.1 (sections 3.3, 4.2, 5.5) and ATA documents. A controller takes the
    direction of a transfer from the ATA command, and finishes a command within
    the number of polls the driver is willing to make. [ram_laws] is a
    controller with drives in memory that keeps the promises. *)

From S2P Require Import Prelude Block Pmm Vmm UserMem Dma Ahci.
From stdpp Require Import list.
#[local] Open Scope Z_scope.

(** ** Physical memory as the controller sees it *)

Definition bytes (h : Z) (m : gmap Z Z) (pa : Z) (n : nat) : list Z :=
  (fun i => byte_at m (pa + Z.of_nat i + h)) <$> seq 0 n.

Definition le_at (h : Z) (m : gmap Z Z) (pa : Z) (n : nat) : Z := from_le (bytes h m pa n).

Record Command := mkCommand {
  c_op : Z;
  c_lba : Z;
  c_count : Z;
  c_prd : list (Z * Z);
}.

(** One entry of the scatter list: address and number of bytes. *)
Definition prd_entry (h : Z) (m : gmap Z Z) (a : Z) : Z * Z :=
  (le_at h m a 8, le_at h m (a + 12) 4 mod 2 ^ 22 + 1).

Fixpoint prd_table (h : Z) (m : gmap Z Z) (a : Z) (n : nat) : list (Z * Z) :=
  match n with
  | O => []
  | S n => prd_entry h m a :: prd_table h m (a + 16) n
  end.

(** The command of slot 0 of the command list at [clb]. *)
Definition fetch (h : Z) (m : gmap Z Z) (clb : Z) : Command :=
  let ct := le_at h m (clb + 8) 8 in
  mkCommand (le_at h m (ct + 2) 1)
    (le_at h m (ct + 4) 3 + 2 ^ 24 * le_at h m (ct + 8) 3)
    (le_at h m (ct + 12) 2)
    (prd_table h m (ct + 0x80) (Z.to_nat (le_at h m (clb + 2) 2))).

Definition gather (h : Z) (m : gmap Z Z) (prd : list (Z * Z)) : list Z :=
  concat ((fun e => bytes h m e.1 (Z.to_nat e.2)) <$> prd).

Fixpoint scatter (h : Z) (prd : list (Z * Z)) (data : list Z) (m : gmap Z Z) : gmap Z Z :=
  match prd with
  | [] => m
  | (a, n) :: prd =>
      scatter h prd (drop (Z.to_nat n) data) (put_bytes (a + h) (take (Z.to_nat n) data) m)
  end.

(** The word at [a] holds a byte of a buffer of the list. *)
Definition touches (h : Z) (prd : list (Z * Z)) (a : Z) : Prop :=
  exists b n k, (b, n) ∈ prd /\ 0 <= k < n /\ a = (b + k + h) / 8 * 8.

(** ** The promises *)

(** What is visible of the hardware: whether no command is outstanding, the
    controllers and the ports with a drive (by the addresses of their registers),
    the contents and the identity of a drive, the command list and the FIS receive
    area of a port, a command in flight, issued in an earlier world, that will show as done after at most a
    number of polls, and one that has just shown as done; a port that is stopping,
    whose two engines will show as idle after a number of reads each; the two
    run bits of a port as last written. *)
Class HbaView (H : Type) := {
  hb_idle : H -> Prop;
  hb_ctrl : H -> Z -> Prop;
  hb_port : H -> Z -> Prop;
  hb_image : H -> Z -> list Z;
  hb_ident : H -> Z -> list Z;
  hb_clb : H -> Z -> Z;
  hb_fb : H -> Z -> Z;
  hb_busy : Z -> Z -> H * gmap Z Z -> nat -> H * gmap Z Z -> Prop;
  hb_done : Z -> Z -> H * gmap Z Z -> H * gmap Z Z -> Prop;
  hb_stopping : H -> Z -> nat -> nat -> Prop;
  hb_run : H -> Z -> Z;
}.

Definition RUN_BITS : Z := Z.lor AHCI_PCMD_ST AHCI_PCMD_FRE.

(** A command the driver may issue to a drive with the contents [img]. *)
Definition hb_legal (img : list Z) (c : Command) : Prop :=
  0 <= c_lba c /\ 0 < c_count c /\ foldr (fun e n => e.2 + n) 0 (c_prd c) = 512 * c_count c /\
  Forall (fun e => 0 < e.2) (c_prd c) /\
  (c_op c = AHCI_CMD_READ_DMA_EXT \/ c_op c = AHCI_CMD_WRITE_DMA_EXT ->
     512 * (c_lba c + c_count c) <= blen img) /\
  c_op c ∈ [AHCI_CMD_READ_DMA_EXT; AHCI_CMD_WRITE_DMA_EXT; AHCI_CMD_IDENTIFY_DEVICE; AHCI_CMD_FLUSH_CACHE_EXT].

Section View.
Context {H : Type} `{HV : HbaView H}.

(** The same controllers, ports and drives. *)
Definition hb_same (x x' : H) : Prop :=
  (forall a, hb_ctrl x' a <-> hb_ctrl x a) /\
  forall q, (hb_port x' q <-> hb_port x q) /\ hb_image x' q = hb_image x q.

Definition hb_kept (x x' : H) : Prop :=
  hb_same x x' /\ forall q, hb_clb x' q = hb_clb x q /\ hb_fb x' q = hb_fb x q.

(** Words the controller writes for its own purposes: the status of a finished
    command in its header and the FISes it receives. *)
Definition hb_scratch (x : H) (h pb a : Z) : Prop :=
  a = hb_clb x pb + h \/ hb_fb x pb + h <= a < hb_fb x pb + 256 + h.

(** The data a command brings in. *)
Definition hb_answer (x : H) (pb : Z) (c : Command) : list Z :=
  if c_op c =? AHCI_CMD_READ_DMA_EXT then
    take (Z.to_nat (512 * c_count c)) (drop (Z.to_nat (512 * c_lba c)) (hb_image x pb))
  else if c_op c =? AHCI_CMD_IDENTIFY_DEVICE then hb_ident x pb else [].

(** The command [c] of port [pb], issued in the world [o], has finished: well, or
    with an error. *)
Definition hb_effect (ok : bool) (h pb : Z) (o w : H * gmap Z Z) (c : Command) : Prop :=
  (forall a, hb_ctrl w.1 a <-> hb_ctrl o.1 a) /\
  (forall q, (hb_port w.1 q <-> hb_port o.1 q) /\ hb_clb w.1 q = hb_clb o.1 q /\ hb_fb w.1 q = hb_fb o.1 q) /\
  (forall q, q <> pb -> hb_image w.1 q = hb_image o.1 q) /\
  if c_op c =? AHCI_CMD_WRITE_DMA_EXT then
    (forall a, ~ hb_scratch o.1 h pb a -> rd w.2 a = rd o.2 a) /\
    if ok then splice (hb_image o.1 pb) (512 * c_lba c) (gather h o.2 (c_prd c)) = Ret (hb_image w.1 pb)
    else same_outside (hb_image o.1 pb) (hb_image w.1 pb) (512 * c_lba c) (512 * c_lba c + 512 * c_count c)
  else
    hb_image w.1 pb = hb_image o.1 pb /\
    if ok then forall a, ~ hb_scratch o.1 h pb a -> rd w.2 a = rd (scatter h (c_prd c) (hb_answer o.1 pb c) o.2) a
    else forall a, ~ touches h (c_prd c) a -> ~ hb_scratch o.1 h pb a -> rd w.2 a = rd o.2 a.

(** Memory while the command [c], issued in [o], has not been reported: the
    controller writes to the buffers of the command and its own areas only. *)
Definition hb_flight (h pb : Z) (o : H * gmap Z Z) (m : gmap Z Z) (c : Command) : Prop :=
  forall a, ~ touches h (c_prd c) a -> ~ hb_scratch o.1 h pb a -> rd m a = rd o.2 a.
End View.

Class HbaLaws (H : Type) `{HB : Hba H} `{HV : HbaView H} := {
  hb_bytes : forall x pb, hb_port x pb -> bytes_ok (hb_image x pb);
  (** words 60, 61, 83 and 100 to 103 of the identity give the capacity *)
  hb_identity : forall x pb, hb_port x pb ->
    blen (hb_ident x pb) = 512 /\ bytes_ok (hb_ident x pb) /\
    exists n b, blen (hb_image x pb) = 512 * n /\ ident_sectors (hb_ident x pb) = Ret (n, b);

  (** while nothing is outstanding, status can be read and cleared *)
  hb_read : forall h x m pb r, hb_idle x -> hb_port x pb -> r ∈ [Reg.tfd; Reg.ci] ->
    exists v x', bus_read h (pb + r) (x, m) = (v, (x', m)) /\ hb_idle x' /\ hb_kept x x' /\
      (r = Reg.ci -> Z.land v 1 = 0);
  hb_clear : forall h x m pb r, hb_idle x -> hb_port x pb -> r ∈ [Reg.pxis; Reg.serr] ->
    exists x', bus_write h (pb + r) 4 0xFFFFFFFF (x, m) = (x', m) /\ hb_idle x' /\ hb_kept x x';

  (** a command *)
  hb_issue : forall h x m pb, hb_idle x -> hb_port x pb -> hb_legal (hb_image x pb) (fetch h m (hb_clb x pb)) ->
    exists n, (n < Pos.to_nat AHCI_XFER_SPINS)%nat /\
      hb_busy h pb (x, m) n (bus_write h (pb + Reg.ci) 4 1 (x, m));
  hb_busy_mem : forall h pb o n w, hb_busy h pb o n w -> hb_flight h pb o w.2 (fetch h o.2 (hb_clb o.1 pb));
  hb_done_mem : forall h pb o w, hb_done h pb o w -> hb_flight h pb o w.2 (fetch h o.2 (hb_clb o.1 pb));
  hb_poll : forall h pb o n w, hb_busy h pb o n w ->
    exists v w', bus_read h (pb + Reg.ci) w = (v, w') /\
      if Z.land v 1 =? 0 then hb_done h pb o w' else exists n', n = S n' /\ hb_busy h pb o n' w';
  hb_status : forall h pb o w, hb_done h pb o w ->
    exists st x1 td x2, bus_read h (pb + Reg.pxis) w = (st, (x1, w.2)) /\
      bus_read h (pb + Reg.tfd) (x1, w.2) = (td, (x2, w.2)) /\ hb_idle x2 /\
      hb_effect ((Z.land st AHCI_PXIS_TFES =? 0) && (Z.land td 1 =? 0)) h pb o (x2, w.2)
        (fetch h o.2 (hb_clb o.1 pb));

  (** starting and stopping a port *)
  hb_ghc_read : forall h x m a, hb_idle x -> hb_ctrl x a ->
    exists v x', bus_read h (a + Reg.ghc) (x, m) = (v, (x', m)) /\ hb_idle x' /\ hb_kept x x';
  hb_ghc_write : forall h x m a v, hb_idle x -> hb_ctrl x a ->
    exists x', bus_write h (a + Reg.ghc) 4 v (x, m) = (x', m) /\ hb_idle x' /\ hb_kept x x';
  hb_cmd_read : forall h x m pb, hb_idle x -> hb_port x pb ->
    exists v x', bus_read h (pb + Reg.cmd) (x, m) = (v, (x', m)) /\ hb_idle x' /\ hb_kept x x' /\
      Z.land v RUN_BITS = hb_run x pb /\ hb_run x' pb = hb_run x pb;
  hb_cmd_write : forall h x m pb v, hb_idle x -> hb_port x pb ->
    exists x', bus_write h (pb + Reg.cmd) 4 v (x, m) = (x', m) /\ hb_idle x' /\ hb_kept x x' /\
      hb_run x' pb = Z.land v RUN_BITS /\
      (Z.land v RUN_BITS = 0 -> exists n k,
         (n < Pos.to_nat AHCI_CR_SPINS)%nat /\ (k < Pos.to_nat AHCI_FR_SPINS)%nat /\ hb_stopping x' pb n k);
  hb_stop : forall h x m pb n k, hb_idle x -> hb_port x pb -> hb_stopping x pb n k ->
    exists v x', bus_read h (pb + Reg.cmd) (x, m) = (v, (x', m)) /\ hb_idle x' /\ hb_kept x x' /\
      hb_stopping x' pb (pred n) (pred k) /\
      (Z.land v AHCI_PCMD_CR = 0 <-> n = 0%nat) /\ (Z.land v AHCI_PCMD_FR = 0 <-> k = 0%nat);
  hb_clb_write : forall h x m pb v, hb_idle x -> hb_port x pb ->
    exists x', bus_write h (pb + Reg.clb) 8 v (x, m) = (x', m) /\ hb_idle x' /\ hb_same x x' /\
      hb_clb x' pb = v /\ (forall q, q <> pb -> hb_clb x' q = hb_clb x q) /\
      (forall q, hb_fb x' q = hb_fb x q);
  hb_fb_write : forall h x m pb v, hb_idle x -> hb_port x pb ->
    exists x', bus_write h (pb + Reg.fb) 8 v (x, m) = (x', m) /\ hb_idle x' /\ hb_same x x' /\
      hb_fb x' pb = v /\ (forall q, q <> pb -> hb_fb x' q = hb_fb x q) /\
      (forall q, hb_clb x' q = hb_clb x q);

  (** what the bus walk looks at: the capabilities, the implemented ports, and the
      status and the signature of a port; a port whose link is up and active and
      whose signature is that of a disk has a drive *)
  hb_caps : forall h x m a r, hb_idle x -> hb_ctrl x a -> r ∈ [0x00; 0x0C] ->
    exists v x', bus_read h (a + r) (x, m) = (v, (x', m)) /\ hb_idle x' /\ hb_kept x x';
  hb_probe : forall h x m a n, hb_idle x -> hb_ctrl x a -> 0 <= n < AHCI_PORT_MAX ->
    exists ssts x1 pxsig x2, bus_read h (a + Reg.ports + n * Reg.port_size + 0x28) (x, m) = (ssts, (x1, m)) /\
      bus_read h (a + Reg.ports + n * Reg.port_size + 0x24) (x1, m) = (pxsig, (x2, m)) /\ hb_idle x2 /\ hb_kept x x2 /\
      (Z.land ssts 0xF = 3 -> Z.land (Z.shiftr ssts 8) 0xF = 1 -> pxsig = 0x101 ->
       hb_port x2 (a + Reg.ports + n * Reg.port_size));
}.

(** ** Scatter lists over pages *)

(** The list of a transfer of [len] bytes over the pages [fs]. *)
Fixpoint chunks (fs : list Z) (len : Z) : list (Z * Z) :=
  match fs with
  | [] => []
  | f :: fs =>
      if len <=? 0 then []
      else (f * PAGE_SIZE, Z.min len PAGE_SIZE) :: chunks fs (len - PAGE_SIZE)
  end.

(** Consecutive pages of a window, from the page number [p], backed by [fs]. *)
Definition run_of (P : Pages) (p : Z) (fs : list Z) : Prop :=
  forall i f, fs !! i = Some f -> P !! (p + Z.of_nat i) = Some f.

(** The [n] bytes a window shows from [va] on. *)
Definition show (h : Z) (P : Pages) (m : gmap Z Z) (va : Z) (n : nat) : list Z :=
  (fun i => view h P m (va + Z.of_nat i)) <$> seq 0 n.

Lemma show_length h P m va n : length (show h P m va n) = n.
Proof. unfold show. by rewrite length_fmap, length_seq. Qed.

Lemma show_lookup h P m va n k :
  (k < n)%nat -> show h P m va n !! k = Some (view h P m (va + Z.of_nat k)).
Proof. intros Hk. unfold show. by rewrite list_lookup_fmap, lookup_seq_lt. Qed.

Lemma show_ext h P m va n l :
  length l = n -> (forall k v, l !! k = Some v -> view h P m (va + Z.of_nat k) = v) -> show h P m va n = l.
Proof.
  intros Hl Hv. apply list_eq. intros k. destruct (decide (k < n)%nat) as [Hk|Hk].
  - rewrite show_lookup by done. destruct (lookup_lt_is_Some_2 l k) as [v E]; [lia|]. by rewrite E, (Hv k v).
  - rewrite !lookup_ge_None_2; [done|lia|rewrite show_length; lia].
Qed.

Lemma show_app h P m va n1 n2 :
  show h P m va (n1 + n2) = show h P m va n1 ++ show h P m (va + Z.of_nat n1) n2.
Proof.
  apply show_ext; [by rewrite length_app, !show_length|]. intros k v [Hk|[Hge Hk]]%lookup_app_Some.
  - pose proof (lookup_lt_Some _ _ _ Hk) as Hlt. rewrite show_length in Hlt. rewrite show_lookup in Hk by done. congruence.
  - pose proof (lookup_lt_Some _ _ _ Hk) as Hlt. rewrite !show_length in *. rewrite show_lookup in Hk by done.
    injection Hk as <-. f_equal. lia.
Qed.

(** What a page of a window shows is what its frame holds. *)
Lemma show_frame h P m p f off n :
  P !! p = Some f -> 0 <= off -> off + Z.of_nat n <= PAGE_SIZE ->
  show h P m (p * PAGE_SIZE + off) n = bytes h m (f * PAGE_SIZE + off) n.
Proof.
  intros Hp Hoff Hn. apply show_ext; [unfold bytes; by rewrite length_fmap, length_seq|].
  intros k v Hk. assert (k < n)%nat as Hlt.
  { apply lookup_lt_Some in Hk. unfold bytes in Hk. by rewrite length_fmap, length_seq in Hk. }
  unfold bytes in Hk. rewrite list_lookup_fmap, lookup_seq_lt in Hk by done. injection Hk as <-.
  apply view_at, phys_of_Some. exists f. replace ((p * PAGE_SIZE + off + Z.of_nat k) / PAGE_SIZE) with p
    by (unfold PAGE_SIZE in *; lia). split; [done|]. unfold PAGE_SIZE in *. lia.
Qed.

Lemma run_of_cons P p f fs : run_of P p (f :: fs) -> P !! p = Some f /\ run_of P (p + 1) fs.
Proof.
  intros Hr. split; [rewrite <- (Z.add_0_r p); exact (Hr 0%nat f eq_refl)|].
  intros i g Hi. replace (p + 1 + Z.of_nat i) with (p + Z.of_nat (S i)) by lia. by apply Hr.
Qed.

Lemma gather_chunks h P m fs : forall p len, run_of P p fs -> 0 <= len <= PAGE_SIZE * Z.of_nat (length fs) ->
  gather h m (chunks fs len) = show h P m (p * PAGE_SIZE) (Z.to_nat len).
Proof.
  unfold gather. induction fs as [|f fs IH]; intros p len Hr Hlen; cbn [chunks length] in *.
  - by replace len with 0 by lia.
  - destruct (Z.leb_spec len 0) as [Hl|Hl]; [by replace len with 0 by lia|].
    apply run_of_cons in Hr as [Hp Hr]. cbn [fmap list_fmap concat fst snd].
    assert (bytes h m (f * PAGE_SIZE) (Z.to_nat (Z.min len PAGE_SIZE)) =
      show h P m (p * PAGE_SIZE) (Z.to_nat (Z.min len PAGE_SIZE))) as ->.
    { rewrite <- (Z.add_0_r (f * PAGE_SIZE)), <- (show_frame h P m p f 0), Z.add_0_r by (done || unfold PAGE_SIZE; lia). done. }
    destruct (Z.le_gt_cases len PAGE_SIZE) as [Hs|Hs].
    + rewrite Z.min_l by done. assert (chunks fs (len - PAGE_SIZE) = []) as ->.
      { destruct fs; [done|]. cbn. by rewrite (proj2 (Z.leb_le _ _)) by lia. }
      by rewrite app_nil_r.
    + rewrite Z.min_r by lia. rewrite (IH (p + 1)) by (done || lia).
      replace (Z.to_nat len) with (Z.to_nat PAGE_SIZE + Z.to_nat (len - PAGE_SIZE))%nat by (unfold PAGE_SIZE in *; lia).
      rewrite show_app. do 2 f_equal. unfold PAGE_SIZE. lia.
Qed.

Lemma written_app va l1 l2 C a :
  written va (l1 ++ l2) C a = written (va + blen l1) l2 (written va l1 C) a.
Proof.
  unfold written. rewrite blen_app. pose proof (blen_nonneg l1). pose proof (blen_nonneg l2).
  destruct (Z.leb_spec va a), (Z.ltb_spec a (va + (blen l1 + blen l2))), (Z.leb_spec (va + blen l1) a),
    (Z.ltb_spec a (va + blen l1 + blen l2)), (Z.ltb_spec a (va + blen l1)); cbn [andb]; try done; try lia.
  - rewrite lookup_total_app_r by (unfold blen in *; lia). f_equal. unfold blen in *. lia.
  - rewrite lookup_total_app_l by (unfold blen in *; lia). done.
Qed.

Lemma written_nil va C a : written va [] C a = C a.
Proof.
  unfold written. change (blen []) with 0.
  destruct (Z.leb_spec va a), (Z.ltb_spec a (va + 0)); try done; lia.
Qed.

Lemma written_ext va l C C' a : C a = C' a -> written va l C a = written va l C' a.
Proof. unfold written. by intros ->. Qed.

Lemma written_in va l C k v : l !! k = Some v -> written va l C (va + Z.of_nat k) = v.
Proof.
  intros Hk. pose proof (lookup_lt_Some _ _ _ Hk) as Hlt. unfold written.
  rewrite (proj2 (Z.leb_le _ _)), (proj2 (Z.ltb_lt _ _)) by (unfold blen; lia). cbn [andb].
  apply list_lookup_total_correct. by replace (Z.to_nat (va + Z.of_nat k - va)) with k by lia.
Qed.

Lemma written_out va l C a : a < va \/ va + blen l <= a -> written va l C a = C a.
Proof.
  intros Ha. unfold written. destruct (Z.leb_spec va a), (Z.ltb_spec a (va + blen l)); try done; lia.
Qed.

Section Scatter.
Context {PA : Type} `{FA : FrameAllocator PA} (s : Vmm PA) (h : Z) (P : Pages) (Hsh : shared s h P).

(** A buffer written to a page of a window. *)
Lemma put_page p f l m :
  P !! p = Some f -> blen l <= PAGE_SIZE -> bytes_ok l ->
  outside h P m (put_bytes (f * PAGE_SIZE + h) l m) /\
  forall a, is_Some (phys_of P a) ->
    view h P (put_bytes (f * PAGE_SIZE + h) l m) a = written (p * PAGE_SIZE) l (view h P m) a.
Proof.
  intros Hp Hl Hb. pose proof (sh_align _ _ _ Hsh) as Hal. pose proof (ok_h _ _ (sh_ok _ _ _ Hsh)) as Hh. split.
  - intros a Ha. apply rd_puts. intros k Hk ->. apply (Ha p f Hp). unfold in_page, PAGE_SIZE in *. lia.
  - intros a [pa Hpa]. rewrite !(view_at _ _ _ _ _ Hpa), byte_at_puts by done. unfold written.
    rewrite (view_at _ _ _ _ _ Hpa). apply phys_of_Some in Hpa as (g & Hg & ->).
    destruct (decide (a / PAGE_SIZE = p)) as [E|E].
    + rewrite E, Hp in Hg. injection Hg as <-.
      replace (f * PAGE_SIZE + a mod PAGE_SIZE + h - (f * PAGE_SIZE + h)) with (a - p * PAGE_SIZE)
        by (unfold PAGE_SIZE in *; lia).
      assert ((f * PAGE_SIZE + h <=? f * PAGE_SIZE + a mod PAGE_SIZE + h) = (p * PAGE_SIZE <=? a)) as ->
        by (apply eq_true_iff_eq; rewrite !Z.leb_le; unfold PAGE_SIZE in *; lia).
      assert ((f * PAGE_SIZE + a mod PAGE_SIZE + h <? f * PAGE_SIZE + h + blen l) = (a <? p * PAGE_SIZE + blen l)) as ->
        by (apply eq_true_iff_eq; rewrite !Z.ltb_lt; unfold PAGE_SIZE in *; lia).
      done.
    + assert (g <> f) as Hgf by (intros ->; apply E; by eapply (sh_inj _ _ _ Hsh)).
      destruct (Z.leb_spec (f * PAGE_SIZE + h) (g * PAGE_SIZE + a mod PAGE_SIZE + h)),
        (Z.ltb_spec (g * PAGE_SIZE + a mod PAGE_SIZE + h) (f * PAGE_SIZE + h + blen l)),
        (Z.leb_spec (p * PAGE_SIZE) a), (Z.ltb_spec a (p * PAGE_SIZE + blen l)); cbn [andb]; try done;
        unfold PAGE_SIZE in *; lia.
Qed.

Lemma scatter_chunks fs : forall p len data m, run_of P p fs ->
  0 <= len <= PAGE_SIZE * Z.of_nat (length fs) -> blen data = len -> bytes_ok data ->
  outside h P m (scatter h (chunks fs len) data m) /\
  forall a, is_Some (phys_of P a) ->
    view h P (scatter h (chunks fs len) data m) a = written (p * PAGE_SIZE) data (view h P m) a.
Proof.
  induction fs as [|f fs IH]; intros p len data m Hr Hlen Hd Hb; cbn [chunks length] in *.
  - destruct data; [|unfold blen in Hd; cbn in Hd; lia]. cbn [scatter].
    split; [apply outside_refl|]. intros a _. by rewrite written_nil.
  - destruct (Z.leb_spec len 0) as [Hl|Hl].
    { destruct data; [|unfold blen in Hd; cbn in Hd; lia]. cbn [scatter].
      split; [apply outside_refl|]. intros a _. by rewrite written_nil. }
    apply run_of_cons in Hr as [Hp Hr]. cbn [scatter]. set (n := Z.to_nat (Z.min len PAGE_SIZE)).
    assert (bytes_ok (take n data) /\ bytes_ok (drop n data)) as [Hb1 Hb2]
      by (split; [by apply Forall_take|by apply Forall_drop]).
    assert (blen (take n data) = Z.min len PAGE_SIZE) as Hl1.
    { unfold blen in *. rewrite length_take. unfold n, PAGE_SIZE in *. lia. }
    destruct (put_page p f (take n data) m Hp ltac:(unfold PAGE_SIZE in *; lia) Hb1) as [Ho1 Hv1].
    destruct (Z.le_gt_cases len PAGE_SIZE) as [Hs|Hs].
    + assert (chunks fs (len - PAGE_SIZE) = []) as ->.
      { destruct fs; [done|]. cbn. by rewrite (proj2 (Z.leb_le _ _)) by lia. }
      cbn [scatter]. rewrite take_ge in * by (unfold n, blen in *; lia). done.
    + destruct (IH (p + 1) (len - PAGE_SIZE) (drop n data) (put_bytes (f * PAGE_SIZE + h) (take n data) m) Hr) as [Ho2 Hv2];
        [lia|unfold blen in *; rewrite length_drop; unfold n, PAGE_SIZE in *; lia|done|].
      split; [by eapply outside_trans|]. intros a Ha. rewrite Hv2 by done.
      transitivity (written (p * PAGE_SIZE) (take n data ++ drop n data) (view h P m) a); [|by rewrite take_drop].
      rewrite written_app, Hl1, Z.min_r by lia.
      replace ((p + 1) * PAGE_SIZE) with (p * PAGE_SIZE + PAGE_SIZE) by lia.
      apply written_ext. by apply Hv1.
Qed.

Lemma scatter_nothing prd m : scatter h prd [] m = m.
Proof. revert m. induction prd as [|[a n] prd IH]; intros m; [done|]. cbn [scatter]. by rewrite take_nil, drop_nil. Qed.

(** The words that hold bytes of the list are in its pages. *)
Lemma chunks_touch fs : forall len a, touches h (chunks fs len) a ->
  exists i f, fs !! i = Some f /\ in_page h f a.
Proof.
  pose proof (sh_align _ _ _ Hsh) as Hal. pose proof (ok_h _ _ (sh_ok _ _ _ Hsh)) as Hh.
  induction fs as [|f fs IH]; intros len a (b & n & k & Hin & Hk & ->); cbn [chunks] in Hin.
  - by apply not_elem_of_nil in Hin.
  - destruct (Z.leb_spec len 0) as [Hl|Hl]; [by apply not_elem_of_nil in Hin|].
    apply elem_of_cons in Hin as [[= -> ->]|Hin].
    + exists 0%nat, f. split; [done|]. unfold in_page, PAGE_SIZE in *. lia.
    + destruct (IH (len - PAGE_SIZE) ((b + k + h) / 8 * 8)) as (i & g & Hi & Hg); [by exists b, n, k|].
      by exists (S i), g.
Qed.
End Scatter.

(** *** The table in memory *)

Definition entry_bytes (e : Z * Z) : list Z := to_le 8 e.1 ++ to_le 4 0 ++ to_le 4 (e.2 - 1).

Lemma bytes_app h m a n1 n2 : bytes h m a (n1 + n2) = bytes h m a n1 ++ bytes h m (a + Z.of_nat n1) n2.
Proof.
  unfold bytes. rewrite seq_app, fmap_app. f_equal. rewrite Nat.add_0_l.
  replace (seq n1 n2) with ((fun i => n1 + i)%nat <$> seq 0 n2) by (rewrite fmap_add_seq; f_equal; lia).
  rewrite <- list_fmap_compose. apply list_fmap_ext. intros i x _. cbn. f_equal. lia.
Qed.

Lemma bytes_length h m a n : length (bytes h m a n) = n.
Proof. unfold bytes. by rewrite length_fmap, length_seq. Qed.

Lemma bytes_sub h m a N off n l : bytes h m a N = l -> 0 <= off -> (Z.to_nat off + n <= N)%nat ->
  bytes h m (a + off) n = take n (drop (Z.to_nat off) l).
Proof.
  intros <- Hoff Hn. replace N with (Z.to_nat off + (n + (N - n - Z.to_nat off)))%nat by lia.
  rewrite !bytes_app, drop_app_length', take_app_length' by (by rewrite bytes_length).
  by rewrite Z2Nat.id.
Qed.

Lemma le_of h m a n v : bytes h m a n = to_le n v -> 0 <= v < 256 ^ Z.of_nat n -> le_at h m a n = v.
Proof. intros Hb Hv. unfold le_at. rewrite Hb, from_le_to_le. by apply Z.mod_small. Qed.

Lemma prd_table_of h m prd : forall a, bytes h m a (16 * length prd) = concat (entry_bytes <$> prd) ->
  Forall (fun e => 0 <= e.1 < 2 ^ 64 /\ 0 < e.2 <= 2 ^ 22) prd -> prd_table h m a (length prd) = prd.
Proof.
  induction prd as [|[b n] prd IH]; intros a Hb Hall; [done|].
  apply Forall_cons_1 in Hall as [[H1 H2] Hall]. cbn [fst snd] in *.
  cbn [length fmap list_fmap concat] in Hb. replace (16 * S (length prd))%nat with (16 + 16 * length prd)%nat in Hb by lia.
  rewrite bytes_app in Hb. apply app_inj_1 in Hb as [Hb1 Hb2];
    [|rewrite bytes_length; unfold entry_bytes; by rewrite !length_app, !to_le_length].
  change 16%nat with (8 + (4 + 4))%nat in Hb1. rewrite !bytes_app in Hb1. unfold entry_bytes in Hb1. cbn [fst snd] in Hb1.
  apply app_inj_1 in Hb1 as [Ha Hb1]; [|by rewrite bytes_length, to_le_length].
  apply app_inj_1 in Hb1 as [_ Hc]; [|by rewrite bytes_length, to_le_length].
  cbn [prd_table length]. rewrite IH by done. f_equal. unfold prd_entry.
  rewrite (le_of h m a 8 b Ha) by lia. replace (a + 12) with (a + Z.of_nat 8 + Z.of_nat 4) by lia.
  rewrite (le_of h m _ 4 (n - 1) Hc) by lia. f_equal. lia.
Qed.
