(* ===== verification/AhciCmd.v ===== *)
(** * The command the AHCI driver writes is the command the controller reads

    [write_header], [write_prdt] and [write_fis] of [src/src/ahci.rs] against
    [fetch] of [AhciHw]: the round trip of a command through memory. *)

From S2P Require Import Prelude Block Pmm Vmm UserMem Dma Ahci AhciHw.
From stdpp Require Import list.
#[local] Open Scope Z_scope.

Lemma to_le_app n k v : to_le (n + k) v = to_le n v ++ to_le k (v / 256 ^ Z.of_nat n).
Proof.
  revert v. induction n as [|n IH]; intros v; cbn [Nat.add to_le app].
  - by rewrite Z.div_1_r.
  - rewrite IH, Nat2Z.inj_succ, Z.pow_succ_r, Z.div_div by lia. done.
Qed.

Lemma to_le_mod n v : to_le n (v mod 256 ^ Z.of_nat n) = to_le n v.
Proof.
  revert v. induction n as [|n IH]; intros v; [done|]. cbn [to_le].
  rewrite Nat2Z.inj_succ, Z.pow_succ_r by lia. assert (0 < 256 ^ Z.of_nat n) by (apply Z.pow_pos_nonneg; lia).
  rewrite Z.rem_mul_r by lia. f_equal.
  - rewrite (Z.mul_comm 256), Z.mod_add by lia. by rewrite Z.mod_mod.
  - rewrite (Z.mul_comm 256), Z.div_add, (Z.div_small (v mod 256)) by lia. apply IH.
Qed.

Lemma to_le_wrap32 v : to_le 4 (wrap 32 v) = to_le 4 v.
Proof. exact (to_le_mod 4 v). Qed.

Lemma to_le_wrap16 v : to_le 2 (wrap 16 v) = to_le 2 v.
Proof. exact (to_le_mod 2 v). Qed.

(** The two halves of a 64-bit address. *)
Lemma to_le_halves v : to_le 4 (wrap 32 v) ++ to_le 4 (wrap 32 (Z.shiftr v 32)) = to_le 8 v.
Proof. rewrite !to_le_wrap32, Z.shiftr_div_pow2 by lia. symmetry. exact (to_le_app 4 4 v). Qed.

Lemma blen_to_le n v : blen (to_le n v) = Z.of_nat n.
Proof. unfold blen. by rewrite to_le_length. Qed.

Definition header_bytes (n : Z) : list Z :=
  to_le 2 (Z.lor AHCI_CL_CFL_5 AHCI_CL_CBR) ++ to_le 2 n ++ to_le 4 0.

Lemma chunks_nil fs len : len <= 0 -> chunks fs len = [].
Proof. intros. destruct fs; [done|]. cbn. by rewrite (proj2 (Z.leb_le _ _)). Qed.

Lemma chunks_length fs : forall len, 0 <= len <= PAGE_SIZE * Z.of_nat (length fs) ->
  Z.of_nat (length (chunks fs len)) = (len + PAGE_SIZE - 1) / PAGE_SIZE.
Proof.
  induction fs as [|f fs IH]; intros len Hlen; cbn [chunks length] in *; [unfold PAGE_SIZE in *; lia|].
  destruct (Z.leb_spec len 0); [cbn; unfold PAGE_SIZE in *; lia|]. cbn [length].
  destruct (Z.le_gt_cases len PAGE_SIZE).
  - rewrite chunks_nil by lia. cbn. unfold PAGE_SIZE in *. lia.
  - rewrite Nat2Z.inj_succ, IH by lia. unfold PAGE_SIZE in *. lia.
Qed.

Lemma chunks_ok fs : forall len, len <= PAGE_SIZE * Z.of_nat (length fs) ->
  Forall (fun f => 0 <= f < 2 ^ 40) fs ->
  Forall (fun e => 0 <= e.1 < 2 ^ 64 /\ 0 < e.2 <= 2 ^ 22) (chunks fs len) /\
  foldr (fun e n => e.2 + n) 0 (chunks fs len) = Z.max 0 len.
Proof.
  induction fs as [|f fs IH]; intros len Hlen Hall; cbn [chunks length] in *; [split; [constructor|cbn; lia]|].
  destruct (Z.leb_spec len 0); [split; [constructor|cbn; lia]|]. apply Forall_cons_1 in Hall as [Hf Hall].
  destruct (IH (len - PAGE_SIZE)) as [H1 H2]; [lia|done|]. split.
  - constructor; [|done]. cbn [fst snd]. unfold PAGE_SIZE in *. lia.
  - cbn [foldr snd]. rewrite H2. unfold PAGE_SIZE in *. lia.
Qed.

Section Build.
Context {PA : Type} `{FA : FrameAllocator PA}.
Abbreviation Vmm := (Vmm PA).

Lemma header_stores cl n (s : Vmm) :
  write_header cl n s = store_user_bytes cl (header_bytes n) s.
Proof.
  unfold header_bytes. rewrite store_bytes_app. unfold write_header, store16, store32, Hdr.flags. rewrite Z.add_0_r.
  unfold sbind. destruct (store_user_bytes cl _ s) as [[[] s1]| |]; try done. rewrite to_le_wrap16.
  rewrite store_bytes_app. unfold sbind. rewrite !blen_to_le.
  change (cl + Z.of_nat 2) with (cl + Hdr.prdtl). destruct (store_user_bytes (cl + Hdr.prdtl) _ s1) as [[[] s2]| |]; try done.
  by replace (cl + Hdr.prdtl + Z.of_nat 2) with (cl + Hdr.prdbc) by (unfold Hdr.prdtl, Hdr.prdbc; lia).
Qed.

(** One entry of the scatter list. *)
Lemma entry_stores a p n (s : Vmm) :
  sbind (store32 (a + Prdt.dba) (wrap 32 p)) (fun _ =>
  sbind (store32 (a + Prdt.dbau) (wrap 32 (Z.shiftr p 32))) (fun _ =>
  sbind (store32 (a + Prdt.reserved) 0) (fun _ =>
  store32 (a + Prdt.dbc) (wrap 32 (n - 1))))) s = store_user_bytes a (entry_bytes (p, n)) s.
Proof.
  unfold entry_bytes. cbn [fst snd]. rewrite <- to_le_halves, <- app_assoc, store_bytes_app.
  unfold store32, Prdt.dba. rewrite Z.add_0_r. unfold sbind.
  destruct (store_user_bytes a _ s) as [[[] s1]| |]; try done. rewrite store_bytes_app.
  rewrite blen_to_le. change (a + Z.of_nat 4) with (a + Prdt.dbau). unfold sbind.
  destruct (store_user_bytes (a + Prdt.dbau) _ s1) as [[[] s2]| |]; try done. rewrite store_bytes_app.
  rewrite blen_to_le. replace (a + Prdt.dbau + Z.of_nat 4) with (a + Prdt.reserved) by (unfold Prdt.dbau, Prdt.reserved; lia).
  unfold sbind. destruct (store_user_bytes (a + Prdt.reserved) _ s2) as [[[] s3]| |]; try done.
  rewrite blen_to_le, to_le_wrap32.
  by replace (a + Prdt.reserved + Z.of_nat 4) with (a + Prdt.dbc) by (unfold Prdt.reserved, Prdt.dbc; lia).
Qed.

Lemma entry_length e : blen (entry_bytes e) = 16.
Proof. unfold entry_bytes, blen. by rewrite !length_app, !to_le_length. Qed.

Lemma entry_ok e : bytes_ok (entry_bytes e).
Proof. unfold entry_bytes. apply Forall_app; split; [apply to_le_bytes|]. apply Forall_app; split; apply to_le_bytes. Qed.

Lemma prdt_stores ct len fs (s : Vmm) : 0 < len < 2 ^ 64 -> len <= PAGE_SIZE * Z.of_nat (length fs) ->
  write_prdt ct len ((fun f => f * PAGE_SIZE) <$> fs) ((len + PAGE_SIZE - 1) / PAGE_SIZE) s =
  store_user_bytes (ct + Prdt.off) (concat (entry_bytes <$> chunks fs len)) s.
Proof.
  intros Hlen Hmax. unfold write_prdt. rewrite <- (chunks_length fs len) by lia. rewrite Nat2Z.id.
  match goal with |- context [for_loop _ _ ?body _] => set (b := body) end.
  assert (forall k fs' i t, drop i fs = fs' -> length (chunks fs' (len - Z.of_nat i * PAGE_SIZE)) = k ->
    for_loop k (Z.of_nat i) b tt t =
    sbind (store_user_bytes (ct + Prdt.off + 16 * Z.of_nat i)
             (concat (entry_bytes <$> chunks fs' (len - Z.of_nat i * PAGE_SIZE)))) (fun _ => sret (Next tt)) t) as Hloop.
  { induction k as [|k IH]; intros fs' i t Hdrop Hk.
    - by rewrite (nil_length_inv _ Hk).
    - destruct fs' as [|f fs']; [done|]. cbn [chunks] in Hk |- *.
      destruct (Z.leb_spec (len - Z.of_nat i * PAGE_SIZE) 0) as [Hl|Hl]; [done|]. cbn [length] in Hk. injection Hk as Hk.
      assert (fs !! i = Some f) as Hf by (rewrite <- (Nat.add_0_r i), <- lookup_drop, Hdrop; done).
      assert (drop (S i) fs = fs') as Hdrop' by (by rewrite <- Nat.add_1_r, <- drop_drop, Hdrop).
      cbn [for_loop fmap list_fmap concat].
      assert (b (Z.of_nat i) tt t = sbind (store_user_bytes (ct + Prdt.off + 16 * Z.of_nat i)
        (entry_bytes (f * PAGE_SIZE, Z.min (len - Z.of_nat i * PAGE_SIZE) PAGE_SIZE))) (fun _ => sret (Next tt)) t) as Hb.
      { assert (word_at ((fun f => f * PAGE_SIZE) <$> fs) (Z.of_nat i) = Ret (f * PAGE_SIZE)) as Hw.
        { unfold word_at. rewrite (proj2 (Z.ltb_ge _ _)), Nat2Z.id, list_lookup_fmap, Hf by lia. done. }
        unfold b, sbind. rewrite <- entry_stores. unfold sbind, slift. rewrite Hw.
        change AHCI_PAGE_SIZE with PAGE_SIZE. rewrite chk_Ret by (unfold PAGE_SIZE in *; lia).
        replace (if PAGE_SIZE <? len - Z.of_nat i * PAGE_SIZE then PAGE_SIZE else len - Z.of_nat i * PAGE_SIZE)
          with (Z.min (len - Z.of_nat i * PAGE_SIZE) PAGE_SIZE)
          by (destruct (Z.ltb_spec PAGE_SIZE (len - Z.of_nat i * PAGE_SIZE)); lia).
        rewrite chk_Ret by (unfold PAGE_SIZE in *; lia). change Prdt.size with 16. unfold sret.
        repeat (case_match; try congruence). }
      unfold sbind at 1. rewrite Hb. unfold sbind at 1 2. rewrite store_bytes_app. unfold sbind at 1.
      destruct (store_user_bytes _ _ t) as [[[] t1]| |]; try done. unfold sret at 1.
      replace (Z.of_nat i + 1) with (Z.of_nat (S i)) by lia.
      replace (len - Z.of_nat i * PAGE_SIZE - PAGE_SIZE) with (len - Z.of_nat (S i) * PAGE_SIZE) in * by (unfold PAGE_SIZE; lia).
      rewrite (IH fs' (S i) t1 Hdrop' Hk). rewrite entry_length.
      by replace (ct + Prdt.off + 16 * Z.of_nat i + 16) with (ct + Prdt.off + 16 * Z.of_nat (S i)) by lia. }
  specialize (Hloop (length (chunks fs len)) fs 0%nat s eq_refl). change (Z.of_nat 0) with 0 in Hloop.
  rewrite Z.mul_0_l, Z.mul_0_r, Z.sub_0_r, Z.add_0_r in Hloop. unfold sbind. rewrite Hloop by done. unfold sbind.
  destruct (store_user_bytes _ _ s) as [[[] t]| |]; done.
Qed.

(** *** The register FIS *)

Definition fis_bytes (command lba sectors : Z) : list Z :=
  [0x27; 0x80; command; 0; wrap 8 lba; wrap 8 (Z.shiftr lba 8); wrap 8 (Z.shiftr lba 16); 0x40;
   wrap 8 (Z.shiftr lba 24); wrap 8 (Z.shiftr lba 32); wrap 8 (Z.shiftr lba 40); 0;
   wrap 8 sectors; wrap 8 (Z.shiftr sectors 8); 0; 0; 0; 0; 0; 0].

Lemma written_insert va L C (o : nat) v a : (o < length L)%nat ->
  (if a =? va + Z.of_nat o then v else written va L C a) = written va (<[o := v]> L) C a.
Proof.
  intros Ho. unfold written, blen. rewrite length_insert. destruct (Z.eqb_spec a (va + Z.of_nat o)) as [->|Hne].
  - rewrite (proj2 (Z.leb_le _ _)), (proj2 (Z.ltb_lt _ _)) by lia. cbn [andb].
    replace (Z.to_nat (va + Z.of_nat o - va)) with o by lia. by rewrite list_lookup_total_insert_eq.
  - destruct (Z.leb_spec va a), (Z.ltb_spec a (va + Z.of_nat (length L))); cbn [andb]; try done.
    by rewrite list_lookup_total_insert_ne by lia.
Qed.

Section Fis.
Context (s : Vmm) (h : Z) (P : Pages) (Hsh : shared s h P) (ct : Z) (Hct : covered P ct 20).

(** [L] has been written at [ct]. *)
Definition fis_so_far (m : gmap Z Z) (L : list Z) : Prop :=
  length L = 20%nat /\ outside h P (mem s) m /\
  forall a, is_Some (phys_of P a) -> view h P m a = written ct L (view h P (mem s)) a.

Lemma fis_step m L (o : nat) v : fis_so_far m L -> (o < 20)%nat -> 0 <= v < 256 ->
  exists m', store8 (ct + Z.of_nat o) v (set_mem s m) = Ret (tt, set_mem s m') /\ fis_so_far m' (<[o := v]> L).
Proof.
  intros (Hl & Ho & Hv) Hlt Hval. destruct (shared_set s h P m Hsh Ho) as [Hs _].
  destruct (Hct (ct + Z.of_nat o) ltac:(lia)) as [pa Hpa]. exists (put_byte (pa + h) v m).
  split; [exact (store_run _ h P _ pa v Hs Hpa)|]. split; [by rewrite length_insert|].
  split; [eapply outside_trans; [done|by eapply put_byte_outside]|].
  intros a Ha. rewrite (view_put s h P _ pa v m a Hsh Hpa Ha Hval), (Hv a Ha), written_insert by lia. done.
Qed.

(** One field of the FIS. *)
Ltac fis o v := match goal with F : fis_so_far ?m ?L |- _ =>
    let m' := fresh "m" in let R := fresh "R" in let F' := fresh "F" in
    destruct (fis_step m L o v F ltac:(lia)) as (m' & R & F'); [first [done | lia | auto]|];
    first [rewrite (sbind_Ret _ _ _ _ _ R) | rewrite R]; clear R F end.

Lemma fis_stores command lba sectors : 0 <= command < 256 ->
  exists m', write_fis ct command lba sectors s = Ret (tt, set_mem s m') /\ outside h P (mem s) m' /\
    forall a, is_Some (phys_of P a) -> view h P m' a = written ct (fis_bytes command lba sectors) (view h P (mem s)) a.
Proof.
  intros Hc. unfold write_fis.
  destruct (store_bytes_run h P (zeros Fis.size) ct s Hsh) as (m0 & Hr0 & Ho0 & Hv0);
    [by rewrite blen_zeros|apply zeros_bytes|]. rewrite (sbind_Ret _ _ _ _ _ Hr0). clear Hr0.
  assert (fis_so_far m0 (zeros Fis.size)) as F by done. clear Ho0 Hv0.
  assert (forall v, 0 <= wrap 8 v < 256) as Hw by (intros v; exact (wrap_range 8 v ltac:(lia))).
  fis 0%nat AHCI_FIS_TYPE_REG_H2D. fis 1%nat (Z.shiftl 1 7). fis 2%nat command.
  fis 4%nat (wrap 8 lba). fis 5%nat (wrap 8 (Z.shiftr lba 8)). fis 6%nat (wrap 8 (Z.shiftr lba 16)).
  fis 8%nat (wrap 8 (Z.shiftr lba 24)). fis 9%nat (wrap 8 (Z.shiftr lba 32)). fis 10%nat (wrap 8 (Z.shiftr lba 40)).
  fis 7%nat (Z.shiftl 1 6). fis 12%nat (wrap 8 sectors).
  change (ct + Fis.counth) with (ct + Z.of_nat 13). fis 13%nat (wrap 8 (Z.shiftr sectors 8)).
  eexists. split; [reflexivity|].
  match goal with F : fis_so_far _ _ |- _ => exact (proj2 F) end.
Qed.
End Fis.
End Build.

(** The block number and the sector count, read back. *)
Lemma fis_lba lba : 0 <= lba < 2 ^ 48 ->
  from_le [wrap 8 lba; wrap 8 (Z.shiftr lba 8); wrap 8 (Z.shiftr lba 16)] +
  2 ^ 24 * from_le [wrap 8 (Z.shiftr lba 24); wrap 8 (Z.shiftr lba 32); wrap 8 (Z.shiftr lba 40)] = lba.
Proof.
  intros Hl. unfold wrap. cbn [from_le]. rewrite !Z.shiftr_div_pow2 by lia.
  pose proof (Z.div_mod lba (2 ^ 8)). pose proof (Z.div_mod (lba / 2 ^ 8) (2 ^ 8)).
  pose proof (Z.div_mod (lba / 2 ^ 16) (2 ^ 8)). pose proof (Z.div_mod (lba / 2 ^ 24) (2 ^ 8)).
  pose proof (Z.div_mod (lba / 2 ^ 32) (2 ^ 8)). pose proof (Z.mod_small (lba / 2 ^ 40) (2 ^ 8)).
  assert (lba / 2 ^ 8 / 2 ^ 8 = lba / 2 ^ 16) by (by rewrite Z.div_div by lia).
  assert (lba / 2 ^ 16 / 2 ^ 8 = lba / 2 ^ 24) by (by rewrite Z.div_div by lia).
  assert (lba / 2 ^ 24 / 2 ^ 8 = lba / 2 ^ 32) by (by rewrite Z.div_div by lia).
  assert (lba / 2 ^ 32 / 2 ^ 8 = lba / 2 ^ 40) by (by rewrite Z.div_div by lia).
  assert (0 <= lba / 2 ^ 40 < 2 ^ 8) by (split; [apply Z.div_pos; lia|apply Z.div_lt_upper_bound; lia]).
  lia.
Qed.

Lemma page_phys (P : Pages) p f a : P !! p = Some f -> p * PAGE_SIZE <= a < (p + 1) * PAGE_SIZE ->
  phys_of P a = Some (f * PAGE_SIZE + (a - p * PAGE_SIZE)).
Proof.
  intros Hp Ha. apply phys_of_Some. exists f.
  replace (a / PAGE_SIZE) with p by (unfold PAGE_SIZE in *; lia). split; [done|]. unfold PAGE_SIZE in *. lia.
Qed.

Lemma page_covered (P : Pages) p f off n : P !! p = Some f -> 0 <= off -> off + n <= PAGE_SIZE ->
  covered P (p * PAGE_SIZE + off) n.
Proof. intros Hp Hoff Hn a Ha. rewrite (page_phys P p f a Hp) by (unfold PAGE_SIZE in *; lia). eauto. Qed.

Section Shown.
Context (h : Z) (P : Pages).

(** Bytes of a page of a window, inside and outside of what was written. *)
Lemma shown_in m va l C off n : covered P (va + off) (Z.of_nat n) ->
  (forall a, is_Some (phys_of P a) -> view h P m a = written va l C a) ->
  0 <= off -> off + Z.of_nat n <= blen l ->
  show h P m (va + off) n = take n (drop (Z.to_nat off) l).
Proof.
  intros Hc Hv Hoff Hn. unfold blen in Hn. apply show_ext; [rewrite length_take, length_drop; lia|].
  intros k v Hk. apply lookup_take_Some in Hk as [Hk Hlt]. rewrite lookup_drop in Hk.
  rewrite Hv by (apply Hc; lia). replace (va + off + Z.of_nat k) with (va + Z.of_nat (Z.to_nat off + k)) by lia.
  by apply written_in.
Qed.

Lemma shown_out m m0 va l a n : covered P a (Z.of_nat n) ->
  (forall a, is_Some (phys_of P a) -> view h P m a = written va l (view h P m0) a) ->
  a + Z.of_nat n <= va \/ va + blen l <= a -> show h P m a n = show h P m0 a n.
Proof.
  intros Hc Hv Hd. apply show_ext; [apply show_length|]. intros k v Hk.
  pose proof (lookup_lt_Some _ _ _ Hk) as Hlt. rewrite show_length in Hlt. rewrite show_lookup in Hk by done.
  injection Hk as <-. rewrite Hv by (apply Hc; lia). apply written_out. lia.
Qed.
End Shown.

(** ** The round trip *)

Section RoundTrip.
Context {PA : Type} `{FA : FrameAllocator PA} (s : Vmm PA) (h : Z) (P : Pages) (Hsh : shared s h P).
Context (p cl ct : Z) (Hcl : P !! p = Some cl) (Hct : P !! (p + 2) = Some ct).
Context (fs : list Z) (Hfs : (length fs <= 64)%nat) (Hfr : Forall (fun f => 0 <= f < 2 ^ 40) fs).

Let W := p * PAGE_SIZE.
Let T := (p + 2) * PAGE_SIZE.

Lemma fis_fields command lba sectors m :
  show h P m T 20 = fis_bytes command lba sectors ->
  0 <= command < 256 -> 0 <= lba < 2 ^ 48 -> 0 <= sectors < 2 ^ 16 ->
  le_at h m (ct * PAGE_SIZE + 2) 1 = command /\
  le_at h m (ct * PAGE_SIZE + 4) 3 + 2 ^ 24 * le_at h m (ct * PAGE_SIZE + 8) 3 = lba /\
  le_at h m (ct * PAGE_SIZE + 12) 2 = sectors.
Proof.
  intros Hs Hc Hl Hn. unfold T in Hs.
  rewrite <- (Z.add_0_r ((p + 2) * PAGE_SIZE)), (show_frame h P m (p + 2) ct 0 20 Hct), Z.add_0_r in Hs by (unfold PAGE_SIZE; lia).
  unfold le_at. rewrite (bytes_sub h m _ 20 2 1 _ Hs), (bytes_sub h m _ 20 4 3 _ Hs), (bytes_sub h m _ 20 8 3 _ Hs),
    (bytes_sub h m _ 20 12 2 _ Hs) by (cbn; lia).
  split; [change (from_le [command] = command); cbn [from_le]; lia|]. split; [exact (fis_lba lba Hl)|].
  change (from_le [wrap 8 sectors; wrap 8 (Z.shiftr sectors 8)] = sectors).
  cbn [from_le]. unfold wrap. rewrite Z.shiftr_div_pow2 by lia.
  pose proof (Z.div_mod sectors (2 ^ 8)). rewrite (Z.mod_small (sectors / 2 ^ 8)); [lia|].
  split; [apply Z.div_pos; lia|apply Z.div_lt_upper_bound; lia].
Qed.

Lemma build_run len command lba :
  show h P (mem s) (W + 8) 8 = to_le 8 (ct * PAGE_SIZE) ->
  0 < len <= PAGE_SIZE * Z.of_nat (length fs) -> 0 <= command < 256 -> 0 <= lba < 2 ^ 48 -> 0 <= ct < 2 ^ 40 ->
  exists m', build_command W T len ((fun f => f * PAGE_SIZE) <$> fs) command lba s = Ret (tt, set_mem s m') /\
    outside h P (mem s) m' /\
    fetch h m' (cl * PAGE_SIZE) = mkCommand command lba (len / AHCI_SECTOR_SIZE) (chunks fs len) /\
    show h P m' (W + 8) 8 = to_le 8 (ct * PAGE_SIZE) /\
    forall a n, covered P a (Z.of_nat n) -> a + Z.of_nat n <= W \/ (p + 3) * PAGE_SIZE <= a ->
      show h P m' a n = show h P (mem s) a n.
Proof.
  intros Hhdr Hlen Hcmd Hlba Hctr. assert (PAGE_SIZE = 4096) as EP by done.
  set (n := (len + PAGE_SIZE - 1) / PAGE_SIZE). set (tab := concat (entry_bytes <$> chunks fs len)).
  pose proof (chunks_length fs len ltac:(lia)) as Hn. fold n in Hn.
  assert (1 <= n <= 64) as Hn64 by (unfold n; lia).
  assert (length tab = 16 * length (chunks fs len))%nat as Htab.
  { unfold tab. clear. induction (chunks fs len) as [|e l IH]; [done|]. cbn [fmap list_fmap concat length].
    rewrite length_app, IH. pose proof (entry_length e). unfold blen in *. lia. }
  assert (bytes_ok tab) as Hbt.
  { apply Forall_concat, Forall_fmap, Forall_true. intros e. apply entry_ok. }
  assert (blen (header_bytes n) = 8) as Hhl by (unfold header_bytes; by rewrite !blen_app, !blen_to_le).
  assert (bytes_ok (header_bytes n)) as Hbh.
  { unfold header_bytes. apply Forall_app; split; [apply to_le_bytes|]. apply Forall_app; split; apply to_le_bytes. }
  assert (covered P W 16) as Cw by (rewrite <- (Z.add_0_r W); apply (page_covered P p cl); (done || lia)).
  assert (covered P T 4096) as Ct by (rewrite <- (Z.add_0_r T); apply (page_covered P (p + 2) ct); (done || lia)).
  assert (T = W + 8192) as ET by (unfold T, W; lia).
  (* the three writes *)
  unfold build_command. change AHCI_PAGE_SIZE with PAGE_SIZE. fold n. unfold sbind at 1. rewrite header_stores.
  destruct (store_bytes_run h P (header_bytes n) W s Hsh) as (m1 & R1 & O1 & V1); [intros a Ha; apply Cw; lia|done|].
  rewrite R1. destruct (shared_set s h P m1 Hsh O1) as [S1 _]. unfold sbind at 1. unfold n. rewrite prdt_stores by lia. fold tab.
  destruct (store_bytes_run h P tab (T + Prdt.off) (set_mem s m1) S1) as (m2 & R2 & O2 & V2);
    [intros a Ha; apply Ct; unfold Prdt.off, blen in *; lia|done|].
  rewrite R2. destruct (shared_set (set_mem s m1) h P m2 S1 O2) as [S2 _].
  destruct (fis_stores (set_mem s m2) h P S2 T ltac:(intros a Ha; apply Ct; lia) command lba (len / AHCI_SECTOR_SIZE) Hcmd)
    as (m3 & R3 & O3 & V3).
  cbn [mem set_mem] in *. exists m3. split; [exact R3|].
  assert (blen (fis_bytes command lba (len / AHCI_SECTOR_SIZE)) = 20) as Hfl by done.
  assert (blen tab = 16 * n) as Htl by (unfold blen; lia).
  split; [eapply outside_trans; [eapply outside_trans|]; done|].
  (* what the memory shows *)
  assert (forall a k, covered P a (Z.of_nat k) -> a + Z.of_nat k <= T \/ T + PAGE_SIZE <= a ->
    show h P m3 a k = show h P m1 a k) as K31.
  { intros a k Hk Hd. rewrite (shown_out h P m3 m2 T (fis_bytes command lba (len / AHCI_SECTOR_SIZE))) by (done || lia).
    apply (shown_out h P m2 m1 (T + Prdt.off) tab); [done|done|]. unfold Prdt.off. lia. }
  assert (show h P m3 (W + 8) 8 = to_le 8 (ct * PAGE_SIZE)) as Hh3.
  { rewrite K31 by first [lia | intros a Ha; apply Cw; lia]. rewrite <- Hhdr.
    apply (shown_out h P m1 (mem s) W (header_bytes n)); [intros a Ha; apply Cw; lia|done|lia]. }
  assert (show h P m3 (W + 2) 2 = to_le 2 n) as Hn3.
  { rewrite K31 by first [lia | intros a Ha; apply Cw; lia].
    rewrite (shown_in h P m1 W (header_bytes n) (view h P (mem s)) 2 2) by first [done | lia | intros a Ha; apply Cw; lia].
    unfold header_bytes. reflexivity. }
  assert (show h P m3 T 20 = fis_bytes command lba (len / AHCI_SECTOR_SIZE)) as Hf3.
  { rewrite <- (Z.add_0_r T), (shown_in h P m3 T (fis_bytes command lba (len / AHCI_SECTOR_SIZE)) (view h P m2) 0 20)
      by first [done | lia | intros a Ha; apply Ct; lia]. done. }
  assert (show h P m3 (T + 0x80) (16 * length (chunks fs len)) = tab) as Ht3.
  { rewrite (shown_out h P m3 m2 T (fis_bytes command lba (len / AHCI_SECTOR_SIZE))) by first [done | lia | intros a Ha; apply Ct; lia].
    rewrite <- (Z.add_0_r (T + 0x80)), (shown_in h P m2 (T + 0x80) tab (view h P m1) 0)
      by first [done | unfold blen in *; lia | intros a Ha; apply Ct; lia].
    change (drop (Z.to_nat 0) tab) with tab. by rewrite take_ge by lia. }
  split; [|split; [done|]].
  - unfold W, T in Hh3, Hn3, Ht3. rewrite (show_frame h P m3 p cl) in Hh3, Hn3 by (done || lia).
    rewrite (show_frame h P m3 (p + 2) ct) in Ht3 by (done || lia).
    unfold fetch. rewrite (le_of h m3 _ 8 (ct * PAGE_SIZE) Hh3) by lia. rewrite (le_of h m3 _ 2 n Hn3) by lia.
    destruct (fis_fields command lba (len / AHCI_SECTOR_SIZE) m3 Hf3 Hcmd Hlba) as (-> & -> & ->);
      [unfold AHCI_SECTOR_SIZE; lia|].
    f_equal. rewrite <- Hn, Nat2Z.id. apply prd_table_of; [done|]. by apply chunks_ok; [lia|].
  - intros a k Hk Hd. rewrite K31 by (done || (unfold T; lia)).
    apply (shown_out h P m1 (mem s) W (header_bytes n)); [done|done|]. unfold W in *. lia.
Qed.
End RoundTrip.
