(* ===== verification/AhciXfer.v ===== *)
(** * Transfers of the AHCI driver ([src/src/ahci.rs], [xfer])

    [xfer] over any controller that keeps its promises: it always returns, it
    changes nothing but the windows, the drive it addresses and status registers,
    and when it reports success the transfer has happened ([xfer_run]). *)

From S2P Require Import Prelude Block Pmm Vmm UserMem Dma Ahci AhciHw AhciCmd.
From stdpp Require Import list.
#[local] Open Scope Z_scope.

(** Membership in a list of constants. *)
Ltac in_list := repeat first [apply list_elem_of_here | apply list_elem_of_further].

Lemma sbind_seq {S A B C} (m1 : M S A) (m2 : M S B) (k : B -> M S C) s b s' :
  sbind m1 (fun _ => m2) s = Ret (b, s') -> sbind m1 (fun _ => sbind m2 k) s = k b s'.
Proof. unfold sbind. destruct (m1 s) as [[a s1]| |]; try done. by intros ->. Qed.

(** ** Polling *)

Section SpinLemmas.
Context {S R : Type} (body : M S (option R)).

Lemma spin_inv (I : S -> Prop) p s :
  (forall s, I s -> exists r s', body s = Ret (r, s') /\ I s') -> I s ->
  exists r s', spin body p s = Ret (r, s') /\ I s'.
Proof.
  intros Hb. revert s. assert (forall m1 m2 s,
    (forall s, I s -> exists r s', m1 s = Ret (r, s') /\ I s') ->
    (forall s, I s -> exists r s', m2 s = Ret (r, s') /\ I s') -> I s ->
    exists r s', or_else (R := R) m1 m2 s = Ret (r, s') /\ I s') as Hor.
  { intros m1 m2 s H1 H2 Hs. unfold or_else. destruct (H1 s Hs) as (r & s' & Hr & Hs').
    rewrite (sbind_Ret _ _ _ _ _ Hr). destruct r; [by exists (Some r), s'|auto]. }
  induction p as [p IH|p IH|]; intros s Hs; cbn [spin]; auto.
Qed.

Lemma or_else_assoc (m1 m2 m3 : M S (option R)) s : or_else m1 (or_else m2 m3) s = or_else (or_else m1 m2) m3 s.
Proof.
  unfold or_else, sbind. by destruct (m1 s) as [[[r|] s1]| |].
Qed.

Lemma or_else_ext (m1 m2 m1' m2' : M S (option R)) s :
  (forall s, m1 s = m1' s) -> (forall s, m2 s = m2' s) -> or_else m1 m2 s = or_else m1' m2' s.
Proof.
  intros H1 H2. unfold or_else, sbind. rewrite H1. by destruct (m1' s) as [[[r|] s1]| |].
Qed.

Lemma tries_add n k s : tries body (n + k) s = or_else (tries body n) (tries body k) s.
Proof.
  revert s. induction n as [|n IH]; intros s; [done|]. cbn [Nat.add tries].
  rewrite <- or_else_assoc. by apply or_else_ext.
Qed.

Lemma spin_tries p s : spin body p s = tries body (Pos.to_nat p) s.
Proof.
  revert s. induction p as [p IH|p IH|]; intros s; cbn [spin].
  - rewrite Pos2Nat.inj_xI. cbn [tries]. apply or_else_ext; [done|]. intros t.
    rewrite Nat.mul_comm. cbn [Nat.mul]. replace (Pos.to_nat p * 2)%nat with (Pos.to_nat p + Pos.to_nat p)%nat by lia.
    rewrite tries_add. by apply or_else_ext.
  - rewrite Pos2Nat.inj_xO. replace (2 * Pos.to_nat p)%nat with (Pos.to_nat p + Pos.to_nat p)%nat by lia.
    rewrite tries_add. by apply or_else_ext.
  - change (Pos.to_nat 1) with 1%nat. cbn [tries]. unfold or_else, sbind.
    destruct (body s) as [[[r|] s1]| |]; done.
Qed.

(** A poll that is bound to succeed: [B n] is what holds while at most [n] more
    polls fail, [D] what holds afterwards. *)
Lemma spin_until (B : nat -> S -> Prop) (D : R -> S -> Prop) p n s :
  (forall n s, B n s -> exists r s', body s = Ret (r, s') /\
     match r with Some x => D x s' | None => exists n', n = Datatypes.S n' /\ B n' s' end) ->
  B n s -> (n < Pos.to_nat p)%nat -> exists x s', spin body p s = Ret (Some x, s') /\ D x s'.
Proof.
  intros Hb. rewrite spin_tries. generalize (Pos.to_nat p). intros N. revert n s.
  induction N as [|N IH]; intros n s HB Hn; [lia|]. cbn [tries]. unfold or_else.
  destruct (Hb n s HB) as (r & s' & Hr & Hs'). rewrite (sbind_Ret _ _ _ _ _ Hr). destruct r as [x|].
  - by exists x, s'.
  - destruct Hs' as (n' & -> & HB'). apply (IH n'); [done|lia].
Qed.
End SpinLemmas.

(** ** The world during a transfer *)

Section Xfer.
Context {PA : Type} `{FA : FrameAllocator PA} {H : Type} `{HL : HbaLaws H}.
Abbreviation Vmm := (Vmm PA).
Abbreviation Ahci := (@Ahci PA H).

(** A register behind a virtual address. *)
Definition reg_at (s : Vmm) (h va pa : Z) : Prop :=
  0 <= va < 2 ^ 64 /\ pa <> VMM_NO_PHYS /\ translates s h va pa.

Section World.
Context (s : Ahci) (h : Z) (P : Pages) (Hsh : shared (vm s) h P).

(** The state [s] has come to, with the hardware [x] and the memory [m]. *)
Definition at_world (x : H) (m : gmap Z Z) : Ahci := set_world s (x, m).

Definition good (m : gmap Z Z) : Prop := outside h P (mem (vm s)) m.

Lemma good_shared m : good m -> shared (set_mem (vm s) m) h P.
Proof. intros Hm. by apply shared_set. Qed.

Lemma in_vm_world {A} (f : M Vmm A) x m a m' :
  f (set_mem (vm s) m) = Ret (a, set_mem (set_mem (vm s) m) m') ->
  in_vm f (at_world x m) = Ret (a, at_world x m').
Proof. intros Hf. unfold in_vm, at_world. cbn [vm set_world fst snd]. by rewrite Hf. Qed.

Lemma in_vm_read {A} (f : M Vmm A) x m a :
  f (set_mem (vm s) m) = Ret (a, set_mem (vm s) m) -> in_vm f (at_world x m) = Ret (a, at_world x m).
Proof. intros Hf. unfold in_vm, at_world. cbn [vm set_world fst snd]. by rewrite Hf. Qed.

Lemma reg_run va pa x m : reg_at (vm s) h va pa -> good m ->
  in_vm (vmm_virt_to_phys va) (at_world x m) = Ret (pa, at_world x m) /\
  in_vm hhdm_base (at_world x m) = Ret (h, at_world x m) /\ (pa =? VMM_NO_PHYS) = false.
Proof.
  intros (Hva & Hpa & Htr) Hm. pose proof (good_shared m Hm) as Hs.
  destruct (shared_set (vm s) h P m Hsh Hm) as [_ Ht]. split; [|split; [|by apply Z.eqb_neq]].
  - apply in_vm_read. rewrite (virt_to_phys_run _ h) by (done || apply Hs). by rewrite (Ht va pa Htr).
  - apply in_vm_read. by apply (hhdm_base_run _ h P).
Qed.

Lemma mmio_read_run va pa x m v w : reg_at (vm s) h va pa -> good m -> bus_read h pa (x, m) = (v, w) ->
  mmio_read va (at_world x m) = Ret (v, set_world s w).
Proof.
  intros Hr Hm Hb. destruct (reg_run va pa x m Hr Hm) as (H1 & H2 & H3). unfold mmio_read.
  rewrite (sbind_Ret _ _ _ _ _ H1), H3, (sbind_Ret _ _ _ _ _ H2).
  unfold at_world. cbn [hw vm set_world fst snd mem set_mem]. by rewrite Hb.
Qed.

Lemma mmio_write_run va pa n v x m : reg_at (vm s) h va pa -> good m ->
  mmio_write va n v (at_world x m) = Ret (tt, set_world s (bus_write h pa n v (x, m))).
Proof.
  intros Hr Hm. destruct (reg_run va pa x m Hr Hm) as (H1 & H2 & H3). unfold mmio_write.
  by rewrite (sbind_Ret _ _ _ _ _ H1), H3, (sbind_Ret _ _ _ _ _ H2).
Qed.
End World.

Lemma world_id (s : Ahci) : at_world s (hw s) (mem (vm s)) = s.
Proof. by destruct s as [[] ?]. Qed.

Lemma hb_kept_refl (x : H) : hb_kept x x.
Proof. by split. Qed.

Lemma hb_kept_trans (x y z : H) : hb_kept x y -> hb_kept y z -> hb_kept x z.
Proof.
  intros [[C1 P1] B1] [[C2 P2] B2]. split; [split|].
  - intros a. by rewrite C2.
  - intros q. destruct (P1 q) as [E1 I1], (P2 q) as [E2 I2]. split; [by rewrite E2|by rewrite I2].
  - intros q. destruct (B1 q) as [E1 F1], (B2 q) as [E2 F2]. split; congruence.
Qed.

Lemma hb_kept_port (x y : H) pb : hb_kept x y -> hb_port x pb -> hb_port y pb.
Proof. intros [[_ Hp] _]. by apply Hp. Qed.

(** ** A port that is up *)

Definition DMA_PAGE : Z := AHCI_DMA_BASE / PAGE_SIZE.

(** The first page of the window of a port. *)
Definition port_page (n : Z) : Z := AHCI_WINDOW_BASE / PAGE_SIZE + 3 * n.

(** The staging window is backed by the frames [fs], and the driver knows them. *)
Record staging_ok (s : Ahci) (P : Pages) (fs : list Z) : Prop := {
  st_run : run_of P DMA_PAGE fs;
  st_length : length fs = 64%nat;
  st_phys : AHCI_DMA_PHYS s = (fun f => f * PAGE_SIZE) <$> fs;
}.

(** Register files are mapped below the windows. *)
Definition below_windows (va : Z) : Prop :=
  2 ^ 64 - 2 ^ 47 <= va < AHCI_WINDOW_BASE.

(** The registers of port [n] at [hba] are those of the physical port [pb], whose
    command list and table are in the window of the port. *)
Record port_ok (s : Ahci) (h : Z) (P : Pages) (hba n pb : Z) : Prop := {
  po_num : 0 <= n < AHCI_PORT_MAX;
  po_port : hb_port (hw s) pb;
  po_below : forall r, 0 <= r < Reg.port_size -> below_windows (port_reg hba n r);
  po_regs : forall r, 0 <= r < Reg.port_size -> reg_at (vm s) h (port_reg hba n r) (pb + r);
  po_command : exists cl fb ct, P !! port_page n = Some cl /\ P !! (port_page n + 1) = Some fb /\
    P !! (port_page n + 2) = Some ct /\
    hb_clb (hw s) pb = cl * PAGE_SIZE /\ hb_fb (hw s) pb = fb * PAGE_SIZE /\
    show h P (mem (vm s)) (port_page n * PAGE_SIZE + 8) 8 = to_le 8 (ct * PAGE_SIZE);
}.

(** A transfer through port [n] leaves every window as it was but its own and
    the staging window. *)
Definition other_windows (h : Z) (P : Pages) (n : Z) (m m' : gmap Z Z) : Prop := forall a k,
  covered P a (Z.of_nat k) ->
  a + Z.of_nat k <= port_page n * PAGE_SIZE \/ (port_page n + 3) * PAGE_SIZE <= a ->
  a + Z.of_nat k <= AHCI_DMA_BASE \/ AHCI_DMA_BASE + AHCI_MAX_TRANSFER <= a ->
  show h P m' a k = show h P m a k.

Lemma dma_covered (s : Ahci) P fs len : staging_ok s P fs -> 0 <= len <= AHCI_MAX_TRANSFER -> covered P AHCI_DMA_BASE len.
Proof.
  intros Hst Hlen a Ha. destruct Hst as [Hr Hl _].
  destruct (lookup_lt_is_Some_2 fs (Z.to_nat ((a - AHCI_DMA_BASE) / PAGE_SIZE))) as [f Hf].
  { rewrite Hl. unfold AHCI_MAX_TRANSFER, AHCI_DMA_PAGES, PAGE_SIZE in *. lia. }
  apply Hr in Hf. replace (DMA_PAGE + _) with (a / PAGE_SIZE) in Hf
    by (unfold DMA_PAGE, AHCI_DMA_BASE, PAGE_SIZE in *; lia).
  unfold phys_of. rewrite Hf. eauto.
Qed.

Section Run.
Context (s : Ahci) (h : Z) (P : Pages) (fs : list Z) (dev : AhciDevice) (pb : Z).
Context (Hsh : shared (vm s) h P) (Hidle : hb_idle (hw s)) (Hst : staging_ok s P fs).
Context (Hpo : port_ok s h P (dev_hba dev) (dev_port dev) pb).

Let n := dev_port dev.
Let port := port_reg (dev_hba dev) n.
Abbreviation St := (at_world s).
Abbreviation good := (good s h P).

Lemma frames_small : Forall (fun f => 0 <= f < 2 ^ 40) fs.
Proof.
  apply Forall_lookup_2. intros i f Hf. apply (st_run _ _ _ Hst) in Hf.
  by apply (sh_frame _ _ _ Hsh) in Hf as (_ & [? _] & _).
Qed.

Lemma good_refl : good (mem (vm s)).
Proof. apply outside_refl. Qed.

(** *** Staging *)

Lemma stage_run buf len to_disk x m : good m -> 0 < len <= AHCI_MAX_TRANSFER ->
  (forall l, buf = Some l -> blen l = len /\ bytes_ok l) ->
  exists m', sbind (in_vm (reset_page dma_virt)) (fun _ =>
      match buf with
      | Some l => if to_disk : bool then in_vm (store_user_bytes dma_virt (take (Z.to_nat len) l)) else sret tt
      | None => sret tt
      end) (St x m) = Ret (tt, St x m') /\ good m' /\
    (forall l, buf = Some l -> to_disk = true -> show h P m' AHCI_DMA_BASE (Z.to_nat len) = l) /\
    forall a k, covered P a (Z.of_nat k) ->
      a + Z.of_nat k <= AHCI_DMA_BASE \/ AHCI_DMA_BASE + AHCI_MAX_TRANSFER <= a -> show h P m' a k = show h P m a k.
Proof.
  intros Hm Hlen Hbuf. assert (AHCI_MAX_TRANSFER = 262144) as EM by done.
  destruct (reset_page_run h P dma_virt (set_mem (vm s) m)) as (m1 & R1 & O1 & V1);
    [by apply good_shared|apply (dma_covered s P fs); [done|unfold PAGE_SIZE; lia]|].
  assert (good m1) as G1 by (by eapply outside_trans).
  assert (forall a k, covered P a (Z.of_nat k) ->
    a + Z.of_nat k <= AHCI_DMA_BASE \/ AHCI_DMA_BASE + AHCI_MAX_TRANSFER <= a -> show h P m1 a k = show h P m a k) as W1.
  { intros a k Hk Hd. apply (shown_out h P m1 m dma_virt (zeros PAGE_SIZE)); [done|done|].
    rewrite blen_zeros by done. unfold dma_virt, PAGE_SIZE. lia. }
  rewrite (sbind_Ret _ _ _ _ _ (in_vm_world s _ x m tt m1 R1)).
  destruct buf as [l|]; [destruct to_disk|]; [|by exists m1..]. destruct (Hbuf l eq_refl) as [Hl Hb].
  rewrite take_ge by (unfold blen in Hl; lia).
  destruct (store_bytes_run h P l dma_virt (set_mem (vm s) m1)) as (m2 & R2 & O2 & V2);
    [by apply good_shared|rewrite Hl; apply (dma_covered s P fs); [done|lia]|done|].
  exists m2. split; [exact (in_vm_world s _ x m1 tt m2 R2)|]. cbn [mem set_mem] in V2. split; [by eapply outside_trans|]. split.
  - intros l' [= <-] _. rewrite <- (Z.add_0_r AHCI_DMA_BASE).
    rewrite (shown_in h P m2 dma_virt l (view h P m1) 0) by first [done | lia | (rewrite Z.add_0_r; apply (dma_covered s P fs); [done|lia])].
    change (drop (Z.to_nat 0) l) with l. apply take_ge. unfold blen in Hl. lia.
  - intros a k Hk Hd. rewrite <- (W1 a k Hk Hd).
    apply (shown_out h P m2 m1 dma_virt l); [done|done|]. unfold dma_virt. lia.
Qed.

(** *** Registers while nothing is outstanding *)

Lemma port_regs r : 0 <= r < Reg.port_size -> reg_at (vm s) h (port r) (pb + r).
Proof. apply (po_regs _ _ _ _ _ _ Hpo). Qed.

(** The hardware shows what it showed at the start, and is idle. *)
Definition calm (x : H) : Prop := hb_idle x /\ hb_kept (hw s) x.

Lemma calm_port x : calm x -> hb_port x pb.
Proof. intros [_ Hk]. eapply hb_kept_port; [done|apply Hpo]. Qed.

Lemma status_read x m r : calm x -> good m -> r ∈ [Reg.tfd; Reg.ci] ->
  exists v x', mmio_read (port r) (St x m) = Ret (v, St x' m) /\ calm x' /\ (r = Reg.ci -> Z.land v 1 = 0).
Proof.
  intros Hx Hm Hr. pose proof (calm_port x Hx) as Hp. destruct Hx as [Hi Hk].
  destruct (hb_read h x m pb r Hi Hp Hr) as (v & x' & Hb & Hi' & Hk' & Hci).
  exists v, x'. split; [|split; [split; [done|by eapply hb_kept_trans]|done]].
  apply (mmio_read_run s h P Hsh _ (pb + r)); [|done|done].
  apply port_regs. unfold Reg.port_size, Reg.tfd, Reg.ci in *. set_unfold. lia.
Qed.

Lemma status_clear x m r : calm x -> good m -> r ∈ [Reg.pxis; Reg.serr] ->
  exists x', mmio_write (port r) 4 0xFFFFFFFF (St x m) = Ret (tt, St x' m) /\ calm x'.
Proof.
  intros Hx Hm Hr. pose proof (calm_port x Hx) as Hp. destruct Hx as [Hi Hk].
  destruct (hb_clear h x m pb r Hi Hp Hr) as (x' & Hb & Hi' & Hk').
  exists x'. split; [|split; [done|by eapply hb_kept_trans]].
  rewrite (mmio_write_run s h P Hsh _ (pb + r)); [by rewrite Hb| |done].
  apply port_regs. unfold Reg.port_size, Reg.pxis, Reg.serr in *. set_unfold. lia.
Qed.

Lemma ready_run x m : calm x -> good m ->
  exists r x', spin (port_ready port) AHCI_XFER_SPINS (St x m) = Ret (r, St x' m) /\ calm x'.
Proof.
  intros Hx Hm. destruct (spin_inv (port_ready port) (fun t => exists x', t = St x' m /\ calm x') AHCI_XFER_SPINS (St x m))
    as (r & t & Hr & x' & -> & Hx').
  - intros t (y & -> & Hy). destruct (status_read y m Reg.tfd Hy Hm) as (v & y' & Hrd & Hy' & _); [in_list|].
    unfold port_ready. rewrite (sbind_Ret _ _ _ _ _ Hrd). eauto 6.
  - eauto.
  - eauto.
Qed.

(** *** A command *)

(** The areas of the command are in the windows. *)
Lemma flight_good x m m' len : calm x -> good m -> 0 <= len <= AHCI_MAX_TRANSFER ->
  (forall a, ~ touches h (chunks fs len) a -> ~ hb_scratch x h pb a -> rd m' a = rd m a) -> good m'.
Proof.
  intros [_ [_ Hk]] Hm Hlen Hm'. eapply outside_trans; [exact Hm|]. intros a Ha.
  destruct (po_command _ _ _ _ _ _ Hpo) as (cl & fb & ct & Hcl & Hfb & _ & Eclb & Efb & _).
  destruct (Hk pb) as [Kc Kf]. apply Hm'.
  - intros Ht. destruct (chunks_touch (vm s) h P Hsh fs len a Ht) as (i & f & Hi & Hin).
    apply (st_run _ _ _ Hst) in Hi. by apply (Ha _ f Hi).
  - intros [->|Hin].
    + apply (Ha _ _ Hcl). rewrite Kc, Eclb. unfold in_page, PAGE_SIZE. lia.
    + apply (Ha _ _ Hfb). rewrite Kf, Efb in Hin. unfold in_page, PAGE_SIZE in *. lia.
Qed.

Lemma command_run x m c len : calm x -> good m -> 0 <= len <= AHCI_MAX_TRANSFER ->
  fetch h m (hb_clb x pb) = c -> c_prd c = chunks fs len -> hb_legal (hb_image x pb) c ->
  exists ok x' m', run_command port (St x m) = Ret (ok, St x' m') /\ good m' /\ hb_idle x' /\
    hb_effect ok h pb (x, m) (x', m') c.
Proof.
  intros Hx Hm Hlen Hc Hprd Hl. pose proof (calm_port x Hx) as Hp. pose proof Hx as [Hi _].
  assert (forall m', hb_flight h pb (x, m) m' (fetch h m (hb_clb x pb)) -> good m') as Hfl.
  { intros m' Hf. apply (flight_good x m m' len Hx Hm Hlen). unfold hb_flight in Hf. rewrite Hc, Hprd in Hf. exact Hf. }
  assert (forall r, 0 <= r < Reg.port_size -> reg_at (vm s) h (port r) (pb + r)) as Hr by apply port_regs.
  subst c. destruct (hb_issue h x m pb Hi Hp Hl) as (k & Hk & Hbusy).
  unfold run_command. rewrite (sbind_Ret _ _ _ _ _ (mmio_write_run s h P Hsh _ _ 4 1 x m (Hr Reg.ci ltac:(done)) Hm)).
  destruct (spin_until (slot_done port) (fun k t => exists w, t = set_world s w /\ hb_busy h pb (x, m) k w)
    (fun _ t => exists w, t = set_world s w /\ hb_done h pb (x, m) w) AHCI_XFER_SPINS k
    (set_world s (bus_write h (pb + Reg.ci) 4 1 (x, m)))) as ([] & t & Hrun & w & -> & Hdone); [|eauto|done|].
  { intros j t (w & -> & Hb). pose proof (Hfl _ (hb_busy_mem _ _ _ _ _ Hb)) as Hg. destruct w as [y my]. cbn [snd] in Hg.
    destruct (hb_poll _ _ _ _ _ Hb) as (v & w' & Hv & Hw').
    exists (if Z.land v 1 =? 0 then Some tt else None), (set_world s w'). split.
    - unfold slot_done. by rewrite (sbind_Ret _ _ _ _ _ (mmio_read_run s h P Hsh _ _ y my v w' (Hr Reg.ci ltac:(done)) Hg Hv)).
    - destruct (Z.land v 1 =? 0); [eauto|]. destruct Hw' as (j' & -> & Hb'). eauto. }
  rewrite (sbind_Ret _ _ _ _ _ Hrun). cbn [negb bool_decide]. rewrite bool_decide_true by done. cbn [negb].
  pose proof (Hfl _ (hb_done_mem _ _ _ _ Hdone)) as Hg. destruct w as [y my]. cbn [snd] in Hg.
  destruct (hb_status _ _ _ _ Hdone) as (st & x1 & td & x2 & H1 & H2 & Hi2 & He). cbn [snd] in *.
  rewrite (sbind_Ret _ _ _ _ _ (mmio_read_run s h P Hsh _ _ y my st (x1, my) (Hr Reg.pxis ltac:(done)) Hg H1)).
  rewrite (sbind_Ret _ _ _ _ _ (mmio_read_run s h P Hsh _ _ x1 my td (x2, my) (Hr Reg.tfd ltac:(done)) Hg H2)).
  by eexists _, x2, my.
Qed.

(** *** What memory shows after a command *)

Lemma view_word m m' a pa : phys_of P a = Some pa ->
  rd m' ((pa + h) / 8 * 8) = rd m ((pa + h) / 8 * 8) -> view h P m' a = view h P m a.
Proof. intros Hpa E. rewrite !(view_at _ _ _ _ _ Hpa). unfold byte_at. by rewrite E. Qed.

(** Addresses of the windows the controller leaves to the driver. *)
Definition untouched (a : Z) : Prop :=
  a < port_page n * PAGE_SIZE \/ (port_page n + 2) * PAGE_SIZE <= a \/
  port_page n * PAGE_SIZE + 8 <= a < (port_page n + 1) * PAGE_SIZE.

Lemma untouched_word x a pa : calm x -> phys_of P a = Some pa -> untouched a ->
  ~ hb_scratch x h pb ((pa + h) / 8 * 8).
Proof.
  intros [_ [_ Hk]] (f & Hf & ->)%phys_of_Some Ha Hs. destruct (Hk pb) as [Kc Kf].
  destruct (po_command _ _ _ _ _ _ Hpo) as (cl & fb & ct & Hcl & Hfb & _ & Eclb & Efb & _).
  pose proof (sh_align _ _ _ Hsh) as Hal. fold n in Hcl, Hfb. unfold untouched in Ha.
  unfold hb_scratch in Hs. rewrite Kc, Kf, Eclb, Efb in Hs.
  assert (a / PAGE_SIZE <> port_page n + 1) by (unfold PAGE_SIZE in *; lia).
  assert (f <> fb) by (intros ->; by pose proof (sh_inj _ _ _ Hsh _ _ _ Hf Hfb)).
  destruct Hs as [Hs|Hs]; [|unfold PAGE_SIZE in *; lia].
  assert (f = cl) as -> by (unfold PAGE_SIZE in *; lia).
  pose proof (sh_inj _ _ _ Hsh _ _ _ Hf Hcl) as E. unfold PAGE_SIZE in *. lia.
Qed.

Lemma dma_word len a pa : phys_of P a = Some pa -> touches h (chunks fs len) ((pa + h) / 8 * 8) ->
  AHCI_DMA_BASE <= a < AHCI_DMA_BASE + AHCI_MAX_TRANSFER.
Proof.
  intros (f & Hf & ->)%phys_of_Some Ht. destruct (chunks_touch (vm s) h P Hsh fs len _ Ht) as (i & g & Hi & Hin).
  pose proof (lookup_lt_Some _ _ _ Hi) as Hlt. rewrite (st_length _ _ _ Hst) in Hlt. apply (st_run _ _ _ Hst) in Hi.
  pose proof (sh_align _ _ _ Hsh) as Hal. assert (f = g) as -> by (unfold in_page, PAGE_SIZE in *; lia).
  pose proof (sh_inj _ _ _ Hsh _ _ _ Hf Hi).
  unfold DMA_PAGE, AHCI_DMA_BASE, AHCI_MAX_TRANSFER, AHCI_DMA_PAGES, PAGE_SIZE in *. lia.
Qed.

(** After a command, other windows show what they showed; after a successful
    transfer from the drive, the staging window shows the data. *)
Lemma effect_shows ok x m x' m' c len : calm x -> good m -> c_prd c = chunks fs len ->
  0 <= len <= AHCI_MAX_TRANSFER -> hb_effect ok h pb (x, m) (x', m') c ->
  (blen (hb_answer x pb c) = len \/ hb_answer x pb c = []) -> bytes_ok (hb_answer x pb c) ->
  (forall a, is_Some (phys_of P a) -> untouched a ->
     a < AHCI_DMA_BASE \/ AHCI_DMA_BASE + AHCI_MAX_TRANSFER <= a -> view h P m' a = view h P m a) /\
  (ok = true -> c_op c <> AHCI_CMD_WRITE_DMA_EXT ->
     forall k v, hb_answer x pb c !! k = Some v -> view h P m' (AHCI_DMA_BASE + Z.of_nat k) = v).
Proof.
  intros Hx Hm Hprd Hlen (_ & _ & _ & He) Hans Hb. cbn [fst snd] in He. rewrite Hprd in He.
  assert (AHCI_DMA_BASE = DMA_PAGE * PAGE_SIZE) as ED by done.
  assert (outside h P m (scatter h (chunks fs len) (hb_answer x pb c) m) /\ forall a, is_Some (phys_of P a) ->
    view h P (scatter h (chunks fs len) (hb_answer x pb c) m) a = written AHCI_DMA_BASE (hb_answer x pb c) (view h P m) a)
    as [_ Hsc].
  { destruct Hans as [Hans|Hans].
    - rewrite ED. apply (scatter_chunks (vm s) h P Hsh); [apply Hst| |done|done].
      rewrite (st_length _ _ _ Hst). unfold AHCI_MAX_TRANSFER, AHCI_DMA_PAGES, PAGE_SIZE in *. lia.
    - rewrite Hans, scatter_nothing. split; [apply outside_refl|]. intros a _. by rewrite written_nil. }
  assert (blen (hb_answer x pb c) <= AHCI_MAX_TRANSFER) as Hbl.
  { destruct Hans as [->| ->]; [lia|]. change (blen []) with 0. lia. }
  split.
  - intros a [pa Hpa] Hun Hd. pose proof (untouched_word x a pa Hx Hpa Hun) as Hns.
    destruct (c_op c =? AHCI_CMD_WRITE_DMA_EXT).
    + destruct He as [He _]. apply (view_word _ _ _ _ Hpa). by apply He.
    + destruct He as [_ He]. destruct ok.
      * rewrite (view_word _ _ _ _ Hpa (He _ Hns)), Hsc by eauto. apply written_out. lia.
      * apply (view_word _ _ _ _ Hpa), He; [|done]. intros Ht. apply (dma_word len a pa Hpa) in Ht. lia.
  - intros -> Hop k v Hk. rewrite (proj2 (Z.eqb_neq _ _)) in He by done. destruct He as [_ He].
    pose proof (lookup_lt_Some _ _ _ Hk) as Hlt. unfold blen in Hbl.
    destruct (dma_covered s P fs AHCI_MAX_TRANSFER Hst ltac:(lia) (AHCI_DMA_BASE + Z.of_nat k) ltac:(lia)) as [pa Hpa].
    assert (untouched (AHCI_DMA_BASE + Z.of_nat k)) as Hun.
    { pose proof (po_num _ _ _ _ _ _ Hpo) as Hn. fold n in Hn. unfold untouched, port_page, AHCI_PORT_MAX, AHCI_DMA_BASE, AHCI_WINDOW_BASE, PAGE_SIZE in *. lia. }
    rewrite (view_word _ _ _ _ Hpa (He _ (untouched_word x _ pa Hx Hpa Hun))), Hsc by eauto. by apply written_in.
Qed.

(** ** The whole transfer *)

(** What a transfer leaves alone. *)
Record left_alone (x : H) (m : gmap Z Z) : Prop := {
  la_good : good m;
  la_idle : hb_idle x;
  la_ctrl : forall a, hb_ctrl x a <-> hb_ctrl (hw s) a;
  la_ports : forall q, (hb_port x q <-> hb_port (hw s) q) /\ hb_clb x q = hb_clb (hw s) q /\ hb_fb x q = hb_fb (hw s) q;
  la_drives : forall q, q <> pb -> hb_image x q = hb_image (hw s) q;
  la_header : show h P m (port_page n * PAGE_SIZE + 8) 8 = show h P (mem (vm s)) (port_page n * PAGE_SIZE + 8) 8;
  la_windows : other_windows h P n (mem (vm s)) m;
}.

Lemma calm_left_alone x m : calm x -> good m ->
  show h P m (port_page n * PAGE_SIZE + 8) 8 = show h P (mem (vm s)) (port_page n * PAGE_SIZE + 8) 8 ->
  other_windows h P n (mem (vm s)) m -> left_alone x m /\ hb_image x pb = hb_image (hw s) pb.
Proof.
  intros [Hi [[Hc Hp] Hk]] Hm Hh Hw. split; [|apply Hp]. constructor; try done.
  - intros q. split; [apply Hp|apply Hk].
  - intros q _. apply Hp.
Qed.

(** The drive after a transfer that was not, or not well, carried out, and what a
    transfer that went well has done. *)
Definition xfer_failed (command lba len : Z) (img img' : list Z) : Prop :=
  if command =? AHCI_CMD_WRITE_DMA_EXT then same_outside img img' (512 * lba) (512 * lba + len) else img' = img.

Record xfer_done (command lba : Z) (buf : option (list Z)) (len : Z) (img : list Z)
    (out : list Z) (img' : list Z) (m : gmap Z Z) : Prop := {
  xd_write : command = AHCI_CMD_WRITE_DMA_EXT -> forall l, buf = Some l -> splice img (512 * lba) l = Ret img';
  xd_other : command <> AHCI_CMD_WRITE_DMA_EXT -> img' = img;
  xd_read : command = AHCI_CMD_READ_DMA_EXT -> buf <> None -> slice img (512 * lba) (512 * lba + len) = Ret out;
  xd_ident : command = AHCI_CMD_IDENTIFY_DEVICE ->
    exists k b, blen img = 512 * k /\ ident_sectors (show h P m AHCI_DMA_BASE 512) = Ret (k, b);
}.

Definition good_length (len : Z) : Prop := 0 < len <= AHCI_MAX_TRANSFER /\ len mod AHCI_SECTOR_SIZE = 0.

(** What the caller of [xfer] sees to. *)
Record xfer_pre (command lba : Z) (buf : option (list Z)) (len : Z) (to_disk : bool) : Prop := {
  xp_lba : 0 <= lba < 2 ^ 48;
  xp_len : 0 <= len;
  xp_buf : forall l, buf = Some l -> blen l = len /\ bytes_ok l;
  xp_op : command ∈ [AHCI_CMD_READ_DMA_EXT; AHCI_CMD_WRITE_DMA_EXT; AHCI_CMD_IDENTIFY_DEVICE; AHCI_CMD_FLUSH_CACHE_EXT];
  xp_dir : to_disk = bool_decide (command = AHCI_CMD_WRITE_DMA_EXT);
  xp_from : command = AHCI_CMD_WRITE_DMA_EXT -> buf <> None;
  xp_range : command = AHCI_CMD_READ_DMA_EXT \/ command = AHCI_CMD_WRITE_DMA_EXT ->
    len mod 512 = 0 -> 512 * lba + len <= blen (hb_image (hw s) pb);
  xp_ident : command = AHCI_CMD_IDENTIFY_DEVICE -> len = 512;
}.

Section Command.
Context (command lba : Z) (buf : option (list Z)) (len : Z) (to_disk : bool).
Context (Hpre : xfer_pre command lba buf len to_disk) (Hlen : good_length len).

Let c : Command := mkCommand command lba (len / AHCI_SECTOR_SIZE) (chunks fs len).

Lemma command_legal x : calm x -> hb_legal (hb_image x pb) c.
Proof.
  intros [_ [[_ Hp] _]]. destruct Hlen as [Hl Hmod]. assert (AHCI_SECTOR_SIZE = 512 /\ AHCI_MAX_TRANSFER = 262144) as [E1 E2] by done.
  destruct (chunks_ok fs len) as [Hok Hsum]; [rewrite (st_length _ _ _ Hst); unfold PAGE_SIZE; lia|apply frames_small|].
  pose proof (xp_lba _ _ _ _ _ Hpre). unfold hb_legal, c. cbn [c_lba c_count c_prd c_op].
  split; [lia|]. split; [lia|]. split; [lia|]. split; [|split; [|apply Hpre]].
  - eapply Forall_impl; [exact Hok|]. intros e [_ ?]. lia.
  - intros Hop. destruct (Hp pb) as [_ ->]. pose proof (xp_range _ _ _ _ _ Hpre Hop). lia.
Qed.

Lemma command_answer x : calm x ->
  (blen (hb_answer x pb c) = len \/ hb_answer x pb c = []) /\ bytes_ok (hb_answer x pb c).
Proof.
  intros Hx. pose proof (calm_port x Hx) as Hport. destruct Hx as [_ [[_ Hp] _]].
  destruct Hlen as [Hl Hmod]. assert (AHCI_SECTOR_SIZE = 512) as E1 by done.
  unfold hb_answer, c. cbn [c_op c_count c_lba]. destruct (Z.eqb_spec command AHCI_CMD_READ_DMA_EXT) as [E|E].
  - pose proof (xp_range _ _ _ _ _ Hpre ltac:(by left)) as Hr. pose proof (xp_lba _ _ _ _ _ Hpre).
    destruct (Hp pb) as [_ EI]. split.
    + left. rewrite EI. unfold blen in *. rewrite length_take, length_drop. lia.
    + apply Forall_take, Forall_drop. by apply hb_bytes.
  - destruct (Z.eqb_spec command AHCI_CMD_IDENTIFY_DEVICE) as [E'|E']; [|split; [by right|constructor]].
    destruct (hb_identity x pb Hport) as (Hi & Hb & _). split; [|done]. left. rewrite Hi. symmetry. by apply Hpre.
Qed.

(** Building the command. *)
Lemma prepare x m : calm x -> good m ->
  show h P m (port_page n * PAGE_SIZE + 8) 8 = show h P (mem (vm s)) (port_page n * PAGE_SIZE + 8) 8 ->
  exists m1, in_vm (build_command (AHCI_WINDOW_BASE + n * AHCI_WINDOW_SIZE + AHCI_CL_OFF)
      (AHCI_WINDOW_BASE + n * AHCI_WINDOW_SIZE + AHCI_CT_OFF) len (AHCI_DMA_PHYS s) command lba) (St x m) = Ret (tt, St x m1) /\
    good m1 /\ fetch h m1 (hb_clb x pb) = c /\
    show h P m1 (port_page n * PAGE_SIZE + 8) 8 = show h P m (port_page n * PAGE_SIZE + 8) 8 /\
    forall a k, covered P a (Z.of_nat k) ->
      a + Z.of_nat k <= port_page n * PAGE_SIZE \/ (port_page n + 3) * PAGE_SIZE <= a ->
      show h P m1 a k = show h P m a k.
Proof.
  intros [_ [_ Hk]] Hm Hhdr. destruct (Hk pb) as [Kc _]. destruct Hlen as [Hl _].
  destruct (po_command _ _ _ _ _ _ Hpo) as (cl & fb & ct & Hcl & _ & Hct & Eclb & _ & Eh). fold n in Hcl, Hct, Eh.
  assert (AHCI_MAX_TRANSFER = 262144) as EM by done. pose proof (st_length _ _ _ Hst) as Hfl.
  assert (0 <= command < 256) as Hcmd.
  { pose proof (xp_op _ _ _ _ _ Hpre) as Hop. unfold AHCI_CMD_READ_DMA_EXT, AHCI_CMD_WRITE_DMA_EXT, AHCI_CMD_IDENTIFY_DEVICE,
      AHCI_CMD_FLUSH_CACHE_EXT in Hop. set_unfold. lia. }
  rewrite Eh in Hhdr. destruct (sh_frame _ _ _ Hsh _ _ Hct) as (_ & [Hctr _] & _).
  destruct (build_run (set_mem (vm s) m) h P (good_shared s h P Hsh m Hm) (port_page n) cl ct Hcl Hct fs ltac:(lia) frames_small
    len command lba Hhdr) as (m1 & R & O & F & S1 & S2); [unfold PAGE_SIZE; lia|done|apply Hpre|done|].
  exists m1. split; [|split; [by eapply outside_trans|split; [by rewrite Kc, Eclb|split; [by rewrite S1|exact S2]]]].
  apply in_vm_world. rewrite (st_phys _ _ _ Hst).
  replace (AHCI_WINDOW_BASE + n * AHCI_WINDOW_SIZE + AHCI_CL_OFF) with (port_page n * PAGE_SIZE)
    by (unfold port_page, AHCI_WINDOW_BASE, AHCI_WINDOW_SIZE, AHCI_CL_OFF, PAGE_SIZE; lia).
  replace (AHCI_WINDOW_BASE + n * AHCI_WINDOW_SIZE + AHCI_CT_OFF) with ((port_page n + 2) * PAGE_SIZE)
    by (unfold port_page, AHCI_WINDOW_BASE, AHCI_WINDOW_SIZE, AHCI_CT_OFF, PAGE_SIZE; lia).
  exact R.
Qed.

Lemma show_views m m' a k : (forall b, a <= b < a + Z.of_nat k -> view h P m' b = view h P m b) ->
  show h P m' a k = show h P m a k.
Proof.
  intros Hv. apply show_ext; [apply show_length|]. intros i v Hi. pose proof (lookup_lt_Some _ _ _ Hi) as Hlt.
  rewrite show_length in Hlt. rewrite show_lookup in Hi by done. injection Hi as <-. apply Hv. lia.
Qed.

Lemma header_covered : covered P (port_page n * PAGE_SIZE + 8) 8.
Proof. destruct (po_command _ _ _ _ _ _ Hpo) as (cl & _ & _ & Hcl & _). by apply (page_covered P _ cl 8 8 Hcl). Qed.

Lemma effect_left_alone ok x m x' m' : calm x -> good m -> good m' -> hb_idle x' ->
  hb_effect ok h pb (x, m) (x', m') c ->
  show h P m (port_page n * PAGE_SIZE + 8) 8 = show h P (mem (vm s)) (port_page n * PAGE_SIZE + 8) 8 ->
  other_windows h P n (mem (vm s)) m -> left_alone x' m'.
Proof.
  intros Hx Hm Hm' Hi He Hh Hw. destruct (command_answer x Hx) as [Ha Hb]. destruct Hlen as [Hl _].
  destruct (effect_shows ok x m x' m' c len Hx Hm eq_refl ltac:(lia) He Ha Hb) as [Hv _].
  destruct He as (Hc & Hp & Himg & _). cbn [fst] in *. destruct Hx as [_ [[Kc Kp] Kb]].
  pose proof (po_num _ _ _ _ _ _ Hpo) as Hn. fold n in Hn.
  constructor; try done.
  - intros a. by rewrite Hc.
  - intros q. destruct (Hp q) as (-> & -> & ->). destruct (Kb q). split; [apply Kp|done].
  - intros q Hq. rewrite Himg by done. apply Kp.
  - rewrite <- Hh. apply show_views. intros b Hb'. apply Hv; [by apply header_covered| |];
      unfold untouched, port_page, AHCI_PORT_MAX, AHCI_DMA_BASE, AHCI_WINDOW_BASE, PAGE_SIZE in *; lia.
  - intros a k Hk H1 H2. rewrite <- (Hw a k Hk H1 H2). apply show_views. intros b Hb'.
    apply Hv; [by apply Hk| |lia]. unfold untouched, PAGE_SIZE in *. lia.
Qed.

Lemma effect_result ok x m x' m' : calm x -> good m -> hb_effect ok h pb (x, m) (x', m') c ->
  (forall l, buf = Some l -> to_disk = true -> show h P m AHCI_DMA_BASE (Z.to_nat len) = l) ->
  if ok then xfer_done command lba buf len (hb_image (hw s) pb) (show h P m' AHCI_DMA_BASE (Z.to_nat len)) (hb_image x' pb) m'
  else xfer_failed command lba len (hb_image (hw s) pb) (hb_image x' pb).
Proof.
  intros Hx Hm He Hstage. destruct (command_answer x Hx) as [Ha Hb]. pose proof Hlen as [Hl Hmod].
  destruct (effect_shows ok x m x' m' c len Hx Hm eq_refl ltac:(lia) He Ha Hb) as [_ Hv].
  destruct He as (_ & _ & _ & He). cbn [fst snd c c_op c_lba c_count c_prd] in He.
  pose proof (calm_port x Hx) as Hport. destruct Hx as [_ [[_ Kp] _]]. destruct (Kp pb) as [_ EI]. rewrite EI in He.
  assert (AHCI_SECTOR_SIZE = 512) as E1 by done. pose proof (xp_lba _ _ _ _ _ Hpre) as Hlba.
  destruct (Z.eqb_spec command AHCI_CMD_WRITE_DMA_EXT) as [Ew|Ew].
  - destruct He as [_ He]. destruct ok.
    + constructor; try (intros E; rewrite Ew in E; discriminate E); [|done].
      intros _ l Hl'. rewrite <- He. f_equal. rewrite <- (Hstage l Hl') by (rewrite (xp_dir _ _ _ _ _ Hpre); by apply bool_decide_true).
      symmetry. apply (gather_chunks h P m fs DMA_PAGE); [apply Hst|]. rewrite (st_length _ _ _ Hst).
      unfold AHCI_MAX_TRANSFER, AHCI_DMA_PAGES, PAGE_SIZE in *. lia.
    + unfold xfer_failed. rewrite Ew, Z.eqb_refl. by replace (512 * lba + len) with (512 * lba + 512 * (len / AHCI_SECTOR_SIZE)) by lia.
  - destruct He as [He _]. destruct ok; [|unfold xfer_failed; by rewrite (proj2 (Z.eqb_neq _ _))].
    specialize (Hv eq_refl Ew). constructor; try done.
    + intros Er _. pose proof (xp_range _ _ _ _ _ Hpre (or_introl Er)) as Hr. rewrite slice_Ret by lia. f_equal.
      symmetry. apply show_ext; [rewrite length_take, length_drop; unfold blen in *; lia|]. intros k v Hk. apply Hv.
      unfold hb_answer, c. cbn [c_op c_count c_lba]. rewrite Er, Z.eqb_refl, EI.
      by replace (512 * (len / AHCI_SECTOR_SIZE)) with (512 * lba + len - 512 * lba) by lia.
    + intros Ei. destruct (hb_identity x pb Hport) as (Hi1 & _ & k & b & Hi2 & Hi3). exists k, b.
      rewrite <- EI, Hi2. split; [done|]. rewrite <- Hi3. f_equal. apply show_ext; [unfold blen in Hi1; lia|].
      intros j v Hj. apply Hv. unfold hb_answer, c. cbn [c_op]. by rewrite Ei.
Qed.
End Command.

(** [xfer] returns, whatever the controller answers; it leaves alone what it
    should; and a success means what it says. *)
Lemma xfer_run command lba buf len to_disk : xfer_pre command lba buf len to_disk ->
  exists r x m, xfer dev command lba buf len to_disk s = Ret (r, St x m) /\ left_alone x m /\
    match r with
    | None => xfer_failed command lba len (hb_image (hw s) pb) (hb_image x pb)
    | Some out => good_length len /\ xfer_done command lba buf len (hb_image (hw s) pb) out (hb_image x pb) m
    end.
Proof.
  intros Hpre. assert (AHCI_MAX_TRANSFER = 262144 /\ AHCI_SECTOR_SIZE = 512 /\ AHCI_SECTOR_MAX = 512) as (EM & ES & ESM) by done.
  assert (calm (hw s)) as Hcalm by (split; [done|apply hb_kept_refl]).
  assert (forall x m, calm x -> good m ->
    show h P m (port_page n * PAGE_SIZE + 8) 8 = show h P (mem (vm s)) (port_page n * PAGE_SIZE + 8) 8 ->
    other_windows h P n (mem (vm s)) m -> left_alone x m /\
    xfer_failed command lba len (hb_image (hw s) pb) (hb_image x pb)) as Hquit.
  { intros x m Hx Hm H1 H2. destruct (calm_left_alone x m Hx Hm H1 H2) as [Hla ->]. split; [done|].
    unfold xfer_failed. destruct (command =? _); [apply same_outside_refl|done]. }
  unfold xfer. destruct ((len =? 0) || negb (len mod AHCI_SECTOR_SIZE =? 0) || (AHCI_MAX_TRANSFER <? len)) eqn:Hg.
  { exists None, (hw s), (mem (vm s)). rewrite world_id. split; [done|]. apply Hquit; [done|apply good_refl|done|]. by intros a k. }
  zify_bool. pose proof (xp_len _ _ _ _ _ Hpre). assert (good_length len) as Hlen by (split; lia). pose proof Hlen as [Hl Hmod].
  rewrite (proj2 (Z.ltb_ge _ _)) by lia. pose proof (po_num _ _ _ _ _ _ Hpo) as Hn. rewrite (proj2 (Z.leb_gt _ _)) by lia. cbv zeta.
  (* staging *)
  destruct (stage_run buf len to_disk (hw s) (mem (vm s)) good_refl Hl (xp_buf _ _ _ _ _ Hpre)) as (m1 & R1 & G1 & St1 & W1).
  rewrite world_id in R1. rewrite (sbind_seq _ _ _ _ _ _ R1). clear R1.
  assert (show h P m1 (port_page n * PAGE_SIZE + 8) 8 = show h P (mem (vm s)) (port_page n * PAGE_SIZE + 8) 8) as Hh1.
  { apply W1; [apply header_covered|]. fold n in Hn.
    unfold port_page, AHCI_PORT_MAX, AHCI_DMA_BASE, AHCI_WINDOW_BASE, PAGE_SIZE in *. lia. }
  assert (other_windows h P n (mem (vm s)) m1) as W1' by (intros a k Hk _ Hd; by apply W1).
  (* the port accepts a command *)
  destruct (ready_run (hw s) m1 Hcalm G1) as (r & x2 & R2 & C2). rewrite (sbind_Ret _ _ _ _ _ R2). clear R2.
  destruct (bool_decide_reflect (is_Some r)) as [_|_]; cbn [negb]; [|exists None, x2, m1; split; [done|by apply Hquit]].
  destruct (status_read x2 m1 Reg.ci C2 G1) as (v & x3 & R3 & C3 & Hv); [in_list|].
  rewrite (sbind_Ret _ _ _ _ _ R3), (Hv eq_refl). clear R3. cbn [Z.eqb negb].
  destruct (status_clear x3 m1 Reg.pxis C3 G1) as (x4 & R4 & C4); [in_list|]. rewrite (sbind_Ret _ _ _ _ _ R4). clear R4.
  destruct (status_clear x4 m1 Reg.serr C4 G1) as (x5 & R5 & C5); [in_list|]. rewrite (sbind_Ret _ _ _ _ _ R5). clear R5.
  (* the command *)
  rewrite (sbind_Ret _ _ (St x5 m1) (St x5 m1) (St x5 m1)) by done.
  destruct (prepare command lba buf len to_disk Hpre Hlen x5 m1 C5 G1 Hh1) as (m6 & R6 & G6 & F6 & H6 & W6).
  change (AHCI_DMA_PHYS (St x5 m1)) with (AHCI_DMA_PHYS s). rewrite (sbind_Ret _ _ _ _ _ R6). clear R6.
  destruct (command_run x5 m6 _ len C5 G6 ltac:(lia) F6 eq_refl) as (ok & x7 & m7 & R7 & G7 & I7 & E7);
    [by eapply command_legal|]. rewrite (sbind_Ret _ _ _ _ _ R7). clear R7.
  assert (left_alone x7 m7) as Hla.
  { eapply effect_left_alone; [exact Hpre|exact Hlen|exact C5|exact G6|done|done|exact E7|by rewrite H6|].
    intros a k Hk Hd1 Hd2. rewrite W6 by done. by apply W1. }
  assert (forall l, buf = Some l -> to_disk = true -> show h P m6 AHCI_DMA_BASE (Z.to_nat len) = l) as Hstage.
  { intros l Hb Ht. rewrite W6; [by apply St1|rewrite Z2Nat.id by lia; apply (dma_covered s P fs); [done|lia]|]. fold n in Hn.
    unfold port_page, AHCI_PORT_MAX, AHCI_DMA_BASE, AHCI_WINDOW_BASE, PAGE_SIZE in *. lia. }
  pose proof (effect_result command lba buf len to_disk Hpre Hlen ok x5 m6 x7 m7 C5 G6 E7 Hstage) as Hres.
  destruct ok; cbn [negb]; [|by exists None, x7, m7].
  destruct buf as [l|]; [destruct to_disk eqn:Et|].
  - exists (Some []), x7, m7. split; [done|]. split; [done|]. split; [done|]. destruct Hres as [Hw Ho Hr Hid].
    pose proof (xp_dir _ _ _ _ _ Hpre) as Hd. symmetry in Hd. apply bool_decide_eq_true in Hd.
    constructor; try done. by rewrite Hd.
  - exists (Some (show h P m7 AHCI_DMA_BASE (Z.to_nat len))), x7, m7. split; [|done].
    rewrite (sbind_Ret _ _ (St x7 m7) (show h P m7 AHCI_DMA_BASE (Z.to_nat len)) (St x7 m7)); [done|].
    apply in_vm_read. apply (load_bytes_run h P); [by apply good_shared|].
    rewrite Z2Nat.id by lia. apply (dma_covered s P fs); [done|lia].
  - exists (Some []), x7, m7. split; [done|]. split; [done|]. split; [done|]. destruct Hres as [Hw Ho Hr Hid]. by constructor.
Qed.
End Run.
End Xfer.
