(* ===== verification/AhciDisk.v ===== *)
(** * The AHCI driver provides disks

    [ahci_ok] is the invariant of the driver's statics, its windows and the
    hardware; under it [read], [write] and [flush] of [src/src/ahci.rs] discharge
    the contract [Disks] that partitions and filesystems are proved against
    ([ahci_disks]). *)

From S2P Require Import Prelude Block Pmm Vmm UserMem Dma Ahci AhciHw AhciCmd AhciXfer.
From stdpp Require Import list.
#[local] Open Scope Z_scope.

Section Disk.
Context {PA : Type} `{FA : FrameAllocator PA} {H : Type} `{HL : HbaLaws H}.
Abbreviation Vmm := (Vmm PA).
Abbreviation Ahci := (@Ahci PA H).

(** The physical port behind a registered device. *)
Definition dev_pb (s : Ahci) (d : AhciDevice) : Z :=
  let va := port_reg (dev_hba d) (dev_port d) 0 in
  decode (trail (mem (vm s)) (default 0 (hhdm (vm s))) (pml4 (vm s)) (path va)) va.

Definition disk_at (s : Ahci) (k : Z) : option AhciDevice :=
  if (0 <=? k) && (k <? AHCI_DEVICE_COUNT s) then AHCI_DEVICES s !! Z.to_nat k else None.

Definition disk_image (s : Ahci) (k : Z) : list Z :=
  match disk_at s k with
  | Some d => hb_image (hw s) (dev_pb s d)
  | None => []
  end.

Record ahci_ok (s : Ahci) (h : Z) (P : Pages) (fs : list Z) : Prop := {
  ao_shared : shared (vm s) h P;
  ao_idle : hb_idle (hw s);
  ao_table : length (AHCI_DEVICES s) = Z.to_nat AHCI_PORT_MAX;
  ao_count : 0 <= AHCI_DEVICE_COUNT s <= AHCI_PORT_MAX;
  ao_staging : AHCI_DMA_READY s = true -> staging_ok s P fs;
  ao_disk : forall k d, disk_at s k = Some d ->
    AHCI_DMA_READY s = true /\ dev_present d = true /\
    port_ok s h P (dev_hba d) (dev_port d) (dev_pb s d) /\
    blen (hb_image (hw s) (dev_pb s d)) = 512 * dev_sectors d;
  ao_apart : forall j k d e, disk_at s j = Some d -> disk_at s k = Some e -> j <> k ->
    dev_port d <> dev_port e /\ dev_pb s d <> dev_pb s e;
}.

Section After.
Context (s : Ahci) (h : Z) (P : Pages) (fs : list Z) (Hok : ahci_ok s h P fs).

Lemma disk_at_total k : 0 <= k < AHCI_DEVICE_COUNT s -> exists d, disk_at s k = Some d.
Proof.
  intros Hk. unfold disk_at. rewrite (proj2 (Z.leb_le _ _)), (proj2 (Z.ltb_lt _ _)) by lia. cbn [andb].
  apply lookup_lt_is_Some_2. rewrite (ao_table _ _ _ _ Hok). pose proof (ao_count _ _ _ _ Hok). lia.
Qed.

(** [device] finds exactly the registered disks. *)
Lemma device_run k : 0 <= k -> device s k = Ret (disk_at s k).
Proof.
  intros Hk. unfold device. destruct (Z.leb_spec (AHCI_DEVICE_COUNT s) k) as [Hc|Hc].
  - unfold disk_at. by rewrite (proj2 (Z.ltb_ge k _)), andb_false_r by lia.
  - destruct (disk_at_total k) as [d Hd]; [lia|]. rewrite Hd. destruct (ao_disk _ _ _ _ Hok k d Hd) as (_ & Hp & _).
    unfold disk_at in Hd. rewrite (proj2 (Z.leb_le _ _)), (proj2 (Z.ltb_lt _ _)) in Hd by lia. cbn [andb] in Hd.
    unfold device_at. rewrite (proj2 (Z.ltb_ge _ _)), Hd by lia. cbn [obind]. by rewrite Hp.
Qed.

(** *** The invariant after a transfer *)

Lemma dev_pb_world x m d pb : good s h P m -> reg_at (vm s) h (port_reg (dev_hba d) (dev_port d) 0) (pb + 0) ->
  dev_pb (at_world s x m) d = dev_pb s d.
Proof.
  intros Hm (_ & _ & Ht). pose proof (ao_shared _ _ _ _ Hok) as Hsh. destruct (shared_set _ _ _ _ Hsh Hm) as [_ Htr].
  pose proof (ok_hhdm _ _ (sh_ok _ _ _ Hsh)) as Hh. apply Htr in Ht as Ht'.
  unfold translates in *. unfold dev_pb, at_world. cbn [vm set_world fst snd mem set_mem hhdm pml4] in *.
  rewrite Hh. change (default 0 (Some h)) with h. by rewrite Ht, Ht'.
Qed.

Lemma port_ok_world d pb0 x m hba n pb :
  left_alone s h P d pb0 x m -> port_ok s h P hba n pb -> port_ok (at_world s x m) h P hba n pb.
Proof.
  intros La Po. pose proof (ao_shared _ _ _ _ Hok) as Hsh.
  destruct (shared_set _ _ _ _ Hsh (la_good _ _ _ _ _ _ _ La)) as [_ Htr].
  constructor; [apply Po| |apply Po| |].
  - apply (la_ports _ _ _ _ _ _ _ La), Po.
  - intros r Hr. destruct (po_regs _ _ _ _ _ _ Po r Hr) as (? & ? & Ht). split; [done|]. split; [done|]. by apply Htr.
  - destruct (po_command _ _ _ _ _ _ Po) as (cl & fb & ct & Hcl & Hfb & Hct & Ec & Ef & Eh). exists cl, fb, ct.
    destruct (la_ports _ _ _ _ _ _ _ La pb) as (_ & Kc & Kf). cbn [hw at_world set_world fst snd vm mem set_mem].
    split; [done|]. split; [done|]. split; [done|]. split; [by rewrite Kc|]. split; [by rewrite Kf|]. rewrite <- Eh.
    destruct (decide (n = dev_port d)) as [->|Hn]; [apply (la_header _ _ _ _ _ _ _ La)|].
    apply (la_windows _ _ _ _ _ _ _ La); [by apply (page_covered P _ cl 8 8 Hcl)| |].
    + unfold port_page, AHCI_WINDOW_BASE, PAGE_SIZE. lia.
    + pose proof (po_num _ _ _ _ _ _ Po). unfold port_page, AHCI_PORT_MAX, AHCI_DMA_BASE, AHCI_WINDOW_BASE, PAGE_SIZE in *. lia.
Qed.

Lemma ok_world k d x m img :
  disk_at s k = Some d -> left_alone s h P d (dev_pb s d) x m ->
  hb_image x (dev_pb s d) = img -> blen img = blen (hb_image (hw s) (dev_pb s d)) ->
  ahci_ok (at_world s x m) h P fs /\
  forall j, disk_image (at_world s x m) j = if j =? k then img else disk_image s j.
Proof.
  intros Hd La Himg Hlen. pose proof (ao_shared _ _ _ _ Hok) as Hsh.
  assert (forall j, disk_at (at_world s x m) j = disk_at s j) as Hat by done.
  assert (forall j e, disk_at s j = Some e -> dev_pb (at_world s x m) e = dev_pb s e) as Hpb.
  { intros j e He. destruct (ao_disk _ _ _ _ Hok j e He) as (_ & _ & Po & _).
    apply (dev_pb_world x m e (dev_pb s e)); [apply La|]. apply (po_regs _ _ _ _ _ _ Po). by unfold Reg.port_size. }
  assert (forall j e, disk_at s j = Some e ->
    hb_image x (dev_pb s e) = if j =? k then img else hb_image (hw s) (dev_pb s e)) as Hi.
  { intros j e He. destruct (Z.eqb_spec j k) as [->|Hne]; [by replace e with d by congruence|].
    apply (la_drives _ _ _ _ _ _ _ La). by apply (ao_apart _ _ _ _ Hok j k). }
  split; [constructor|].
  - by apply (good_shared s h P Hsh), (la_good _ _ _ _ _ _ _ La).
  - apply La.
  - apply Hok.
  - apply Hok.
  - intros Hr. destruct (ao_staging _ _ _ _ Hok Hr). by constructor.
  - intros j e. rewrite Hat. intros He. destruct (ao_disk _ _ _ _ Hok j e He) as (Hr & Hp & Po & Hs).
    rewrite (Hpb j e He). split; [done|]. split; [done|]. split.
    + by apply (port_ok_world d (dev_pb s d)).
    + cbn [hw at_world set_world fst]. rewrite (Hi j e He). destruct (Z.eqb_spec j k) as [->|Hne]; [|done].
      replace e with d in * by congruence. by rewrite Hlen.
  - intros i j e f. rewrite !Hat. intros He Hf Hne. rewrite (Hpb _ _ He), (Hpb _ _ Hf). by apply (ao_apart _ _ _ _ Hok i j).
  - intros j. unfold disk_image. rewrite Hat. destruct (disk_at s j) as [e|] eqn:He.
    + rewrite (Hpb j e He). cbn [hw at_world set_world fst]. by apply Hi.
    + destruct (Z.eqb_spec j k) as [->|Hne]; [congruence|done].
Qed.

(** *** The three operations *)

Lemma xfer_disk k d command lba buf len to_disk :
  disk_at s k = Some d -> xfer_pre s (dev_pb s d) command lba buf len to_disk ->
  exists r x m, xfer d command lba buf len to_disk s = Ret (r, at_world s x m) /\
    left_alone s h P d (dev_pb s d) x m /\
    match r with
    | None => xfer_failed command lba len (disk_image s k) (hb_image x (dev_pb s d))
    | Some out => good_length len /\
        xfer_done h P command lba buf len (disk_image s k) out (hb_image x (dev_pb s d)) m
    end.
Proof.
  intros Hd Hpre. destruct (ao_disk _ _ _ _ Hok k d Hd) as (Hr & _ & Po & _). unfold disk_image. rewrite Hd.
  exact (xfer_run s h P fs d (dev_pb s d) (ao_shared _ _ _ _ Hok) (ao_idle _ _ _ _ Hok)
    (ao_staging _ _ _ _ Hok Hr) Po command lba buf len to_disk Hpre).
Qed.

(** The range test of [read] and [write] keeps a transfer inside the disk. *)
Lemma out_of_range_run k d lba len : disk_at s k = Some d -> 0 <= lba -> 0 <= len < 2 ^ 64 ->
  exists b, out_of_range d lba len = Ret b /\
    (b = false -> lba < 2 ^ 48 /\ (len mod 512 = 0 -> 512 * lba + len <= blen (disk_image s k))).
Proof.
  intros Hd Hlba Hlen. unfold out_of_range. destruct (Z.leb_spec (2 ^ 48) lba); [by exists true|].
  change AHCI_SECTOR_SIZE with 512. rewrite chk_Ret by lia. cbn [obind]. eexists. split; [done|].
  intros Hb%Z.ltb_ge. split; [done|]. intros Hmod. destruct (ao_disk _ _ _ _ Hok k d Hd) as (_ & _ & _ & Hs).
  unfold disk_image. rewrite Hd, Hs. lia.
Qed.

Lemma failed_same command lba len img img' :
  xfer_failed command lba len img img' -> blen img' = blen img.
Proof. unfold xfer_failed. destruct (command =? _); [|by intros ->]. intros [E _]. unfold blen. by rewrite E. Qed.

Lemma ok_same k d x m : disk_at s k = Some d -> left_alone s h P d (dev_pb s d) x m ->
  hb_image x (dev_pb s d) = disk_image s k ->
  ahci_ok (at_world s x m) h P fs /\ forall j, disk_image (at_world s x m) j = disk_image s j.
Proof.
  intros Hd La E. destruct (ok_world k d x m (disk_image s k) Hd La E) as [Hk Hi].
  - unfold disk_image. by rewrite Hd.
  - split; [done|]. intros j. rewrite Hi. by destruct (Z.eqb_spec j k) as [->|].
Qed.

Lemma read_run k lba len : 0 <= k -> 0 <= lba -> 0 <= len < 2 ^ 64 ->
  exists r s', read k lba len s = Ret (r, s') /\ ahci_ok s' h P fs /\
    (forall j, disk_image s' j = disk_image s j) /\
    match r with
    | Some b => slice (disk_image s k) (512 * lba) (512 * lba + len) = Ret b
    | None => True
    end.
Proof.
  intros Hk Hlba Hlen. unfold read. rewrite (sbind_Ret _ _ s s s) by done. unfold sbind at 1, slift at 1.
  rewrite (device_run k Hk). destruct (disk_at s k) as [d|] eqn:Hd; [|by exists None, s].
  destruct (out_of_range_run k d lba len Hd Hlba Hlen) as (b & Hb & Hin). unfold sbind at 1, slift at 1. rewrite Hb.
  destruct b; [by exists None, s|]. destruct (Hin eq_refl) as [H48 Hfit].
  destruct (xfer_disk k d AHCI_CMD_READ_DMA_EXT lba (Some (zeros len)) len false Hd) as (r & x & m & Hr & La & Hres).
  { constructor; try done; try lia.
    - intros l [= <-]. split; [apply blen_zeros; lia|apply zeros_bytes].
    - in_list.
    - intros _. unfold disk_image in Hfit. by rewrite Hd in Hfit. }
  exists r, (at_world s x m). split; [exact Hr|].
  assert (hb_image x (dev_pb s d) = disk_image s k) as Ei by (destruct r; [apply Hres|]; done).
  destruct (ok_same k d x m Hd La Ei) as [Hok' Hi]. split; [done|]. split; [done|].
  destruct r as [out|]; [|done]. destruct Hres as [_ Hres]. by apply (xd_read _ _ _ _ _ _ _ _ _ _ Hres).
Qed.

Lemma write_run k lba buf : 0 <= k -> 0 <= lba -> blen buf < 2 ^ 64 -> bytes_ok buf ->
  exists r s', write k lba buf s = Ret (r, s') /\ ahci_ok s' h P fs /\
    (forall j, j <> k -> disk_image s' j = disk_image s j) /\
    if r : bool then splice (disk_image s k) (512 * lba) buf = Ret (disk_image s' k)
    else same_outside (disk_image s k) (disk_image s' k) (512 * lba) (512 * lba + blen buf).
Proof.
  intros Hk Hlba Hlen Hbytes. pose proof (blen_nonneg buf). unfold write. rewrite (sbind_Ret _ _ s s s) by done.
  assert (forall b : bool, b = false -> exists r s', Ret (b, s) = Ret (r, s') /\ ahci_ok s' h P fs /\
    (forall j, j <> k -> disk_image s' j = disk_image s j) /\
    if r : bool then splice (disk_image s k) (512 * lba) buf = Ret (disk_image s' k)
    else same_outside (disk_image s k) (disk_image s' k) (512 * lba) (512 * lba + blen buf)) as Hno.
  { intros b ->. exists false, s. split; [done|]. split; [done|]. split; [done|]. apply same_outside_refl. }
  unfold sbind at 1, slift at 1. rewrite (device_run k Hk). destruct (disk_at s k) as [d|] eqn:Hd; [|by apply Hno].
  destruct (out_of_range_run k d lba (blen buf) Hd Hlba ltac:(lia)) as (b & Hb & Hin). unfold sbind at 1, slift at 1. rewrite Hb.
  destruct b; [by apply Hno|]. destruct (Hin eq_refl) as [H48 Hfit]. clear Hno.
  destruct (xfer_disk k d AHCI_CMD_WRITE_DMA_EXT lba (Some buf) (blen buf) true Hd) as (r & x & m & Hr & La & Hres).
  { constructor; try done; try lia.
    - by intros l [= <-].
    - in_list.
    - intros _. unfold disk_image in Hfit. by rewrite Hd in Hfit. }
  exists (bool_decide (is_Some r)), (at_world s x m). split; [by rewrite (sbind_Ret _ _ _ _ _ Hr)|].
  assert (blen (hb_image x (dev_pb s d)) = blen (disk_image s k)) as El.
  { destruct r as [out|]; [|by eapply failed_same]. destruct Hres as [_ Hres].
    by apply (splice_blen _ _ _ _ (xd_write _ _ _ _ _ _ _ _ _ _ Hres eq_refl buf eq_refl)). }
  destruct (ok_world k d x m _ Hd La eq_refl) as [Hok' Hi]; [by rewrite El; unfold disk_image; rewrite Hd|].
  split; [done|]. split; [intros j Hj; by rewrite Hi, (proj2 (Z.eqb_neq _ _))|].
  rewrite Hi, Z.eqb_refl. destruct r as [out|]; [rewrite bool_decide_true by done|by rewrite bool_decide_false by (by intros [])].
  destruct Hres as [_ Hres]. by apply (xd_write _ _ _ _ _ _ _ _ _ _ Hres).
Qed.

Lemma flush_run k : 0 <= k ->
  exists r s', flush k s = Ret (r, s') /\ ahci_ok s' h P fs /\ forall j, disk_image s' j = disk_image s j.
Proof.
  intros Hk. unfold flush. rewrite (sbind_Ret _ _ s s s) by done. unfold sbind at 1, slift at 1.
  rewrite (device_run k Hk). destruct (disk_at s k) as [d|] eqn:Hd; [|by exists false, s].
  destruct (xfer_disk k d AHCI_CMD_FLUSH_CACHE_EXT 0 None AHCI_SECTOR_SIZE false Hd) as (r & x & m & Hr & La & Hres).
  { constructor; try done. 1: in_list. intros [E|E]; discriminate E. }
  exists (bool_decide (is_Some r)), (at_world s x m). split; [by rewrite (sbind_Ret _ _ _ _ _ Hr)|].
  apply (ok_same k d x m Hd La). destruct r; [apply Hres|]; done.
Qed.
End After.

(** The contract of the layers above. *)
#[export, refine] Instance ahci_disks : Disks Ahci := {
  disk_read := read;
  disk_write := write;
  disk_flush := flush;
  dk_ok := fun s => exists h P fs, ahci_ok s h P fs;
  dk_image := disk_image;
}.
Proof.
  - intros s k (h & P & fs & Hok). unfold disk_image. destruct (disk_at s k) as [d|] eqn:Hd; [|constructor].
    apply hb_bytes. destruct (ao_disk _ _ _ _ Hok k d Hd) as (_ & _ & Po & _). apply Po.
  - intros s k lba n (h & P & fs & Hok) Hk Hlba Hn.
    destruct (read_run s h P fs Hok k lba n Hk ltac:(lia) Hn) as (r & s' & ? & Hok' & ? & ?). exists r, s'. eauto 10.
  - intros s k lba b (h & P & fs & Hok) Hk Hlba Hb Hbytes.
    destruct (write_run s h P fs Hok k lba b Hk ltac:(lia) Hb Hbytes) as (r & s' & ? & Hok' & ? & ?). exists r, s'. eauto 10.
  - intros s k (h & P & fs & Hok) Hk.
    destruct (flush_run s h P fs Hok k Hk) as (r & s' & ? & Hok' & ?). exists r, s'. eauto 10.
Defined.



(** The staging window is overwritten before the port is looked at: while a command
    issued earlier is still outstanding in slot 0, a write returns failure and has
    nevertheless put its own data where that command takes its data from. *)
Theorem busy_port_is_restaged (s : Ahci) (h : Z) (P : Pages) (fs : list Z) (dev : AhciDevice)
    (pb command lba tfd ci : Z) (l : list Z)
    (Hsh : shared (vm s) h P) (Hst : staging_ok s P fs) (Hn : 0 <= dev_port dev < AHCI_PORT_MAX)
    (Htfd : reg_at (vm s) h (port_reg (dev_hba dev) (dev_port dev) Reg.tfd) (pb + Reg.tfd))
    (Hci : reg_at (vm s) h (port_reg (dev_hba dev) (dev_port dev) Reg.ci) (pb + Reg.ci))
    (Hlen : 0 < blen l <= AHCI_MAX_TRANSFER) (Hmod : blen l mod AHCI_SECTOR_SIZE = 0) (Hbytes : bytes_ok l)
    (Rtfd : forall m, bus_read h (pb + Reg.tfd) (hw s, m) = (tfd, (hw s, m)))
    (Hfree : Z.land tfd (Z.lor AHCI_TFD_BSY AHCI_TFD_DRQ) = 0)
    (Rci : forall m, bus_read h (pb + Reg.ci) (hw s, m) = (ci, (hw s, m))) (Hbusy : Z.land ci 1 = 1) :
  exists m, xfer dev command lba (Some l) (blen l) true s = Ret (None, at_world s (hw s) m) /\
    show h P m AHCI_DMA_BASE (length l) = l.
Proof.
  assert (AHCI_MAX_TRANSFER = 262144 /\ AHCI_SECTOR_SIZE = 512 /\ AHCI_SECTOR_MAX = 512) as (EM & ES & ESM) by done.
  destruct (stage_run s h P fs dev Hsh Hst (Some l) (blen l) true (hw s) (mem (vm s)) (outside_refl h P _) Hlen)
    as (m & R1 & G & Hshow & _); [by intros ? [= <-]|].
  exists m. split; [|rewrite <- (Hshow l eq_refl eq_refl) at 2; f_equal; unfold blen; lia].
  unfold xfer. rewrite (proj2 (Z.eqb_neq (blen l) 0)), Hmod, (proj2 (Z.ltb_ge AHCI_MAX_TRANSFER (blen l))) by lia. cbn [orb negb Z.eqb].
  rewrite (proj2 (Z.ltb_ge AHCI_SECTOR_MAX _)) by lia. rewrite (proj2 (Z.leb_gt _ _)) by lia. cbv zeta.
  rewrite world_id in R1. rewrite (sbind_seq _ _ _ _ _ _ R1).
  destruct (spin_until (port_ready (port_reg (dev_hba dev) (dev_port dev))) (fun _ t => t = at_world s (hw s) m)
    (fun _ t => t = at_world s (hw s) m) AHCI_XFER_SPINS 0 (at_world s (hw s) m)) as (x & t & Rs & ->); [|done|apply Pos2Nat.is_pos|].
  { intros n t ->. unfold port_ready. rewrite (sbind_Ret _ _ _ _ _ (mmio_read_run s h P Hsh _ _ _ _ _ _ Htfd G (Rtfd m))), Hfree.
    by exists (Some tt), (at_world s (hw s) m). }
  rewrite (sbind_Ret _ _ _ _ _ Rs). rewrite bool_decide_true by done. cbn [negb].
  by rewrite (sbind_Ret _ _ _ _ _ (mmio_read_run s h P Hsh _ _ _ _ _ _ Hci G (Rci m))), Hbusy.
Qed.
End Disk.
