(* ===== verification/AhciInit.v ===== *)
(** * Bringing up AHCI ports ([src/src/ahci.rs], [dma_window_init] and [init])

    New pages are added to the windows one at a time; [grows] is what that leaves
    alone. [init_run] shows that bringing up a port keeps the invariant of the
    driver and of every disk already registered, and adds the drive of the port
    with its contents and its capacity. *)

From S2P Require Import Prelude Block Pmm Vmm UserMem Dma Ahci AhciHw AhciCmd AhciXfer AhciDisk.
From stdpp Require Import list.
#[local] Open Scope Z_scope.

Section Grow.
Context {PA : Type} `{FA : FrameAllocator PA}.
Abbreviation Vmm := (Vmm PA).

(** The part of the address space the driver puts its windows in. *)
Definition window_page (p : Z) : Prop :=
  AHCI_WINDOW_BASE / PAGE_SIZE <= p < (AHCI_DMA_BASE + AHCI_MAX_TRANSFER) / PAGE_SIZE.

(** No large page is in the way of a window. *)
Definition windows_clear (s : Vmm) (h : Z) (P : Pages) : Prop := forall p, window_page p -> P !! p = None ->
  no_huge (trail (mem s) h (pml4 s) (path (p * PAGE_SIZE))).

Record grows (s s' : Vmm) (h : Z) (P P' : Pages) : Prop := {
  gr_shared : shared s' h P';
  gr_sub : P ⊆ P';
  gr_view : forall a, is_Some (phys_of P a) -> view h P' (mem s') a = view h P (mem s) a;
  gr_trans : forall va pa, below_windows va -> translates s h va pa -> translates s' h va pa;
  gr_hhdm : hhdm s' = hhdm s;
  gr_clear : windows_clear s h P -> windows_clear s' h P';
  gr_huge : forall va, below_windows va -> no_huge (trail (mem s) h (pml4 s) (path va)) ->
    no_huge (trail (mem s') h (pml4 s') (path va));
}.

Lemma grows_refl (s : Vmm) h P : shared s h P -> grows s s h P P.
Proof. by constructor. Qed.

Lemma phys_of_sub (P P' : Pages) a pa : P ⊆ P' -> phys_of P a = Some pa -> phys_of P' a = Some pa.
Proof.
  intros Hs (f & Hf & ->)%phys_of_Some. apply phys_of_Some. exists f. split; [|done]. by eapply lookup_weaken.
Qed.

Lemma grows_trans (s1 s2 s3 : Vmm) h P1 P2 P3 : grows s1 s2 h P1 P2 -> grows s2 s3 h P2 P3 -> grows s1 s3 h P1 P3.
Proof.
  intros [S2 B2 V2 T2 H2 C2 U2] [S3 B3 V3 T3 H3 C3 U3]. constructor; try done.
  - by etrans.
  - intros a Ha. rewrite V3, V2; [done|done|]. destruct Ha as [pa Ha]. exists pa. by eapply phys_of_sub.
  - auto.
  - congruence.
  - auto.
  - auto.
Qed.

Lemma grows_show (s s' : Vmm) h P P' a k : grows s s' h P P' -> covered P a (Z.of_nat k) ->
  show h P' (mem s') a k = show h P (mem s) a k.
Proof.
  intros G Hc. apply show_ext; [apply show_length|]. intros i v Hi. pose proof (lookup_lt_Some _ _ _ Hi) as Hlt.
  rewrite show_length in Hlt. rewrite show_lookup in Hi by done. injection Hi as <-. apply (gr_view _ _ _ _ _ G), Hc. lia.
Qed.

(** What stays of the address space whatever the driver does: the register files,
    and that no large page is in the way of a window. *)
Record steady (s s' : Vmm) (h : Z) (P P' : Pages) : Prop := {
  sd_trans : forall va pa, below_windows va -> translates s h va pa -> translates s' h va pa;
  sd_clear : windows_clear s h P -> windows_clear s' h P';
  sd_huge : forall va, below_windows va -> no_huge (trail (mem s) h (pml4 s) (path va)) ->
    no_huge (trail (mem s') h (pml4 s') (path va));
}.

Lemma grows_steady (s s' : Vmm) h P P' : grows s s' h P P' -> steady s s' h P P'.
Proof. intros []. by constructor. Qed.

Lemma steady_trans (s1 s2 s3 : Vmm) h P1 P2 P3 : steady s1 s2 h P1 P2 -> steady s2 s3 h P2 P3 -> steady s1 s3 h P1 P3.
Proof. intros [T1 C1 U1] [T2 C2 U2]. constructor; auto. Qed.

Lemma steady_set (s : Vmm) h P m : shared s h P -> outside h P (mem s) m -> steady s (set_mem s m) h P P.
Proof.
  intros Hs Ho. destruct (data_writes s h P m (sh_ok _ _ _ Hs)) as (_ & Htr & _);
    [intros q f Hq; by apply (sh_frame _ _ _ Hs q f)|done|].
  assert (forall a, trail m h (pml4 s) (path a) = trail (mem s) h (pml4 s) (path a)) as E
    by (intros a; apply Htr; [apply path_path_ok|done]).
  constructor; [intros va pa _; by apply (shared_set s h P m)|intros Hc p Hp Hn|intros va _];
    cbn [mem set_mem pml4]; rewrite E; [by apply Hc|done].
Qed.

(** One more page. *)
Lemma grows_map (s : Vmm) h P p n : shared s h P -> windows_clear s h P -> window_page p -> P !! p = None ->
  room (frames s) (4 + n) ->
  exists f s', map_page (p * PAGE_SIZE) s = Ret (f * PAGE_SIZE, s') /\ grows s s' h P (<[p := f]> P) /\
    room (frames s') n /\ f * PAGE_SIZE <> PMM_NO_PAGE.
Proof.
  intros Hs Hc Hw Hnone Hroom. assert (p * PAGE_SIZE / PAGE_SIZE = p) as Ep by (unfold PAGE_SIZE; lia).
  assert (upper p) as Hup.
  { unfold window_page, upper, AHCI_WINDOW_BASE, AHCI_DMA_BASE, AHCI_MAX_TRANSFER, AHCI_DMA_PAGES, PAGE_SIZE in *. lia. }
  destruct (map_page_spec s h P (p * PAGE_SIZE) n Hs) as (f & s' & Hrun & [N1 N2 N3 N4 N5 N6 N7] & Hr);
    rewrite ?Ep; [done|unfold PAGE_SIZE; lia|done|done|by apply Hc|].
  rewrite Ep in N1, N6. exists f, s'. split; [done|]. split; [|split; [done|apply frame_not_no_page]].
  assert (forall va, below_windows va -> vpn va <> vpn (p * PAGE_SIZE)) as Hbv.
  { intros va Hb Hv. apply vpn_upper in Hv; rewrite ?Ep in *; [|unfold below_windows, upper, AHCI_WINDOW_BASE, PAGE_SIZE in *; lia|done].
    unfold below_windows, window_page, AHCI_WINDOW_BASE, PAGE_SIZE in *. lia. }
  constructor; try done.
  - by apply insert_subseteq.
  - intros va pa Hb. unfold translates. rewrite N3. by destruct (N7 va (Hbv va Hb)) as (-> & _).
  - rewrite (ok_hhdm _ _ (sh_ok _ _ _ N1)). symmetry. apply Hs.
  - intros _ q Hq Hnq. apply lookup_insert_None in Hnq as [Hnq Hne]. rewrite N3.
    destruct (N7 (q * PAGE_SIZE)) as (_ & _ & _ & Hnh); [|by apply Hnh, Hc].
    intros Hv. apply vpn_upper in Hv; rewrite ?Ep in *.
    + apply Hne. unfold PAGE_SIZE in *. lia.
    + replace (q * PAGE_SIZE / PAGE_SIZE) with q by (unfold PAGE_SIZE; lia).
      unfold window_page, upper, AHCI_WINDOW_BASE, AHCI_DMA_BASE, AHCI_MAX_TRANSFER, AHCI_DMA_PAGES, PAGE_SIZE in *. lia.
    + done.
  - intros va Hb. rewrite N3. apply (N7 va (Hbv va Hb)).
Qed.
End Grow.

(** ** Preparing the areas of a port *)

Section Areas.
Context {PA : Type} `{FA : FrameAllocator PA} (s : Vmm PA) (h : Z) (P : Pages) (Hsh : shared s h P).
Context (p cl fb ct : Z) (Hcl : P !! p = Some cl) (Hfb : P !! (p + 1) = Some fb) (Hct : P !! (p + 2) = Some ct).

Let W := p * PAGE_SIZE.

Lemma init_header_stores v (t : Vmm PA) :
  init_header W v t = store_user_bytes W (header_bytes 0 ++ to_le 8 v) t.
Proof.
  rewrite store_bytes_app, <- to_le_halves. unfold sbind. rewrite <- header_stores.
  unfold init_header, write_header, sbind, AHCI_CL_OFF. rewrite !(Z.add_0_r W). change (wrap 16 0) with 0.
  destruct (store16 _ _ t) as [[[] t1]| |]; try done. destruct (store16 _ _ t1) as [[[] t2]| |]; try done.
  destruct (store32 _ _ t2) as [[[] t3]| |]; try done.
  assert (blen (header_bytes 0) = 8) as -> by done. rewrite store_bytes_app, blen_to_le. unfold sbind, store32.
  rewrite !to_le_wrap32. change 0xFFFFFFFF with (Z.ones 32). rewrite Z.land_ones by lia.
  change (v mod 2 ^ 32) with (wrap 32 v). rewrite to_le_wrap32. change (W + 8) with (W + Hdr.ctba).
  by replace (W + Hdr.ctbau) with (W + Hdr.ctba + Z.of_nat 4) by (unfold Hdr.ctba, Hdr.ctbau; lia).
Qed.

(** A page cleared in a window. *)
Lemma clear_area i m : 0 <= i <= 2 -> outside h P (mem s) m ->
  exists m', reset_page (W + i * PAGE_SIZE) (set_mem s m) = Ret (tt, set_mem s m') /\ outside h P (mem s) m' /\
    forall a k, covered P a (Z.of_nat k) -> a + Z.of_nat k <= W \/ (p + 3) * PAGE_SIZE <= a ->
      show h P m' a k = show h P m a k.
Proof.
  intros Hi Hm. destruct (shared_set s h P m Hsh Hm) as [Hs _].
  destruct (reset_page_run h P (W + i * PAGE_SIZE) (set_mem s m) Hs) as (m' & R & O & V).
  { intros a Ha. assert (exists f, P !! (p + i) = Some f) as [f Hf].
    { assert (i = 0 \/ i = 1 \/ i = 2) as [->|[->| ->]] by lia; rewrite ?Z.add_0_r; eauto. }
    rewrite (page_phys P (p + i) f a Hf) by (unfold W, PAGE_SIZE in *; lia). eauto. }
  exists m'. split; [done|]. split; [by eapply outside_trans|]. intros a k Hk Hd.
  apply (shown_out h P m' m (W + i * PAGE_SIZE) (zeros PAGE_SIZE)); [done|done|].
  rewrite blen_zeros by done. unfold W, PAGE_SIZE in *. lia.
Qed.

Lemma port_windows_run : 0 <= ct < 2 ^ 40 ->
  exists m', port_windows W (ct * PAGE_SIZE) s = Ret (tt, set_mem s m') /\ outside h P (mem s) m' /\
    show h P m' (W + 8) 8 = to_le 8 (ct * PAGE_SIZE) /\
    forall a k, covered P a (Z.of_nat k) -> a + Z.of_nat k <= W \/ (p + 3) * PAGE_SIZE <= a ->
      show h P m' a k = show h P (mem s) a k.
Proof.
  intros Hct'. unfold port_windows. assert (set_mem s (mem s) = s) as Es by (by destruct s).
  destruct (clear_area 0 (mem s) ltac:(lia) (outside_refl h P _)) as (m1 & R1 & O1 & V1). rewrite Es in R1.
  destruct (clear_area 1 m1 ltac:(lia) O1) as (m2 & R2 & O2 & V2). destruct (clear_area 2 m2 ltac:(lia) O2) as (m3 & R3 & O3 & V3).
  change (0 * PAGE_SIZE) with AHCI_CL_OFF in R1. change (1 * PAGE_SIZE) with AHCI_FB_OFF in R2. change (2 * PAGE_SIZE) with AHCI_CT_OFF in R3.
  rewrite (sbind_Ret _ _ _ _ _ R1), (sbind_Ret _ _ _ _ _ R2), (sbind_Ret _ _ _ _ _ R3). rewrite init_header_stores.
  destruct (shared_set s h P m3 Hsh O3) as [S3 _]. set (l := header_bytes 0 ++ to_le 8 (ct * PAGE_SIZE)).
  assert (blen l = 16) as Hl by (unfold l; rewrite blen_app, blen_to_le; done).
  assert (covered P W 16) as Cw by (rewrite <- (Z.add_0_r W); by apply (page_covered P p cl)).
  destruct (store_bytes_run h P l W (set_mem s m3) S3) as (m4 & R4 & O4 & V4); [by rewrite Hl| |].
  { unfold l. apply Forall_app. split; [|apply to_le_bytes]. unfold header_bytes.
    apply Forall_app; split; [apply to_le_bytes|]. apply Forall_app; split; apply to_le_bytes. }
  exists m4. split; [exact R4|]. cbn [mem set_mem] in *. split; [by eapply outside_trans|]. split.
  - rewrite (shown_in h P m4 W l (view h P m3) 8 8) by first [done | lia | intros a Ha; apply Cw; lia]. reflexivity.
  - intros a k Hk Hd. rewrite (shown_out h P m4 m3 W l) by first [done | (rewrite Hl; unfold W, PAGE_SIZE in *; lia)].
    by rewrite V3, V2, V1.
Qed.
End Areas.

Section Init.
Context {PA : Type} `{FA : FrameAllocator PA} {H : Type} `{HL : HbaLaws H}.
Abbreviation Vmm := (Vmm PA).
Abbreviation Ahci := (@Ahci PA H).

(** ** Disks already registered *)

Section Keep.
Context (s : Ahci) (h : Z) (P : Pages) (fs : list Z) (Hok : ahci_ok s h P fs).

Lemma disk_reg k d : disk_at s k = Some d ->
  reg_at (vm s) h (port_reg (dev_hba d) (dev_port d) 0) (dev_pb s d + 0) /\
  below_windows (port_reg (dev_hba d) (dev_port d) 0).
Proof.
  intros Hd. destruct (ao_disk _ _ _ _ Hok k d Hd) as (_ & _ & Po & _).
  split; [apply (po_regs _ _ _ _ _ _ Po)|apply (po_below _ _ _ _ _ _ Po)]; by unfold Reg.port_size.
Qed.

(** New pages of the windows. *)
Lemma ok_grows v' P' : grows (vm s) v' h P P' ->
  ahci_ok (set_vm s v') h P' fs /\ forall j, disk_image (set_vm s v') j = disk_image s j.
Proof.
  intros G. pose proof (ao_shared _ _ _ _ Hok) as Hsh.
  assert (forall j e, disk_at s j = Some e -> dev_pb (set_vm s v') e = dev_pb s e) as Hpb.
  { intros j e He. destruct (disk_reg j e He) as [(_ & _ & Ht) Hb]. apply (gr_trans _ _ _ _ _ G _ _ Hb) in Ht as Ht'.
    unfold translates in *. unfold dev_pb. cbn [vm set_vm]. rewrite (gr_hhdm _ _ _ _ _ G), (ok_hhdm _ _ (sh_ok _ _ _ Hsh)).
    change (default 0 (Some h)) with h. by rewrite Ht, Ht'. }
  split; [constructor|].
  - apply G.
  - apply Hok.
  - apply Hok.
  - apply Hok.
  - intros Hr. destruct (ao_staging _ _ _ _ Hok Hr) as [Hrun ? ?]. constructor; try done.
    intros i f Hi. eapply lookup_weaken; [by apply Hrun|apply G].
  - intros k d Hd. destruct (ao_disk _ _ _ _ Hok k d Hd) as (Hr & Hp & Po & Hs). rewrite (Hpb k d Hd).
    split; [done|]. split; [done|]. split; [|done]. constructor; [apply Po..| |].
    + intros r Hr'. destruct (po_regs _ _ _ _ _ _ Po r Hr') as (? & ? & Ht). split; [done|]. split; [done|].
      apply (gr_trans _ _ _ _ _ G); [by apply (po_below _ _ _ _ _ _ Po)|done].
    + destruct (po_command _ _ _ _ _ _ Po) as (cl & fb & ct & Hcl & Hfb & Hct & Ec & Ef & Eh). exists cl, fb, ct.
      cbn [vm hw set_vm]. rewrite (grows_show _ _ _ _ _ _ _ G) by (by apply (page_covered P _ cl 8 8 Hcl)).
      split; [by eapply lookup_weaken; [|apply G]|]. split; [by eapply lookup_weaken; [|apply G]|].
      split; [by eapply lookup_weaken; [|apply G]|done].
  - intros i j e f He Hf Hne. rewrite (Hpb i e He), (Hpb j f Hf). by apply (ao_apart _ _ _ _ Hok i j).
  - intros j. unfold disk_image. change (disk_at (set_vm s v') j) with (disk_at s j).
    destruct (disk_at s j) as [e|] eqn:He; [|done]. by rewrite (Hpb j e He).
Qed.

(** Changes of memory and hardware that concern no registered disk. *)
Lemma ok_keep x m : good s h P m -> hb_idle x ->
  (forall k d, disk_at s k = Some d -> let pb := dev_pb s d in
     hb_port x pb /\ hb_image x pb = hb_image (hw s) pb /\ hb_clb x pb = hb_clb (hw s) pb /\ hb_fb x pb = hb_fb (hw s) pb /\
     show h P m (port_page (dev_port d) * PAGE_SIZE + 8) 8 = show h P (mem (vm s)) (port_page (dev_port d) * PAGE_SIZE + 8) 8) ->
  ahci_ok (at_world s x m) h P fs /\ forall j, disk_image (at_world s x m) j = disk_image s j.
Proof.
  intros Hm Hi Hk. pose proof (ao_shared _ _ _ _ Hok) as Hsh. destruct (shared_set _ _ _ _ Hsh Hm) as [Hsh' Htr].
  assert (forall j e, disk_at s j = Some e -> dev_pb (at_world s x m) e = dev_pb s e) as Hpb.
  { intros j e He. destruct (disk_reg j e He) as [Hr _]. by apply (dev_pb_world s h P fs Hok x m e (dev_pb s e)). }
  split; [constructor|].
  - done.
  - done.
  - apply Hok.
  - apply Hok.
  - intros Hr. destruct (ao_staging _ _ _ _ Hok Hr). by constructor.
  - intros k d Hd. destruct (ao_disk _ _ _ _ Hok k d Hd) as (Hr & Hp & Po & Hs). rewrite (Hpb k d Hd).
    destruct (Hk k d Hd) as (K1 & K2 & K3 & K4 & K5). split; [done|]. split; [done|]. cbn [hw at_world set_world fst].
    split; [|by rewrite K2]. constructor; [apply Po|done|apply Po| |].
    + intros r Hr'. destruct (po_regs _ _ _ _ _ _ Po r Hr') as (? & ? & Ht). split; [done|]. split; [done|]. by apply Htr.
    + destruct (po_command _ _ _ _ _ _ Po) as (cl & fb & ct & Hcl & Hfb & Hct & Ec & Ef & Eh). exists cl, fb, ct.
      cbn [vm hw at_world set_world fst snd mem set_mem]. by rewrite K3, K4, K5.
  - intros i j e f He Hf Hne. rewrite (Hpb i e He), (Hpb j f Hf). by apply (ao_apart _ _ _ _ Hok i j).
  - intros j. unfold disk_image. change (disk_at (at_world s x m) j) with (disk_at s j).
    destruct (disk_at s j) as [e|] eqn:He; [|done]. rewrite (Hpb j e He). cbn [hw at_world set_world fst].
    by destruct (Hk j e He) as (_ & -> & _).
Qed.
End Keep.

(** ** The staging window *)

Lemma insert_next (l l' : list Z) (i : nat) v : length l = i -> (i < length l')%nat ->
  <[i := v]> (l ++ drop i l') = (l ++ [v]) ++ drop (S i) l'.
Proof.
  intros Hl Hi. destruct (lookup_lt_is_Some_2 l' i Hi) as [w Hw]. rewrite (drop_S l' w i Hw).
  rewrite insert_app_r_alt by lia. replace (i - length l)%nat with 0%nat by lia. by rewrite <- app_assoc.
Qed.

Record dma_progress (s t : Ahci) (h : Z) (P Pt : Pages) (ft : list Z) (i : Z) (r : nat) : Prop := {
  dp_grows : grows (vm s) (vm t) h P Pt;
  dp_hw : hw t = hw s;
  dp_devices : AHCI_DEVICES t = AHCI_DEVICES s;
  dp_count : AHCI_DEVICE_COUNT t = AHCI_DEVICE_COUNT s;
  dp_ready : AHCI_DMA_READY t = AHCI_DMA_READY s;
  dp_length : Z.of_nat (length ft) = i;
  dp_run : run_of Pt DMA_PAGE ft;
  dp_phys : AHCI_DMA_PHYS t = ((fun f => f * PAGE_SIZE) <$> ft) ++ drop (length ft) (AHCI_DMA_PHYS s);
  dp_room : room (frames (vm t)) (4 * Z.to_nat (64 - i) + r);
  dp_below : forall p, p < DMA_PAGE -> Pt !! p = P !! p;
  dp_free : forall p, DMA_PAGE + i <= p < DMA_PAGE + 64 -> Pt !! p = None;
}.

Lemma dma_step s t h P Pt ft i r : windows_clear (vm s) h P -> length (AHCI_DMA_PHYS s) = 64%nat -> 0 <= i < 64 ->
  dma_progress s t h P Pt ft i r ->
  exists t' Pt' ft', (physical <- in_vm (map_page (AHCI_DMA_BASE + i * AHCI_PAGE_SIZE)) ;;
         if physical =? PMM_NO_PAGE then spanic else
         s <- sget ;;
         phys <-! set_word (AHCI_DMA_PHYS s) i physical ;;
         _ <- sput (mkAhci (vm s) (hw s) (AHCI_DEVICES s) (AHCI_DEVICE_COUNT s) (AHCI_DMA_READY s) phys) ;;
         sret (Next (R := Empty_set) tt)) t = Ret (Next tt, t') /\ dma_progress s t' h P Pt' ft' (i + 1) r.
Proof.
  intros Hc Hl Hi [G Hhw Hd Hn Hr Hlen Hrun Hphys Hroom Hbelow Hfree].
  destruct (grows_map (vm t) h Pt (DMA_PAGE + i) (4 * Z.to_nat (64 - (i + 1)) + r)) as (f & v' & Hm & G' & Hroom' & Hne).
  - apply G.
  - by apply (gr_clear _ _ _ _ _ G).
  - unfold window_page, DMA_PAGE, AHCI_WINDOW_BASE, AHCI_DMA_BASE, AHCI_MAX_TRANSFER, AHCI_DMA_PAGES, PAGE_SIZE. lia.
  - apply Hfree. lia.
  - by replace (4 + (4 * Z.to_nat (64 - (i + 1)) + r))%nat with (4 * Z.to_nat (64 - i) + r)%nat by lia.
  - assert (in_vm (map_page (AHCI_DMA_BASE + i * AHCI_PAGE_SIZE)) t = Ret (f * PAGE_SIZE, set_vm t v')) as Hin.
    { unfold in_vm. replace (AHCI_DMA_BASE + i * AHCI_PAGE_SIZE) with ((DMA_PAGE + i) * PAGE_SIZE)
        by (unfold DMA_PAGE, AHCI_DMA_BASE, AHCI_PAGE_SIZE, PAGE_SIZE; lia). by rewrite Hm. }
    rewrite (sbind_Ret _ _ _ _ _ Hin), (proj2 (Z.eqb_neq _ _)) by done.
    rewrite (sbind_Ret _ _ (set_vm t v') (set_vm t v') (set_vm t v')) by done. cbn [AHCI_DMA_PHYS set_vm].
    assert (length (AHCI_DMA_PHYS t) = 64%nat) as Hl'.
    { rewrite Hphys, length_app, length_fmap, length_drop. lia. }
    rewrite (sbind_Ret _ _ (set_vm t v') (<[Z.to_nat i := f * PAGE_SIZE]> (AHCI_DMA_PHYS t)) (set_vm t v'))
      by (unfold slift; by rewrite set_word_Ret by lia).
    eexists _, (<[DMA_PAGE + i := f]> Pt), (ft ++ [f]). split; [done|]. constructor; cbn [vm hw AHCI_DEVICES AHCI_DEVICE_COUNT AHCI_DMA_READY AHCI_DMA_PHYS set_vm]; try done.
    + by eapply grows_trans.
    + rewrite length_app. cbn [length]. lia.
    + intros j g [Hj|[Hj Hg]]%lookup_app_Some.
      * rewrite lookup_insert_ne; [by apply Hrun|]. apply lookup_lt_Some in Hj. lia.
      * destruct (j - length ft)%nat eqn:E; [|done]. injection Hg as <-. replace (DMA_PAGE + Z.of_nat j) with (DMA_PAGE + i) by lia.
        apply lookup_insert_eq.
    + rewrite Hphys, fmap_app, length_app. cbn [fmap list_fmap length]. replace (Z.to_nat i) with (length ft) by lia.
      rewrite insert_next; [|by rewrite length_fmap|lia]. by rewrite Nat.add_1_r.
    + intros p Hp. rewrite lookup_insert_ne by lia. by apply Hbelow.
    + intros p Hp. rewrite lookup_insert_ne by lia. apply Hfree. lia.
Qed.

(** What bringing up the staging window leaves. *)
Record staged (s s' : Ahci) (h : Z) (P P' : Pages) (fs' : list Z) : Prop := {
  sg_ok : ahci_ok s' h P' fs';
  sg_ready : AHCI_DMA_READY s' = true;
  sg_grows : grows (vm s) (vm s') h P P';
  sg_hw : hw s' = hw s;
  sg_at : forall k, disk_at s' k = disk_at s k;
  sg_count : AHCI_DEVICE_COUNT s' = AHCI_DEVICE_COUNT s;
  sg_image : forall k, disk_image s' k = disk_image s k;
  sg_pb : forall k d, disk_at s k = Some d -> dev_pb s' d = dev_pb s d;
  sg_below : forall p, p < DMA_PAGE -> P' !! p = P !! p;
}.

Lemma dma_init_run s h P fs r : ahci_ok s h P fs -> windows_clear (vm s) h P ->
  (AHCI_DMA_READY s = false -> length (AHCI_DMA_PHYS s) = 64%nat /\
     forall p, DMA_PAGE <= p < DMA_PAGE + 64 -> P !! p = None) ->
  room (frames (vm s)) (256 + r) ->
  exists s' P' fs', dma_window_init s = Ret (tt, s') /\ staged s s' h P P' fs' /\ room (frames (vm s')) r.
Proof.
  intros Hok Hc Hfresh Hroom. unfold dma_window_init. rewrite (sbind_Ret _ _ s s s) by done.
  destruct (AHCI_DMA_READY s) eqn:Hr.
  { exists s, P, fs. split; [done|]. split; [|by eapply room_le; [|exact Hroom]; lia].
    constructor; try done. apply grows_refl, Hok. }
  destruct (Hfresh eq_refl) as [Hl Hfree]. unfold sbind at 1.
  destruct (for_loop_inv (R := Empty_set) (fun i _ t => exists Pt ft, dma_progress s t h P Pt ft i r) (Z.to_nat AHCI_DMA_PAGES) 0
    (fun i _ => physical <- in_vm (map_page (AHCI_DMA_BASE + i * AHCI_PAGE_SIZE)) ;;
         if physical =? PMM_NO_PAGE then spanic else
         s <- sget ;;
         phys <-! set_word (AHCI_DMA_PHYS s) i physical ;;
         _ <- sput (mkAhci (vm s) (hw s) (AHCI_DEVICES s) (AHCI_DEVICE_COUNT s) (AHCI_DMA_READY s) phys) ;;
         sret (Next tt)) tt s) as ([] & t & Hrun & Pt & ft & Hp).
  - exists P, []. constructor; try done. apply grows_refl, Hok.
  - intros i [] t Hi (Pt & ft & Hp). destruct (dma_step s t h P Pt ft i r Hc Hl) as (t' & Pt' & ft' & ? & ?);
      [unfold AHCI_DMA_PAGES in Hi; lia|done|]. by eexists tt, t'; split; [|exists Pt', ft'].
  - rewrite Hrun. destruct Hp as [G Hhw Hd Hn Hrd Hlen Hrn Hphys Hroom' Hbelow _].
    change (0 + Z.of_nat (Z.to_nat AHCI_DMA_PAGES)) with 64 in *.
    eexists _, Pt, ft. split; [done|]. split; [|exact Hroom'].
    assert (forall k, disk_at s k = None) as Hno.
    { intros k. destruct (disk_at s k) as [d|] eqn:E; [|done]. destruct (ao_disk _ _ _ _ Hok k d E) as (E' & _). congruence. }
    set (s' := mkAhci _ _ _ _ _ _). assert (forall k, disk_at s' k = None) as Hno'.
    { intros k. unfold disk_at, s'. cbn [AHCI_DEVICES AHCI_DEVICE_COUNT]. rewrite Hd, Hn. apply Hno. }
    constructor; try done.
    + constructor; cbn [vm hw AHCI_DEVICES AHCI_DEVICE_COUNT AHCI_DMA_READY s'].
      * apply G.
      * rewrite Hhw. apply Hok.
      * rewrite Hd. apply Hok.
      * rewrite Hn. apply Hok.
      * intros _. constructor; [done|lia|]. cbn [AHCI_DMA_PHYS s']. rewrite Hphys, drop_ge by lia. apply app_nil_r.
      * intros k d Hk. fold s' in Hk. by rewrite Hno' in Hk.
      * intros j k d e Hj. fold s' in Hj. by rewrite Hno' in Hj.
    + intros k. by rewrite Hno', Hno.
    + intros k. unfold disk_image. by rewrite Hno', Hno.
    + intros k d Hk. by rewrite Hno in Hk.
Qed.

(** ** The registers of a port *)

(** The register file at [hba] is that of the controller [abar]. *)
Record ctrl_ok (s : Ahci) (h hba abar : Z) : Prop := {
  co_ctrl : hb_ctrl (hw s) abar;
  co_regs : forall off, 0 <= off < 0x2000 -> reg_at (vm s) h (hba + off) (abar + off) /\ below_windows (hba + off);
}.

Definition phys_port (abar n : Z) : Z := abar + Reg.ports + n * Reg.port_size.

Lemma ctrl_port s h hba abar n r : ctrl_ok s h hba abar -> 0 <= n < AHCI_PORT_MAX -> 0 <= r < Reg.port_size ->
  reg_at (vm s) h (port_reg hba n r) (phys_port abar n + r) /\ below_windows (port_reg hba n r).
Proof.
  intros C Hn Hr. unfold port_reg, phys_port. rewrite <- !Z.add_assoc.
  apply (co_regs _ _ _ _ C). unfold AHCI_PORT_MAX, Reg.ports, Reg.port_size in *. lia.
Qed.

Section Registers.
Context (s : Ahci) (h : Z) (P : Pages) (hba abar n : Z).
Context (Hsh : shared (vm s) h P) (Hc : ctrl_ok s h hba abar) (Hn : 0 <= n < AHCI_PORT_MAX).

Let port := port_reg hba n.
Let pb := phys_port abar n.
Abbreviation St := (at_world s).
Abbreviation good := (good s h P).

Context (x0 : H) (Hp0 : hb_port x0 pb) (Hc0 : hb_ctrl x0 abar).

(** Idle, and showing what [x0] showed. *)
Definition still (x : H) : Prop := hb_idle x /\ hb_kept x0 x.

Lemma still_port x : still x -> hb_port x pb.
Proof. intros [_ Hk]. by eapply hb_kept_port. Qed.

Lemma still_ctrl x : still x -> hb_ctrl x abar.
Proof. intros [_ [[Hk _] _]]. by apply Hk. Qed.

Lemma still_step x x' : still x -> hb_idle x' -> hb_kept x x' -> still x'.
Proof. intros [_ Hk] Hi Hk'. split; [done|]. by eapply hb_kept_trans. Qed.

Lemma port_at r : 0 <= r < Reg.port_size -> reg_at (vm s) h (port r) (pb + r).
Proof. intros Hr. by apply (ctrl_port s h hba abar n r Hc Hn Hr). Qed.

Lemma cmd_read_run x m : still x -> good m ->
  exists v x', mmio_read (port Reg.cmd) (St x m) = Ret (v, St x' m) /\ still x' /\
    Z.land v RUN_BITS = hb_run x pb /\ hb_run x' pb = hb_run x pb.
Proof.
  intros Hx Hm. destruct (hb_cmd_read h x m pb (proj1 Hx) (still_port x Hx)) as (v & x' & Hb & Hi & Hk & H1 & H2).
  exists v, x'. split; [exact (mmio_read_run s h P Hsh _ _ x m v (x', m) (port_at Reg.cmd ltac:(done)) Hm Hb)|].
  split; [by eapply still_step|done].
Qed.

Lemma cmd_write_run x m v : still x -> good m ->
  exists x', mmio_write (port Reg.cmd) 4 v (St x m) = Ret (tt, St x' m) /\ still x' /\ hb_run x' pb = Z.land v RUN_BITS /\
    (Z.land v RUN_BITS = 0 -> exists i k, (i < Pos.to_nat AHCI_CR_SPINS)%nat /\ (k < Pos.to_nat AHCI_FR_SPINS)%nat /\
      hb_stopping x' pb i k).
Proof.
  intros Hx Hm. destruct (hb_cmd_write h x m pb v (proj1 Hx) (still_port x Hx)) as (x' & Hb & Hi & Hk & H1 & H2).
  exists x'. rewrite (mmio_write_run s h P Hsh _ _ 4 v x m (port_at Reg.cmd ltac:(done)) Hm), Hb.
  split; [done|]. split; [by eapply still_step|done].
Qed.

Lemma land_swap a b c : Z.land (Z.land a b) c = Z.land (Z.land a c) b.
Proof. by rewrite <- !Z.land_assoc, (Z.land_comm b c). Qed.

Lemma cmd_and_run x m mask : still x -> good m ->
  exists x', cmd_and port mask (St x m) = Ret (tt, St x' m) /\ still x' /\ hb_run x' pb = Z.land (hb_run x pb) mask /\
    (Z.land (hb_run x pb) mask = 0 -> exists i k, (i < Pos.to_nat AHCI_CR_SPINS)%nat /\ (k < Pos.to_nat AHCI_FR_SPINS)%nat /\
      hb_stopping x' pb i k).
Proof.
  intros Hx Hm. unfold cmd_and. destruct (cmd_read_run x m Hx Hm) as (v & x1 & R1 & S1 & B1 & _).
  rewrite (sbind_Ret _ _ _ _ _ R1). destruct (cmd_write_run x1 m (Z.land v mask) S1 Hm) as (x2 & R2 & S2 & B2 & T2).
  rewrite land_swap, B1 in B2, T2. by exists x2.
Qed.

Lemma cmd_or_run x m bits : still x -> good m ->
  exists x', cmd_or port bits (St x m) = Ret (tt, St x' m) /\ still x'.
Proof.
  intros Hx Hm. unfold cmd_or. destruct (cmd_read_run x m Hx Hm) as (v & x1 & R1 & S1 & _).
  rewrite (sbind_Ret _ _ _ _ _ R1). destruct (cmd_write_run x1 m (Z.lor v bits) S1 Hm) as (x2 & R2 & S2 & _).
  by exists x2.
Qed.

(** A read of [PxCMD] while the engines stop. *)
Lemma stop_read x m i k : still x -> good m -> hb_stopping x pb i k ->
  exists v x', mmio_read (port Reg.cmd) (St x m) = Ret (v, St x' m) /\ still x' /\ hb_stopping x' pb (pred i) (pred k) /\
    (Z.land v AHCI_PCMD_CR = 0 <-> i = 0%nat) /\ (Z.land v AHCI_PCMD_FR = 0 <-> k = 0%nat).
Proof.
  intros Hx Hm Hst. destruct (hb_stop h x m pb i k (proj1 Hx) (still_port x Hx) Hst) as (v & x' & Hb & Hi & Hk & H1).
  exists v, x'. split; [exact (mmio_read_run s h P Hsh _ _ x m v (x', m) (port_at Reg.cmd ltac:(done)) Hm Hb)|].
  split; [by eapply still_step|done].
Qed.

Lemma wait_cr x m i k : still x -> good m -> hb_stopping x pb i k -> (i < Pos.to_nat AHCI_CR_SPINS)%nat ->
  exists x' k', wait_clear port AHCI_PCMD_CR AHCI_CR_SPINS (St x m) = Ret (tt, St x' m) /\ still x' /\
    hb_stopping x' pb 0 k' /\ (k' <= k)%nat.
Proof.
  intros Hx Hm Hst Hi. unfold wait_clear.
  destruct (spin_until (cmd_clear port AHCI_PCMD_CR)
    (fun j t => exists y l, t = St y m /\ still y /\ hb_stopping y pb j l /\ (l <= k)%nat)
    (fun _ t => exists y l, t = St y m /\ still y /\ hb_stopping y pb 0 l /\ (l <= k)%nat) AHCI_CR_SPINS i (St x m))
    as ([] & t & Hr & y & l & -> & Hy & Hs & Hl); [|by exists x, k|done|].
  - intros j t (y & l & -> & Hy & Hs & Hl). destruct (stop_read y m j l Hy Hm Hs) as (v & y' & Hr & Hy' & Hs' & Hz & _).
    exists (if Z.land v AHCI_PCMD_CR =? 0 then Some tt else None), (St y' m).
    split; [unfold cmd_clear; by rewrite (sbind_Ret _ _ _ _ _ Hr)|].
    destruct (Z.eqb_spec (Z.land v AHCI_PCMD_CR) 0) as [E|E].
    + apply Hz in E as ->. exists y', (pred l). split; [done|]. split; [done|]. split; [done|lia].
    + destruct j as [|j]; [by destruct E; apply Hz|]. exists j. split; [done|]. exists y', (pred l).
      split; [done|]. split; [done|]. split; [done|lia].
  - rewrite (sbind_Ret _ _ _ _ _ Hr). destruct (stop_read y m 0 l Hy Hm Hs) as (v & y' & Hr' & Hy' & Hs' & Hz & _).
    rewrite (sbind_Ret _ _ _ _ _ Hr'), (proj2 Hz eq_refl). exists y', (pred l). split; [done|]. split; [done|]. split; [done|lia].
Qed.

Lemma wait_fr x m k : still x -> good m -> hb_stopping x pb 0 k -> (k < Pos.to_nat AHCI_FR_SPINS)%nat ->
  exists x', wait_clear port AHCI_PCMD_FR AHCI_FR_SPINS (St x m) = Ret (tt, St x' m) /\ still x'.
Proof.
  intros Hx Hm Hst Hk. unfold wait_clear.
  destruct (spin_until (cmd_clear port AHCI_PCMD_FR)
    (fun j t => exists y, t = St y m /\ still y /\ hb_stopping y pb 0 j)
    (fun _ t => exists y, t = St y m /\ still y /\ hb_stopping y pb 0 0) AHCI_FR_SPINS k (St x m))
    as ([] & t & Hr & y & -> & Hy & Hs); [|by exists x|done|].
  - intros j t (y & -> & Hy & Hs). destruct (stop_read y m 0 j Hy Hm Hs) as (v & y' & Hr & Hy' & Hs' & _ & Hz).
    exists (if Z.land v AHCI_PCMD_FR =? 0 then Some tt else None), (St y' m).
    split; [unfold cmd_clear; by rewrite (sbind_Ret _ _ _ _ _ Hr)|].
    destruct (Z.eqb_spec (Z.land v AHCI_PCMD_FR) 0) as [E|E].
    + apply Hz in E as ->. by exists y'.
    + destruct j as [|j]; [by destruct E; apply Hz|]. exists j. split; [done|]. by exists y'.
  - rewrite (sbind_Ret _ _ _ _ _ Hr). destruct (stop_read y m 0 0 Hy Hm Hs) as (v & y' & Hr' & Hy' & Hs' & _ & Hz).
    rewrite (sbind_Ret _ _ _ _ _ Hr'), (proj2 Hz eq_refl). by exists y'.
Qed.

Lemma stop_clear x m r : still x -> good m -> r ∈ [Reg.pxis; Reg.serr] ->
  exists x', mmio_write (port r) 4 0xFFFFFFFF (St x m) = Ret (tt, St x' m) /\ still x'.
Proof.
  intros Hx Hm Hr. destruct (hb_clear h x m pb r (proj1 Hx) (still_port x Hx) Hr) as (x' & Hb & Hi & Hk).
  exists x'. rewrite (mmio_write_run s h P Hsh _ (pb + r)); [|apply port_at|done].
  - split; [by rewrite Hb|by eapply still_step].
  - apply elem_of_cons in Hr as [->|Hr]; [done|]. by apply list_elem_of_singleton in Hr as ->.
Qed.

Lemma run_bits_cleared v : Z.land (Z.land (Z.land v RUN_BITS) (unot 32 AHCI_PCMD_FRE)) (unot 32 AHCI_PCMD_ST) = 0.
Proof.
  unfold RUN_BITS, AHCI_PCMD_FRE, AHCI_PCMD_ST. zbits i.
  destruct (Z.eqb_spec i 0), (Z.eqb_spec i 4); cbn [orb andb negb]; by rewrite ?andb_false_r, ?andb_false_l.
Qed.

Lemma port_stop_run x m : still x -> good m ->
  exists x', port_stop hba n (St x m) = Ret (tt, St x' m) /\ still x'.
Proof.
  intros Hx Hm. unfold port_stop. fold port. destruct (co_regs _ _ _ _ Hc Reg.ghc ltac:(done)) as [Hg _].
  destruct (hb_ghc_read h x m abar (proj1 Hx) (still_ctrl x Hx)) as (g & x1 & Hb1 & Hi1 & Hk1).
  rewrite (sbind_Ret _ _ _ _ _ (mmio_read_run s h P Hsh _ _ x m g (x1, m) Hg Hm Hb1)).
  pose proof (still_step x x1 Hx Hi1 Hk1) as S1.
  destruct (hb_ghc_write h x1 m abar (Z.lor g AHCI_GHC_AE) Hi1 (still_ctrl x1 S1)) as (x2 & Hb2 & Hi2 & Hk2).
  pose proof (mmio_write_run s h P Hsh _ _ 4 (Z.lor g AHCI_GHC_AE) x1 m Hg Hm) as Hw2. rewrite Hb2 in Hw2.
  change (set_world s (x1, m)) with (St x1 m). rewrite (sbind_Ret _ _ _ _ _ Hw2). pose proof (still_step x1 x2 S1 Hi2 Hk2) as S2.
  change (set_world s (x2, m)) with (St x2 m).
  destruct (cmd_read_run x2 m S2 Hm) as (v & _ & _ & _ & Ev & _).
  destruct (cmd_and_run x2 m (unot 32 AHCI_PCMD_FRE) S2 Hm) as (x3 & R3 & S3 & B3 & _). rewrite (sbind_Ret _ _ _ _ _ R3).
  destruct (cmd_and_run x3 m (unot 32 AHCI_PCMD_ST) S3 Hm) as (x4 & R4 & S4 & _ & T4). rewrite (sbind_Ret _ _ _ _ _ R4).
  destruct T4 as (i & k & Hi & Hk & Hst); [rewrite B3, <- Ev; apply run_bits_cleared|].
  destruct (wait_cr x4 m i k S4 Hm Hst Hi) as (x5 & k' & R5 & S5 & Hst5 & Hk5). rewrite (sbind_Ret _ _ _ _ _ R5).
  destruct (wait_fr x5 m k' S5 Hm Hst5 ltac:(lia)) as (x6 & R6 & S6). rewrite (sbind_Ret _ _ _ _ _ R6).
  destruct (stop_clear x6 m Reg.pxis S6 Hm) as (x7 & R7 & S7); [in_list|]. rewrite (sbind_Ret _ _ _ _ _ R7).
  apply (stop_clear x7 m Reg.serr S7 Hm). in_list.
Qed.
End Registers.

(** The port after it was told its areas. *)
Lemma port_start_run s h P hba abar n x m cl fb : shared (vm s) h P -> ctrl_ok s h hba abar -> 0 <= n < AHCI_PORT_MAX ->
  hb_idle x -> hb_port x (phys_port abar n) -> hb_ctrl x abar -> good s h P m ->
  exists x', port_start hba n cl fb (at_world s x m) = Ret (tt, at_world s x' m) /\ hb_idle x' /\ hb_same x x' /\
    hb_clb x' (phys_port abar n) = cl /\ hb_fb x' (phys_port abar n) = fb /\
    forall q, q <> phys_port abar n -> hb_clb x' q = hb_clb x q /\ hb_fb x' q = hb_fb x q.
Proof.
  intros Hsh Hc Hn Hi Hp Hctrl Hm. unfold port_start. set (pb := phys_port abar n) in *.
  assert (forall r, 0 <= r < Reg.port_size -> reg_at (vm s) h (port_reg hba n r) (pb + r)) as Hreg
    by (intros r Hr; by apply (ctrl_port s h hba abar n r Hc Hn Hr)).
  destruct (hb_clb_write h x m pb cl Hi Hp) as (x1 & Hb1 & Hi1 & [Kc1 Kp1] & C1 & C1' & F1).
  pose proof (mmio_write_run s h P Hsh _ _ 8 cl x m (Hreg Reg.clb ltac:(done)) Hm) as Hw1. rewrite Hb1 in Hw1.
  rewrite (sbind_Ret _ _ _ _ _ Hw1). change (set_world s (x1, m)) with (at_world s x1 m).
  assert (hb_port x1 pb) as Hp1 by (by apply Kp1).
  destruct (hb_fb_write h x1 m pb fb Hi1 Hp1) as (x2 & Hb2 & Hi2 & [Kc2 Kp2] & F2 & F2' & C2).
  pose proof (mmio_write_run s h P Hsh _ _ 8 fb x1 m (Hreg Reg.fb ltac:(done)) Hm) as Hw2. rewrite Hb2 in Hw2.
  rewrite (sbind_Ret _ _ _ _ _ Hw2). change (set_world s (x2, m)) with (at_world s x2 m).
  assert (hb_port x2 pb) as Hp2 by (by apply Kp2). assert (hb_ctrl x2 abar) as Hctrl2 by (by apply Kc2, Kc1).
  assert (still x2 x2) as S2 by (split; [done|apply hb_kept_refl]).
  destruct (cmd_or_run s h P hba abar n Hsh Hc Hn x2 Hp2 x2 m AHCI_PCMD_FRE S2 Hm) as (x3 & R3 & S3).
  rewrite (sbind_Ret _ _ _ _ _ R3).
  destruct (cmd_or_run s h P hba abar n Hsh Hc Hn x2 Hp2 x3 m AHCI_PCMD_ST S3 Hm) as (x4 & R4 & Hi4 & [[Kc4 Kp4] B4]).
  exists x4. split; [exact R4|]. split; [done|]. split; [split|].
  - intros a. by rewrite Kc4, Kc2.
  - intros q. destruct (Kp1 q) as [P1 I1], (Kp2 q) as [P2 I2], (Kp4 q) as [P4 I4]. split; [by rewrite P4, P2|congruence].
  - destruct (B4 pb) as [-> ->]. rewrite C2, C1, F2. split; [done|]. split; [done|].
    intros q Hq. destruct (B4 q) as [-> ->]. by rewrite C2, C1', F2', F1.
Qed.

(** ** A port comes up *)

(** [s'] is [s] with port [n] up; the registered disks are as they were. *)
Record came_up (s s' : Ahci) (h : Z) (P P' : Pages) (fs : list Z) (hba n pb : Z) : Prop := {
  cu_ok : ahci_ok s' h P' fs;
  cu_port : port_ok s' h P' hba n pb;
  cu_at : forall k, disk_at s' k = disk_at s k;
  cu_image : forall k, disk_image s' k = disk_image s k;
  cu_pb : forall k d, disk_at s k = Some d -> dev_pb s' d = dev_pb s d;
  cu_count : AHCI_DEVICE_COUNT s' = AHCI_DEVICE_COUNT s;
  cu_ready : AHCI_DMA_READY s' = AHCI_DMA_READY s;
  cu_drives : forall q, hb_image (hw s') q = hb_image (hw s) q;
  cu_ctrl : forall a, hb_ctrl (hw s') a <-> hb_ctrl (hw s) a;
  cu_steady : steady (vm s) (vm s') h P P';
  cu_pages : forall p, ~ (port_page n <= p <= port_page n + 2) -> P' !! p = P !! p;
}.

Lemma dev_pb_grows (s : Ahci) h P fs k d v' P' : ahci_ok s h P fs -> grows (vm s) v' h P P' -> disk_at s k = Some d ->
  dev_pb (set_vm s v') d = dev_pb s d.
Proof.
  intros Hok G Hd. destruct (disk_reg s h P fs Hok k d Hd) as [(_ & _ & Ht) Hb].
  apply (gr_trans _ _ _ _ _ G _ _ Hb) in Ht as Ht'. unfold translates in *. unfold dev_pb. cbn [vm set_vm].
  rewrite (gr_hhdm _ _ _ _ _ G), (ok_hhdm _ _ (sh_ok _ _ _ (ao_shared _ _ _ _ Hok))).
  change (default 0 (Some h)) with h. by rewrite Ht, Ht'.
Qed.

(** The three pages of a port. *)
Lemma map_areas (s : Ahci) h P p r : shared (vm s) h P -> windows_clear (vm s) h P ->
  window_page p -> window_page (p + 2) -> (forall i, 0 <= i <= 2 -> P !! (p + i) = None) -> room (frames (vm s)) (12 + r) ->
  exists cl fb ct v, 
    (cl_phys <- in_vm (map_page (p * PAGE_SIZE + AHCI_CL_OFF)) ;;
     fb_phys <- in_vm (map_page (p * PAGE_SIZE + AHCI_FB_OFF)) ;;
     ct_phys <- in_vm (map_page (p * PAGE_SIZE + AHCI_CT_OFF)) ;;
     sret (cl_phys, fb_phys, ct_phys)) s = Ret (cl * PAGE_SIZE, fb * PAGE_SIZE, ct * PAGE_SIZE, set_vm s v) /\
    grows (vm s) v h P (<[p + 2 := ct]> (<[p + 1 := fb]> (<[p := cl]> P))) /\ room (frames v) r.
Proof.
  intros Hs Hc Hp Hp2 Hnone Hroom. pose proof (Hnone 0 ltac:(lia)) as N0. rewrite Z.add_0_r in N0.
  destruct (grows_map (vm s) h P p (8 + r) Hs Hc Hp N0 Hroom) as (cl & v1 & R1 & G1 & Ro1 & _).
  destruct (grows_map v1 h (<[p := cl]> P) (p + 1) (4 + r)) as (fb & v2 & R2 & G2 & Ro2 & _);
    [apply G1|by apply (gr_clear _ _ _ _ _ G1)|unfold window_page in *; lia|rewrite lookup_insert_ne by lia; apply Hnone; lia|done|].
  destruct (grows_map v2 h (<[p + 1 := fb]> (<[p := cl]> P)) (p + 2) r) as (ct & v3 & R3 & G3 & Ro3 & _);
    [apply G2|by apply (gr_clear _ _ _ _ _ G2), (gr_clear _ _ _ _ _ G1)|done|rewrite !lookup_insert_ne by lia; apply Hnone; lia|done|].
  exists cl, fb, ct, v3. split; [|split; [|done]]; [|by eapply grows_trans; [|eapply grows_trans]].
  unfold sbind, in_vm. replace (p * PAGE_SIZE + AHCI_CL_OFF) with (p * PAGE_SIZE) by (unfold AHCI_CL_OFF; lia). rewrite R1.
  replace (p * PAGE_SIZE + AHCI_FB_OFF) with ((p + 1) * PAGE_SIZE) by (unfold AHCI_FB_OFF, PAGE_SIZE; lia). cbn [vm set_vm]. rewrite R2.
  replace (p * PAGE_SIZE + AHCI_CT_OFF) with ((p + 2) * PAGE_SIZE) by (unfold AHCI_CT_OFF, PAGE_SIZE; lia). cbn [vm set_vm]. by rewrite R3.
Qed.

Lemma port_page_window n i : 0 <= n < AHCI_PORT_MAX -> 0 <= i <= 2 -> window_page (port_page n + i).
Proof.
  unfold window_page, port_page, AHCI_PORT_MAX, AHCI_WINDOW_BASE, AHCI_DMA_BASE, AHCI_MAX_TRANSFER, AHCI_DMA_PAGES, PAGE_SIZE. lia.
Qed.

Lemma ctrl_grows s h hba abar P P' x v' : ctrl_ok s h hba abar -> grows (vm s) v' h P P' -> hb_kept (hw s) x ->
  ctrl_ok (set_vm (at_world s x (mem (vm s))) v') h hba abar.
Proof.
  intros C G [[Hk _] _]. constructor; [by apply Hk, C|]. intros off Hoff.
  destruct (co_regs _ _ _ _ C off Hoff) as [(? & ? & Ht) Hb]. split; [|done]. split; [done|]. split; [done|].
  by apply (gr_trans _ _ _ _ _ G).
Qed.

Lemma port_up_run s h P fs hba abar n r : let pb := phys_port abar n in
  ahci_ok s h P fs -> ctrl_ok s h hba abar -> 0 <= n < AHCI_PORT_MAX -> hb_port (hw s) pb -> windows_clear (vm s) h P ->
  (forall i, 0 <= i <= 2 -> P !! (port_page n + i) = None) ->
  (forall k d, disk_at s k = Some d -> dev_port d <> n /\ dev_pb s d <> pb) -> room (frames (vm s)) (12 + r) ->
  exists s' P', port_up hba n s = Ret (true, s') /\ came_up s s' h P P' fs hba n pb /\ room (frames (vm s')) r.
Proof.
  intros pb Hok C Hn Hp Hcl Hnone Hothers Hroom. pose proof (ao_shared _ _ _ _ Hok) as Hsh.
  (* stop *)
  assert (still (hw s) (hw s)) as S0 by (split; [apply Hok|apply hb_kept_refl]).
  destruct (port_stop_run s h P hba abar n Hsh C Hn (hw s) Hp (co_ctrl _ _ _ _ C) (hw s) (mem (vm s)) S0) as (x1 & R1 & Hi1 & Hk1);
    [apply outside_refl|]. rewrite world_id in R1.
  set (s1 := at_world s x1 (mem (vm s))) in *.
  destruct (ok_keep s h P fs Hok x1 (mem (vm s))) as [Hok1 Im1]; [apply outside_refl|done| |].
  { intros k d Hd. destruct (ao_disk _ _ _ _ Hok k d Hd) as (_ & _ & Po & _). destruct Hk1 as [[_ Kp] Kb].
    destruct (Kp (dev_pb s d)) as [Kp1 Kp2], (Kb (dev_pb s d)). split; [apply Kp1, Po|done]. }
  fold s1 in Hok1, Im1. assert (vm s1 = vm s) as Evm by (unfold s1; cbn; by destruct (vm s)).
  (* the pages *)
  destruct (map_areas s1 h P (port_page n) r) as (cl & fb & ct & v & R2 & G & Ro);
    [by rewrite Evm|by rewrite Evm| |by apply port_page_window|done|by rewrite Evm|].
  { rewrite <- (Z.add_0_r (port_page n)). by apply port_page_window. }
  set (P' := <[port_page n + 2 := ct]> _) in G. destruct (ok_grows s1 h P fs Hok1 v P' G) as [Hok2 Im2].
  set (s2 := set_vm s1 v) in *. assert (ctrl_ok s2 h hba abar) as C2 by (unfold s2, s1; rewrite Evm in G; by apply (ctrl_grows s h hba abar P P')).
  assert (P' !! port_page n = Some cl /\ P' !! (port_page n + 1) = Some fb /\ P' !! (port_page n + 2) = Some ct) as (L0 & L1 & L2).
  { unfold P'. split; [|split]; [|by rewrite lookup_insert_ne, lookup_insert_eq by lia|by rewrite lookup_insert_eq].
    by rewrite 2!lookup_insert_ne, lookup_insert_eq by lia. }
  pose proof (ao_shared _ _ _ _ Hok2) as Hsh2. destruct (sh_frame _ _ _ Hsh2 _ _ L2) as (_ & [Hct _] & _).
  (* the areas *)
  destruct (port_windows_run (vm s2) h P' Hsh2 (port_page n) cl fb ct L0 L1 L2 Hct) as (m & R3 & O3 & Hd3 & W3).
  (* start *)
  assert (hb_port x1 pb) as Hp1 by (by eapply hb_kept_port).
  destruct (port_start_run s2 h P' hba abar n x1 m (cl * PAGE_SIZE) (fb * PAGE_SIZE) Hsh2 C2 Hn Hi1 Hp1 (co_ctrl _ _ _ _ C2) O3)
    as (x4 & R4 & Hi4 & [Kc4 Kp4] & Clb & Fb & Kq). fold pb in Clb, Fb, Kq.
  assert (forall k d, disk_at s k = Some d -> dev_pb s2 d = dev_pb s d) as Epb.
  { intros k d Hd. unfold s2. rewrite (dev_pb_grows s1 h P fs k d v P' Hok1 G Hd).
    destruct (disk_reg s h P fs Hok k d Hd) as [Hr _]. exact (dev_pb_world s h P fs Hok x1 (mem (vm s)) d (dev_pb s d) (outside_refl h P _) Hr). }
  destruct (ok_keep s2 h P' fs Hok2 x4 m O3 Hi4) as [Hok4 Im4].
  { intros k d Hd. destruct (ao_disk _ _ _ _ Hok2 k d Hd) as (_ & _ & Po & _). destruct (Hothers k d Hd) as [Hne1 Hne2].
    rewrite <- (Epb k d Hd) in Hne2. destruct (Kp4 (dev_pb s2 d)) as [Kp5 Kp6], (Kq (dev_pb s2 d) Hne2).
    split; [apply Kp5, Po|]. split; [done|]. split; [done|]. split; [done|].
    destruct (po_command _ _ _ _ _ _ Po) as (cl' & _ & _ & Hcl' & _). apply W3; [by apply (page_covered P' _ cl' 8 8 Hcl')|].
    unfold port_page, PAGE_SIZE. lia. }
  exists (at_world s2 x4 m), P'. split.
  - unfold port_up. replace (AHCI_WINDOW_BASE + n * AHCI_WINDOW_SIZE) with (port_page n * PAGE_SIZE)
      by (unfold port_page, AHCI_WINDOW_BASE, AHCI_WINDOW_SIZE, PAGE_SIZE; lia).
    rewrite (sbind_Ret _ _ _ _ _ R1). unfold sbind in R2. unfold sbind.
    destruct (in_vm (map_page (port_page n * PAGE_SIZE + AHCI_CL_OFF)) s1) as [[a1 t1]| |]; try discriminate R2.
    destruct (in_vm (map_page (port_page n * PAGE_SIZE + AHCI_FB_OFF)) t1) as [[a2 t2]| |]; try discriminate R2.
    destruct (in_vm (map_page (port_page n * PAGE_SIZE + AHCI_CT_OFF)) t2) as [[a3 t3]| |]; try discriminate R2.
    unfold sret in R2. injection R2 as -> -> -> ->. fold s2.
    rewrite !(proj2 (Z.eqb_neq _ _)) by apply frame_not_no_page. cbn [orb].
    assert (in_vm (port_windows (port_page n * PAGE_SIZE) (ct * PAGE_SIZE)) s2 = Ret (tt, at_world s2 x1 m)) as -> by (unfold in_vm; by rewrite R3).
    by rewrite R4.
  - split; [|done]. constructor; try done.
    + constructor; try done.
      * by apply Kp4.
      * intros q Hq. by apply (ctrl_port s2 h hba abar n q C2 Hn Hq).
      * intros q Hq. destruct (ctrl_port s2 h hba abar n q C2 Hn Hq) as [(? & ? & Ht) _]. split; [done|]. split; [done|].
        by apply (shared_set (vm s2) h P' m Hsh2 O3).
      * by exists cl, fb, ct.
    + intros k. by rewrite Im4, Im2, Im1.
    + intros k d Hd. rewrite <- (Epb k d Hd). destruct (disk_reg s2 h P' fs Hok2 k d Hd) as [Hr _].
      exact (dev_pb_world s2 h P' fs Hok2 x4 m d (dev_pb s2 d) O3 Hr).
    + intros q. destruct (Kp4 q) as [_ E4]. destruct Hk1 as [[_ Kp1] _]. destruct (Kp1 q) as [_ E1]. cbn. congruence.
    + intros a. destruct Hk1 as [[Kc1 _] _]. by rewrite <- (Kc1 a), <- (Kc4 a).
    + eapply steady_trans; [rewrite <- Evm; by apply grows_steady|]. by apply (steady_set (vm s2) h P' m).
    + intros q Hq. unfold P'. by rewrite !lookup_insert_ne by lia.
Qed.

(** ** The drive is identified and registered *)

Lemma identify_run s h P fs hba n pb : ahci_ok s h P fs -> AHCI_DMA_READY s = true -> port_ok s h P hba n pb ->
  (forall k d, disk_at s k = Some d -> dev_port d <> n /\ dev_pb s d <> pb) ->
  exists r x m, identify hba n s = Ret (r, at_world s x m) /\ ahci_ok (at_world s x m) h P fs /\
    (forall k, disk_image (at_world s x m) k = disk_image s k) /\ port_ok (at_world s x m) h P hba n pb /\
    (forall q, hb_image x q = hb_image (hw s) q) /\ (forall a, hb_ctrl x a <-> hb_ctrl (hw s) a) /\ good s h P m /\
    match r with
    | Some (k, _) => blen (hb_image (hw s) pb) = 512 * k
    | None => True
    end.
Proof.
  intros Hok Hr Po Hothers. pose proof (ao_shared _ _ _ _ Hok) as Hsh. pose proof (ao_staging _ _ _ _ Hok Hr) as Hst.
  set (d := mkDevice true hba n 0 false).
  destruct (xfer_run s h P fs d pb Hsh (ao_idle _ _ _ _ Hok) Hst Po AHCI_CMD_IDENTIFY_DEVICE 0 None AHCI_SECTOR_SIZE false)
    as (r & x & m & Hx & La & Hres).
  { constructor; try done; [in_list|]. intros [E|E]; discriminate E. }
  assert (forall q, hb_image x q = hb_image (hw s) q) as Ei.
  { intros q. destruct (decide (q = pb)) as [->|Hq]; [destruct r; [apply Hres|]; done|]. by apply (la_drives _ _ _ _ _ _ _ La). }
  pose proof (la_ctrl _ _ _ _ _ _ _ La) as Hctrl.
  destruct (ok_keep s h P fs Hok x m (la_good _ _ _ _ _ _ _ La) (la_idle _ _ _ _ _ _ _ La)) as [Hok' Im].
  { intros k e He. destruct (ao_disk _ _ _ _ Hok k e He) as (_ & _ & Pe & _). destruct (Hothers k e He) as [Hne1 Hne2].
    destruct (la_ports _ _ _ _ _ _ _ La (dev_pb s e)) as (Kp & Kc & Kf). split; [apply Kp, Pe|].
    split; [by apply (la_drives _ _ _ _ _ _ _ La)|]. split; [done|]. split; [done|].
    destruct (po_command _ _ _ _ _ _ Pe) as (cl & _ & _ & Hcl & _). apply (la_windows _ _ _ _ _ _ _ La).
    - by apply (page_covered P _ cl 8 8 Hcl).
    - unfold d, port_page, PAGE_SIZE. cbn [dev_port]. lia.
    - pose proof (po_num _ _ _ _ _ _ Pe). unfold port_page, AHCI_PORT_MAX, AHCI_DMA_BASE, AHCI_WINDOW_BASE, PAGE_SIZE in *. lia. }
  assert (port_ok (at_world s x m) h P hba n pb) as Po' by (by apply (port_ok_world s h P fs Hok d pb)).
  unfold identify. fold d. rewrite (sbind_Ret _ _ _ _ _ Hx). pose proof (la_good _ _ _ _ _ _ _ La) as Hg.
  destruct r as [out|]; [|by exists None, x, m].
  destruct Hres as [_ Hres]. destruct (xd_ident _ _ _ _ _ _ _ _ _ _ Hres eq_refl) as (k & b & Hk & Hid).
  rewrite (sbind_Ret _ _ _ (show h P m AHCI_DMA_BASE 512) (at_world s x m));
    [|apply in_vm_read, (load_bytes_run h P); [by apply good_shared|by apply (dma_covered s P fs)]].
  unfold sbind, slift. rewrite Hid. exists (if k =? 0 then None else Some (k, b)), x, m. split; [done|].
  split; [done|]. split; [done|]. split; [done|]. split; [done|]. split; [done|]. split; [done|]. by destruct (k =? 0).
Qed.

(** A new entry of the registry. *)
Lemma register_run s h P fs hba n pb k b : ahci_ok s h P fs -> AHCI_DMA_READY s = true -> port_ok s h P hba n pb ->
  (forall j d, disk_at s j = Some d -> dev_port d <> n /\ dev_pb s d <> pb) ->
  AHCI_DEVICE_COUNT s < AHCI_PORT_MAX -> blen (hb_image (hw s) pb) = 512 * k ->
  exists s', register hba n k b s = Ret (tt, s') /\ ahci_ok s' h P fs /\
    AHCI_DEVICE_COUNT s' = AHCI_DEVICE_COUNT s + 1 /\
    (forall j, disk_image s' j = if j =? AHCI_DEVICE_COUNT s then hb_image (hw s) pb else disk_image s j) /\
    vm s' = vm s /\ hw s' = hw s /\ AHCI_DMA_READY s' = AHCI_DMA_READY s /\
    (forall j d, disk_at s' j = Some d -> disk_at s j = Some d \/ (dev_port d = n /\ dev_pb s d = pb)) /\
    disk_at s' (AHCI_DEVICE_COUNT s) = Some (mkDevice true hba n k b).
Proof.
  intros Hok Hr Po Hothers Hc Hk. pose proof (ao_count _ _ _ _ Hok) as Hc0. pose proof (ao_table _ _ _ _ Hok) as Ht.
  assert (AHCI_PORT_MAX = 32) as EM by done. set (c := AHCI_DEVICE_COUNT s) in *. set (d := mkDevice true hba n k b).
  unfold register. rewrite (sbind_Ret _ _ s s s) by done. fold c d.
  rewrite (proj2 (Z.leb_le _ _)), (proj2 (Z.ltb_lt _ _)) by lia. cbn [andb]. unfold sbind, slift. rewrite chk_Ret by lia.
  eexists. split; [done|]. set (s' := mkAhci _ _ _ _ _ _).
  assert (forall j, disk_at s' j = if j =? c then Some d else disk_at s j) as Hat.
  { intros j. unfold disk_at, s'. cbn [AHCI_DEVICES AHCI_DEVICE_COUNT]. fold c. destruct (Z.eqb_spec j c) as [->|Hne].
    - rewrite (proj2 (Z.leb_le _ _)), (proj2 (Z.ltb_lt _ _)) by lia. cbn [andb]. apply list_lookup_insert_eq. lia.
    - destruct (Z.leb_spec 0 j); [|done]. cbn [andb]. rewrite list_lookup_insert_ne by lia.
      by destruct (Z.ltb_spec j (c + 1)), (Z.ltb_spec j c); try lia. }
  assert (dev_pb s d = pb) as Epb.
  { destruct (po_regs _ _ _ _ _ _ Po 0 ltac:(done)) as (_ & _ & Htr). unfold translates in Htr. unfold dev_pb, d. cbn [dev_hba dev_port].
    rewrite (ok_hhdm _ _ (sh_ok _ _ _ (ao_shared _ _ _ _ Hok))). change (default 0 (Some h)) with h. rewrite Htr. lia. }
  split; [|split; [done|split]].
  - constructor; try apply Hok.
    + cbn [AHCI_DEVICES s']. by rewrite length_insert.
    + cbn [AHCI_DEVICE_COUNT s']. lia.
    + intros _. destruct (ao_staging _ _ _ _ Hok Hr). by constructor.
    + intros j e. rewrite Hat. destruct (Z.eqb_spec j c) as [->|Hne].
      * intros [= <-]. change (dev_pb s' d) with (dev_pb s d). rewrite Epb. split; [done|]. split; [done|]. split; [|done].
        by destruct Po.
      * intros He. destruct (ao_disk _ _ _ _ Hok j e He) as (? & ? & Pe & ?). split; [done|]. split; [done|]. split; [|done].
        by destruct Pe.
    + intros i j e f. rewrite !Hat. change (dev_pb s' e) with (dev_pb s e). change (dev_pb s' f) with (dev_pb s f).
      destruct (Z.eqb_spec i c) as [->|Hi], (Z.eqb_spec j c) as [->|Hj]; try done.
      * intros [= <-] Hf _. rewrite Epb. destruct (Hothers j f Hf). split; [|done]. by apply not_eq_sym.
      * intros He [= <-] _. rewrite Epb. by destruct (Hothers i e He).
      * apply (ao_apart _ _ _ _ Hok).
  - intros j. unfold disk_image. rewrite Hat. destruct (Z.eqb_spec j c) as [->|Hne]; [|done].
    change (dev_pb s' d) with (dev_pb s d). by rewrite Epb.
  - split; [done|]. split; [done|]. split; [done|]. split; [|by rewrite Hat, Z.eqb_refl].
    intros j e. rewrite Hat. destruct (j =? c); [intros [= <-]; by right|by left].
Qed.

(** What the boot code sees to before it brings up port [n] of a controller. *)
Record init_pre (s : Ahci) (h : Z) (P : Pages) (hba abar n : Z) : Prop := {
  ip_num : 0 <= n < AHCI_PORT_MAX;
  ip_ctrl : ctrl_ok s h hba abar;
  ip_port : hb_port (hw s) (phys_port abar n);
  ip_clear : windows_clear (vm s) h P;
  ip_window : forall i, 0 <= i <= 2 -> P !! (port_page n + i) = None;
  ip_staging : AHCI_DMA_READY s = false -> length (AHCI_DMA_PHYS s) = 64%nat /\
    forall p, DMA_PAGE <= p < DMA_PAGE + 64 -> P !! p = None;
  ip_others : forall k d, disk_at s k = Some d -> dev_port d <> n /\ dev_pb s d <> phys_port abar n;
  ip_count : AHCI_DEVICE_COUNT s < AHCI_PORT_MAX;
}.

(** [s'] is [s] after port [n] was brought up. *)
Record inited (s s' : Ahci) (h : Z) (P P' : Pages) (abar n : Z) : Prop := {
  in_ready : AHCI_DMA_READY s' = true;
  in_steady : steady (vm s) (vm s') h P P';
  in_pages : forall p, p < DMA_PAGE -> ~ (port_page n <= p <= port_page n + 2) -> P' !! p = P !! p;
  in_drives : forall q, hb_image (hw s') q = hb_image (hw s) q;
  in_ctrl : forall a, hb_ctrl (hw s') a <-> hb_ctrl (hw s) a;
  in_disks : forall k d, disk_at s' k = Some d ->
    (disk_at s k = Some d /\ dev_pb s' d = dev_pb s d) \/ (dev_port d = n /\ dev_pb s' d = phys_port abar n);
  in_count : AHCI_DEVICE_COUNT s' = AHCI_DEVICE_COUNT s /\ (forall k, disk_image s' k = disk_image s k) \/
     AHCI_DEVICE_COUNT s' = AHCI_DEVICE_COUNT s + 1 /\
     forall k, disk_image s' k =
       if k =? AHCI_DEVICE_COUNT s then hb_image (hw s) (phys_port abar n) else disk_image s k;
}.

Lemma ctrl_steady s s' h hba abar P P' : ctrl_ok s h hba abar -> steady (vm s) (vm s') h P P' ->
  (forall a, hb_ctrl (hw s') a <-> hb_ctrl (hw s) a) -> ctrl_ok s' h hba abar.
Proof.
  intros C [T _ _] Hc. constructor; [by apply Hc, C|]. intros off Hoff.
  destruct (co_regs _ _ _ _ C off Hoff) as [(? & ? & Ht) Hb]. split; [|done]. split; [done|]. split; [done|]. by apply T.
Qed.

Lemma init_run s h P fs hba abar n r : ahci_ok s h P fs -> init_pre s h P hba abar n -> room (frames (vm s)) (268 + r) ->
  exists s' P' fs', init hba n s = Ret (tt, s') /\ ahci_ok s' h P' fs' /\ inited s s' h P P' abar n /\ room (frames (vm s')) r.
Proof.
  intros Hok [Hn C Hp Hcl Hwin Hstg Hoth Hcnt] Hroom. set (pb := phys_port abar n) in *.
  destruct (dma_init_run s h P fs (12 + r) Hok Hcl Hstg Hroom) as (s1 & P1 & fs1 & R1 & [Ok1 Rd1 G1 Hw1 At1 Cn1 Im1 Pb1 Bl1] & Ro1).
  destruct (port_up_run s1 h P1 fs1 hba abar n r) as (s2 & P2 & R2 & [Ok2 Po2 At2 Im2 Pb2 Cn2 Rd2 Dr2 Ct2 St2 Pg2] & Ro2).
  - done.
  - apply (ctrl_steady s s1 h hba abar P P1); [done|by apply grows_steady|by rewrite Hw1].
  - done.
  - by rewrite Hw1.
  - by apply (gr_clear _ _ _ _ _ G1).
  - intros i Hi. rewrite Bl1 by (unfold port_page, DMA_PAGE, AHCI_PORT_MAX, AHCI_DMA_BASE, AHCI_WINDOW_BASE, PAGE_SIZE in *; lia). by apply Hwin.
  - intros k d. rewrite At1. intros Hd. rewrite (Pb1 k d Hd). by apply (Hoth k d).
  - done.
  - fold pb in Po2. assert (forall k d, disk_at s2 k = Some d -> disk_at s k = Some d /\ dev_pb s2 d = dev_pb s d) as Hat2.
    { intros k d. rewrite At2. intros Hd. rewrite (Pb2 k d Hd). rewrite At1 in Hd. by rewrite (Pb1 k d Hd). }
    assert (forall k d, disk_at s2 k = Some d -> dev_port d <> n /\ dev_pb s2 d <> pb) as Hoth2.
    { intros k d Hd. destruct (Hat2 k d Hd) as [Hd' ->]. by apply (Hoth k d). }
    rewrite Rd1 in Rd2.
    destruct (identify_run s2 h P2 fs1 hba n pb Ok2 Rd2 Po2 Hoth2) as (q & x & m & R3 & Ok3 & Im3 & Po3 & Ei & Ec & Hg & Hq).
    set (s3 := at_world s2 x m) in *. assert (forall k d, disk_at s2 k = Some d -> dev_pb s3 d = dev_pb s2 d) as Pb3.
    { intros k d Hd. destruct (disk_reg s2 h P2 fs1 Ok2 k d Hd) as [Hreg _].
      exact (dev_pb_world s2 h P2 fs1 Ok2 x m d (dev_pb s2 d) Hg Hreg). }
    assert (steady (vm s) (vm s3) h P P2) as Sd.
    { eapply steady_trans; [by apply grows_steady|]. eapply steady_trans; [exact St2|].
      apply (steady_set (vm s2) h P2 m); [apply Ok2|done]. }
    assert (forall p, p < DMA_PAGE -> ~ (port_page n <= p <= port_page n + 2) -> P2 !! p = P !! p) as Hpg.
    { intros p ? ?. by rewrite Pg2, Bl1. }
    assert (forall k, disk_image s3 k = disk_image s k) as Im by (intros k; by rewrite Im3, Im2, Im1).
    assert (forall a, hb_image x a = hb_image (hw s) a) as Di by (intros a; by rewrite Ei, Dr2, Hw1).
    assert (forall a, hb_ctrl x a <-> hb_ctrl (hw s) a) as Ctl by (intros a; by rewrite Ec, Ct2, Hw1).
    assert (AHCI_DEVICE_COUNT s3 = AHCI_DEVICE_COUNT s) as Cn3 by (change (AHCI_DEVICE_COUNT s2 = AHCI_DEVICE_COUNT s); congruence).
    unfold init. rewrite (proj2 (Z.leb_gt _ _)) by lia. rewrite (sbind_Ret _ _ _ _ _ R1), (sbind_Ret _ _ _ _ _ R2). cbn [negb].
    rewrite (sbind_Ret _ _ _ _ _ R3). destruct q as [[k b]|].
    + destruct (register_run s3 h P2 fs1 hba n pb k b Ok3 Rd2 Po3) as (s4 & R4 & Ok4 & Cn4 & Im4 & Vm4 & Hw4 & Rd4 & At4 & _).
      * intros j d Hd. rewrite (Pb3 j d Hd). by apply (Hoth2 j d).
      * by rewrite Cn3.
      * change (hw s3) with x. by rewrite Ei.
      * exists s4, P2, fs1. split; [done|]. split; [done|]. split; [|by rewrite Vm4]. constructor.
        -- by rewrite Rd4.
        -- by rewrite Vm4.
        -- done.
        -- by rewrite Hw4.
        -- by rewrite Hw4.
        -- intros j d Hd. assert (dev_pb s4 d = dev_pb s3 d) as -> by (unfold dev_pb; by rewrite Vm4).
           destruct (At4 j d Hd) as [Hd3|[Hd3 Hd4]]; [|by right]. left. destruct (Hat2 j d Hd3) as [? <-].
           split; [done|]. by apply (Pb3 j).
        -- right. rewrite Cn4, Cn3. split; [done|]. intros j. rewrite Im4, Im, Cn3. change (hw s3) with x. by rewrite Di.
    + exists s3, P2, fs1. split; [done|]. split; [done|]. split; [|done]. constructor; try done.
      * intros j d Hd. left. destruct (Hat2 j d Hd) as [? <-]. split; [done|]. by apply (Pb3 j).
      * by left.
Qed.
End Init.
