(* ===== verification/AhciRam.v ===== *)
(** * A controller in memory

    An AHCI controller with drives in memory that carries out a command as soon as
    it is issued. It keeps the promises of [HbaLaws] ([ram_laws]), so that what is
    proved of the driver under them is not about nothing, and the driver runs on it. *)

From S2P Require Import Prelude Block Pmm Vmm UserMem Dma Ahci AhciHw AhciCmd AhciXfer AhciDisk AhciInit.
From stdpp Require Import list.
#[local] Open Scope Z_scope.

Record RamDrive := mkDrive { rd_image : list Z; rd_clb : Z; rd_fb : Z; rd_cmd : Z }.

(** Drives by the address of their port's registers; the other addresses belong to
    a controller with 32 ports, all implemented. *)
Abbreviation RamBus := (gmap Z RamDrive).

Definition drive_at (x : RamBus) (pb : Z) : RamDrive := default (mkDrive [] 0 0 0) (x !! pb).

(** The identity of a drive of [n] sectors with 48-bit addresses. *)
Definition ram_ident (n : Z) : list Z :=
  zeros 166 ++ to_le 2 0x400 ++ zeros 32 ++ to_le 8 n ++ zeros 304.

Definition ram_exec (h : Z) (pb : Z) (w : RamBus * gmap Z Z) : RamBus * gmap Z Z :=
  let d := drive_at w.1 pb in
  let c := fetch h w.2 (rd_clb d) in
  if c_op c =? AHCI_CMD_WRITE_DMA_EXT then
    match splice (rd_image d) (512 * c_lba c) (gather h w.2 (c_prd c)) with
    | Ret img => (<[pb := mkDrive img (rd_clb d) (rd_fb d) (rd_cmd d)]> w.1, w.2)
    | _ => w
    end
  else
    let data := if c_op c =? AHCI_CMD_READ_DMA_EXT then
        take (Z.to_nat (512 * c_count c)) (drop (Z.to_nat (512 * c_lba c)) (rd_image d))
      else if c_op c =? AHCI_CMD_IDENTIFY_DEVICE then ram_ident (blen (rd_image d) / 512) else [] in
    (w.1, scatter h (c_prd c) data w.2).

Definition ram_bus_read (h a : Z) (w : RamBus * gmap Z Z) : Z * (RamBus * gmap Z Z) :=
  let pb := a / 128 * 128 in
  let off := a mod 128 in
  (match w.1 !! pb with
   | Some d =>
       if off =? Reg.cmd then Z.land (rd_cmd d) RUN_BITS
       else if off =? 0x28 then 0x113 else if off =? 0x24 then 0x101 else 0
   | None => if off =? 0 then 31 else if off =? 0x0C then 0xFFFFFFFF else 0
   end, w).

Definition ram_bus_write (h a : Z) (n : nat) (v : Z) (w : RamBus * gmap Z Z) : RamBus * gmap Z Z :=
  let pb := a / 128 * 128 in
  let off := a mod 128 in
  let d := drive_at w.1 pb in
  match w.1 !! pb with
  | None => w
  | Some d =>
      if off =? Reg.clb then (<[pb := mkDrive (rd_image d) v (rd_fb d) (rd_cmd d)]> w.1, w.2)
      else if off =? Reg.fb then (<[pb := mkDrive (rd_image d) (rd_clb d) v (rd_cmd d)]> w.1, w.2)
      else if off =? Reg.cmd then (<[pb := mkDrive (rd_image d) (rd_clb d) (rd_fb d) (Z.land v RUN_BITS)]> w.1, w.2)
      else if (off =? Reg.ci) && Z.odd v then ram_exec h pb w
      else w
  end.

#[export] Instance ram_hba : Hba RamBus := { bus_read := ram_bus_read; bus_write := ram_bus_write }.

Definition drive_ok (d : RamDrive) : Prop :=
  bytes_ok (rd_image d) /\ exists n, blen (rd_image d) = 512 * n /\ n < 2 ^ 64.

Definition ram_port (x : RamBus) (pb : Z) : Prop :=
  pb mod 128 = 0 /\ exists d, x !! pb = Some d /\ drive_ok d.

Definition ram_ctrl (x : RamBus) (a : Z) : Prop := a mod 128 = 0 /\ forall pb d, x !! pb = Some d -> drive_ok d.

(** The command found in the world [o] was legal, and [w] is what came of it. *)
Definition ram_ran (h pb : Z) (o w : RamBus * gmap Z Z) : Prop :=
  ram_port o.1 pb /\ hb_legal (rd_image (drive_at o.1 pb)) (fetch h o.2 (rd_clb (drive_at o.1 pb))) /\
  w = ram_exec h pb o.

#[export] Instance ram_view : HbaView RamBus := {
  hb_idle := fun _ => True;
  hb_ctrl := ram_ctrl;
  hb_port := ram_port;
  hb_image := fun x pb => rd_image (drive_at x pb);
  hb_ident := fun x pb => ram_ident (blen (rd_image (drive_at x pb)) / 512);
  hb_clb := fun x pb => rd_clb (drive_at x pb);
  hb_fb := fun x pb => rd_fb (drive_at x pb);
  hb_busy := fun h pb o n w => ram_ran h pb o w;
  hb_done := ram_ran;
  hb_stopping := fun x pb n k => n = 0%nat /\ k = 0%nat /\ Z.land (rd_cmd (drive_at x pb)) RUN_BITS = 0;
  hb_run := fun x pb => Z.land (rd_cmd (drive_at x pb)) RUN_BITS;
}.

(** ** The identity *)

Lemma ram_identity n : 0 <= n < 2 ^ 64 ->
  blen (ram_ident n) = 512 /\ bytes_ok (ram_ident n) /\ ident_sectors (ram_ident n) = Ret (n, true).
Proof.
  intros Hn. split; [unfold ram_ident; by rewrite !blen_app, !blen_zeros, !blen_to_le by lia|]. split.
  { unfold ram_ident. apply Forall_app; split; [apply zeros_bytes|]. apply Forall_app; split; [apply to_le_bytes|].
    apply Forall_app; split; [apply zeros_bytes|]. apply Forall_app; split; [apply to_le_bytes|apply zeros_bytes]. }
  pose proof (from_le_to_le 8 n) as E. rewrite Z.mod_small in E by lia.
  set (b0 := n mod 256). set (b1 := n / 256 mod 256). set (b2 := n / 256 / 256 mod 256). set (b3 := n / 256 / 256 / 256 mod 256).
  set (b4 := n / 256 / 256 / 256 / 256 mod 256). set (b5 := n / 256 / 256 / 256 / 256 / 256 mod 256).
  set (b6 := n / 256 / 256 / 256 / 256 / 256 / 256 mod 256). set (b7 := n / 256 / 256 / 256 / 256 / 256 / 256 / 256 mod 256).
  assert (to_le 8 n = [b0; b1; b2; b3; b4; b5; b6; b7]) as Hle by done. rewrite Hle in E. cbn [from_le] in E.
  assert (Forall (fun b => 0 <= b < 256) [b0; b1; b2; b3; b4; b5; b6; b7]) as Hb by (rewrite <- Hle; apply to_le_bytes).
  unfold ram_ident. rewrite Hle. clearbody b0 b1 b2 b3 b4 b5 b6 b7. clear Hle.
  repeat (apply Forall_cons_1 in Hb as [? Hb]).
  assert (forall l, ident_sectors (zeros 166 ++ to_le 2 0x400 ++ zeros 32 ++ [b0; b1; b2; b3; b4; b5; b6; b7] ++ l) =
    Ret (Z.lor (Z.lor (Z.lor (Z.lor (Z.shiftl b1 8) b0) (Z.shiftl (Z.lor (Z.shiftl b3 8) b2) 16))
      (Z.shiftl (Z.lor (Z.shiftl b5 8) b4) 32)) (Z.shiftl (Z.lor (Z.shiftl b7 8) b6) 48), true)) as -> by reflexivity.
  rewrite !(lor_shift _ _ 8) by lia.
  rewrite (Z.lor_comm (b1 * 2 ^ 8 + b0)), (lor_shift _ _ 16), (Z.lor_comm _ (Z.shiftl _ 32)), (lor_shift _ _ 32),
    (Z.lor_comm _ (Z.shiftl _ 48)), (lor_shift _ _ 48) by lia.
  do 2 f_equal. lia.
Qed.

(** ** The promises *)

Lemma port_addr pb r : pb mod 128 = 0 -> 0 <= r < 128 -> (pb + r) / 128 * 128 = pb /\ (pb + r) mod 128 = r.
Proof. lia. Qed.

Lemma drive_at_eq x pb d : x !! pb = Some d -> drive_at x pb = d.
Proof. unfold drive_at. by intros ->. Qed.

Lemma drive_at_insert x pb d q : drive_at (<[pb := d]> x) q = if q =? pb then d else drive_at x q.
Proof.
  unfold drive_at. destruct (Z.eqb_spec q pb) as [->|Hne]; [by rewrite lookup_insert_eq|by rewrite lookup_insert_ne].
Qed.

(** Replacing a drive by one with good contents. *)
Lemma ram_port_insert x pb d q : ram_port x pb -> drive_ok d -> ram_port (<[pb := d]> x) q <-> ram_port x q.
Proof.
  intros [Hal (e & He & Hok)] Hd. unfold ram_port. destruct (decide (q = pb)) as [->|Hne].
  - rewrite lookup_insert_eq, He. split; intros [? _]; (split; [done|]); eauto.
  - by rewrite lookup_insert_ne.
Qed.

Lemma ram_ctrl_insert x pb d e a : x !! pb = Some e -> drive_ok e -> drive_ok d ->
  ram_ctrl (<[pb := d]> x) a <-> ram_ctrl x a.
Proof.
  intros Hpb He Hd. unfold ram_ctrl. split; intros [Ha Hx]; (split; [done|]); intros q g; destruct (decide (q = pb)) as [->|Hq].
  - rewrite Hpb. by intros [= <-].
  - intros Hg. apply (Hx q g). by rewrite lookup_insert_ne.
  - rewrite lookup_insert_eq. by intros [= <-].
  - rewrite lookup_insert_ne by done. apply Hx.
Qed.

Lemma gather_bytes h m prd : bytes_ok (gather h m prd).
Proof.
  apply Forall_concat, Forall_fmap, Forall_true. intros e. apply Forall_fmap, Forall_true. intros i. cbn.
  unfold byte_at. change 0xFF with (Z.ones 8). rewrite Z.land_ones by lia. apply Z.mod_pos_bound. lia.
Qed.

Lemma gather_length h m prd : Forall (fun e => 0 < e.2) prd -> blen (gather h m prd) = foldr (fun e n => e.2 + n) 0 prd.
Proof.
  unfold gather. induction 1 as [|e prd He _ IH]; [done|]. cbn [fmap list_fmap concat foldr].
  rewrite blen_app, IH. unfold blen at 1. rewrite bytes_length. lia.
Qed.

Lemma scatter_touch h prd : forall data m a, ~ touches h prd a -> rd (scatter h prd data m) a = rd m a.
Proof.
  induction prd as [|[b n] prd IH]; intros data m a Ha; [done|]. cbn [scatter]. rewrite IH.
  - apply rd_puts. intros k Hk ->. apply Ha. exists b, n, k. split; [apply list_elem_of_here|].
    unfold blen in Hk. rewrite length_take in Hk. split; [lia|]. do 2 f_equal. lia.
  - intros (c & l & k & Hin & Hk). apply Ha. exists c, l, k. split; [by apply list_elem_of_further|done].
Qed.

Lemma ram_effect h pb o w : ram_ran h pb o w ->
  hb_effect true h pb o w (fetch h o.2 (hb_clb o.1 pb)) /\ hb_flight h pb o w.2 (fetch h o.2 (hb_clb o.1 pb)).
Proof.
  intros (Hp & Hl & ->). destruct o as [x m]. unfold hb_effect, hb_flight, hb_answer. cbn [fst snd hb_clb hb_image hb_port hb_ctrl hb_fb hb_ident ram_view] in *.
  set (d := drive_at x pb) in *. set (c := fetch h m (rd_clb d)) in *. unfold ram_exec. cbn [fst snd]. fold d c.
  destruct Hl as (H0 & H1 & Hsum & Hpos & Hrange & _).
  destruct (Z.eqb_spec (c_op c) AHCI_CMD_WRITE_DMA_EXT) as [Ew|Ew].
  - pose proof (gather_length h m (c_prd c) Hpos) as Hg. rewrite Hsum in Hg.
    pose proof (Hrange (or_intror Ew)) as Hr.
    destruct (splice (rd_image d) (512 * c_lba c) (gather h m (c_prd c))) as [img| |] eqn:Es;
      [|rewrite splice_Ret in Es by lia; done..]. cbn [fst snd].
    assert (drive_ok (mkDrive img (rd_clb d) (rd_fb d) (rd_cmd d))) as Hok.
    { destruct Hp as [_ (e & He & Hb & n & Hn & Hlt)]. apply drive_at_eq in He as Ed. fold d in Ed. subst e.
      split; cbn [rd_image]; [eapply splice_bytes; [done|done|apply gather_bytes]|].
      exists n. by rewrite (splice_blen _ _ _ _ Es). }
    split; [|done]. split; [|split; [|split; [|split; [done|]]]].
    + intros a. destruct Hp as [_ (e & He & Hoe)]. by apply (ram_ctrl_insert x pb _ e).
    + intros q. split; [by apply ram_port_insert|]. rewrite drive_at_insert. by destruct (Z.eqb_spec q pb) as [->|].
    + intros q Hq. rewrite drive_at_insert. by rewrite (proj2 (Z.eqb_neq _ _)).
    + by rewrite drive_at_insert, Z.eqb_refl.
  - cbn [fst snd]. split; [split; [done|]; split; [done|]; split; [done|]; split; [done|]; done|].
    intros a Ha _. by apply scatter_touch.
Qed.

(** A register of a port other than the four that matter. *)
Lemma ram_write_other h x m pb r n v : pb mod 128 = 0 -> 0 <= r < 128 -> r ∉ [Reg.clb; Reg.fb; Reg.cmd; Reg.ci] ->
  ram_bus_write h (pb + r) n v (x, m) = (x, m).
Proof.
  intros Hal Hr Hn. unfold ram_bus_write. destruct (port_addr pb r Hal Hr) as [-> ->]. cbn [fst snd].
  destruct (x !! pb); [|done]. apply not_elem_of_cons in Hn as [? Hn]. apply not_elem_of_cons in Hn as [? Hn].
  apply not_elem_of_cons in Hn as [? Hn]. apply not_elem_of_cons in Hn as [? Hn].
  by rewrite !(proj2 (Z.eqb_neq _ _)) by done.
Qed.

Lemma ram_read_at h x m pb d r : pb mod 128 = 0 -> 0 <= r < 128 -> x !! pb = Some d ->
  ram_bus_read h (pb + r) (x, m) =
    (if r =? Reg.cmd then Z.land (rd_cmd d) RUN_BITS
     else if r =? 0x28 then 0x113 else if r =? 0x24 then 0x101 else 0, (x, m)).
Proof. intros Hal Hr Hd. unfold ram_bus_read. destruct (port_addr pb r Hal Hr) as [-> ->]. cbn [fst]. by rewrite Hd. Qed.

(** Writing one of the fields of a drive. *)
Lemma ram_set x pb d d' : ram_port x pb -> x !! pb = Some d -> rd_image d' = rd_image d -> hb_same x (<[pb := d']> x).
Proof.
  intros Hp Hd Ei. assert (drive_ok d /\ drive_ok d') as [Hok Hok'].
  { destruct Hp as [_ (e & He & Hok)]. rewrite Hd in He. injection He as <-. unfold drive_ok. by rewrite Ei. }
  split; [intros a; by apply (ram_ctrl_insert x pb d' d)|]. intros q. cbn [hb_port hb_image ram_view]. split.
  - by apply ram_port_insert.
  - rewrite drive_at_insert. destruct (Z.eqb_spec q pb) as [->|]; [|done]. by rewrite (drive_at_eq _ _ _ Hd).
Qed.

Lemma ram_write_at h x m pb d r n v : pb mod 128 = 0 -> 0 <= r < 128 -> x !! pb = Some d ->
  ram_bus_write h (pb + r) n v (x, m) =
    if r =? Reg.clb then (<[pb := mkDrive (rd_image d) v (rd_fb d) (rd_cmd d)]> x, m)
    else if r =? Reg.fb then (<[pb := mkDrive (rd_image d) (rd_clb d) v (rd_cmd d)]> x, m)
    else if r =? Reg.cmd then (<[pb := mkDrive (rd_image d) (rd_clb d) (rd_fb d) (Z.land v RUN_BITS)]> x, m)
    else if (r =? Reg.ci) && Z.odd v then ram_exec h pb (x, m) else (x, m).
Proof. intros Hal Hr Hd. unfold ram_bus_write. destruct (port_addr pb r Hal Hr) as [-> ->]. cbn [fst snd]. by rewrite Hd. Qed.

Lemma same_kept (x : RamBus) : hb_kept x x.
Proof. by split. Qed.

(** The port is still there after a command. *)
Lemma ram_ran_port h pb o w : ram_ran h pb o w -> ram_port w.1 pb.
Proof.
  intros Hr. pose proof Hr as (Hp & _). destruct (ram_effect _ _ _ _ Hr) as [(_ & He & _) _]. by apply (He pb).
Qed.

#[export] Instance ram_laws : HbaLaws RamBus.
Proof.
  assert (forall v, Z.land (Z.land v RUN_BITS) AHCI_PCMD_CR = 0 /\ Z.land (Z.land v RUN_BITS) AHCI_PCMD_FR = 0) as Hrun.
  { intros v. rewrite <- !Z.land_assoc. by split; apply Z.land_0_r. }
  constructor; cbn [hb_port ram_view bus_read bus_write ram_hba].
  - intros x pb (_ & d & Hd & Hb & _). cbn [hb_image ram_view]. by rewrite (drive_at_eq _ _ _ Hd).
  - intros x pb (_ & d & Hd & Hb & n & Hn & Hlt). cbn [hb_image hb_ident ram_view]. rewrite (drive_at_eq _ _ _ Hd), Hn.
    replace (512 * n / 512) with n by lia. pose proof (blen_nonneg (rd_image d)).
    destruct (ram_identity n) as (? & ? & ?); [lia|]. split; [done|]. split; [done|]. by exists n, true.
  - intros h x m pb r _ (Hal & d & Hd & _) Hr. exists 0, x. split; [|by split; [|split; [apply same_kept|]]].
    apply elem_of_cons in Hr as [->|Hr]; [by rewrite (ram_read_at _ _ _ _ d)|].
    apply list_elem_of_singleton in Hr as ->. by rewrite (ram_read_at _ _ _ _ d).
  - intros h x m pb r _ (Hal & d & Hd & _) Hr. exists x. split; [|split; [done|apply same_kept]].
    apply elem_of_cons in Hr as [->|Hr]; [by rewrite (ram_write_at _ _ _ _ d)|].
    apply list_elem_of_singleton in Hr as ->. by rewrite (ram_write_at _ _ _ _ d).
  - intros h x m pb _ Hp Hl. exists 0%nat. split; [apply Pos2Nat.is_pos|]. split; [done|]. split; [done|].
    destruct Hp as (Hal & d & Hd & _). by rewrite (ram_write_at _ _ _ _ d).
  - intros h pb o n w Hr. by apply ram_effect.
  - intros h pb o w Hr. by apply ram_effect.
  - intros h pb o n [x m] Hr. exists 0, (x, m). split; [|done]. destruct (ram_ran_port _ _ _ _ Hr) as (Hal & d & Hd & _).
    by rewrite (ram_read_at _ _ _ _ d).
  - intros h pb o [x m] Hr. exists 0, x, 0, x. cbn [snd]. destruct (ram_effect _ _ _ _ Hr) as [He _].
    destruct (ram_ran_port _ _ _ _ Hr) as (Hal & d & Hd & _). split; [by rewrite (ram_read_at _ _ _ _ d)|].
    by split; [rewrite (ram_read_at _ _ _ _ d)|].
  - intros h x m a _ Hal. eexists _, x. split; [reflexivity|]. split; [done|apply same_kept].
  - intros h x m a v _ [Hal _]. exists x. split; [|split; [done|apply same_kept]]. apply ram_write_other; [done|done|].
    intros Hin. repeat (apply elem_of_cons in Hin as [E|Hin]; [discriminate E|]). by apply not_elem_of_nil in Hin.
  - intros h x m pb _ (Hal & d & Hd & _). eexists _, x. split; [by rewrite (ram_read_at _ _ _ _ d)|]. split; [done|].
    split; [apply same_kept|]. cbn [Z.eqb hb_run ram_view Reg.cmd Pos.eqb]. rewrite (drive_at_eq _ _ _ Hd). split; [|done]. by rewrite <- Z.land_assoc, Z.land_diag.
  - intros h x m pb v _ (Hal & d & Hd & Hok). eexists. split; [by rewrite (ram_write_at _ _ _ _ d)|]. split; [done|].
    assert (ram_port x pb) as Hp by (split; eauto). split; [split; [by apply (ram_set x pb d)|]|].
    + intros q. cbn [hb_clb hb_fb ram_view]. rewrite drive_at_insert. destruct (Z.eqb_spec q pb) as [->|]; [|done].
      by rewrite (drive_at_eq _ _ _ Hd).
    + cbn [hb_run hb_stopping ram_view]. rewrite drive_at_insert, Z.eqb_refl. cbn [rd_cmd].
      rewrite <- Z.land_assoc, Z.land_diag. split; [done|]. intros E. exists 0%nat, 0%nat. split; [apply Pos2Nat.is_pos|].
      split; [apply Pos2Nat.is_pos|done].
  - intros h x m pb n k _ (Hal & d & Hd & _) (-> & -> & Hz). eexists _, x. split; [by rewrite (ram_read_at _ _ _ _ d)|].
    split; [done|]. split; [apply same_kept|]. split; [done|]. cbn [Z.eqb Reg.cmd Pos.eqb]. destruct (Hrun (rd_cmd d)). by split.
  - intros h x m pb v _ (Hal & d & Hd & Hok). eexists. split; [by rewrite (ram_write_at _ _ _ _ d)|]. split; [done|].
    assert (ram_port x pb) as Hp by (split; eauto). split; [by apply (ram_set x pb d)|]. cbn [hb_clb hb_fb ram_view].
    rewrite drive_at_insert, Z.eqb_refl. split; [done|]. split; intros q; [intros Hq|]; rewrite drive_at_insert.
    + by rewrite (proj2 (Z.eqb_neq _ _)).
    + destruct (Z.eqb_spec q pb) as [->|]; [|done]. by rewrite (drive_at_eq _ _ _ Hd).
  - intros h x m pb v _ (Hal & d & Hd & Hok). eexists. split; [by rewrite (ram_write_at _ _ _ _ d)|]. split; [done|].
    assert (ram_port x pb) as Hp by (split; eauto). split; [by apply (ram_set x pb d)|]. cbn [hb_clb hb_fb ram_view].
    rewrite drive_at_insert, Z.eqb_refl. split; [done|]. split; intros q; [intros Hq|]; rewrite drive_at_insert.
    + by rewrite (proj2 (Z.eqb_neq _ _)).
    + destruct (Z.eqb_spec q pb) as [->|]; [|done]. by rewrite (drive_at_eq _ _ _ Hd).
  - intros h x m a r _ Hal _. eexists _, x. split; [reflexivity|]. split; [done|apply same_kept].
  - intros h x m a n _ [Hal Hok] Hn. eexists _, x, _, x. split; [reflexivity|]. split; [reflexivity|]. split; [done|].
    split; [apply same_kept|]. set (pb := a + Reg.ports + n * Reg.port_size).
    assert (pb mod 128 = 0) as Hpb by (unfold pb, Reg.ports, Reg.port_size; lia).
    destruct (port_addr pb 0x28 Hpb ltac:(lia)) as [-> ->]. destruct (port_addr pb 0x24 Hpb ltac:(lia)) as [-> ->]. cbn [fst].
    destruct (x !! pb) as [d|] eqn:Hd; [|done]. intros _ _ _. split; [done|]. exists d. split; [done|]. by apply (Hok pb).
Defined.
