(* ===== verification/AhciSample.v ===== *)
(** * A machine with a disk

    64 MiB of free memory, an AHCI controller at 0xFEB00000 with a drive of four
    sectors on its first port, as function 0 of slot 2 of bus 0: the hypotheses of
    the theorems on the driver hold of it, and the driver finds the disk. *)

From S2P Require Import Prelude Block Pmm Vmm Kheap UserMem Dma Ahci AhciHw AhciCmd AhciXfer AhciDisk AhciInit AhciRam Pci.
From stdpp Require Import list.
#[local] Open Scope Z_scope.

Definition SAMPLE_ABAR : Z := 0xFEB00000.

Definition drive_image : list Z := replicate 512 0xA0 ++ replicate 512 0 ++ replicate 1024 0xA2.

Definition sample_vm : Vmm Pmm := mkVmm big_frames ∅ (Some 0xFFFF800000000000) 0xFFFF800000001000 [].

Definition sample_bus : RamBus := {[ SAMPLE_ABAR + 0x100 := mkDrive drive_image 0 0 0 ]}.

Definition sample_ahci : @Ahci Pmm RamBus :=
  mkAhci sample_vm sample_bus (replicate 32 EMPTY_DEVICE) 0 false (replicate 64 0).

Definition sample_cfg (a : Z) : Z :=
  if a =? config_address 0 2 0 0x00 then 0x29228086
  else if a =? config_address 0 2 0 0x08 then 0x01060102
  else if a =? config_address 0 2 0 0x24 then SAMPLE_ABAR
  else 0xFFFFFFFF.

Abbreviation SAMPLE_H := 0xFFFF800000000000.

Lemma sample_drive_ok : drive_ok (mkDrive drive_image 0 0 0).
Proof.
  split; [|by exists 4]. unfold drive_image. cbn [rd_image].
  apply Forall_app; split; [|apply Forall_app; split]; apply Forall_replicate; lia.
Qed.

Lemma ahci_ctrl : hb_ctrl sample_bus SAMPLE_ABAR /\ hb_port sample_bus (phys_port SAMPLE_ABAR 0).
Proof.
  split; [split; [done|]|split; [done|]].
  - intros pb d Hd. unfold sample_bus in Hd. apply lookup_singleton_Some in Hd as [_ <-]. apply sample_drive_ok.
  - eexists. split; [unfold sample_bus; apply lookup_singleton_eq|apply sample_drive_ok].
Qed.

Lemma ahci_boot : boot_ok sample_ahci SAMPLE_H.
Proof.
  assert (forall va, no_huge (trail ∅ SAMPLE_H 0xFFFF800000001000 (path va))) as Hn by (intros va; by repeat constructor).
  constructor; [exact sample_kheap_ok|done..|intros p _ _; apply Hn|intros i _; apply Hn].
Qed.

Lemma ahci_room n : Z.of_nat n <= 16384 -> room (frames (vm sample_ahci)) n.
Proof.
  intros Hn. exists (Z.of_nat <$> seq 64 n). split; [by rewrite length_fmap, length_seq|]. split.
  - apply (NoDup_fmap_2 Z.of_nat), NoDup_seq.
  - apply list.Forall_forall. intros f (k & -> & Hk)%list_elem_of_fmap. apply elem_of_seq in Hk. apply big_frames_free. lia.
Qed.

(** Port 0 is brought up and its drive registered. *)
Lemma sample_disk : exists s P fs, ahci_ok s SAMPLE_H P fs /\
  disk_at s 0 = Some (mkDevice true ABAR_MMIO 0 4 true) /\ disk_image s 0 = drive_image /\
  AHCI_DMA_READY s = true /\ room (frames (vm s)) 6 /\
  forall i, 0 <= i <= 1 -> P !! (ABAR_MMIO / PAGE_SIZE + i) = None /\
    no_huge (trail (mem (vm s)) SAMPLE_H (pml4 (vm s)) (path (ABAR_MMIO + i * PAGE_SIZE))).
Proof.
  destruct ahci_ctrl as [Hc Hp]. change SAMPLE_ABAR with (0xFEB00 * PAGE_SIZE) in Hc, Hp.
  destruct (boot_probed sample_ahci SAMPLE_H 0xFEB00 ahci_boot) as (v & _ & [Ok C Cl Wn Sg Ds Cn Dr Ro] & Ra);
    [done|done|exact Hc|apply ahci_room; lia|].
  set (s0 := set_vm sample_ahci v) in *.
  destruct (dma_init_run s0 SAMPLE_H ∅ [] (12 + 6) Ok Cl Sg) as (s1 & P1 & fs1 & _ & [Ok1 Rd1 G1 Hw1 At1 Cn1 Im1 Pb1 Bl1] & Ro1);
    [eapply room_le; [|exact Ro]; lia|].
  assert (forall k, disk_at s1 k = None) as No1 by (intros k; rewrite At1; unfold disk_at; destruct (Z.leb_spec 0 k); [|done];
    by rewrite (proj2 (Z.ltb_ge _ _))).
  destruct (port_up_run s1 SAMPLE_H P1 fs1 ABAR_MMIO (0xFEB00 * PAGE_SIZE) 0 6) as (s2 & P2 & _ & [Ok2 Po2 At2 Im2 Pb2 Cn2 Rd2 Dr2 Ct2 St2 Pg2] & Ro2);
    [done| |done|by rewrite Hw1|by apply (gr_clear _ _ _ _ _ G1)| |intros k d; by rewrite No1|exact Ro1|].
  { apply (ctrl_steady s0 s1 _ _ _ ∅ P1 C); [by apply grows_steady|by rewrite Hw1]. }
  { intros i Hi. rewrite Bl1 by (unfold port_page, DMA_PAGE, AHCI_DMA_BASE, AHCI_WINDOW_BASE, PAGE_SIZE; lia). apply lookup_empty. }
  assert (hb_image (hw s2) (phys_port (0xFEB00 * PAGE_SIZE) 0) = drive_image) as Ei by (rewrite Dr2, Hw1; reflexivity).
  assert (AHCI_DEVICE_COUNT s2 = 0) as Ec by (rewrite Cn2, Cn1; reflexivity).
  assert (AHCI_DMA_READY s2 = true) as Er by (by rewrite Rd2).
  destruct (register_run s2 SAMPLE_H P2 fs1 ABAR_MMIO 0 _ 4 true Ok2 Er Po2) as (s3 & _ & Ok3 & _ & Im3 & Vm3 & _ & Rd3 & _ & At3);
    [intros j d; by rewrite At2, No1|by rewrite Ec|rewrite Ei; reflexivity|].
  rewrite Ec in At3, Im3. exists s3, P2, fs1. split; [done|]. split; [done|]. split; [by rewrite Im3, Z.eqb_refl, Ei|].
  split; [by rewrite Rd3|]. rewrite Vm3. split; [done|]. intros i Hi. destruct (abar_page i Hi) as (Hb & _).
  split.
  - rewrite Pg2, Bl1; [apply lookup_empty| |];
      unfold port_page, DMA_PAGE, ABAR_MMIO, AHCI_DMA_BASE, AHCI_WINDOW_BASE, PAGE_SIZE; lia.
  - apply (sd_huge _ _ _ _ _ St2); [done|]. apply (gr_huge _ _ _ _ _ G1); [done|].
    apply (ra_huge _ _ _ _ _ Ra), (bo_regs _ _ ahci_boot i Hi).
Qed.

(** ** The theorems at work *)

Lemma sample_controller : one_controller sample_cfg 0 2 0 0xFEB00.
Proof.
  constructor; try done. intros bus slot func Hb Hs Hf Hne. left. unfold config_read32, sample_cfg.
  assert (forall r, 0 <= r < 256 -> (config_address bus slot func 0 =? config_address 0 2 0 r) = false) as E.
  { intros r Hr. apply Z.eqb_neq. intros E%config_address_inj; [|lia..]. apply Hne. by destruct E as (-> & -> & -> & _). }
  by rewrite !E by lia.
Qed.




(** A controller on which the command in slot 0 never ends. *)
Definition busy_hba : Hba unit :=
  {| bus_read := fun h a w => (if a mod 128 =? Reg.ci then 1 else 0, w); bus_write := fun h a n v w => w |}.

Lemma busy_port_is_restaged_witness : let buf := replicate 512 7 in
  exists (s : @Ahci Pmm unit) P m,
    xfer (HB := busy_hba) (mkDevice true ABAR_MMIO 0 4 true) AHCI_CMD_WRITE_DMA_EXT 1 (Some buf) (blen buf) true s =
      Ret (None, at_world s tt m) /\ show SAMPLE_H P m AHCI_DMA_BASE 512 = buf.
Proof.
  destruct sample_disk as (s & P & fs & Hok & Hd & _ & Hr & _). destruct (ao_disk _ _ _ _ Hok _ _ Hd) as (_ & _ & Hp & _).
  set (d := mkDevice true ABAR_MMIO 0 4 true) in *. set (pb := dev_pb s d) in *.
  assert (pb mod 128 = 0) as Hal by apply Hp. destruct (ao_staging _ _ _ _ Hok Hr) as [Sr Sl Sp].
  set (s' := mkAhci (vm s) tt (AHCI_DEVICES s) (AHCI_DEVICE_COUNT s) true (AHCI_DMA_PHYS s)).
  destruct (busy_port_is_restaged (HB := busy_hba) s' SAMPLE_H P fs d pb AHCI_CMD_WRITE_DMA_EXT 1 0 1 (replicate 512 7)) as (m & Hm);
    [apply Hok|by constructor|done|by apply (po_regs _ _ _ _ _ _ Hp)|by apply (po_regs _ _ _ _ _ _ Hp)|done|done|
     apply Forall_replicate; lia| |done| |done|by exists s', P, m].
  - intros m. cbn [bus_read busy_hba hw s']. destruct (port_addr pb Reg.tfd Hal ltac:(done)) as [_ ->]. reflexivity.
  - intros m. cbn [bus_read busy_hba hw s']. destruct (port_addr pb Reg.ci Hal ltac:(done)) as [_ ->]. reflexivity.
Defined.

(** A second controller at 0xFEC10000. *)
Lemma second_controller_redirects_witness :
  exists (s s' : @Ahci Pmm RamBus), disk_image s 0 = drive_image /\ map_registers (0xFEC10 * PAGE_SIZE) s = Ret (tt, s') /\
    disk_image s' 0 = hb_image (hw s) (phys_port (0xFEC10 * PAGE_SIZE) 0).
Proof.
  destruct sample_disk as (s & P & fs & Hok & Hd & Hi & _ & Hroom & Hfree).
  destruct (second_controller_redirects s SAMPLE_H P fs 0 _ 0xFEC10 Hok Hd eq_refl Hfree ltac:(lia) ltac:(lia) Hroom)
    as (s' & Hrun & _ & Him). by exists s, s'.
Defined.
