(* ===== verification/Descriptors.v ===== *)
(** * Segment descriptors and interrupt gates ([src/src/gdt.rs], [src/src/idt.rs])

    The tables are bytes, as the processor reads them; where the statics and the
    assembly stubs lie are parameters. [gdt_init_typed] shows that every selector the
    kernel uses names a descriptor of the right kind whose privilege level is the
    one the selector carries, and that the task state segment is found with the
    ring-0 stack of its processor; [idt_init_typed] that every gate enters its stub
    in ring 0, and that only the system call gate is open to ring 3. *)

From S2P Require Import Prelude Block Scheduler.
From stdpp Require Import list.
#[local] Open Scope Z_scope.

(** ** The segment descriptor table *)

Record GdtEntry := mkGdtEntry {
  limit_low : Z;
  base_low : Z;
  base_middle : Z;
  access : Z;
  granularity : Z;
  base_high : Z;
}.

(** The fields of the task state segment that are not zero. *)
Record Tss := mkTss { tss_rsp0 : Z; iomap_base : Z }.

Record TssDescriptor := mkTssDescriptor {
  td_limit_low : Z;
  td_base_low : Z;
  td_base_middle : Z;
  td_access : Z;
  td_flags : Z;
  td_base_high : Z;
  td_base_upper : Z;
  td_reserved : Z;
}.

(** The packed layouts. *)
Definition gdt_entry_bytes (e : GdtEntry) : list Z :=
  to_le 2 (limit_low e) ++ to_le 2 (base_low e) ++ to_le 1 (base_middle e) ++ to_le 1 (access e) ++
  to_le 1 (granularity e) ++ to_le 1 (base_high e).

Definition tss_descriptor_bytes (e : TssDescriptor) : list Z :=
  to_le 2 (td_limit_low e) ++ to_le 2 (td_base_low e) ++ to_le 1 (td_base_middle e) ++ to_le 1 (td_access e) ++
  to_le 1 (td_flags e) ++ to_le 1 (td_base_high e) ++ to_le 4 (td_base_upper e) ++ to_le 4 (td_reserved e).

Definition TSS_SIZE : Z := 104.
Definition GDT_ENTRIES : Z := 7.
Definition TSS_SELECTOR : Z := 5 * 8.

Definition ZERO_TSS : Tss := mkTss 0 0.

Definition set_entry (base limit access granularity : Z) : GdtEntry :=
  mkGdtEntry (Z.land limit 0xFFFF) (Z.land base 0xFFFF) (Z.land (Z.shiftr base 16) 0xFF) access
    (Z.lor (Z.land (Z.shiftr limit 16) 0x0F) (Z.land granularity 0xF0)) (Z.land (Z.shiftr base 24) 0xFF).

Definition set_tss_entry (base limit : Z) : TssDescriptor :=
  mkTssDescriptor (Z.land limit 0xFFFF) (Z.land base 0xFFFF) (Z.land (Z.shiftr base 16) 0xFF) 0x89
    (Z.land (Z.shiftr limit 16) 0x0F) (Z.land (Z.shiftr base 24) 0xFF) (wrap 32 (Z.shiftr base 32)) 0.

(** The statics, and the two registers of each processor. *)
Record Gdt := mkGdt {
  GDT_TABLE : list (list Z);
  GDTR_TABLE : list (Z * Z);
  TSS_TABLE : list Tss;
  gdtr : gmap nat (Z * Z);
  tr : gmap nat Z;
}.

Definition gdt_statics : Gdt :=
  mkGdt (replicate 32 (zeros (8 * GDT_ENTRIES))) (replicate 32 (0, 0)) (replicate 32 ZERO_TSS) ∅ ∅.

Section Load.
(** Where the tables and the stacks lie. *)
Context (gdt_base tss_base : nat -> Z) (ring0_base : Z).

Definition ring0_top (cpu : nat) : outcome Z :=
  let base := ring0_base + Z.of_nat cpu * RING0_STACK_SIZE in
  let! top := chk 64 (base + RING0_STACK_SIZE) in
  Ret (Z.land top (unot 64 0xF)).

Definition put_entry (gdt : list Z) (i : Z) (bytes : list Z) : outcome (list Z) := splice gdt (8 * i) bytes.

(** The seven slots of a table. *)
Definition fill_gdt (gdt : list Z) (tss : Z) : outcome (list Z) :=
  let! gdt := put_entry gdt 0 (gdt_entry_bytes (set_entry 0 0 0x00 0x00)) in
  let! gdt := put_entry gdt 1 (gdt_entry_bytes (set_entry 0 0 0x9A 0xA0)) in
  let! gdt := put_entry gdt 2 (gdt_entry_bytes (set_entry 0 0 0x92 0x00)) in
  let! gdt := put_entry gdt 3 (gdt_entry_bytes (set_entry 0 0 0xFA 0xA0)) in
  let! gdt := put_entry gdt 4 (gdt_entry_bytes (set_entry 0 0 0xF2 0x00)) in
  put_entry gdt 5 (tss_descriptor_bytes (set_tss_entry tss (TSS_SIZE - 1))).

(** An index outside of the tables panics. *)
Definition init_cpu (cpu : nat) : M Gdt unit :=
  s <- sget ;;
  match GDT_TABLE s !! cpu with
  | None => spanic
  | Some gdt =>
      top <-! ring0_top cpu ;;
      gdt <-! fill_gdt gdt (tss_base cpu) ;;
      let ptr := (8 * GDT_ENTRIES - 1, gdt_base cpu) in
      sput (mkGdt (<[cpu := gdt]> (GDT_TABLE s)) (<[cpu := ptr]> (GDTR_TABLE s))
        (<[cpu := mkTss top TSS_SIZE]> (TSS_TABLE s)) (<[cpu := ptr]> (gdtr s)) (<[cpu := TSS_SELECTOR]> (tr s)))
  end.
End Load.

(** *** How the processor reads a descriptor *)

Definition le_field (l : list Z) (off n : nat) : Z := from_le (take n (drop off l)).

(** The eight bytes a selector names. *)
Definition descriptor (gdt : list Z) (selector : Z) : list Z := take 8 (drop (Z.to_nat (8 * (selector / 8))) gdt).

Definition d_present (d : list Z) : bool := Z.testbit (le_field d 5 1) 7.
Definition d_dpl (d : list Z) : Z := le_field d 5 1 / 2 ^ 5 mod 4.
Definition d_segment (d : list Z) : bool := Z.testbit (le_field d 5 1) 4.
Definition d_code (d : list Z) : bool := Z.testbit (le_field d 5 1) 3.
Definition d_long (d : list Z) : bool := Z.testbit (le_field d 6 1) 5.
Definition d_type (d : list Z) : Z := le_field d 5 1 mod 16.

(** A system descriptor takes two slots. *)
Definition s_base (d : list Z) : Z :=
  le_field d 2 2 + le_field d 4 1 * 2 ^ 16 + le_field d 7 1 * 2 ^ 24 + le_field d 8 4 * 2 ^ 32.
Definition s_limit (d : list Z) : Z := le_field d 0 2 + le_field d 6 1 mod 16 * 2 ^ 16.

(** What a code or data selector must name: present, a segment, and of the privilege
    level of the selector; code runs in 64-bit mode. *)
Definition names_segment (gdt : list Z) (selector : Z) (code : bool) : Prop :=
  let d := descriptor gdt selector in
  d_present d = true /\ d_segment d = true /\ d_dpl d = selector mod 4 /\ d_code d = code /\ d_long d = code.

(** ** Interrupt gates *)

Record IdtEntry := mkIdtEntry {
  offset_low : Z;
  selector : Z;
  ist : Z;
  type_attr : Z;
  offset_mid : Z;
  offset_high : Z;
  reserved : Z;
}.

Definition idt_entry_bytes (e : IdtEntry) : list Z :=
  to_le 2 (offset_low e) ++ to_le 2 (selector e) ++ to_le 1 (ist e) ++ to_le 1 (type_attr e) ++
  to_le 2 (offset_mid e) ++ to_le 4 (offset_high e) ++ to_le 4 (reserved e).

Definition PIC_SPURIOUS_VECTOR : Z := 15.
Definition APIC_SPURIOUS_VECTOR : Z := 0xFF.

Definition set_gate (offset selector type_attr : Z) : IdtEntry :=
  mkIdtEntry (Z.land offset 0xFFFF) selector 0 type_attr (Z.land (Z.shiftr offset 16) 0xFFFF)
    (Z.land (Z.shiftr offset 32) 0xFFFFFFFF) 0.

(** The vectors of [gate!], in order. *)
Definition GATES : list Z :=
  [0; 1; 2; 3; 4; 5; 6; 7; 8; 10; 11; 12; 13; 14; 17; 18; 19; 21;
   32; 33; 34; 35; 36; 37; 38; 39; 40; 41; 42; 43; 44; 45; 46; 47; PIC_SPURIOUS_VECTOR; APIC_SPURIOUS_VECTOR].

Section Gates.
(** The address of the stub of a vector, and of the table. *)
Context (stub : Z -> Z) (idt_base : Z).

Fixpoint put_gates (vectors : list Z) (idt : list Z) : outcome (list Z) :=
  match vectors with
  | [] => Ret idt
  | v :: vectors =>
      let! idt := splice idt (16 * v) (idt_entry_bytes (set_gate (stub v) 0x08 0x8E)) in
      put_gates vectors idt
  end.

(** [idt::init]: the table and what IDTR is loaded with. *)
Definition idt_init : outcome (list Z * (Z * Z)) :=
  let! idt := put_gates GATES (zeros (16 * 256)) in
  let! idt := splice idt (16 * SYSCALL_VECTOR) (idt_entry_bytes (set_gate (stub SYSCALL_VECTOR) 0x08 0xEE)) in
  Ret (idt, (16 * 256 - 1, idt_base)).
End Gates.

(** *** How the processor reads a gate *)

Definition gate (idt : list Z) (v : Z) : list Z := take 16 (drop (Z.to_nat (16 * v)) idt).
Definition g_offset (g : list Z) : Z := le_field g 0 2 + le_field g 6 2 * 2 ^ 16 + le_field g 8 4 * 2 ^ 32.
Definition g_selector (g : list Z) : Z := le_field g 2 2.
Definition g_present (g : list Z) : bool := Z.testbit (le_field g 5 1) 7.
Definition g_dpl (g : list Z) : Z := le_field g 5 1 / 2 ^ 5 mod 4.
Definition g_type (g : list Z) : Z := le_field g 5 1 mod 16.

(** ** Descriptors are what they should be *)

Lemma fill_gdt_run gdt tss : length gdt = 56%nat ->
  fill_gdt gdt tss = Ret (gdt_entry_bytes (set_entry 0 0 0x00 0x00) ++ gdt_entry_bytes (set_entry 0 0 0x9A 0xA0) ++
    gdt_entry_bytes (set_entry 0 0 0x92 0x00) ++ gdt_entry_bytes (set_entry 0 0 0xFA 0xA0) ++
    gdt_entry_bytes (set_entry 0 0 0xF2 0x00) ++ tss_descriptor_bytes (set_tss_entry tss (TSS_SIZE - 1))).
Proof.
  intros Hl. do 56 (destruct gdt as [|? gdt]; [discriminate Hl|]). destruct gdt; [|discriminate Hl]. reflexivity.
Qed.

Lemma land_mask n x : 0 <= n -> Z.land x (Z.ones n) = x mod 2 ^ n.
Proof. intros. by apply Z.land_ones. Qed.

(** The address and the size in a system descriptor. *)
Lemma set_tss_entry_reads base limit : 0 <= base < 2 ^ 64 -> 0 <= limit < 2 ^ 20 ->
  let d := tss_descriptor_bytes (set_tss_entry base limit) in
  s_base d = base /\ s_limit d = limit /\ d_present d = true /\ d_segment d = false /\ d_dpl d = 0 /\ d_type d = 9.
Proof.
  intros Hb Hl d.
  assert (le_field d 0 2 = from_le (to_le 2 (Z.land limit 0xFFFF)) /\ le_field d 2 2 = from_le (to_le 2 (Z.land base 0xFFFF)) /\
    le_field d 4 1 = from_le (to_le 1 (Z.land (Z.shiftr base 16) 0xFF)) /\ le_field d 6 1 = from_le (to_le 1 (Z.land (Z.shiftr limit 16) 0x0F)) /\
    le_field d 7 1 = from_le (to_le 1 (Z.land (Z.shiftr base 24) 0xFF)) /\ le_field d 8 4 = from_le (to_le 4 (wrap 32 (Z.shiftr base 32))))
    as (E0 & E2 & E4 & E6 & E7 & E8) by (repeat split; reflexivity).
  rewrite from_le_to_le in E0, E2, E4, E6, E7, E8.
  change 0xFFFF with (Z.ones 16) in *. change 0xFF with (Z.ones 8) in *. change 0x0F with (Z.ones 4) in *.
  rewrite !land_mask, ?Z.shiftr_div_pow2 in * by lia.
  split; [unfold s_base; rewrite E2, E4, E7, E8; unfold wrap; lia|]. split; [unfold s_limit; rewrite E0, E6; lia|]. by repeat split.
Qed.

Section GdtTyped.
Context (gdt_base tss_base : nat -> Z) (ring0_base : Z).

Definition gdt_wf (s : Gdt) : Prop :=
  length (GDT_TABLE s) = MAX_CPUS /\ length (GDTR_TABLE s) = MAX_CPUS /\ length (TSS_TABLE s) = MAX_CPUS /\
  Forall (fun g => length g = 56%nat) (GDT_TABLE s).

(** A processor that has loaded its tables: every selector names a segment of its
    own privilege level and kind, the null descriptor is not present, the task
    state segment is where the static is, with no I/O map and the ring-0 stack of
    the processor. *)
Record gdt_typed (s : Gdt) (cpu : nat) : Prop := {
  gt_gdtr : gdtr s !! cpu = Some (55, gdt_base cpu);
  gt_tr : tr s !! cpu = Some TSS_SELECTOR;
  gt_table : exists gdt, GDT_TABLE s !! cpu = Some gdt /\ length gdt = 56%nat /\
    d_present (descriptor gdt 0) = false /\
    names_segment gdt KERNEL_CODE_SELECTOR true /\ names_segment gdt KERNEL_DATA_SELECTOR false /\
    names_segment gdt USER_CODE_SELECTOR true /\ names_segment gdt USER_DATA_SELECTOR false /\
    let d := drop (Z.to_nat TSS_SELECTOR) gdt in
    s_base d = tss_base cpu /\ s_limit d = TSS_SIZE - 1 /\ d_present d = true /\ d_segment d = false /\ d_dpl d = 0 /\ d_type d = 9;
  gt_tss : exists top, ring0_top ring0_base cpu = Ret top /\ top mod 16 = 0 /\ TSS_TABLE s !! cpu = Some (mkTss top TSS_SIZE);
}.

Lemma gdt_init_run (s : Gdt) (cpu : nat) (Hwf : gdt_wf s) (Hcpu : (cpu < MAX_CPUS)%nat)
    (Htss : 0 <= tss_base cpu < 2 ^ 64) (Hr0 : 0 <= ring0_base) (Hr1 : ring0_base + 32 * RING0_STACK_SIZE < 2 ^ 64) :
  exists s', init_cpu gdt_base tss_base ring0_base cpu s = Ret (tt, s') /\ gdt_wf s' /\ gdt_typed s' cpu /\
    forall c, c <> cpu -> gdt_typed s c -> gdt_typed s' c.
Proof.
  destruct Hwf as (L1 & L2 & L3 & Hg). destruct (lookup_lt_is_Some_2 (GDT_TABLE s) cpu ltac:(lia)) as [gdt Egdt].
  pose proof (Forall_lookup_1 _ _ _ _ Hg Egdt) as Hl. cbn beta in Hl.
  assert (MAX_CPUS = 32%nat) as EM by done. set (t := ring0_base + Z.of_nat cpu * RING0_STACK_SIZE + RING0_STACK_SIZE).
  assert (0 <= t < 2 ^ 64) as Ht by (unfold t, RING0_STACK_SIZE in *; lia).
  assert (ring0_top ring0_base cpu = Ret (Z.land t (unot 64 0xF))) as Etop by (unfold ring0_top; fold t; by rewrite chk_Ret).
  assert (Z.land t (unot 64 0xF) mod 16 = 0) as Hal.
  { change 16 with (2 ^ 4). rewrite <- Z.land_ones by lia. zbits i. change 0xF with (Z.ones 4).
    rewrite !Z.testbit_ones_nonneg by lia. destruct (Z.ltb_spec i 4); by rewrite ?andb_false_r. }
  unfold init_cpu. rewrite (sbind_Ret _ _ s s s) by done. rewrite Egdt.
  rewrite (sbind_Ret _ _ s _ s) by (unfold slift; by rewrite Etop).
  rewrite (sbind_Ret _ _ s _ s) by (unfold slift; by rewrite (fill_gdt_run _ _ Hl)). cbv zeta.
  eexists. split; [done|]. split; [|split].
  - unfold gdt_wf. cbn [GDT_TABLE GDTR_TABLE TSS_TABLE]. rewrite !length_insert. by repeat (split; [done|]); apply Forall_insert.
  - constructor; cbn [gdtr tr GDT_TABLE TSS_TABLE].
    + apply lookup_insert_eq.
    + apply lookup_insert_eq.
    + eexists. split; [apply list_lookup_insert_eq; lia|]. split; [reflexivity|]. split; [reflexivity|].
      do 4 (split; [by repeat split|]). by apply (set_tss_entry_reads (tss_base cpu) (TSS_SIZE - 1)).
    + eexists. split; [exact Etop|]. split; [done|]. apply list_lookup_insert_eq. lia.
  - intros c Hc [G1 G2 G3 G4]. constructor; cbn [gdtr tr GDT_TABLE TSS_TABLE].
    + by rewrite lookup_insert_ne.
    + by rewrite lookup_insert_ne.
    + by rewrite list_lookup_insert_ne.
    + by rewrite list_lookup_insert_ne.
Qed.

(** C23: Loading the tables of a processor types them, leaves those of the others alone
    and panics only for a processor the tables have no room for. *)
Theorem gdt_init_typed (s : Gdt) (cpu : nat) (Hwf : gdt_wf s) (Hcpu : (cpu < MAX_CPUS)%nat)
    (Htss : 0 <= tss_base cpu < 2 ^ 64) (Hr0 : 0 <= ring0_base) (Hr1 : ring0_base + 32 * RING0_STACK_SIZE < 2 ^ 64) :
  exists s', init_cpu gdt_base tss_base ring0_base cpu s = Ret (tt, s') /\ gdt_wf s' /\ gdt_typed s' cpu /\
    forall c, c <> cpu -> gdt_typed s c -> gdt_typed s' c.
Proof. by apply gdt_init_run. Qed.

(** The stack is the one the scheduler knows. *)
Lemma ring0_top_kstack c (s : Sched) : (c < MAX_CPUS)%nat -> Scheduler.ring0_base s = ring0_base ->
  kstack_top c s = let! t := ring0_top ring0_base c in Ret (t, s).
Proof.
  intros Hc E. unfold kstack_top, ring0_top. rewrite (proj2 (Nat.ltb_lt _ _) Hc), E. by destruct (chk 64 _).
Qed.
End GdtTyped.

Lemma gdt_init_typed_witness :
  exists s', init_cpu (fun c => 0xFFFFFFFF80100000 + 56 * Z.of_nat c) (fun c => 0xFFFFFFFF80200000 + 104 * Z.of_nat c)
      0xFFFFFFFF80300000 3 gdt_statics = Ret (tt, s') /\
    gdt_typed (fun c => 0xFFFFFFFF80100000 + 56 * Z.of_nat c) (fun c => 0xFFFFFFFF80200000 + 104 * Z.of_nat c) 0xFFFFFFFF80300000 s' 3.
Proof.
  destruct (gdt_init_typed (fun c => 0xFFFFFFFF80100000 + 56 * Z.of_nat c) (fun c => 0xFFFFFFFF80200000 + 104 * Z.of_nat c)
    0xFFFFFFFF80300000 gdt_statics 3) as (s' & Hrun & _ & Ht & _); [|unfold MAX_CPUS; lia|lia|lia|unfold RING0_STACK_SIZE; lia|by exists s'].
  split; [done|]. split; [done|]. split; [done|]. by apply Forall_replicate.
Defined.

(** ** Gates are what they should be *)

Lemma gate_size e : length (idt_entry_bytes e) = 16%nat.
Proof. reflexivity. Qed.

Lemma gate_slice idt v : blen idt = 4096 -> 0 <= v < 256 -> slice idt (16 * v) (16 * v + 16) = Ret (gate idt v).
Proof.
  intros Hl Hv. rewrite slice_Ret by lia. unfold gate. by replace (Z.to_nat (16 * v + 16 - 16 * v)) with 16%nat by lia.
Qed.

Lemma gate_put idt v e : blen idt = 4096 -> 0 <= v < 256 -> exists idt', splice idt (16 * v) (idt_entry_bytes e) = Ret idt' /\
  blen idt' = 4096 /\ forall w, 0 <= w < 256 -> gate idt' w = if w =? v then idt_entry_bytes e else gate idt w.
Proof.
  intros Hl Hv. assert (blen (idt_entry_bytes e) = 16) as He by (unfold blen; by rewrite gate_size).
  eexists. split; [apply splice_Ret; lia|]. set (idt' := _ ++ _).
  assert (splice idt (16 * v) (idt_entry_bytes e) = Ret idt') as Hs by (apply splice_Ret; lia).
  pose proof (splice_blen _ _ _ _ Hs) as Hl'. rewrite Hl in Hl'. split; [done|]. intros w Hw.
  pose proof (gate_slice idt' w Hl' Hw) as Hg. destruct (Z.eqb_spec w v) as [->|Hne].
  - pose proof (slice_splice_same _ _ _ _ Hs) as Hself. rewrite He in Hself. congruence.
  - rewrite (slice_splice_disjoint _ _ _ _ _ _ Hs) in Hg by lia. rewrite gate_slice in Hg by done. congruence.
Qed.

Section IdtTyped.
Context (stub : Z -> Z) (idt_base : Z) (Hstub : forall v, 0 <= stub v < 2 ^ 64).

Lemma put_gates_run vs : forall idt, blen idt = 4096 -> Forall (fun v => 0 <= v < 256) vs ->
  exists idt', put_gates stub vs idt = Ret idt' /\ blen idt' = 4096 /\ forall w, 0 <= w < 256 ->
    gate idt' w = if decide (w ∈ vs) then idt_entry_bytes (set_gate (stub w) 0x08 0x8E) else gate idt w.
Proof.
  induction vs as [|v vs IH]; intros idt Hl Hvs; [by exists idt|]. apply Forall_cons_1 in Hvs as [Hv Hvs]. cbn [put_gates].
  destruct (gate_put idt v (set_gate (stub v) 0x08 0x8E) Hl Hv) as (idt1 & Hs & Hl1 & Hg1). rewrite Hs. cbn [obind].
  destruct (IH idt1 Hl1 Hvs) as (idt2 & Hr & Hl2 & Hg2). exists idt2. split; [done|]. split; [done|]. intros w Hw.
  rewrite Hg2, Hg1 by done. destruct (decide (w ∈ vs)) as [Hin|Hin].
  - by rewrite decide_True by (by apply elem_of_cons; right).
  - destruct (Z.eqb_spec w v) as [->|Hne]; [by rewrite decide_True by apply list_elem_of_here|].
    rewrite decide_False; [done|]. by intros [->|?]%elem_of_cons.
Qed.

(** The fields of a gate. *)
Lemma set_gate_reads offset type_attr : 0 <= offset < 2 ^ 64 -> 0 <= type_attr < 256 ->
  let g := idt_entry_bytes (set_gate offset 0x08 type_attr) in
  g_offset g = offset /\ g_selector g = KERNEL_CODE_SELECTOR /\ le_field g 5 1 = type_attr.
Proof.
  intros Ho Ht g.
  assert (le_field g 0 2 = from_le (to_le 2 (Z.land offset 0xFFFF)) /\ le_field g 6 2 = from_le (to_le 2 (Z.land (Z.shiftr offset 16) 0xFFFF)) /\
    le_field g 8 4 = from_le (to_le 4 (Z.land (Z.shiftr offset 32) 0xFFFFFFFF)) /\ le_field g 5 1 = from_le (to_le 1 type_attr))
    as (E0 & E6 & E8 & E5) by (repeat split; reflexivity).
  rewrite from_le_to_le in E0, E6, E8, E5.
  change 0xFFFF with (Z.ones 16) in *. change 0xFFFFFFFF with (Z.ones 32) in *.
  rewrite !land_mask, ?Z.shiftr_div_pow2 in * by lia.
  split; [unfold g_offset; rewrite E0, E6, E8; lia|]. split; [reflexivity|]. rewrite E5. by apply Z.mod_small.
Qed.

Lemma zero_gate n v : g_present (gate (zeros n) v) = false.
Proof.
  unfold gate, zeros. rewrite drop_replicate, take_replicate. generalize (16 `min` (Z.to_nat n - Z.to_nat (16 * v)))%nat. intros k.
  unfold g_present, le_field. rewrite drop_replicate, take_replicate. generalize (1 `min` (k - 5))%nat. intros j.
  assert (from_le (replicate j 0) = 0) as -> by (induction j as [|j IH]; [done|]; cbn [replicate from_le]; rewrite IH; lia). apply Z.bits_0.
Qed.

Lemma GATES_range : Forall (fun v => 0 <= v < 256) GATES.
Proof. unfold GATES, PIC_SPURIOUS_VECTOR, APIC_SPURIOUS_VECTOR. repeat (apply Forall_cons; split; [lia|]). by apply Forall_nil. Qed.

Lemma idt_init_run :
  exists idt, idt_init stub idt_base = Ret (idt, (16 * 256 - 1, idt_base)) /\ blen idt = 16 * 256 /\
    forall v, 0 <= v < 256 -> let g := gate idt v in
      if decide (v ∈ SYSCALL_VECTOR :: GATES) then
        g_present g = true /\ g_offset g = stub v /\ g_selector g = KERNEL_CODE_SELECTOR /\ g_type g = 0xE /\
        g_dpl g = if v =? SYSCALL_VECTOR then 3 else 0
      else g_present g = false.
Proof.
  assert (0 <= SYSCALL_VECTOR < 256) as Hsv by (unfold SYSCALL_VECTOR; lia). unfold idt_init.
  pose proof (zero_gate (16 * 256)) as Hz. assert (blen (zeros (16 * 256)) = 4096) as Hl0 by (apply blen_zeros; lia).
  generalize dependent (zeros (16 * 256)). intros z Hz Hl0. change (16 * 256) with 4096.
  destruct (put_gates_run GATES z Hl0 GATES_range) as (idt1 & Hr & Hl1 & Hg1). rewrite Hr. cbn [obind].
  destruct (gate_put idt1 SYSCALL_VECTOR (set_gate (stub SYSCALL_VECTOR) 0x08 0xEE) Hl1 Hsv) as (idt2 & Hs & Hl2 & Hg2).
  rewrite Hs. cbn [obind]. exists idt2. split; [reflexivity|]. split; [exact Hl2|]. intros v Hv. cbv zeta.
  rewrite Hg2, Hg1 by exact Hv. destruct (Z.eqb_spec v SYSCALL_VECTOR) as [->|Hne].
  - rewrite decide_True by apply list_elem_of_here. destruct (set_gate_reads (stub SYSCALL_VECTOR) 0xEE (Hstub _) ltac:(lia)) as (Eo & Es & E5).
    unfold g_present, g_type, g_dpl. by rewrite Eo, Es, E5.
  - destruct (decide (v ∈ GATES)) as [Hin|Hin].
    + rewrite decide_True by (by apply elem_of_cons; right). destruct (set_gate_reads (stub v) 0x8E (Hstub _) ltac:(lia)) as (Eo & Es & E5).
      unfold g_present, g_type, g_dpl. by rewrite Eo, Es, E5.
    + rewrite decide_False by (by intros [->|?]%elem_of_cons). apply Hz.
Qed.

(** C24: The interrupt table: a vector with a gate enters its own stub through the ring-0
    code segment with interrupts off, only the system call gate can be used from
    ring 3, and a vector without one is not present. *)
Theorem idt_init_typed :
  exists idt, idt_init stub idt_base = Ret (idt, (16 * 256 - 1, idt_base)) /\ blen idt = 16 * 256 /\
    forall v, 0 <= v < 256 -> let g := gate idt v in
      if decide (v ∈ SYSCALL_VECTOR :: GATES) then
        g_present g = true /\ g_offset g = stub v /\ g_selector g = KERNEL_CODE_SELECTOR /\ g_type g = 0xE /\
        g_dpl g = if v =? SYSCALL_VECTOR then 3 else 0
      else g_present g = false.
Proof. exact idt_init_run. Qed.
End IdtTyped.

Lemma idt_init_typed_witness (stub := fun v => 0xFFFFFFFF80400000 + 16 * (v mod 256)) :
  exists idt, idt_init stub 0xFFFFFFFF80500000 = Ret (idt, (16 * 256 - 1, 0xFFFFFFFF80500000)) /\
    g_offset (gate idt 0x80) = stub 0x80 /\ g_dpl (gate idt 0x80) = 3 /\ g_present (gate idt 48) = false.
Proof.
  destruct (idt_init_typed stub 0xFFFFFFFF80500000) as (idt & Hr & _ & Hg); [intros v; unfold stub; lia|].
  exists idt. split; [exact Hr|]. pose proof (Hg 0x80 ltac:(lia)) as H80. pose proof (Hg 48 ltac:(lia)) as H48.
  rewrite decide_True in H80 by apply list_elem_of_here. rewrite decide_False in H48.
  - destruct H80 as (_ & E1 & _ & _ & E2). split; [exact E1|]. split; [exact E2|exact H48].
  - apply (bool_decide_unpack (48 ∉ SYSCALL_VECTOR :: GATES)). exact I.
Defined.
