(* ===== verification/Segments.v ===== *)
(** * Segment registers ([gdt_flush] and [enter_user] of [src/src/asm.rs])

    The two pieces of assembly that load segment registers, on the machine of [Entry]
    with the data segments and the table register added. What each instruction does
    follows the manual of the processor; the descriptors behind the selectors are those
    of [Descriptors]. *)

From S2P Require Import Prelude Io Scheduler Entry Descriptors.
From stdpp Require Import list.
#[local] Open Scope Z_scope.

Inductive seg_reg := DS | ES | FS | GS.
#[global] Instance seg_reg_eq_dec : EqDecision seg_reg.
Proof. solve_decision. Defined.

(** The data segments and GDTR (limit and base); the stack words of the processor. *)
Record Cpu := mkCpu {
  core : Core;
  seg_sel : seg_reg -> Z;
  table : Z * Z;
  words : gmap Z Z;
}.

Definition with_core (s : Cpu) (c : Core) : Cpu := mkCpu c (seg_sel s) (table s) (words s).

#[export] Instance words_stacks : HasStacks (gmap Z Z).
Proof. by refine {| words_of m := m; with_words _ m := m |}. Defined.

(** The instructions of [Entry], and those that load segment registers. *)
Inductive sinstr :=
| Base (i : instr)
| Lgdt (ptr : Z * Z)             (* lgdt [rdi], [ptr] being what rdi points to *)
| MovAx (v : Z)                  (* mov ax, v *)
| MovSeg (r : seg_reg)           (* mov r, ax *)
| MovSs                          (* mov ss, ax *)
| LeaRax (label : Z)             (* lea rax, [rip + label] *)
| Retfq.

Definition ax (c : Core) : Z := gpr c RAX mod 2 ^ 16.

(** Writing the low half of a register keeps the rest. *)
Definition set_ax (c : Core) (v : Z) : Core := set_gpr c RAX (gpr c RAX / 2 ^ 16 * 2 ^ 16 + v).

(** An instruction of [Entry] in the larger machine; there are no calls here. *)
Definition on_base (m : M (Core * gmap Z Z) unit) : M Cpu unit := fun s =>
  match m (core s, words s) with
  | Ret (_, (c, w)) => Ret (tt, mkCpu c (seg_sel s) (table s) w)
  | Panic => Panic
  | OutOfFuel => OutOfFuel
  end.

Definition sstep (i : sinstr) : M Cpu unit :=
  match i with
  | Base i => on_base (step (fun _ => spanic) 0 (fun _ => 0) i)
  | Lgdt ptr => smodify (fun s => mkCpu (core s) (seg_sel s) ptr (words s))
  | MovAx v => smodify (fun s => with_core s (set_ax (core s) v))
  | MovSeg r => smodify (fun s => mkCpu (core s) (fun q => if bool_decide (q = r) then ax (core s) else seg_sel s q) (table s) (words s))
  | MovSs => smodify (fun s => let c := core s in with_core s (mkCore (gpr c) (rip c) (cs c) (rflags c) (rsp c) (ax c)))
  | LeaRax label => smodify (fun s => with_core s (set_gpr (core s) RAX label))
  | Retfq =>
      on_base (ip <- pop ;; cs' <- pop ;;
               on_core (fun c => mkCore (gpr c) ip cs' (rflags c) (rsp c) (ss c)))
  end.

Fixpoint sexec (p : list sinstr) : M Cpu unit :=
  match p with
  | [] => sret tt
  | i :: p => _ <- sstep i ;; sexec p
  end.

(** [label] is the address of the instruction after the far return. *)
Definition gdt_flush (ptr : Z * Z) (label : Z) : list sinstr :=
  [Lgdt ptr; MovAx 0x10; MovSeg DS; MovSeg ES; MovSeg FS; MovSeg GS; MovSs;
   Base (PushImm 0x08); LeaRax label; Base (Push RAX); Retfq; Base RetNear].

Definition RFLAGS : Z := 0x202.
Definition USER_CS : Z := USER_CODE_SELECTOR.
Definition USER_SS : Z := USER_DATA_SELECTOR.

(** [entry] and [stack] are the registers the compiler passes the arguments in. *)
Definition enter_user (entry stack : reg) : list sinstr :=
  [Base (PushImm USER_SS); Base (Push stack); Base (PushImm RFLAGS); Base (PushImm USER_CS); Base (Push entry);
   MovAx USER_SS; MovSeg DS; MovSeg ES; Base Iretq].

(** ** What they do *)

Lemma sexec_cons i p s s1 : sstep i s = Ret (tt, s1) -> sexec (i :: p) s = sexec p s1.
Proof. intros H. cbn [sexec]. by rewrite (sbind_Ret _ _ _ _ _ H). Qed.

Lemma sstep_push v i s : i = PushImm v \/ (exists r, i = Push r /\ gpr (core s) r = v) -> 8 <= rsp (core s) < 2 ^ 64 ->
  sstep (Base i) s = Ret (tt, mkCpu (set_rsp (core s) (rsp (core s) - 8)) (seg_sel s) (table s) (<[rsp (core s) - 8 := v]> (words s))).
Proof.
  intros Hi Hr. cbn [sstep]. unfold on_base.
  destruct Hi as [->|(r & -> & <-)]; unfold step; cbn [sbind sget]; unfold push, smodify; cbn [words_of with_words words_stacks];
    by rewrite wrap_small by lia.
Qed.

Lemma sstep_retfq c sg t w : 0 <= rsp c < 2 ^ 64 - 16 -> sstep Retfq (mkCpu c sg t w) =
  Ret (tt, mkCpu (mkCore (gpr c) (word w (rsp c)) (word w (rsp c + 8)) (rflags c) (rsp c + 16) (ss c)) sg t w).
Proof.
  intros Hr. cbn [sstep]. unfold on_base, pop, on_core, smodify. cbn [core words sbind set_rsp rsp words_of words_stacks gpr rflags ss seg_sel table].
  rewrite (wrap_small 64 (rsp c + 8)) by lia. rewrite wrap_small by lia. by replace (rsp c + 8 + 8) with (rsp c + 16) by lia.
Qed.

Lemma sstep_ret c sg t w : 0 <= rsp c < 2 ^ 64 - 8 -> sstep (Base RetNear) (mkCpu c sg t w) =
  Ret (tt, mkCpu (mkCore (gpr c) (word w (rsp c)) (cs c) (rflags c) (rsp c + 8) (ss c)) sg t w).
Proof.
  intros Hr. cbn [sstep]. unfold on_base, step, pop, on_core, smodify. cbn [core words sbind sget set_rsp rsp words_of words_stacks].
  by rewrite wrap_small by lia.
Qed.

Lemma sstep_iretq c sg t w : 0 <= rsp c < 2 ^ 64 - 40 -> sstep (Base Iretq) (mkCpu c sg t w) =
  Ret (tt, mkCpu (mkCore (gpr c) (word w (rsp c)) (word w (rsp c + 8)) (word w (rsp c + 16)) (word w (rsp c + 24)) (word w (rsp c + 32))) sg t w).
Proof. intros Hr. cbn [sstep]. unfold on_base. cbn [core words]. by rewrite (iretq_run _ _ _ c w _ eq_refl). Qed.

Lemma set_ax_ax c v : 0 <= v < 2 ^ 16 -> ax (set_ax c v) = v.
Proof. intros Hv. unfold ax, set_ax. cbn [set_gpr gpr]. rewrite bool_decide_true by done. lia. Qed.

(** [gdt_flush] returns to its caller with the table loaded, the kernel's code segment
    in [cs], the kernel's data segment in every other segment register, and every
    general register but [rax] and the flags as they were. *)
Lemma gdt_flush_run (ptr : Z * Z) (label : Z) (s : Cpu) : 16 <= rsp (core s) < 2 ^ 64 - 8 ->
  exists s', sexec (gdt_flush ptr label) s = Ret (tt, s') /\
    table s' = ptr /\ cs (core s') = KERNEL_CODE_SELECTOR /\ ss (core s') = KERNEL_DATA_SELECTOR /\
    (forall r, seg_sel s' r = KERNEL_DATA_SELECTOR) /\
    rip (core s') = word (words s) (rsp (core s)) /\ rsp (core s') = rsp (core s) + 8 /\
    rflags (core s') = rflags (core s) /\ (forall r, r <> RAX -> gpr (core s') r = gpr (core s) r) /\
    forall a, ~ rsp (core s) - 16 <= a < rsp (core s) -> words s' !! a = words s !! a.
Proof.
  intros Hr. unfold gdt_flush. do 7 (erewrite sexec_cons by reflexivity). cbn [core seg_sel table words with_core].
  erewrite sexec_cons by (apply (sstep_push 0x08); [by left|cbn [core with_core set_ax set_gpr rsp]; lia]).
  erewrite sexec_cons by reflexivity.
  erewrite sexec_cons by (apply (sstep_push label); [right; exists RAX; split; [done|cbn; by rewrite bool_decide_true]|
    cbn [core with_core set_ax set_gpr set_rsp rsp]; lia]).
  cbn [core seg_sel table words with_core set_rsp set_gpr set_ax rsp gpr rip cs rflags ss].
  set (sp := rsp (core s)) in *. replace (sp - 8 - 8) with (sp - 16) by lia.
  set (m := <[sp - 16 := label]> _). assert (m !! (sp - 16) = Some label /\ m !! (sp - 8) = Some 0x08 /\ m !! sp = words s !! sp) as (H1 & H2 & H3).
  { unfold m. rewrite lookup_insert_eq. split; [done|]. rewrite !(lookup_insert_ne _ (sp - 16)) by lia. rewrite lookup_insert_eq.
    split; [done|]. by rewrite lookup_insert_ne by lia. }
  erewrite sexec_cons by (apply sstep_retfq; cbn [rsp set_rsp]; lia). cbn [rsp gpr rflags ss set_rsp set_gpr].
  erewrite sexec_cons by (apply sstep_ret; cbn [rsp set_rsp]; lia). cbn [rsp gpr rflags ss cs set_rsp set_gpr].
  eexists. split; [reflexivity|]. replace (sp - 16 + 16) with sp by lia. replace (sp - 16 + 8) with (sp - 8) by lia.
  unfold word. rewrite H2, H3.
  cbn [core seg_sel table words set_rip set_rsp cs ss rip rsp rflags gpr].
  split_and!; try done.
  - exact (set_ax_ax (core s) 0x10 ltac:(lia)).
  - intros q. pose proof (set_ax_ax (core s) 0x10 ltac:(lia)) as E. unfold set_ax, set_gpr in E. destruct q; repeat (rewrite bool_decide_false by done); rewrite bool_decide_true by done; exact E.
  - intros r Hne. by rewrite !bool_decide_false by done.
  - intros a Ha. unfold m. by rewrite !lookup_insert_ne by lia.
Qed.

(** [enter_user] leaves for ring 3: the program starts at its entry point on its stack,
    in the user's code and data segments, with interrupts on. *)
Lemma enter_user_run (entry stack : reg) (s : Cpu) : 40 <= rsp (core s) < 2 ^ 64 - 40 ->
  exists s', sexec (enter_user entry stack) s = Ret (tt, s') /\
    rip (core s') = gpr (core s) entry /\ rsp (core s') = gpr (core s) stack /\
    cs (core s') = USER_CODE_SELECTOR /\ ss (core s') = USER_DATA_SELECTOR /\ rflags (core s') = 0x202 /\
    seg_sel s' DS = USER_DATA_SELECTOR /\ seg_sel s' ES = USER_DATA_SELECTOR /\ table s' = table s /\
    cs (core s') mod 4 = 3 /\ Z.testbit (rflags (core s')) 9 = true.
Proof.
  intros Hr. unfold enter_user.
  erewrite sexec_cons by (apply (sstep_push USER_SS); [by left|lia]).
  erewrite sexec_cons by (apply (sstep_push (gpr (core s) stack)); [right; by exists stack|cbn [core set_rsp rsp]; lia]).
  erewrite sexec_cons by (apply (sstep_push RFLAGS); [by left|cbn [core set_rsp rsp]; lia]).
  erewrite sexec_cons by (apply (sstep_push USER_CS); [by left|cbn [core set_rsp rsp]; lia]).
  erewrite sexec_cons by (apply (sstep_push (gpr (core s) entry)); [right; by exists entry|cbn [core set_rsp rsp]; lia]).
  do 3 (erewrite sexec_cons by reflexivity).
  cbn [core seg_sel table words with_core set_rsp set_gpr set_ax rsp gpr rip cs rflags ss]. set (sp := rsp (core s)) in *.
  replace (sp - 8 - 8) with (sp - 16) by lia. replace (sp - 16 - 8) with (sp - 24) by lia. replace (sp - 24 - 8) with (sp - 32) by lia.
  replace (sp - 32 - 8) with (sp - 40) by lia.
  erewrite sexec_cons by (apply sstep_iretq; cbn [rsp set_rsp set_gpr set_ax]; lia). eexists. split; [reflexivity|].
  cbn [core seg_sel table rip rsp cs ss rflags set_rsp set_gpr set_ax]. replace (sp - 40 + 8) with (sp - 32) by lia. replace (sp - 40 + 16) with (sp - 24) by lia.
  replace (sp - 40 + 24) with (sp - 16) by lia. replace (sp - 40 + 32) with (sp - 8) by lia.
  unfold word. repeat first [rewrite lookup_insert_eq | rewrite lookup_insert_ne by lia].
  assert (ax (set_ax (core s) USER_SS) = USER_SS) as E by (apply set_ax_ax; by split). unfold set_ax, set_gpr in E.
  split_and!; try done; exact E.
Qed.
