(* ===== verification/Boot.v ===== *)
(** * Bringing up a processor ([ap_entry] of [src/src/smp.rs])

    What a processor released by [start_aps] does before it idles: its own
    descriptor tables, the shared interrupt table, its local interrupt controller
    and timer, its place in the scheduler, interrupts. The idle loop it ends in is a
    halt instruction. *)

From S2P Require Import Prelude Io Pmm Vmm Heap Scheduler Smp Ahci AhciHw AhciRam AhciSample Apic Descriptors.
From stdpp Require Import list.
#[local] Open Scope Z_scope.

Section Boot.
Context {PA : Type} `{FA : FrameAllocator PA} {H : Type} `{HB : Hba H}.
Abbreviation Apic := (@Apic PA H).

(** The tables of all processors, and what each has in its registers. *)
Record Ap := mkAp {
  ap_gdt : Gdt;
  ap_idtr : gmap nat (Z * Z);
  ap_apic : Apic;
  ap_sched : Sched;
  ap_rflags : gmap nat Z;
}.

Definition on_gdt {A} (m : M Gdt A) : M Ap A := fun s =>
  match m (ap_gdt s) with
  | Ret (a, g) => Ret (a, mkAp g (ap_idtr s) (ap_apic s) (ap_sched s) (ap_rflags s))
  | Panic => Panic
  | OutOfFuel => OutOfFuel
  end.

Definition on_apic {A} (m : M Apic A) : M Ap A := fun s =>
  match m (ap_apic s) with
  | Ret (a, p) => Ret (a, mkAp (ap_gdt s) (ap_idtr s) p (ap_sched s) (ap_rflags s))
  | Panic => Panic
  | OutOfFuel => OutOfFuel
  end.

Definition on_tasks {A} (m : M Sched A) : M Ap A := fun s =>
  match m (ap_sched s) with
  | Ret (a, c) => Ret (a, mkAp (ap_gdt s) (ap_idtr s) (ap_apic s) c (ap_rflags s))
  | Panic => Panic
  | OutOfFuel => OutOfFuel
  end.

(** Where the statics lie, what [idt::init] left in [IDTR], and what the processor
    answers to [rdmsr] and [cpuid]. *)
Context (gdt_base tss_base : nat -> Z) (ring0 : Z) (IDTR : Z * Z) (msr : Z -> Z) (ecx : Z).

(** [idt::load] *)
Definition idt_load (cpu : nat) : M Ap unit :=
  smodify (fun s => mkAp (ap_gdt s) (<[cpu := IDTR]> (ap_idtr s)) (ap_apic s) (ap_sched s) (ap_rflags s)).

(** [io::irq_enable] on processor [cpu]. *)
Definition irq_on (cpu : nat) : M Ap unit :=
  smodify (fun s => mkAp (ap_gdt s) (ap_idtr s) (ap_apic s) (ap_sched s) (<[cpu := irq_enable (default 2 (ap_rflags s !! cpu))]> (ap_rflags s))).

Definition ap_entry (info : LimineSmpInfo) : M Ap unit :=
  let cpu := Z.to_nat (ap_entry_cpu info) in
  _ <- on_gdt (Descriptors.init_cpu gdt_base tss_base ring0 cpu) ;;
  _ <- idt_load cpu ;;
  _ <- on_apic (init_ap msr ecx) ;;
  _ <- on_apic timer_init_cpu ;;
  _ <- on_tasks (Scheduler.init_cpu cpu) ;;
  irq_on cpu.

(** The scheduler's part: the processor runs its idle task. *)
Lemma sched_init_cpu_run s c : sched_ok s -> (c < MAX_CPUS)%nat -> percpu s !! c = Some EMPTY_PERCPU ->
  exists s' t, Scheduler.init_cpu c s = Ret (tt, s') /\ sched_ok s' /\ percpu s' !! c = Some (mkPerCpu (Some (Idl c)) None) /\
    find_task s' (Idl c) = Some t /\ state t = Running /\ rsp0 s' !! c = Some (kstack t) /\
    (forall d, d <> c -> percpu s' !! d = percpu s !! d /\ idle s' !! d = idle s !! d) /\
    initialized s' = initialized s /\ stacks s' = stacks s /\ ring0_base s' = ring0_base s /\ idle_entry s' = idle_entry s.
Proof.
  intros Hs Hc Hp. destruct (lookup_lt_is_Some_2 (idle s) c) as [t Ht]; [rewrite (so_idle _ Hs); exact Hc|].
  assert (Scheduler.init_cpu c s = Ret (tt, set_rsp0 (set_percpu (put_task s (Idl c) (with_state Running t))
    (<[c := mkPerCpu (Some (Idl c)) None]> (percpu s))) (<[c := kstack t]> (rsp0 s)))) as Hrun.
  { unfold Scheduler.init_cpu, upd_task, set_per_cpu, get_task, set_kernel_stack, sbind. cbn [find_task]. rewrite Ht.
    cbn [put_task set_idle set_percpu percpu idle rsp0]. rewrite (proj2 (Nat.ltb_lt _ _)) by (rewrite (so_percpu _ Hs); exact Hc).
    change (idle (set_percpu _ _)) with (<[c := with_state Running t]> (idle s)). rewrite list_lookup_insert_eq by (rewrite (so_idle _ Hs); exact Hc).
    rewrite (proj2 (Nat.ltb_lt _ _)) by (cbn; rewrite (so_rsp0 _ Hs); exact Hc). reflexivity. }
  eexists. exists (with_state Running t). split; [exact Hrun|]. split; [|split; [|split; [|split; [|split; [|split]]]]].
  - exact (step_ok s _ Hs (step_init_cpu c s _ Hp Hrun)).
  - apply list_lookup_insert_eq. rewrite (so_percpu _ Hs). exact Hc.
  - apply list_lookup_insert_eq. rewrite (so_idle _ Hs). exact Hc.
  - reflexivity.
  - apply list_lookup_insert_eq. rewrite (so_rsp0 _ Hs). exact Hc.
  - intros d Hd. split; by apply list_lookup_insert_ne.
  - done.
Qed.

End Boot.

