(* ===== verification/Kernel.v ===== *)
(** * The kernel as a whole

    The state the system calls and the program loader work on: one component
    next to the other, each reached through its own operations. The memory
    allocator, the terminal and the disk are known by their interfaces. The
    accessors of [src/src/fs.rs] are here; they run an operation of the driver
    on the mounted volume, when there is one. *)

From S2P Require Import Prelude Pmm Vmm Graphics Terminal Keyboard Scheduler Block.
From S2P Require Import Heap Ext4Layout Ext4 Ext4Inode Ext4Dir Ext4File.
From stdpp Require Import list.
#[local] Open Scope Z_scope.

Section Kernel.
Context {PA : Type} `{FA : FrameAllocator PA} {T : Type} `{CT : Console T} {D : Type} `{BD : BlockDevice D}.
Abbreviation Vmm := (Vmm PA).
Abbreviation Ext4 := (Ext4 D).

(** [screen] is the description the framebuffer accessors read; [mount_point],
    [next_stack], [mmap_next], [fb_mapped], [uptime] and [ticks] are the statics
    [fs::MOUNT], [user::NEXT_STACK], [syscall::MMAP_NEXT], [syscall::FB_MAPPED],
    [apic::UPTIME_MS] and [apic::APIC_TICKS]. *)
Record Kernel := mkKernel {
  vm : Vmm;
  sched : Sched;
  kbd : Keyboard;
  con : T;
  screen : option LimineFramebuffer;
  mount_point : option Ext4;
  next_stack : Z;
  mmap_next : Z;
  fb_mapped : bool;
  uptime : Z;
  ticks : Z;
}.

Definition set_vm (k : Kernel) (v : Vmm) : Kernel :=
  mkKernel v (sched k) (kbd k) (con k) (screen k) (mount_point k) (next_stack k) (mmap_next k) (fb_mapped k) (uptime k) (ticks k).
Definition set_sched (k : Kernel) (s : Sched) : Kernel :=
  mkKernel (vm k) s (kbd k) (con k) (screen k) (mount_point k) (next_stack k) (mmap_next k) (fb_mapped k) (uptime k) (ticks k).
Definition set_kbd (k : Kernel) (b : Keyboard) : Kernel :=
  mkKernel (vm k) (sched k) b (con k) (screen k) (mount_point k) (next_stack k) (mmap_next k) (fb_mapped k) (uptime k) (ticks k).
Definition set_con (k : Kernel) (t : T) : Kernel :=
  mkKernel (vm k) (sched k) (kbd k) t (screen k) (mount_point k) (next_stack k) (mmap_next k) (fb_mapped k) (uptime k) (ticks k).
Definition set_mount (k : Kernel) (m : option Ext4) : Kernel :=
  mkKernel (vm k) (sched k) (kbd k) (con k) (screen k) m (next_stack k) (mmap_next k) (fb_mapped k) (uptime k) (ticks k).
Definition set_next_stack (k : Kernel) (a : Z) : Kernel :=
  mkKernel (vm k) (sched k) (kbd k) (con k) (screen k) (mount_point k) a (mmap_next k) (fb_mapped k) (uptime k) (ticks k).
Definition set_mmap_next (k : Kernel) (a : Z) : Kernel :=
  mkKernel (vm k) (sched k) (kbd k) (con k) (screen k) (mount_point k) (next_stack k) a (fb_mapped k) (uptime k) (ticks k).
Definition set_fb_mapped (k : Kernel) (b : bool) : Kernel :=
  mkKernel (vm k) (sched k) (kbd k) (con k) (screen k) (mount_point k) (next_stack k) (mmap_next k) b (uptime k) (ticks k).
Definition set_clock (k : Kernel) (u n : Z) : Kernel :=
  mkKernel (vm k) (sched k) (kbd k) (con k) (screen k) (mount_point k) (next_stack k) (mmap_next k) (fb_mapped k) u n.

(** An operation of a component, run on the kernel. *)
Definition part {S A} (get : Kernel -> S) (set : Kernel -> S -> Kernel) (m : M S A) : M Kernel A := fun k =>
  match m (get k) with
  | Ret (a, s) => Ret (a, set k s)
  | Panic => Panic
  | OutOfFuel => OutOfFuel
  end.

Definition on_vm {A} : M Vmm A -> M Kernel A := part vm set_vm.
Definition on_sched {A} : M Sched A -> M Kernel A := part sched set_sched.
Definition on_con {A} : M T A -> M Kernel A := part con set_con.

Lemma part_Ret {S A} get set (m : M S A) k a s :
  m (get k) = Ret (a, s) -> part get set m k = Ret (a, set k s).
Proof. unfold part. by intros ->. Qed.

(** [keyboard::input]. *)
Definition kbd_input : M Kernel Z := fun k =>
  match input (kbd k) with
  | Ret (key, b) => Ret (key, set_kbd k b)
  | Panic => Panic
  | OutOfFuel => OutOfFuel
  end.

(** ** The mounted volume *)

Definition is_mounted (k : Kernel) : bool := match mount_point k with Some _ => true | None => false end.

Definition with_fs {A} (f : M Ext4 A) : M Kernel (option A) := fun k =>
  match mount_point k with
  | None => Ret (None, k)
  | Some e =>
      match f e with
      | Ret (a, e') => Ret (Some a, set_mount k (Some e'))
      | Panic => Panic
      | OutOfFuel => OutOfFuel
      end
  end.

Definition fs_root : M Kernel (option Z) := with_fs (sret ROOT_INO).
Definition fs_read_inode (ino : Z) : M Kernel (option (fs Inode)) := with_fs (read_inode ino).
Definition fs_read_dir (ino : Z) (out : list DirEnt) : M Kernel (option (fs (Z * list DirEnt))) := with_fs (read_dir ino out).
Definition fs_lookup (dir : Z) (name : list Z) : M Kernel (option (fs (option Z))) := with_fs (Ext4Dir.lookup dir name).
Definition fs_read_file (ino offset : Z) (buf : list Z) : M Kernel (option (fs (Z * list Z))) :=
  with_fs (read_file ino offset buf).
Definition fs_write_file (ino offset : Z) (buf : list Z) : M Kernel (option (fs unit)) :=
  with_fs (write_file ino offset buf).
Definition fs_create_file (dir : Z) (name : list Z) : M Kernel (option (fs Z)) := with_fs (create_file dir name).
Definition fs_create_dir (dir : Z) (name : list Z) : M Kernel (option (fs Z)) := with_fs (create_dir dir name).
Definition fs_sync : M Kernel (option (fs unit)) := with_fs sync.
End Kernel.

Arguments Kernel PA T D : clear implicits.
