(* ===== verification/Shell.v ===== *)
(** * The kernel shell ([src/src/shell.rs])

    The fallback when there is no program to start: one line is edited on the screen
    and handed to [execute_command]. [run_shell] never returns; it is modelled turn
    by turn, a turn being one key. *)

From S2P Require Import Prelude Pmm Vmm Graphics Terminal Klog Keyboard Scheduler Block.
From stdpp Require Import list strings pretty.
From S2P Require Import Ext4Layout Ext4 Ext4Dir Kernel.
#[local] Open Scope Z_scope.

(** ** Comparing strings *)

(** Both end with a zero byte; a read past the end of either is [Panic]. *)
Definition str_eq (s1 s2 : list Z) : outcome Z :=
  owhile (length s2 + 1) (fun i =>
    let! a := get8 s1 i in
    let! b := get8 s2 i in
    if negb (a =? b) then Ret (Exit 1) else
    if a =? 0 then Ret (Exit 0) else Ret (Next (i + 1))) 0.

Definition cstr (s : string) : list Z := text s ++ [0].

(** ** Text out of a directory *)

(** [core::str::from_utf8] accepts: well-formed UTF-8 of the Unicode standard. *)
Definition in_range (lo hi b : Z) : bool := (lo <=? b) && (b <=? hi).
Definition continuation (b : Z) : bool := in_range 0x80 0xBF b.
Definition second_of_3 (a b : Z) : bool :=
  if a =? 0xE0 then in_range 0xA0 0xBF b else if a =? 0xED then in_range 0x80 0x9F b else continuation b.
Definition second_of_4 (a b : Z) : bool :=
  if a =? 0xF0 then in_range 0x90 0xBF b else if a =? 0xF4 then in_range 0x80 0x8F b else continuation b.
Fixpoint utf8 (bytes : list Z) : bool :=
  match bytes with
  | [] => true
  | a :: r0 =>
      if in_range 0 0x7F a then utf8 r0 else
      match r0 with
      | [] => false
      | b :: r1 =>
          if in_range 0xC2 0xDF a then continuation b && utf8 r1 else
          match r1 with
          | [] => false
          | c :: r2 =>
              if in_range 0xE0 0xEF a then second_of_3 a b && continuation c && utf8 r2 else
              match r2 with
              | [] => false
              | d :: r3 => in_range 0xF0 0xF4 a && second_of_4 a b && continuation c && continuation d && utf8 r3
              end
          end
      end
  end.

Definition name_str (e : DirEnt) : outcome (option (list Z)) :=
  let! name := slice (de_name e) 0 (de_name_len e) in
  Ret (if utf8 name then Some name else None).

(** How [core::fmt] shows a [usize] and an [FsError]. *)
Definition decimal (n : Z) : list Z := text (pretty (Z.to_N n)).
Definition error_name (e : FsError) : string :=
  match e with
  | FsError.Io => "Io" | FsError.NoSpace => "NoSpace" | FsError.NotFound => "NotFound" | FsError.AlreadyExists => "AlreadyExists"
  | FsError.Corrupt => "Corrupt" | FsError.ReadOnly => "ReadOnly" | FsError.Unsupported => "Unsupported" | FsError.Invalid => "Invalid"
  end.

(** A line feed inside a literal. *)
Definition LF : list Z := [10].

(** The end of the array can only hold a zero. *)
Definition BUFFER_LEN : Z := 4096.

Section Shell.
Context {PA : Type} `{FA : FrameAllocator PA} {D : Type} `{BD : BlockDevice D}.
Abbreviation Kernel := (Kernel PA Screen D).

Definition kprint (bytes : list Z) : M Kernel unit := on_con (puts bytes).

Definition init_shell : M Kernel unit :=
  _ <- on_con (clear 0x0000) ;;
  _ <- kprint (text "Pinx Shell:/ ") ;;
  on_con draw_cursor.

(** One entry of the listing. *)
Definition list_entry (entries : list DirEnt) (i : Z) (_ : unit) : M Kernel (flow unit unit) :=
  _ <- kprint (LF ++ text "ls: entry " ++ decimal i) ;;
  match entries !! Z.to_nat i with
  | None => spanic
  | Some e =>
      name <-! name_str e ;;
      match name with
      | Some name => _ <- kprint (text " " ++ name) ;; sret (Next tt)
      | None => sret (Next tt)
      end
  end.

Definition list_root : M Kernel unit :=
  let entries := replicate 64 DirEnt_empty in
  root <- fs_root ;;
  match root with
  | None => kprint (LF ++ text "no filesystem mounted")
  | Some root =>
      result <- fs_read_dir root entries ;;
      match result with
      | None => kprint (LF ++ text "read_dir returned None")
      | Some (Ok (n, entries)) =>
          _ <- kprint (LF ++ text "ls: " ++ decimal n ++ text " entries") ;;
          _ <- for_loop (Z.to_nat (Z.min n (Z.of_nat (length entries)))) 0 (list_entry entries) tt ;;
          sret tt
      | Some (Err e) => kprint (LF ++ text "ls: filesystem error: " ++ text (error_name e))
      end
  end.

Definition execute_command (command : list Z) : M Kernel unit :=
  hello <-! str_eq command (cstr "hello") ;;
  if hello =? 0 then kprint (LF ++ text "Hello command!") else
  ls <-! str_eq command (cstr "ls") ;;
  if ls =? 0 then list_root else
  panic <-! str_eq command (cstr "panic") ;;
  if panic =? 0 then spanic else
  help <-! str_eq command (cstr "help") ;;
  if help =? 0 then
    kprint (LF ++ text "Comamnds:" ++ LF ++ text "hello: Says hello back to user" ++ LF ++
      text "ls: List's Directories and files" ++ LF ++ text "panic: Triggers a kernel panic")
  else kprint (LF ++ text "Unknown command").

(** The cell left of the cursor, cleared. *)
Definition clear_cell (x y : Z) : M Screen unit :=
  _ <- for_loop (R := unit) 8 0 (fun dy _ =>
    _ <- for_loop (R := unit) 8 0 (fun dx _ =>
      px_x <-! chk 64 (x + dx) ;;
      px_y <-! chk 64 (y + dy) ;;
      _ <- draw_pixel px_x px_y 0x000000 ;;
      sret (Next tt)) tt ;;
    sret (Next tt)) tt ;;
  sret tt.

(** The line being edited: [buffer] and [pos], locals of [run_shell]. *)
Record Line := mkLine { buffer : list Z; pos : Z }.

Definition empty_line : Line := mkLine (zeros BUFFER_LEN) 0.

(** The body of the loop for the key [c]. *)
Definition shell_key (l : Line) (c : Z) : M Kernel Line :=
  _ <- on_con erase_cursor ;;
  if c =? 10 then
    buf <-! put8 (buffer l) (pos l) 0 ;;
    _ <- execute_command buf ;;
    _ <- kprint (LF ++ text "Pinx Shell:/ ") ;;
    _ <- on_con draw_cursor ;;
    sret (mkLine buf 0)
  else if c =? 8 then
    if 0 <? pos l then
      k <- sget ;;
      let x := Z.max 0 (get_cursor_x (con k) - 8) in
      let y := get_cursor_y (con k) in
      _ <- on_con (clear_cell x y) ;;
      _ <- on_con (set_cursor x y) ;;
      _ <- on_con draw_cursor ;;
      sret (mkLine (buffer l) (pos l - 1))
    else _ <- on_con draw_cursor ;; sret l
  else if pos l <? blen (buffer l) - 1 then
    buf <-! put8 (buffer l) (pos l) c ;;
    _ <- on_con (putc c) ;;
    _ <- on_con draw_cursor ;;
    sret (mkLine buf (pos l + 1))
  else _ <- on_con draw_cursor ;; sret l.

(** One look at the keyboard: without input the processor halts until the next
    interrupt. *)
Definition shell_turn (l : Line) : M Kernel Line :=
  k <- sget ;;
  if negb (has_input (kbd k)) then sret l else
  c <- kbd_input ;;
  shell_key l c.

(** The keys of a session. *)
Fixpoint shell_keys (l : Line) (keys : list Z) : M Kernel Line :=
  match keys with
  | [] => sret l
  | c :: keys => l <- shell_key l c ;; shell_keys l keys
  end.
End Shell.

(** ** What the user sees *)

(** The line after a key; [None] is a machine stopped by the command. *)
Definition edit (line : list Z) (c : Z) : option (list Z) :=
  if c =? 10 then (if bool_decide (line = text "panic") then None else Some [])
  else if c =? 8 then Some (take (length line - 1) line)
  else if blen line <? BUFFER_LEN - 1 then Some (line ++ [c]) else Some line.

Fixpoint session (line : list Z) (keys : list Z) : option (list Z) :=
  match keys with
  | [] => Some line
  | c :: keys => edit line c ≫= fun line => session line keys
  end.

(** The buffer holds the line. *)
Record shows (l : Line) (line : list Z) : Prop := {
  sh_len : blen (buffer l) = BUFFER_LEN;
  sh_pos : pos l = blen line;
  sh_room : blen line < BUFFER_LEN;
  sh_bytes : take (length line) (buffer l) = line;
  sh_keys : Forall (fun b => 0 < b < 256) line;
}.

(** *** Strings *)

Lemma get8_mid pre b post : get8 (pre ++ b :: post) (Z.of_nat (length pre)) = Ret b.
Proof.
  unfold get8. rewrite (proj2 (Z.ltb_ge _ _)) by lia. rewrite Nat2Z.id, lookup_app_r by lia. by rewrite Nat.sub_diag.
Qed.

Lemma str_eq_from fuel line rest cmd : Forall (fun b => b <> 0) line -> Forall (fun b => b <> 0) cmd -> (length cmd < fuel)%nat ->
  forall pre, owhile fuel (fun i =>
    let! a := get8 (pre ++ line ++ 0 :: rest) i in
    let! b := get8 (pre ++ cmd ++ [0]) i in
    if negb (a =? b) then Ret (Exit 1) else if a =? 0 then Ret (Exit 0) else Ret (Next (i + 1))) (Z.of_nat (length pre)) =
  Ret (if bool_decide (line = cmd) then 0 else 1).
Proof.
  revert line cmd. induction fuel as [|fuel IH]; intros line cmd Hl Hc Hf pre; [lia|]. cbn [owhile].
  destruct line as [|a line], cmd as [|b cmd]; cbn [app]; rewrite !get8_mid; cbn [obind].
  - done.
  - apply Forall_cons in Hc as [Hb _]. by rewrite (proj2 (Z.eqb_neq 0 b)) by lia.
  - apply Forall_cons in Hl as [Ha _]. by rewrite (proj2 (Z.eqb_neq a 0)) by lia.
  - apply Forall_cons in Hl as [Ha Hl]. apply Forall_cons in Hc as [Hb Hc]. destruct (Z.eqb_spec a b) as [->|Hne]; cbn [negb obind].
    + rewrite (proj2 (Z.eqb_neq b 0)) by lia. cbn [obind]. specialize (IH line cmd Hl Hc ltac:(cbn [length] in Hf; lia) (pre ++ [b])).
      rewrite <- !app_assoc in IH. cbn [app] in IH. rewrite length_app in IH. cbn [length] in IH.
      replace (Z.of_nat (length pre) + 1) with (Z.of_nat (length pre + 1)) by lia. rewrite IH.
      repeat case_bool_decide; congruence.
    + rewrite bool_decide_false by congruence. done.
Qed.

Lemma str_eq_spec line rest cmd : Forall (fun b => b <> 0) line -> Forall (fun b => b <> 0) cmd ->
  str_eq (line ++ 0 :: rest) (cmd ++ [0]) = Ret (if bool_decide (line = cmd) then 0 else 1).
Proof. intros Hl Hc. apply (str_eq_from _ line rest cmd Hl Hc) with (pre := []). rewrite length_app. cbn [length]. lia. Qed.

(** *** The screen *)

Lemma redrawn_ok f s s' : redrawn f s s' -> screen_ok f s -> screen_ok f s'.
Proof. intros [-> _] []. by constructor. Qed.

(** Pixels drawn one after the other. *)
Lemma draws_run f n body s : screen_ok f s ->
  (forall i (t : Screen), 0 <= i < Z.of_nat n -> screen_ok f t -> cursor_x t = cursor_x s -> cursor_y t = cursor_y s ->
     exists t', body i tt t = Ret (Next tt, t') /\ redrawn f t t') ->
  exists s', for_loop (R := unit) n 0 body tt s = Ret (Next tt, s') /\ redrawn f s s'.
Proof.
  intros Hs Hb. destruct (for_loop_inv (fun _ _ t => redrawn f s t) n 0 body tt s (redrawn_refl f s)) as ([] & s' & Hrun & Hr).
  - intros i [] t Hi Hr. destruct (Hb i t Hi (redrawn_ok _ _ _ Hr Hs)) as (t' & Ht & Hr'); [by destruct Hr as [-> _]..|].
    exists tt, t'. split; [done|]. by eapply redrawn_trans.
  - by exists s'.
Qed.

Lemma draw_step f (t : Screen) x y color : screen_ok f t -> 0 <= x < 2 ^ 64 -> 0 <= y < 2 ^ 64 ->
  exists t', (px_x <-! chk 64 x ;; px_y <-! chk 64 y ;; _ <- draw_pixel px_x px_y color ;; sret (Next (R := unit) tt)) t = Ret (Next tt, t') /\ redrawn f t t'.
Proof.
  intros [Hf Hok _ _] Hx Hy. destruct (draw_pixel_spec f t x y color Hf Hok ltac:(lia) ltac:(lia)) as (t' & Hrun & Hr & _).
  exists t'. split; [|done]. unfold sbind at 1, slift. rewrite chk_Ret by lia. unfold sbind at 1. rewrite chk_Ret by lia. by rewrite (sbind_Ret _ _ _ _ _ Hrun).
Qed.

Lemma cursor_line_run f s color : screen_ok f s -> exists s', cursor_line color s = Ret (tt, s') /\ screen_ok f s'.
Proof.
  intros Hs. pose proof (screen_bounds f s Hs) as [Hw Hh]. pose proof Hs as [_ _ Hx Hy]. unfold FONT_WIDTH in Hx.
  unfold cursor_line, cursor. unfold sbind at 1.
  match goal with |- context [for_loop 8 0 ?b tt] => destruct (draws_run f 8 b s Hs) as (s' & Hrun & Hr) end.
  - intros i t Hi Ht Ex Ey. apply (draw_step f t (cursor_x s + i) (cursor_y s + 8) color Ht); lia.
  - rewrite (sbind_Ret _ _ _ _ _ Hrun). exists s'. split; [done|]. by eapply redrawn_ok.
Qed.

Lemma clear_cell_run f s x y : screen_ok f s -> 0 <= x <= cursor_x s -> y = cursor_y s ->
  exists s', clear_cell x y s = Ret (tt, s') /\ redrawn f s s'.
Proof.
  intros Hs Hx0 ->. pose proof (screen_bounds f s Hs) as [Hw Hh]. pose proof Hs as [_ _ Hx Hy]. unfold FONT_WIDTH in Hx.
  unfold clear_cell. match goal with |- context [for_loop 8 0 ?b tt] => destruct (draws_run f 8 b s Hs) as (s' & Hrun & Hr) end.
  - intros dy t Hdy Ht _ _. match goal with |- context [for_loop 8 0 ?b tt] => destruct (draws_run f 8 b t Ht) as (t' & Hrun' & Hr') end.
    + intros dx u Hdx Hu _ _. apply (draw_step f u (x + dx) (cursor_y s + dy) 0 Hu); lia.
    + exists t'. split; [by rewrite (sbind_Ret _ _ _ _ _ Hrun')|done].
  - rewrite (sbind_Ret _ _ _ _ _ Hrun). by exists s'.
Qed.

(** *** Keys *)

Section Session.
Context {PA : Type} `{FA : FrameAllocator PA} {D : Type} `{BD : BlockDevice D}.
Abbreviation Kernel := (Kernel PA Screen D).
Context (f : LimineFramebuffer).

(** Code that works on the screen alone, and returns. *)
Definition draws {A} (m : M Kernel A) (a : A) : Prop :=
  forall k : Kernel, screen_ok f (con k) -> mount_point k = None -> exists t, m k = Ret (a, set_con k t) /\ screen_ok f t.

Lemma draws_ret {A} (a : A) : draws (sret a) a.
Proof. intros k Hk _. exists (con k). split; [by destruct k|done]. Qed.

Lemma draws_bind {A B} (m : M Kernel A) (h : A -> M Kernel B) a b : draws m a -> draws (h a) b -> draws (sbind m h) b.
Proof.
  intros Hm Hh k Hk Hn. destruct (Hm k Hk Hn) as (t & H1 & Ht). rewrite (sbind_Ret _ _ _ _ _ H1).
  destruct (Hh (set_con k t) Ht Hn) as (t' & H2 & Ht'). by exists t'.
Qed.

Lemma draws_con (m : M Screen unit) : (forall s, screen_ok f s -> exists s', m s = Ret (tt, s') /\ screen_ok f s') -> draws (on_con m) tt.
Proof. intros Hm k Hk _. destruct (Hm _ Hk) as (t & Hrun & Ht). exists t. split; [by apply part_Ret|done]. Qed.

Lemma draws_print bytes : draws (kprint bytes) tt.
Proof. apply draws_con. intros s Hs. by apply puts_spec. Qed.

Lemma draws_cursor color : draws (on_con (cursor_line color)) tt.
Proof. apply draws_con. intros s Hs. by apply cursor_line_run. Qed.

Lemma draws_putc c : draws (on_con (putc c)) tt.
Proof. apply draws_con. intros s Hs. destruct (putc_spec f s c Hs) as (s' & Hrun & Hs' & _). by exists s'. Qed.

Lemma draws_root : draws list_root tt.
Proof. intros k Hk Hn. unfold list_root, fs_root, with_fs, sbind at 1. rewrite Hn. by apply draws_print. Qed.

Lemma command_test line rest s (h : Z -> M Kernel unit) k : Forall (fun b => 0 < b < 256) line -> Forall (fun b => b <> 0) (text s) ->
  sbind (slift (str_eq (line ++ 0 :: rest) (cstr s))) h k = h (if bool_decide (line = text s) then 0 else 1) k.
Proof.
  intros Hl Hs. unfold cstr. rewrite str_eq_spec; [done| |done]. eapply Forall_impl; [exact Hl|]. intros x Hx. cbv beta in *. lia.
Qed.

(** [panic] stops the machine; any other line draws its answer. *)
Lemma execute_run line rest : Forall (fun b => 0 < b < 256) line ->
  if bool_decide (line = text "panic") then forall k : Kernel, execute_command (line ++ 0 :: rest) k = Panic
  else draws (execute_command (line ++ 0 :: rest)) tt.
Proof.
  intros Hl. assert (forall s, forallb (fun b => negb (b =? 0)) (text s) = true -> Forall (fun b => b <> 0) (text s)) as Hnz.
  { intros s Hs. apply Forall_forall. intros b Hb. rewrite forallb_forall in Hs. apply list_elem_of_In, Hs in Hb. by destruct (Z.eqb_spec b 0). }
  case_bool_decide as Hp; [intros k|intros k Hk Hn]; unfold execute_command; rewrite command_test by first [exact Hl | by apply Hnz].
  - subst line. rewrite bool_decide_false by done. reflexivity.
  - case_bool_decide; [by apply draws_print|]. cbn [Z.eqb]. rewrite command_test by first [exact Hl | by apply Hnz].
    case_bool_decide; [by apply draws_root|]. cbn [Z.eqb]. rewrite command_test by first [exact Hl | by apply Hnz]. rewrite bool_decide_false by done. cbn [Z.eqb].
    rewrite command_test by first [exact Hl | by apply Hnz]. case_bool_decide; by apply draws_print.
Qed.

Lemma put_key l line v : shows l line -> put8 (buffer l) (pos l) v = Ret (line ++ v :: drop (length line + 1) (buffer l)).
Proof.
  intros [Hlen Hpos Hroom Hb _]. unfold put8. rewrite Hpos, splice_Ret by (unfold blen in *; cbn [length]; lia).
  unfold blen. by rewrite Nat2Z.id, Hb.
Qed.

Lemma put_shows l line v p : shows l line -> Forall (fun b => 0 < b < 256) p -> (exists q, line ++ [v] = p ++ q) ->
  blen p < BUFFER_LEN -> shows (mkLine (line ++ v :: drop (length line + 1) (buffer l)) (blen p)) p.
Proof.
  intros [Hlen Hpos Hroom Hb _] Hp [q Hq] Hl. constructor; cbn [buffer pos]; try done.
  - unfold blen in *. rewrite length_app. cbn [length]. rewrite length_drop. lia.
  - change (v :: drop (length line + 1) (buffer l)) with ([v] ++ drop (length line + 1) (buffer l)).
    by rewrite app_assoc, Hq, <- app_assoc, take_app_length.
Qed.

Lemma key_run l line c : shows l line -> 0 < c < 256 ->
  match edit line c with
  | None => forall k : Kernel, screen_ok f (con k) -> mount_point k = None -> shell_key l c k = Panic
  | Some line' => exists l', shows l' line' /\ draws (shell_key l c) l'
  end.
Proof.
  intros Hl Hc. pose proof Hl as [Hlen Hpos Hroom Hb Hk]. unfold edit, shell_key. destruct (c =? 10).
  - pose proof (execute_run line (drop (length line + 1) (buffer l)) Hk) as Hx. rewrite (put_key l line 0 Hl). case_bool_decide.
    + intros k Hs Hn. destruct (draws_cursor SCROLL_COLOR k Hs Hn) as (t & H1 & _). unfold erase_cursor. rewrite (sbind_Ret _ _ _ _ _ H1).
      unfold slift, sbind at 1, sbind at 1. by rewrite Hx.
    + eexists. split; [apply (put_shows l line 0 [] Hl); [by apply Forall_nil|by eexists|done]|].
      eapply draws_bind; [apply draws_cursor|]. eapply draws_bind; [apply (draws_ret (line ++ 0 :: drop (length line + 1) (buffer l)))|].
      eapply draws_bind; [exact Hx|]. eapply draws_bind; [apply draws_print|]. eapply draws_bind; [apply draws_cursor|]. apply draws_ret.
  - destruct (c =? 8).
    + assert (exists l', shows l' (take (length line - 1) line) /\
        l' = (if 0 <? pos l then mkLine (buffer l) (pos l - 1) else l)) as (l' & Hl' & ->).
      { eexists. split; [|reflexivity]. destruct (Z.ltb_spec 0 (pos l)) as [Hp|Hp].
        - constructor; cbn [buffer pos]; [done| | | |by apply Forall_take].
          + rewrite Hpos. unfold blen in *. rewrite length_take. lia.
          + unfold blen in *. rewrite length_take. lia.
          + rewrite length_take. trans (take (length line - 1) (take (length line) (buffer l))); [|by rewrite Hb].
            by rewrite take_take.
        - destruct line; [done|]. unfold blen in *. cbn [length] in *. lia. }
      eexists. split; [exact Hl'|]. eapply draws_bind; [apply draws_cursor|]. destruct (0 <? pos l).
      * intros k Hs Hn. unfold sbind at 1, sget. set (x := Z.max 0 (get_cursor_x (con k) - 8)). set (y := get_cursor_y (con k)).
        assert (0 <= x <= cursor_x (con k)) as Hx by (destruct Hs as [_ _ Hsx _]; unfold x, get_cursor_x; lia).
        destruct (clear_cell_run f (con k) x y Hs Hx eq_refl) as (t & H1 & Hr).
        rewrite (sbind_Ret _ _ _ _ _ (part_Ret con set_con _ k _ _ H1)).
        assert (on_con (set_cursor x y) (set_con k t) = Ret (tt, set_con k (mkScreen (fb t) (pixels t) x y))) as H2 by done.
        rewrite (sbind_Ret _ _ _ _ _ H2).
        assert (screen_ok f (mkScreen (fb t) (pixels t) x y)) as Ht.
        { destruct Hs as [Hf Hok Hsx Hsy]. constructor; cbn; [by rewrite (redrawn_fb _ _ _ Hr)|done|unfold FONT_WIDTH in *; lia|done]. }
        destruct (draws_cursor TEXT_COLOR (set_con k (mkScreen (fb t) (pixels t) x y)) Ht Hn) as (t' & H3 & Ht').
        unfold draw_cursor. rewrite (sbind_Ret _ _ _ _ _ H3). by exists t'.
      * eapply draws_bind; [apply draws_cursor|]. apply draws_ret.
    + rewrite Hpos, Hlen. destruct (Z.ltb_spec (blen line) (BUFFER_LEN - 1)) as [Hlt|Hge].
      * rewrite <- Hpos, (put_key l line c Hl), Hpos. eexists. split.
        -- apply (put_shows l line c (line ++ [c]) Hl); [apply Forall_app_2; [done|by apply Forall_singleton]|exists []; by rewrite app_nil_r|].
           rewrite blen_app. unfold blen in *. cbn [length]. lia.
        -- rewrite blen_app. eapply draws_bind; [apply draws_cursor|]. eapply draws_bind; [apply draws_ret|].
           eapply draws_bind; [apply draws_putc|]. eapply draws_bind; [apply draws_cursor|]. apply draws_ret.
      * exists l. split; [done|]. eapply draws_bind; [apply draws_cursor|]. eapply draws_bind; [apply draws_cursor|]. apply draws_ret.
Qed.

Lemma keys_run keys : Forall (fun c => 0 < c < 256) keys -> forall l line, shows l line ->
  match session line keys with
  | None => forall k : Kernel, screen_ok f (con k) -> mount_point k = None -> shell_keys l keys k = Panic
  | Some line' => exists l', shows l' line' /\ draws (shell_keys l keys) l'
  end.
Proof.
  induction keys as [|c keys IH]; intros Hks l line Hl; cbn [session shell_keys].
  - exists l. split; [done|apply draws_ret].
  - apply Forall_cons in Hks as [Hc Hks]. pose proof (key_run l line c Hl Hc) as H1.
    destruct (edit line c) as [line1|]; cbn [mbind option_bind].
    + destruct H1 as (l1 & Hl1 & H1). specialize (IH Hks l1 line1 Hl1). destruct (session line1 keys) as [line2|].
      * destruct IH as (l2 & Hl2 & H2). exists l2. split; [done|]. by eapply draws_bind.
      * intros k Hs Hn. destruct (H1 k Hs Hn) as (t & Hrun & Ht). rewrite (sbind_Ret _ _ _ _ _ Hrun). by apply IH.
    + intros k Hs Hn. unfold sbind. by rewrite H1.
Qed.

Lemma empty_shows : shows empty_line [].
Proof. constructor; [apply blen_zeros; unfold BUFFER_LEN; lia|done|done|done|by apply Forall_nil]. Qed.
End Session.


(** A kernel without a volume. *)
Definition shell_kernel : Kernel Pmm Screen RamDisk :=
  mkKernel sample_vmm sample_sched sample_kb small_screen (Some small_fb) None 0 0 false 1 1.

