(* ===== verification/User.v ===== *)
(** * The program loader ([src/src/user.rs], [src/pinx_abi.rs])

    A program is read from the volume into a heap buffer, checked for its
    header, its segments are mapped into the lower half, a stack is carved and a
    task is created. Messages to the log are left out. *)

From S2P Require Import Prelude Pmm Vmm UserMem Graphics Terminal Keyboard Scheduler Block.
From stdpp Require Import list.
From S2P Require Import Heap Ext4Layout Ext4 Ext4File Kernel.
#[local] Open Scope Z_scope.

Definition PT_LOAD : Z := 1.
Definition ET_EXEC : Z := 2.
Definition EM_X86_64 : Z := 0x3E.
Definition MAX_INIT_SIZE : Z := 4 * 1024 * 1024.
Definition USER_STACK_TOP : Z := 0x00007FFF00000000.
Definition USER_STACK_PAGES : Z := 16.
Definition USER_STACK_SPAN : Z := (USER_STACK_PAGES + 2) * PAGE_SIZE.

(** [b"PINX-64-INIT"] and [b"PINX-64-PROG"]. *)
Definition PINX_INIT_MAGIC : list Z :=
  [0x50; 0x49; 0x4E; 0x58; 0x2D; 0x36; 0x34; 0x2D; 0x49; 0x4E; 0x49; 0x54].
Definition PINX_INIT_VERSION : Z := 1.
Definition PINX_PROGRAM_MAGIC : list Z :=
  [0x50; 0x49; 0x4E; 0x58; 0x2D; 0x36; 0x34; 0x2D; 0x50; 0x52; 0x4F; 0x47].
Definition PINX_PROGRAM_VERSION : Z := 1.

(** [size_of::<PinxProgramHeader>()]: twelve bytes and a [u32]. *)
Definition PINX_HEADER_SIZE : Z := 16.

(** [PinxInitHeader::new] and [PinxProgramHeader::new] in memory, as a program embeds
    them. *)
Definition PinxInitHeader_new : list Z := PINX_INIT_MAGIC ++ to_le 4 PINX_INIT_VERSION.
Definition PinxProgramHeader_new : list Z := PINX_PROGRAM_MAGIC ++ to_le 4 PINX_PROGRAM_VERSION.

Definition read_u16 (image : list Z) (offset : Z) : outcome Z := get_le 2 image offset.
Definition read_u32 (image : list Z) (offset : Z) : outcome Z := get_le 4 image offset.
Definition read_u64 (image : list Z) (offset : Z) : outcome Z := get_le 8 image offset.

(** One turn of the scan for the header. *)
Definition header_turn (image magic : list Z) (version i : Z) : outcome (flow Z bool) :=
  if blen image <? i + PINX_HEADER_SIZE then Ret (Exit false) else
  let! here := slice image i (i + blen magic) in
  if bool_decide (here = magic) then
    let! found := read_u32 image (i + blen magic) in
    Ret (Exit (found =? version))
  else Ret (Next (i + 1)).

Definition find_header (image magic : list Z) (version : Z) : outcome bool :=
  if blen image <? PINX_HEADER_SIZE then Ret false else
  owhile (length image) (header_turn image magic version) 0.

Section Loader.
Context {PA : Type} `{FA : FrameAllocator PA} {T : Type} `{CT : Console T} {D : Type} `{BD : BlockDevice D}.
Abbreviation Vmm := (Vmm PA).
Abbreviation Kernel := (Kernel PA T D).

(** One page of a segment: reuse or create its frame, then copy the part of the
    page the file provides. *)
Definition segment_turn (image : list Z) (file_offset vaddr file_end mem_end page : Z)
    : M Vmm (flow Z bool) :=
  if mem_end <=? page then sret (Exit true) else
  frame <- vmm_virt_to_phys page ;;
  frame <- (if frame =? VMM_NO_PHYS then fresh_user_page page else sret (Some frame)) ;;
  match frame with
  | None => sret (Exit false)
  | Some frame =>
      dst <- phys_to_virt frame ;;
      page_end <-! chk 64 (page + PAGE_SIZE) ;;
      let copy_start := Z.max page vaddr in
      let copy_end := Z.min page_end file_end in
      _ <- (if copy_start <? copy_end then
              let source := file_offset + (copy_start - vaddr) in
              bytes <-! slice image source (source + (copy_end - copy_start)) ;;
              smodify (fun s => set_mem s (put_bytes (dst + (copy_start - page)) bytes (mem s)))
            else sret tt) ;;
      sret (Next page_end)
  end.

Definition map_segment (image : list Z) (file_offset vaddr filesz memsz : Z) : M Vmm bool :=
  if u64_max <? vaddr + memsz then sret false else
  let mem_end := vaddr + memsz in
  file_end <-! chk 64 (vaddr + filesz) ;;
  let page := Z.land vaddr (unot 64 (PAGE_SIZE - 1)) in
  while_loop (Z.to_nat (memsz / PAGE_SIZE) + 3) (segment_turn image file_offset vaddr file_end mem_end) page.

(** One program header; the loader gives up when it leaves the loop. *)
Definition load_ph (image : list Z) (phoff phentsize i : Z) (_ : unit) : M Vmm (flow unit unit) :=
  rel <-! chk 64 (i * phentsize) ;;
  ph <-! chk 64 (phoff + rel) ;;
  ph_end <-! chk 64 (ph + 56) ;;
  if blen image <? ph_end then sret (Exit tt) else
  ty <-! read_u32 image ph ;;
  if negb (ty =? PT_LOAD) then sret (Next tt) else
  offset <-! read_u64 image (ph + 8) ;;
  vaddr <-! read_u64 image (ph + 16) ;;
  filesz <-! read_u64 image (ph + 32) ;;
  memsz <-! read_u64 image (ph + 40) ;;
  if memsz <? filesz then sret (Exit tt) else
  if (u64_max <? offset + filesz) || (blen image <? offset + filesz) then sret (Exit tt) else
  if memsz =? 0 then sret (Next tt) else
  ok <- map_segment image offset vaddr filesz memsz ;;
  sret (if ok : bool then Next tt else Exit tt).

Definition ELF_MAGIC : list Z := [0x7F; 0x45; 0x4C; 0x46].

Definition load_elf (image : list Z) : M Vmm (option Z) :=
  if blen image <? 64 then sret None else
  magic <-! slice image 0 4 ;;
  class <-! get8 image 4 ;;
  data <-! get8 image 5 ;;
  if negb (bool_decide (magic = ELF_MAGIC)) || negb (class =? 2) || negb (data =? 1) then sret None else
  ty <-! read_u16 image 16 ;;
  machine <-! read_u16 image 18 ;;
  if negb (ty =? ET_EXEC) || negb (machine =? EM_X86_64) then sret None else
  entry <-! read_u64 image 24 ;;
  phoff <-! read_u64 image 32 ;;
  phentsize <-! read_u16 image 54 ;;
  phnum <-! read_u16 image 56 ;;
  if phentsize <? 56 then sret None else
  r <- for_loop (Z.to_nat phnum) 0 (load_ph image phoff phentsize) tt ;;
  sret (match r with Next _ => Some entry | Exit _ => None end).

(** The sixteen pages of a stack whose top is [top]. *)
Definition stack_page (top i : Z) (_ : unit) : M Vmm (flow unit unit) :=
  page <-! chk 64 (top - (USER_STACK_PAGES - i) * PAGE_SIZE) ;;
  frame <- fresh_user_page page ;;
  match frame with
  | None => spanic
  | Some _ => sret (Next tt)
  end.

Definition map_user_stack : M Kernel Z :=
  k <- sget ;;
  let top := next_stack k in
  next <-! chk 64 (top - USER_STACK_SPAN) ;;
  _ <- smodify (fun k => set_next_stack k next) ;;
  _ <- on_vm (for_loop (Z.to_nat USER_STACK_PAGES) 0 (stack_page top) tt) ;;
  sret top.

(** [mm::kfree], on the heap the scheduler's stacks come from too. *)
Definition heap_free (ptr : Z) : M Sched unit := fun s =>
  match Heap.kfree ptr (kheap s) with
  | Ret (a, h) => Ret (a, set_kheap s h)
  | Panic => Panic
  | OutOfFuel => OutOfFuel
  end.

(** One turn of the read loop; the buffer is handed to [read_file] from [done]
    on. *)
Definition image_turn (ino size : Z) (acc : Z * list Z) : M Kernel (flow (Z * list Z) (option (Z * list Z))) :=
  let '(done, buf) := acc in
  if size <=? done then sret (Exit (Some acc)) else
  rest <-! slice buf done (blen buf) ;;
  r <- fs_read_file ino done rest ;;
  match r with
  | Some (Ok (n, rest)) =>
      if n =? 0 then sret (Exit (Some acc)) else
      buf <-! splice buf done rest ;;
      sret (Next (done + n, buf))
  | Some (Err _) | None => sret (Exit None)
  end.

(** The whole file in a fresh heap buffer: its address and its bytes. *)
Definition read_file (path : list Z) : M Kernel (option (Z * list Z)) :=
  root <- fs_root ;;
  match root with None => sret None | Some root =>
  found <- fs_lookup root path ;;
  match found with
  | Some (Ok (Some ino)) =>
      node <- fs_read_inode ino ;;
      match node with
      | Some (Ok inode) =>
          if negb (is_file inode) then sret None else
          let size := Ext4Layout.size inode in
          if (size =? 0) || (MAX_INIT_SIZE <? size) then sret None else
          buffer <- on_sched (Scheduler.kmalloc size) ;;
          if buffer =? 0 then sret None else
          r <- while_loop (Z.to_nat size + 1) (image_turn ino size) (0, zeros size) ;;
          match r with
          | None => _ <- on_sched (heap_free buffer) ;; sret None
          | Some (done, buf) =>
              if negb (done =? size) then _ <- on_sched (heap_free buffer) ;; sret None
              else sret (Some (buffer, buf))
          end
      | _ => sret None
      end
  | _ => sret None
  end end.

Definition load_and_spawn (path magic : list Z) (version : Z) : M Kernel (option nat) :=
  k <- sget ;;
  if negb (is_mounted k) then sret None else
  file <- read_file path ;;
  match file with None => sret None | Some (buffer, image) =>
  ok <-! find_header image magic version ;;
  if negb ok then _ <- on_sched (heap_free buffer) ;; sret None else
  entry <- on_vm (load_elf image) ;;
  match entry with
  | None => _ <- on_sched (heap_free buffer) ;; sret None
  | Some entry =>
      _ <- on_sched (heap_free buffer) ;;
      stack_top <- map_user_stack ;;
      on_sched (spawn_user entry stack_top)
  end end.

Definition spawn_program (path : list Z) : M Kernel (option nat) :=
  load_and_spawn path PINX_PROGRAM_MAGIC PINX_PROGRAM_VERSION.

(** [b"init"] *)
Definition init_path : list Z := [0x69; 0x6E; 0x69; 0x74].

Definition try_start : M Kernel bool :=
  k <- sget ;;
  if negb (is_mounted k) then sret false else
  r <- load_and_spawn init_path PINX_INIT_MAGIC PINX_INIT_VERSION ;;
  sret (match r with Some _ => true | None => false end).
End Loader.

(** ** The header *)

(** The first place the magic stands, with room for the version behind it. *)
Definition header_at (image magic : list Z) (p : Z) : Prop :=
  0 <= p /\ p + PINX_HEADER_SIZE <= blen image /\ slice image p (p + blen magic) = Ret magic /\
  forall q, 0 <= q < p -> slice image q (q + blen magic) <> Ret magic.

Lemma header_scan image magic version (fuel : nat) : blen magic = 12 -> forall i, 0 <= i -> blen image - PINX_HEADER_SIZE - i + 1 < Z.of_nat fuel ->
  (0 < fuel)%nat -> (forall q, 0 <= q < i -> slice image q (q + blen magic) <> Ret magic) ->
  exists b, owhile fuel (header_turn image magic version) i = Ret b /\
    (b = true <-> exists p, header_at image magic p /\ read_u32 image (p + blen magic) = Ret version).
Proof.
  intros Hm. induction fuel as [|fuel IH]; intros i Hi Hf Hpos Hno; [lia|]. cbn [owhile]. unfold header_turn at 1. unfold PINX_HEADER_SIZE in *.
  destruct (Z.ltb_spec (blen image) (i + 16)) as [Hend|Hin].
  { exists false. split; [done|]. split; [done|]. intros (p & (Hp & Hroom & Hs & _) & _). exfalso. unfold PINX_HEADER_SIZE in *. apply (Hno p); [lia|done]. }
  destruct (slice image i (i + blen magic)) as [here| |] eqn:Hs; [|rewrite slice_Ret in Hs by lia; done..]. cbn [obind]. case_bool_decide as Hh.
  - subst here. destruct (get_le_Ret 4 image (i + blen magic) ltac:(lia) ltac:(lia) ltac:(lia)) as (v & Hv & _).
    unfold read_u32 at 1. rewrite Hv. cbn [obind]. exists (v =? version). split; [done|]. split.
    + intros E%Z.eqb_eq. subst v. exists i. split; [|done]. by split_and!; [lia|unfold PINX_HEADER_SIZE; lia|..].
    + intros (p & (Hp & _ & Hsp & Hfirst) & Hr). assert (p = i) as ->.
      { destruct (Z.lt_total p i) as [Hlt|[->|Hgt]]; [by destruct (Hno p ltac:(lia))|done|by destruct (Hfirst i ltac:(lia))]. }
      unfold read_u32 in Hr. rewrite Hv in Hr. injection Hr as ->. apply Z.eqb_refl.
  - apply IH; [lia|lia|lia|]. intros q Hq. destruct (decide (q = i)) as [->|]; [rewrite Hs; congruence|apply Hno; lia].
Qed.

(** The loader starts a file exactly when the first occurrence of the magic in it is
    followed by the version the kernel was built for; the scan always ends, for files
    of any length and content. *)
Theorem find_header_correct (image magic : list Z) (version : Z) (Hm : blen magic = 12) :
  exists b, find_header image magic version = Ret b /\
    (b = true <-> exists p, header_at image magic p /\ read_u32 image (p + blen magic) = Ret version).
Proof.
  unfold find_header. destruct (Z.ltb_spec (blen image) PINX_HEADER_SIZE) as [Hs|Hl].
  - exists false. split; [done|]. split; [done|]. intros (p & (Hp & Hr & _) & _). lia.
  - apply header_scan; [done|lia|unfold PINX_HEADER_SIZE, blen in *; lia|unfold PINX_HEADER_SIZE, blen in *; lia|lia].
Qed.

(** What a program embeds is what the loader looks for. *)
Lemma program_header_found : find_header (zeros 5 ++ PinxProgramHeader_new ++ zeros 3) PINX_PROGRAM_MAGIC PINX_PROGRAM_VERSION = Ret true.
Proof. reflexivity. Qed.

Lemma init_header_found : find_header (zeros 5 ++ PinxInitHeader_new ++ zeros 3) PINX_INIT_MAGIC PINX_INIT_VERSION = Ret true.
Proof. reflexivity. Qed.

Lemma find_header_correct_witness : exists b, find_header (zeros 5 ++ PinxInitHeader_new) PINX_PROGRAM_MAGIC PINX_PROGRAM_VERSION = Ret b /\ b = false.
Proof.
  destruct (find_header_correct (zeros 5 ++ PinxInitHeader_new) PINX_PROGRAM_MAGIC PINX_PROGRAM_VERSION eq_refl) as (b & Hb & _).
  exists b. split; [exact Hb|]. assert (find_header (zeros 5 ++ PinxInitHeader_new) PINX_PROGRAM_MAGIC PINX_PROGRAM_VERSION = Ret false) as E by reflexivity.
  rewrite E in Hb. by injection Hb as <-.
Defined.

(** ** Segments *)

Section Segments.
Context {PA : Type} `{FA : FrameAllocator PA}.
Abbreviation Vmm := (Vmm PA).

(** A segment that lies inside the file. *)
Record segment_ok (image : list Z) (offset vaddr filesz memsz : Z) : Prop := {
  sg_bytes : bytes_ok image;
  sg_file : 0 <= filesz <= memsz;
  sg_inside : 0 <= offset /\ offset + filesz <= blen image;
  sg_mem : 0 < memsz;
  sg_vaddr : 0 <= vaddr;
}.

(** The pages it touches. *)
Definition seg_base (vaddr : Z) : Z := vaddr / PAGE_SIZE * PAGE_SIZE.
Definition seg_pages (vaddr memsz : Z) : Z := (vaddr + memsz - seg_base vaddr + PAGE_SIZE - 1) / PAGE_SIZE.

(** The byte at user address [va]: the file's, or zero. *)
Definition seg_byte (image : list Z) (offset vaddr filesz va : Z) : Z :=
  if (vaddr <=? va) && (va <? vaddr + filesz) then image !!! Z.to_nat (offset + (va - vaddr)) else 0.

(** The bytes a page takes from the file, stored through the alias [dst]. *)
Lemma copy_page image offset vaddr filesz memsz page (m : gmap Z Z) dst :
  segment_ok image offset vaddr filesz memsz -> page mod PAGE_SIZE = 0 -> dst mod PAGE_SIZE = 0 ->
  (forall off, 0 <= off < PAGE_SIZE -> byte_at m (dst + off) = 0) ->
  let copy_start := Z.max page vaddr in
  let copy_end := Z.min (page + PAGE_SIZE) (vaddr + filesz) in
  let source := offset + (copy_start - vaddr) in
  copy_start < copy_end ->
  exists bytes, slice image source (source + (copy_end - copy_start)) = Ret bytes /\
    (forall a, ~ (dst <= a < dst + PAGE_SIZE) -> rd (put_bytes (dst + (copy_start - page)) bytes m) a = rd m a) /\
    (forall off, 0 <= off < PAGE_SIZE ->
       byte_at (put_bytes (dst + (copy_start - page)) bytes m) (dst + off) =
         seg_byte image offset vaddr filesz (page + off)).
Proof.
  intros [Hby Hfile [Hin0 Hin] Hmem Hva] Hp Hd Hzero cs ce src Hlt.
  destruct (slice image src (src + (ce - cs))) as [bytes| |] eqn:Hsl;
    [|rewrite slice_Ret in Hsl by lia; done..].
  exists bytes. split; [done|]. pose proof (slice_len _ _ _ _ Hsl) as Hlen. split.
  - intros a Ha. apply rd_puts. intros k Hk ->. apply Ha. unfold PAGE_SIZE in *. lia.
  - intros off Hoff. rewrite byte_at_puts by (exact (slice_bytes _ _ _ _ Hsl Hby)). unfold seg_byte.
    destruct (Z.leb_spec vaddr (page + off)) as [H1|H1], (Z.ltb_spec (page + off) (vaddr + filesz)) as [H2|H2]; cbn [andb].
    + rewrite (proj2 (Z.leb_le _ _)), (proj2 (Z.ltb_lt _ _)) by lia. cbn [andb].
      assert (bytes !! Z.to_nat (dst + off - (dst + (cs - page))) = image !! Z.to_nat (offset + (page + off - vaddr))) as Hb.
      { rewrite (slice_lookup _ _ _ _ _ Hsl) by lia. f_equal. lia. }
      destruct (lookup_lt_is_Some_2 image (Z.to_nat (offset + (page + off - vaddr)))) as [v Hv]; [unfold blen in Hin; lia|].
      rewrite Hv in Hb. by rewrite (list_lookup_total_correct _ _ _ Hb), (list_lookup_total_correct _ _ _ Hv).
    + rewrite (proj2 (Z.ltb_ge _ _)), andb_false_r by lia. by apply Hzero.
    + rewrite (proj2 (Z.leb_gt _ _)) by lia. by apply Hzero.
    + rewrite (proj2 (Z.leb_gt _ _)) by lia. by apply Hzero.
Qed.

Lemma segment_turn_spec (s0 s : Vmm) h image offset vaddr filesz memsz fs r :
  let base := seg_base vaddr in let n := seg_pages vaddr memsz in
  let page := base + Z.of_nat (length fs) * PAGE_SIZE in
  segment_ok image offset vaddr filesz memsz -> vmm_ok s0 h -> user_range base n -> h mod PAGE_SIZE = 0 ->
  (forall k, 0 <= k < n -> no_huge (trail (mem s0) h (pml4 s0) (path (base + k * PAGE_SIZE)))) ->
  (forall k, 0 <= k < n -> vmm_virt_to_phys (base + k * PAGE_SIZE) s0 = Ret (VMM_NO_PHYS, s0)) ->
  window s0 s h base fs (seg_byte image offset vaddr filesz) -> Z.of_nat (length fs) < n ->
  room (frames s) (4 + r) ->
  exists f s', segment_turn image offset vaddr (vaddr + filesz) (vaddr + memsz) page s = Ret (Next (page + PAGE_SIZE), s') /\
    window s0 s' h base (fs ++ [f]) (seg_byte image offset vaddr filesz) /\ room (frames s') r.
Proof.
  cbv zeta. set (base := seg_base vaddr). set (n := seg_pages vaddr memsz). intros Hseg Hs0 Hr Hh Hnh Hun W Hn Hroom.
  set (page := base + Z.of_nat (length fs) * PAGE_SIZE). pose proof Hr as (Hb & Hal & _ & Hend).
  pose proof Hseg as [_ Hfile _ Hmem Hva]. assert (PAGE_SIZE = 4096) as HPS by done.
  assert (page mod PAGE_SIZE = 0) as Hpal by (unfold page, PAGE_SIZE in *; lia).
  assert (page < vaddr + memsz) as Hpage.
  { unfold page, n, seg_pages, base, seg_base, PAGE_SIZE in *. lia. }
  assert (0 <= page /\ page + PAGE_SIZE <= 2 ^ 47) as [Hp0 Hp47] by (unfold page, PAGE_SIZE in *; lia).
  assert (vmm_virt_to_phys page s = Ret (VMM_NO_PHYS, s)) as Hno.
  { rewrite (virt_to_phys_run s h) by (exact (wn_ok _ _ _ _ _ _ W) || lia). rewrite (wn_pml4 _ _ _ _ _ _ W).
    destruct (wn_other _ _ _ _ _ _ W page) as (E & _).
    { intros k Hk. unfold page. rewrite <- (Z.add_0_r (base + k * PAGE_SIZE)), <- (Z.add_0_r (base + Z.of_nat (length fs) * PAGE_SIZE)).
      rewrite !(range_vpn base n) by (done || unfold PAGE_SIZE; lia). lia. }
    rewrite E. specialize (Hun (Z.of_nat (length fs)) ltac:(lia)). fold page in Hun.
    rewrite (virt_to_phys_run s0 h) in Hun by (done || lia).
    revert Hun. generalize (decode (trail (mem s0) h (pml4 s0) (path page)) page). by intros d [= ->]. }
  destruct (window_fresh s0 s h base fs _ n r W Hr Hn Hnh Hroom) as (f & s1 & Hrun & F & Hroom'). fold page in Hrun, F.
  pose proof (ok_h _ _ (fr_ok _ _ _ _ _ F)) as Hh0. destruct (fr_small _ _ _ _ _ F) as [Hf40 Hf64].
  unfold segment_turn. rewrite (proj2 (Z.leb_gt _ _)) by lia. rewrite (sbind_Ret _ _ _ _ _ Hno).
  rewrite Z.eqb_refl. rewrite (sbind_Ret _ _ _ _ _ Hrun). unfold phys_to_virt, sbind at 1.
  rewrite (phys_to_ptr_hhdm _ h) by (apply (ok_hhdm _ _ (fr_ok _ _ _ _ _ F)) || (unfold PAGE_SIZE in *; lia)).
  unfold sbind at 1, slift. rewrite chk_Ret by lia. cbv zeta.
  assert (forall off, 0 <= off < PAGE_SIZE -> byte_at (mem s1) (f * PAGE_SIZE + h + off) = 0) as Hzero.
  { intros off Hoff. replace (f * PAGE_SIZE + h + off) with (f * PAGE_SIZE + off + h) by lia. by eapply fresh_zero. }
  assert (forall m', (forall a, ~ in_page h f a -> rd m' a = rd (mem s1) a) ->
    (forall off, 0 <= off < PAGE_SIZE -> byte_at m' (f * PAGE_SIZE + h + off) = seg_byte image offset vaddr filesz (page + off)) ->
    window s0 (set_mem s1 m') h base (fs ++ [f]) (seg_byte image offset vaddr filesz)) as Hwin.
  { intros m' Hout Hin. eapply window_snoc; try done. intros off Hoff.
    replace (f * PAGE_SIZE + off + h) with (f * PAGE_SIZE + h + off) by lia. by apply Hin. }
  destruct (Z.ltb_spec (Z.max page vaddr) (Z.min (page + PAGE_SIZE) (vaddr + filesz))) as [Hlt|Hge].
  - destruct (copy_page image offset vaddr filesz memsz page (mem s1) (f * PAGE_SIZE + h) Hseg Hpal) as (bytes & Hsl & Hout & Hin);
      [unfold PAGE_SIZE in *; lia|exact Hzero|exact Hlt|].
    unfold sbind, slift. rewrite Hsl. exists f. eexists. split; [done|]. split; [|done].
    apply Hwin; [|done]. intros a Ha. apply Hout. unfold in_page in Ha. lia.
  - exists f, s1. split; [done|]. split; [|done]. replace s1 with (set_mem s1 (mem s1)) by (by destruct s1).
    apply Hwin; [done|]. intros off Hoff. rewrite Hzero by done. unfold seg_byte.
    destruct (Z.leb_spec vaddr (page + off)), (Z.ltb_spec (page + off) (vaddr + filesz)); try done. lia.
Qed.

Lemma segment_loop (s0 : Vmm) h image offset vaddr filesz memsz :
  let base := seg_base vaddr in let n := seg_pages vaddr memsz in
  segment_ok image offset vaddr filesz memsz -> vmm_ok s0 h -> user_range base n -> h mod PAGE_SIZE = 0 ->
  (forall k, 0 <= k < n -> no_huge (trail (mem s0) h (pml4 s0) (path (base + k * PAGE_SIZE)))) ->
  (forall k, 0 <= k < n -> vmm_virt_to_phys (base + k * PAGE_SIZE) s0 = Ret (VMM_NO_PHYS, s0)) ->
  forall todo fuel fs s, (todo < fuel)%nat -> Z.of_nat (length fs) + Z.of_nat todo = n ->
  window s0 s h base fs (seg_byte image offset vaddr filesz) -> room (frames s) (4 * todo) ->
  exists s' fs', while_loop fuel (segment_turn image offset vaddr (vaddr + filesz) (vaddr + memsz))
      (base + Z.of_nat (length fs) * PAGE_SIZE) s = Ret (true, s') /\
    window s0 s' h base fs' (seg_byte image offset vaddr filesz) /\ Z.of_nat (length fs') = n.
Proof.
  cbv zeta. set (base := seg_base vaddr). set (n := seg_pages vaddr memsz). intros Hseg Hs0 Hr Hh Hnh Hun.
  induction todo as [|todo IH]; intros [|fuel] fs s Hfuel Hlen W Hroom; try lia; cbn [while_loop].
  - exists s, fs. split; [|split; [done|lia]]. unfold sbind, segment_turn.
    rewrite (proj2 (Z.leb_le _ _)); [done|]. pose proof Hseg as [_ _ _ Hmem Hva].
    unfold n, seg_pages, base, seg_base, PAGE_SIZE in *. lia.
  - replace (4 * S todo)%nat with (4 + 4 * todo)%nat in Hroom by lia.
    destruct (segment_turn_spec s0 s h image offset vaddr filesz memsz fs (4 * todo) Hseg Hs0 Hr Hh Hnh Hun W) as (f & s1 & Hrun & W1 & Hroom1);
      [fold n; lia|done|].
    rewrite (sbind_Ret _ _ _ _ _ Hrun).
    destruct (IH fuel (fs ++ [f]) s1) as (s' & fs' & Hrun' & W' & Hl'); [lia|rewrite length_app; cbn [length]; lia|done|done|].
    exists s', fs'. split; [|done]. rewrite <- Hrun'. f_equal. rewrite length_app. cbn [length]. fold base. lia.
Qed.

End Segments.

(** ** Segments over the kernel *)

Section Overwrite.
Context {PA : Type} `{FA : FrameAllocator PA}.
Abbreviation Vmm := (Vmm PA).

(** The loader does not look at where a segment goes. A file whose program
    header names a page of the upper half that the kernel has mapped for itself
    gets its bytes copied over the frame behind that page: [map_segment] answers
    [true], and what the kernel reads there is what the file says. *)
Theorem map_segment_overwrites_kernel (s : Vmm) h image offset vaddr n pa bytes :
  vmm_ok s h -> 2 ^ 47 <= vaddr -> vaddr + PAGE_SIZE < 2 ^ 64 -> vaddr mod PAGE_SIZE = 0 ->
  vmm_virt_to_phys vaddr s = Ret (pa, s) -> pa <> VMM_NO_PHYS -> 0 <= pa + h < 2 ^ 64 ->
  0 < n <= PAGE_SIZE -> slice image offset (offset + n) = Ret bytes -> bytes_ok bytes ->
  exists s', map_segment image offset vaddr n n s = Ret (true, s') /\
    frames s' = frames s /\ flushed s' = flushed s /\
    forall i, 0 <= i < n -> byte_at (mem s') (pa + h + i) = bytes !!! Z.to_nat i.
Proof.
  intros Hs Hva Hend Hal Hpa Hne Hph Hn Hsl Hb. assert (PAGE_SIZE = 4096) as HPS by done.
  exists (set_mem s (put_bytes (pa + h) bytes (mem s))). split; [|split; [done|split; [done|]]].
  - unfold map_segment, u64_max. rewrite (proj2 (Z.ltb_ge _ _)) by lia. cbv zeta.
    unfold sbind at 1, slift. rewrite chk_Ret by lia.
    change (PAGE_SIZE - 1) with (Z.ones 12). rewrite (land_align 64) by lia. change (2 ^ 12) with PAGE_SIZE.
    replace (vaddr / PAGE_SIZE * PAGE_SIZE) with vaddr by lia.
    replace (Z.to_nat (n / PAGE_SIZE) + 3)%nat with (S (S (Z.to_nat (n / PAGE_SIZE) + 1))) by lia.
    cbn [while_loop]. unfold sbind at 1, segment_turn at 1.
    rewrite (proj2 (Z.leb_gt _ _)) by lia. rewrite (sbind_Ret _ _ _ _ _ Hpa).
    rewrite (proj2 (Z.eqb_neq _ _)) by done. unfold sbind at 1, sret at 1. unfold phys_to_virt, sbind at 1.
    rewrite (phys_to_ptr_hhdm _ h) by (apply (ok_hhdm _ _ Hs) || lia).
    unfold sbind at 1, slift. rewrite chk_Ret by lia. cbv zeta.
    rewrite Z.max_id, Z.min_r, (proj2 (Z.ltb_lt _ _)) by lia.
    replace (offset + (vaddr - vaddr)) with offset by lia.
    replace (offset + (vaddr + n - vaddr)) with (offset + n) by lia.
    unfold sbind at 1. unfold sbind at 1. rewrite Hsl. unfold smodify at 1.
    replace (pa + h + (vaddr - vaddr)) with (pa + h) by lia. unfold sret at 1.
    unfold sbind at 1, segment_turn at 1. rewrite (proj2 (Z.leb_le _ _)) by lia. done.
  - intros i Hi. cbn [mem set_mem]. rewrite byte_at_puts by exact Hb.
    pose proof (slice_len _ _ _ _ Hsl) as Hl.
    rewrite (proj2 (Z.leb_le _ _)), (proj2 (Z.ltb_lt _ _)) by lia. cbn [andb]. do 2 f_equal. lia.
Qed.
End Overwrite.

(** ** Witnesses *)

Definition sample_segment : list Z := [0x7F; 0x45; 0x4C; 0x46].


Lemma map_segment_overwrites_kernel_witness : exists s s',
  vmm_map_page 0xFFFFFFFF80000000 0x8000 sample_vmm = Ret (tt, s) /\
  map_segment sample_segment 0 0xFFFFFFFF80000000 4 4 s = Ret (true, s') /\
  byte_at (mem s') (0x8000 + 0xFFFF800000000000 + 1) = 0x45.
Proof.
  destruct (map_spec sample_vmm 0xFFFF800000000000 0xFFFFFFFF80000000 0x8000 (Z.lor PTE_PRESENT PTE_WRITABLE) 1
    sample_vmm_ok eq_refl eq_refl sample_room (sample_no_huge _)) as (s & Hmap & Hm & _).
  destruct (mapped_translation _ _ _ _ 0x8000 (Z.lor PTE_PRESENT PTE_WRITABLE) sample_vmm_ok ltac:(lia) eq_refl eq_refl Hm
    0xFFFFFFFF80000000 ltac:(lia)) as (old & _ & Htr).
  destruct (map_segment_overwrites_kernel s 0xFFFF800000000000 sample_segment 0 0xFFFFFFFF80000000 4 0x8000 sample_segment)
    as (s' & Hrun & _ & _ & Hbytes).
  - apply Hm.
  - lia.
  - reflexivity.
  - reflexivity.
  - rewrite Htr. reflexivity.
  - vm_compute. discriminate.
  - lia.
  - unfold PAGE_SIZE. lia.
  - reflexivity.
  - apply bytes_okb_ok. reflexivity.
  - exists s, s'. split; [exact Hmap|]. split; [exact Hrun|]. apply (Hbytes 1). lia.
Defined.
