(* ===== verification/Syscall.v ===== *)
(** * System calls ([src/src/syscall.rs], [src/src/interrupts.rs])

    The calls a program can make, and the interrupt entry that leads to them.
    Arguments and results travel through the saved frame, whose words are in the
    memory of the kernel stacks. A load or store of the kernel at a user address
    goes through the page tables like one of the program. The kernel is the
    [Kernel] state; locks are taken and released inside a call, so that a call
    is one step. *)

From S2P Require Import Prelude Pmm Vmm UserMem Graphics Terminal Keyboard Scheduler Block Smp.
From stdpp Require Import list.
From S2P Require Import Ext4 Kernel User.
#[local] Open Scope Z_scope.

Definition SYS_WRITE : Z := 0.
Definition SYS_EXIT : Z := 1.
Definition SYS_YIELD : Z := 2.
Definition SYS_SPAWN : Z := 3.
Definition SYS_FB_MAP : Z := 4.
Definition SYS_EVENT_READ : Z := 5.
Definition SYS_MMAP : Z := 6.
Definition SYS_SLEEP : Z := 7.
Definition USER_ADDRESS_MAX : Z := 0x0000800000000000.
Definition EINVAL : Z := u64_max.
Definition MMAP_BASE : Z := 0x0000600000000000.
Definition FB_USER_BASE : Z := 0x0000500000000000.
Definition PINX_EVENT_KEY : Z := 1.

(** A [PinxEvent] and a [PinxFramebufferInfo] in memory: four [u32], five
    [u64]. *)
Definition event_bytes (code : Z) : list Z := to_le 4 PINX_EVENT_KEY ++ to_le 4 code ++ to_le 4 1 ++ to_le 4 0.
Definition EVENT_SIZE : Z := 16.
Definition fb_info_bytes (width height pitch bpp : Z) : list Z :=
  to_le 8 FB_USER_BASE ++ to_le 8 width ++ to_le 8 height ++ to_le 8 pitch ++ to_le 8 bpp.
Definition FB_INFO_SIZE : Z := 40.

Section Checks.
Context {PA : Type} `{FA : FrameAllocator PA}.
Abbreviation Vmm := (Vmm PA).

(** One turn of the walk over the pages of a range. *)
Definition range_turn (end_ page : Z) : M Vmm (flow Z bool) :=
  if end_ <=? page then sret (Exit true) else
  pa <- vmm_virt_to_phys page ;;
  if pa =? VMM_NO_PHYS then sret (Exit false) else
  next <-! chk 64 (page + PAGE_SIZE) ;;
  sret (Next next).

Definition user_range_valid (address length : Z) : M Vmm bool :=
  if u64_max <? address + length then sret false else
  let end_ := address + length in
  if (address =? 0) || (USER_ADDRESS_MAX <? end_) then sret false else
  while_loop (Z.to_nat (length / PAGE_SIZE) + 3) (range_turn end_)
    (Z.land address (unot 64 (PAGE_SIZE - 1))).

(** One page of an anonymous mapping. *)
Definition mmap_page (base page : Z) (_ : unit) : M Vmm (flow unit unit) :=
  rel <-! chk 64 (page * PAGE_SIZE) ;;
  va <-! chk 64 (base + rel) ;;
  frame <- fresh_user_page va ;;
  sret (match frame with None => Exit tt | Some _ => Next tt end).

(** One page of the framebuffer. *)
Definition fb_page (physical_base page : Z) (_ : unit) : M Vmm (flow unit unit) :=
  rel <-! chk 64 (page * PAGE_SIZE) ;;
  va <-! chk 64 (FB_USER_BASE + rel) ;;
  pa <-! chk 64 (physical_base + rel) ;;
  _ <- vmm_map_user_mmio va pa ;;
  sret (Next tt).
End Checks.

Section Calls.
Context {PA : Type} `{FA : FrameAllocator PA} {T : Type} `{CT : Console T} {D : Type} `{BD : BlockDevice D}.
Abbreviation Vmm := (Vmm PA).
Abbreviation Kernel := (Kernel PA T D).

Fixpoint load_user_bytes (va : Z) (n : nat) : M Vmm (list Z) :=
  match n with
  | O => sret []
  | S n' => b <- load_user va ;; rest <- load_user_bytes (va + 1) n' ;; sret (b :: rest)
  end.

Definition sys_spawn (path_ptr path_len : Z) : M Kernel Z :=
  if (path_len =? 0) || (256 <? path_len) then sret EINVAL else
  ok <- on_vm (user_range_valid path_ptr path_len) ;;
  if negb ok then sret EINVAL else
  path <- on_vm (load_user_bytes path_ptr (Z.to_nat path_len)) ;;
  r <- spawn_program path ;;
  sret (match r with Some pid => Z.of_nat pid | None => EINVAL end).

(** One byte to the console. *)
Definition write_byte (buffer written : Z) (_ : unit) : M Kernel (flow unit unit) :=
  byte <- on_vm (load_user (buffer + written)) ;;
  _ <- on_con (con_putc byte) ;;
  sret (Next tt).

Definition sys_write (fd buffer length : Z) : M Kernel Z :=
  if negb (fd =? 1) && negb (fd =? 2) then sret EINVAL else
  if length =? 0 then sret 0 else
  ok <- on_vm (user_range_valid buffer length) ;;
  if negb ok then sret EINVAL else
  _ <- for_loop (Z.to_nat length) 0 (write_byte buffer) tt ;;
  sret length.

Definition sys_mmap (size : Z) : M Kernel Z :=
  if (size =? 0) || (Z.shiftl 1 40 <? size) then sret EINVAL else
  sum <-! chk 64 (size + PAGE_SIZE - 1) ;;
  let pages := sum / PAGE_SIZE in
  length <-! chk 64 (pages * PAGE_SIZE) ;;
  k <- sget ;;
  let base := mmap_next k in
  if (u64_max <? base + length) || (USER_ADDRESS_MAX <? base + length) then sret EINVAL else
  _ <- smodify (fun k => set_mmap_next k (base + length)) ;;
  r <- on_vm (for_loop (Z.to_nat pages) 0 (mmap_page base) tt) ;;
  sret (match r with Next _ => base | Exit _ => EINVAL end).

Definition fb_field (f : LimineFramebuffer -> Z) (k : Kernel) : Z :=
  match screen k with None => 0 | Some d => f d end.

Definition sys_fb_map (info_ptr : Z) : M Kernel Z :=
  ok <- on_vm (user_range_valid info_ptr FB_INFO_SIZE) ;;
  if negb ok then sret EINVAL else
  k <- sget ;;
  let width := fb_field width k in
  let height := fb_field height k in
  let pitch := fb_field pitch k in
  let bpp := fb_field bpp k in
  if (width =? 0) || (height =? 0) || (pitch =? 0) || (bpp =? 0) then sret EINVAL else
  let base := fb_field address k in
  if base =? 0 then sret EINVAL else
  o <- on_vm hhdm_offset ;;
  physical <-! chk 64 (base - o) ;;
  if u64_max <? pitch * height then sret EINVAL else
  let size := pitch * height in
  _ <- (if fb_mapped k then sret tt else
        let offset := Z.land physical (PAGE_SIZE - 1) in
        sum <-! chk 64 (size + offset) ;;
        sum <-! chk 64 (sum + PAGE_SIZE) ;;
        let pages := (sum - 1) / PAGE_SIZE in
        _ <- on_vm (for_loop (Z.to_nat pages) 0 (fb_page (physical - offset)) tt) ;;
        smodify (fun k => set_fb_mapped k true)) ;;
  _ <- on_vm (store_user_bytes info_ptr (fb_info_bytes width height pitch bpp)) ;;
  sret 0.

(** One turn of the event loop. *)
Definition event_turn (buffer max_events count : Z) : M Kernel (flow Z Z) :=
  k <- sget ;;
  if negb ((count <? max_events) && has_input (kbd k)) then sret (Exit count) else
  code <- kbd_input ;;
  if code =? KEY_NONE then sret (Exit count) else
  _ <- on_vm (store_user_bytes (buffer + count * EVENT_SIZE) (event_bytes code)) ;;
  sret (Next (count + 1)).

(** The buffered keys bound the number of turns. *)
Definition sys_event_read (buffer max_events : Z) : M Kernel (result unit Z) :=
  if max_events =? 0 then sret (Ok 0) else
  if u64_max <? max_events * EVENT_SIZE then sret (Err tt) else
  ok <- on_vm (user_range_valid buffer (max_events * EVENT_SIZE)) ;;
  if negb ok then sret (Err tt) else
  count <- while_loop (Z.to_nat BUFFER_SIZE + 2) (event_turn buffer max_events) 0 ;;
  sret (Ok count).

(** The words of a frame: [rdx], [rsi], [rdi], [rax] and [vector] of an
    [InterruptFrame]. *)
Definition W_RDI : Z := 9.
Definition W_RSI : Z := 10.
Definition W_RDX : Z := 11.
Definition W_RAX : Z := 14.
Definition W_VECTOR : Z := 15.

Definition frame_word (i frame : Z) (k : Kernel) : Z := default 0 (stacks (sched k) !! (frame + 8 * i)).
Definition set_rax (frame v : Z) : M Kernel unit :=
  smodify (fun k => set_sched k (set_stacks (sched k) (<[frame + 8 * W_RAX := v]> (stacks (sched k))))).

(** [cpu] is the processor that runs the call. *)
Definition dispatch (cpu : nat) (frame : Z) : M Kernel Z :=
  k <- sget ;;
  let rdi := frame_word W_RDI frame k in
  let rsi := frame_word W_RSI frame k in
  let rdx := frame_word W_RDX frame k in
  let rax := frame_word W_RAX frame k in
  if rax =? SYS_WRITE then r <- sys_write rdi rsi rdx ;; _ <- set_rax frame r ;; sret frame else
  if rax =? SYS_EXIT then
    _ <- on_sched (mark_current_dead cpu) ;; on_sched (schedule cpu frame) else
  if rax =? SYS_YIELD then _ <- set_rax frame 0 ;; on_sched (schedule cpu frame) else
  if rax =? SYS_SPAWN then r <- sys_spawn rdi rsi ;; _ <- set_rax frame r ;; sret frame else
  if rax =? SYS_FB_MAP then r <- sys_fb_map rdi ;; _ <- set_rax frame r ;; sret frame else
  if rax =? SYS_EVENT_READ then
    r <- sys_event_read rdi rsi ;;
    match r with
    | Err _ => _ <- set_rax frame EINVAL ;; sret frame
    | Ok count =>
        if (count =? 0) && negb (rdx =? 0) then
          _ <- set_rax frame 0 ;;
          _ <- on_sched (block_current_input cpu) ;;
          on_sched (schedule cpu frame)
        else _ <- set_rax frame count ;; sret frame
    end else
  if rax =? SYS_MMAP then r <- sys_mmap rdi ;; _ <- set_rax frame r ;; sret frame else
  if rax =? SYS_SLEEP then
    _ <- set_rax frame 0 ;;
    if rdi =? 0 then on_sched (schedule cpu frame) else
    tick <-! chk 64 (uptime k + rdi) ;;
    _ <- on_sched (block_current_until cpu tick) ;;
    on_sched (schedule cpu frame)
  else _ <- set_rax frame EINVAL ;; sret frame.

(** ** The interrupt entry *)

(** [fetch_add] wraps around; only processor 0 advances the clock. *)
Definition timer_irq (cpu : nat) : M Kernel unit :=
  _ <- smodify (fun k => set_clock k (uptime k) (wrap 32 (ticks k + 1))) ;;
  if bool_decide (cpu = 0%nat) then smodify (fun k => set_clock k (wrap 64 (uptime k + 1)) (ticks k)) else sret tt.

(** [scancode] is what the keyboard controller delivers. *)
Definition irq_common_handler (cpu : nat) (scancode frame : Z) : M Kernel Z :=
  k <- sget ;;
  let vector := frame_word W_VECTOR frame k in
  if vector =? SYSCALL_VECTOR then dispatch cpu frame else
  if vector =? TIMER_VECTOR then
    _ <- timer_irq cpu ;;
    k <- sget ;;
    _ <- on_sched (wake_sleepers (uptime k)) ;;
    on_sched (schedule cpu frame)
  else
  if vector =? KEYBOARD_VECTOR then
    k <- sget ;;
    b <-! irq scancode (kbd k) ;;
    _ <- smodify (fun k => set_kbd k b) ;;
    _ <- on_sched wake_input_waiters ;;
    sret frame
  else sret frame.
End Calls.

(** ** Address checks *)

Section Ranges.
Context {PA : Type} `{FA : FrameAllocator PA}.
Abbreviation Vmm := (Vmm PA).

Definition mapped_at (s : Vmm) (va : Z) : Prop :=
  exists pa, vmm_virt_to_phys va s = Ret (pa, s) /\ pa <> VMM_NO_PHYS.

Lemma lor_below n a b : 0 <= n -> 0 <= a < 2 ^ n -> 0 <= b < 2 ^ n -> 0 <= Z.lor a b < 2 ^ n.
Proof.
  intros Hn Ha Hb. split; [apply Z.lor_nonneg; lia|].
  destruct (Z.eq_dec (Z.lor a b) 0) as [->|H0]; [lia|].
  apply Z.log2_lt_pow2; [pose proof (proj2 (Z.lor_nonneg a b)); lia|]. rewrite Z.log2_lor by lia.
  assert (forall x, 0 <= x < 2 ^ n -> n = 0 \/ Z.log2 x < n) as Hx.
  { intros x Hx. destruct (Z.eq_dec x 0) as [->|]; [cbn; lia|]. right. apply Z.log2_lt_pow2; lia. }
  destruct (Z.eq_dec n 0) as [->|]; [|destruct (Hx a Ha), (Hx b Hb); lia].
  assert (a = 0 /\ b = 0) as [-> ->] by lia. done.
Qed.

Lemma land_below n e m : 0 <= n -> 0 <= m < 2 ^ n -> 0 <= Z.land e m < 2 ^ n.
Proof.
  intros Hn Hm. split; [apply Z.land_nonneg; lia|]. rewrite Z.land_comm.
  pose proof (Z.land_nonneg m e). 
  eapply Z.le_lt_trans; [|apply Hm]. apply Z.ldiff_le; [lia|]. apply Z.bits_inj'. intros i Hi.
  rewrite Z.ldiff_spec, Z.land_spec, Z.bits_0. by destruct (Z.testbit m i), (Z.testbit e i).
Qed.

(** Whether an address is mapped depends on its page only. *)
Lemma decode_none es va va' : decode es va = VMM_NO_PHYS -> decode es va' = VMM_NO_PHYS.
Proof.
  unfold decode, VMM_NO_PHYS, u64_max. pose proof (land_below 12 va (PAGE_SIZE - 1)) as H12.
  change PTE_ADDR_MASK_1G with 0xFFFFFC0000000 in *. change PTE_ADDR_MASK_2M with 0xFFFFFFFE00000 in *.
  change PTE_ADDR_MASK with 0xFFFFFFFFFF000 in *.
  assert (forall e m x y, 0 <= m < 2 ^ 52 -> 0 <= y < 2 ^ 52 ->
    Z.lor (Z.lor (Z.land e m) (Z.land x y)) (Z.land va (PAGE_SIZE - 1)) <> 2 ^ 64 - 1) as H3.
  { intros e m x y Hm Hy. pose proof (land_below 52 e m ltac:(lia) Hm). pose proof (land_below 52 x y ltac:(lia) Hy).
    pose proof (lor_below 52 (Z.land e m) (Z.land x y) ltac:(lia) ltac:(lia) ltac:(lia)).
    assert (0 <= Z.land va (PAGE_SIZE - 1) < 2 ^ 12) by (apply H12; unfold PAGE_SIZE; lia).
    pose proof (lor_below 52 (Z.lor (Z.land e m) (Z.land x y)) (Z.land va (PAGE_SIZE - 1)) ltac:(lia) ltac:(lia) ltac:(lia)). lia. }
  assert (forall e m, 0 <= m < 2 ^ 52 -> Z.lor (Z.land e m) (Z.land va (PAGE_SIZE - 1)) <> 2 ^ 64 - 1) as H2.
  { intros e m Hm. specialize (H3 e m 0 0 Hm ltac:(lia)). by rewrite Z.land_0_l, Z.lor_0_r in H3. }
  destruct es as [|e1 [|e2 [|e3 [|e4 [|]]]]]; try done.
  - destruct (present e2); [|done]. intros H. by destruct (H3 e2 0xFFFFFC0000000 (Z.land va (unot 64 0xFFF)) 0x3FFFFFFF); [lia..|].
  - destruct (present e3); [|done]. intros H. by destruct (H3 e3 0xFFFFFFFE00000 (Z.land va (unot 64 0xFFF)) 0x1FFFFF); [lia..|].
  - destruct (present e4); [|done]. intros H. by destruct (H2 e4 0xFFFFFFFFFF000); [lia|].
Qed.

Lemma mapped_page s h page off :
  vmm_ok s h -> 0 <= page -> page mod PAGE_SIZE = 0 -> 0 <= off < PAGE_SIZE -> page + off < 2 ^ 64 ->
  mapped_at s (page + off) <-> mapped_at s page.
Proof.
  intros Hs Hp Hal Hoff Hlt. unfold mapped_at.
  rewrite (virt_to_phys_run s h (page + off)), (virt_to_phys_run s h page) by (done || lia).
  destruct (page_offset page off) as [Hv _]; [done..|]. apply path_vpn in Hv. rewrite Hv.
  generalize (trail (mem s) h (pml4 s) (path page)). intros es.
  split; intros (pa & [= <-] & Hne); eexists; (split; [done|]); intros Hno; apply Hne; by eapply decode_none.
Qed.

Lemma range_loop s h end_ : vmm_ok s h -> 0 <= end_ <= USER_ADDRESS_MAX ->
  forall fuel page, 0 <= page -> page mod PAGE_SIZE = 0 -> end_ <= page + Z.of_nat fuel * PAGE_SIZE ->
  exists b, while_loop (S fuel) (range_turn end_) page s = Ret (b, s) /\
    (b = true <-> forall va, page <= va < end_ -> mapped_at s va).
Proof.
  intros Hs Hend. unfold USER_ADDRESS_MAX in Hend.
  induction fuel as [|fuel IH]; intros page Hp Hal Hfuel; cbn [while_loop] in *;
    (destruct (Z.le_gt_cases end_ page) as [Hle|Hgt];
     [exists true; unfold sbind, range_turn; rewrite (proj2 (Z.leb_le _ _)) by lia;
      split; [done|]; split; [intros _ va Hva; lia|done]|]); [lia|].
  pose proof (virt_to_phys_run s h page Hs ltac:(lia)) as Hrun.
  unfold sbind at 1, range_turn. rewrite (proj2 (Z.leb_gt _ _)) by lia.
  rewrite (sbind_Ret _ _ _ _ _ Hrun). set (pa := decode _ _) in *.
  destruct (Z.eqb_spec pa VMM_NO_PHYS) as [E|E].
  - exists false. split; [done|]. split; [done|]. intros Hall.
    destruct (Hall page ltac:(lia)) as (pa' & Hpa' & Hne). rewrite Hrun in Hpa'. by injection Hpa' as <-.
  - unfold sbind at 1, slift. rewrite chk_Ret by (unfold PAGE_SIZE; lia).
    destruct (IH (page + PAGE_SIZE)) as (b & Hb & Hiff); [unfold PAGE_SIZE in *; lia..|].
    exists b. split; [exact Hb|]. rewrite Hiff. split; [|intros Hall va Hva; apply Hall; unfold PAGE_SIZE in *; lia].
    intros Hall va Hva. destruct (Z.le_gt_cases (page + PAGE_SIZE) va) as [|Hlt]; [apply Hall; lia|].
    replace va with (page + (va - page)) by lia.
    apply (mapped_page s h); [done|done|done|unfold PAGE_SIZE in *; lia|lia|]. by exists pa.
Qed.

Lemma page_of_address a : 0 <= a < 2 ^ 64 -> Z.land a (unot 64 (PAGE_SIZE - 1)) = a / PAGE_SIZE * PAGE_SIZE.
Proof. intros Ha. change (PAGE_SIZE - 1) with (Z.ones 12). by rewrite (land_align 64) by lia. Qed.

Lemma user_range_valid_spec s h address len :
  vmm_ok s h -> 0 <= address < 2 ^ 64 -> 0 <= len < 2 ^ 64 ->
  exists b, user_range_valid address len s = Ret (b, s) /\
    (b = true <-> 0 < address /\ address + len <= USER_ADDRESS_MAX /\
       forall va, address / PAGE_SIZE * PAGE_SIZE <= va < address + len -> mapped_at s va).
Proof.
  intros Hs Ha Hl. unfold user_range_valid, u64_max, USER_ADDRESS_MAX.
  destruct (Z.ltb_spec (2 ^ 64 - 1) (address + len)).
  { exists false. split; [done|]. split; [done|]. lia. }
  destruct (Z.eqb_spec address 0) as [->|Hne]; cbn [orb]; [exists false; split; [done|]; split; [done|lia]|].
  destruct (Z.ltb_spec 0x800000000000 (address + len)).
  { exists false. split; [done|]. split; [done|]. lia. }
  rewrite page_of_address by done.
  replace (Z.to_nat (len / PAGE_SIZE) + 3)%nat with (S (Z.to_nat (len / PAGE_SIZE) + 2)) by lia.
  destruct (range_loop s h (address + len) Hs ltac:(unfold USER_ADDRESS_MAX; lia) (Z.to_nat (len / PAGE_SIZE) + 2)
    (address / PAGE_SIZE * PAGE_SIZE)) as (b & Hb & Hiff); [unfold PAGE_SIZE in *; lia..|].
  exists b. split; [exact Hb|]. rewrite Hiff. split; [intros Hall; split; [lia|]; split; [lia|done]|by intros (_ & _ & ?)].
Qed.

(** C12: The check in front of every user pointer. [user_range_valid] ends for all
    arguments, changes nothing, and answers [true] exactly when the range starts
    above address 0, ends at or below the user half (in particular it does not
    wrap around) and every byte from the start of its first page on is mapped. *)
Theorem user_range_valid_correct s h address len :
  vmm_ok s h -> 0 <= address < 2 ^ 64 -> 0 <= len < 2 ^ 64 ->
  exists b, user_range_valid address len s = Ret (b, s) /\
    (b = true <-> 0 < address /\ address + len <= USER_ADDRESS_MAX /\
       forall va, address / PAGE_SIZE * PAGE_SIZE <= va < address + len -> mapped_at s va).
Proof. apply user_range_valid_spec. Qed.
End Ranges.

(** ** The calls *)

Section Theorems.
Context {PA : Type} `{FA : FrameAllocator PA} {T : Type} `{CT : Console T} {D : Type} `{BD : BlockDevice D}.
Abbreviation Vmm := (Vmm PA).
Abbreviation Kernel := (Kernel PA T D).

(** Mapping the pages of a range one after the other. *)
Lemma mmap_loop (s : Vmm) h base pages :
  vmm_ok s h -> user_range base pages -> h mod PAGE_SIZE = 0 ->
  (forall k, 0 <= k < pages -> no_huge (trail (mem s) h (pml4 s) (path (base + k * PAGE_SIZE)))) ->
  room (frames s) (4 * Z.to_nat pages) ->
  exists s' fs, for_loop (Z.to_nat pages) 0 (mmap_page base) tt s = Ret (Next tt, s') /\
    window s s' h base fs (fun _ => 0) /\ Z.of_nat (length fs) = pages.
Proof.
  intros Hs Hr Hh Hnh Hroom. pose proof Hr as (Hb & Hal & Hn & Hend).
  destruct (for_loop_inv (R := unit) (fun i (_ : unit) t => exists fs, Z.of_nat (length fs) = i /\
    window s t h base fs (fun _ => 0) /\ room (frames t) (4 * Z.to_nat (pages - i)))
    (Z.to_nat pages) 0 (mmap_page base) tt s) as ([] & s' & Hrun & fs & Hlen & W & _).
  - exists []. split; [done|]. split; [by apply window_nil|]. by rewrite Z.sub_0_r.
  - intros i [] t Hi (fs & Hlen & W & Hrm).
    replace (4 * Z.to_nat (pages - i))%nat with (4 + 4 * Z.to_nat (pages - (i + 1)))%nat in Hrm by lia.
    destruct (window_zero_step s t h base fs pages _ W Hr ltac:(lia) Hh Hnh Hrm) as (f & t' & Hrun & W' & Hrm').
    rewrite Hlen in Hrun. exists tt, t'. split.
    + unfold mmap_page, sbind, slift. rewrite chk_Ret by (unfold PAGE_SIZE in *; lia).
      rewrite chk_Ret by (unfold PAGE_SIZE in *; lia). by rewrite Hrun.
    + exists (fs ++ [f]). split; [rewrite length_app; cbn; lia|]. done.
  - exists s', fs. split; [done|]. split; [done|lia].
Qed.

(** C11: Anonymous memory. For a size of at most 2^40 bytes, with room in the
    region and enough free frames, [sys_mmap] returns the next free address of
    the region, page aligned, and moves the region on by the size rounded up to
    pages. Every byte of the mapping is reachable from ring 3 and reads as zero,
    its pages lie in distinct frames that were free before, no other address of
    the lower half changes its translation and no page in use changes its
    contents. *)
Theorem sys_mmap_correct (k : Kernel) h size :
  let base := mmap_next k in let pages := (size + PAGE_SIZE - 1) / PAGE_SIZE in
  vmm_ok (vm k) h -> h mod PAGE_SIZE = 0 -> 0 < size <= 2 ^ 40 -> user_range base pages ->
  (forall i, 0 <= i < pages -> no_huge (trail (mem (vm k)) h (pml4 (vm k)) (path (base + i * PAGE_SIZE)))) ->
  room (frames (vm k)) (4 * Z.to_nat pages) ->
  exists v fs, sys_mmap size k = Ret (base, set_vm (set_mmap_next k (base + pages * PAGE_SIZE)) v) /\
    vmm_ok v h /\ size <= pages * PAGE_SIZE < size + PAGE_SIZE /\
    (forall va, base <= va < base + pages * PAGE_SIZE -> load_user va v = Ret (0, v) /\
       user_access (trail (mem v) h (pml4 v) (path va)) = true) /\
    (forall va, 0 <= va < 2 ^ 48 -> ~ (base <= va < base + pages * PAGE_SIZE) ->
       exists pa, vmm_virt_to_phys va (vm k) = Ret (pa, vm k) /\ vmm_virt_to_phys va v = Ret (pa, v)) /\
    Z.of_nat (length fs) = pages /\ NoDup fs /\ Forall (fa_free (frames (vm k))) fs /\ keeps_data (vm k) v h.
Proof.
  cbv zeta. set (base := mmap_next k). set (pages := (size + PAGE_SIZE - 1) / PAGE_SIZE).
  intros Hs Hh Hsize Hr Hnh Hroom. pose proof Hr as (Hb & Hal & Hn & Hend).
  assert (size <= pages * PAGE_SIZE < size + PAGE_SIZE) as Hpages by (unfold pages, PAGE_SIZE; lia).
  destruct (mmap_loop (vm k) h base pages Hs Hr Hh Hnh Hroom) as (v & fs & Hrun & W & Hlen).
  exists v, fs. split; [|split; [apply W|split; [done|split; [|split; [|split; [done|split; [apply W|split; [|apply W]]]]]]]].
  - unfold sys_mmap. rewrite (proj2 (Z.eqb_neq size 0)) by lia.
    rewrite (proj2 (Z.ltb_ge (Z.shiftl 1 40) size)) by (change (Z.shiftl 1 40) with (2 ^ 40); lia). cbn [orb].
    unfold sbind at 1, slift. rewrite chk_Ret by (unfold PAGE_SIZE; lia). fold pages.
    unfold sbind at 1. rewrite chk_Ret by (unfold PAGE_SIZE in *; lia).
    unfold sbind at 1, sget. fold base. unfold u64_max, USER_ADDRESS_MAX.
    rewrite (proj2 (Z.ltb_ge (2 ^ 64 - 1) _)), (proj2 (Z.ltb_ge 0x800000000000 _)) by lia. cbn [orb].
    unfold sbind at 1, smodify.
    rewrite (sbind_Ret _ _ _ _ _ (part_Ret vm set_vm _ (set_mmap_next k (base + pages * PAGE_SIZE)) _ _ Hrun)). done.
  - intros va Hva. exact (window_load (vm k) v h base fs _ pages va W Hr Hlen Hva).
  - intros va Hva Hout. by eapply fresh_window_outside.
  - eapply Forall_impl; [exact (wn_new _ _ _ _ _ _ W)|]. by intros f (? & _).
Qed.

(** The bytes written to a console, one after the other. *)
Fixpoint con_write (bytes : list Z) : M T unit :=
  match bytes with
  | [] => sret tt
  | b :: rest => _ <- con_putc b ;; con_write rest
  end.

Lemma load_user_mapped (s : Vmm) h va :
  vmm_ok s h -> 0 <= va < 2 ^ 64 -> mapped_at s va -> exists b, load_user va s = Ret (b, s) /\ 0 <= b < 256.
Proof.
  intros Hs Hva (pa & Hpa & Hne). unfold load_user. rewrite (sbind_Ret _ _ _ _ _ Hpa).
  rewrite (proj2 (Z.eqb_neq _ _)) by done. unfold sbind at 1, hhdm_base. rewrite (ok_hhdm _ _ Hs).
  eexists. split; [done|]. unfold byte_at. change 0xFF with (Z.ones 8). rewrite Z.land_ones by lia. lia.
Qed.

Lemma write_loop h v (n : nat) : vmm_ok v h -> forall buffer i (k : Kernel),
  vm k = v -> con_ok (con k) -> 0 <= buffer + i -> buffer + i + Z.of_nat n <= 2 ^ 64 ->
  (forall va, buffer + i <= va < buffer + i + Z.of_nat n -> mapped_at v va) ->
  exists bytes t, for_loop n i (write_byte buffer) tt k = Ret (Next tt, set_con k t) /\
    length bytes = n /\ con_write bytes (con k) = Ret (tt, t) /\ con_ok t /\
    forall j : nat, (j < n)%nat -> load_user (buffer + i + Z.of_nat j) v = Ret (bytes !!! j, v).
Proof.
  intros Hv. induction n as [|n IH]; intros buffer i k Hk Hc Hlo Hhi Hmap.
  - exists [], (con k). split; [by destruct k|]. split; [done|]. split; [done|]. split; [done|]. intros j Hj. lia.
  - destruct (load_user_mapped v h (buffer + i) Hv ltac:(lia) (Hmap (buffer + i) ltac:(lia))) as (b & Hb & Hb8).
    destruct (con_returns (con k) b Hc Hb8) as (t & Ht & Hct).
    destruct (IH buffer (i + 1) (set_con k t)) as (bytes & t' & Hrun & Hlen & Hw & Hct' & Hload);
      [done|done|lia|lia|intros va Hva; apply Hmap; lia|].
    exists (b :: bytes), t'. split.
    + cbn [for_loop]. unfold sbind at 1, write_byte at 1.
      assert (load_user (buffer + i) (vm k) = Ret (b, v)) as Hb' by (by rewrite Hk).
      rewrite (sbind_Ret _ _ _ _ _ (part_Ret vm set_vm _ k _ _ Hb')).
      assert (set_vm k v = k) as -> by (rewrite <- Hk; by destruct k).
      rewrite (sbind_Ret _ _ _ _ _ (part_Ret con set_con _ k _ _ Ht)). exact Hrun.
    + split; [cbn; by rewrite Hlen|]. split; [cbn [con_write]; by rewrite (sbind_Ret _ _ _ _ _ Ht)|].
      split; [done|]. intros [|j] Hj; [by rewrite Z.add_0_r|].
      replace (buffer + i + Z.of_nat (S j)) with (buffer + (i + 1) + Z.of_nat j) by lia.
      apply Hload. lia.
Qed.

(** What a write may have done to the console, and its answer: refused with nothing
    written, or all the bytes the program sees in its buffer, in order. *)
Definition written_out (v : Vmm) (t t' : T) (fd buffer len r : Z) : Prop :=
  (r = EINVAL /\ t' = t /\ ((fd <> 1 /\ fd <> 2) \/ ~ (forall va, buffer <= va < buffer + len ->
      0 < va < USER_ADDRESS_MAX /\ mapped_at v va))) \/
  ((fd = 1 \/ fd = 2) /\ r = len /\ exists bytes, Z.of_nat (length bytes) = len /\
     con_write bytes t = Ret (tt, t') /\
     forall j : nat, Z.of_nat j < len -> load_user (buffer + Z.of_nat j) v = Ret (bytes !!! j, v)).

Lemma sys_write_run (k : Kernel) h fd buffer len :
  vmm_ok (vm k) h -> con_ok (con k) -> 0 <= buffer < 2 ^ 64 -> 0 <= len < 2 ^ 64 ->
  exists r t, sys_write fd buffer len k = Ret (r, set_con k t) /\ written_out (vm k) (con k) t fd buffer len r.
Proof.
  intros Hv Hc Hb Hl. unfold sys_write.
  assert (negb (fd =? 1) && negb (fd =? 2) = true -> fd <> 1 /\ fd <> 2) as Hfd by (zify_bool; lia).
  destruct (negb (fd =? 1) && negb (fd =? 2)) eqn:Efd; [exists EINVAL, (con k); split; [by destruct k|]; left; auto|].
  assert (fd = 1 \/ fd = 2) as Hfd' by (zify_bool; lia).
  destruct (Z.eqb_spec len 0) as [->|Hlen].
  { exists 0, (con k). split; [by destruct k|]. right. split; [done|]. split; [done|]. exists [].
    split; [done|]. split; [done|]. intros j Hj. lia. }
  destruct (user_range_valid_spec (vm k) h buffer len Hv Hb Hl) as (b & Hrun & Hiff).
  rewrite (sbind_Ret _ _ _ _ _ (part_Ret vm set_vm _ k _ _ Hrun)).
  assert (set_vm k (vm k) = k) as -> by (by destruct k). destruct b; cbn [negb].
  - destruct (proj1 Hiff eq_refl) as (Hb0 & Hend & Hmap). unfold USER_ADDRESS_MAX in Hend.
    destruct (write_loop h (vm k) (Z.to_nat len) Hv buffer 0 k eq_refl Hc ltac:(lia) ltac:(lia))
      as (bytes & t & Hloop & Hbl & Hw & Hct & Hload); [intros va Hva; apply Hmap; unfold PAGE_SIZE; lia|].
    rewrite (sbind_Ret _ _ _ _ _ Hloop). exists len, t. split; [done|]. right. split; [done|].
    split; [done|]. exists bytes. split; [lia|]. split; [done|].
    intros j Hj. rewrite <- (Z.add_0_r buffer) at 1. apply Hload. lia.
  - exists EINVAL, (con k). split; [by destruct k|]. left. split; [done|]. split; [done|]. right. intros Hall.
    enough (false = true) by done. apply Hiff. unfold USER_ADDRESS_MAX in *.
    pose proof (Hall buffer ltac:(lia)) as [? Hmb]. pose proof (Hall (buffer + len - 1) ltac:(lia)).
    split; [lia|]. split; [lia|]. intros va Hva.
    destruct (Z.le_gt_cases buffer va) as [|Hlt]; [apply Hall; lia|].
    set (page := buffer / PAGE_SIZE * PAGE_SIZE) in *.
    assert (mapped_at (vm k) page) as Hpg.
    { apply (mapped_page (vm k) h page (buffer - page)); [done|unfold page, PAGE_SIZE; lia..|].
      by replace (page + (buffer - page)) with buffer by lia. }
    replace va with (page + (va - page)) by lia.
    apply (mapped_page (vm k) h); [done|unfold page, PAGE_SIZE in *; lia..|done].
Qed.

(** Writing to the console. Whatever a program passes, [sys_write] returns: no
    pointer makes the kernel fault. Either the arguments are refused with
    [EINVAL] and nothing happens, or the call answers the length, the console has
    received exactly the bytes the program sees in its buffer, in order, and
    nothing else has changed. *)
Theorem sys_write_correct (k : Kernel) h fd buffer len :
  vmm_ok (vm k) h -> con_ok (con k) -> 0 <= buffer < 2 ^ 64 -> 0 <= len < 2 ^ 64 ->
  exists r k', sys_write fd buffer len k = Ret (r, k') /\ k' = set_con k (con k') /\
    written_out (vm k) (con k) (con k') fd buffer len r.
Proof.
  intros Hv Hc Hb Hl. destruct (sys_write_run k h fd buffer len Hv Hc Hb Hl) as (r & t & Hrun & Hw). by exists r, (set_con k t).
Qed.

(** Sleeping for too long. A program that asks to sleep for so many
    milliseconds that its wake-up time does not fit 64 bits stops the machine:
    the sum is not checked before it is formed. *)
Theorem sleep_overflow_panics (k : Kernel) cpu frame :
  frame_word W_RAX frame k = SYS_SLEEP -> 2 ^ 64 <= uptime k + frame_word W_RDI frame k ->
  frame_word W_RDI frame k <> 0 -> dispatch cpu frame k = Panic.
Proof.
  intros Hrax Hov Hne. unfold dispatch, sbind at 1, sget. rewrite Hrax.
  repeat match goal with |- context [SYS_SLEEP =? ?c] =>
    let v := eval vm_compute in (SYS_SLEEP =? c) in change (SYS_SLEEP =? c) with v end. cbv iota.
  unfold sbind at 1, set_rax, smodify. rewrite (proj2 (Z.eqb_neq _ _)) by done.
  unfold sbind, slift. by rewrite chk_Panic by lia.
Qed.
End Theorems.

(** ** Witnesses *)

Definition HHDM : Z := 0xFFFF800000000000.

(** A kernel with four free frames, nothing mapped and a frame at address 0 that
    asks to sleep. *)
Definition call_sched (rdi : Z) : Sched :=
  mkSched false [] [] [] [] {[ 8 * W_RAX := SYS_SLEEP; 8 * W_RDI := rdi ]} (Heap.mkHeap ∅ 0 0) 1 0 0.

Definition sample_kernel (rdi : Z) : Kernel Pmm Screen RamDisk :=
  mkKernel sample_vmm (call_sched rdi) (mkKb [] 0 0 0 0 0 0 0) small_screen (Some small_fb) None
    USER_STACK_TOP MMAP_BASE false 1 1.

Lemma user_range_valid_correct_witness : exists b,
  user_range_valid 0x1000 16 sample_vmm = Ret (b, sample_vmm).
Proof.
  destruct (user_range_valid_correct sample_vmm HHDM 0x1000 16 sample_vmm_ok ltac:(lia) ltac:(lia)) as (b & Hb & _).
  exists b. exact Hb.
Defined.

Lemma sys_mmap_correct_witness : exists v,
  sys_mmap 1 (sample_kernel 0) = Ret (MMAP_BASE, set_vm (set_mmap_next (sample_kernel 0) (MMAP_BASE + PAGE_SIZE)) v).
Proof.
  destruct (sys_mmap_correct (sample_kernel 0) HHDM 1) as (v & fs & Hrun & _).
  - exact sample_vmm_ok.
  - reflexivity.
  - lia.
  - split; [vm_compute; discriminate|]. split; [reflexivity|]. split; [vm_compute; discriminate|].
    vm_compute. discriminate.
  - intros i _. apply sample_no_huge.
  - exact sample_room.
  - exists v. exact Hrun.
Defined.

Lemma sys_write_correct_witness : exists r k', sys_write 1 0x1000 4 (sample_kernel 0) = Ret (r, k').
Proof.
  destruct (sys_write_correct (sample_kernel 0) HHDM 1 0x1000 4) as (r & k' & Hrun & _).
  - exact sample_vmm_ok.
  - exists small_fb. exact small_screen_ok.
  - lia.
  - lia.
  - exists r, k'. exact Hrun.
Defined.

Lemma sleep_overflow_panics_witness : dispatch 0 0 (sample_kernel u64_max) = Panic.
Proof.
  apply sleep_overflow_panics; [reflexivity|vm_compute; discriminate|vm_compute; discriminate].
Defined.
