(* ===== verification/Trap.v ===== *)
(** * Interrupts from the instruction to the task ([src/src/asm.rs], [src/src/interrupts.rs])

    The stubs of [Entry] around the handler of [Syscall]: what an interrupt does to
    the program it interrupts. The timer switches tasks, and every task goes on with
    just the registers it was interrupted with; device interrupts cannot be noticed;
    a system call changes [rax] alone. *)

From S2P Require Import Prelude Io Pmm Vmm UserMem Graphics Terminal Keyboard Scheduler Block Smp Entry.
From stdpp Require Import list.
From S2P Require Import Ext4 Kernel User Syscall.
#[local] Open Scope Z_scope.

(** ** Code that leaves a part of the state alone *)

Section Quiet.
Context {S B : Type} (f : S -> B).

Definition quiet {A} (m : M S A) : Prop := forall s a s', m s = Ret (a, s') -> f s' = f s.

Lemma quiet_ret {A} (a : A) : quiet (sret a).
Proof. by intros s b s' [= _ <-]. Qed.

Lemma quiet_panic {A} : quiet (A := A) spanic.
Proof. done. Qed.

Lemma quiet_get : quiet sget.
Proof. by intros s b s' [= _ <-]. Qed.

Lemma quiet_lift {A} (o : outcome A) : quiet (slift o).
Proof. intros s b s'. unfold slift. destruct o; [by intros [= _ <-]|done..]. Qed.

Lemma quiet_modify g : (forall s, f (g s) = f s) -> quiet (smodify g).
Proof. by intros H s b s' [= _ <-]. Qed.

Lemma quiet_bind {A C} (m : M S A) (k : A -> M S C) : quiet m -> (forall a, quiet (k a)) -> quiet (sbind m k).
Proof. intros Hm Hk s b s' (a & s1 & H1 & H2)%sbind_Ret_inv. rewrite (Hk _ _ _ _ H2). by apply (Hm s a). Qed.

Lemma quiet_for {A R} n body : (forall i a, quiet (body i a)) -> forall i (a : A), quiet (for_loop (R := R) n i body a).
Proof.
  intros Hb. induction n as [|n IH]; intros i a; cbn [for_loop]; [apply quiet_ret|].
  apply quiet_bind; [apply Hb|]. intros [b|x]; [apply IH|apply quiet_ret].
Qed.

Lemma quiet_while {A R} n body : (forall a, quiet (body a)) -> forall (a : A), quiet (while_loop (R := R) n body a).
Proof.
  intros Hb. induction n as [|n IH]; intros a; cbn [while_loop]; [done|].
  apply quiet_bind; [apply Hb|]. intros [b|x]; [apply IH|apply quiet_ret].
Qed.
End Quiet.

Create HintDb quiet.
#[export] Hint Resolve quiet_ret quiet_panic quiet_get quiet_lift quiet_bind quiet_for quiet_while : quiet.

(** Follows the structure of the code. *)
Ltac quiet := repeat first
  [ progress intros
  | progress eauto with quiet
  | progress case_match
  | apply quiet_bind
  | apply quiet_for
  | apply quiet_while
  | apply quiet_modify; done ].

Lemma get_task_quiet {B} (f : Sched -> B) r : quiet f (get_task r).
Proof. intros s t s'. unfold get_task. case_match; [by intros [= _ <-]|done]. Qed.

Lemma per_cpu_quiet {B} (f : Sched -> B) c : quiet f (per_cpu c).
Proof. intros s t s'. unfold per_cpu. case_match; [by intros [= _ <-]|done]. Qed.

Lemma pick_quiet {B} (f : Sched -> B) cur : quiet f (pick cur).
Proof. by intros s t s' [= _ <-]. Qed.

Lemma upd_task_stacks r g : quiet stacks (upd_task r g).
Proof. intros s t s'. unfold upd_task. case_match; [|done]. intros [= _ <-]. by destruct r. Qed.

Lemma set_per_cpu_stacks c p : quiet stacks (set_per_cpu c p).
Proof. intros s t s'. unfold set_per_cpu. case_match; [|done]. by intros [= _ <-]. Qed.

Lemma set_kernel_stack_stacks c v : quiet stacks (set_kernel_stack c v).
Proof. intros s t s'. unfold set_kernel_stack. case_match; [|done]. by intros [= _ <-]. Qed.

#[export] Hint Resolve get_task_quiet per_cpu_quiet pick_quiet upd_task_stacks set_per_cpu_stacks set_kernel_stack_stacks : quiet.

Lemma schedule_stacks c fr : quiet stacks (schedule c fr).
Proof. unfold schedule, publish, save_frame, choose, switch, defer. quiet. Qed.

Section Traps.
Context {PA : Type} `{FA : FrameAllocator PA} {T : Type} `{CT : Console T} {D : Type} `{BD : BlockDevice D}.
Abbreviation Kernel := (Kernel PA T D).

#[export] Instance Kernel_stacks : HasStacks Kernel.
Proof.
  refine {| words_of k := stacks (sched k); with_words k m := set_sched k (set_stacks (sched k) m) |}.
  - done.
  - done.
  - intros []. by destruct sched.
Defined.

(** An interrupt on processor [cpu], whose task state segment the scheduler keeps;
    [ret_addr] and [scratch] as in [Entry]. *)
Definition trap (cpu : nat) (scancode ret_addr : Z) (scratch : reg -> Z) (vector : Z) : M (Core * Kernel) unit := fun '(c, k) =>
  match rsp0 (sched k) !! cpu with
  | Some top => interrupt (irq_common_handler cpu scancode) ret_addr scratch top vector (c, k)
  | None => Panic
  end.

End Traps.

Section Interrupted.
Context {PA : Type} `{FA : FrameAllocator PA} {T : Type} `{CT : Console T} {D : Type} `{BD : BlockDevice D}.
Abbreviation Kernel := (Kernel PA T D).
Context (cpu : nat) (scancode ret_addr : Z) (scratch : reg -> Z).
Abbreviation trap := (trap cpu scancode ret_addr scratch).

(** Two frames, the second with the word below it that the call uses. *)
Definition apart (f g : Z) : Prop := f + 176 <= g - 8 \/ g + 176 <= f.

Lemma context_at_ext m m' f : (forall i : nat, (i < 22)%nat -> m !! (f + 8 * Z.of_nat i) = m' !! (f + 8 * Z.of_nat i)) ->
  same_core (context_at m f) (context_at m' f).
Proof.
  intros He. assert (forall i, 0 <= i < 22 -> word m (f + 8 * i) = word m' (f + 8 * i)) as Hw.
  { intros i Hi. unfold word. pose proof (He (Z.to_nat i) ltac:(lia)) as H. by rewrite Z2Nat.id, H in * by lia. }
  constructor; cbn [context_at gpr rip cs rflags rsp ss]; [|apply (Hw 17)|apply (Hw 18)|apply (Hw 19)|apply (Hw 20)|apply (Hw 21)]; try lia.
  intros r. apply Hw. by destruct r.
Qed.

(** What the handler finds: the frame of the interrupted context, and every other
    frame as it was. *)
Lemma entered_frame top v c (k : Kernel) : holds (words_of (entered ret_addr top v c k)) (entry_frame top c) (frame_of c v).
Proof.
  unfold entered. rewrite words_with, write_words_cons. intros i w Hi. rewrite lookup_insert_ne by lia.
  replace (entry_frame top c - 8 + 8) with (entry_frame top c) by lia. by apply write_words_in.
Qed.

Lemma entered_other top v c (k : Kernel) f : apart f (entry_frame top c) ->
  same_core (context_at (words_of (entered ret_addr top v c k)) f) (context_at (words_of k) f).
Proof.
  intros Ha. apply context_at_ext. intros i Hi. unfold entered. rewrite words_with. apply write_words_out.
  intros j Hj. assert (length (ret_addr :: frame_of c v) = 23%nat) as El by done. destruct Ha; lia.
Qed.

Lemma frame_vector top v c (k : Kernel) : frame_word W_VECTOR (entry_frame top c) (entered ret_addr top v c k) = v.
Proof.
  change (default 0 (words_of (entered ret_addr top v c k) !! (entry_frame top c + 8 * Z.of_nat 15)) = v).
  by rewrite (entered_frame top v c k 15%nat v eq_refl).
Qed.

(** A handler that returns the frame it is given, with the words it found. *)
Lemma trap_returns v c (k : Kernel) top k2 : rsp0 (sched k) !! cpu = Some top -> 184 <= entry_top top c < 2 ^ 64 ->
  irq_common_handler cpu scancode (entry_frame top c) (entered ret_addr top v c k) = Ret (entry_frame top c, k2) ->
  exists c', trap v (c, k) = Ret (tt, (c', k2)) /\ same_core c' (context_at (words_of k2) (entry_frame top c)).
Proof.
  intros Ht Hr Hh. unfold Trap.trap. rewrite Ht. apply (interrupt_run _ _ _ _ _ _ _ _ _ Hr Hh).
  unfold entry_frame. lia.
Qed.

(** *** Devices *)

(** An interrupt of a device, or a spurious one, cannot be noticed by the program it
    interrupts: whatever its vector other than the timer's and the system call's, and
    in whichever ring, the program goes on with every register as it was. The
    keyboard's interrupt decodes one scan code and makes the tasks that wait for
    input ready; apart from that the kernel is as before. *)
Theorem device_irq_transparent (vector : Z) (c : Core) (k : Kernel) (top : Z)
    (Hs : vector <> SYSCALL_VECTOR) (Ht : vector <> TIMER_VECTOR) (Hkb : kb_ok (kbd k)) (Hsc : 0 <= scancode < 256)
    (Htop : rsp0 (sched k) !! cpu = Some top) (Hroom : 184 <= entry_top top c < 2 ^ 64) :
  exists c' k', trap vector (c, k) = Ret (tt, (c', k')) /\ same_core c' c /\
    vm k' = vm k /\ con k' = con k /\ mount_point k' = mount_point k /\ percpu (sched k') = percpu (sched k) /\
    if bool_decide (vector = KEYBOARD_VECTOR)
    then irq scancode (kbd k) = Ret (kbd k') /\ tasks (sched k') = wake_waiter <$> tasks (sched k)
    else kbd k' = kbd k /\ tasks (sched k') = tasks (sched k).
Proof.
  set (k1 := entered ret_addr top vector c k).
  assert (irq_common_handler cpu scancode (entry_frame top c) k1 =
    if bool_decide (vector = KEYBOARD_VECTOR) then
      match irq scancode (kbd k) with
      | Ret b => Ret (entry_frame top c, set_sched (set_kbd k1 b) (set_tasks (sched k1) (wake_waiter <$> tasks (sched k1))))
      | Panic => Panic
      | OutOfFuel => OutOfFuel
      end else Ret (entry_frame top c, k1)) as Hrun.
  { unfold irq_common_handler. cbn [sbind sget]. unfold k1. rewrite frame_vector. fold k1.
    rewrite !(proj2 (Z.eqb_neq _ _)) by done. destruct (Z.eqb_spec vector KEYBOARD_VECTOR); [rewrite bool_decide_true by done|by rewrite bool_decide_false].
    cbn [sbind sget]. unfold slift. change (kbd k1) with (kbd k). by destruct (irq scancode (kbd k)). }
  assert (forall k2 : Kernel, words_of k2 = words_of k1 -> same_core (context_at (words_of k2) (entry_frame top c)) c) as Hsame.
  { intros k2 ->. eapply context_of_frame, entered_frame. }
  case_bool_decide.
  - destruct (irq_spec _ _ Hkb Hsc) as (b & Hb & _). rewrite Hb in Hrun.
    destruct (trap_returns _ _ _ _ _ Htop Hroom Hrun) as (c' & Hx & Hc').
    exists c'. eexists. split; [exact Hx|]. split; [etrans; [exact Hc'|by apply Hsame]|]. done.
  - destruct (trap_returns _ _ _ _ _ Htop Hroom Hrun) as (c' & Hx & Hc').
    exists c', k1. split; [exact Hx|]. split; [etrans; [exact Hc'|by apply Hsame]|]. done.
Qed.

(** *** The timer *)

Lemma woken_find s g q t : find_task s q = Some t -> exists t', find_task (set_tasks s (g <$> tasks s)) q = Some t' /\
  (t' = g t \/ t' = t).
Proof. destruct q as [i|i]; cbn; intros Hq; [rewrite list_lookup_fmap, Hq|]; eauto. Qed.

Lemma woken_find_inv s g q t' : find_task (set_tasks s (g <$> tasks s)) q = Some t' -> exists t, find_task s q = Some t /\
  (t' = g t \/ t' = t).
Proof. destruct q as [i|i]; cbn; intros Hq; [rewrite list_lookup_fmap in Hq; destruct (tasks s !! i); simplify_eq/=|]; eauto. Qed.

Lemma wake_sleeper_frame now t t' : t' = wake_sleeper now t \/ t' = t -> frame t' = frame t /\ kstack t' = kstack t.
Proof. intros [->| ->]; [|done]. unfold wake_sleeper. by case_match. Qed.

(** The clock, the sleepers, then [schedule]. *)
Lemma timer_handler fr (k : Kernel) (now := if bool_decide (cpu = 0%nat) then wrap 64 (uptime k + 1) else uptime k) r s' :
  frame_word W_VECTOR fr k = TIMER_VECTOR ->
  schedule cpu fr (set_tasks (sched k) (wake_sleeper now <$> tasks (sched k))) = Ret (r, s') ->
  irq_common_handler cpu scancode fr k = Ret (r, set_sched (set_clock k now (wrap 32 (ticks k + 1))) s').
Proof.
  intros Hv Hsch. unfold irq_common_handler. cbn [sbind sget]. rewrite Hv.
  change (TIMER_VECTOR =? SYSCALL_VECTOR) with false. change (TIMER_VECTOR =? TIMER_VECTOR) with true. cbv iota.
  assert (timer_irq cpu k = Ret (tt, set_clock k now (wrap 32 (ticks k + 1)))) as Hti.
  { unfold timer_irq, now. cbn [sbind smodify]. by case_bool_decide. }
  rewrite (sbind_Ret _ _ _ _ _ Hti). cbn [sbind sget]. unfold on_sched, part, wake_sleepers, smodify at 1.
  cbn [sched set_sched set_clock uptime]. fold now.
  unfold sbind. cbn [sched set_sched set_clock]. by rewrite Hsch.
Qed.

(** C9: A tick of the timer. It always returns, to whatever [schedule] chose: the
    interrupted program itself, with every register as it was, or the context saved
    in the frame of another task, with that task's kernel stack in the task state
    segment for its next trap. The interrupted context is saved whole in the frame
    its task now points to, all other saved contexts are as before, and the
    invariant of the scheduler holds. *)
Theorem timer_preempts (c : Core) (k : Kernel) (top : Z) (p : PerCpu)
    (Hs : sched_ok (sched k)) (Hinit : initialized (sched k) = true) (Hset : settled (sched k))
    (Hp : percpu (sched k) !! cpu = Some p) (Htop : rsp0 (sched k) !! cpu = Some top)
    (Hroom : 184 <= entry_top top c < 2 ^ 64)
    (Hapart : forall q t, find_task (sched k) q = Some t -> current p <> Some q ->
      0 <= frame t < 2 ^ 64 - 176 /\ apart (frame t) (entry_frame top c)) :
  exists c' k' n, trap TIMER_VECTOR (c, k) = Ret (tt, (c', k')) /\ sched_ok (sched k') /\
    (exists d, percpu (sched k') !! cpu = Some (mkPerCpu (Some n) d)) /\
    (if bool_decide (current p = Some n) then same_core c' c
     else exists t, find_task (sched k) n = Some t /\ same_core c' (context_at (words_of k) (frame t)) /\
            rsp0 (sched k') !! cpu = Some (kstack t)) /\
    (forall q, current p = Some q -> exists t, find_task (sched k') q = Some t /\ same_core (context_at (words_of k') (frame t)) c) /\
    (forall q t, find_task (sched k) q = Some t -> current p <> Some q -> exists t', find_task (sched k') q = Some t' /\
       same_core (context_at (words_of k') (frame t')) (context_at (words_of k) (frame t))).
Proof.
  set (k1 := entered ret_addr top TIMER_VECTOR c k). set (fr := entry_frame top c).
  set (now := if bool_decide (cpu = 0%nat) then wrap 64 (uptime k1 + 1) else uptime k1).
  set (s1 := set_tasks (sched k1) (wake_sleeper now <$> tasks (sched k1))).
  assert (sched_ok s1) as Hs1.
  { apply wake_ok; [by destruct Hs; constructor|done|]. intros t. unfold wake_sleeper.
    destruct (bool_decide (state t = Blocked)) eqn:E; cbn [andb]; [|by auto]. apply bool_decide_eq_true in E. case_test; auto. }
  destruct (schedule_spec s1 cpu p fr Hs1 Hinit Hp) as (r & s' & n & Hsch & [Hok' [d Hpc] Hfr Hsv Hoth _ _]).
  pose proof (timer_handler fr k1 r s' (frame_vector _ _ _ _) Hsch) as Hh.
  set (k' := set_sched _ s') in Hh.
  assert (words_of k' = words_of k1) as Hw by (change (stacks s' = stacks s1); exact (schedule_stacks _ _ _ _ _ Hsch)).
  assert (same_core (context_at (words_of k1) fr) c) as Hc1 by (eapply context_of_frame, entered_frame).
  assert (0 <= r < 2 ^ 64 - 176) as Hrr.
  { case_bool_decide; [subst r; unfold fr, entry_frame; lia|]. destruct Hfr as (t' & (t & Ht & Hrel)%woken_find_inv & -> & _).
    destruct (wake_sleeper_frame _ _ _ Hrel) as [-> _]. by apply (Hapart n t Ht). }
  destruct (interrupt_run (irq_common_handler cpu scancode) ret_addr scratch top TIMER_VECTOR c k r k' Hroom Hh Hrr) as (c' & Hx & Hc').
  rewrite Hw in Hc'. exists c', k', n. rewrite Hw. split_and!.
  - unfold Trap.trap. by rewrite Htop.
  - exact Hok'.
  - exists d. change (percpu s' !! cpu = Some (mkPerCpu (Some n) d)). rewrite Hpc.
    apply list_lookup_insert_eq. by eapply lookup_lt_Some.
  - case_bool_decide; [subst r; by etrans|]. destruct Hfr as (t' & (t & Ht & Hrel)%woken_find_inv & -> & Hk).
    destruct (wake_sleeper_frame _ _ _ Hrel) as [Ef Ek]. exists t. split; [done|]. rewrite <- Ek. split; [|done].
    rewrite Ef in Hc'. etrans; [exact Hc'|]. by apply entered_other, (Hapart n t Ht).
  - intros q Hq. destruct (Hsv q Hq) as (t & Ht & Ef). exists t. rewrite Ef. split; [exact Ht|exact Hc1].
  - intros q t Ht Hq. destruct (woken_find (sched k1) (wake_sleeper now) q t Ht) as (t1 & Ht1 & Hrel).
    destruct (Hoth q t1 Ht1 Hq) as (t' & Ht' & Ef & _). destruct (wake_sleeper_frame _ _ _ Hrel) as [Ef1 _].
    exists t'. split; [exact Ht'|]. rewrite Ef, Ef1. by apply entered_other, (Hapart q t Ht).
Qed.

(** *** System calls *)

Lemma frame_reg top v c (k : Kernel) r : frame_word (slot r) (entry_frame top c) (entered ret_addr top v c k) = gpr c r.
Proof.
  unfold frame_word. change (stacks (sched (entered ret_addr top v c k))) with (words_of (entered ret_addr top v c k)).
  rewrite <- (Z2Nat.id (slot r)) by apply slot_nonneg. rewrite (entered_frame top v c k _ (gpr c r)); [done|].
  unfold frame_of. rewrite lookup_app_l; [|destruct r; cbn; lia]. by rewrite list_lookup_fmap, popped_slot.
Qed.

(** A result stored in the frame is [rax] when the program goes on. *)
Lemma context_result m f v : same_core (context_at (<[f + 8 * W_RAX := v]> m) f) (set_gpr (context_at m f) RAX v).
Proof.
  assert (forall i, i <> W_RAX -> word (<[f + 8 * W_RAX := v]> m) (f + 8 * i) = word m (f + 8 * i)) as Hw.
  { intros i Hi. unfold word. by rewrite lookup_insert_ne by lia. }
  constructor; cbn [context_at set_gpr gpr rip cs rflags rsp ss];
    [|apply (Hw 17)|apply (Hw 18)|apply (Hw 19)|apply (Hw 20)|apply (Hw 21)]; try done.
  intros r. case_bool_decide as E; [subst r; unfold word; by rewrite lookup_insert_eq|]. apply Hw. by destruct r.
Qed.

(** A call that answers [r] through the frame, and leaves the frame alone before. *)
Lemma syscall_returns c (k : Kernel) top r k1 : rsp0 (sched k) !! cpu = Some top -> 184 <= entry_top top c < 2 ^ 64 ->
  dispatch cpu (entry_frame top c) (entered ret_addr top SYSCALL_VECTOR c k) =
    (_ <- set_rax (entry_frame top c) r ;; sret (entry_frame top c)) k1 ->
  words_of k1 = words_of (entered ret_addr top SYSCALL_VECTOR c k) ->
  exists c', trap SYSCALL_VECTOR (c, k) = Ret (tt, (c', with_words k1 (<[entry_frame top c + 8 * W_RAX := r]> (words_of k1)))) /\
    same_core c' (set_gpr c RAX r).
Proof.
  intros Htop Hroom Hd Hw. set (k0 := entered ret_addr top SYSCALL_VECTOR c k) in *.
  assert (irq_common_handler cpu scancode (entry_frame top c) k0 = dispatch cpu (entry_frame top c) k0) as Hh.
  { unfold irq_common_handler. cbn [sbind sget]. unfold k0. by rewrite frame_vector. }
  rewrite Hd in Hh. destruct (trap_returns _ _ _ _ _ Htop Hroom Hh) as (c' & Hx & Hc').
  exists c'. split; [exact Hx|]. etrans; [exact Hc'|].
  change (words_of _) with (<[entry_frame top c + 8 * W_RAX := r]> (words_of k1)) at 1. etrans; [apply context_result|].
  rewrite Hw. destruct (context_of_frame (words_of k0) (entry_frame top c) c SYSCALL_VECTOR (entered_frame _ _ _ _)) as [Hg ? ? ? ? ?].
  constructor; cbn [set_gpr gpr rip cs rflags rsp ss]; [|done..]. intros q. case_bool_decide; [done|apply Hg].
Qed.

(** C10: [write] as a program sees it: after [int 0x80] with any arguments whatever in its
    registers the program always goes on, with every register as it was but [rax],
    which holds the answer; the console has received exactly the bytes the program
    sees in its buffer, or nothing when the call is refused; memory, tasks and the
    volume are as before. *)
Theorem write_call_correct (c : Core) (k : Kernel) (top h : Z)
    (Hrax : gpr c RAX = SYS_WRITE) (Hbuf : 0 <= gpr c RSI < 2 ^ 64) (Hlen : 0 <= gpr c RDX < 2 ^ 64)
    (Hvm : vmm_ok (vm k) h) (Hcon : con_ok (con k))
    (Htop : rsp0 (sched k) !! cpu = Some top) (Hroom : 184 <= entry_top top c < 2 ^ 64) :
  exists c' k' r, trap SYSCALL_VECTOR (c, k) = Ret (tt, (c', k')) /\ same_core c' (set_gpr c RAX r) /\
    written_out (vm k) (con k) (con k') (gpr c RDI) (gpr c RSI) (gpr c RDX) r /\
    vm k' = vm k /\ mount_point k' = mount_point k /\ tasks (sched k') = tasks (sched k) /\ percpu (sched k') = percpu (sched k).
Proof.
  set (k0 := entered ret_addr top SYSCALL_VECTOR c k).
  destruct (sys_write_run k0 h (gpr c RDI) (gpr c RSI) (gpr c RDX) Hvm Hcon Hbuf Hlen) as (r & t & Hrun & Hw).
  destruct (syscall_returns c k top r (set_con k0 t) Htop Hroom) as (c' & Hx & Hc'); [|done|].
  - fold k0. unfold dispatch. cbn [sbind sget].
    pose proof (frame_reg top SYSCALL_VECTOR c k) as Hreg. fold k0 in Hreg.
    rewrite (Hreg RDI : frame_word W_RDI _ _ = _), (Hreg RSI : frame_word W_RSI _ _ = _),
      (Hreg RDX : frame_word W_RDX _ _ = _), (Hreg RAX : frame_word W_RAX _ _ = _), Hrax.
    change (SYS_WRITE =? SYS_WRITE) with true. cbv iota. by rewrite (sbind_Ret _ _ _ _ _ Hrun).
  - exists c'. eexists. exists r. split; [exact Hx|]. split; [exact Hc'|]. split; [exact Hw|]. split_and!; reflexivity.
Qed.
End Interrupted.

(** The frame of a task that has never run is the context of a program about to
    start: ring 3, at its entry point and on its stack, interrupts on, and nothing of
    the kernel in its registers. *)
Lemma fresh_context m f entry stack :
  holds m f (frame_image SYSCALL_VECTOR entry USER_CODE_SELECTOR stack USER_DATA_SELECTOR) ->
  same_core (context_at m f) (mkCore (fun _ => 0) entry USER_CODE_SELECTOR 0x202 stack USER_DATA_SELECTOR).
Proof. exact (context_of_frame m f (mkCore (fun _ => 0) entry USER_CODE_SELECTOR 0x202 stack USER_DATA_SELECTOR) SYSCALL_VECTOR). Qed.

(** ** Witnesses *)

(** A program in ring 3 that asks for an empty write, on processor 0 of the sample
    scheduler, with two other tasks ready. *)
Definition program : Core :=
  mkCore (fun r => if bool_decide (r = RDI) then 1 else if bool_decide (r = RBX) then 77 else 0) 0x400123 USER_CODE_SELECTOR 0x246 0x7FFFFFF0 USER_DATA_SELECTOR.

Definition trap_kernel : Kernel Pmm Screen RamDisk :=
  mkKernel sample_vmm sample_sched sample_kb small_screen (Some small_fb) None USER_STACK_TOP MMAP_BASE false 1 1.

Lemma program_room : 184 <= entry_top 0x2000 program < 2 ^ 64.
Proof. vm_compute. by split. Qed.

Lemma device_irq_transparent_witness :
  exists c' k', trap 0 0x1E 0 (gpr program) KEYBOARD_VECTOR (program, trap_kernel) = Ret (tt, (c', k')) /\ gpr c' RBX = 77 /\ rip c' = 0x400123.
Proof.
  destruct (device_irq_transparent 0 0x1E 0 (gpr program) KEYBOARD_VECTOR program trap_kernel 0x2000) as (c' & k' & Hx & [Hg Hi _ _ _ _] & _).
  - vm_compute. discriminate.
  - vm_compute. discriminate.
  - exact sample_kb_ok.
  - lia.
  - reflexivity.
  - exact program_room.
  - exists c', k'. split; [exact Hx|]. split; [exact (Hg RBX)|exact Hi].
Defined.

Lemma sample_settled : settled sample_sched.
Proof.
  intros [|[|c]] p i t Hp Hc Ht.
  - injection Hp as <-. injection Hc as <-. injection Ht as <-. discriminate.
  - injection Hp as <-. discriminate Hc.
  - change (replicate 30 EMPTY_PERCPU !! c = Some p) in Hp. apply lookup_replicate in Hp as [-> _]. discriminate Hc.
Qed.

Lemma sample_frames q t : find_task sample_sched q = Some t -> Some (Tsk 0) <> Some q ->
  0 <= frame t < 2 ^ 64 - 176 /\ apart (frame t) (entry_frame 0x2000 program).
Proof.
  assert (entry_frame 0x2000 program = 0x2000 - 176) as -> by reflexivity. unfold apart.
  destruct q as [[|[|[|i]]]|[|[|i]]]; cbn [find_task]; intros Ht Hq.
  - done.
  - injection Ht as <-. cbn. lia.
  - injection Ht as <-. cbn. lia.
  - change (replicate 61 EMPTY_TASK !! i = Some t) in Ht. apply lookup_replicate in Ht as [-> _]. cbn. lia.
  - injection Ht as <-. cbn. lia.
  - injection Ht as <-. cbn. lia.
  - change (replicate 30 EMPTY_TASK !! i = Some t) in Ht. apply lookup_replicate in Ht as [-> _]. cbn. lia.
Qed.

Lemma timer_preempts_witness : exists c' k',
  trap 0 0 0 (gpr program) TIMER_VECTOR (program, trap_kernel) = Ret (tt, (c', k')) /\ sched_ok (sched k') /\
  exists t, find_task (sched k') (Tsk 0) = Some t /\ same_core (context_at (words_of k') (frame t)) program.
Proof.
  destruct (timer_preempts 0 0 0 (gpr program) program trap_kernel 0x2000 (mkPerCpu (Some (Tsk 0)) None) sample_sched_ok eq_refl sample_settled
    eq_refl eq_refl program_room sample_frames) as (c' & k' & n & Hx & Hok & _ & _ & Hsv & _).
  exists c', k'. split; [exact Hx|]. split; [exact Hok|]. exact (Hsv (Tsk 0) eq_refl).
Defined.

Lemma write_call_correct_witness : exists c' k' r,
  trap 0 0 0 (gpr program) SYSCALL_VECTOR (program, trap_kernel) = Ret (tt, (c', k')) /\ same_core c' (set_gpr program RAX r).
Proof.
  destruct (write_call_correct 0 0 0 (gpr program) program trap_kernel 0x2000 HHDM) as (c' & k' & r & Hx & Hc & _).
  - reflexivity.
  - split; vm_compute; [discriminate|reflexivity].
  - split; vm_compute; [discriminate|reflexivity].
  - exact sample_vmm_ok.
  - exists small_fb. exact small_screen_ok.
  - reflexivity.
  - exact program_room.
  - exists c', k', r. split; [exact Hx|exact Hc].
Defined.
