(* ===== verification/Exceptions.v ===== *)
(** * Exceptions ([src/src/exceptions.rs], their stubs in [src/src/asm.rs])

    A fault enters through its gate like an interrupt, but its stub does not save
    registers: the handler reports the fault on the console and halts, for good. The
    handlers never return, so a run of one is given the interrupt requests that reach
    the halted processor, and ends when they do. *)

From S2P Require Import Prelude Io Pmm Vmm Heap Kheap Graphics Terminal Klog Keyboard Scheduler Block Entry Descriptors.
From stdpp Require Import list strings.
From S2P Require Import Ext4 Kernel User Syscall Trap.
#[local] Open Scope Z_scope.

(** [{:#018x}] of a [u64]: [0x] and sixteen digits. *)
Definition hex_lower (d : Z) : Z := if d <? 10 then 0x30 + d else 0x57 + d.
Definition hex18 (value : Z) : list Z :=
  text "0x" ++ ((fun i : nat => hex_lower (Z.land (Z.shiftr value (60 - 4 * Z.of_nat i)) 0xF)) <$> seq 0 16).

Definition nl : list Z := [0x0A].

Section Handlers.
Context {PA : Type} `{FA : FrameAllocator PA} {T : Type} `{CT : Console T} {D : Type} `{BD : BlockDevice D}.
Abbreviation Kernel := (Kernel PA T D).
Abbreviation Machine := (Core * Kernel)%type.

(** The processor and what its interrupts find, as in [trap]; [cr2] and the answer of
    the bootloader about the direct map; the vectors requested while it is halted. *)
Context (cpu : nat) (scancode ret_addr : Z) (scratch : reg -> Z) (cr2 : Z) (hhdm_response : option Z) (requests : list Z).

(** A halted processor takes a request when interrupts are on, and goes on after it. *)
Definition hlt (vector : Z) : M Machine unit := fun '(c, k) =>
  if Z.testbit (rflags c) 9 then trap cpu scancode ret_addr scratch vector (c, k) else Ret (tt, (c, k)).

Fixpoint halt (requests : list Z) : M Machine unit :=
  match requests with
  | [] => sret tt
  | v :: requests => _ <- hlt v ;; halt requests
  end.

Definition kprint (args : list Z) : M Machine unit := fun '(c, k) =>
  match Klog.print args (con k) with
  | Ret (_, t) => Ret (tt, (c, set_con k t))
  | Panic => Panic
  | OutOfFuel => OutOfFuel
  end.

Definition hex (label : string) (value : Z) : M Machine unit := kprint (text label ++ hex18 value ++ nl).

Definition fatal (name : string) : M Machine unit :=
  _ <- kprint (text "EXCEPTION: " ++ text name ++ nl) ;;
  halt requests.

Definition exception_divide_error : M Machine unit := fatal "Divide Error (0)".
Definition exception_debug : M Machine unit := fatal "Debug (1)".
Definition exception_nmi : M Machine unit := fatal "Non-Maskable Interrupt (2)".
Definition exception_breakpoint : M Machine unit := fatal "Breakpoint (3)".
Definition exception_overflow : M Machine unit := fatal "Overflow (4)".
Definition exception_bound_range : M Machine unit := fatal "Bound Range (5)".
Definition exception_invalid_opcode : M Machine unit := fatal "Invalid Opcode (6)".
Definition exception_device_not_available : M Machine unit := fatal "Device Not Available (7)".
Definition exception_double_fault : M Machine unit := fatal "Double Fault (8)".
Definition exception_invalid_tss : M Machine unit := fatal "Invalid TSS (10)".
Definition exception_segment_not_present : M Machine unit := fatal "Segment Not Present (11)".
Definition exception_stack_segment_fault : M Machine unit := fatal "Stack-Segment Fault (12)".
Definition exception_general_protection : M Machine unit := fatal "General Protection Fault (13)".
Definition exception_alignment_check : M Machine unit := fatal "Alignment Check (17)".
Definition exception_machine_check : M Machine unit := fatal "Machine Check (18)".
Definition exception_simd_floating_point : M Machine unit := fatal "SIMD Floating-Point (19)".
Definition exception_control_protection : M Machine unit := fatal "Control Protection (21)".

Definition exception_page_fault (rip error_code : Z) : M Machine unit :=
  _ <- kprint (text "EXCEPTION: Page Fault (14)" ++ nl) ;;
  _ <- hex "CR2: " cr2 ;;
  _ <- hex "RIP: " rip ;;
  _ <- kprint (text "ERR: ") ;;
  _ <- hex "" error_code ;;
  _ <- kprint (text "(bit0=P present, bit1=W write, bit2=U user)" ++ nl) ;;
  let hhdm := match hhdm_response with None => 0 | Some offset => offset end in
  _ <- hex "HHDM: " hhdm ;;
  _ <- (if cr2 =? 0xFFFF900000000000 then
          kprint (text "NOTE: CR2 == KHEAP_START (heap base was not mapped)" ++ nl)
        else sret tt) ;;
  halt requests.

(** The stubs up to the handler; what follows the call is never reached. *)
Definition isr_stub (handler : M Machine unit) : M Machine unit :=
  _ <- exec (irq_common_handler cpu scancode) ret_addr scratch [Cli] ;;
  _ <- push ret_addr ;;
  handler.

Definition isr14_stub : M Machine unit :=
  _ <- exec (irq_common_handler cpu scancode) ret_addr scratch isr14 ;;
  '(c, _) <- sget ;;
  _ <- push ret_addr ;;
  exception_page_fault (gpr c RDI) (gpr c RSI).

Definition isr (vector : Z) : option (M Machine unit) :=
  match vector with
  | 0 => Some (isr_stub exception_divide_error)
  | 1 => Some (isr_stub exception_debug)
  | 2 => Some (isr_stub exception_nmi)
  | 3 => Some (isr_stub exception_breakpoint)
  | 4 => Some (isr_stub exception_overflow)
  | 5 => Some (isr_stub exception_bound_range)
  | 6 => Some (isr_stub exception_invalid_opcode)
  | 7 => Some (isr_stub exception_device_not_available)
  | 8 => Some (isr_stub exception_double_fault)
  | 10 => Some (isr_stub exception_invalid_tss)
  | 11 => Some (isr_stub exception_segment_not_present)
  | 12 => Some (isr_stub exception_stack_segment_fault)
  | 13 => Some (isr_stub exception_general_protection)
  | 14 => Some isr14_stub
  | 17 => Some (isr_stub exception_alignment_check)
  | 18 => Some (isr_stub exception_machine_check)
  | 19 => Some (isr_stub exception_simd_floating_point)
  | 21 => Some (isr_stub exception_control_protection)
  | _ => None
  end.

(** The exceptions for which the processor pushes an error code. *)
Definition pushes_error_code (vector : Z) : bool := bool_decide (vector ∈ [8; 10; 11; 12; 13; 14; 17; 21]).

(** A fault, from its delivery on. *)
Definition exception (vector error_code : Z) : M Machine unit := fun '(c, k) =>
  match rsp0 (sched k) !! cpu, isr vector with
  | Some top, Some stub =>
      (_ <- deliver top (if pushes_error_code vector then Some error_code else None) ;; stub) (c, k)
  | _, _ => Panic
  end.
End Handlers.

(** ** What is reported *)

(** Decimal digits of a number below a hundred. *)
Definition decimal (n : Z) : list Z := (if n <? 10 then [] else [0x30 + n / 10]) ++ [0x30 + n mod 10].

Definition exception_name (vector : Z) : string :=
  match vector with
  | 0 => "Divide Error" | 1 => "Debug" | 2 => "Non-Maskable Interrupt" | 3 => "Breakpoint" | 4 => "Overflow"
  | 5 => "Bound Range" | 6 => "Invalid Opcode" | 7 => "Device Not Available" | 8 => "Double Fault"
  | 10 => "Invalid TSS" | 11 => "Segment Not Present" | 12 => "Stack-Segment Fault"
  | 13 => "General Protection Fault" | 14 => "Page Fault" | 17 => "Alignment Check" | 18 => "Machine Check"
  | 19 => "SIMD Floating-Point" | 21 => "Control Protection" | _ => ""
  end.

(** The line that names the exception, and what a page fault adds. *)
Definition headline (vector : Z) : list Z :=
  text "EXCEPTION: " ++ text (exception_name vector) ++ text " (" ++ decimal vector ++ text ")" ++ nl.

Definition fault_details (cr2 rip error_code hhdm : Z) : list Z :=
  text "CR2: " ++ hex18 cr2 ++ nl ++ text "RIP: " ++ hex18 rip ++ nl ++ text "ERR: " ++ hex18 error_code ++ nl ++
  text "(bit0=P present, bit1=W write, bit2=U user)" ++ nl ++ text "HHDM: " ++ hex18 hhdm ++ nl ++
  (if cr2 =? KHEAP_START then text "NOTE: CR2 == KHEAP_START (heap base was not mapped)" ++ nl else []).

Definition report (vector cr2 rip error_code hhdm : Z) : list Z :=
  headline vector ++ (if vector =? 14 then fault_details cr2 rip error_code hhdm else []).

(** The vectors of the gates that lead to exception stubs. *)
Definition EXCEPTIONS : list Z := take 18 GATES.

(** The number a row of digits stands for. *)
Definition digit_value (d : Z) : Z := if d <? 0x40 then d - 0x30 else d - 0x57.
Definition hex_value (ds : list Z) : Z := fold_left (fun n d => 16 * n + digit_value d) ds 0.

Lemma digit_of_hex d : 0 <= d < 16 -> digit_value (hex_lower d) = d.
Proof. intros Hd. unfold digit_value, hex_lower. destruct (Z.ltb_spec d 10); case_match; lia. Qed.

Lemma hex_digits_value v n : (n <= 16)%nat -> 0 <= v < 2 ^ 64 ->
  hex_value ((fun i : nat => hex_lower (Z.land (Z.shiftr v (60 - 4 * Z.of_nat i)) 0xF)) <$> seq 0 n) = v / 2 ^ (64 - 4 * Z.of_nat n).
Proof.
  intros Hn Hv. unfold hex_value. induction n as [|n IH].
  - cbn. symmetry. apply Z.div_small. lia.
  - rewrite seq_S, fmap_app, fold_left_app, IH by lia. cbn [fmap list_fmap fold_left Nat.add]. change 0xF with (Z.ones 4).
    rewrite Z.land_ones, Z.shiftr_div_pow2 by lia. rewrite digit_of_hex by (apply Z.mod_pos_bound; lia).
    replace (64 - 4 * Z.of_nat n) with (60 - 4 * Z.of_nat n + 4) by lia.
    replace (64 - 4 * Z.of_nat (S n)) with (60 - 4 * Z.of_nat n) by lia.
    rewrite Z.pow_add_r, <- Z.div_div by lia. change (2 ^ 4) with 16. lia.
Qed.

(** The digits printed are those of the number. *)
Lemma hex18_reads v : 0 <= v < 2 ^ 64 -> length (hex18 v) = 18%nat /\ take 2 (hex18 v) = text "0x" /\ hex_value (drop 2 (hex18 v)) = v.
Proof.
  intros Hv. split; [done|]. split; [done|]. unfold hex18. change (text "0x") with [0x30; 0x78]. change (drop 2 ([48; 120] ++ ?x)) with x.
  rewrite (hex_digits_value v 16) by lia. change (64 - 4 * Z.of_nat 16) with 0. by rewrite Z.pow_0_r, Z.div_1_r.
Qed.

Lemma hex18_bytes v : Forall (fun b => 0 <= b < 256) (hex18 v).
Proof.
  apply Forall_app_2; [apply text_bytes|]. apply Forall_fmap, Forall_true. intros i. cbn. unfold hex_lower.
  change 0xF with (Z.ones 4). rewrite Z.land_ones by lia. pose proof (Z.mod_pos_bound (Z.shiftr v (60 - 4 * Z.of_nat i)) (2 ^ 4) ltac:(lia)).
  case_match; lia.
Qed.

Lemma nl_bytes : Forall (fun b => 0 <= b < 256) nl.
Proof. apply Forall_singleton. lia. Qed.

Create HintDb bytes.
#[export] Hint Resolve text_bytes hex18_bytes nl_bytes Forall_app_2 : bytes.

Lemma exception_range vector : vector ∈ EXCEPTIONS -> 0 <= vector < 100.
Proof. unfold EXCEPTIONS, GATES. cbn [take]. intros Hv. repeat (apply elem_of_cons in Hv as [->|Hv]; [lia|]). by apply elem_of_nil in Hv. Qed.

Lemma report_bytes vector cr2 ip e hhdm : vector ∈ EXCEPTIONS -> Forall (fun b => 0 <= b < 256) (report vector cr2 ip e hhdm).
Proof.
  intros Hv%exception_range. assert (Forall (fun b => 0 <= b < 256) (decimal vector)) as Hd.
  { unfold decimal. destruct (vector <? 10); cbn [app]; repeat (apply Forall_cons; split; [lia|]); by apply Forall_nil. }
  apply Forall_app_2; [unfold headline; auto 10 with bytes|]. destruct (vector =? 14); [|by apply Forall_nil].
  unfold fault_details. do 14 (apply Forall_app_2; [auto with bytes|]). destruct (cr2 =? KHEAP_START); [auto with bytes|by apply Forall_nil].
Qed.

(** ** A fault stops the processor *)

Section Stops.
Context {PA : Type} `{FA : FrameAllocator PA} {T : Type} `{CT : Console T} {D : Type} `{BD : BlockDevice D}.
Abbreviation Kernel := (Kernel PA T D).
Context (cpu : nat) (scancode ret_addr : Z) (scratch : reg -> Z) (cr2 : Z) (hhdm_response : option Z).

Lemma kprint_app a b (st : Core * Kernel) : (_ <- kprint a ;; kprint b) st = kprint (a ++ b) st.
Proof.
  destruct st as [c k]. unfold sbind, kprint. rewrite (print_app a b (con k)). unfold sbind.
  destruct (Klog.print a (con k)) as [[[] t]| |]; [|done..]. cbn [con set_con].
  by destruct (Klog.print b t) as [[[] t']| |].
Qed.

Lemma kprint_cons {A} a b (m : M (Core * Kernel) A) st : (_ <- kprint a ;; _ <- kprint b ;; m) st = (_ <- kprint (a ++ b) ;; m) st.
Proof.
  pose proof (kprint_app a b st) as H. unfold sbind in *. destruct (kprint a st) as [[[] st1]| |]; [|by rewrite <- H..].
  by rewrite <- H.
Qed.

(** With interrupts off no request is ever taken. *)
Lemma halt_off requests c (k : Kernel) : Z.testbit (rflags c) 9 = false ->
  halt cpu scancode ret_addr scratch requests (c, k) = Ret (tt, (c, k)).
Proof.
  intros Hif. induction requests as [|v rs IH]; [done|]. cbn [halt]. unfold sbind, hlt. by rewrite Hif.
Qed.

Lemma cli_off fl : Z.testbit (irq_disable fl) 9 = false.
Proof. unfold irq_disable, unot. rewrite Z.land_spec. by rewrite andb_false_r. Qed.

(** A report, then the halt. *)
Lemma report_run bytes c (k : Kernel) : con_ok (con k) -> Forall (fun b => 0 <= b < 256) bytes ->
  Z.testbit (rflags c) 9 = false ->
  exists t, (forall requests, (_ <- kprint bytes ;; halt cpu scancode ret_addr scratch requests) (c, k) = Ret (tt, (c, set_con k t))) /\
    Klog.print bytes (con k) = Ret (tt, t) /\ con_ok t.
Proof.
  intros Hcon Hb Hif. destruct (print_returns bytes (con k) Hcon Hb) as (t & Hrun & Ht). exists t.
  split; [|done]. intros requests. unfold sbind, kprint. rewrite Hrun. by apply halt_off.
Qed.

(** What the processor is left with when the handler of a fault has been called:
    interrupts off, and only the top of the stack of the trap written. *)
Record stopped (top : Z) (c c' : Core) (k k' : Kernel) : Prop := {
  st_if : Z.testbit (rflags c') 9 = false;
  st_words : forall a, ~ entry_top top c - 56 <= a < entry_top top c -> words_of k' !! a = words_of k !! a;
  st_rest : exists t m, k' = set_con (with_words k m) t;
}.

Lemma push_words v c (k : Kernel) m : 8 <= rsp c < 2 ^ 64 ->
  push v (c, with_words k m) = Ret (tt, (set_rsp c (rsp c - 8), with_words k (<[rsp c - 8 := v]> m))).
Proof. intros Hr. unfold push, smodify. rewrite words_with, with_with, wrap_small by lia. done. Qed.

(** The call of a handler that reports [bytes]. *)
Lemma handler_run top c c1 (k : Kernel) m bytes handler :
  (forall a, ~ rsp c1 <= a < entry_top top c -> m !! a = words_of k !! a) -> entry_top top c - 48 <= rsp c1 <= entry_top top c -> 8 <= rsp c1 < 2 ^ 64 ->
  Z.testbit (rflags c1) 9 = false -> con_ok (con k) -> Forall (fun b => 0 <= b < 256) bytes ->
  (forall requests st, handler requests st = (_ <- kprint bytes ;; halt cpu scancode ret_addr scratch requests) st) ->
  exists k', (forall requests, (_ <- push ret_addr ;; handler requests) (c1, with_words k m) = Ret (tt, (set_rsp c1 (rsp c1 - 8), k'))) /\
    stopped top c (set_rsp c1 (rsp c1 - 8)) k k' /\ Klog.print bytes (con k) = Ret (tt, con k') /\ con_ok (con k').
Proof.
  intros Hm Hsp Hr Hif Hcon Hb Hh. set (k1 := with_words k (<[rsp c1 - 8 := ret_addr]> m)).
  destruct (report_run bytes (set_rsp c1 (rsp c1 - 8)) k1 Hcon Hb Hif) as (t & Hrun & Hp & Ht).
  exists (set_con k1 t). split.
  { intros requests. rewrite (sbind_Ret _ _ _ _ _ (push_words ret_addr c1 k m Hr)), Hh. apply Hrun. }
  split; [|done]. split; [done| |by exists t, (<[rsp c1 - 8 := ret_addr]> m)].
  intros a Ha. change (words_of (set_con k1 t)) with (words_of k1). unfold k1. rewrite words_with, lookup_insert_ne by lia.
  apply Hm. lia.
Qed.

Lemma isr_stub_run top ec c (k : Kernel) bytes handler : 64 <= entry_top top c < 2 ^ 64 -> con_ok (con k) ->
  Forall (fun b => 0 <= b < 256) bytes ->
  (forall requests st, handler requests st = (_ <- kprint bytes ;; halt cpu scancode ret_addr scratch requests) st) ->
  exists c' k', (forall requests, (_ <- deliver top ec ;; isr_stub cpu scancode ret_addr scratch (handler requests)) (c, k) = Ret (tt, (c', k'))) /\
    stopped top c c' k k' /\ Klog.print bytes (con k) = Ret (tt, con k') /\ con_ok (con k').
Proof.
  intros Ht Hcon Hb Hh. destruct (deliver_run (irq_common_handler cpu scancode) top c k ec ltac:(lia)) as (fl & ss' & Hd).
  set (sp := entry_top top c - _) in Hd. set (ws := _ ++ _) in Hd, sp. set (m := write_words _ _ _) in Hd.
  assert (5 <= Z.of_nat (length ws) <= 6) as Hl by (unfold ws; destruct ec; cbn; lia).
  set (c0 := mkCore (gpr c) (rip c) KERNEL_CODE_SELECTOR fl sp ss') in Hd.
  destruct (handler_run top c (set_rflags c0 (irq_disable fl)) k m bytes handler) as (k' & Hrun & Hst & Hp);
    cbn [set_rflags rsp rflags c0]; try done; try (unfold sp; lia); [|apply cli_off|].
  - intros a Ha. apply write_words_out. intros j Hj E. apply Ha. unfold sp. lia.
  - eexists _, k'. split; [|split; [exact Hst|exact Hp]]. intros requests. rewrite (sbind_Ret _ _ _ _ _ Hd). unfold isr_stub.
    rewrite (sbind_Ret _ _ _ tt (set_rflags c0 (irq_disable fl), with_words k m)) by reflexivity. apply Hrun.
Qed.

(** *** The page fault *)

Lemma page_headline : headline 14 = text "EXCEPTION: Page Fault (14)" ++ nl.
Proof. reflexivity. Qed.

Lemma page_fault_report requests ip e (st : Core * Kernel) :
  exception_page_fault cpu scancode ret_addr scratch cr2 hhdm_response requests ip e st =
  (_ <- kprint (report 14 cr2 ip e (default 0 hhdm_response)) ;; halt cpu scancode ret_addr scratch requests) st.
Proof.
  unfold exception_page_fault, hex. rewrite !kprint_cons. cbv zeta.
  unfold report, fault_details. rewrite page_headline. change (14 =? 14) with true. change KHEAP_START with 0xFFFF900000000000.
  change (match hhdm_response with Some offset => offset | None => 0 end) with (default 0 hhdm_response).
  change (text "" ++ ?x) with x. destruct (cr2 =? 0xFFFF900000000000).
  - rewrite kprint_cons. by rewrite <- !app_assoc.
  - rewrite <- !app_assoc, app_nil_r. reflexivity.
Qed.

Lemma isr14_run top e c (k : Kernel) : 64 <= entry_top top c < 2 ^ 64 -> con_ok (con k) ->
  exists c' k', (forall requests, (_ <- deliver top (Some e) ;; isr14_stub cpu scancode ret_addr scratch cr2 hhdm_response requests) (c, k) =
      Ret (tt, (c', k'))) /\
    stopped top c c' k k' /\ Klog.print (report 14 cr2 (rip c) e (default 0 hhdm_response)) (con k) = Ret (tt, con k') /\ con_ok (con k').
Proof.
  intros Ht Hcon. destruct (deliver_run (irq_common_handler cpu scancode) top c k (Some e) ltac:(lia)) as (fl & ss' & Hd).
  cbn [app length] in Hd. set (sp := entry_top top c - _) in Hd. assert (sp = entry_top top c - 48) as Hsp by (unfold sp; lia).
  set (m := write_words _ _ _) in *. pose proof (write_words_holds (words_of k) sp [e; rip c; cs c; rflags c; rsp c; ss c]) as Hh. fold m in Hh.
  pose proof (Hh 0%nat _ eq_refl) as H0. pose proof (Hh 1%nat _ eq_refl) as H1. change (8 * Z.of_nat 0) with 0 in H0. change (8 * Z.of_nat 1) with 8 in H1.
  set (c0 := mkCore (gpr c) (rip c) KERNEL_CODE_SELECTOR fl sp ss').
  set (c1 := set_gpr (set_gpr (set_rflags c0 (irq_disable fl)) RDI (rip c)) RSI e).
  assert (exec (irq_common_handler cpu scancode) ret_addr scratch isr14 (c0, with_words k m) = Ret (tt, (c1, with_words k m))) as Hx.
  { unfold isr14, exec, step, on_core, smodify. cbn [sbind sget sret]. rewrite !words_with.
    cbn [set_gpr set_rflags gpr rip cs rflags rsp ss c0]. rewrite !wrap_small by lia. unfold word. rewrite H0, H1. done. }
  destruct (handler_run top c c1 k m (report 14 cr2 (rip c) e (default 0 hhdm_response))
    (fun requests => exception_page_fault cpu scancode ret_addr scratch cr2 hhdm_response requests (rip c) e)) as (k' & Hrun & Hst & Hp); try done.
  - intros a Ha. apply write_words_out. intros j Hj E. apply Ha. cbn [c1 set_gpr set_rflags rsp c0]. cbn [length] in Hj. lia.
  - cbn [c1 set_gpr set_rflags rsp c0]. lia.
  - cbn [c1 set_gpr set_rflags rsp c0]. lia.
  - apply cli_off.
  - apply report_bytes. by apply (bool_decide_unpack (14 ∈ EXCEPTIONS)).
  - intros requests st. apply page_fault_report.
  - eexists _, k'. split; [|split; [exact Hst|exact Hp]]. intros requests. rewrite (sbind_Ret _ _ _ _ _ Hd). unfold isr14_stub.
    rewrite (sbind_Ret _ _ _ _ _ Hx). apply Hrun.
Qed.

(** The conclusion for one vector. *)
Definition stops (vector error_code : Z) (c : Core) (k : Kernel) (top : Z) : Prop :=
  exists c' k', (forall requests,
      exception cpu scancode ret_addr scratch cr2 hhdm_response requests vector error_code (c, k) = Ret (tt, (c', k'))) /\
    stopped top c c' k k' /\
    Klog.print (report vector cr2 (rip c) error_code (default 0 hhdm_response)) (con k) = Ret (tt, con k') /\ con_ok (con k').

Lemma fatal_stops vector name error_code c k top : vector ∈ EXCEPTIONS -> con_ok (con k) -> rsp0 (sched k) !! cpu = Some top ->
  64 <= entry_top top c < 2 ^ 64 ->
  (forall requests, isr (PA := PA) (T := T) (D := D) cpu scancode ret_addr scratch cr2 hhdm_response requests vector =
     Some (isr_stub cpu scancode ret_addr scratch (fatal cpu scancode ret_addr scratch requests name))) ->
  report vector cr2 (rip c) error_code (default 0 hhdm_response) = text "EXCEPTION: " ++ text name ++ nl ->
  stops vector error_code c k top.
Proof.
  intros Hv Hcon Htop Hroom Hisr Hrep.
  pose proof (report_bytes vector cr2 (rip c) error_code (default 0 hhdm_response) Hv) as Hb. unfold stops. rewrite Hrep in *.
  destruct (isr_stub_run top (if pushes_error_code vector then Some error_code else None) c k
    (text "EXCEPTION: " ++ text name ++ nl) (fun requests => fatal cpu scancode ret_addr scratch requests name) Hroom Hcon Hb
    (fun _ _ => eq_refl)) as (c' & k' & Hrun & Hrest).
  exists c', k'. split; [|exact Hrest]. intros requests. unfold exception. rewrite Htop, Hisr. apply Hrun.
Qed.

(** C16: A fault stops the processor. For each of the eighteen exceptions that have a gate,
    from ring 3 or from the kernel and with any error code, the stub finds its handler,
    and the handler prints exactly one report: the name and the number of the exception,
    and for a page fault the address, the instruction and the error code the processor
    supplied, in hexadecimal. Then interrupts are off for good: whatever is requested of
    the processor afterwards, it stays in this state. Nothing else of the kernel has
    changed but at most seven words of the stack of the trap. *)
Theorem exception_stops (vector error_code : Z) (c : Core) (k : Kernel) (top : Z)
    (Hv : vector ∈ EXCEPTIONS) (Hcon : con_ok (con k)) (Htop : rsp0 (sched k) !! cpu = Some top)
    (Hroom : 64 <= entry_top top c < 2 ^ 64) :
  exists c' k', (forall requests,
      exception cpu scancode ret_addr scratch cr2 hhdm_response requests vector error_code (c, k) = Ret (tt, (c', k'))) /\
    stopped top c c' k k' /\
    Klog.print (report vector cr2 (rip c) error_code (default 0 hhdm_response)) (con k) = Ret (tt, con k') /\ con_ok (con k').
Proof.
  fold (stops vector error_code c k top). pose proof Hv as Hin. unfold EXCEPTIONS, GATES in Hin. cbn [take] in Hin.
  repeat (apply elem_of_cons in Hin as [E|Hin]; [subst vector|]).
  - by apply (fatal_stops 0 "Divide Error (0)").
  - by apply (fatal_stops 1 "Debug (1)").
  - by apply (fatal_stops 2 "Non-Maskable Interrupt (2)").
  - by apply (fatal_stops 3 "Breakpoint (3)").
  - by apply (fatal_stops 4 "Overflow (4)").
  - by apply (fatal_stops 5 "Bound Range (5)").
  - by apply (fatal_stops 6 "Invalid Opcode (6)").
  - by apply (fatal_stops 7 "Device Not Available (7)").
  - by apply (fatal_stops 8 "Double Fault (8)").
  - by apply (fatal_stops 10 "Invalid TSS (10)").
  - by apply (fatal_stops 11 "Segment Not Present (11)").
  - by apply (fatal_stops 12 "Stack-Segment Fault (12)").
  - by apply (fatal_stops 13 "General Protection Fault (13)").
  - destruct (isr14_run top error_code c k Hroom Hcon) as (c' & k' & Hrun & Hrest). exists c', k'. split; [|exact Hrest].
    intros requests. unfold exception. rewrite Htop. exact (Hrun requests).
  - by apply (fatal_stops 17 "Alignment Check (17)").
  - by apply (fatal_stops 18 "Machine Check (18)").
  - by apply (fatal_stops 19 "SIMD Floating-Point (19)").
  - by apply (fatal_stops 21 "Control Protection (21)").
  - by apply elem_of_nil in Hin.
Qed.
End Stops.

(** ** The call of a handler *)

(** The calling convention wants the stack aligned to 16 bytes at a call. It is for the
    exceptions with an error code, and eight bytes off for the others. *)
Lemma handler_alignment {PA : Type} `{FA : FrameAllocator PA} {T : Type} `{CT : Console T} {D : Type} `{BD : BlockDevice D}
    (top vector e : Z) (c : Core) (k : Kernel PA T D) : 64 <= entry_top top c < 2 ^ 64 ->
  exists c' k', deliver top (if pushes_error_code vector then Some e else None) (c, k) = Ret (tt, (c', k')) /\
    rsp c' mod 16 = if pushes_error_code vector then 0 else 8.
Proof.
  intros Ht. edestruct (deliver_run (fun _ => sret 0) top c k) as (fl & ss' & Hd); [lia|].
  eexists _, _. split; [exact Hd|]. cbn [rsp]. unfold entry_top. destruct (pushes_error_code vector); cbn [app length]; lia.
Qed.

(** ** Witness *)

(** A ring-3 program that divides by zero stops processor 0. *)
Lemma exception_stops_witness : exists c' k', (forall requests,
    exception 0 0 0 (gpr program) 0 None requests 0 0 (program, trap_kernel) = Ret (tt, (c', k'))) /\
  Klog.print (headline 0 ++ []) (con trap_kernel) = Ret (tt, con k').
Proof.
  destruct (exception_stops 0 0 0 (gpr program) 0 None 0 0 program trap_kernel 0x2000) as (c' & k' & Hrun & _ & Hp & _).
  - apply list_elem_of_here.
  - exists small_fb. exact small_screen_ok.
  - reflexivity.
  - split; vm_compute; [discriminate|reflexivity].
  - exists c', k'. split; [exact Hrun|exact Hp].
Defined.
